(* ===== verification/_CoqProject ===== *)
-Q . S2P
Prelude.v
CString.v
AtTok.v
AtReader.v
AtFrame.v
AtChannel.v
AtThreads.v
RilInfo.v
RilBase.v
RilLogic.v
RilReader.v
RilSim.v
RilUtils.v
RilAuto.v
RilRqst.v
RilCalls.v
RilData.v
RilTimer.v
Ril.v
RilMain.v
RilKeeps.v
RilState.v
RilActivate.v
RilSpec.v
RilLeaks.v
RilSession.v
RilModem.v
RilNetwork.v
RilStartup.v
RilOta.v
RilPpp.v
RilOverflow.v
RilCommands.v
RilSms.v
RilThread.v
CDouble.v
CDoubleFacts.v
Nmea.v
NmeaCoord.v
GpsDev.v
GpsState.v
GpsThreads.v
GpsProtocol.v
GpsSpec.v
GpsFix.v
GpsSats.v
