(* ===== verification/Prelude.v ===== *)
(** * A verification library for the Fusion Wireless FW100 Android driver

    ** The program

    The repository holds the Android radio interface layer (RIL) of the FW100
    EVDO modem, src/fwril-100, and a GPS library, src/gps/freerunner.  The RIL
    talks AT commands to the modem over a serial port.  Its parts:
    - at_tok.c: the tokenizer of AT response lines;
    - atchannel.c: the AT channel.  A reader thread cuts the bytes of the port
      into lines and sorts them into answers to the pending command and
      unsolicited lines; command threads write a command and wait for its final
      response, on a mutex and a condition variable shared with the reader;
    - rilinfo.c: a table of the requests with names and product profiles;
    - fw100-ril.c and fw100-ril-rqst.c, -data.c, -utils.c, -timer.c, -gps.c: the
      driver.  [onRequest] dispatches the requests of the RIL library to
      handlers, each of which sends AT commands, parses the responses and
      answers its request; [onUnsolicited] runs on the reader thread; a main
      loop opens the port, polls the modem and opens the port again after a
      close.  They share the session context [fw100SessionCtx_t];
    - gps_freerunner.c: the GPS library.  A thread reads bytes from the receiver
      and parses its NMEA sentences into a fix and a satellite list; during a
      session a timer thread reports them through callbacks; the client starts
      and stops sessions by commands over a socket pair.  It is independent of
      the RIL.

    ** The files of the development

    - Prelude: this text, machine integers, tactics, lists.
    - CString: C strings and char arrays, with the library functions the driver
      calls on them (strtol, strsep, strstr, strncpy, ...).
    - AtTok: at_tok.c.  A cursor is an [option string], NULL or what is left of
      the line; a function returns its result code, what it stores through its
      out parameter (if it stores), and the cursor.
    - AtReader: [readline], [findNextEOL], [writeline] and [writeCtrlZ] of
      atchannel.c.  The input buffer is a memory of MAX_AT_RESPONSE + 1 bytes, a
      parameter of the section, and an access outside it is [None]; [read] and
      [write] are lists of outcomes.
    - AtFrame: the bytes of lines that a modem ends with line terminators, and
      the prompt; what the reader makes of them.
    - AtChannel: the rest of atchannel.c for one command thread: [Chan] is the
      static state of the file, [processLine] and [readerLoop] the reader,
      [at_send_command...] the commands, with the events that happen while they
      wait as an explicit list.  At its end the interface the driver is written
      against: class [AtPort] with the promises [AtPortOk], and the channel as
      an instance of both.
    - AtThreads: several command threads, the reader, timeouts and close as a
      transition system whose steps are the critical sections; deadlines.
    - RilInfo: rilinfo.c, and the request codes as a class [RilCodes] (ril.h is
      not in the repository).
    - RilBase: the data of ril.h, the session context, allocated blocks and
      pointers, the platform (class [Platform]: system calls, properties,
      files, network interface), outputs, and the monad [M] of the handlers: a
      computation finishes, takes the error exit of its function, runs into
      undefined behaviour, or never returns.
    - RilLogic: well-formed worlds and the weakest-precondition style logic
      [wps] over live blocks and answers; RilAuto: its automation.
    - RilReader: what runs on the reader thread, the radio state, and sending.
    - RilUtils, RilRqst, RilData, RilTimer, Ril: the driver, a file each for
      fw100-ril-utils.c, -rqst.c, -data.c, -timer.c and fw100-ril.c, one
      definition per C function and by its name, the statements in their order.
    - RilCalls: the +CLCC lines as the modem prints them.
    - RilSim: a concrete platform and world, on which the examples run.
    - RilMain: mainLoop, from the attempts to open the port, with the operations
      done on a device, to the end of a session; [RIL_Init], which starts it and
      waits until the port is open.
    - RilKeeps: relations that everything the driver does keeps: class [Stable]
      lists the elementary changes a relation must allow, the lemmas [..._keeps]
      carry it through every handler.
    - RilState: the events of the driver, with a request going through the table
      [myRILDriverCallbacks] that [RIL_Init] returns, and the radio state machine
      over them; RilActivate: the number of activation calls over them.
    - RilSpec: what [onRequest] promises, and the requests that break it;
      RilOverflow: the properties that overrun its arrays.
    - RilLeaks: how often the defective but defined requests answer, and the
      blocks they lose.
    - RilSession: requests followed through the real channel with a modem whose
      replies are known; RilModem: the same for the registration requests and
      the polls of the main loop; RilNetwork: for the operator and the
      subscriber; RilStartup: for the beginning of a session; RilOta: for the
      activation of a module, with the messages that arrive during its sleeps;
      RilPpp: for data calls, with the interface and the processes; RilSms: for
      a short message; RilCommands: for the requests that are one command, with
      the table of these commands.
    - RilThread: the reader thread composed, [readline], [readerLoop] and
      [onUnsolicited], and the notices of a modem.
    - CDouble: C doubles as IEEE 754 numbers of the Standard Library's
      SpecFloat, conversions, and strtod.  CDoubleFacts: their values as real
      numbers, with the error of each operation.
    - Nmea: the first half of gps_freerunner.c: tokenizer, numbers, mkgmtime,
      the updates of the fix and the sentences, with the calendar and the
      fields of a line as their references.  The header gps.h is the class
      [GpsHeader].  NmeaCoord: coordinates as they are printed and as they are
      stored.
    - GpsDev: the commands sent to the receiver.
    - GpsState: [GpsState], the parsing of bytes, the reading thread, the timer
      thread and the client as one transition system [gstep].
      The client goes through the table of [gps_get_hardware_interface].
    - GpsThreads: safety of its interleavings; GpsProtocol: their refinement of
      an abstract machine of engine and session.
    - GpsSpec: lines and sentences, the bound of the satellite list.  GpsFix: a
      fix from the bytes of a sentence.  GpsSats: the satellites from the bytes
      of a group of sentences.

    ** What is shown

    - Tokenizer: round trips with a printer of response lines, quoting,
      termination of the token loop (AtTok).
    - Serial port: the lines returned are those of the stream for every way
      [read] cuts it, every access to the buffer is inside it but for a prompt
      that ends at its last byte, writes are complete and in order (AtReader).
    - Commands: a command gets exactly its lines, the others go to the
      unsolicited handler; the SMS dialogue; the handshake; the contract
      [at_contract] for every sequence of events (AtChannel).  The sequential
      description is an execution of the threads; without overlapping commands
      no interleaving is undefined and what each thread gets back fits the
      command it sent; two overlapping ones are undefined (AtThreads).
    - Driver: every request but a list of defective ones is answered exactly
      once, frees its memory and has no undefined behaviour, for any port that
      keeps the contract (RilSpec, against [AtPortOk]) and data that fits the
      driver's buffers ([within_buffers]; what longer data does is
      [send_sms_overflow] and RilOverflow), and most of the others only lose
      memory, answering exactly as often as RilLeaks says; the transitions of the radio state
      (RilState) and the bound on the activation calls (RilActivate) for every
      sequence of events; answers, polls, start-up, activation, data calls,
      messages and plain commands end to end, from bytes to RIL structures,
      files and processes (RilSession, RilModem, RilNetwork, RilCalls,
      RilStartup, RilOta, RilPpp, RilSms, RilCommands); the notices of the modem
      from the bytes of the port to the RIL library (RilThread); what the
      options do, when [RIL_Init] returns, and that the main loop opens its port
      without leaving another open, sets it to raw mode and synchronises with
      the modem (RilMain).
    - GPS: the tokens are the fields of the sentence, mkgmtime is the calendar
      (Nmea); bytes become sentences once and whole, the satellite list is
      overrun exactly when more is announced than it holds (GpsSpec); an RMC
      sentence gives the time printed in it and its position within [10^-11]
      degrees (GpsFix, NmeaCoord), a group of GSV sentences the satellites
      printed in it (GpsSats); no interleaving of the three threads is
      undefined for a client that cleans up outside a session, on a system that
      creates the socket pair and the thread (GpsThreads), and what it observes
      is a run of the abstract machine (GpsProtocol).
    - Defects are stated as theorems about the same definitions: double answers,
      buffer overruns, a dangling pointer, a stale line, a lost command, a
      timer thread that survives the clean-up, a join of a thread that does not
      exist.

    ** What is assumed

    - The platform ([Platform], [PlatformOk]) returns properties shorter than
      PROPERTY_VALUE_MAX and status files of processes with two words at least,
      and only callbacks of the driver run while it sleeps; ril.h, gps.h, termios.h and the messages of the C library are the classes
      [RilConsts], [RilCodes], [GpsHeader], [TermiosBits] and [Messages].
    - [at_send_contract] and what is built on it: no second thread sends a
      command meanwhile.  [careful] (GpsThreads): the discipline of the client,
      and a system that creates what it is asked for.  [within_buffers]
      (RilSpec): the data fits the arrays of the driver.  Each of these is
      accompanied by the theorem of what happens without it.

    ** Bounds and fuel

    [readline] takes one unit of fuel per [read]; the theorems ask for more than
    the number of reads (the measure [isize]).  [tty_fuel] is the number of
    write outcomes plus the bytes to write, and is shown to be enough.
    [hex_digits] has the 8 digits of a 32 bit number.  [tokenizer_loop] takes one
    unit per token, at most the bytes of the line ([tokenizer_loop_spec]);
    [gps_dev_send] one per write ([gps_dev_send_ok]).  The loops of the main
    thread run over the attempts and the rounds they are given.  Every other
    recursion is structural, retry counters included.

    ** What is not modelled

    - The Java classes, scripts and binaries.
    - epoll and the creation of threads other than as outcomes; the termios
      settings of the GPS device.
    - The GPS threads read the flags [init] and [fix_freq] and the callbacks
      without the semaphore; each such access is taken to be atomic.
    - Log output, and with it the argument strings that are only logged.
    - Allocation failure.  Code that is compiled out
      (OMAP_CSMI_POWER_CONTROL, #if 0) or that is never called ([waitForClose]).
      What follows the first return of getSIMStatus is never reached; it is
      modelled apart, as [query_cpin].
    - The registration of the callbacks for timeout and close
      ([at_set_on_timeout], [at_set_on_reader_closed]): the main loop registers
      both before it opens the port, so the events of the channel name them.
    - Callbacks of the reader thread that arrive while a handler waits for a
      command run, in the driver's model, between the command's last event and
      its return; AtThreads has the finer interleaving for the channel. *)

From Stdlib Require Export ZArith Lia Ascii String.
From stdpp Require Export base option list list_numbers numbers sets strings pretty.

#[export] Set Default Goal Selector "!".

(** ** Notations of the development *)

Declare Scope fw_scope.
Delimit Scope fw_scope with fw.

(** A NUL byte, the terminator of a C string. *)
Definition NUL : ascii := "000"%char.
Definition CR : ascii := "013"%char.
Definition LF : ascii := "010"%char.
Definition DQUOTE : ascii := "034"%char.
Definition CTRL_Z : ascii := "026"%char.

(** ** Machine integers

    The driver is built for ILP32 targets (ARM and x86 Android), so [int] and
    [long] are both 32 bits wide.  Values are kept in [Z]; [int32] is the
    conversion to a signed 32 bit integer, [uint32] to an unsigned one. *)

Definition INT_MIN : Z := -2147483648.
Definition INT_MAX : Z := 2147483647.
Definition UINT_MAX : Z := 4294967295.

Definition uint32 (z : Z) : Z := (z `mod` 4294967296)%Z.
Definition int32 (z : Z) : Z :=
  ((z + 2147483648) `mod` 4294967296 - 2147483648)%Z.
Definition is_int32 (z : Z) : Prop := (INT_MIN ≤ z ≤ INT_MAX)%Z.

(** Saturation, what [strtol] and [strtoul] do out of range. *)
Definition clamp (lo hi z : Z) : Z := Z.max lo (Z.min hi z).

Lemma int32_range z : is_int32 (int32 z).
Proof.
  unfold is_int32, int32, INT_MIN, INT_MAX.
  pose proof (Z.mod_pos_bound (z + 2147483648) 4294967296). lia.
Qed.

Lemma int32_id z : is_int32 z → int32 z = z.
Proof.
  unfold is_int32, int32, INT_MIN, INT_MAX; intros.
  rewrite Z.mod_small; lia.
Qed.

Lemma int32_idemp z : int32 (int32 z) = int32 z.
Proof. apply int32_id, int32_range. Qed.

Lemma clamp_range lo hi z : (lo ≤ hi)%Z → (lo ≤ clamp lo hi z ≤ hi)%Z.
Proof. unfold clamp; lia. Qed.

Lemma clamp_id lo hi z : (lo ≤ z ≤ hi)%Z → clamp lo hi z = z.
Proof. unfold clamp; lia. Qed.

(** Concatenation of strings computes in the proofs. *)
#[global] Arguments String.append !_ _ / : simpl nomatch.

(** ** Tactics *)

(** Split every conjunction and existential of the context, one at a time. *)
Ltac split_hyps :=
  repeat match goal with
  | H : _ ∧ _ |- _ => destruct H
  | H : ∃ _, _ |- _ => destruct H
  | p : (_ * _)%type |- _ => destruct p
  end.

(** Case analysis on the scrutinee of a [match] or [if] in the goal. *)
Ltac case_goal :=
  match goal with
  | |- context [match ?x with _ => _ end] =>
      lazymatch x with
      | context [match _ with _ => _ end] => fail
      | _ => destruct x eqn:?
      end
  end.

(** The function at the head of an application. *)
Ltac head_of t := lazymatch t with ?f _ => head_of f | _ => t end.

(** Membership in a literal list, as a goal and as a hypothesis. *)
Ltac in_list := solve [rewrite !elem_of_cons; tauto].
Ltac cases_in H := rewrite !elem_of_cons, elem_of_nil in H; repeat destruct H as [H|H]; [..|destruct H].

(** Case analysis in a hypothesis. *)
Ltac case_hyp H :=
  match type of H with
  | context [match ?x with _ => _ end] =>
      lazymatch x with
      | context [match _ with _ => _ end] => fail
      | _ => destruct x eqn:?
      end
  end.

(** ** Hint databases

    [fw] collects the resolution lemmas of the components, [fwsimp] their
    rewriting equations. *)
Create HintDb fw discriminated.
Create Rewrite HintDb fwsimp.
#[export] Hint Resolve int32_range : fw.
#[export] Hint Rewrite int32_idemp : fwsimp.

(** ** Lists *)

Lemma Forall_bool {A} (p : A → bool) (l : list A) :
  forallb p l = true ↔ Forall (λ x, p x = true) l.
Proof. rewrite forallb_forall, List.Forall_forall. done. Qed.

(** The longest prefix whose elements satisfy [p], and what follows it: the
    two halves of every [while] pointer scan of the sources. *)
Section span.
Context {A : Type} (p : A → bool).

Fixpoint take_while (l : list A) : list A :=
  match l with
  | [] => []
  | x :: l' => if p x then x :: take_while l' else []
  end.

Fixpoint drop_while (l : list A) : list A :=
  match l with
  | [] => []
  | x :: l' => if p x then drop_while l' else l
  end.

Lemma take_drop_while l : take_while l ++ drop_while l = l.
Proof. induction l as [|x l IH]; simpl; [done|]. destruct (p x); simpl; congruence. Qed.

Lemma take_while_all l : Forall (λ x, p x = true) (take_while l).
Proof. induction l as [|x l IH]; simpl; [constructor|]. destruct (p x) eqn:?; auto. Qed.

Lemma drop_while_head l x l' : drop_while l = x :: l' → p x = false.
Proof.
  induction l as [|y l IH]; simpl; [done|]. destruct (p y) eqn:E; [done|].
  intros [= -> ->]. done.
Qed.

Lemma drop_while_app_all l1 l2 :
  Forall (λ x, p x = true) l1 → drop_while (l1 ++ l2) = drop_while l2.
Proof. induction 1 as [|x l Hx _ IH]; simpl; [done|]. by rewrite Hx. Qed.

Lemma take_while_app_all l1 l2 :
  Forall (λ x, p x = true) l1 → take_while (l1 ++ l2) = l1 ++ take_while l2.
Proof. induction 1 as [|x l Hx _ IH]; simpl; [done|]. rewrite Hx. congruence. Qed.

Lemma drop_while_length l : length (drop_while l) ≤ length l.
Proof. induction l as [|x l IH]; simpl; [lia|]. destruct (p x); simpl; lia. Qed.

Lemma drop_while_skip l : drop_while l = drop (length (take_while l)) l.
Proof. induction l as [|x l IH]; simpl; [done|]. by destruct (p x). Qed.

Lemma take_while_take l : take_while l = take (length (take_while l)) l.
Proof. induction l as [|x l IH]; simpl; [done|]. destruct (p x); simpl; congruence. Qed.

Lemma take_while_length l : length (take_while l) ≤ length l.
Proof. induction l as [|x l IH]; simpl; [lia|]. destruct (p x); simpl; lia. Qed.

Lemma take_while_stop l x : p x = false → take_while (x :: l) = [].
Proof. simpl. by intros ->. Qed.
End span.
