(* ===== verification/CString.v ===== *)
(** * C strings: the C library functions the driver calls, and misc.c

    A NUL-terminated [char *] is a [string] holding the bytes before the
    terminator; a pointer into it is the suffix it points at, so reading the
    byte under the cursor of [EmptyString] is reading the terminator.  A
    pointer that may be NULL is an [option string].  A [char] array of fixed
    size is the list of all its bytes ([carray]), because [strncpy] may leave
    it without a terminator. *)

From S2P Require Import Prelude.

Open Scope Z_scope.

(** ** Character classes (ctype.h, C locale) *)

Definition is_space (c : ascii) : bool :=
  match c with
  | "009" | "010" | "011" | "012" | "013" | " " => true
  | _ => false
  end%char.

Definition code (c : ascii) : Z := Z.of_N (N_of_ascii c).

Definition isdigit (c : ascii) : bool := (48 <=? code c) && (code c <=? 57).

Definition toupper (c : ascii) : ascii :=
  if (97 <=? code c) && (code c <=? 122)
  then ascii_of_N (Z.to_N (code c - 32)) else c.

(** Value of a digit in bases up to 36. *)
Definition digit_of (c : ascii) : Z :=
  let n := code c in
  if isdigit c then n - 48
  else if (97 <=? n) && (n <=? 122) then n - 87
  else if (65 <=? n) && (n <=? 90) then n - 55
  else 255.

(** ** string.h *)

Definition strlen (s : string) : Z := Z.of_nat (String.length s).

(** The byte under a cursor. *)
Definition peek (s : string) : ascii :=
  match s with EmptyString => NUL | String c _ => c end.

(** [strchr]: the suffix starting at the first occurrence. *)
Fixpoint strchr (s : string) (d : ascii) : option string :=
  match s with
  | EmptyString => None
  | String c s' => if Ascii.eqb c d then Some s else strchr s' d
  end.

(** [strsep] with a single delimiter: the token, and the cursor after the
    delimiter, NULL when the string ended first. *)
Fixpoint strsep_from (s : string) (d : ascii) : string * option string :=
  match s with
  | EmptyString => (EmptyString, None)
  | String c s' =>
      if Ascii.eqb c d then (EmptyString, Some s')
      else let '(tok, rest) := strsep_from s' d in (String c tok, rest)
  end.

Definition strsep (p : option string) (d : ascii) : option string * option string :=
  match p with
  | None => (None, None)
  | Some s => let '(tok, rest) := strsep_from s d in (Some tok, rest)
  end.

(** misc.c: 1 if [line] starts with [prefix]. *)
Fixpoint strStartsWith (line prefix : string) : bool :=
  match line, prefix with
  | String a line', String b prefix' =>
      if Ascii.eqb a b then strStartsWith line' prefix' else false
  | _, EmptyString => true
  | EmptyString, String _ _ => false
  end.

(** [strstr(s, sub) != NULL]. *)
Fixpoint strstr (s sub : string) : bool :=
  strStartsWith s sub ||
  match s with EmptyString => false | String _ s' => strstr s' sub end.

(** Moving a pointer [n] bytes forward; past the terminator it is undefined. *)
Fixpoint advance (n : nat) (s : string) : option string :=
  match n, s with
  | O, _ => Some s
  | S n', String _ s' => advance n' s'
  | S _, EmptyString => None
  end.

(** The first [n] bytes. *)
Definition str_take (n : nat) (s : string) : string := String.substring 0 n s.

(** ** stdlib.h: strtol and strtoul *)

Fixpoint skip_space (s : string) : string :=
  match s with
  | String c s' => if is_space c then skip_space s' else s
  | EmptyString => EmptyString
  end.

(** The digits of the longest numeral, accumulated in the given base. *)
Fixpoint scan_num (base acc : Z) (s : string) : Z :=
  match s with
  | String c s' =>
      if digit_of c <? base then scan_num base (acc * base + digit_of c) s' else acc
  | EmptyString => acc
  end.

Definition has_digit (base : Z) (s : string) : bool :=
  match s with String c _ => digit_of c <? base | EmptyString => false end.

(** Sign, and for base 16 the optional 0x prefix (only when a hexadecimal
    digit follows it, else the numeral is the leading 0). *)
Definition scan_sign (s : string) : bool * string :=
  match s with
  | String "-" s' => (true, s')
  | String "+" s' => (false, s')
  | _ => (false, s)
  end%char.

Definition skip_0x (base : Z) (s : string) : string :=
  if base =? 16 then
    match s with
    | String "0" (String x s') =>
        if (Ascii.eqb x "x" || Ascii.eqb x "X")%char && has_digit 16 s' then s' else s
    | _ => s
    end%char
  else s.

(** The magnitude and sign of the numeral at the start of [s]; [None] when no
    conversion is performed ([end == s]). *)
Definition scan_int (base : Z) (s : string) : option (bool * Z) :=
  let '(neg, s1) := scan_sign (skip_space s) in
  let s2 := skip_0x base s1 in
  if has_digit base s2 then Some (neg, scan_num base 0 s2) else None.

(** [strtol]: saturates at the bounds of [long]. *)
Definition strtol (s : string) (base : Z) : option Z :=
  match scan_int base s with
  | Some (neg, m) => Some (clamp INT_MIN INT_MAX (if neg : bool then - m else m))
  | None => None
  end.

(** [strtoul]: saturates at [ULONG_MAX], a minus sign negates modulo 2^32. *)
Definition strtoul (s : string) (base : Z) : option Z :=
  match scan_int base s with
  | Some (neg, m) =>
      if UINT_MAX <? m then Some UINT_MAX
      else Some (if neg : bool then uint32 (- m) else m)
  | None => None
  end.

Definition atoi (s : string) : Z :=
  match strtol s 10 with Some z => int32 z | None => 0 end.

(** ** stdio.h: words of [sscanf] *)

(** [sscanf(buffer, "%*s %s", name)]: the second word, if there is one. *)
Fixpoint take_word (s : string) : string :=
  match s with
  | String c s' => if is_space c then EmptyString else String c (take_word s')
  | EmptyString => EmptyString
  end.

Fixpoint drop_word (s : string) : string :=
  match s with
  | String c s' => if is_space c then s else drop_word s'
  | EmptyString => EmptyString
  end.

Definition second_word (s : string) : option string :=
  match take_word (skip_space (drop_word (skip_space s))) with
  | EmptyString => None
  | w => Some w
  end.

(** ** char arrays *)

Abbreviation carray := (list ascii).

Definition zero_array (n : nat) : carray := replicate n NUL.

Definition not_nul (c : ascii) : bool := negb (Ascii.eqb c NUL).

(** [strncpy(dst, src, n)]: at most [n] bytes, padded with NUL, and no
    terminator at all when [src] has [n] bytes or more. *)
Definition strncpy (src : string) (n : nat) : carray :=
  let bs := take n (list_ascii_of_string src) in
  bs ++ replicate (n - length bs) NUL.

(** The C string held by an array, [None] when it has no terminator. *)
Definition c_str (a : carray) : option string :=
  if existsb (λ c, Ascii.eqb c NUL) a
  then Some (string_of_list_ascii (take_while not_nul a)) else None.

(** ** Lemmas *)

Lemma strlen_app a b : strlen (a +:+ b) = strlen a + strlen b.
Proof.
  unfold strlen. rewrite <-Nat2Z.inj_add. f_equal.
  induction a as [|x a IH]; simpl; [done|by rewrite IH].
Qed.

Lemma strStartsWith_spec line prefix :
  strStartsWith line prefix = true ↔ ∃ rest, line = (prefix +:+ rest)%string.
Proof.
  revert prefix. induction line as [|a line IH]; intros [|b prefix]; simpl.
  - split; [by exists EmptyString|done].
  - split; [done|intros [? [=]]].
  - split; [by eexists|done].
  - destruct (Ascii.eqb_spec a b) as [->|Hne].
    + rewrite IH. split; intros [rest H]; exists rest; [by rewrite H|by injection H].
    + split; [done|intros [? [= ? ?]]; done].
Qed.

Lemma strStartsWith_app prefix rest : strStartsWith (prefix +:+ rest) prefix = true.
Proof. apply strStartsWith_spec. by eexists. Qed.

Lemma strStartsWith_nil s : strStartsWith s "" = true.
Proof. by destruct s. Qed.

Lemma strsep_from_split s d tok rest :
  strsep_from s d = (tok, rest) →
  strchr tok d = None ∧
  s = match rest with Some r => (tok +:+ String d r)%string | None => tok end.
Proof.
  revert tok rest. induction s as [|c s IH]; simpl; intros tok rest.
  - by intros [= <- <-].
  - destruct (Ascii.eqb_spec c d) as [->|Hne]; [by intros [= <- <-]|].
    destruct (strsep_from s d) as [tok' rest'] eqn:E. intros [= <- <-].
    destruct (IH _ _ eq_refl) as [Hn Hs]. split.
    + simpl. apply Ascii.eqb_neq in Hne. by rewrite Hne.
    + destruct rest'; simpl; by rewrite Hs.
Qed.

Lemma strsep_from_tok tok d r :
  strchr tok d = None → strsep_from (tok +:+ String d r) d = (tok, Some r).
Proof.
  induction tok as [|c tok IH]; simpl; [by rewrite Ascii.eqb_refl|].
  destruct (Ascii.eqb c d) eqn:E; [done|]. intros H. by rewrite IH.
Qed.

Lemma strsep_from_last tok d :
  strchr tok d = None → strsep_from tok d = (tok, None).
Proof.
  induction tok as [|c tok IH]; simpl; [done|].
  destruct (Ascii.eqb c d) eqn:E; [done|]. intros H. by rewrite IH.
Qed.

Lemma strsep_from_length s d tok r :
  strsep_from s d = (tok, Some r) → (String.length r < String.length s)%nat.
Proof.
  revert tok r. induction s as [|c s IH]; simpl; [done|]. intros tok r.
  destruct (Ascii.eqb c d).
  - intros [= <- <-]. lia.
  - destruct (strsep_from s d) as [t' [r'|]]; intros [= <- <-].
    specialize (IH _ _ eq_refl). lia.
Qed.

Lemma strchr_spec s d r :
  strchr s d = Some r →
  ∃ pre r', s = (pre +:+ r)%string ∧ r = String d r' ∧ strchr pre d = None.
Proof.
  induction s as [|c s IH]; simpl; [done|].
  destruct (Ascii.eqb_spec c d) as [->|Hne].
  - intros [= <-]. by exists EmptyString, s.
  - intros (pre & r' & -> & -> & Hp)%IH. exists (String c pre), r'.
    apply Ascii.eqb_neq in Hne. simpl. by rewrite Hne.
Qed.

Lemma strchr_app pre d r :
  strchr pre d = None → strchr (pre +:+ String d r) d = Some (String d r).
Proof.
  induction pre as [|c pre IH]; simpl; [by rewrite Ascii.eqb_refl|].
  by destruct (Ascii.eqb c d).
Qed.

Lemma advance_app p r : advance (String.length p) (p +:+ r) = Some r.
Proof. induction p; simpl; done. Qed.

Lemma skip_space_length s : (String.length (skip_space s) ≤ String.length s)%nat.
Proof. induction s as [|c s IH]; simpl; [lia|]. destruct (is_space c); simpl; lia. Qed.

Lemma skip_space_peek s : is_space (peek (skip_space s)) = false.
Proof. induction s as [|c s IH]; simpl; [done|]. by destruct (is_space c) eqn:E. Qed.

Lemma skip_space_id s : is_space (peek s) = false → skip_space s = s.
Proof. destruct s as [|c s]; simpl; [done|]. by intros ->. Qed.

Lemma strtol_range s base z : strtol s base = Some z → is_int32 z.
Proof.
  unfold strtol. destruct (scan_int base s) as [[neg m]|]; intros [= <-].
  apply clamp_range. done.
Qed.

(** *** Arrays *)

Lemma strncpy_length src n : length (strncpy src n) = n.
Proof. unfold strncpy. rewrite length_app, length_replicate, length_take. lia. Qed.

(** A string shorter than the array survives the copy. *)
Lemma c_str_strncpy src n :
  Forall (λ c, not_nul c = true) (list_ascii_of_string src) →
  (String.length src < n)%nat →
  c_str (strncpy src n) = Some src.
Proof.
  intros Hn Hlen. unfold strncpy, c_str.
  assert (Hl : length (list_ascii_of_string src) = String.length src).
  { clear. induction src; simpl; congruence. }
  rewrite take_ge by lia. rewrite Hl.
  destruct (n - String.length src)%nat as [|k] eqn:Hk; [lia|].
  rewrite existsb_app. simpl. rewrite orb_true_r.
  rewrite take_while_app_all by done. simpl. rewrite app_nil_r.
  by rewrite string_of_list_ascii_of_string.
Qed.

(** A longer one leaves the array unterminated. *)
Lemma c_str_strncpy_long src n :
  Forall (λ c, not_nul c = true) (list_ascii_of_string src) →
  (n ≤ String.length src)%nat → c_str (strncpy src n) = None.
Proof.
  intros Hn Hlen. unfold strncpy, c_str.
  assert (Hl : length (list_ascii_of_string src) = String.length src).
  { clear. induction src; simpl; congruence. }
  rewrite length_take, Nat.min_l, Nat.sub_diag by lia. simpl. rewrite app_nil_r.
  rewrite (not_true_is_false (existsb _ _)); [done|].
  rewrite existsb_exists. intros (c & Hin%list_elem_of_In & Hc).
  eapply Forall_take, Forall_forall in Hn; [|exact Hin].
  unfold not_nul in Hn. by rewrite Hc in Hn.
Qed.

(** *** Decimal numerals: what [strtol] reads back from [printf "%d"] *)

Lemma digit_of_pretty x :
  (x < 10)%N → digit_of (pretty_N_char x) = Z.of_N x.
Proof.
  intros. destruct (decide (x ∈ [0;1;2;3;4;5;6;7;8;9]%N)) as [Hin|Hnin].
  - repeat (apply elem_of_cons in Hin as [->|Hin]; [done|]). by apply elem_of_nil in Hin.
  - exfalso. apply Hnin. rewrite !elem_of_cons. lia.
Qed.

Lemma isdigit_pretty x : isdigit (pretty_N_char x) = true.
Proof. unfold pretty_N_char. by repeat case_match. Qed.

Lemma scan_num_pretty x s :
  scan_num 10 0 (pretty_N_go x s) = scan_num 10 (Z.of_N x) s.
Proof.
  revert s. induction (N.lt_wf_0 x) as [x _ IH]; intros s.
  destruct (decide (x = 0)%N) as [->|Hx]; [by rewrite pretty_N_go_0|].
  rewrite pretty_N_go_step by lia. rewrite IH by (apply N.div_lt; lia).
  simpl scan_num at 1. rewrite digit_of_pretty by (apply N.mod_lt; lia).
  pose proof (N.mod_lt x 10 ltac:(done)) as Hm.
  destruct (Z.ltb_spec (Z.of_N (x `mod` 10)) 10) as [_|Hge]; [|lia].
  f_equal. pose proof (N.div_mod x 10 ltac:(done)). lia.
Qed.

Lemma isdigit_digit_of c : isdigit c = true → digit_of c < 10 ∧ is_space c = false.
Proof. destruct c as [[] [] [] [] [] [] [] []]; vm_compute; intros; split; congruence. Qed.

(** The first character of a numeral printed from a natural is a digit. *)
Lemma pretty_N_go_head x c s :
  isdigit c = true → ∃ d s', pretty_N_go x (String c s) = String d s' ∧ isdigit d = true.
Proof.
  revert c s. induction (N.lt_wf_0 x) as [x _ IH]; intros c s Hc.
  destruct (decide (x = 0)%N) as [->|Hx]; [rewrite pretty_N_go_0; eauto|].
  rewrite pretty_N_go_step by lia. apply IH, isdigit_pretty. apply N.div_lt; lia.
Qed.

Lemma pretty_N_head (x : N) : ∃ d s, pretty x = String d s ∧ isdigit d = true.
Proof.
  unfold pretty, pretty_N. destruct (decide (x = 0)%N); [by exists "0"%char, ""|].
  rewrite pretty_N_go_step by lia. apply pretty_N_go_head, isdigit_pretty.
Qed.

Lemma scan_num_pretty_N (x : N) : scan_num 10 0 (pretty x) = Z.of_N x.
Proof.
  unfold pretty, pretty_N. destruct (decide (x = 0)%N) as [->|]; [done|].
  by rewrite scan_num_pretty.
Qed.

Lemma scan_num_app base acc s d r :
  (base <=? digit_of d) = true →
  scan_num base acc (s +:+ String d r) = scan_num base acc s.
Proof.
  intros Hd. revert acc. induction s as [|c s IH]; intros acc; simpl.
  - destruct (Z.ltb_spec (digit_of d) base); [lia|done].
  - by destruct (digit_of c <? base).
Qed.

Lemma pretty_Z_pos z : 0 ≤ z → pretty z = pretty (Z.to_N z).
Proof. by destruct z. Qed.

Lemma pretty_Z_neg z : z < 0 → pretty z = String "-" (pretty (Z.to_N (- z))).
Proof. by destruct z. Qed.

(** [strtol] reads back the numeral [printf] wrote. *)
Lemma scan_int_pretty z : scan_int 10 (pretty z) = Some (z <? 0, Z.abs z).
Proof.
  unfold scan_int. destruct (decide (z < 0)) as [Hz|Hz].
  - rewrite pretty_Z_neg by done. simpl skip_space. simpl scan_sign. cbv beta iota.
    unfold skip_0x. simpl (10 =? 16). cbv iota.
    destruct (pretty_N_head (Z.to_N (- z))) as (d & s & E & Hd).
    rewrite scan_num_pretty_N, E. simpl has_digit.
    apply isdigit_digit_of in Hd as [Hd _].
    destruct (Z.ltb_spec (digit_of d) 10); [|lia].
    destruct (Z.ltb_spec z 0); [|lia]. repeat f_equal. lia.
  - rewrite pretty_Z_pos by lia.
    destruct (pretty_N_head (Z.to_N z)) as (d & s & E & Hd).
    rewrite skip_space_id by (rewrite E; simpl; by apply isdigit_digit_of).
    assert (Hs : scan_sign (pretty (Z.to_N z)) = (false, pretty (Z.to_N z))).
    { rewrite E. destruct d as [[] [] [] [] [] [] [] []]; try reflexivity; discriminate Hd. }
    rewrite Hs. unfold skip_0x. simpl (10 =? 16). cbv iota.
    rewrite scan_num_pretty_N, E. simpl has_digit.
    apply isdigit_digit_of in Hd as [Hd _].
    destruct (Z.ltb_spec (digit_of d) 10); [|lia].
    destruct (Z.ltb_spec z 0); [lia|]. repeat f_equal. lia.
Qed.

Lemma strtol_pretty z : is_int32 z → strtol (pretty z) 10 = Some z.
Proof.
  intros Hz. unfold strtol. rewrite scan_int_pretty. f_equal.
  rewrite clamp_id; [|destruct (Z.ltb_spec z 0); unfold is_int32 in Hz; lia].
  destruct (Z.ltb_spec z 0); lia.
Qed.

(** *** Printed integers, byte by byte *)

Lemma str_app_assoc (a b c : string) : (a +:+ b) +:+ c = a +:+ b +:+ c.
Proof. induction a as [|x a IH]; simpl; [done|]. by rewrite IH. Qed.

Lemma chars_app (a b : string) :
  list_ascii_of_string (a +:+ b) = list_ascii_of_string a ++ list_ascii_of_string b.
Proof. induction a as [|x a IH]; simpl; [done|]. by rewrite IH. Qed.

Lemma str_length_app (a b : string) :
  String.length (a +:+ b) = (String.length a + String.length b)%nat.
Proof. induction a as [|x a IH]; simpl; [done|]. by rewrite IH. Qed.

Lemma pretty_N_go_chars x s :
  Forall (λ c, isdigit c = true) (list_ascii_of_string s) →
  Forall (λ c, isdigit c = true) (list_ascii_of_string (pretty_N_go x s)).
Proof.
  revert s. induction (N.lt_wf_0 x) as [x _ IH]; intros s Hs.
  destruct (decide (x = 0)%N) as [->|Hx]; [by rewrite pretty_N_go_0|].
  rewrite pretty_N_go_step by lia. apply IH; [apply N.div_lt; lia|].
  simpl. constructor; [apply isdigit_pretty|done].
Qed.

Lemma pretty_N_chars (x : N) : Forall (λ c, isdigit c = true) (list_ascii_of_string (pretty x)).
Proof.
  unfold pretty, pretty_N. case_decide; [by repeat constructor|]. apply pretty_N_go_chars. constructor.
Qed.

Lemma pretty_chars (z : Z) :
  Forall (λ c, isdigit c = true ∨ c = "-"%char) (list_ascii_of_string (pretty z)).
Proof.
  destruct (decide (z < 0)) as [Hz|Hz].
  - rewrite pretty_Z_neg by done. simpl. constructor; [by right|].
    eapply Forall_impl; [apply pretty_N_chars|]. auto.
  - rewrite pretty_Z_pos by lia. eapply Forall_impl; [apply pretty_N_chars|]. auto.
Qed.

Lemma pretty_N_go_length k x s :
  (x < 10 ^ N.of_nat k)%N → (String.length (pretty_N_go x s) ≤ k + String.length s)%nat.
Proof.
  revert x s. induction k as [|k IH]; intros x s Hx.
  - replace x with 0%N by (simpl in Hx; lia). by rewrite pretty_N_go_0.
  - destruct (decide (x = 0)%N) as [->|Hn]; [rewrite pretty_N_go_0; lia|].
    rewrite pretty_N_go_step by lia.
    assert (Hd : (x `div` 10 < 10 ^ N.of_nat k)%N).
    { apply N.Div0.div_lt_upper_bound. rewrite Nat2N.inj_succ, N.pow_succ_r' in Hx. lia. }
    specialize (IH _ (String (pretty_N_char (x `mod` 10)) s) Hd). simpl in IH. lia.
Qed.

Lemma pretty_N_go_length_ge k x s :
  (10 ^ N.of_nat k ≤ x)%N → (k + 1 + String.length s ≤ String.length (pretty_N_go x s))%nat.
Proof.
  revert x s. induction k as [|k IH]; intros x s Hx.
  - simpl in Hx. rewrite pretty_N_go_step by lia.
    assert (H : ∀ y t, (String.length t ≤ String.length (pretty_N_go y t))%nat).
    { intros y. induction (N.lt_wf_0 y) as [y _ IH]; intros t.
      destruct (decide (y = 0)%N) as [->|Hy]; [by rewrite pretty_N_go_0|].
      rewrite pretty_N_go_step by lia. etrans; [|apply IH; apply N.div_lt; lia]. simpl. lia. }
    specialize (H (x `div` 10)%N (String (pretty_N_char (x `mod` 10)) s)). simpl in H. lia.
  - rewrite Nat2N.inj_succ, N.pow_succ_r' in Hx.
    assert (10 ^ N.of_nat k ≠ 0)%N by (apply N.pow_nonzero; lia).
    rewrite pretty_N_go_step by lia.
    assert (Hd : (10 ^ N.of_nat k ≤ x `div` 10)%N) by (apply N.div_le_lower_bound; lia).
    specialize (IH _ (String (pretty_N_char (x `mod` 10)) s) Hd). simpl in IH. lia.
Qed.

(** A number below [10^k] has at most [k] digits, one from [10^k] on more. *)
Lemma pretty_length k (z : Z) :
  (0 < k)%nat → 0 ≤ z < 10 ^ Z.of_nat k → (String.length (pretty z) ≤ k)%nat.
Proof.
  intros Hk Hz. rewrite pretty_Z_pos by lia. unfold pretty, pretty_N. case_decide; [simpl; lia|].
  pose proof (pretty_N_go_length k (Z.to_N z) "") as H'. simpl in H'.
  rewrite Nat.add_0_r in H'. apply H'. apply N2Z.inj_lt. rewrite N2Z.inj_pow, Z2N.id by lia.
  rewrite nat_N_Z. lia.
Qed.

Lemma pretty_length_ge k (z : Z) :
  10 ^ Z.of_nat k ≤ z → (k < String.length (pretty z))%nat.
Proof.
  intros Hz. assert (0 < 10 ^ Z.of_nat k) by lia.
  rewrite pretty_Z_pos by lia. unfold pretty, pretty_N. case_decide; [lia|].
  pose proof (pretty_N_go_length_ge k (Z.to_N z) "") as H'. simpl in H'.
  assert ((10 ^ N.of_nat k ≤ Z.to_N z)%N); [|specialize (H' ltac:(done)); lia].
  apply N2Z.inj_le. rewrite N2Z.inj_pow, Z2N.id by lia. by rewrite nat_N_Z.
Qed.
