(* ===== verification/AtTok.v ===== *)
(** * at_tok.c: the AT response tokenizer

    A tokenizer cursor is the [char **p_cur] of the source: NULL, or a pointer
    into the NUL-terminated line, represented by the suffix it points at.
    Tokens are cut out of the line in place by [strsep]; the part before the
    cursor is never read again through it, so a token is the string itself.

    Every operation returns its C result, the value written through its out
    parameter ([None] when it is left untouched) and the new cursor. *)

From S2P Require Import Prelude CString.

Open Scope Z_scope.

Definition cursor := option string.

(** ** Operations *)

Definition at_tok_start (p_cur : cursor) : Z * cursor :=
  match p_cur with
  | None => (-1, None)
  | Some s =>
      match strchr s ":" with
      | Some (String _ r) => (0, Some r)
      | _ => (-1, None)
      end
  end.

Definition skipWhiteSpace (p_cur : cursor) : cursor :=
  match p_cur with None => None | Some s => Some (skip_space s) end.

Fixpoint skip_to_comma (s : string) : string :=
  match s with
  | EmptyString => EmptyString
  | String c s' => if Ascii.eqb c "," then s' else skip_to_comma s'
  end.

Definition skipNextComma (p_cur : cursor) : cursor :=
  match p_cur with None => None | Some s => Some (skip_to_comma s) end.

Definition nextTok (p_cur : cursor) : option string * cursor :=
  match skipWhiteSpace p_cur with
  | None => (None, None)
  | Some s =>
      match s with
      | String c s' =>
          if Ascii.eqb c DQUOTE
          then let '(ret, p) := strsep (Some s') DQUOTE in (ret, skipNextComma p)
          else strsep (Some s) ","
      | EmptyString => strsep (Some s) ","
      end
  end.

(** The conversion writes [*p_out] before the check on [end], so a token with
    no numeral fails with 0 written. *)
Definition at_tok_nextint_base (p_cur : cursor) (base : Z) (uns : bool)
    : Z * option Z * cursor :=
  match p_cur with
  | None => (-1, None, None)
  | Some _ =>
      let '(ret, p) := nextTok p_cur in
      match ret with
      | None => (-1, None, p)
      | Some tok =>
          match (if uns then strtoul tok base else strtol tok base) with
          | Some l => (0, Some (int32 l), p)
          | None => (-1, Some 0, p)
          end
      end
  end.

Definition at_tok_nextint (p_cur : cursor) : Z * option Z * cursor :=
  at_tok_nextint_base p_cur 10 false.

Definition at_tok_nexthexint (p_cur : cursor) : Z * option Z * cursor :=
  at_tok_nextint_base p_cur 16 true.

Definition at_tok_nextbool (p_cur : cursor) : Z * option Z * cursor :=
  let '(ret, result, p) := at_tok_nextint p_cur in
  if ret <? 0 then (-1, None, p)
  else match result with
       | Some r => if (r =? 0) || (r =? 1) then (ret, Some r, p) else (-1, None, p)
       | None => (-1, None, p)
       end.

(** The out parameter of [at_tok_nextstr] is itself a pointer that may be
    NULL. *)
Definition at_tok_nextstr (p_cur : cursor) : Z * option (option string) * cursor :=
  match p_cur with
  | None => (-1, None, None)
  | Some _ => let '(tok, p) := nextTok p_cur in (0, Some tok, p)
  end.

Definition at_tok_hasmore (p_cur : cursor) : bool :=
  match p_cur with None => false | Some EmptyString => false | Some _ => true end.

(** ** The callers' idiom [err = at_tok_x(&line, &v); if (err < 0) goto error]

    [None] is the jump to the error label. *)

Definition tok_start (p : cursor) : option cursor :=
  let '(err, p') := at_tok_start p in if err <? 0 then None else Some p'.

Definition tok_int (p : cursor) : option (Z * cursor) :=
  match at_tok_nextint p with
  | (err, Some v, p') => if err <? 0 then None else Some (v, p')
  | (_, None, _) => None
  end.

Definition tok_hexint (p : cursor) : option (Z * cursor) :=
  match at_tok_nexthexint p with
  | (err, Some v, p') => if err <? 0 then None else Some (v, p')
  | (_, None, _) => None
  end.

Definition tok_bool (p : cursor) : option (Z * cursor) :=
  match at_tok_nextbool p with
  | (err, Some v, p') => if err <? 0 then None else Some (v, p')
  | (_, None, _) => None
  end.

(** A successful [at_tok_nextstr] may in principle store NULL; the lemma
    [at_tok_nextstr_some] below shows that it does not. *)
Definition tok_str (p : cursor) : option (string * cursor) :=
  match at_tok_nextstr p with
  | (err, Some (Some v), p') => if err <? 0 then None else Some (v, p')
  | _ => None
  end.

(** Reading [n] integers in a row. *)
Fixpoint tok_ints (n : nat) (p : cursor) : option (list Z * cursor) :=
  match n with
  | O => Some ([], p)
  | S n' =>
      match tok_int p with
      | None => None
      | Some (z, p') =>
          match tok_ints n' p' with
          | None => None
          | Some (zs, p'') => Some (z :: zs, p'')
          end
      end
  end.

(** The [while (at_tok_hasmore(&line)) at_tok_nextstr(&line, &tok)] loop. *)
Fixpoint all_tokens (fuel : nat) (p : cursor) : option (list string) :=
  if at_tok_hasmore p then
    match fuel with
    | O => None
    | S fuel' =>
        match tok_str p with
        | None => None
        | Some (t, p') => option_map (cons t) (all_tokens fuel' p')
        end
    end
  else Some [].

(** ** A printer for AT responses, the specification of the tokenizer *)

Fixpoint commas (fields : list string) : string :=
  match fields with
  | [] => ""
  | [f] => f
  | f :: fs => f +:+ String "," (commas fs)
  end.

Definition at_line (prefix : string) (fields : list string) : string :=
  prefix +:+ String ":" (commas fields).

(** A field the tokenizer returns verbatim: no comma, and it starts neither
    with a quote nor with white space. *)
Definition plain_field (f : string) : bool :=
  match strchr f "," with Some _ => false | None => true end
  && negb (is_space (peek f)) && negb (Ascii.eqb (peek f) DQUOTE).

(** ** Lemmas *)

Lemma skip_to_comma_length s : (String.length (skip_to_comma s) ≤ String.length s)%nat.
Proof. induction s as [|c s IH]; simpl; [lia|]. destruct (Ascii.eqb c ","); lia. Qed.

Lemma nextTok_some s : ∃ t p, nextTok (Some s) = (Some t, p).
Proof.
  unfold nextTok. simpl. destruct (skip_space s) as [|c s']; simpl; [eauto|].
  destruct (Ascii.eqb c DQUOTE).
  - destruct (strsep_from s' DQUOTE); eauto.
  - destruct (Ascii.eqb c ","); [eauto|]. destruct (strsep_from s' ","); eauto.
Qed.

(** The cursor only moves forward, by at least one byte. *)
Lemma nextTok_progress s t r :
  nextTok (Some s) = (t, Some r) → (String.length r < String.length s)%nat.
Proof.
  unfold nextTok, skipWhiteSpace. pose proof (skip_space_length s) as Hle.
  destruct (skip_space s) as [|c s'] eqn:Es; [done|].
  destruct (Ascii.eqb c DQUOTE).
  - unfold strsep. destruct (strsep_from s' DQUOTE) as [tok [r'|]] eqn:E; [|done].
    intros [= <- <-]. apply strsep_from_length in E.
    pose proof (skip_to_comma_length r'). simpl in Hle. lia.
  - unfold strsep. destruct (strsep_from (String c s') ",") as [tok r'] eqn:E.
    intros [= <- ->]. apply strsep_from_length in E. lia.
Qed.

Lemma plain_field_spec f :
  plain_field f = true →
  strchr f "," = None ∧ skip_space f = f ∧ Ascii.eqb (peek f) DQUOTE = false.
Proof.
  unfold plain_field. rewrite !andb_true_iff, !negb_true_iff.
  intros [[H1 H2] H3]. split_and!; [by destruct (strchr f ",")| |done].
  by apply skip_space_id.
Qed.

Lemma nextTok_strsep s :
  is_space (peek s) = false → Ascii.eqb (peek s) DQUOTE = false →
  nextTok (Some s) = strsep (Some s) ",".
Proof.
  intros Hs Hq. unfold nextTok. simpl. rewrite skip_space_id by done.
  destruct s as [|c s]; [done|]. simpl in Hq. by rewrite Hq.
Qed.

Lemma peek_app f r : f ≠ "" → peek (f +:+ r) = peek f.
Proof. by destruct f. Qed.

(** Reading one plain field off the front of a printed line. *)
Lemma nextTok_field f fs :
  plain_field f = true →
  nextTok (Some (commas (f :: fs))) =
  (Some f, match fs with [] => None | _ => Some (commas fs) end).
Proof.
  intros (Hc & Hsp & Hq)%plain_field_spec.
  assert (Hpk : is_space (peek f) = false).
  { rewrite <-Hsp. apply skip_space_peek. }
  rewrite nextTok_strsep.
  - unfold strsep. destruct fs as [|g fs].
    + simpl commas. by rewrite strsep_from_last.
    + change (commas (f :: g :: fs)) with (f +:+ String "," (commas (g :: fs))).
      by rewrite strsep_from_tok.
  - destruct fs as [|g fs]; [done|]. destruct f as [|c f]; done.
  - destruct fs as [|g fs]; [done|]. destruct f as [|c f]; done.
Qed.

Lemma tok_start_at_line prefix fields :
  strchr prefix ":" = None →
  tok_start (Some (at_line prefix fields)) = Some (Some (commas fields)).
Proof. intros H. unfold tok_start, at_tok_start, at_line. by rewrite strchr_app. Qed.

Lemma at_tok_nextstr_some p : at_tok_nextstr p ≠ (0, Some None, None).
Proof.
  destruct p as [s|]; simpl; [|done].
  destruct (nextTok_some s) as (t & p & ->). done.
Qed.

Lemma tok_str_some s : is_Some (tok_str (Some s)).
Proof.
  unfold tok_str, at_tok_nextstr. destruct (nextTok_some s) as (t & p & ->). simpl. eauto.
Qed.

Lemma strchr_none_app a b d :
  strchr (a +:+ b) d = None ↔ strchr a d = None ∧ strchr b d = None.
Proof.
  induction a as [|c a IH]; simpl; [by split; [|intros [_ ?]]|].
  destruct (Ascii.eqb c d); [|done]. by split; [|intros [? _]].
Qed.

(** A printed integer is a plain field. *)
Lemma pretty_N_go_no_comma x s :
  strchr s "," = None → strchr (pretty_N_go x s) "," = None.
Proof.
  revert s. induction (N.lt_wf_0 x) as [x _ IH]; intros s Hs.
  destruct (decide (x = 0)%N) as [->|Hx]; [by rewrite pretty_N_go_0|].
  rewrite pretty_N_go_step by lia. apply IH; [apply N.div_lt; lia|].
  simpl. rewrite (proj2 (Ascii.eqb_neq _ _)); [done|].
  unfold pretty_N_char. by repeat case_match.
Qed.

Lemma pretty_N_no_comma (x : N) : strchr (pretty x) "," = None.
Proof.
  unfold pretty, pretty_N. case_decide; [done|]. by apply pretty_N_go_no_comma.
Qed.

Lemma plain_field_pretty (z : Z) : plain_field (pretty z) = true.
Proof.
  unfold plain_field. destruct (decide (z < 0)) as [Hz|Hz].
  - rewrite pretty_Z_neg by done. simpl. by rewrite pretty_N_no_comma.
  - rewrite pretty_Z_pos by lia. rewrite pretty_N_no_comma.
    destruct (pretty_N_head (Z.to_N z)) as (d & s & -> & Hd). simpl.
    destruct (isdigit_digit_of d Hd) as [_ ->]. simpl.
    destruct d as [[] [] [] [] [] [] [] []]; try reflexivity; discriminate Hd.
Qed.

Lemma tok_int_field z fs :
  is_int32 z →
  tok_int (Some (commas (pretty z :: fs))) =
  Some (z, match fs with [] => None | _ => Some (commas fs) end).
Proof.
  intros Hz. unfold tok_int, at_tok_nextint, at_tok_nextint_base.
  rewrite nextTok_field by apply plain_field_pretty.
  rewrite strtol_pretty by done. simpl. by rewrite int32_id.
Qed.

(** Blanks before a field are skipped. *)
Lemma tok_int_space s : tok_int (Some (String " " s)) = tok_int (Some s).
Proof. done. Qed.

Lemma tok_int_range p z p' : tok_int p = Some (z, p') → is_int32 z.
Proof.
  unfold tok_int, at_tok_nextint, at_tok_nextint_base. destruct p as [s|]; [|done].
  destruct (nextTok (Some s)) as [[tok|] p1]; [|done].
  destruct (strtol tok 10) as [l|]; simpl; [|done]. intros [= <- <-]. apply int32_range.
Qed.

Lemma tok_str_field f fs :
  plain_field f = true →
  tok_str (Some (commas (f :: fs))) =
  Some (f, match fs with [] => None | _ => Some (commas fs) end).
Proof. intros Hf. unfold tok_str, at_tok_nextstr. by rewrite nextTok_field. Qed.

#[export] Hint Resolve plain_field_pretty tok_int_range : fw.

(** ** Properties *)

(** C31: the tokenizer reads back what an AT response line prints.  On the line
    [prefix:z1,...,zn] of 32 bit integers, [at_tok_start] followed by [n] calls
    of [at_tok_nextint] returns exactly [z1 ... zn], every call succeeding, and
    leaves the cursor NULL. *)
Theorem at_tok_ints_roundtrip (prefix : string) (zs : list Z) :
  strchr prefix ":" = None → Forall is_int32 zs → zs ≠ [] →
  ∃ p, tok_start (Some (at_line prefix (pretty <$> zs))) = Some p ∧
       tok_ints (length zs) p = Some (zs, None).
Proof.
  intros Hp Hzs Hne. eexists. split; [by apply tok_start_at_line|].
  induction Hzs as [|z zs Hz Hzs IH]; [done|].
  destruct zs as [|z' zs].
  - simpl length. cbn [fmap list_fmap tok_ints]. by rewrite tok_int_field.
  - specialize (IH ltac:(done)).
    simpl length. rewrite fmap_cons. cbn [tok_ints]. rewrite tok_int_field by done.
    simpl length in IH. rewrite fmap_cons in *. cbn [tok_ints] in IH |- *. by rewrite IH.
Qed.

Lemma at_tok_ints_roundtrip_witness :
  ∃ p, tok_start (Some (at_line "+CREG" (pretty <$> [1; 4145; -7]))) = Some p ∧
       tok_ints 3 p = Some ([1; 4145; -7], None).
Proof.
  apply (at_tok_ints_roundtrip "+CREG" [1; 4145; -7]).
  - reflexivity.
  - repeat constructor; vm_compute; congruence.
  - discriminate.
Defined.

(** The tokenizing loop terminates on every line.  Whatever the bytes under
    the cursor, [while (at_tok_hasmore) at_tok_nextstr] ends after at most one
    iteration per byte of the line and never takes its error exit. *)
Theorem at_tok_loop_terminates (s : string) (fuel : nat) :
  (String.length s ≤ fuel)%nat →
  ∃ toks, all_tokens fuel (Some s) = Some toks ∧ (length toks ≤ String.length s)%nat.
Proof.
  revert s. induction fuel as [|fuel IH]; intros s Hf.
  - destruct s; simpl in Hf; [by exists []|lia].
  - destruct s as [|c s']; [by exists []|]. cbn [all_tokens at_tok_hasmore].
    destruct (tok_str_some (String c s')) as [[t p] E]. rewrite E.
    unfold tok_str, at_tok_nextstr in E.
    destruct (nextTok (Some (String c s'))) as [t' p'] eqn:En.
    destruct t' as [t'|]; simpl in E; [|done]. injection E as <- <-.
    destruct p' as [r|].
    + apply nextTok_progress in En. simpl in En, Hf.
      destruct (IH r ltac:(lia)) as (toks & -> & Hl).
      exists (t' :: toks). simpl. split; [done|lia].
    + exists [t']. destruct fuel; simpl; split; done || lia.
Qed.

Lemma at_tok_loop_terminates_witness :
  ∃ toks, all_tokens 9 (Some "1, ab,,x,"%string) = Some toks ∧
          (length toks ≤ String.length "1, ab,,x,")%nat.
Proof. apply (at_tok_loop_terminates _ 9). vm_compute. lia. Defined.

(** A quoted token is returned without its quotes and with its commas, after
    any white space, and everything up to the next comma is dropped with it. *)
Theorem nextTok_quoted (ws q junk rest : string) :
  Forall (λ c, is_space c = true) (list_ascii_of_string ws) →
  strchr q DQUOTE = None → strchr junk "," = None →
  nextTok (Some (ws +:+ String DQUOTE (q +:+ String DQUOTE (junk +:+ String "," rest)))) =
  (Some q, Some rest).
Proof.
  intros Hws Hq Hj. unfold nextTok, skipWhiteSpace.
  assert (Hsk : ∀ r, skip_space (ws +:+ String DQUOTE r) = String DQUOTE r).
  { clear -Hws. induction ws as [|c ws IH]; intros r; simpl in *; [done|].
    apply Forall_cons in Hws as [-> Hws]. by rewrite IH. }
  rewrite Hsk. rewrite Ascii.eqb_refl. unfold strsep.
  rewrite strsep_from_tok by done. cbn [skipNextComma]. do 3 f_equal.
  clear -Hj. induction junk as [|c junk IH]; simpl in *; [done|].
  destruct (Ascii.eqb c ","); [done|]. by rewrite IH.
Qed.

Lemma nextTok_quoted_witness :
  nextTok (Some (" " +:+ String DQUOTE ("a,b" +:+ String DQUOTE ("x" +:+ String "," "7")))) =
  (Some "a,b"%string, Some "7"%string).
Proof. apply nextTok_quoted; [repeat constructor|reflexivity|reflexivity]. Defined.

(** [at_tok_nextbool] stores only 0 or 1, stores nothing when it fails, and
    succeeds exactly when the next integer is 0 or 1. *)
Theorem at_tok_nextbool_spec (p : cursor) :
  match at_tok_nextbool p with
  | (0, Some v, p') => (v = 0 ∨ v = 1) ∧ tok_int p = Some (v, p')
  | (err, out, _) => err = -1 ∧ out = None ∧
      ∀ v p', tok_int p = Some (v, p') → v ≠ 0 ∧ v ≠ 1
  end.
Proof.
  unfold at_tok_nextbool, tok_int, at_tok_nextint, at_tok_nextint_base.
  destruct p as [s|]; [|simpl; split_and!; done].
  destruct (nextTok (Some s)) as [[tok|] p1]; [|simpl; split_and!; done].
  destruct (strtol tok 10) as [l|]; simpl; [|split_and!; done].
  destruct (Z.eqb_spec (int32 l) 0) as [E|N0]; simpl; [by auto|].
  destruct (Z.eqb_spec (int32 l) 1) as [E|N1]; simpl; [by auto|].
  split_and!; [done|done|]. intros v p' [= <- <-]. done.
Qed.

(** The string tokenizer inverts the printer of comma separated fields: on
    any list of plain fields whose last one is not empty, the
    [while (at_tok_hasmore)] loop returns the fields themselves. *)
Theorem at_tok_strs_roundtrip (fields : list string) (f : string) (fuel : nat) :
  Forall (λ x, plain_field x = true) (fields ++ [f]) → f ≠ "" →
  (length fields < fuel)%nat →
  all_tokens fuel (Some (commas (fields ++ [f]))) = Some (fields ++ [f]).
Proof.
  intros Hall Hf. revert fuel. induction fields as [|g fields IH]; intros fuel Hfuel.
  - apply Forall_cons in Hall as [Hp _]. destruct fuel as [|fuel]; [simpl in Hfuel; lia|].
    simpl app. destruct f as [|c f]; [done|].
    change (all_tokens (S fuel) (Some (commas [String c f]))) with
      (match tok_str (Some (commas [String c f])) with
       | None => None | Some (t, p') => option_map (cons t) (all_tokens fuel p') end).
    rewrite tok_str_field by done. by destruct fuel.
  - apply Forall_cons in Hall as [Hp Hall]. simpl in Hfuel.
    destruct fuel as [|fuel]; [lia|]. specialize (IH Hall). simpl app.
    assert (Hm : at_tok_hasmore (Some (commas (g :: fields ++ [f]))) = true).
    { destruct fields; simpl; by destruct g. }
    cbn [all_tokens]. rewrite Hm, tok_str_field by done.
    destruct (fields ++ [f]) as [|h hs] eqn:E; [by destruct fields|].
    by rewrite IH by lia.
Qed.

Lemma at_tok_strs_roundtrip_witness :
  all_tokens 5 (Some (commas (["0"; ""; "310"] ++ ["00"]))) =
  Some (["0"; ""; "310"] ++ ["00"]).
Proof.
  apply at_tok_strs_roundtrip; [repeat constructor|discriminate|simpl; lia].
Defined.
