(* ===== verification/AtReader.v ===== *)
(** * atchannel.c, the byte level: reading lines from the modem, writing to it

    The line buffer is modelled as the memory it is: [MAX_AT_RESPONSE + 1]
    bytes, written in place, with the two pointers of the source as indices.
    The file descriptor is the sequence of results [read] and [write] deliver;
    how the modem's bytes are cut into [read] results is arbitrary. *)

From S2P Require Import Prelude CString.

Open Scope nat_scope.

Definition is_nl (c : ascii) : bool := Ascii.eqb c CR || Ascii.eqb c LF.

(** ** System calls *)

(** What one [read] finds; a [RdData] longer than the space offered is
    delivered in pieces.  [RdIntr] is a failure with [EINTR]. *)
Inductive ReadEvent :=
  | RdData (bs : list ascii)
  | RdEOF
  | RdErr
  | RdIntr.

(** [do { count = read(...) } while (count < 0 && errno == EINTR)]: the bytes
    delivered ([[]] stands for [count <= 0]) and the events left; [None] when
    the call blocks for good. *)
Fixpoint read_fd (n : nat) (input : list ReadEvent) : option (list ascii * list ReadEvent) :=
  match input with
  | [] => None
  | RdIntr :: input' => read_fd n input'
  | RdEOF :: input' | RdErr :: input' => Some ([], input')
  | RdData bs :: input' =>
      Some (take n bs,
            match drop n bs with [] => input' | rest => RdData rest :: input' end)
  end.

Inductive WriteEvent :=
  | WrOk (n : nat)     (** at most [n] bytes are accepted *)
  | WrErr
  | WrIntr.

(** One [write]: the number of bytes accepted, negative on error.  With no
    event left the descriptor accepts everything. *)
Definition write_fd (n : nat) (out : list WriteEvent) : Z * bool * list WriteEvent :=
  match out with
  | [] => (Z.of_nat n, false, [])
  | WrOk k :: out' => (Z.of_nat (Nat.min k n), false, out')
  | WrErr :: out' => ((-1)%Z, false, out')
  | WrIntr :: out' => ((-1)%Z, true, out')
  end.

Section reader.
(** [MAX_AT_RESPONSE], 8 * 1024 in the source. *)
Context (MAX_AT_RESPONSE : nat).

Record Reader := MkReader {
  s_ATBuffer : list ascii;
  s_ATBufferCur : nat
}.

Definition reader_init : Reader :=
  MkReader (replicate (S MAX_AT_RESPONSE) NUL) 0.

(** *** Memory accesses

    [None] is an access outside the buffer, which C does not define. *)

Definition cell (mem : list ascii) (i : nat) : option ascii := mem !! i.

(** The buffer with [bs] from index [i] on, where they are in it. *)
Definition put_bytes (mem : list ascii) (i : nat) (bs : list ascii) : list ascii :=
  take i mem ++ bs ++ drop (i + length bs) mem.

Definition store (mem : list ascii) (i : nat) (bs : list ascii) : option (list ascii) :=
  if i + length bs <=? length mem then Some (put_bytes mem i bs) else None.

(** The index of the first byte from [i] on that is not [p]. *)
Definition scan (p : ascii → bool) (mem : list ascii) (i : nat) : option nat :=
  let j := i + length (take_while p (drop i mem)) in
  if j <? length mem then Some j else None.

(** The C string at index [i]. *)
Definition str_at (mem : list ascii) (i : nat) : option (list ascii) :=
  j ← scan not_nul mem i; Some (take (j - i) (drop i mem)).

(** *** The functions *)

(** [while (mem[i] == '\r' || mem[i] == '\n') i++] *)
Definition skip_newlines (mem : list ascii) (i : nat) : option nat := scan is_nl mem i.

(** [cur[0] == '>' && cur[1] == ' ' && cur[2] == '\0'] *)
Definition at_prompt (mem : list ascii) (cur : nat) : option bool :=
  c0 ← cell mem cur;
  if Ascii.eqb c0 ">" then
    c1 ← cell mem (cur + 1);
    if Ascii.eqb c1 " " then c2 ← cell mem (cur + 2); Some (Ascii.eqb c2 NUL) else Some false
  else Some false.

Definition findNextEOL (mem : list ascii) (cur : nat) : option (option nat) :=
  prompt ← at_prompt mem cur;
  if prompt : bool then Some (Some (cur + 2))
  else
    p ← scan (λ c, not_nul c && negb (is_nl c)) mem cur;
    c ← cell mem p;
    Some (if Ascii.eqb c NUL then None else Some p).

Inductive ReadlineResult :=
  | RlLine (line : list ascii)   (** a line, valid until the next call *)
  | RlNull                       (** NULL: end of file or read error *)
  | RlBlocked.                   (** the call has not returned *)

(** The end of [readline]: cut the line at [p_eol] and move past it. *)
Definition finish_line (mem : list ascii) (cur p_eol : nat) : option (ReadlineResult * Reader) :=
  mem ← store mem p_eol [NUL];
  line ← str_at mem cur;
  Some (RlLine line, MkReader mem (p_eol + 1)).

(** [if (0 == MAX_AT_RESPONSE - (p_read - s_ATBuffer))]: ditch buffer and
    start over again. *)
Definition ditch_full (mem : list ascii) (cur p_read : nat) : option (list ascii * nat * nat) :=
  if MAX_AT_RESPONSE - p_read =? 0
  then (mem ← store mem 0 [NUL]; Some (mem, 0, 0))
  else Some (mem, cur, p_read).

(** [while (p_eol == NULL)]; one unit of fuel per [read]. *)
Fixpoint read_loop (fuel : nat) (mem : list ascii) (cur p_read : nat)
    (input : list ReadEvent) : option (ReadlineResult * Reader * list ReadEvent) :=
  match fuel with
  | O => Some (RlBlocked, MkReader mem cur, input)
  | S fuel' =>
      '(mem, cur, p_read) ← ditch_full mem cur p_read;
      match read_fd (MAX_AT_RESPONSE - p_read) input with
      | None => Some (RlBlocked, MkReader mem cur, [])
      | Some ([], input') => Some (RlNull, MkReader mem cur, input')
      | Some (bs, input') =>
          mem ← store mem p_read (bs ++ [NUL]);
          cur ← skip_newlines mem cur;
          eol ← findNextEOL mem cur;
          match eol with
          | Some p_eol => r ← finish_line mem cur p_eol; Some (r, input')
          | None => read_loop fuel' mem cur (p_read + length bs) input'
          end
      end
  end.

(** [None]: undefined behaviour. *)
Definition readline (fuel : nat) (r : Reader) (input : list ReadEvent)
    : option (ReadlineResult * Reader * list ReadEvent) :=
  let mem := s_ATBuffer r in
  let cur := s_ATBufferCur r in
  c ← cell mem cur;
  if Ascii.eqb c NUL then
    (* empty buffer *)
    mem ← store mem 0 [NUL];
    read_loop fuel mem 0 0 input
  else
    cur ← skip_newlines mem cur;
    eol ← findNextEOL mem cur;
    match eol with
    | Some p_eol => r ← finish_line mem cur p_eol; Some (r, input)
    | None =>
        (* a partial line. move it up and prepare to read more *)
        line ← str_at mem cur;
        mem ← store mem 0 (line ++ [NUL]);
        read_loop fuel mem 0 (length line) input
    end.

(** ** The stream specification *)

Fixpoint bytes_of (input : list ReadEvent) : list ascii :=
  match input with
  | RdData bs :: input' => bs ++ bytes_of input'
  | RdIntr :: input' => bytes_of input'
  | _ => []
  end.

(** The complete non-empty lines of a byte stream; a line ends at a carriage
    return or a line feed, an unfinished last line does not count. *)
Fixpoint lines_from (acc : list ascii) (s : list ascii) : list (list ascii) :=
  match s with
  | [] => []
  | c :: s' =>
      if is_nl c then
        match acc with
        | [] => lines_from [] s'
        | _ => rev acc :: lines_from [] s'
        end
      else lines_from (c :: acc) s'
  end.

Definition lines_of (s : list ascii) : list (list ascii) := lines_from [] s.

(** The first of them and the bytes after its terminator. *)
Definition next_line (s : list ascii) : option (list ascii * list ascii) :=
  let s' := drop_while is_nl s in
  match drop_while (λ c, negb (is_nl c)) s' with
  | [] => None
  | _ :: rest => Some (take_while (λ c, negb (is_nl c)) s', rest)
  end.

(** Calling [readline] until it returns NULL. *)
Inductive AllLines :=
  | LinesUpTo (lines : list (list ascii))   (** the lines before NULL *)
  | StillReading                            (** a call, or the sequence of calls, has not ended *)
  | OutsideBuffer.                          (** undefined behaviour *)

Definition line_before (l : list ascii) (r : AllLines) : AllLines :=
  match r with LinesUpTo ls => LinesUpTo (l :: ls) | _ => r end.

Fixpoint read_all (calls fuel : nat) (r : Reader) (input : list ReadEvent) : AllLines :=
  match calls with
  | O => StillReading
  | S calls' =>
      match readline fuel r input with
      | Some (RlLine l, r', input') => line_before l (read_all calls' fuel r' input')
      | Some (RlNull, _, _) => LinesUpTo []
      | Some (RlBlocked, _, _) => StillReading
      | None => OutsideBuffer
      end
  end.

(** ** Conditions on a stream *)

(** Data cut in non-empty pieces, interrupted reads, then end of file. *)
Inductive whole_stream : list ReadEvent → Prop :=
  | ws_eof : whole_stream [RdEOF]
  | ws_intr input : whole_stream input → whole_stream (RdIntr :: input)
  | ws_data bs input : bs ≠ [] → whole_stream input → whole_stream (RdData bs :: input).

(** No line of the stream starts with the prompt character. *)
Definition no_prompt (s : list ascii) : Prop :=
  ∀ a b, s = a ++ ">"%char :: b → ∃ a' c, a = a' ++ [c] ∧ is_nl c = false.

(** A line and the line terminators before it fit the buffer. *)
Definition lines_fit (s : list ascii) : Prop :=
  ∀ a nl ln c, s = a ++ nl ++ ln ++ c →
    Forall (λ x, is_nl x = true) nl → Forall (λ x, is_nl x = false) ln →
    length nl + length ln < MAX_AT_RESPONSE.

Record stream_ok (s : list ascii) : Prop := {
  so_nul : Forall (λ x, not_nul x = true) s;
  so_prompt : no_prompt s;
  so_fit : lines_fit s
}.

(** ** Memory lemmas *)

Lemma put_length mem i bs :
  i + length bs ≤ length mem → length (put_bytes mem i bs) = length mem.
Proof. intros. unfold put_bytes. rewrite !length_app, length_take, length_drop. lia. Qed.

Lemma store_Some mem i bs :
  i + length bs ≤ length mem → store mem i bs = Some (put_bytes mem i bs).
Proof. intros. unfold store. by rewrite (proj2 (Nat.leb_le _ _)). Qed.

Lemma drop_put mem i bs :
  i + length bs ≤ length mem →
  drop i (put_bytes mem i bs) = bs ++ drop (i + length bs) mem.
Proof.
  intros. unfold put_bytes. rewrite drop_app_ge; rewrite length_take, Nat.min_l by lia; [|lia].
  by rewrite Nat.sub_diag.
Qed.

Lemma drop_put_before mem i j bs :
  i ≤ j → j + length bs ≤ length mem →
  drop i (put_bytes mem j bs) = take (j - i) (drop i mem) ++ bs ++ drop (j + length bs) mem.
Proof.
  intros. unfold put_bytes. rewrite drop_app_le by (rewrite length_take; lia).
  by rewrite skipn_firstn_comm.
Qed.

Lemma cell_drop mem i j : cell mem (i + j) = drop i mem !! j.
Proof. unfold cell. by rewrite lookup_drop. Qed.

Lemma cell_head mem i P rest : drop i mem = P ++ NUL :: rest →
  cell mem i = Some (hd NUL P).
Proof.
  intros H. replace i with (i + 0) by lia. rewrite cell_drop, H. by destruct P.
Qed.

(** [mem] holds the NUL-terminated bytes [P] at index [i]. *)
Definition holds_str (mem : list ascii) (i : nat) (P : list ascii) : Prop :=
  length mem = S MAX_AT_RESPONSE ∧ ∃ stale, drop i mem = P ++ NUL :: stale.

Lemma holds_bound mem i P : holds_str mem i P → i + length P ≤ MAX_AT_RESPONSE.
Proof.
  intros [Hl [stale H]]. apply (f_equal length) in H.
  rewrite length_drop, length_app in H. simpl in H. lia.
Qed.

Lemma take_while_stop_app {A} (p : A → bool) l x r :
  Forall (λ y, p y = true) l → p x = false →
  take_while p (l ++ x :: r) = l ∧ drop_while p (l ++ x :: r) = x :: r.
Proof.
  intros Hl Hx. rewrite take_while_app_all, drop_while_app_all by done.
  simpl. rewrite Hx. by rewrite app_nil_r.
Qed.

(** A scan that stops at NUL stops in the string. *)
Lemma scan_holds (p : ascii → bool) mem i P :
  holds_str mem i P → p NUL = false → scan p mem i = Some (i + length (take_while p P)).
Proof.
  intros Hh Hp. pose proof (holds_bound _ _ _ Hh) as Hb. destruct Hh as [Hl [stale H]]. unfold scan.
  assert (E : take_while p (drop i mem) = take_while p P).
  { rewrite H. clear -Hp. induction P as [|c P IH]; simpl; [by rewrite Hp|].
    destruct (p c); [by rewrite IH|done]. }
  pose proof (take_while_length p P). rewrite E, (proj2 (Nat.ltb_lt _ _)) by lia. done.
Qed.

Lemma str_at_holds mem i P :
  holds_str mem i P → Forall (λ c, not_nul c = true) P → str_at mem i = Some P.
Proof.
  intros Hh HP. unfold str_at. rewrite (scan_holds not_nul _ _ _ Hh) by done.
  destruct Hh as [_ [stale H]]. rewrite H. cbn [mbind option_bind].
  pose proof (take_while_app_all not_nul P [] HP) as E. simpl in E. rewrite !app_nil_r in E. rewrite E.
  replace (i + length P - i) with (length P) by lia. by rewrite take_app_length.
Qed.

Lemma holds_put mem i bs :
  length mem = S MAX_AT_RESPONSE → i + length bs ≤ MAX_AT_RESPONSE →
  holds_str (put_bytes mem i (bs ++ [NUL])) i bs.
Proof.
  intros Hl Hb. split; [rewrite put_length; rewrite ?length_app; simpl; lia|].
  rewrite drop_put by (rewrite length_app; simpl; lia).
  rewrite <-app_assoc. by eexists.
Qed.

Lemma store_str mem i bs :
  length mem = S MAX_AT_RESPONSE → i + length bs ≤ MAX_AT_RESPONSE →
  store mem i (bs ++ [NUL]) = Some (put_bytes mem i (bs ++ [NUL])).
Proof. intros. apply store_Some. rewrite length_app. simpl. lia. Qed.

(** Appending at the terminator extends the string. *)
Lemma holds_append mem i P bs :
  holds_str mem i P → i + length P + length bs ≤ MAX_AT_RESPONSE →
  holds_str (put_bytes mem (i + length P) (bs ++ [NUL])) i (P ++ bs).
Proof.
  intros [Hl [stale H]] Hb.
  assert (length (bs ++ [NUL]) = S (length bs)) by (rewrite length_app; simpl; lia).
  split; [rewrite put_length; lia|].
  rewrite drop_put_before by lia. rewrite H.
  replace (i + length P - i) with (length P) by lia.
  rewrite take_app_length. eexists. by rewrite <-!app_assoc.
Qed.

Lemma is_nl_split P :
  P = take_while is_nl P ++ drop_while is_nl P ∧
  Forall (λ c, is_nl c = true) (take_while is_nl P).
Proof. split; [by rewrite take_drop_while|apply take_while_all]. Qed.

Lemma skip_newlines_holds mem i P :
  holds_str mem i P →
  let j := i + length (take_while is_nl P) in
  skip_newlines mem i = Some j ∧ holds_str mem j (drop_while is_nl P).
Proof.
  intros Hh. cbv zeta. split; [by apply scan_holds|]. destruct Hh as [Hl [stale H]]. split; [done|].
  exists stale. rewrite <-drop_drop, H, drop_while_skip, drop_app_le; [done|apply take_while_length].
Qed.

Lemma at_prompt_holds mem i P :
  holds_str mem i P → hd NUL P ≠ ">"%char → at_prompt mem i = Some false.
Proof.
  intros [_ [stale H]] Hgt. unfold at_prompt. rewrite (cell_head _ _ _ _ H). cbn [mbind option_bind].
  by rewrite (proj2 (Ascii.eqb_neq _ _) Hgt).
Qed.

(** The end of line the source looks for, on a string not starting with the
    prompt character. *)
Lemma findNextEOL_holds mem i P :
  holds_str mem i P → Forall (λ c, not_nul c = true) P → hd NUL P ≠ ">"%char →
  findNextEOL mem i = Some
    match drop_while (λ c, negb (is_nl c)) P with
    | [] => None
    | _ => Some (i + length (take_while (λ c, negb (is_nl c)) P))
    end.
Proof.
  intros Hh HP Hgt. unfold findNextEOL. rewrite (at_prompt_holds _ _ _ Hh Hgt). cbn [mbind option_bind].
  rewrite (scan_holds _ _ _ _ Hh) by done. cbn [mbind option_bind]. destruct Hh as [Hl [stale H]].
  assert (E : take_while (λ c, not_nul c && negb (is_nl c)) P = take_while (λ c, negb (is_nl c)) P).
  { clear -HP. induction HP as [|c P Hc _ IH]; simpl; [done|].
    rewrite Hc. simpl. destruct (is_nl c); simpl; [done|by rewrite IH]. }
  rewrite E, cell_drop, H. clear -HP. induction HP as [|c P Hc _ IH]; simpl; [done|].
  destruct (is_nl c) eqn:Enl; simpl.
  - unfold not_nul in Hc. apply negb_true_iff in Hc. by rewrite Hc.
  - rewrite Nat.add_succ_r. destruct (drop_while (λ c0, negb (is_nl c0)) P);
      destruct ((P ++ NUL :: stale) !! length (take_while (λ c0, negb (is_nl c0)) P)) as [x|]; simpl in *; try done;
      destruct (Ascii.eqb x NUL); try done.
Qed.

Lemma finish_line_holds mem i l c rest :
  holds_str mem i (l ++ c :: rest) → Forall (λ x, not_nul x = true) l →
  ∃ r', finish_line mem i (i + length l) = Some (RlLine l, r') ∧
        holds_str (s_ATBuffer r') (s_ATBufferCur r') rest.
Proof.
  intros Hh Hln. pose proof (holds_bound _ _ _ Hh) as Hb.
  destruct Hh as [Hl [stale H]]. rewrite length_app in Hb. simpl in Hb.
  assert (Hd : drop i (put_bytes mem (i + length l) [NUL]) = l ++ NUL :: rest ++ NUL :: stale).
  { rewrite drop_put_before by (simpl; lia). rewrite H.
    replace (i + length l - i) with (length l) by lia.
    rewrite <-app_assoc, take_app_length. simpl. do 2 f_equal.
    rewrite <-Nat.add_assoc, <-drop_drop, H, <-app_assoc, drop_app_ge by lia.
    by replace (length l + 1 - length l) with 1 by lia. }
  assert (Hlen : length (put_bytes mem (i + length l) [NUL]) = S MAX_AT_RESPONSE)
    by (rewrite put_length; simpl; lia).
  unfold finish_line. rewrite store_Some by (simpl; lia). cbn [mbind option_bind].
  rewrite (str_at_holds _ _ l); [|by split; eauto|done]. cbn [mbind option_bind].
  eexists. split; [done|]. cbn [s_ATBuffer s_ATBufferCur]. split; [done|]. exists stale.
  rewrite <-Nat.add_assoc, <-drop_drop, Hd, drop_app_ge by lia.
  by replace (length l + 1 - length l) with 1 by lia.
Qed.

(** ** Stream lemmas *)

Fixpoint isize (input : list ReadEvent) : nat :=
  match input with
  | [] => 0
  | RdData bs :: input' => S (length bs + isize input')
  | _ :: input' => S (isize input')
  end.

Lemma read_fd_whole n input :
  0 < n → whole_stream input →
  ∃ bs input', read_fd n input = Some (bs, input') ∧ length bs ≤ n ∧
    ((bs = [] ∧ bytes_of input = []) ∨
     (bs ≠ [] ∧ bytes_of input = bs ++ bytes_of input' ∧ whole_stream input' ∧
      isize input' < isize input)).
Proof.
  intros Hn. induction 1 as [|input Hw IH|bs input Hne Hw IH].
  - exists [], []. simpl. split_and!; [done|lia|by left].
  - destruct IH as (bs & input' & E & Hb & Hcase). exists bs, input'. simpl.
    split_and!; [done|done|]. destruct Hcase as [?|(?&?&?&?)]; [by left|right].
    split_and!; done || lia.
  - eexists _, _. simpl. split_and!; [done|rewrite length_take; lia|]. right.
    assert (Ht : take n bs ≠ []) by (destruct bs, n; simpl; done || lia).
    assert (Htl : 0 < length (take n bs)) by (destruct (take n bs); simpl; done || lia).
    pose proof (f_equal length (take_drop n bs)) as Hlen. rewrite length_app in Hlen.
    destruct (drop n bs) as [|c r] eqn:Ed.
    + split_and!; [done| |done|simpl in *; lia].
      by rewrite <-(take_drop n bs), Ed, app_nil_r at 1.
    + split_and!; [done| |by constructor|simpl in *; lia].
      simpl. rewrite <-(take_drop n bs), Ed at 1. by rewrite <-app_assoc.
Qed.

Lemma no_prompt_suffix a c s :
  is_nl c = true → no_prompt (a ++ c :: s) → no_prompt s.
Proof.
  intros Hc H x y ->. destruct (H (a ++ c :: x) y) as (a' & d & E & Hd).
  { by rewrite <-app_assoc. }
  destruct x as [|z x] using rev_ind.
  - apply app_inj_tail in E as [_ ->]. congruence.
  - exists x, z. split; [done|]. clear IHx.
    rewrite app_comm_cons, app_assoc in E. apply app_inj_tail in E as [_ ->]. done.
Qed.

Lemma lines_fit_suffix a s : lines_fit (a ++ s) → lines_fit s.
Proof.
  intros H x nl ln c -> Hnl Hln. eapply (H (a ++ x) nl ln c); try done.
  by rewrite <-app_assoc.
Qed.

Lemma stream_ok_suffix a c s :
  is_nl c = true → stream_ok (a ++ c :: s) → stream_ok s.
Proof.
  intros Hc [H1 H2 H3]. split.
  - by apply Forall_app in H1 as [_ [_ H1]%Forall_cons].
  - by eapply no_prompt_suffix.
  - apply (lines_fit_suffix (a ++ [c])). by rewrite <-app_assoc.
Qed.

(** At the start of a line the stream does not continue with the prompt. *)
Lemma no_prompt_head s : no_prompt s → hd NUL s ≠ ">"%char.
Proof.
  intros H. destruct s as [|c s]; simpl; [done|]. intros ->.
  destruct (H [] s eq_refl) as (a' & d & E & _). by destruct a'.
Qed.

Lemma hd_skip Q t : no_prompt (Q ++ t) → hd NUL (drop_while is_nl Q) ≠ ">"%char.
Proof.
  intros H. destruct (is_nl_split Q) as [E Hnl].
  destruct (drop_while is_nl Q) as [|z zs]; [done|]. simpl. intros ->.
  destruct (H (take_while is_nl Q) (zs ++ t)) as (a & c & Ea & Hc).
  { by rewrite E at 1; rewrite <-app_assoc. }
  rewrite Ea in Hnl. apply Forall_app in Hnl as [_ [Hc' _]%Forall_cons]. congruence.
Qed.

Lemma next_line_nls nls s :
  Forall (λ c, is_nl c = true) nls → next_line (nls ++ s) = next_line s.
Proof. intros H. unfold next_line. by rewrite drop_while_app_all. Qed.

Lemma next_line_split l c rest :
  Forall (λ x, is_nl x = false) l → is_nl c = true →
  drop_while is_nl (l ++ c :: rest) = l ++ c :: rest →
  next_line (l ++ c :: rest) = Some (l, rest).
Proof.
  intros Hl Hc E. unfold next_line. rewrite E.
  destruct (take_while_stop_app (λ x, negb (is_nl x)) l c rest) as [-> ->].
  - eapply Forall_impl; [exact Hl|]. simpl. by intros x ->.
  - by rewrite Hc.
  - done.
Qed.

(** The text before the first terminator, and whether there is one. *)
Lemma eol_cases P :
  drop_while is_nl P = P →
  (∃ l c rest, P = l ++ c :: rest ∧ l ≠ [] ∧ Forall (λ x, is_nl x = false) l ∧ is_nl c = true
     ∧ take_while (λ c, negb (is_nl c)) P = l ∧ drop_while (λ c, negb (is_nl c)) P = c :: rest)
  ∨ (Forall (λ x, is_nl x = false) P ∧ drop_while (λ c, negb (is_nl c)) P = []).
Proof.
  intros Hd. pose proof (take_while_all (λ c, negb (is_nl c)) P) as Ha.
  pose proof (take_drop_while (λ c, negb (is_nl c)) P) as Hs.
  assert (Ha' : Forall (λ x, is_nl x = false) (take_while (λ c, negb (is_nl c)) P)).
  { eapply Forall_impl; [exact Ha|]. intros x Hx%negb_true_iff. done. }
  destruct (drop_while (λ c, negb (is_nl c)) P) as [|c rest] eqn:E.
  - right. rewrite app_nil_r in Hs. by rewrite Hs in Ha'.
  - left. pose proof (drop_while_head _ _ _ _ E) as Hc. apply negb_false_iff in Hc.
    exists (take_while (λ c, negb (is_nl c)) P), c, rest. split_and!; try done.
    intros Hn. rewrite Hn in Hs. simpl in Hs. subst P. simpl in Hd. rewrite Hc in Hd.
    apply (f_equal length) in Hd. pose proof (drop_while_length is_nl rest). simpl in Hd. lia.
Qed.

Lemma drop_while_idem {A} (p : A → bool) l :
  drop_while p (drop_while p l) = drop_while p l.
Proof.
  induction l as [|x l IH]; simpl; [done|]. destruct (p x) eqn:E; [done|]. simpl. by rewrite E.
Qed.

(** What a [readline] that reaches data [s] must deliver. *)
Definition delivers (s : list ascii) (res : option (ReadlineResult * Reader * list ReadEvent))
    (size : nat) : Prop :=
  match next_line s with
  | Some (l, rest) =>
      ∃ r' input' P', res = Some (RlLine l, r', input') ∧
        holds_str (s_ATBuffer r') (s_ATBufferCur r') P' ∧
        whole_stream input' ∧ isize input' ≤ size ∧ rest = P' ++ bytes_of input'
  | None => ∃ r' input', res = Some (RlNull, r', input')
  end.

(** A complete line in the buffer is delivered at once. *)
Lemma delivers_buffered mem cur P input size :
  holds_str mem cur P → drop_while is_nl P = P →
  Forall (λ c, not_nul c = true) P → hd NUL P ≠ ">"%char →
  whole_stream input → isize input ≤ size →
  match findNextEOL mem cur with
  | Some (Some p_eol) =>
      delivers (P ++ bytes_of input) (r ← finish_line mem cur p_eol; Some (r, input)) size
  | Some None => Forall (λ x, is_nl x = false) P
  | None => False
  end.
Proof.
  intros Hh Hd HP Hgt Hw Hsz. rewrite (findNextEOL_holds _ _ _ Hh HP Hgt).
  destruct (eol_cases P Hd) as [(l & c & rest & -> & Hne & Hl & Hc & Et & Ed)|[Hn Ed]];
    rewrite Ed; [|done].
  rewrite Et. apply Forall_app in HP as [HPl _].
  destruct (finish_line_holds _ _ _ _ _ Hh HPl) as (r' & -> & Hh'). cbn [mbind option_bind].
  unfold delivers. rewrite <-app_assoc. rewrite <-app_comm_cons.
  rewrite next_line_split; [|done|done|].
  - eexists _, _, _. split_and!; try done.
  - destruct l as [|x l]; [done|]. simpl. apply Forall_cons in Hl as [-> _]. done.
Qed.

(** At the end of the input an incomplete line is not delivered. *)
Lemma delivers_end P r input size :
  Forall (λ x, is_nl x = false) P → delivers P (Some (RlNull, r, input)) size.
Proof.
  intros HP. unfold delivers, next_line.
  assert (E : drop_while is_nl P = P).
  { destruct P; [done|]. apply Forall_cons in HP as [HP _]. simpl. by rewrite HP. }
  rewrite E. destruct (eol_cases P E) as [(l & c & l' & -> & _ & _ & Hc & _)|[_ ->]]; [|eauto].
  apply Forall_app in HP as [_ [Hc' _]%Forall_cons]. congruence.
Qed.

Lemma delivers_mono st res size size' :
  size ≤ size' → delivers st res size → delivers st res size'.
Proof.
  intros Hle. unfold delivers. destruct (next_line st) as [[l r]|]; [|done].
  intros (r' & i' & P' & ? & ? & ? & ? & ?). exists r', i', P'. split_and!; try done. lia.
Qed.

Lemma no_prompt_tail nls s :
  Forall (λ c, is_nl c = true) nls → no_prompt (nls ++ s) → no_prompt s.
Proof.
  intros Hnl Hpr. destruct nls as [|x n _] using rev_ind; [done|]. rewrite <-app_assoc in Hpr.
  eapply no_prompt_suffix; [|exact Hpr]. by apply Forall_app in Hnl as [_ [? _]%Forall_cons].
Qed.

Lemma read_loop_delivers fuel mem k P input nls :
  holds_str mem k P → Forall (λ x, is_nl x = false) P →
  length nls = k → Forall (λ c, is_nl c = true) nls →
  let s := P ++ bytes_of input in
  Forall (λ c, not_nul c = true) s → no_prompt s → lines_fit (nls ++ s) →
  whole_stream input → isize input < fuel →
  delivers s (read_loop fuel mem k (k + length P) input) (isize input).
Proof.
  revert mem k P input nls. induction fuel as [|fuel IH]; [lia|].
  intros mem k P input nls Hh HP Hk Hnls s Hnul Hpr Hfit Hw Hsz.
  assert (Hspace : k + length P < MAX_AT_RESPONSE).
  { rewrite <-Hk. apply (Hfit [] nls P (bytes_of input)); done. }
  cbn [read_loop]. unfold ditch_full.
  destruct (Nat.eqb_spec (MAX_AT_RESPONSE - (k + length P)) 0) as [?|_]; [lia|]. cbn [mbind option_bind].
  destruct (read_fd_whole (MAX_AT_RESPONSE - (k + length P)) input) as
    (bs & input' & -> & Hbs & Hcase); [lia|done|].
  destruct Hcase as [[-> Hnil]|(Hne & Hbytes & Hw' & Hsz')].
  { unfold s. rewrite Hnil, app_nil_r. by apply delivers_end. }
  destruct bs as [|b bs]; [done|]. set (got := b :: bs) in *.
  assert (Hs : s = (P ++ got) ++ bytes_of input') by (unfold s; by rewrite Hbytes, app_assoc).
  assert (Hlm : length mem = S MAX_AT_RESPONSE) by apply Hh.
  pose proof (holds_append mem k P got Hh ltac:(lia)) as Hh1.
  rewrite store_str by (done || lia). cbn [mbind option_bind].
  destruct (skip_newlines_holds _ _ _ Hh1) as [Ecur Hh2]. rewrite Ecur. cbn [mbind option_bind].
  set (mem1 := put_bytes mem (k + length P) (got ++ [NUL])) in *.
  set (P1 := drop_while is_nl (P ++ got)) in *.
  destruct (is_nl_split (P ++ got)) as [Esplit Hnl1]. fold P1 in Esplit.
  set (nl1 := take_while is_nl (P ++ got)) in *. set (k1 := k + length nl1) in *.
  assert (Hs1 : s = nl1 ++ (P1 ++ bytes_of input')) by (rewrite app_assoc, <-Esplit; done).
  assert (Hdel : ∀ res sz, delivers (P1 ++ bytes_of input') res sz → delivers s res sz).
  { intros res sz. rewrite Hs1. unfold delivers. by rewrite (next_line_nls nl1). }
  assert (HP1 : Forall (λ c, not_nul c = true) (P1 ++ bytes_of input')).
  { rewrite Hs1 in Hnul. by apply Forall_app in Hnul as [_ ?]. }
  assert (Hpr1 : no_prompt (P1 ++ bytes_of input')).
  { rewrite Hs1 in Hpr. by apply (no_prompt_tail nl1). }
  assert (Hgt : hd NUL P1 ≠ ">"%char).
  { apply no_prompt_head in Hpr1. clear -Hpr1. by destruct P1. }
  assert (HdP1 : drop_while is_nl P1 = P1) by apply drop_while_idem.
  pose proof (delivers_buffered mem1 k1 P1 input' (isize input)
    Hh2 HdP1 (proj1 (proj1 (Forall_app _ _ _) HP1)) Hgt Hw' ltac:(lia)) as Hbuf.
  destruct (findNextEOL mem1 k1) as [[p_eol|]|]; cbn [mbind option_bind]; [by apply Hdel| |done].
  assert (Hlen : k + length P + length got = k1 + length P1).
  { apply (f_equal length) in Esplit. rewrite !length_app in Esplit. unfold k1. lia. }
  rewrite Hlen. apply Hdel.
  apply (delivers_mono _ _ (isize input')); [lia|].
  eapply (IH _ _ P1 input' (nls ++ nl1)); try done.
  - rewrite length_app. unfold k1. lia.
  - by apply Forall_app.
  - rewrite <-app_assoc, <-Hs1. exact Hfit.
  - lia.
Qed.

(** What holds between two calls: the buffer holds [P] and the stream from
    the next byte on is [P] followed by what is still to be read. *)
Definition reader_at (r : Reader) (input : list ReadEvent) (s : list ascii) : Prop :=
  ∃ P, holds_str (s_ATBuffer r) (s_ATBufferCur r) P ∧ whole_stream input ∧
       s = P ++ bytes_of input.

Lemma delivers_start mem input nls P :
  length mem = S MAX_AT_RESPONSE →
  Forall (λ x, is_nl x = false) P → stream_ok (nls ++ P ++ bytes_of input) →
  Forall (λ c, is_nl c = true) nls → whole_stream input →
  ∀ fuel, isize input < fuel →
  delivers (P ++ bytes_of input)
    (read_loop fuel (put_bytes mem 0 (P ++ [NUL])) 0 (length P) input) (isize input).
Proof.
  intros Hl HP [Hnul Hpr Hfit] Hnls Hw fuel Hf.
  assert (Hb : length P < MAX_AT_RESPONSE).
  { pose proof (Hfit nls [] P (bytes_of input) eq_refl) as Hb. simpl in Hb. apply Hb; done. }
  change (length P) with (0 + length P).
  eapply (read_loop_delivers _ _ _ _ _ []); try done.
  - apply holds_put; [done|lia].
  - by apply Forall_app in Hnul as [_ ?].
  - destruct nls as [|x n _] using rev_ind; [done|]. rewrite <-app_assoc in Hpr.
    eapply no_prompt_suffix; [|exact Hpr]. by apply Forall_app in Hnls as [_ [? _]%Forall_cons].
  - eapply lines_fit_suffix. exact Hfit.
Qed.

Lemma readline_delivers r input s fuel :
  reader_at r input s → stream_ok s → isize input < fuel →
  delivers s (readline fuel r input) (isize input).
Proof.
  intros (P & Hh & Hw & ->) Hok Hf. unfold readline.
  destruct (is_nl_split P) as [Esplit Hnl].
  destruct (skip_newlines_holds _ _ _ Hh) as [Ecur Hh2].
  pose proof Hh as [Hl [stale Hd]]. rewrite (cell_head _ _ _ _ Hd). cbn [mbind option_bind].
  destruct P as [|c P]; simpl hd.
  { rewrite store_Some by (simpl; lia). by apply (delivers_start _ _ [] []). }
  pose proof (so_nul _ Hok) as [Hc _]%Forall_cons.
  apply negb_true_iff in Hc. rewrite Hc, Ecur. cbn [mbind option_bind].
  set (Q := c :: P) in *. set (nls := take_while is_nl Q) in *. set (P1 := drop_while is_nl Q) in *.
  assert (Es : Q ++ bytes_of input = nls ++ (P1 ++ bytes_of input)).
  { by rewrite Esplit at 1; rewrite <-app_assoc. }
  assert (Hgt : hd NUL P1 ≠ ">"%char) by apply (hd_skip Q (bytes_of input)), Hok.
  rewrite Es in Hok |- *.
  assert (HnulP : Forall (λ x, not_nul x = true) P1).
  { apply so_nul, Forall_app in Hok as [_ [? _]%Forall_app]. done. }
  pose proof (delivers_buffered _ _ P1 input (isize input) Hh2 (drop_while_idem _ _)
    HnulP Hgt Hw (le_n _)) as Hbuf.
  assert (Hdel : ∀ res sz, delivers (P1 ++ bytes_of input) res sz →
                           delivers (nls ++ P1 ++ bytes_of input) res sz).
  { intros res sz. unfold delivers. by rewrite (next_line_nls nls). }
  apply Hdel. destruct (findNextEOL _ _) as [[p_eol|]|]; cbn [mbind option_bind]; [exact Hbuf| |done].
  rewrite (str_at_holds _ _ _ Hh2) by done. cbn [mbind option_bind].
  rewrite store_str; [|done|pose proof (holds_bound _ _ _ Hh2); lia]. cbn [mbind option_bind].
  eapply delivers_start; [apply Hl|done|exact Hok|done|done|done].
Qed.

Lemma next_line_lines acc s :
  Forall (λ x, is_nl x = false) acc →
  lines_from acc s =
  match acc, drop_while (λ c, negb (is_nl c)) s with
  | [], _ => match next_line s with Some (l, r) => l :: lines_from [] r | None => [] end
  | _, [] => []
  | _, _ :: r => (rev acc ++ take_while (λ c, negb (is_nl c)) s) :: lines_from [] r
  end.
Proof.
  revert acc. induction s as [|c s IH]; intros acc Hacc; simpl; [by destruct acc|].
  destruct (is_nl c) eqn:Ec; simpl.
  - destruct acc as [|a acc].
    + rewrite IH by done. unfold next_line. simpl. by rewrite Ec.
    + by rewrite app_nil_r.
  - rewrite IH by (by constructor). destruct acc as [|a acc].
    + unfold next_line. simpl. rewrite Ec. simpl. rewrite Ec. simpl.
      by destruct (drop_while _ s).
    + destruct (drop_while _ s); [done|]. simpl. by rewrite <-!app_assoc.
Qed.

Lemma lines_of_next s :
  lines_of s = match next_line s with Some (l, r) => l :: lines_of r | None => [] end.
Proof. unfold lines_of. by rewrite next_line_lines. Qed.

Lemma next_line_suffix s l r :
  next_line s = Some (l, r) → ∃ a c, s = a ++ c :: r ∧ is_nl c = true ∧ length r < length s.
Proof.
  unfold next_line.
  destruct (drop_while (λ c, negb (is_nl c)) (drop_while is_nl s)) as [|c rest] eqn:E; [done|].
  intros [= <- <-].
  pose proof (take_drop_while is_nl s) as H1.
  pose proof (take_drop_while (λ c, negb (is_nl c)) (drop_while is_nl s)) as H2.
  rewrite E in H2. rewrite <-H2, app_assoc in H1.
  eexists _, c. split_and!; [by symmetry|by apply drop_while_head, negb_false_iff in E|].
  apply (f_equal length) in H1. rewrite !length_app in H1. simpl in H1. lia.
Qed.

Lemma read_all_lines calls fuel r input s :
  reader_at r input s → stream_ok s → isize input < fuel → length s < calls →
  read_all calls fuel r input = LinesUpTo (lines_of s).
Proof.
  revert r input s. induction calls as [|calls IH]; [lia|].
  intros r input s Hr Hok Hf Hc. cbn [read_all]. rewrite lines_of_next.
  pose proof (readline_delivers _ _ _ _ Hr Hok Hf) as Hdel. unfold delivers in Hdel.
  destruct (next_line s) as [[l rest]|] eqn:En.
  - destruct Hdel as (r' & input' & P' & -> & Hh & Hw & Hsz & ->).
    apply next_line_suffix in En as (a & c & -> & Hnl & Hlen).
    rewrite (IH r' input' (P' ++ bytes_of input')); [done| | |lia|lia].
    + by exists P'.
    + eapply stream_ok_suffix; done.
  - destruct Hdel as (r' & input' & ->). done.
Qed.

Lemma reader_at_init input : whole_stream input → reader_at reader_init input (bytes_of input).
Proof.
  intros Hw. exists []. split_and!; [|done|done].
  split; [apply length_replicate|]. exists (replicate MAX_AT_RESPONSE NUL). done.
Qed.

(** ** Bounds of the buffer, for any input at all *)

(** The buffer has its size and its last byte is NUL. *)
Definition mem_wf (mem : list ascii) : Prop :=
  length mem = S MAX_AT_RESPONSE ∧ cell mem MAX_AT_RESPONSE = Some NUL.

Lemma mem_wf_put mem i bs :
  mem_wf mem → i + length bs ≤ MAX_AT_RESPONSE →
  store mem i (bs ++ [NUL]) = Some (put_bytes mem i (bs ++ [NUL])) ∧ mem_wf (put_bytes mem i (bs ++ [NUL])).
Proof.
  intros [Hl Hlast] Hb. split; [by apply store_str|].
  assert (E : length (bs ++ [NUL]) = S (length bs)) by (rewrite length_app; simpl; lia).
  split; [rewrite put_length; lia|].
  replace MAX_AT_RESPONSE with (i + (MAX_AT_RESPONSE - i)) by lia.
  rewrite cell_drop, drop_put by lia.
  destruct (decide (MAX_AT_RESPONSE - i = length bs)) as [Heq|Hne].
  - rewrite lookup_app_l by lia. by rewrite Heq, lookup_app_r, Nat.sub_diag.
  - rewrite lookup_app_r, E, <-cell_drop by lia.
    by replace (i + S (length bs) + (MAX_AT_RESPONSE - i - S (length bs))) with MAX_AT_RESPONSE by lia.
Qed.

(** A scan that stops at NUL stops in the buffer, at a byte of its kind. *)
Lemma scan_wf (p : ascii → bool) mem i :
  mem_wf mem → p NUL = false → i ≤ MAX_AT_RESPONSE →
  ∃ j c, scan p mem i = Some j ∧ i ≤ j ≤ MAX_AT_RESPONSE ∧ cell mem j = Some c ∧ p c = false ∧
         ∀ k x, i ≤ k < j → cell mem k = Some x → p x = true.
Proof.
  intros [Hl Hlast] Hp Hi. pose proof (take_drop_while p (drop i mem)) as Hs.
  pose proof (take_while_all p (drop i mem)) as Ha.
  set (t := take_while p (drop i mem)) in *.
  destruct (drop_while p (drop i mem)) as [|c d] eqn:Ed.
  { exfalso. rewrite app_nil_r in Hs. rewrite Hs in Ha.
    assert (Hn : drop i mem !! (MAX_AT_RESPONSE - i) = Some NUL).
    { rewrite <-cell_drop. by replace (i + (MAX_AT_RESPONSE - i)) with MAX_AT_RESPONSE by lia. }
    apply (Forall_lookup_1 _ _ _ _ Ha) in Hn. congruence. }
  assert (Hlen : i + length t < S MAX_AT_RESPONSE).
  { apply (f_equal length) in Hs. rewrite length_app, length_drop in Hs. simpl in Hs. lia. }
  exists (i + length t), c. unfold scan. fold t. rewrite (proj2 (Nat.ltb_lt _ _)) by lia.
  split_and!; [done|lia|lia| |by apply drop_while_head in Ed|].
  - by rewrite cell_drop, <-Hs, list_lookup_middle.
  - intros k x Hk Hx. replace k with (i + (k - i)) in Hx by lia.
    rewrite cell_drop, <-Hs, lookup_app_l in Hx by lia. by apply (Forall_lookup_1 _ _ _ _ Ha) in Hx.
Qed.

Lemma str_at_wf mem i :
  mem_wf mem → i ≤ MAX_AT_RESPONSE →
  ∃ l, str_at mem i = Some l ∧ i + length l ≤ MAX_AT_RESPONSE ∧
       ∀ k, (∀ x j, i ≤ j < k → cell mem j = Some x → x ≠ NUL) → cell mem k = Some NUL → i ≤ k →
            l = take (k - i) (drop i mem).
Proof.
  intros Hwf Hi. destruct (scan_wf not_nul mem i Hwf eq_refl Hi) as (j & c & E & Hj & Hc & Hn & Hb).
  unfold str_at. rewrite E. cbn [mbind option_bind]. eexists. split; [done|]. split.
  - rewrite length_take, length_drop. lia.
  - intros k Hk Hz Hik. apply negb_false_iff, Ascii.eqb_eq in Hn as ->.
    destruct (Nat.lt_trichotomy j k) as [Hlt|[->|Hgt]]; [|done|].
    + exfalso. by apply (Hk NUL j); [lia|..].
    + assert (Hnn : not_nul NUL = true) by (apply (Hb k); [lia|done]). done.
Qed.

Lemma at_prompt_wf mem cur :
  mem_wf mem → cur ≤ MAX_AT_RESPONSE →
  ∃ b, at_prompt mem cur = Some b ∧
    (b = true → cur + 2 ≤ MAX_AT_RESPONSE ∧ cell mem cur = Some ">"%char ∧
                cell mem (cur + 1) = Some " "%char ∧ cell mem (cur + 2) = Some NUL).
Proof.
  intros [Hl Hlast] Hc. unfold at_prompt.
  assert (Hin : ∀ i, i ≤ MAX_AT_RESPONSE → ∃ x, cell mem i = Some x)
    by (intros i Hi; apply lookup_lt_is_Some_2; lia).
  assert (Hnext : ∀ i x, i ≤ MAX_AT_RESPONSE → cell mem i = Some x → x ≠ NUL → i + 1 ≤ MAX_AT_RESPONSE).
  { intros i x Hi Hx Hn. destruct (decide (i = MAX_AT_RESPONSE)) as [->|]; [congruence|lia]. }
  destruct (Hin cur Hc) as [c0 E0]. rewrite E0. cbn [mbind option_bind].
  destruct (Ascii.eqb_spec c0 ">") as [->|]; [|by exists false].
  destruct (Hin (cur + 1)) as [c1 E1]; [by apply (Hnext _ _ Hc E0)|]. rewrite E1. cbn [mbind option_bind].
  destruct (Ascii.eqb_spec c1 " ") as [->|]; [|by exists false].
  assert (Hc2 : cur + 1 + 1 ≤ MAX_AT_RESPONSE) by (eapply Hnext; [|exact E1|done]; by apply (Hnext _ _ Hc E0)).
  destruct (Hin (cur + 2)) as [c2 E2]; [lia|]. rewrite E2. cbn [mbind option_bind].
  exists (Ascii.eqb c2 NUL). split; [done|]. intros ->%Ascii.eqb_eq. by split_and!; [lia|..].
Qed.

(** The end of a line is in the buffer, and at its last byte only for a
    prompt. *)
Lemma findNextEOL_wf mem cur :
  mem_wf mem → cur ≤ MAX_AT_RESPONSE →
  ∃ eol, findNextEOL mem cur = Some eol ∧
    match eol with
    | None => True
    | Some p => cur ≤ p ∧ (p < MAX_AT_RESPONSE ∨
        p = cur + 2 ∧ p = MAX_AT_RESPONSE ∧ cell mem cur = Some ">"%char ∧ cell mem (cur + 1) = Some " "%char)
    end.
Proof.
  intros Hwf Hc. unfold findNextEOL. destruct (at_prompt_wf mem cur Hwf Hc) as (b & -> & Hb).
  cbn [mbind option_bind]. destruct b.
  { destruct (Hb eq_refl) as (? & ? & ? & ?). eexists. split; [done|]. split; [lia|].
    destruct (decide (cur + 2 = MAX_AT_RESPONSE)); [right|left; lia]. by split_and!. }
  destruct (scan_wf (λ c, not_nul c && negb (is_nl c)) mem cur Hwf eq_refl Hc) as (j & c & -> & Hj & Hcell & _ & _).
  cbn [mbind option_bind]. rewrite Hcell. cbn [mbind option_bind]. eexists. split; [done|].
  destruct (Ascii.eqb_spec c NUL) as [|Hn]; [done|]. split; [lia|]. left.
  destruct (decide (j = MAX_AT_RESPONSE)) as [->|]; [|lia]. destruct Hwf. congruence.
Qed.

(** The cursor is in the buffer, or one past it after a prompt. *)
Definition readline_ok (res : ReadlineResult * Reader * list ReadEvent) : Prop :=
  let '(rl, r, _) := res in
  mem_wf (s_ATBuffer r) ∧
  (s_ATBufferCur r ≤ MAX_AT_RESPONSE ∨
   s_ATBufferCur r = S MAX_AT_RESPONSE ∧ rl = RlLine [">"; " "]%char).

Lemma finish_line_wf mem cur p input :
  mem_wf mem → cur ≤ p → p < MAX_AT_RESPONSE ∨
    p = cur + 2 ∧ p = MAX_AT_RESPONSE ∧ cell mem cur = Some ">"%char ∧ cell mem (cur + 1) = Some " "%char →
  ∃ res, (r ← finish_line mem cur p; Some (r, input)) = Some res ∧ readline_ok res.
Proof.
  intros Hwf Hcp Hp. unfold finish_line.
  destruct (mem_wf_put mem p [] Hwf) as [Es Hwf']; [simpl; lia|]. cbn [app] in Es, Hwf'.
  rewrite Es. cbn [mbind option_bind]. set (mem' := put_bytes mem p [NUL]) in *.
  destruct (str_at_wf mem' cur Hwf') as (l & -> & _ & Hl); [lia|]. cbn [mbind option_bind].
  eexists. split; [done|]. cbn. split; [done|]. destruct Hp as [Hp|(Ep & Em & E0 & E1)]; [left; lia|right].
  split; [lia|]. f_equal.
  assert (Hbefore : ∀ i, i < p → cell mem' i = cell mem i).
  { intros i Hi. unfold cell, mem', put_bytes. destruct Hwf as [Hlen _].
    rewrite lookup_app_l by (rewrite length_take; lia). by apply lookup_take_lt. }
  rewrite <-(Hbefore cur) in E0 by lia. rewrite <-(Hbefore (cur + 1)) in E1 by lia.
  rewrite (Hl (cur + 2)).
  - replace (cur + 2 - cur) with 2 by lia. pose proof (cell_drop mem' cur 0) as D0.
    rewrite Nat.add_0_r in D0. rewrite D0 in E0. rewrite cell_drop in E1. clear -E0 E1.
    destruct (drop cur mem') as [|a [|b d]]; simpl in *; try done.
    injection E0 as ->. injection E1 as ->. by rewrite take_0.
  - intros x j Hj Hx. assert (j = cur ∨ j = cur + 1) as [-> | ->] by lia; intros ->;
      [rewrite Hx in E0; discriminate E0|rewrite Hx in E1; discriminate E1].
  - replace (cur + 2) with MAX_AT_RESPONSE by lia. apply Hwf'.
  - lia.
Qed.

Lemma read_fd_length n input bs input' :
  read_fd n input = Some (bs, input') → length bs ≤ n.
Proof.
  induction input as [|[bs'| | |] input IH]; simpl; intros H; simplify_eq; simpl; auto with lia.
  rewrite length_take. lia.
Qed.

Lemma read_loop_wf fuel mem cur p_read input :
  mem_wf mem → cur ≤ MAX_AT_RESPONSE → p_read ≤ MAX_AT_RESPONSE →
  ∃ res, read_loop fuel mem cur p_read input = Some res ∧ readline_ok res.
Proof.
  revert mem cur p_read input. induction fuel as [|fuel IH]; intros mem cur p_read input Hwf Hc Hp;
    cbn [read_loop]; [eexists; split; [done|by split; [|left]]|].
  assert (Hm : ∃ mem1 cur1 p1, ditch_full mem cur p_read = Some (mem1, cur1, p1) ∧
    mem_wf mem1 ∧ cur1 ≤ MAX_AT_RESPONSE ∧ p1 ≤ MAX_AT_RESPONSE).
  { unfold ditch_full. destruct (_ =? 0); [|by eauto 10].
    destruct (mem_wf_put mem 0 [] Hwf) as [Es ?]; [simpl; lia|]. cbn [app] in Es. rewrite Es.
    do 3 eexists. split; [done|]. split_and!; [done|lia..]. }
  destruct Hm as (mem1 & cur1 & p1 & -> & Hwf1 & Hc1 & Hp1). cbn [mbind option_bind].
  destruct (read_fd _ input) as [[bs input']|] eqn:Er; [|eexists; split; [done|by split; [|left]]].
  apply read_fd_length in Er. destruct bs as [|b bs]; [eexists; split; [done|by split; [|left]]|].
  destruct (mem_wf_put mem1 p1 (b :: bs) Hwf1) as [-> Hwf2]; [simpl in *; lia|]. cbn [mbind option_bind].
  destruct (scan_wf is_nl _ _ Hwf2 eq_refl Hc1) as (cur2 & x & Ek & Hc2 & _).
  unfold skip_newlines. rewrite Ek. cbn [mbind option_bind].
  destruct (findNextEOL_wf _ cur2 Hwf2) as (eol & -> & Heol); [lia|]. cbn [mbind option_bind].
  destruct eol as [p|]; [destruct Heol; by apply finish_line_wf|]. apply IH; [done|lia|simpl in *; lia].
Qed.

Lemma readline_wf fuel r input :
  mem_wf (s_ATBuffer r) → s_ATBufferCur r ≤ MAX_AT_RESPONSE →
  ∃ res, readline fuel r input = Some res ∧ readline_ok res.
Proof.
  intros Hwf Hc. unfold readline. destruct (lookup_lt_is_Some_2 (s_ATBuffer r) (s_ATBufferCur r)) as [c Ec].
  { destruct Hwf. lia. }
  unfold cell. rewrite Ec. cbn [mbind option_bind]. destruct (Ascii.eqb_spec c NUL).
  - destruct (mem_wf_put _ 0 [] Hwf) as [Es Hwf']; [simpl; lia|]. cbn [app] in Es. rewrite Es.
    apply read_loop_wf; [done|lia..].
  - destruct (scan_wf is_nl _ _ Hwf eq_refl Hc) as (cur & x & Ek & Hc2 & _).
    unfold skip_newlines. rewrite Ek. cbn [mbind option_bind].
    destruct (findNextEOL_wf _ cur Hwf) as (eol & -> & Heol); [lia|]. cbn [mbind option_bind].
    destruct eol as [p|]; [destruct Heol; by apply finish_line_wf|].
    destruct (str_at_wf _ cur Hwf) as (l & -> & Hl & _); [lia|]. cbn [mbind option_bind].
    destruct (mem_wf_put _ 0 l Hwf) as [-> Hwf']; [lia|]. cbn [mbind option_bind].
    apply read_loop_wf; [done|lia..].
Qed.

(** Past the buffer there is nothing to read. *)
Lemma readline_outside fuel r input :
  length (s_ATBuffer r) ≤ s_ATBufferCur r → readline fuel r input = None.
Proof. intros H. unfold readline, cell. by rewrite lookup_ge_None_2. Qed.
End reader.

(** The size the driver uses. *)
Definition AT_RESPONSE_SIZE : nat := 8 * 1024.

Lemma lines_fit_short size s : length s < size → lines_fit size s.
Proof. intros Hl a nl ln c -> _ _. rewrite !length_app in Hl. lia. Qed.

Lemma no_prompt_none s : Forall (λ c, Ascii.eqb c ">" = false) s → no_prompt s.
Proof. intros H a b ->. apply Forall_app in H as [_ [? _]%Forall_cons]. done. Qed.

Definition chars : string → list ascii := list_ascii_of_string.

Definition CRLF : string := String CR (String LF EmptyString).

(** A response to AT+CSQ, cut inside the line, with an interrupted read. *)
Definition sample_input : list ReadEvent :=
  [RdData (chars (CRLF +:+ "+CSQ:2")); RdIntr;
   RdData (chars ("3,99" +:+ CRLF +:+ CRLF +:+ "O")); RdData (chars ("K" +:+ CRLF)); RdEOF].

Lemma sample_input_ok : whole_stream sample_input ∧ stream_ok AT_RESPONSE_SIZE (bytes_of sample_input).
Proof.
  split; [repeat constructor; discriminate|]. split.
  - by repeat constructor.
  - apply no_prompt_none. by repeat constructor.
  - apply lines_fit_short. apply Nat.ltb_lt. by vm_compute.
Qed.

(** ** Properties of the line reader *)

(** C8: the lines [readline] returns depend only on the bytes the modem sent,
    not on how [read] cut them up.  For any stream of NUL-free bytes in which no
    line starts with the prompt character and every line fits the buffer, cut
    into any non-empty pieces with any number of interrupted reads in between,
    calling [readline] until it returns NULL yields exactly the complete
    non-empty lines of the stream, in order. *)
Theorem readline_chunking (size : nat) (input : list ReadEvent) (calls fuel : nat) :
  whole_stream input → stream_ok size (bytes_of input) →
  isize input < fuel → length (bytes_of input) < calls →
  read_all size calls fuel (reader_init size) input = LinesUpTo (lines_of (bytes_of input)).
Proof. intros Hw Hok Hf Hc. apply read_all_lines; try done. by apply reader_at_init. Qed.

(** C21: the accesses to the line buffer.  Whatever [read] delivers - NUL
    bytes, prompts, over-long lines, errors - a call of [readline] that starts
    with its cursor in the buffer reads and writes inside it only, and keeps its
    size and the NUL in its last byte.  The cursor it leaves is in the buffer
    again, with one exception: a prompt that ends at the last byte leaves it one
    past the end, and then the next call reads outside the buffer, whatever
    happens. *)
Theorem readline_in_bounds (size fuel : nat) (r : Reader) (input : list ReadEvent) :
  mem_wf size (s_ATBuffer r) → s_ATBufferCur r ≤ size →
  ∃ res r' rest, readline size fuel r input = Some (res, r', rest) ∧ mem_wf size (s_ATBuffer r') ∧
    (s_ATBufferCur r' ≤ size ∨
     (s_ATBufferCur r' = S size ∧ res = RlLine (chars "> ") ∧
      ∀ fuel' input', readline size fuel' r' input' = None)).
Proof.
  intros Hwf Hc. destruct (readline_wf size fuel r input Hwf Hc) as ([[res r'] rest] & E & Hwf' & Hcur).
  exists res, r', rest. split_and!; [done|done|]. destruct Hcur as [Hcur|[Hcur ->]]; [by left|right].
  split_and!; [done|done|]. intros fuel' input'. apply readline_outside. destruct Hwf' as [-> _]. lia.
Qed.

Lemma readline_chunking_witness :
  read_all AT_RESPONSE_SIZE 60 60 (reader_init AT_RESPONSE_SIZE) sample_input =
  LinesUpTo (lines_of (bytes_of sample_input)) ∧
  lines_of (bytes_of sample_input) = [chars "+CSQ:23,99"; chars "OK"].
Proof.
  split; [|by vm_compute].
  apply readline_chunking; [apply sample_input_ok|apply sample_input_ok| |];
    apply Nat.ltb_lt; by vm_compute.
Defined.

Lemma readline_in_bounds_witness :
  ∃ res r' rest, readline 8 5 (reader_init 8) [RdData (chars "123456789")] = Some (res, r', rest) ∧
    mem_wf 8 (s_ATBuffer r') ∧
    (s_ATBufferCur r' ≤ 8 ∨
     (s_ATBufferCur r' = 9 ∧ res = RlLine (chars "> ") ∧
      ∀ fuel' input', readline 8 fuel' r' input' = None)).
Proof.
  apply (readline_in_bounds 8 5 (reader_init 8) [RdData (chars "123456789")]);
    [by split|simpl; lia].
Defined.

(** 8190 line feeds and a prompt in one [read] fill the buffer of the driver;
    the call after the prompt reads outside it. *)
Definition prompt_at_end : list ReadEvent := [RdData (replicate (AT_RESPONSE_SIZE - 2) LF ++ chars "> ")].

Example prompt_overrun :
  (res ← readline AT_RESPONSE_SIZE 2 (reader_init AT_RESPONSE_SIZE) prompt_at_end; Some res.1.1) =
    Some (RlLine (chars "> ")) ∧
  read_all AT_RESPONSE_SIZE 2 2 (reader_init AT_RESPONSE_SIZE) prompt_at_end = OutsideBuffer.
Proof. split; vm_compute; reflexivity. Qed.

(** After the SMS prompt [readline] hands stale bytes to its caller.  The
    prompt leaves the cursor one byte past the terminator, so what an earlier,
    longer read left there is taken for received data: the modem sends a line,
    the prompt and another line, and [readline] returns four lines, the third
    made of bytes of the first. *)
Theorem readline_prompt_stale :
  read_all 64 6 9 (reader_init 64)
    [RdData (chars ("+CMGW:12345" +:+ CRLF)); RdData (chars "> ");
     RdData (chars (CRLF +:+ "^HCMGS:1" +:+ CRLF)); RdEOF] =
  LinesUpTo [chars "+CMGW:12345"; chars "> "; chars "GW:12345"; chars "^HCMGS:1"].
Proof. by vm_compute. Qed.

(** ** writeline and writeCtrlZ *)

Open Scope Z_scope.

Definition AT_ERROR_GENERIC : Z := -1.
Definition AT_ERROR_COMMAND_PENDING : Z := -2.
Definition AT_ERROR_CHANNEL_CLOSED : Z := -3.
Definition AT_ERROR_TIMEOUT : Z := -4.
Definition AT_ERROR_INVALID_THREAD : Z := -5.
Definition AT_ERROR_INVALID_RESPONSE : Z := -6.

(** The bytes accepted so far and the write results to come. *)
Record Tty := MkTty { tty_sent : list ascii; tty_out : list WriteEvent }.

Definition tty_write (bs : list ascii) (t : Tty) : Z * bool * Tty :=
  let '(n, eintr, out) := write_fd (length bs) (tty_out t) in
  (n, eintr, MkTty (tty_sent t ++ take (Z.to_nat n) bs) out).

(** [while (cur < len)] around [do write while (EINTR)]; [bs] is what remains.
    [None]: still looping when the fuel, one unit per [write], is gone. *)
Fixpoint write_all (fuel : nat) (bs : list ascii) (t : Tty) : option (Z * Tty) :=
  match bs with
  | [] => Some (0, t)
  | _ =>
      match fuel with
      | O => None
      | S fuel' =>
          let '(written, eintr, t') := tty_write bs t in
          if written <? 0 then
            if eintr then write_all fuel' bs t' else Some (AT_ERROR_GENERIC, t')
          else write_all fuel' (drop (Z.to_nat written) bs) t'
      end
  end.

(** [do write(&c, 1) while ((EINTR) || written == 0)] *)
Fixpoint write_byte (fuel : nat) (c : ascii) (t : Tty) : option (Z * Tty) :=
  match fuel with
  | O => None
  | S fuel' =>
      let '(written, eintr, t') := tty_write [c] t in
      if ((written <? 0) && eintr) || (written =? 0) then write_byte fuel' c t'
      else if written <? 0 then Some (AT_ERROR_GENERIC, t') else Some (0, t')
  end.

(** The body [writeline] and [writeCtrlZ] share: the string, then the byte. *)
Definition write_terminated (fuel : nat) (s_fd : Z) (s_readerClosed : Z)
    (s : string) (c : ascii) (t : Tty) : option (Z * Tty) :=
  if (s_fd <? 0) || (0 <? s_readerClosed) then Some (AT_ERROR_CHANNEL_CLOSED, t)
  else match write_all fuel (chars s) t with
       | Some (0, t') => write_byte fuel c t'
       | r => r
       end.

Definition writeline (fuel : nat) (s_fd s_readerClosed : Z) (s : string) (t : Tty) :=
  write_terminated fuel s_fd s_readerClosed s CR t.

Definition writeCtrlZ (fuel : nat) (s_fd s_readerClosed : Z) (s : string) (t : Tty) :=
  write_terminated fuel s_fd s_readerClosed s CTRL_Z t.

(** A descriptor without hard errors that accepts something whenever it
    answers at least once per pending byte: every [WrOk 0] is a retry. *)
Definition retries_only (out : list WriteEvent) : Prop :=
  Forall (λ e, match e with WrErr => False | _ => True end) out.

Lemma write_fd_ok n out k eintr out' :
  retries_only out → write_fd n out = (k, eintr, out') →
  retries_only out' ∧ (length out' ≤ length out)%nat ∧
  ((k = -1 ∧ eintr = true ∧ (length out' < length out)%nat) ∨
   (0 ≤ k ≤ Z.of_nat n ∧ eintr = false ∧ ((length out' < length out)%nat ∨ out = [] ∧ k = Z.of_nat n))).
Proof.
  intros Hr. destruct out as [|[m| |] out]; simpl; intros [= <- <- <-].
  - split_and!; [done|done|right; split_and!; lia || auto].
  - apply Forall_cons in Hr as [_ Hr]. split_and!; [done|lia|right; split_and!; lia || auto].
  - apply Forall_cons in Hr as [[] _].
  - apply Forall_cons in Hr as [_ Hr]. split_and!; [done|lia|left; split_and!; auto; lia].
Qed.

Lemma write_all_ok fuel bs t :
  retries_only (tty_out t) → (length (tty_out t) + 1 < fuel)%nat →
  ∃ out, write_all fuel bs t = Some (0, MkTty (tty_sent t ++ bs) out) ∧
         retries_only out ∧ (length out ≤ length (tty_out t))%nat.
Proof.
  revert bs t. induction fuel as [|fuel IH]; intros bs t Hr Hf; [lia|].
  destruct bs as [|b bs]; cbn [write_all].
  { exists (tty_out t). rewrite app_nil_r. by destruct t. }
  unfold tty_write. destruct (write_fd _ _) as [[k eintr] out'] eqn:E.
  destruct (write_fd_ok _ _ _ _ _ Hr E) as (Hr' & Hle & [(-> & -> & Hlt)|(Hk & -> & Hlt)]).
  - simpl. rewrite app_nil_r. destruct (IH (b :: bs) (MkTty (tty_sent t) out') Hr') as (o & -> & Hro & Hlo); simpl; [lia|].
    exists o. simpl in Hlo. split_and!; [done|done|lia].
  - destruct (Z.ltb_spec k 0); [lia|]. destruct Hlt as [Hlt|[Ho ->]].
    + edestruct (IH (drop (Z.to_nat k) (b :: bs))
        (MkTty (tty_sent t ++ take (Z.to_nat k) (b :: bs)) out')) as (o & -> & Hro & Hlo); simpl; [done|lia|].
      exists o. simpl in Hlo. rewrite <-app_assoc, take_drop. split_and!; [done|done|lia].
    + rewrite Nat2Z.id, drop_ge, take_ge by lia. exists out'.
      destruct fuel; [lia|]. done.
Qed.

Lemma write_byte_ok fuel c t :
  retries_only (tty_out t) → (length (tty_out t) < fuel)%nat →
  ∃ out, write_byte fuel c t = Some (0, MkTty (tty_sent t ++ [c]) out).
Proof.
  revert t. induction fuel as [|fuel IH]; intros t Hr Hf; [lia|]. cbn [write_byte].
  unfold tty_write. destruct (write_fd _ _) as [[k eintr] out'] eqn:E.
  destruct (write_fd_ok _ _ _ _ _ Hr E) as (Hr' & Hle & [(-> & -> & Hlt)|(Hk & -> & Hlt)]).
  - simpl. rewrite app_nil_r. apply (IH (MkTty (tty_sent t) out')); simpl; [done|lia].
  - simpl in Hk. assert (k = 0 ∨ k = 1) as [->| ->] by lia; simpl.
    + destruct Hlt as [Hlt|[_ ?]]; [|done]. rewrite app_nil_r.
      apply (IH (MkTty (tty_sent t) out')); simpl; [done|lia].
    + by eexists.
Qed.

(** Whatever the descriptor does, the write loops end. *)
Lemma write_fd_cases n out k eintr out' :
  write_fd n out = (k, eintr, out') →
  (length out' < length out)%nat ∨ (out = [] ∧ out' = [] ∧ k = Z.of_nat n ∧ eintr = false).
Proof. destruct out as [|[m| |] out]; simpl; intros [= <- <- <-]; auto. Qed.

Lemma write_all_total fuel bs t :
  (length (tty_out t) + 1 < fuel)%nat →
  ∃ err t', write_all fuel bs t = Some (err, t') ∧ err ∈ [0; AT_ERROR_GENERIC] ∧
            (length (tty_out t') ≤ length (tty_out t))%nat.
Proof.
  revert bs t. induction fuel as [|fuel IH]; intros bs t Hf; [lia|].
  destruct bs as [|b bs]; cbn [write_all]; [exists 0, t; split_and!; [done|in_list|lia]|].
  unfold tty_write. destruct (write_fd _ _) as [[k eintr] out'] eqn:E.
  destruct (write_fd_cases _ _ _ _ _ E) as [Hlt|(-> & -> & -> & ->)].
  - set (t' := MkTty (tty_sent t ++ take (Z.to_nat k) (b :: bs)) out').
    assert (Hih : ∀ l, ∃ err t'', write_all fuel l t' = Some (err, t'') ∧
      err ∈ [0; AT_ERROR_GENERIC] ∧ (length (tty_out t'') ≤ length (tty_out t))%nat).
    { intros l. destruct (IH l t') as (err & t'' & ? & ? & ?); [simpl; lia|].
      exists err, t''. subst t'. simpl in *. split_and!; [done|done|lia]. }
    destruct (k <? 0); [|apply Hih]. destruct eintr; [apply Hih|].
    exists AT_ERROR_GENERIC, t'. simpl. split_and!; [done|in_list|lia].
  - destruct (Z.ltb_spec (Z.of_nat (length (b :: bs))) 0); [lia|].
    rewrite Nat2Z.id, drop_ge by lia. destruct fuel; [lia|].
    eexists 0, (MkTty _ []). simpl. split_and!; [done|in_list|lia].
Qed.

Lemma write_byte_total fuel c t :
  (length (tty_out t) < fuel)%nat →
  ∃ err t', write_byte fuel c t = Some (err, t') ∧ err ∈ [0; AT_ERROR_GENERIC].
Proof.
  revert t. induction fuel as [|fuel IH]; intros t Hf; [lia|]. cbn [write_byte].
  unfold tty_write. destruct (write_fd _ _) as [[k eintr] out'] eqn:E.
  destruct (write_fd_cases _ _ _ _ _ E) as [Hlt|(Ho & -> & -> & ->)].
  - set (t' := MkTty _ out'). destruct (_ || _).
    + apply (IH t'). simpl. lia.
    + destruct (k <? 0); eexists _, _; (split; [done|in_list]).
  - simpl. eexists _, _; split; [done|in_list].
Qed.

Lemma write_terminated_total fuel fd closed s c t :
  (length (tty_out t) + 1 < fuel)%nat →
  ∃ err t', write_terminated fuel fd closed s c t = Some (err, t') ∧
            err ∈ [0; AT_ERROR_GENERIC; AT_ERROR_CHANNEL_CLOSED].
Proof.
  intros Hf. unfold write_terminated. destruct (_ || _); [eexists _, _; split; [done|in_list]|].
  destruct (write_all_total fuel (chars s) t Hf) as (err & t' & -> & Herr & Hle).
  destruct (write_byte_total fuel c t') as (err' & t'' & E & Herr'); [lia|].
  cases_in Herr; subst err.
  - rewrite E. eexists _, _; split; [done|]. cases_in Herr'; subst err'; in_list.
  - eexists _, _. split; [done|in_list].
Qed.

(** C30: [writeline] sends the command and its carriage return exactly once.
    However the descriptor splits the bytes and however often the call is
    interrupted or accepts nothing, if it never fails hard the call returns 0
    and what has been sent grew by the command followed by [\r]; the loops end
    after at most one [write] per result the descriptor delivers, and one. *)
Theorem writeline_sends (s : string) (fd : Z) (t : Tty) (fuel : nat) :
  0 ≤ fd → retries_only (tty_out t) → (length (tty_out t) + 1 < fuel)%nat →
  ∃ out, writeline fuel fd 0 s t = Some (0, MkTty (tty_sent t ++ chars s ++ [CR]) out).
Proof.
  intros Hfd Hr Hf. unfold writeline, write_terminated.
  destruct (Z.ltb_spec fd 0); [lia|]. simpl.
  destruct (write_all_ok fuel (chars s) t Hr Hf) as (out & -> & Hr' & Hle).
  destruct (write_byte_ok fuel CR (MkTty (tty_sent t ++ chars s) out)) as [o ->]; simpl; [done|lia|].
  exists o. by rewrite <-app_assoc.
Qed.

Lemma writeline_sends_witness :
  ∃ out, writeline 8 3 0 "AT+CSQ" (MkTty [] [WrOk 2; WrIntr; WrOk 0; WrOk 1]) =
         Some (0, MkTty ([] ++ chars "AT+CSQ" ++ [CR]) out).
Proof.
  apply (writeline_sends "AT+CSQ" 3 (MkTty [] [WrOk 2; WrIntr; WrOk 0; WrOk 1]) 8);
    [lia|by repeat constructor|simpl; lia].
Defined.
