(* ===== verification/AtFrame.v ===== *)
(** * Lines as the modem frames them

    A line is followed by line terminators; a stream is terminators and then
    such lines.  The lines of the stream are read back from it, and the
    conditions of the line reader hold. *)

From S2P Require Import Prelude CString AtReader.

Open Scope nat_scope.

(** A line with the terminators after it. *)
Record Framed := MkFramed { fr_line : string; fr_end : list ascii }.

Definition frame_bytes (f : Framed) : list ascii := chars (fr_line f) ++ fr_end f.

(** The terminators before the first line, and the lines. *)
Definition stream_bytes (start : list ascii) (fs : list Framed) : list ascii :=
  start ++ flat_map frame_bytes fs.

Definition terminators (nl : list ascii) : Prop := Forall (λ c, is_nl c = true) nl ∧ length nl ≤ 4.

(** A line for a buffer of [size] bytes: not empty, no prompt, room for the
    terminators before it. *)
Record framed_ok (size : nat) (f : Framed) : Prop := {
  fo_line : Forall (λ c, is_nl c = false ∧ not_nul c = true) (chars (fr_line f));
  fo_head : match chars (fr_line f) with c :: _ => c ≠ ">"%char | [] => False end;
  fo_fits : length (chars (fr_line f)) + 4 < size;
  fo_end : terminators (fr_end f) ∧ fr_end f ≠ []
}.

Lemma lines_from_line ln acc s :
  Forall (λ c, is_nl c = false) ln → lines_from acc (ln ++ s) = lines_from (rev ln ++ acc) s.
Proof.
  intros Hln. revert acc. induction Hln as [|c ln Hc _ IH]; intros acc; [done|].
  cbn [app lines_from rev]. by rewrite Hc, IH, <-app_assoc.
Qed.

Lemma lines_from_nl nl s : Forall (λ c, is_nl c = true) nl → lines_from [] (nl ++ s) = lines_from [] s.
Proof. intros Hnl. induction Hnl as [|c nl Hc _ IH]; [done|]. cbn [app lines_from]. by rewrite Hc. Qed.

Lemma lines_from_frame size f s :
  framed_ok size f → lines_from [] (frame_bytes f ++ s) = chars (fr_line f) :: lines_from [] s.
Proof.
  intros [Hl Hh _ [[Hn _] He]]. unfold frame_bytes. rewrite <-app_assoc, lines_from_line, app_nil_r.
  2:{ eapply Forall_impl; [exact Hl|]. by intros c [? _]. }
  destruct (fr_end f) as [|c nl]; [done|]. apply Forall_cons in Hn as [Hc Hn]. cbn [app lines_from].
  rewrite Hc. destruct (rev (chars (fr_line f))) as [|x r] eqn:Er.
  - apply (f_equal (@rev ascii)) in Er. rewrite rev_involutive in Er. by rewrite Er in Hh.
  - rewrite <-Er, rev_involutive. f_equal. by apply lines_from_nl.
Qed.

(** The lines of a stream are those that were framed. *)
Lemma lines_of_stream size start fs :
  terminators start → Forall (framed_ok size) fs →
  lines_of (stream_bytes start fs) = (λ f, chars (fr_line f)) <$> fs.
Proof.
  intros [Hs _] Hfs. unfold lines_of, stream_bytes. rewrite lines_from_nl by done.
  induction Hfs as [|f fs Hf _ IH]; [done|]. cbn [flat_map fmap list_fmap].
  by rewrite (lines_from_frame size) by done; rewrite IH.
Qed.

(** ** The conditions of the line reader

    Checked from left to right. *)

(** No prompt after a line terminator; [b]: there is one before [s]. *)
Fixpoint prompt_free (b : bool) (s : list ascii) : Prop :=
  match s with
  | [] => True
  | c :: s' => (b = true → c ≠ ">"%char) ∧ prompt_free (is_nl c) s'
  end.

Lemma prompt_free_spec b s :
  prompt_free b s →
  ∀ a s', s = a ++ ">"%char :: s' → (a = [] ∧ b = false) ∨ ∃ a' c, a = a' ++ [c] ∧ is_nl c = false.
Proof.
  revert b. induction s as [|x s IH]; intros b Hs a s' E; [by destruct a|]. destruct Hs as [Hx Hs].
  destruct a as [|y a]; injection E as -> E.
  - left. split; [done|]. destruct b; [by specialize (Hx eq_refl)|done].
  - right. destruct (IH _ Hs a s' E) as [[-> Hy]|(a' & c & -> & Hc)]; [by exists [], y|by exists (y :: a'), c].
Qed.

Lemma prompt_free_nl b nl s :
  Forall (λ c, is_nl c = true) nl → prompt_free (match nl with [] => b | _ => true end) s → prompt_free b (nl ++ s).
Proof.
  intros Hnl. revert b. induction Hnl as [|c nl Hc _ IH]; intros b Hs; [done|]. cbn [app prompt_free].
  split; [by intros _ ->|]. rewrite Hc. apply IH. by destruct nl.
Qed.

Lemma prompt_free_line b ln s :
  Forall (λ c, is_nl c = false) ln → match ln with c :: _ => c ≠ ">"%char | [] => False end →
  prompt_free false s → prompt_free b (ln ++ s).
Proof.
  intros Hln Hh Hs. destruct Hln as [|c ln Hc Hln]; [done|]. cbn [app prompt_free]. split; [done|].
  rewrite Hc. clear Hh Hc. induction Hln as [|d ln Hd _ IH]; [done|]. cbn [app prompt_free]. by rewrite Hd.
Qed.

Section fits.
Context (size : nat).

(** [r] terminators and then [k] bytes of a line come before [s]. *)
Fixpoint fit (r k : nat) (s : list ascii) : Prop :=
  match s with
  | [] => True
  | c :: s' =>
      if is_nl c then let r' := match k with O => S r | _ => 1 end in r' < size ∧ fit r' 0 s'
      else r + S k < size ∧ fit r (S k) s'
  end.

Lemma fit_after_nl nl : ∀ r k s,
  Forall (λ c, is_nl c = true) nl → nl ≠ [] → fit r k (nl ++ s) →
  ∃ r', length nl ≤ r' ∧ r' < size ∧ fit r' 0 s.
Proof.
  induction nl as [|c nl IH]; intros r k s Hnl Hne Hs; [done|]. apply Forall_cons in Hnl as [Hc Hnl].
  cbn [app fit] in Hs. rewrite Hc in Hs. destruct Hs as [Hr Hs]. destruct nl as [|d nl].
  { eexists. split; [|by split]. simpl. destruct k; lia. }
  set (r0 := match k with O => S r | _ => 1 end) in *. assert (1 ≤ r0) by (subst r0; destruct k; lia). clearbody r0.
  assert (Hgen : ∀ m r s, Forall (λ c, is_nl c = true) m → r < size → fit r 0 (m ++ s) →
    r + length m < size ∧ fit (r + length m) 0 s).
  { clear. induction m as [|c m IH]; intros r s Hm Hr Hs; [by rewrite Nat.add_0_r|].
    apply Forall_cons in Hm as [Hc Hm]. cbn [app fit] in Hs. rewrite Hc in Hs. destruct Hs as [Hr' Hs].
    cbn [length]. replace (r + S (length m)) with (S r + length m) by lia. by apply IH. }
  destruct (Hgen (d :: nl) r0 s Hnl Hr Hs) as [Hl Hf]. exists (r0 + length (d :: nl)). simpl in *. split; [lia|by split].
Qed.

Lemma fit_after_line ln r k s :
  Forall (λ c, is_nl c = false) ln → r + k < size → fit r k (ln ++ s) → r + k + length ln < size.
Proof.
  intros Hln. revert k. induction Hln as [|c ln Hc _ IH]; intros k Hk Hs; [simpl; lia|].
  cbn [app fit] in Hs. rewrite Hc in Hs. destruct Hs as [Hr Hs]. specialize (IH (S k) Hr Hs). simpl. lia.
Qed.

Lemma fit_spec s r k : 0 < size → fit r k s → lines_fit size s.
Proof.
  intros Hsize Hs a. revert s r k Hs. induction a as [|x a IH]; intros s r k Hs nl ln c E Hnl Hln.
  - subst s. destruct nl as [|x nl].
    + destruct ln as [|y ln]; [simpl; lia|]. apply Forall_cons in Hln as [Hy Hln].
      cbn [app fit] in Hs. rewrite Hy in Hs. destruct Hs as [Hr Hs].
      pose proof (fit_after_line ln r (S k) c Hln Hr Hs). simpl. lia.
    + destruct (fit_after_nl (x :: nl) r k (ln ++ c) Hnl) as (r' & Hr & Hr' & Hf); [done|exact Hs|].
      rewrite <-(Nat.add_0_r r') in Hr'. pose proof (fit_after_line ln r' 0 c Hln Hr' Hf). lia.
  - destruct s as [|y s]; [done|]. injection E as -> E. cbn [fit] in Hs.
    destruct (is_nl x); destruct Hs as [_ Hs]; by eapply IH.
Qed.

(** The other way round. *)
Lemma fit_nl nl r k s :
  Forall (λ c, is_nl c = true) nl → match k with O => r | _ => 0 end + length nl < size →
  fit (match k with O => r | _ => 0 end + length nl) 0 s → nl ≠ [] → fit r k (nl ++ s).
Proof.
  intros Hnl. revert r k. induction Hnl as [|c nl Hc _ IH]; intros r k Hr Hs Hne; [done|].
  cbn [app fit]. rewrite Hc. set (r0 := match k with O => r | _ => 0 end) in *.
  replace (match k with O => S r | S _ => 1 end) with (S r0) by (by destruct k). cbn [length] in Hr, Hs.
  split; [lia|]. destruct nl as [|d nl]; [by rewrite Nat.add_1_r in Hs|].
  apply (IH (S r0) 0); [lia| |done]. by replace (S r0 + length (d :: nl)) with (r0 + S (length (d :: nl))) by lia.
Qed.

Lemma fit_line ln r k s :
  Forall (λ c, is_nl c = false) ln → r + k + length ln < size → fit r (k + length ln) s → fit r k (ln ++ s).
Proof.
  intros Hln. revert k. induction Hln as [|c ln Hc _ IH]; intros k Hk Hs.
  - by rewrite Nat.add_0_r in Hs.
  - cbn [app fit]. rewrite Hc. cbn [length] in *. split; [lia|]. apply IH; [lia|].
    by replace (S k + length ln) with (k + S (length ln)) by lia.
Qed.

Lemma fit_frames fs r :
  Forall (framed_ok size) fs → r ≤ 4 → fit r 0 (flat_map frame_bytes fs).
Proof.
  intros Hfs. revert r. induction Hfs as [|f fs [Hl Hh Hfit [[Hn Hn4] He]] _ IH]; intros r Hr; [done|].
  cbn [flat_map]. unfold frame_bytes at 1. rewrite <-app_assoc. apply fit_line.
  - eapply Forall_impl; [exact Hl|]. by intros c [? _].
  - lia.
  - destruct (chars (fr_line f)) as [|c ln] eqn:Ec; [done|].
    apply fit_nl; [done|cbn [length Nat.add]; simpl in Hfit; lia|by apply IH|done].
Qed.

(** So a framed stream is one the reader copes with. *)
Lemma stream_ok_framed start fs :
  4 < size → terminators start → Forall (framed_ok size) fs → stream_ok size (stream_bytes start fs).
Proof.
  intros Hsize [Hs Hs4] Hfs. unfold stream_bytes. split.
  - apply Forall_app. split.
    + eapply Forall_impl; [exact Hs|]. intros c Hc. by destruct c as [[] [] [] [] [] [] [] []].
    + induction Hfs as [|f fs [Hl _ _ [[Hn _] _]] _ IH]; [done|]. cbn [flat_map]. unfold frame_bytes at 1.
      apply Forall_app. split; [apply Forall_app; split|exact IH].
      * eapply Forall_impl; [exact Hl|]. by intros c [_ ?].
      * eapply Forall_impl; [exact Hn|]. intros c Hc. by destruct c as [[] [] [] [] [] [] [] []].
  - assert (Hp : prompt_free true (start ++ flat_map frame_bytes fs)).
    { apply prompt_free_nl; [done|]. replace (match start with [] => true | _ => true end) with true by (by destruct start).
      induction Hfs as [|f fs [Hl Hh _ [[Hn _] He]] _ IH]; [done|]. cbn [flat_map]. unfold frame_bytes at 1.
      rewrite <-app_assoc. apply prompt_free_line; [|done|].
      - eapply Forall_impl; [exact Hl|]. by intros c [? _].
      - apply prompt_free_nl; [done|]. by destruct (fr_end f). }
    intros a b E. destruct (prompt_free_spec _ _ Hp a b E) as [[_ ?]|?]; [done|done].
  - apply (fit_spec _ 0 0); [lia|]. destruct start as [|c start]; [by apply fit_frames; [|lia]|].
    apply fit_nl; [done|simpl in *; lia| |done]. by apply fit_frames.
Qed.
End fits.
