(* ===== verification/AtChannel.v ===== *)
(** * atchannel.c: classification of lines, the pending command, the callers

    The state is the group of static variables [s_commandmutex] protects plus
    the serial port.  A critical section is one function of this file: what the
    reader thread does with a line ([processLine]), what a command thread does
    before it waits ([begin_command]), each time it is woken ([wait_loop]) and
    before it returns ([finish_command]).  [None] results stand for undefined
    behaviour of the C code (a NULL pointer is dereferenced). *)

From S2P Require Import Prelude CString AtTok AtReader.

Open Scope Z_scope.

(** ** Data *)

Inductive ATCommandType := NO_RESULT | NUMERIC | SINGLELINE | MULTILINE.

#[export] Instance ATCommandType_eq_dec : EqDecision ATCommandType.
Proof. solve_decision. Defined.

Record ATResponse := MkResponse {
  success : Z;
  finalResponse : option string;
  p_intermediates : list string
}.

Record Chan := MkChan {
  s_fd : Z;
  s_unsolHandler : bool;            (** the handler is not NULL *)
  s_onReaderClosed : bool;          (** the callback is not NULL *)
  s_onTimeout : bool;
  s_readerClosed : Z;
  s_type : ATCommandType;
  s_responsePrefix : option string;
  s_smsPDU : option string;
  sp_response : option ATResponse;
  s_tty : Tty
}.

Definition set_response (r : option ATResponse) (c : Chan) : Chan :=
  MkChan (s_fd c) (s_unsolHandler c) (s_onReaderClosed c) (s_onTimeout c)
    (s_readerClosed c) (s_type c) (s_responsePrefix c) (s_smsPDU c) r (s_tty c).

Definition set_smsPDU (p : option string) (c : Chan) : Chan :=
  MkChan (s_fd c) (s_unsolHandler c) (s_onReaderClosed c) (s_onTimeout c)
    (s_readerClosed c) (s_type c) (s_responsePrefix c) p (sp_response c) (s_tty c).

Definition set_prefix (p : option string) (c : Chan) : Chan :=
  MkChan (s_fd c) (s_unsolHandler c) (s_onReaderClosed c) (s_onTimeout c)
    (s_readerClosed c) (s_type c) p (s_smsPDU c) (sp_response c) (s_tty c).

Definition set_type (t : ATCommandType) (c : Chan) : Chan :=
  MkChan (s_fd c) (s_unsolHandler c) (s_onReaderClosed c) (s_onTimeout c)
    (s_readerClosed c) t (s_responsePrefix c) (s_smsPDU c) (sp_response c) (s_tty c).

Definition set_closed (z : Z) (c : Chan) : Chan :=
  MkChan (s_fd c) (s_unsolHandler c) (s_onReaderClosed c) (s_onTimeout c)
    z (s_type c) (s_responsePrefix c) (s_smsPDU c) (sp_response c) (s_tty c).

Definition set_fd (z : Z) (c : Chan) : Chan :=
  MkChan z (s_unsolHandler c) (s_onReaderClosed c) (s_onTimeout c)
    (s_readerClosed c) (s_type c) (s_responsePrefix c) (s_smsPDU c) (sp_response c) (s_tty c).

Definition set_tty (t : Tty) (c : Chan) : Chan :=
  MkChan (s_fd c) (s_unsolHandler c) (s_onReaderClosed c) (s_onTimeout c)
    (s_readerClosed c) (s_type c) (s_responsePrefix c) (s_smsPDU c) (sp_response c) t.

(** Calls the channel makes into the rest of the driver. *)
Inductive Callback :=
  | CbUnsol (s : string) (sms_pdu : option string)
  | CbReaderClosed
  | CbTimeout.

(** ** Line classification *)

Definition s_finalResponsesError : list string :=
  ["ERROR"; "+CMS ERROR:"; "+CME ERROR:"; "NO CARRIER"; "NO ANSWER"; "NO DIALTONE"].

Definition s_finalResponsesSuccess : list string := ["OK"; "CONNECT"].

Definition s_smsUnsoliciteds : list string := ["+CMT:"; "+CDS:"; "+CBM:"].

Definition isFinalResponseError (line : string) : bool :=
  existsb (strStartsWith line) s_finalResponsesError.

Definition isFinalResponseSuccess (line : string) : bool :=
  existsb (strStartsWith line) s_finalResponsesSuccess.

Definition isFinalResponse (line : string) : bool :=
  isFinalResponseSuccess line || isFinalResponseError line.

Definition isSMSUnsolicited (line : string) : bool :=
  existsb (strStartsWith line) s_smsUnsoliciteds.

(** ** The reader thread *)

Definition addIntermediate (line : string) (r : ATResponse) : ATResponse :=
  MkResponse (success r) (finalResponse r) (line :: p_intermediates r).

Definition handleFinalResponse (line : string) (r : ATResponse) : ATResponse :=
  MkResponse (success r) (Some line) (p_intermediates r).

Definition set_success (z : Z) (r : ATResponse) : ATResponse :=
  MkResponse z (finalResponse r) (p_intermediates r).

Definition handleUnsolicited (line : string) (c : Chan) : list Callback :=
  if s_unsolHandler c then [CbUnsol line None] else [].

(** One unit of fuel per write result still to come, and two. *)
Definition tty_fuel (c : Chan) : nat := (length (tty_out (s_tty c)) + 2)%nat.

Definition chan_writeline (s : string) (c : Chan) : option (Z * Chan) :=
  match writeline (tty_fuel c) (s_fd c) (s_readerClosed c) s (s_tty c) with
  | Some (err, t) => Some (err, set_tty t c)
  | None => None
  end.

Definition chan_writeCtrlZ (s : string) (c : Chan) : option (Z * Chan) :=
  match writeCtrlZ (tty_fuel c) (s_fd c) (s_readerClosed c) s (s_tty c) with
  | Some (err, t) => Some (err, set_tty t c)
  | None => None
  end.

Definition has_prefix (line : string) (prefix : option string) : option bool :=
  match prefix with Some p => Some (strStartsWith line p) | None => None end.

Definition processLine (line : string) (c : Chan) : option (Chan * list Callback) :=
  let unsolicited := Some (c, handleUnsolicited line c) in
  match sp_response c with
  | None => unsolicited
  | Some r =>
      if isFinalResponseSuccess line then
        Some (set_response (Some (handleFinalResponse line (set_success 1 r))) c, [])
      else if isFinalResponseError line then
        Some (set_response (Some (handleFinalResponse line (set_success 0 r))) c, [])
      else
        let type_case :=
          let intermediate := Some (set_response (Some (addIntermediate line r)) c, []) in
          match s_type c with
          | NO_RESULT => unsolicited
          | NUMERIC =>
              match p_intermediates r with
              | [] => if isdigit (peek line) then intermediate else unsolicited
              | _ => unsolicited
              end
          | SINGLELINE =>
              match p_intermediates r with
              | [] =>
                  match has_prefix line (s_responsePrefix c) with
                  | None => None
                  | Some true => intermediate
                  | Some false => unsolicited
                  end
              | _ => unsolicited
              end
          | MULTILINE =>
              match has_prefix line (s_responsePrefix c) with
              | None => None
              | Some true => intermediate
              | Some false => unsolicited
              end
          end in
        match s_smsPDU c with
        | Some pdu =>
            if String.eqb line "> " then
              match chan_writeCtrlZ pdu c with
              | Some (_, c') => Some (set_smsPDU None c', [])
              | None => None
              end
            else type_case
        | None => type_case
        end
  end.

Definition onReaderClosed (c : Chan) : Chan * list Callback :=
  if s_onReaderClosed c && (s_readerClosed c =? 0)
  then (set_closed 1 c, [CbReaderClosed]) else (c, []).

(** What the reader thread makes of the lines [readline] returns: an
    unsolicited SMS takes the next line with it. *)
Inductive ReaderAction :=
  | ActLine (line : string)
  | ActSms (line1 line2 : string)
  | ActClosed.

Fixpoint readerLoop (lines : list string) : list ReaderAction :=
  match lines with
  | [] => [ActClosed]
  | line :: lines' =>
      if isSMSUnsolicited line then
        match lines' with
        | [] => [ActClosed]
        | line2 :: lines'' => ActSms line line2 :: readerLoop lines''
        end
      else ActLine line :: readerLoop lines'
  end.

Definition reader_step (a : ReaderAction) (c : Chan) : option (Chan * list Callback) :=
  match a with
  | ActLine line => processLine line c
  | ActSms l1 l2 => Some (c, if s_unsolHandler c then [CbUnsol l1 (Some l2)] else [])
  | ActClosed => Some (onReaderClosed c)
  end.

(** ** Command threads *)

Definition at_close (c : Chan) : Chan := set_closed 1 (set_fd (-1) c).

Definition clearPendingCommand (c : Chan) : Chan :=
  set_smsPDU None (set_prefix None (set_response None c)).

Definition at_response_new : ATResponse := MkResponse 0 None [].

(** The loop of [reverseIntermediates]: [pcur] still to move, onto [acc]. *)
Fixpoint reverse_loop (pcur acc : list string) : list string :=
  match pcur with [] => acc | l :: pnext => reverse_loop pnext (l :: acc) end.

Definition reverseIntermediates (r : ATResponse) : ATResponse :=
  MkResponse (success r) (finalResponse r) (reverse_loop (p_intermediates r) []).

(** Up to the wait: the error return, or the state in which it waits. *)
Definition begin_command (command : string) (type : ATCommandType)
    (responsePrefix smspdu : option string) (c : Chan) : option (Z * Chan) :=
  match sp_response c with
  | Some _ => Some (AT_ERROR_COMMAND_PENDING, clearPendingCommand c)
  | None =>
      match chan_writeline command c with
      | None => None
      | Some (err, c) =>
          if err <? 0 then Some (err, clearPendingCommand c)
          else Some (0, set_response (Some at_response_new)
                          (set_smsPDU smspdu (set_prefix responsePrefix (set_type type c))))
      end
  end.

(** The loop condition; [None] when [sp_response] is NULL. *)
Definition wait_over (c : Chan) : option bool :=
  match sp_response c with
  | None => None
  | Some r => Some (match finalResponse r with Some _ => true | None => false end
                    || negb (s_readerClosed c =? 0))
  end.

(** After the loop: the error code and what is stored in [*pp_outResponse]
    ([None] when it is left alone). *)
Definition finish_command (want : bool) (c : Chan) : Z * option ATResponse * Chan :=
  let out := if want then option_map reverseIntermediates (sp_response c) else None in
  let c := set_response None c in
  (if 0 <? s_readerClosed c then AT_ERROR_CHANNEL_CLOSED else 0, out, clearPendingCommand c).

(** What can happen while a command thread waits.  [WSpurious] is a wake-up
    with nothing changed. *)
Inductive WaitEvent :=
  | WReader (a : ReaderAction)
  | WTimeout
  | WSpurious
  | WClose.

Inductive CmdResult :=
  | CmdDone (err : Z) (out : option ATResponse) (c : Chan) (cbs : list Callback)
            (rest : list WaitEvent)
  | CmdBlocked   (** the call has not returned when the events are exhausted *)
  | CmdUndef.

Definition add_callbacks (cbs : list Callback) (r : CmdResult) : CmdResult :=
  match r with
  | CmdDone err out c cbs' rest => CmdDone err out c (cbs ++ cbs') rest
  | _ => r
  end.

(** [ETIMEDOUT] is only possible when a timeout was given. *)
Fixpoint wait_loop (timeoutMsec : Z) (want : bool) (c : Chan) (evs : list WaitEvent) : CmdResult :=
  match wait_over c with
  | None => CmdUndef
  | Some true => let '(err, out, c) := finish_command want c in CmdDone err out c [] evs
  | Some false =>
      match evs with
      | [] => CmdBlocked
      | WTimeout :: evs' =>
          if timeoutMsec =? 0 then wait_loop timeoutMsec want c evs'
          else CmdDone AT_ERROR_TIMEOUT None (clearPendingCommand c) [] evs'
      | WSpurious :: evs' => wait_loop timeoutMsec want c evs'
      | WClose :: evs' => wait_loop timeoutMsec want (at_close c) evs'
      | WReader a :: evs' =>
          match reader_step a c with
          | None => CmdUndef
          | Some (c, cbs) => add_callbacks cbs (wait_loop timeoutMsec want c evs')
          end
      end
  end.

Definition at_send_command_full_nolock (command : string) (type : ATCommandType)
    (responsePrefix smspdu : option string) (timeoutMsec : Z) (want : bool)
    (c : Chan) (evs : list WaitEvent) : CmdResult :=
  match begin_command command type responsePrefix smspdu c with
  | None => CmdUndef
  | Some (err, c) =>
      if err <? 0 then CmdDone err None c [] evs
      else wait_loop timeoutMsec want c evs
  end.

(** [self_is_reader]: the caller is the reader thread. *)
Definition at_send_command_full (self_is_reader : bool) (command : string)
    (type : ATCommandType) (responsePrefix smspdu : option string)
    (timeoutMsec : Z) (want : bool) (c : Chan) (evs : list WaitEvent) : CmdResult :=
  if self_is_reader then CmdDone AT_ERROR_INVALID_THREAD None c [] evs
  else
    match at_send_command_full_nolock command type responsePrefix smspdu timeoutMsec want c evs with
    | CmdDone err out c cbs rest =>
        CmdDone err out c
          (cbs ++ if (err =? AT_ERROR_TIMEOUT) && s_onTimeout c then [CbTimeout] else []) rest
    | r => r
    end.

(** The check [at_send_command_singleline], [_numeric] and [_sms] share: a
    successful command must have an intermediate response. *)
Definition require_intermediate (r : CmdResult) : CmdResult :=
  match r with
  | CmdDone err (Some out) c cbs rest =>
      if (err =? 0) && (0 <? success out) &&
         match p_intermediates out with [] => true | _ => false end
      then CmdDone AT_ERROR_INVALID_RESPONSE None c cbs rest
      else r
  | _ => r
  end.

Definition at_send_command (command : string) (want : bool) (c : Chan) (evs : list WaitEvent) :=
  at_send_command_full false command NO_RESULT None None 0 want c evs.

Definition at_send_command_singleline (command responsePrefix : string) (want : bool)
    (c : Chan) (evs : list WaitEvent) :=
  require_intermediate
    (at_send_command_full false command SINGLELINE (Some responsePrefix) None 0 want c evs).

Definition at_send_command_numeric (command : string) (want : bool)
    (c : Chan) (evs : list WaitEvent) :=
  require_intermediate (at_send_command_full false command NUMERIC None None 0 want c evs).

Definition at_send_command_sms (command pdu responsePrefix : string) (want : bool)
    (c : Chan) (evs : list WaitEvent) :=
  require_intermediate
    (at_send_command_full false command SINGLELINE (Some responsePrefix) (Some pdu) 0 want c evs).

Definition at_send_command_multiline (command responsePrefix : string) (want : bool)
    (c : Chan) (evs : list WaitEvent) :=
  at_send_command_full false command MULTILINE (Some responsePrefix) None 0 want c evs.

Definition HANDSHAKE_RETRY_COUNT : nat := 8.
Definition HANDSHAKE_TIMEOUT_MSEC : Z := 250.

(** [handshake_loop n]: [n] attempts left; [err] is the result so far. *)
Fixpoint handshake_loop (n : nat) (err : Z) (c : Chan) (cbs : list Callback)
    (evs : list WaitEvent) : CmdResult :=
  match n with
  | O => CmdDone err None c cbs evs
  | S n' =>
      match at_send_command_full_nolock "ATE0Q0V1" NO_RESULT None None
              HANDSHAKE_TIMEOUT_MSEC false c evs with
      | CmdDone err _ c cbs' rest =>
          if err =? 0 then CmdDone 0 None c (cbs ++ cbs') rest
          else handshake_loop n' err c (cbs ++ cbs') rest
      | r => r
      end
  end.

Definition at_handshake (self_is_reader : bool) (c : Chan) (evs : list WaitEvent) : CmdResult :=
  if self_is_reader then CmdDone AT_ERROR_INVALID_THREAD None c [] evs
  else handshake_loop HANDSHAKE_RETRY_COUNT 0 c [] evs.

Definition at_open (fd : Z) (handler : bool) (c : Chan) : Chan :=
  MkChan fd handler (s_onReaderClosed c) (s_onTimeout c) 0 (s_type c) None None None (s_tty c).

(** [AT_CME_Error]; any other code of the modem is the integer itself. *)
Definition CME_ERROR_NON_CME : Z := -1.
Definition CME_SUCCESS : Z := 0.
Definition CME_SIM_NOT_INSERTED : Z := 10.

Definition at_get_cme_error (r : ATResponse) : Z :=
  if 0 <? success r then CME_SUCCESS
  else match finalResponse r with
       | None => CME_ERROR_NON_CME
       | Some line =>
           if negb (strStartsWith line "+CME ERROR:") then CME_ERROR_NON_CME
           else match tok_start (Some line) with
                | None => CME_ERROR_NON_CME
                | Some p =>
                    match tok_int p with
                    | None => CME_ERROR_NON_CME
                    | Some (ret, _) => ret
                    end
                end
       end.

(** ** Lemmas *)

Lemma chan_writeline_total s c :
  ∃ err t, chan_writeline s c = Some (err, set_tty t c) ∧
           err ∈ [0; AT_ERROR_GENERIC; AT_ERROR_CHANNEL_CLOSED].
Proof.
  unfold chan_writeline, writeline.
  destruct (write_terminated_total (tty_fuel c) (s_fd c) (s_readerClosed c) s CR (s_tty c))
    as (err & t & -> & ?); [unfold tty_fuel; lia|eauto].
Qed.

Lemma chan_writeCtrlZ_total s c : ∃ err t, chan_writeCtrlZ s c = Some (err, set_tty t c).
Proof.
  unfold chan_writeCtrlZ, writeCtrlZ.
  destruct (write_terminated_total (tty_fuel c) (s_fd c) (s_readerClosed c) s CTRL_Z (s_tty c))
    as (err & t & -> & ?); [unfold tty_fuel; lia|eauto].
Qed.

Lemma reverse_loop_rev l acc : reverse_loop l acc = rev l ++ acc.
Proof.
  revert acc. induction l as [|x l IH]; intros acc; simpl; [done|].
  by rewrite IH, <-app_assoc.
Qed.

Lemma reverseIntermediates_rev r :
  p_intermediates (reverseIntermediates r) = rev (p_intermediates r).
Proof. unfold reverseIntermediates. simpl. by rewrite reverse_loop_rev, app_nil_r. Qed.

(** *** What a pending command's response may hold *)

Definition needs_prefix (type : ATCommandType) : bool :=
  match type with SINGLELINE | MULTILINE => true | _ => false end.

Definition prefixed (prefix : option string) (line : string) : Prop :=
  match prefix with Some p => strStartsWith line p = true | None => False end.

Definition ints_ok (type : ATCommandType) (prefix : option string) (l : list string) : Prop :=
  match type with
  | NO_RESULT => l = []
  | NUMERIC => (length l ≤ 1)%nat ∧ Forall (λ x, isdigit (peek x) = true) l
  | SINGLELINE => (length l ≤ 1)%nat ∧ Forall (prefixed prefix) l
  | MULTILINE => Forall (prefixed prefix) l
  end.

Record pending_ok (c : Chan) (r : ATResponse) : Prop := {
  po_prefix : needs_prefix (s_type c) = true → is_Some (s_responsePrefix c);
  po_success : success r = 0 ∨ success r = 1;
  po_final : ∀ f, finalResponse r = Some f → isFinalResponse f = true;
  po_ints : ints_ok (s_type c) (s_responsePrefix c) (p_intermediates r)
}.

(** The invariant of the variables under [s_commandmutex]. *)
Definition chan_inv (c : Chan) : Prop :=
  match sp_response c with Some r => pending_ok c r | None => True end.

(** Variables only a command thread that starts a command changes. *)
Definition same_command (c c' : Chan) : Prop :=
  s_type c' = s_type c ∧ s_responsePrefix c' = s_responsePrefix c ∧
  s_unsolHandler c' = s_unsolHandler c ∧ s_onReaderClosed c' = s_onReaderClosed c ∧
  s_onTimeout c' = s_onTimeout c ∧ (0 ≤ s_readerClosed c → 0 ≤ s_readerClosed c') ∧
  (is_Some (sp_response c) ↔ is_Some (sp_response c')).

Lemma same_command_refl c : same_command c c.
Proof. by split_and!. Qed.

Lemma same_command_trans c1 c2 c3 :
  same_command c1 c2 → same_command c2 c3 → same_command c1 c3.
Proof. unfold same_command. intros; split_hyps; split_and!; congruence || tauto. Qed.

Lemma has_prefix_some line prefix : is_Some prefix →
  ∃ b, has_prefix line prefix = Some b ∧ (b = true → prefixed prefix line).
Proof. intros [p ->]. simpl. eauto. Qed.

(** A line is always processed, and the invariant survives it. *)
Lemma processLine_inv line c :
  chan_inv c →
  ∃ c' cbs, processLine line c = Some (c', cbs) ∧ chan_inv c' ∧ same_command c c'.
Proof.
  unfold chan_inv, processLine. destruct (sp_response c) as [r|] eqn:Er.
  2: { intros _. eexists _, _. split; [done|]. rewrite Er. split; [done|apply same_command_refl]. }
  intros [Hp Hs Hf Hi].
  assert (Hsame : ∀ r', same_command c (set_response (Some r') c)).
  { intros r'. unfold same_command. simpl. rewrite Er. repeat split; eauto with lia. }
  assert (Hkeep : ∃ c' cbs, Some (c, handleUnsolicited line c) = Some (c', cbs) ∧
    (match sp_response c' with Some r => pending_ok c' r | None => True end) ∧ same_command c c').
  { eexists _, _. split; [done|]. rewrite Er. split; [by split|apply same_command_refl]. }
  assert (Hadd : ints_ok (s_type c) (s_responsePrefix c) (line :: p_intermediates r) →
    ∃ c' cbs, Some (set_response (Some (addIntermediate line r)) c, []) = Some (c', cbs : list Callback) ∧
    (match sp_response c' with Some r => pending_ok c' r | None => True end) ∧ same_command c c').
  { intros H. eexists _, _. split; [done|]. split; [by split|done]. }
  destruct (isFinalResponseSuccess line) eqn:Es.
  { eexists _, _. split; [done|]. simpl. split; [|done]. split; simpl; [done|by right| |done].
    intros f [= <-]. unfold isFinalResponse. by rewrite Es. }
  destruct (isFinalResponseError line) eqn:Ee.
  { eexists _, _. split; [done|]. simpl. split; [|done]. split; simpl; [done|by left| |done].
    intros f [= <-]. unfold isFinalResponse. by rewrite Ee, orb_true_r. }
  match goal with |- context [match s_smsPDU c with Some _ => _ | None => ?t end] => set (tc := t) end.
  assert (Htype : ∃ c' cbs, tc = Some (c', cbs) ∧
    (match sp_response c' with Some r => pending_ok c' r | None => True end) ∧ same_command c c').
  { unfold tc. destruct (s_type c) eqn:Et.
    - exact Hkeep.
    - destruct (p_intermediates r); [|exact Hkeep].
      destruct (isdigit (peek line)) eqn:Ed; [|exact Hkeep].
      apply Hadd. simpl. split; [lia|by repeat constructor].
    - destruct (p_intermediates r); [|exact Hkeep].
      destruct (has_prefix_some line _ (Hp eq_refl)) as ([] & -> & Hpre); [|exact Hkeep].
      apply Hadd. simpl. split; [lia|]. constructor; [by apply Hpre|done].
    - destruct (has_prefix_some line _ (Hp eq_refl)) as ([] & -> & Hpre); [|exact Hkeep].
      apply Hadd. simpl. constructor; [by apply Hpre|done]. }
  destruct (s_smsPDU c) as [pdu|]; [|exact Htype].
  destruct (String.eqb line "> "); [|exact Htype].
  destruct (chan_writeCtrlZ_total pdu c) as (err & t & ->).
  eexists _, _. split; [done|]. simpl. rewrite Er. split; [by split|].
  unfold same_command. simpl. rewrite Er. repeat split; eauto with lia.
Qed.

Lemma onReaderClosed_inv c : chan_inv c →
  chan_inv (onReaderClosed c).1 ∧ same_command c (onReaderClosed c).1.
Proof.
  intros H. unfold onReaderClosed. destruct (_ && _); simpl; [|split; [done|apply same_command_refl]].
  unfold chan_inv in *. simpl. destruct (sp_response c) eqn:E; (split; [|unfold same_command; simpl; rewrite E; repeat split; by eauto with lia]).
  - destruct H. by split.
  - done.
Qed.

Lemma at_close_inv c : chan_inv c → chan_inv (at_close c) ∧ same_command c (at_close c).
Proof.
  unfold chan_inv, at_close. simpl. intros H.
  destruct (sp_response c) eqn:E; (split; [|unfold same_command; simpl; rewrite E; repeat split; by eauto with lia]).
  - destruct H. by split.
  - done.
Qed.

Lemma reader_step_inv a c :
  chan_inv c →
  ∃ c' cbs, reader_step a c = Some (c', cbs) ∧ chan_inv c' ∧ same_command c c'.
Proof.
  intros H. destruct a as [line|l1 l2|]; simpl.
  - by apply processLine_inv.
  - eexists _, _. split; [done|]. split; [done|apply same_command_refl].
  - destruct (onReaderClosed_inv c H). destruct (onReaderClosed c). simpl in *. eauto.
Qed.

(** *** The contract of a command *)

(** No command pending. *)
Definition idle (c : Chan) : Prop := sp_response c = None ∧ 0 ≤ s_readerClosed c.

(** A response handed to a caller. *)
Record response_ok (type : ATCommandType) (prefix : option string) (r : ATResponse) : Prop := {
  ro_final : ∃ f, finalResponse r = Some f ∧ isFinalResponse f = true;
  ro_success : success r = 0 ∨ success r = 1;
  ro_ints : ints_ok type prefix (p_intermediates r)
}.

Definition AT_errors : list Z :=
  [AT_ERROR_GENERIC; AT_ERROR_CHANNEL_CLOSED; AT_ERROR_TIMEOUT; AT_ERROR_INVALID_RESPONSE].

Ltac at_error := unfold AT_errors; in_list.

(** The error code and the content of [*pp_outResponse]. *)
Definition reply_ok (type : ATCommandType) (prefix : option string) (want : bool)
    (err : Z) (out : option ATResponse) : Prop :=
  (err = 0 ∧ if want then ∃ r, out = Some r ∧ response_ok type prefix r else out = None) ∨
  err ∈ AT_errors.

Lemma ints_ok_rev type prefix l : ints_ok type prefix l → ints_ok type prefix (rev l).
Proof.
  destruct type; simpl; rewrite ?length_rev; [by intros ->|intros [? ?]|intros [? ?]|intros ?];
    try split; try done; by apply List.Forall_rev.
Qed.

Lemma begin_command_idle command type prefix pdu c :
  idle c → (needs_prefix type = true → is_Some prefix) →
  ∃ err c', begin_command command type prefix pdu c = Some (err, c') ∧
    ((err < 0 ∧ err ∈ AT_errors ∧ idle c') ∨
     (err = 0 ∧ chan_inv c' ∧ sp_response c' = Some at_response_new ∧ 0 ≤ s_readerClosed c' ∧
      s_type c' = type ∧ s_responsePrefix c' = prefix)).
Proof.
  intros [Hidle Hcl] Hp. unfold begin_command. rewrite Hidle.
  destruct (chan_writeline_total command c) as (err & t & -> & Herr).
  cases_in Herr; subst err; simpl; eexists _, _; (split; [reflexivity|]).
  - right. split_and!; try done. split; simpl; [done|by left|done|by destruct type; simpl; auto with lia].
  - left. split_and!; [done|at_error|split; [done|exact Hcl]].
  - left. split_and!; [done|at_error|split; [done|exact Hcl]].
Qed.

Lemma finish_command_contract type prefix want c err out c' :
  chan_inv c → 0 ≤ s_readerClosed c → wait_over c = Some true →
  s_type c = type → s_responsePrefix c = prefix →
  finish_command want c = (err, out, c') → reply_ok type prefix want err out ∧ idle c'.
Proof.
  unfold chan_inv, wait_over, finish_command. intros Hinv Hcl Hover <- <- [= <- <- <-].
  destruct (sp_response c) as [r|]; [|done]. split; [|split; [done|exact Hcl]].
  destruct (Z.ltb_spec 0 (s_readerClosed c)); simpl; [right; at_error|]. left. split; [done|].
  destruct want; [|done]. eexists; split; [done|]. destruct Hinv as [Hp Hs Hf Hi].
  assert (E : s_readerClosed c = 0) by lia. rewrite E, orb_false_r in Hover.
  split; [|done|].
  - simpl. destruct (finalResponse r) as [f|]; [eauto|done].
  - rewrite reverseIntermediates_rev. by apply ints_ok_rev.
Qed.

(** The contract of the wait, for every sequence of events. *)
Lemma wait_loop_contract type prefix timeout want c evs :
  chan_inv c → 0 ≤ s_readerClosed c → is_Some (sp_response c) →
  s_type c = type → s_responsePrefix c = prefix →
  match wait_loop timeout want c evs with
  | CmdDone err out c' _ rest => reply_ok type prefix want err out ∧ idle c' ∧ rest `suffix_of` evs
  | CmdBlocked => True
  | CmdUndef => False
  end.
Proof.
  revert c. induction evs as [|ev evs IH]; intros c Hinv Hcl Hs Ht Hp.
  all: assert (Hov : ∃ b, wait_over c = Some b) by (destruct Hs as [r E]; unfold wait_over; rewrite E; eauto).
  all: destruct Hov as [[] Hov]; cbn [wait_loop]; rewrite Hov; try done.
  - destruct (finish_command want c) as [[err out] c'] eqn:E.
    edestruct finish_command_contract as [? ?]; [..|exact E|]; try done.
  - destruct (finish_command want c) as [[err out] c'] eqn:E.
    edestruct finish_command_contract as [? ?]; [..|exact E|]; try done.
  - assert (Hnext : ∀ c', chan_inv c' → same_command c c' →
      match wait_loop timeout want c' evs with
      | CmdDone err out c'' _ rest => reply_ok type prefix want err out ∧ idle c'' ∧ rest `suffix_of` ev :: evs
      | CmdBlocked => True
      | CmdUndef => False
      end).
    { intros c' Hi' (E1 & E2 & _ & _ & _ & E3 & E4). pose proof (IH c' Hi') as H.
      rewrite E1, E2 in H. specialize (H (E3 Hcl) (proj1 E4 Hs) Ht Hp).
      destruct (wait_loop timeout want c' evs); try done.
      destruct H as (? & ? & ?). split_and!; [done|done|by apply suffix_cons_r]. }
    destruct ev as [a| | |].
    + destruct (reader_step_inv a c Hinv) as (c' & cbs & -> & Hi' & Hsame).
      specialize (Hnext c' Hi' Hsame). by destruct (wait_loop timeout want c' evs).
    + destruct (timeout =? 0); [apply Hnext; [done|apply same_command_refl]|].
      split_and!; [right; at_error|split; [done|exact Hcl]|by apply suffix_cons_r].
    + apply Hnext; [done|apply same_command_refl].
    + destruct (at_close_inv c Hinv). by apply Hnext.
Qed.

(** *** The specification of a command session *)

(** Whether a line is an intermediate response of the command; [have] tells
    that one was accepted before. *)
Definition takes (type : ATCommandType) (prefix : option string) (have : bool)
    (line : string) : bool :=
  match type with
  | NO_RESULT => false
  | NUMERIC => negb have && isdigit (peek line)
  | SINGLELINE =>
      negb have && match prefix with Some p => strStartsWith line p | None => false end
  | MULTILINE => match prefix with Some p => strStartsWith line p | None => false end
  end.

(** The lines of a session split into the command's intermediate responses and
    the unsolicited ones, each in the order of arrival. *)
Fixpoint split_session (type : ATCommandType) (prefix : option string) (have : bool)
    (lines : list string) : list string * list string :=
  match lines with
  | [] => ([], [])
  | l :: ls =>
      if takes type prefix have l
      then let '(s, u) := split_session type prefix true ls in (l :: s, u)
      else let '(s, u) := split_session type prefix have ls in (s, l :: u)
  end.

Definition line_events (lines : list string) : list WaitEvent :=
  (λ l, WReader (ActLine l)) <$> lines.

Definition have_int (r : ATResponse) : bool :=
  match p_intermediates r with [] => false | _ => true end.

Lemma processLine_session line c r :
  sp_response c = Some r → s_smsPDU c = None → isFinalResponse line = false →
  (needs_prefix (s_type c) = true → is_Some (s_responsePrefix c)) →
  processLine line c =
    if takes (s_type c) (s_responsePrefix c) (have_int r) line
    then Some (set_response (Some (addIntermediate line r)) c, [])
    else Some (c, handleUnsolicited line c).
Proof.
  intros Hr Hsms Hf Hp. unfold processLine, takes, have_int. rewrite Hr, Hsms.
  unfold isFinalResponse in Hf. apply orb_false_iff in Hf as [-> ->].
  destruct (s_type c); simpl in *.
  - done.
  - destruct (p_intermediates r); simpl; [by destruct (isdigit _)|done].
  - destruct (Hp eq_refl) as [p ->]. simpl. destruct (p_intermediates r); simpl; [by destruct (strStartsWith _ _)|done].
  - destruct (Hp eq_refl) as [p ->]. simpl. by destruct (strStartsWith _ _).
Qed.

Lemma processLine_final line c r :
  sp_response c = Some r → isFinalResponse line = true →
  processLine line c =
  Some (set_response (Some (MkResponse (if isFinalResponseSuccess line then 1 else 0)
                              (Some line) (p_intermediates r))) c, []).
Proof.
  intros Hr Hf. unfold processLine. rewrite Hr. unfold isFinalResponse in Hf.
  destruct (isFinalResponseSuccess line); [done|]. simpl in Hf. by rewrite Hf.
Qed.

Lemma wait_loop_session lines f rest c r :
  sp_response c = Some r → finalResponse r = None → s_smsPDU c = None →
  s_readerClosed c = 0 → s_unsolHandler c = true →
  (needs_prefix (s_type c) = true → is_Some (s_responsePrefix c)) →
  Forall (λ l, isFinalResponse l = false) lines → isFinalResponse f = true →
  let su := split_session (s_type c) (s_responsePrefix c) (have_int r) lines in
  wait_loop 0 true c (line_events (lines ++ [f]) ++ rest) =
  CmdDone 0
    (Some (MkResponse (if isFinalResponseSuccess f then 1 else 0) (Some f)
             (rev (p_intermediates r) ++ su.1)))
    (clearPendingCommand c) ((λ l, CbUnsol l None) <$> su.2) rest.
Proof.
  revert c r. induction lines as [|l lines IH]; intros c r Hr Hfr Hsms Hcl Hh Hp Hl Hf su.
  - simpl app. unfold line_events. simpl fmap. cbn [app wait_loop].
    assert (Hw : wait_over c = Some false) by (unfold wait_over; by rewrite Hr, Hfr, Hcl).
    rewrite Hw. cbn [reader_step]. rewrite (processLine_final f c r) by done.
    destruct (line_events [] ++ rest) eqn:E; simpl in E; subst;
      cbn [wait_loop]; unfold wait_over, finish_command; simpl; rewrite Hcl; simpl;
      unfold reverseIntermediates; simpl; rewrite reverse_loop_rev, !app_nil_r; done.
  - apply Forall_cons in Hl as [Hl1 Hl].
    change (line_events ((l :: lines) ++ [f]) ++ rest) with
      (WReader (ActLine l) :: (line_events (lines ++ [f]) ++ rest)).
    cbn [wait_loop].
    assert (Hw : wait_over c = Some false) by (unfold wait_over; by rewrite Hr, Hfr, Hcl).
    rewrite Hw. cbn [reader_step]. rewrite (processLine_session l c r) by done.
    subst su. cbn [split_session]. destruct (takes _ _ (have_int r) l).
    + rewrite (IH _ (addIntermediate l r)) by done.
      change (have_int (addIntermediate l r)) with true. simpl.
      destruct (split_session _ _ true lines) as [s u]. simpl. by rewrite <-app_assoc.
    + rewrite (IH _ r) by done. unfold handleUnsolicited. rewrite Hh. simpl.
      by destruct (split_session _ _ (have_int r) lines).
Qed.

(** C6: a command returns exactly the lines that belong to it, in the order the
    modem sent them, and every other line goes to the unsolicited handler, once
    and in order.  On an open channel with no command pending, when the modem
    answers with lines that are not final responses followed by a final one,
    [at_send_command_full] returns 0, success telling whether the final
    response is a positive one, the intermediates and the unsolicited lines
    being those of the specification [split_session], the bytes sent being the
    command and CR, and no command is pending afterwards. *)
Theorem at_send_command_session (command : string) (type : ATCommandType)
    (prefix : option string) (c : Chan) (lines : list string) (f : string) (rest : list WaitEvent) :
  idle c → s_readerClosed c = 0 → 0 ≤ s_fd c → s_unsolHandler c = true →
  retries_only (tty_out (s_tty c)) → (needs_prefix type = true → is_Some prefix) →
  Forall (λ l, isFinalResponse l = false) lines → isFinalResponse f = true →
  ∃ c', at_send_command_full false command type prefix None 0 true c
          (line_events (lines ++ [f]) ++ rest) =
        CmdDone 0
          (Some (MkResponse (if isFinalResponseSuccess f then 1 else 0) (Some f)
                   (split_session type prefix false lines).1))
          c' ((λ l, CbUnsol l None) <$> (split_session type prefix false lines).2) rest ∧
        idle c' ∧ tty_sent (s_tty c') = tty_sent (s_tty c) ++ chars command ++ [CR].
Proof.
  intros [Hidle Hcl0] Hcl Hfd Hh Hr Hp Hl Hf.
  unfold at_send_command_full, at_send_command_full_nolock, begin_command. rewrite Hidle.
  unfold chan_writeline.
  destruct (writeline_sends command (s_fd c) (s_tty c) (tty_fuel c) Hfd Hr) as [out Hw].
  { unfold tty_fuel. lia. }
  rewrite Hcl, Hw. cbn -[wait_loop line_events].
  rewrite (wait_loop_session lines f rest _ at_response_new); try done.
  eexists. simpl. rewrite app_nil_r. split; [reflexivity|]. split; [split; [done|simpl; lia]|done].
Qed.

(** A channel as [at_open] leaves it, used by the witnesses. *)
Definition opened_chan (out : list WriteEvent) : Chan :=
  at_open 3 true
    (MkChan (-1) false true true 0 NO_RESULT None None None (MkTty [] out)).

Lemma at_send_command_session_witness :
  ∃ c', at_send_command_full false "AT+CLCC" MULTILINE (Some "+CLCC:") None 0 true
          (opened_chan [WrOk 3; WrIntr])
          (line_events (["+CLCC:1,0,0,0,0"; "RING"; "+CLCC:2,1,1,0,0"] ++ ["OK"]) ++ [WTimeout]) =
        CmdDone 0
          (Some (MkResponse 1 (Some "OK")
            (split_session MULTILINE (Some "+CLCC:") false
              ["+CLCC:1,0,0,0,0"; "RING"; "+CLCC:2,1,1,0,0"]).1))
          c'
          ((λ l, CbUnsol l None) <$> (split_session MULTILINE (Some "+CLCC:") false
              ["+CLCC:1,0,0,0,0"; "RING"; "+CLCC:2,1,1,0,0"]).2) [WTimeout] ∧
        idle c' ∧
        tty_sent (s_tty c') = tty_sent (s_tty (opened_chan [WrOk 3; WrIntr]))
                              ++ chars "AT+CLCC" ++ [CR].
Proof.
  apply (at_send_command_session "AT+CLCC" MULTILINE (Some "+CLCC:")
    (opened_chan [WrOk 3; WrIntr]) ["+CLCC:1,0,0,0,0"; "RING"; "+CLCC:2,1,1,0,0"] "OK" [WTimeout]).
  - by split.
  - reflexivity.
  - simpl. lia.
  - reflexivity.
  - by repeat constructor.
  - eauto.
  - repeat constructor.
  - reflexivity.
Defined.

Lemma split_session_multiline p b lines :
  split_session MULTILINE (Some p) b lines =
  (List.filter (λ l, strStartsWith l p) lines, List.filter (λ l, negb (strStartsWith l p)) lines).
Proof.
  revert b. induction lines as [|l lines IH]; intros b; simpl; [done|].
  rewrite !IH. by destruct (strStartsWith l p).
Qed.

(** No line of a session is lost or duplicated.  Whatever the type of the
    command, the intermediates and the unsolicited lines together are the lines
    received; a single-line or numeric command accepts the first matching line
    only, a multi-line one every line with its prefix. *)
Lemma split_session_partition (type : ATCommandType) (prefix : option string)
    (have : bool) (lines : list string) :
  let '(s, u) := split_session type prefix have lines in
  s ++ u ≡ₚ lines ∧
  s = match type with
      | NO_RESULT => []
      | NUMERIC =>
          if have then [] else take 1 (List.filter (λ l, isdigit (peek l)) lines)
      | SINGLELINE =>
          if have then []
          else match prefix with
               | Some p => take 1 (List.filter (λ l, strStartsWith l p) lines)
               | None => []
               end
      | MULTILINE =>
          match prefix with
          | Some p => List.filter (λ l, strStartsWith l p) lines
          | None => []
          end
      end.
Proof.
  revert have. induction lines as [|l lines IH]; intros have; cbn [split_session].
  { split; [done|]. by destruct type, have, prefix. }
  destruct (takes type prefix have l) eqn:Et.
  - specialize (IH true). destruct (split_session type prefix true lines) as [s u].
    destruct IH as [Hp ->]. split; [by rewrite <-Hp|]. unfold takes in Et.
    destruct type, have, prefix; simpl in *; try done; by rewrite Et.
  - specialize (IH have). destruct (split_session type prefix have lines) as [s u].
    destruct IH as [Hp Hs]. split; [by rewrite <-Hp, Permutation_middle|]. rewrite Hs.
    unfold takes in Et. destruct type, have, prefix; simpl in *; try done; by rewrite Et.
Qed.

(** ** The handshake *)

(** A channel that is open, has no command pending and accepts every byte. *)
Definition ready (c : Chan) : Prop :=
  idle c ∧ s_readerClosed c = 0 ∧ 0 ≤ s_fd c ∧ tty_out (s_tty c) = [].

Definition ATE0Q0V1 : list ascii := chars "ATE0Q0V1" ++ [CR].

Lemma write_terminated_open fd s b sent :
  0 ≤ fd → write_terminated 2 fd 0 s b (MkTty sent []) = Some (0, MkTty (sent ++ chars s ++ [b]) []).
Proof.
  intros Hfd. unfold write_terminated.
  destruct (Z.ltb_spec fd 0); [lia|]. simpl. destruct (chars s) as [|a l]; simpl; [done|].
  unfold tty_write. simpl. rewrite !Nat2Z.id, drop_ge, take_ge by (simpl; lia).
  simpl. by rewrite <-app_assoc.
Qed.

Lemma chan_write_ready s c :
  s_readerClosed c = 0 → 0 ≤ s_fd c → tty_out (s_tty c) = [] →
  chan_writeline s c = Some (0, set_tty (MkTty (tty_sent (s_tty c) ++ chars s ++ [CR]) []) c) ∧
  chan_writeCtrlZ s c = Some (0, set_tty (MkTty (tty_sent (s_tty c) ++ chars s ++ [CTRL_Z]) []) c).
Proof.
  destruct c as [fd ? ? ? cl ? ? ? ? [sent o]]. simpl. intros -> Hfd ->.
  unfold chan_writeline, chan_writeCtrlZ, writeline, writeCtrlZ, tty_fuel. simpl.
  by rewrite !write_terminated_open by done.
Qed.

Lemma handshake_attempt c evs :
  ready c →
  ∃ c', at_send_command_full_nolock "ATE0Q0V1" NO_RESULT None None HANDSHAKE_TIMEOUT_MSEC false c
          (WTimeout :: evs) = CmdDone AT_ERROR_TIMEOUT None c' [] evs ∧
        at_send_command_full_nolock "ATE0Q0V1" NO_RESULT None None HANDSHAKE_TIMEOUT_MSEC false c
          (line_events ["OK"] ++ evs) = CmdDone 0 None c' [] evs ∧
        ready c' ∧ tty_sent (s_tty c') = tty_sent (s_tty c) ++ ATE0Q0V1 ∧
        s_unsolHandler c' = s_unsolHandler c.
Proof.
  intros Hr. pose proof Hr as ([Hi Hc] & Hcl & Hfd & Ho).
  unfold at_send_command_full_nolock, begin_command. rewrite Hi, (proj1 (chan_write_ready _ _ Hcl Hfd Ho)).
  cbn -[wait_loop]. eexists. split_and!.
  - cbn. rewrite Hcl. cbn. reflexivity.
  - cbn. rewrite Hcl. cbn. destruct evs; cbn; unfold wait_over, finish_command; cbn; by rewrite Hcl.
  - by split_and!.
  - done.
  - done.
Qed.

Lemma handshake_loop_retries k n e c cbs rest :
  (k < n)%nat → ready c →
  ∃ c', handshake_loop n e c cbs (replicate k WTimeout ++ line_events ["OK"] ++ rest) =
          CmdDone 0 None c' cbs rest ∧ ready c' ∧
        tty_sent (s_tty c') = tty_sent (s_tty c) ++ concat (replicate (S k) ATE0Q0V1) ∧
        s_unsolHandler c' = s_unsolHandler c.
Proof.
  revert n e c. induction k as [|k IH]; intros [|n] e c Hk Hr; try lia; cbn [handshake_loop].
  - destruct (handshake_attempt c rest Hr) as (c' & _ & E & Hr' & Hs & Hh).
    change (replicate 0 WTimeout ++ ?l) with l. rewrite E. exists c'. rewrite app_nil_r. done.
  - destruct (handshake_attempt c (replicate k WTimeout ++ line_events ["OK"] ++ rest) Hr)
      as (c' & E & _ & Hr' & Hs & Hh).
    change (replicate (S k) WTimeout ++ ?l) with (WTimeout :: (replicate k WTimeout ++ l)).
    rewrite E. change (AT_ERROR_TIMEOUT =? 0) with false. cbv match.
    rewrite app_nil_r.
    destruct (IH n AT_ERROR_TIMEOUT c') as (c'' & -> & Hr'' & Hs'' & Hh''); [lia|done|].
    exists c''. rewrite Hs'', Hs, <-app_assoc, Hh'', Hh. done.
Qed.

Lemma handshake_loop_exhausted n e c cbs rest :
  ready c →
  ∃ c', handshake_loop n e c cbs (replicate n WTimeout ++ rest) =
          CmdDone (match n with O => e | _ => AT_ERROR_TIMEOUT end) None c' cbs rest ∧ ready c' ∧
        tty_sent (s_tty c') = tty_sent (s_tty c) ++ concat (replicate n ATE0Q0V1).
Proof.
  revert e c. induction n as [|n IH]; intros e c Hr; cbn [handshake_loop].
  - exists c. rewrite app_nil_r. done.
  - destruct (handshake_attempt c (replicate n WTimeout ++ rest) Hr) as (c' & E & _ & Hr' & Hs & _).
    change (replicate (S n) WTimeout ++ ?l) with (WTimeout :: (replicate n WTimeout ++ l)).
    rewrite E. change (AT_ERROR_TIMEOUT =? 0) with false. cbv match. rewrite app_nil_r.
    destruct (IH AT_ERROR_TIMEOUT c' Hr') as (c'' & -> & Hr'' & Hs'').
    exists c''. rewrite Hs'', Hs, <-app_assoc. destruct n; done.
Qed.

(** C32: the handshake with a modem that is slow to start.  On an open channel
    whose first [k] attempts time out and whose next one is answered, the
    handshake returns 0 after having sent the command [k + 1] times, provided
    [k] is less than the retry count; when all eight time out it gives up with
    AT_ERROR_TIMEOUT.  No command is pending afterwards in either case. *)
Theorem at_handshake_retries (k : nat) (c : Chan) (rest : list WaitEvent) :
  ready c → (k ≤ HANDSHAKE_RETRY_COUNT)%nat →
  ∃ c', at_handshake false c
          (replicate k WTimeout ++
           (if decide (k = HANDSHAKE_RETRY_COUNT) then [] else line_events ["OK"]) ++ rest) =
        CmdDone (if decide (k = HANDSHAKE_RETRY_COUNT) then AT_ERROR_TIMEOUT else 0) None c' [] rest ∧
        ready c' ∧
        tty_sent (s_tty c') =
        tty_sent (s_tty c) ++ concat (replicate (Nat.min (S k) HANDSHAKE_RETRY_COUNT) ATE0Q0V1).
Proof.
  intros Hr Hk. unfold at_handshake. destruct (decide (k = HANDSHAKE_RETRY_COUNT)) as [->|Hne].
  - rewrite (Nat.min_r (S _)) by lia. apply (handshake_loop_exhausted HANDSHAKE_RETRY_COUNT 0 c [] rest Hr).
  - rewrite Nat.min_l by lia.
    destruct (handshake_loop_retries k HANDSHAKE_RETRY_COUNT 0 c [] rest) as (c' & ? & ? & ? & _); [lia|done|].
    by exists c'.
Qed.

Lemma at_handshake_retries_witness :
  ready (opened_chan []) ∧
  ∃ c', at_handshake false (opened_chan [])
          (replicate 3 WTimeout ++
           (if decide (3%nat = HANDSHAKE_RETRY_COUNT) then [] else line_events ["OK"]) ++ [WSpurious]) =
        CmdDone (if decide (3%nat = HANDSHAKE_RETRY_COUNT) then AT_ERROR_TIMEOUT else 0) None c' []
          [WSpurious] ∧
        ready c' ∧
        tty_sent (s_tty c') =
        tty_sent (s_tty (opened_chan [])) ++
        concat (replicate (Nat.min 4 HANDSHAKE_RETRY_COUNT) ATE0Q0V1).
Proof.
  assert (H : ready (opened_chan [])) by (vm_compute; repeat split; congruence).
  split; [exact H|].
  apply (at_handshake_retries 3 (opened_chan []) [WSpurious] H). unfold HANDSHAKE_RETRY_COUNT. lia.
Defined.

(** ** Sending a short message *)

Lemma add_callbacks_nil r : add_callbacks [] r = r.
Proof. by destruct r. Qed.

Lemma processLine_prompt c r pdu :
  sp_response c = Some r → s_smsPDU c = Some pdu →
  s_readerClosed c = 0 → 0 ≤ s_fd c → tty_out (s_tty c) = [] →
  processLine "> " c =
  Some (set_smsPDU None (set_tty (MkTty (tty_sent (s_tty c) ++ chars pdu ++ [CTRL_Z]) []) c), []).
Proof.
  intros Hr Hp Hcl Hfd Ho. unfold processLine. rewrite Hr, Hp.
  change (isFinalResponseSuccess "> ") with false. change (isFinalResponseError "> ") with false.
  change (String.eqb "> " "> ") with true. cbv match.
  by rewrite (proj2 (chan_write_ready pdu c Hcl Hfd Ho)).
Qed.

(** The two phases of an SMS.  On an open channel, when the modem prompts
    for the PDU and then answers, [at_send_command_sms] has sent the command
    with CR and then the PDU with Ctrl-Z, each exactly once; the lines after
    the prompt are split as for any single-line command, and a positive final
    response without the expected intermediate is AT_ERROR_INVALID_RESPONSE. *)
Theorem at_send_command_sms_session (command pdu prefix : string) (c : Chan)
    (lines : list string) (f : string) (rest : list WaitEvent) :
  ready c → s_unsolHandler c = true →
  Forall (λ l, isFinalResponse l = false) lines → isFinalResponse f = true →
  let su := split_session SINGLELINE (Some prefix) false lines in
  ∃ c', at_send_command_sms command pdu prefix true c (line_events ("> " :: lines ++ [f]) ++ rest) =
          (let ok := isFinalResponseSuccess f in
           let cbs := (λ l, CbUnsol l None) <$> su.2 in
           if ok && bool_decide (su.1 = []) then CmdDone AT_ERROR_INVALID_RESPONSE None c' cbs rest
           else CmdDone 0 (Some (MkResponse (if ok then 1 else 0) (Some f) su.1)) c' cbs rest) ∧
        ready c' ∧ s_unsolHandler c' = true ∧
        tty_sent (s_tty c') =
        tty_sent (s_tty c) ++ (chars command ++ [CR]) ++ (chars pdu ++ [CTRL_Z]).
Proof.
  intros ([Hi Hc] & Hcl & Hfd & Ho) Hh Hl Hf su.
  unfold at_send_command_sms, at_send_command_full, at_send_command_full_nolock, begin_command.
  rewrite Hi, (proj1 (chan_write_ready _ _ Hcl Hfd Ho)). cbn -[wait_loop line_events isFinalResponseSuccess].
  change (line_events ("> " :: lines ++ [f]) ++ rest)
    with (WReader (ActLine "> ") :: (line_events (lines ++ [f]) ++ rest)).
  set (c1 := set_response _ _).
  assert (E : wait_loop 0 true c1 (WReader (ActLine "> ") :: line_events (lines ++ [f]) ++ rest) =
    wait_loop 0 true (set_smsPDU None
      (set_tty (MkTty (tty_sent (s_tty c1) ++ chars pdu ++ [CTRL_Z]) []) c1))
      (line_events (lines ++ [f]) ++ rest)).
  { cbn [wait_loop].
    assert (Hw : wait_over c1 = Some false) by (unfold wait_over; simpl; by rewrite Hcl).
    rewrite Hw. cbn [reader_step]. rewrite (processLine_prompt c1 at_response_new pdu) by done.
    by rewrite add_callbacks_nil. }
  rewrite E, (wait_loop_session lines f rest _ at_response_new); try done.
  exists (clearPendingCommand (set_smsPDU None
    (set_tty (MkTty (tty_sent (s_tty c1) ++ chars pdu ++ [CTRL_Z]) []) c1))).
  cbn -[split_session line_events isFinalResponseSuccess]. fold su. rewrite app_nil_r.
  split; [|split; [split; [by split|by split_and!]|split; [done|by rewrite <-!app_assoc]]].
  destruct (isFinalResponseSuccess f), su.1; reflexivity.
Qed.

Lemma at_send_command_sms_session_witness :
  ready (opened_chan []) ∧
  ∃ c', at_send_command_sms "AT+CMGS=16" "0011" "+CMGS:" true (opened_chan [])
          (line_events ("> " :: ["RING"; "+CMGS: 7"] ++ ["OK"]) ++ []) =
        CmdDone 0 (Some (MkResponse 1 (Some "OK") ["+CMGS: 7"])) c' [CbUnsol "RING" None] [] ∧
        ready c' ∧ s_unsolHandler c' = true ∧
        tty_sent (s_tty c') =
        tty_sent (s_tty (opened_chan [])) ++ (chars "AT+CMGS=16" ++ [CR]) ++ (chars "0011" ++ [CTRL_Z]).
Proof.
  assert (H : ready (opened_chan [])) by (vm_compute; repeat split; congruence).
  split; [exact H|].
  apply (at_send_command_sms_session "AT+CMGS=16" "0011" "+CMGS:" (opened_chan [])
    ["RING"; "+CMGS: 7"] "OK" [] H eq_refl); [repeat constructor|reflexivity].
Defined.

(** ** Error codes of the modem *)

(** [at_get_cme_error] recovers the code the modem reported: for every
    32-bit code the final response [+CME ERROR: n] of a failed command gives
    back [n]; a failed command with another final response, or none, gives
    CME_ERROR_NON_CME, and a successful one CME_SUCCESS whatever it holds. *)
Theorem at_get_cme_error_roundtrip (n : Z) (ints : list string) (r : ATResponse) :
  is_int32 n →
  at_get_cme_error (MkResponse 0 (Some ("+CME ERROR: " +:+ pretty n)) ints) = n ∧
  (success r = 0 → match finalResponse r with
                   | Some f => strStartsWith f "+CME ERROR:" = false
                   | None => True
                   end → at_get_cme_error r = CME_ERROR_NON_CME) ∧
  (success r = 1 → at_get_cme_error r = CME_SUCCESS).
Proof.
  intros Hn. unfold at_get_cme_error. split_and!.
  - assert (Hs : strStartsWith ("+CME ERROR: " +:+ pretty n) "+CME ERROR:" = true) by done.
    assert (Ht : tok_start (Some ("+CME ERROR: " +:+ pretty n)) =
                 Some (Some (String " " (commas [pretty n])))) by done.
    cbn [success finalResponse]. rewrite Hs, Ht. cbn [Z.ltb Z.compare negb].
    by rewrite tok_int_space, tok_int_field.
  - intros -> Hf. simpl. destruct (finalResponse r); [by rewrite Hf|done].
  - by intros ->.
Qed.

Lemma at_get_cme_error_roundtrip_witness :
  is_int32 CME_SIM_NOT_INSERTED ∧
  at_get_cme_error (MkResponse 0 (Some ("+CME ERROR: " +:+ pretty CME_SIM_NOT_INSERTED)) []) =
  CME_SIM_NOT_INSERTED.
Proof.
  assert (H : is_int32 CME_SIM_NOT_INSERTED) by (vm_compute; split; congruence).
  split; [exact H|].
  exact (proj1 (at_get_cme_error_roundtrip CME_SIM_NOT_INSERTED [] at_response_new H)).
Defined.

(** ** The interface the request handlers are written against *)

(** The five ways a command is sent. *)
Inductive AtKind :=
  | KPlain
  | KNumeric
  | KSingle (responsePrefix : string)
  | KSms (pdu responsePrefix : string)
  | KMulti (responsePrefix : string).

Definition kind_type (k : AtKind) : ATCommandType :=
  match k with
  | KPlain => NO_RESULT
  | KNumeric => NUMERIC
  | KSingle _ | KSms _ _ => SINGLELINE
  | KMulti _ => MULTILINE
  end.

Definition kind_prefix (k : AtKind) : option string :=
  match k with
  | KPlain | KNumeric => None
  | KSingle p | KSms _ p | KMulti p => Some p
  end.

(** The kinds whose success implies an intermediate response. *)
Definition kind_requires (k : AtKind) : bool :=
  match k with KNumeric | KSingle _ | KSms _ _ => true | _ => false end.

(** What a command may answer: error code and content of [*pp_outResponse]. *)
Definition at_contract (k : AtKind) (want : bool) (err : Z) (out : option ATResponse) : Prop :=
  reply_ok (kind_type k) (kind_prefix k) want err out ∧
  (err = 0 → kind_requires k = true →
   ∀ r, out = Some r → success r = 1 → p_intermediates r ≠ []).

(** The outcome of a command as the caller sees it: it returns, with the
    callbacks made meanwhile, or it never does. *)
Inductive PortResult (S : Type) :=
  | PDone (err : Z) (out : option ATResponse) (cbs : list Callback) (s : S)
  | PBlocked.
Arguments PDone {S}.
Arguments PBlocked {S}.

(** A channel with one command thread. *)
Class AtPort (S : Type) := {
  port_send : AtKind → string → bool → S → option (PortResult S);
  port_handshake : S → option (PortResult S);
  port_close : S → S
}.

(** A callback a caller can rely on: an unsolicited SMS header comes with its
    PDU line, and the timeout callback is not made. *)
Definition cb_ok (cb : Callback) : Prop :=
  match cb with
  | CbUnsol l None => isSMSUnsolicited l = false
  | CbUnsol _ (Some _) | CbReaderClosed => True
  | CbTimeout => False
  end.

(** What the channel promises its callers: from a state between two commands a
    command is never undefined, and what it returns obeys the contract. *)
Class AtPortOk (S : Type) `{AtPort S} := {
  port_inv : S → Prop;
  port_send_ok k cmd want s : port_inv s →
    match port_send k cmd want s with
    | Some (PDone err out cbs s') => at_contract k want err out ∧ Forall cb_ok cbs ∧ port_inv s'
    | Some PBlocked => True
    | None => False
    end;
  port_handshake_ok s : port_inv s →
    match port_handshake s with
    | Some (PDone err _ cbs s') => (err = 0 ∨ err ∈ AT_errors) ∧ Forall cb_ok cbs ∧ port_inv s'
    | Some PBlocked => True
    | None => False
    end;
  port_close_ok s : port_inv s → port_inv (port_close s)
}.

(** ** atchannel.c implements it *)

(** The channel with the events that will happen while commands wait. *)
Definition ChanPort : Type := Chan * list WaitEvent.

Definition port_result (r : CmdResult) : option (PortResult ChanPort) :=
  match r with
  | CmdDone err out c cbs rest => Some (PDone err out cbs (c, rest))
  | CmdBlocked => Some PBlocked
  | CmdUndef => None
  end.

Definition chan_send (k : AtKind) (cmd : string) (want : bool) (s : ChanPort) : CmdResult :=
  let '(c, evs) := s in
  match k with
  | KPlain => at_send_command cmd want c evs
  | KNumeric => at_send_command_numeric cmd want c evs
  | KSingle p => at_send_command_singleline cmd p want c evs
  | KSms pdu p => at_send_command_sms cmd pdu p want c evs
  | KMulti p => at_send_command_multiline cmd p want c evs
  end.

#[export] Instance chan_port : AtPort ChanPort := {
  port_send k cmd want s := port_result (chan_send k cmd want s);
  port_handshake s := port_result (at_handshake false s.1 s.2);
  port_close s := (at_close s.1, s.2)
}.

Lemma nolock_contract command type prefix pdu timeout want c evs :
  idle c → (needs_prefix type = true → is_Some prefix) →
  match at_send_command_full_nolock command type prefix pdu timeout want c evs with
  | CmdDone err out c' _ rest => reply_ok type prefix want err out ∧ idle c' ∧ rest `suffix_of` evs
  | CmdBlocked => True
  | CmdUndef => False
  end.
Proof.
  intros Hi Hp. unfold at_send_command_full_nolock.
  destruct (begin_command_idle command type prefix pdu c Hi Hp) as
    (err & c' & -> & [(Hlt & Herr & Hi')|(-> & Hinv & Hs & Hcl & Ht & Hpre)]).
  - destruct (Z.ltb_spec err 0); [|lia]. split_and!; [by right|done|done].
  - simpl. by apply wait_loop_contract.
Qed.

Lemma full_contract command type prefix pdu timeout want c evs :
  idle c → (needs_prefix type = true → is_Some prefix) →
  match at_send_command_full false command type prefix pdu timeout want c evs with
  | CmdDone err out c' _ rest => reply_ok type prefix want err out ∧ idle c'
  | CmdBlocked => True
  | CmdUndef => False
  end.
Proof.
  intros Hi Hp. pose proof (nolock_contract command type prefix pdu timeout want c evs Hi Hp) as H.
  unfold at_send_command_full.
  destruct (at_send_command_full_nolock _ _ _ _ _ _ _ _); try done. by destruct H as (? & ? & _).
Qed.

Lemma require_intermediate_contract type prefix want r :
  match r with
  | CmdDone err out c' _ _ => reply_ok type prefix want err out ∧ idle c'
  | CmdBlocked => True
  | CmdUndef => False
  end →
  match require_intermediate r with
  | CmdDone err out c' _ _ => reply_ok type prefix want err out ∧ idle c' ∧
      (err = 0 → ∀ r, out = Some r → success r = 1 → p_intermediates r ≠ [])
  | CmdBlocked => True
  | CmdUndef => False
  end.
Proof.
  destruct r as [err [out|] c' cbs rest| |]; simpl; try done.
  - intros [H Hi]. destruct (Z.eqb_spec err 0) as [->|Hne]; simpl; [|by split_and!].
    destruct (0 <? success out) eqn:Es; simpl;
      [|split_and!; [done|done|]; intros _ r [= <-] Hs; rewrite Hs in Es; done].
    destruct (p_intermediates out) eqn:Ei; split_and!; try done.
    + right. at_error.
    + intros _ r [= <-] _. by rewrite Ei.
  - intros [H Hi]. by split_and!.
Qed.

Lemma handshake_loop_contract n err0 c cbs evs :
  idle c → err0 = 0 ∨ err0 ∈ AT_errors →
  match handshake_loop n err0 c cbs evs with
  | CmdDone err out c' _ _ => (err = 0 ∨ err ∈ AT_errors) ∧ idle c'
  | CmdBlocked => True
  | CmdUndef => False
  end.
Proof.
  revert err0 c cbs evs. induction n as [|n IH]; intros err0 c cbs evs Hi Herr; cbn [handshake_loop].
  - done.
  - pose proof (nolock_contract "ATE0Q0V1" NO_RESULT None None HANDSHAKE_TIMEOUT_MSEC false c evs Hi
      ltac:(done)) as H.
    destruct (at_send_command_full_nolock _ _ _ _ _ _ _ _) as [err out c' cbs' rest| |]; try done.
    destruct H as (Hr & Hi' & _). destruct (Z.eqb_spec err 0) as [->|Hne]; [by split; [left|]|].
    apply IH; [done|]. right. by destruct Hr as [[? _]|].
Qed.

(** *** What a blocked command has seen, and timeouts *)

(** An event that cannot end the wait of a command. *)
Definition quiet (timeout : Z) (onclosed : bool) (ev : WaitEvent) : Prop :=
  match ev with
  | WReader (ActLine l) => isFinalResponse l = false
  | WReader (ActSms _ _) => True
  | WReader ActClosed => onclosed = false
  | WTimeout => timeout = 0
  | WSpurious => True
  | WClose => False
  end.

Lemma wait_loop_over timeout want c evs :
  wait_over c = Some true → wait_loop timeout want c evs ≠ CmdBlocked.
Proof.
  intros H. destruct evs; cbn [wait_loop]; rewrite H; by destruct (finish_command want c) as [[? ?] ?].
Qed.

(** A step that leaves the command waiting was quiet. *)
Lemma reader_step_quiet timeout a c c' cbs :
  is_Some (sp_response c) → reader_step a c = Some (c', cbs) →
  wait_over c = Some false → wait_over c' = Some false →
  quiet timeout (s_onReaderClosed c) (WReader a).
Proof.
  intros [r Hr] Hst Hw Hw'. destruct a as [l|l1 l2|]; simpl in *; [|done|].
  - destruct (isFinalResponse l) eqn:E; [|done].
    rewrite (processLine_final l c r Hr E) in Hst. injection Hst as <- <-. done.
  - unfold onReaderClosed in Hst. destruct (s_onReaderClosed c); [|done].
    unfold wait_over in Hw. rewrite Hr in Hw.
    destruct (s_readerClosed c =? 0) eqn:Ecl; simpl in Hst, Hw.
    + injection Hst as <- <-. unfold wait_over in Hw'. simpl in Hw'.
      rewrite Hr in Hw'. by rewrite orb_true_r in Hw'.
    + by rewrite orb_true_r in Hw.
Qed.

Lemma wait_loop_blocked timeout want c evs :
  chan_inv c → is_Some (sp_response c) →
  wait_loop timeout want c evs = CmdBlocked →
  wait_over c = Some false ∧ Forall (quiet timeout (s_onReaderClosed c)) evs.
Proof.
  revert c. induction evs as [|ev evs IH]; intros c Hinv Hs Hb.
  all: assert (Hov : wait_over c = Some false)
    by (destruct (wait_over c) as [[]|] eqn:E; [by apply wait_loop_over in Hb|done|
        destruct Hs as [r Er]; unfold wait_over in E; by rewrite Er in E]).
  { by split. }
  split; [done|]. cbn [wait_loop] in Hb. rewrite Hov in Hb.
  destruct ev as [a| | |].
  - destruct (reader_step_inv a c Hinv) as (c' & cbs & Est & Hi' & (_ & _ & _ & Hoc & _ & _ & Hs')).
    rewrite Est in Hb.
    assert (Hb' : wait_loop timeout want c' evs = CmdBlocked)
      by (by destruct (wait_loop timeout want c' evs)).
    apply IH in Hb' as [Hov' Hq]; [|done|by apply Hs']. rewrite Hoc in Hq.
    constructor; [by eapply reader_step_quiet|done].
  - destruct (Z.eqb_spec timeout 0); [|done]. apply IH in Hb as [_ ?]; [|done..]. by constructor.
  - apply IH in Hb as [_ ?]; [|done..]. by constructor.
  - destruct (at_close_inv c Hinv) as [Hi' (_ & _ & _ & _ & _ & _ & Hs')].
    apply IH in Hb as [Hov' _]; [|done|by apply Hs'].
    unfold wait_over in Hov'. simpl in Hov'. destruct Hs as [r Er]. rewrite Er in Hov'. by rewrite orb_true_r in Hov'.
Qed.

(** A result that is no timeout, with no timeout callback. *)
Definition no_timeout (r : CmdResult) : Prop :=
  match r with CmdDone err _ _ cbs _ => err ≠ AT_ERROR_TIMEOUT ∧ CbTimeout ∉ cbs | _ => True end.

Lemma reader_step_no_timeout a c c' cbs : reader_step a c = Some (c', cbs) → CbTimeout ∉ cbs.
Proof.
  assert (Hcb : ∀ cb : Callback, cb ≠ CbTimeout → CbTimeout ∉ [cb])
    by (intros cb Hne Hin%list_elem_of_singleton; by apply Hne).
  assert (Hu : ∀ l, CbTimeout ∉ handleUnsolicited l c)
    by (intros l; unfold handleUnsolicited; destruct (s_unsolHandler c); [by apply Hcb|apply not_elem_of_nil]).
  destruct a as [l|l1 l2|]; simpl.
  - unfold processLine. intros H. specialize (Hu l).
    repeat case_hyp H; try done; injection H as <- <-; first [exact Hu|apply not_elem_of_nil].
  - intros [= <- <-]. destruct (s_unsolHandler c); [by apply Hcb|apply not_elem_of_nil].
  - unfold onReaderClosed. destruct (_ && _); intros [= <- <-]; [by apply Hcb|apply not_elem_of_nil].
Qed.

Lemma wait_loop_no_timeout want c evs : no_timeout (wait_loop 0 want c evs).
Proof.
  assert (Hfin : ∀ c evs, no_timeout (let '(err, out, c) := finish_command want c in CmdDone err out c [] evs)).
  { intros c' evs'. unfold finish_command. simpl. split; [by destruct (0 <? _)|apply not_elem_of_nil]. }
  revert c. induction evs as [|ev evs IH]; intros c; cbn [wait_loop].
  all: destruct (wait_over c) as [[]|]; try done.
  all: try apply Hfin.
  destruct ev as [a| | |]; simpl; try apply IH.
  destruct (reader_step a c) as [[c' cbs]|] eqn:E; [|done]. apply reader_step_no_timeout in E.
  specialize (IH c'). destruct (wait_loop 0 want c' evs); simpl in *; try done.
  destruct IH. split; [done|]. rewrite elem_of_app. tauto.
Qed.

Lemma full_no_timeout command type prefix pdu want c evs :
  no_timeout (at_send_command_full false command type prefix pdu 0 want c evs).
Proof.
  unfold at_send_command_full, at_send_command_full_nolock.
  assert (H : no_timeout (match begin_command command type prefix pdu c with
    | None => CmdUndef
    | Some (err, c) => if err <? 0 then CmdDone err None c [] evs else wait_loop 0 want c evs end)).
  { unfold begin_command. destruct (sp_response c); [simpl; by split; [|apply not_elem_of_nil]|].
    destruct (chan_writeline_total command c) as (err & t & -> & Herr).
    cases_in Herr; subst err; simpl; [apply wait_loop_no_timeout| |]; by split; [|apply not_elem_of_nil]. }
  destruct (match begin_command _ _ _ _ _ with None => _ | _ => _ end); try done.
  simpl in *. destruct H as [H1 H2]. apply Z.eqb_neq in H1. rewrite H1. simpl.
  rewrite app_nil_r. apply Z.eqb_neq in H1. by split.
Qed.

Lemma require_intermediate_no_timeout r : no_timeout r → no_timeout (require_intermediate r).
Proof. destruct r as [? [|] ? ? ?| |]; simpl; try done. destruct (_ && _); simpl; [|done]. by intros []. Qed.

Lemma chan_send_full k cmd want c evs :
  ∃ pdu, chan_send k cmd want (c, evs) =
    let r := at_send_command_full false cmd (kind_type k) (kind_prefix k) pdu 0 want c evs in
    if kind_requires k then require_intermediate r else r.
Proof. destruct k; simpl; eexists; reflexivity. Qed.

Lemma kind_needs_prefix k : needs_prefix (kind_type k) = true → is_Some (kind_prefix k).
Proof. destruct k; simpl; intros; by eauto. Qed.

(** The contract of the send functions, shared by the theorem and the instance. *)
Lemma chan_send_contract k cmd want c evs :
  idle c →
  match chan_send k cmd want (c, evs) with
  | CmdDone err out c' _ _ => at_contract k want err out ∧ idle c'
  | CmdBlocked => True
  | CmdUndef => False
  end.
Proof.
  intros Hi. destruct (chan_send_full k cmd want c evs) as [pdu ->].
  pose proof (full_contract cmd _ _ pdu 0 want c evs Hi (kind_needs_prefix k)) as H.
  unfold at_contract. cbv zeta. destruct (kind_requires k).
  - apply require_intermediate_contract in H.
    destruct (require_intermediate _); try done. destruct H as (? & ? & ?). split_and!; auto.
  - destruct (at_send_command_full _ _ _ _ _ _ _ _ _); try done. destruct H. by split_and!.
Qed.

(** C2: every send function keeps its contract, whatever the modem, the reader
    thread, spurious wake-ups and closes of the channel do while it waits,
    provided no other thread sends a command meanwhile (with a second sender it
    does not hold: [AtThreads.two_threads_undefined]).
    It is never undefined; when it returns, the error code and the response
    obey the contract [at_contract] - a final response, a 0/1 success flag,
    only intermediates of the command's type, and at least one of them when
    the kind requires it - no command is left pending, no timeout is reported
    and the timeout callback is not called; and when it does not return, then
    no final response arrived, the channel was not closed, and the reader did
    not end (or no close callback is registered). *)
Theorem at_send_contract (k : AtKind) (cmd : string) (want : bool) (c : Chan)
    (evs : list WaitEvent) :
  idle c →
  match chan_send k cmd want (c, evs) with
  | CmdDone err out c' cbs _ =>
      at_contract k want err out ∧ idle c' ∧ err ≠ AT_ERROR_TIMEOUT ∧ CbTimeout ∉ cbs
  | CmdBlocked => Forall (quiet 0 (s_onReaderClosed c)) evs
  | CmdUndef => False
  end.
Proof.
  intros Hi. pose proof (chan_send_contract k cmd want c evs Hi) as H.
  assert (Hn : no_timeout (chan_send k cmd want (c, evs))).
  { destruct (chan_send_full k cmd want c evs) as [pdu ->]. cbv zeta.
    destruct (kind_requires k); [apply require_intermediate_no_timeout|]; apply full_no_timeout. }
  destruct (chan_send k cmd want (c, evs)) eqn:E; [destruct H, Hn; by split_and!| |done].
  destruct (chan_send_full k cmd want c evs) as [pdu Ef]. rewrite E in Ef. cbv zeta in Ef.
  assert (Eb : at_send_command_full_nolock cmd (kind_type k) (kind_prefix k) pdu 0 want c evs = CmdBlocked).
  { unfold at_send_command_full in Ef. destruct (at_send_command_full_nolock _ _ _ _ _ _ _ _) as [? [|] ? ? ?| |];
      destruct (kind_requires k); simpl in Ef; try done. by destruct (_ && _) in Ef. }
  unfold at_send_command_full_nolock in Eb.
  destruct (begin_command_idle cmd (kind_type k) (kind_prefix k) pdu c Hi (kind_needs_prefix k)) as
    (err & c' & Ebc & [(Hlt & _)|(-> & Hinv & Hs & _)]); rewrite Ebc in Eb.
  { destruct (Z.ltb_spec err 0); [done|lia]. }
  apply wait_loop_blocked in Eb as [_ Hq]; [|done|by rewrite Hs].
  revert Ebc Hq. unfold begin_command. destruct (sp_response c); [by intros [= ]|].
  destruct (chan_writeline_total cmd c) as (err & t & -> & Herr).
  cases_in Herr; subst err; simpl; intros [= <-]; exact id.
Qed.

Lemma at_send_contract_witness :
  idle (opened_chan []) ∧
  match chan_send (KSingle "+CSQ:") "AT+CSQ" true
          (opened_chan [], [WSpurious; WReader (ActLine "RING"); WReader (ActLine "OK")]) with
  | CmdDone err out c' cbs _ =>
      at_contract (KSingle "+CSQ:") true err out ∧ idle c' ∧ err ≠ AT_ERROR_TIMEOUT ∧ CbTimeout ∉ cbs
  | CmdBlocked => Forall (quiet 0 (s_onReaderClosed (opened_chan [])))
                    [WSpurious; WReader (ActLine "RING"); WReader (ActLine "OK")]
  | CmdUndef => False
  end.
Proof. split; [by split|]. apply at_send_contract. by split. Defined.

(** *** The callbacks made while a command waits *)

(** An action of the reader as [readerLoop] produces it. *)
Definition action_ok (a : ReaderAction) : Prop :=
  match a with ActLine l => isSMSUnsolicited l = false | _ => True end.

Definition event_ok (ev : WaitEvent) : Prop :=
  match ev with WReader a => action_ok a | _ => True end.

Lemma reader_step_callbacks a c c' cbs :
  action_ok a → reader_step a c = Some (c', cbs) → Forall cb_ok cbs.
Proof.
  intros Ha.
  assert (Hu : ∀ l, isSMSUnsolicited l = false → Forall cb_ok (handleUnsolicited l c))
    by (intros l Hl; unfold handleUnsolicited; destruct (s_unsolHandler c); by repeat constructor).
  destruct a as [l|l1 l2|]; simpl.
  - unfold processLine. intros H. specialize (Hu l Ha).
    repeat case_hyp H; try done; injection H as <- <-; first [exact Hu|by constructor].
  - intros [= <- <-]. destruct (s_unsolHandler c); by repeat constructor.
  - unfold onReaderClosed. destruct (_ && _); intros [= <- <-]; by repeat constructor.
Qed.

(** The callbacks of a result, and the events it leaves. *)
Definition result_ok (r : CmdResult) : Prop :=
  match r with CmdDone _ _ _ cbs rest => Forall cb_ok cbs ∧ Forall event_ok rest | _ => True end.

Lemma wait_loop_callbacks timeout want c evs :
  Forall event_ok evs → result_ok (wait_loop timeout want c evs).
Proof.
  intros Hev. revert c. induction Hev as [|ev evs He Hev IH]; intros c; cbn [wait_loop];
    (destruct (wait_over c) as [[]|]; [|try done|done]).
  - unfold finish_command. simpl. by split.
  - unfold finish_command. simpl. by repeat constructor.
  - destruct ev as [a| | |]; try apply IH.
    + destruct (reader_step a c) as [[c' cbs]|] eqn:E; [|done].
      apply reader_step_callbacks in E; [|exact He]. specialize (IH c').
      destruct (wait_loop timeout want c' evs); try done. destruct IH.
      split; [by apply Forall_app|done].
    + destruct (timeout =? 0); [apply IH|by split].
Qed.

Lemma nolock_callbacks command type prefix pdu timeout want c evs :
  Forall event_ok evs →
  result_ok (at_send_command_full_nolock command type prefix pdu timeout want c evs).
Proof.
  intros Hev. unfold at_send_command_full_nolock.
  destruct (begin_command _ _ _ _ _) as [[err c']|]; [|done].
  destruct (err <? 0); [by split|by apply wait_loop_callbacks].
Qed.

Lemma chan_send_callbacks k cmd want c evs :
  idle c → Forall event_ok evs → result_ok (chan_send k cmd want (c, evs)).
Proof.
  intros Hi Hev. destruct (chan_send_full k cmd want c evs) as [pdu ->]. cbv zeta.
  assert (H : result_ok (at_send_command_full false cmd (kind_type k) (kind_prefix k) pdu 0 want c evs)).
  { pose proof (nolock_callbacks cmd (kind_type k) (kind_prefix k) pdu 0 want c evs Hev) as H.
    pose proof (full_no_timeout cmd (kind_type k) (kind_prefix k) pdu want c evs) as Hn.
    unfold at_send_command_full in *. destruct (at_send_command_full_nolock _ _ _ _ _ _ _ _); try done.
    destruct H, Hn as [Hne _]. split; [|done]. apply Forall_app. split; [done|].
    apply Z.eqb_neq in Hne. by rewrite Hne. }
  destruct (kind_requires k); [|done].
  destruct (at_send_command_full _ _ _ _ _ _ _ _ _) as [? [|] ? ? ?| |]; simpl in *; try done.
  by destruct (_ && _).
Qed.

Lemma handshake_loop_callbacks n err c cbs evs :
  Forall cb_ok cbs → Forall event_ok evs → result_ok (handshake_loop n err c cbs evs).
Proof.
  revert err c cbs evs. induction n as [|n IH]; intros err c cbs evs Hc Hev; cbn [handshake_loop]; [by split|].
  pose proof (nolock_callbacks "ATE0Q0V1" NO_RESULT None None HANDSHAKE_TIMEOUT_MSEC false c evs Hev) as H.
  destruct (at_send_command_full_nolock _ _ _ _ _ _ _ _); try done. destruct H.
  destruct (_ =? 0); [split; [by apply Forall_app|done]|].
  apply IH; [by apply Forall_app|done].
Qed.

(** [readerLoop] turns the modem's lines into actions without losing or
    reordering any: an SMS header takes the next line as its PDU, every other
    line is an action of its own, and only a last SMS header without a PDU is
    dropped when the channel closes.  So no line handed to [processLine] is an
    SMS header. *)
Theorem readerLoop_spec (lines : list string) :
  Forall action_ok (readerLoop lines) ∧
  ∃ acts dropped, readerLoop lines = acts ++ [ActClosed] ∧
    lines = flat_map (λ a, match a with
                           | ActLine l => [l] | ActSms l1 l2 => [l1; l2] | ActClosed => []
                           end) acts ++ dropped ∧
    Forall (λ l, isSMSUnsolicited l = true) dropped ∧ (length dropped ≤ 1)%nat.
Proof.
  remember (length lines) as n eqn:En. revert lines En.
  induction (lt_wf n) as [n _ IH]. intros [|l lines] En; simpl.
  { split; [by repeat constructor|]. exists [], []. simpl. split_and!; by auto. }
  destruct (isSMSUnsolicited l) eqn:El; [destruct lines as [|l2 lines]|].
  - split; [by repeat constructor|]. exists [], [l]. simpl. split_and!; by auto.
  - destruct (IH (length lines)) with (lines := lines) as [H1 (acts & d & E1 & E2 & H2)];
      [simpl in En; lia|done|]. split; [by constructor|].
    exists (ActSms l l2 :: acts), d. simpl. rewrite E1. by rewrite <-E2.
  - destruct (IH (length lines)) with (lines := lines) as [H1 (acts & d & E1 & E2 & H2)];
      [simpl in En; lia|done|]. split; [by constructor|].
    exists (ActLine l :: acts), d. simpl. rewrite E1. by rewrite <-E2.
Qed.

#[export] Program Instance chan_port_ok : AtPortOk ChanPort := {
  port_inv s := idle s.1 ∧ Forall event_ok s.2
}.
Next Obligation.
  intros k cmd want [c evs] [Hi Hev]. simpl in Hi, Hev.
  pose proof (chan_send_contract k cmd want c evs Hi) as H.
  pose proof (chan_send_callbacks k cmd want c evs Hi Hev) as Hr.
  change (port_send k cmd want (c, evs)) with (port_result (chan_send k cmd want (c, evs))).
  destruct (chan_send k cmd want (c, evs)); simpl in *; tauto.
Qed.
Next Obligation.
  intros [c evs] [Hi Hev]. simpl in Hi, Hev.
  pose proof (handshake_loop_contract HANDSHAKE_RETRY_COUNT 0 c [] evs Hi (or_introl eq_refl)) as H.
  pose proof (handshake_loop_callbacks HANDSHAKE_RETRY_COUNT 0 c [] evs ltac:(constructor) Hev) as Hr.
  change (port_handshake (c, evs)) with
    (port_result (handshake_loop HANDSHAKE_RETRY_COUNT 0 c [] evs)).
  destruct (handshake_loop _ _ _ _ _); simpl in H, Hr |- *; tauto.
Qed.
Next Obligation. intros [c evs] [[? ?] ?]. split; [split; [done|simpl; lia]|done]. Qed.
