(* ===== verification/AtThreads.v ===== *)
(** * atchannel.c: several command threads on one channel, and its timing

    Part 1 is the transition system of the threads that share the static
    variables of atchannel.c.  A step is one critical section under
    [s_commandmutex]; between two steps any other thread may run, so every
    interleaving of the program is a path of [step].  Waiting on
    [s_commandcond] releases the mutex: a waiting thread is one whose program
    counter is [Waiting].  Part 2 is the arithmetic of the deadlines. *)

From S2P Require Import Prelude CString AtTok AtReader AtChannel.
From stdpp Require Import relations.

Open Scope Z_scope.

(** ** Part 1: threads *)

(** The arguments of [at_send_command_full_nolock]. *)
Record SendArgs := MkSend {
  sa_command : string;
  sa_type : ATCommandType;
  sa_prefix : option string;
  sa_pdu : option string;
  sa_timeout : Z;
  sa_want : bool
}.

Definition send_args_ok (a : SendArgs) : Prop :=
  needs_prefix (sa_type a) = true → is_Some (sa_prefix a).

(** Where a command thread is; the arguments of its call stay on its stack. *)
Inductive Pc :=
  | Outside                                        (** not in a send function *)
  | Waiting (a : SendArgs)                         (** blocked on [s_commandcond] *)
  | Returned (a : SendArgs) (err : Z) (out : option ATResponse).

Record Sys := MkSys { sys_chan : Chan; sys_threads : list Pc }.

Inductive ThEvent :=
  | EvSend (i : nat) (a : SendArgs)     (** thread [i] enters a send function *)
  | EvWake (i : nat) (timedout : bool)  (** it is woken, or its deadline passes *)
  | EvReader (a : ReaderAction)
  | EvClose.

Inductive Outcome :=
  | Next (s : Sys)
  | Undefined.   (** a NULL [sp_response] is dereferenced *)

Definition is_waiting (p : Pc) : bool := match p with Waiting _ => true | _ => false end.

(** The critical section a thread executes when it enters. *)
Definition send_section (a : SendArgs) (c : Chan) : option (Pc * Chan) :=
  match begin_command (sa_command a) (sa_type a) (sa_prefix a) (sa_pdu a) c with
  | None => None
  | Some (err, c') =>
      if err <? 0 then Some (Returned a err None, c')
      else Some (Waiting a, c')
  end.

(** The critical section it executes each time it is woken. *)
Definition wake_section (timedout : bool) (a : SendArgs) (c : Chan) : option (Pc * Chan) :=
  if timedout && negb (sa_timeout a =? 0) then
    Some (Returned a AT_ERROR_TIMEOUT None, clearPendingCommand c)
  else
    match wait_over c with
    | None => None
    | Some true => let '(err, out, c') := finish_command (sa_want a) c in Some (Returned a err out, c')
    | Some false => Some (Waiting a, c)
    end.

Definition set_thread (i : nat) (r : option (Pc * Chan)) (s : Sys) : Outcome :=
  match r with
  | None => Undefined
  | Some (p, c) => Next (MkSys c (<[i := p]> (sys_threads s)))
  end.

Inductive step : Sys → ThEvent → Outcome → Prop :=
  | step_send s i p a :
      sys_threads s !! i = Some p → is_waiting p = false → send_args_ok a →
      step s (EvSend i a) (set_thread i (send_section a (sys_chan s)) s)
  | step_wake s i a timedout :
      sys_threads s !! i = Some (Waiting a) →
      step s (EvWake i timedout) (set_thread i (wake_section timedout a (sys_chan s)) s)
  | step_reader s a :
      step s (EvReader a)
        (match reader_step a (sys_chan s) with
         | None => Undefined
         | Some (c, _) => Next (MkSys c (sys_threads s))
         end)
  | step_close s :
      step s EvClose (Next (MkSys (at_close (sys_chan s)) (sys_threads s))).

(** Executions. *)
Inductive run : Sys → list ThEvent → Outcome → Prop :=
  | run_nil s : run s [] (Next s)
  | run_cons s ev s' evs o : step s ev (Next s') → run s' evs o → run s (ev :: evs) o
  | run_undef s ev : step s ev Undefined → run s [ev] Undefined.

(** The transition system as a function; [None]: the event is not enabled. *)
Definition exec (s : Sys) (ev : ThEvent) : option Outcome :=
  match ev with
  | EvSend i a =>
      match sys_threads s !! i with
      | Some p =>
          if negb (is_waiting p) &&
             (negb (needs_prefix (sa_type a)) || match sa_prefix a with Some _ => true | None => false end)
          then Some (set_thread i (send_section a (sys_chan s)) s) else None
      | None => None
      end
  | EvWake i timedout =>
      match sys_threads s !! i with
      | Some (Waiting a) => Some (set_thread i (wake_section timedout a (sys_chan s)) s)
      | _ => None
      end
  | EvReader a =>
      Some (match reader_step a (sys_chan s) with
            | None => Undefined
            | Some (c, _) => Next (MkSys c (sys_threads s))
            end)
  | EvClose => Some (Next (MkSys (at_close (sys_chan s)) (sys_threads s)))
  end.

Lemma step_exec s ev o : step s ev o ↔ exec s ev = Some o.
Proof.
  split.
  - destruct 1 as [s i p a Hp Hw Ha|s i a b Hp|s a|s]; simpl; rewrite ?Hp; try done.
    rewrite Hw. simpl. unfold send_args_ok in Ha. destruct (needs_prefix (sa_type a)); simpl; [|done].
    by destruct (Ha eq_refl) as [? ->].
  - destruct ev as [i a|i b|a|]; simpl.
    + destruct (sys_threads s !! i) as [p|] eqn:Hp; [|done].
      destruct (is_waiting p) eqn:Hw; [done|]. simpl. destruct (_ || _) eqn:Ha; [|done].
      intros [= <-]. eapply step_send; [done..|]. intros Hn. rewrite Hn in Ha. simpl in Ha.
      by destruct (sa_prefix a).
    + destruct (sys_threads s !! i) as [[|a|]|] eqn:Hp; try done. intros [= <-]. by apply step_wake.
    + intros [= <-]. apply step_reader.
    + intros [= <-]. apply step_close.
Qed.

Fixpoint exec_all (s : Sys) (evs : list ThEvent) : option Outcome :=
  match evs with
  | [] => Some (Next s)
  | ev :: evs' =>
      match exec s ev with
      | Some (Next s') => exec_all s' evs'
      | Some Undefined => match evs' with [] => Some Undefined | _ => None end
      | None => None
      end
  end.

Lemma exec_all_run s evs o : exec_all s evs = Some o → run s evs o.
Proof.
  revert s. induction evs as [|ev evs IH]; simpl; intros s.
  - intros [= <-]. apply run_nil.
  - destruct (exec s ev) as [[s'|]|] eqn:E; [|destruct evs; [|done]|done]; intros H.
    + eapply run_cons; [by apply step_exec|by apply IH].
    + injection H as <-. by apply run_undef, step_exec.
Qed.

(** No thread enters a send function while another one waits in one. *)
Definition take_turns (s : Sys) (ev : ThEvent) : bool :=
  match ev with EvSend _ _ => forallb (negb ∘ is_waiting) (sys_threads s) | _ => true end.

Fixpoint serialized (s : Sys) (evs : list ThEvent) : bool :=
  match evs with
  | [] => true
  | ev :: evs' =>
      take_turns s ev &&
      match exec s ev with Some (Next s') => serialized s' evs' | _ => true end
  end.

(** The initial state: [n] command threads on a channel as [at_open] leaves it. *)
Definition sys_init (n : nat) (c : Chan) : Sys := MkSys c (replicate n Outside).

(** *** The invariant of serialized executions *)

(** What a command returned is an error code of the channel, or 0 with - if it
    was asked for - a response whose lines are of the command's own type. *)
Definition returned_ok (p : Pc) : Prop :=
  match p with
  | Returned a err out => reply_ok (sa_type a) (sa_prefix a) (sa_want a) err out
  | _ => True
  end.

Record sys_inv (s : Sys) : Prop := {
  si_chan : chan_inv (sys_chan s);
  si_closed : 0 ≤ s_readerClosed (sys_chan s);
  si_owner : match sp_response (sys_chan s) with
             | Some _ => ∃ i a, sys_threads s !! i = Some (Waiting a) ∧
                 s_type (sys_chan s) = sa_type a ∧ s_responsePrefix (sys_chan s) = sa_prefix a ∧
                 ∀ j p, sys_threads s !! j = Some p → is_waiting p = true → j = i
             | None => Forall (λ p, is_waiting p = false) (sys_threads s)
             end;
  si_returned : Forall returned_ok (sys_threads s)
}.

Lemma sys_init_inv n c : idle c → sys_inv (sys_init n c).
Proof.
  intros [Hi Hc]. split; simpl; [unfold chan_inv; by rewrite Hi|done| |by apply Forall_replicate].
  rewrite Hi. by apply Forall_replicate.
Qed.

Lemma no_waiting l (i : nat) a :
  Forall (λ p, is_waiting p = false) l → l !! i ≠ Some (Waiting a).
Proof. intros H Hi. pose proof (Forall_lookup_1 _ _ _ _ H Hi). done. Qed.

Lemma sys_inv_idle s :
  sys_inv s → Forall (λ p, is_waiting p = false) (sys_threads s) → idle (sys_chan s).
Proof.
  intros [_ Hc Ho _] Hf. split; [|done]. destruct (sp_response (sys_chan s)) as [r|]; [|done].
  destruct Ho as (i & a & Hi & _). by apply (no_waiting _ i a Hf) in Hi.
Qed.

(** A step of the reader, or a close, keeps the invariant. *)
Lemma sys_inv_chan s c' :
  sys_inv s → chan_inv c' → same_command (sys_chan s) c' → sys_inv (MkSys c' (sys_threads s)).
Proof.
  intros [Hi Hc Ho Hre] Hi' (Et & Ep & _ & _ & _ & Hcl & Hr). split; simpl; [done|by apply Hcl| |done].
  rewrite Et, Ep. destruct (sp_response (sys_chan s)) eqn:E, (sp_response c') eqn:E'; try done.
  - destruct (proj1 Hr ltac:(eauto)). done.
  - destruct (proj2 Hr ltac:(eauto)). done.
Qed.

(** A thread that leaves a send function while no other one waits. *)
Lemma no_other_waiting l (i : nat) p a :
  l !! i = Some (Waiting a) → (∀ j q, l !! j = Some q → is_waiting q = true → j = i) →
  is_waiting p = false → Forall (λ p, is_waiting p = false) (<[i := p]> l).
Proof.
  intros Hi Hu Hp. apply Forall_lookup_2. intros j q Hj.
  destruct (decide (j = i)) as [->|Hne].
  - rewrite list_lookup_insert_eq in Hj by (by eapply lookup_lt_Some). by injection Hj as <-.
  - rewrite list_lookup_insert_ne in Hj by done.
    destruct (is_waiting q) eqn:E; [|done]. by apply Hu in Hj.
Qed.

Lemma send_step_inv s i p a :
  sys_inv s → Forall (λ p, is_waiting p = false) (sys_threads s) →
  sys_threads s !! i = Some p → send_args_ok a →
  ∃ s', set_thread i (send_section a (sys_chan s)) s = Next s' ∧ sys_inv s'.
Proof.
  intros Hinv Hf Hp Ha. pose proof (sys_inv_idle s Hinv Hf) as Hidle. destruct Hinv as [_ _ _ Hre].
  unfold send_section.
  destruct (begin_command_idle (sa_command a) (sa_type a) (sa_prefix a) (sa_pdu a) _ Hidle Ha) as
    (err & c' & -> & [(Hlt & Herr & [Hi' Hc'])|(-> & Hi' & Hs & Hc' & Ht & Hpre)]).
  - destruct (Z.ltb_spec err 0); [|lia]. eexists. split; [reflexivity|]. split; simpl.
    + unfold chan_inv. by rewrite Hi'.
    + done.
    + rewrite Hi'. by apply Forall_insert.
    + apply Forall_insert; [done|]. by right.
  - eexists. split; [reflexivity|]. split; simpl; [done|done| |by apply Forall_insert]. rewrite Hs.
    exists i, a. split_and!; [|done|done|].
    + apply list_lookup_insert_eq. by eapply lookup_lt_Some.
    + intros j q Hj Hw. destruct (decide (j = i)); [done|].
      rewrite list_lookup_insert_ne in Hj by done. eapply Forall_lookup_1 in Hf; [|done]. congruence.
Qed.

Lemma wake_step_inv s i a timedout :
  sys_inv s → sys_threads s !! i = Some (Waiting a) →
  ∃ s', set_thread i (wake_section timedout a (sys_chan s)) s = Next s' ∧ sys_inv s'.
Proof.
  intros [Hi Hc Ho Hre] Hp. unfold wake_section.
  destruct (sp_response (sys_chan s)) as [r|] eqn:Er.
  2: { by apply (no_waiting _ i a Ho) in Hp. }
  destruct Ho as (i' & a' & Hi' & Ht & Hpre & Hu). assert (i = i') as <- by by eapply Hu.
  assert (a' = a) as -> by congruence.
  assert (Hret : ∀ e o c', sp_response c' = None → 0 ≤ s_readerClosed c' →
    reply_ok (sa_type a) (sa_prefix a) (sa_want a) e o →
    sys_inv (MkSys c' (<[i := Returned a e o]> (sys_threads s)))).
  { intros e o c' Hr Hc' Hok. split; simpl; [unfold chan_inv; by rewrite Hr|done| |by apply Forall_insert].
    rewrite Hr. by eapply no_other_waiting. }
  destruct (timedout && _); [eexists; split; [reflexivity|apply Hret; [done|done|right; at_error]]|].
  destruct (wait_over (sys_chan s)) as [[]|] eqn:Ew; [| |unfold wait_over in Ew; by rewrite Er in Ew].
  - destruct (finish_command (sa_want a) (sys_chan s)) as [[e o] c'] eqn:Ef.
    apply (finish_command_contract (sa_type a) (sa_prefix a)) in Ef as [Hok [Hr Hc']]; [|done..].
    eexists. split; [reflexivity|]. by apply Hret.
  - eexists. split; [reflexivity|]. split; simpl; [done|done| |by apply Forall_insert]. rewrite Er.
    exists i, a. split_and!; [apply list_lookup_insert_eq; by eapply lookup_lt_Some|done|done|].
    intros j q Hj Hw. destruct (decide (j = i)); [done|].
    rewrite list_lookup_insert_ne in Hj by done. by eapply Hu.
Qed.

Lemma take_turns_forall l :
  forallb (negb ∘ is_waiting) l = true → Forall (λ p, is_waiting p = false) l.
Proof.
  rewrite Forall_bool. intros H. eapply Forall_impl; [exact H|]. intros p. apply negb_true_iff.
Qed.

Lemma step_inv s ev o :
  sys_inv s → step s ev o → take_turns s ev = true →
  ∃ s', o = Next s' ∧ sys_inv s'.
Proof.
  intros Hinv Hst Hser. destruct Hst as [s i p a Hp Hw Ha|s i a b Hp|s a|s].
  - eapply send_step_inv; eauto using take_turns_forall.
  - by apply wake_step_inv.
  - destruct (reader_step_inv a (sys_chan s) (si_chan _ Hinv)) as (c' & cbs & -> & Hi' & Hs).
    eexists. split; [reflexivity|]. by apply sys_inv_chan.
  - destruct (at_close_inv (sys_chan s) (si_chan _ Hinv)).
    eexists. split; [reflexivity|]. by apply sys_inv_chan.
Qed.

Lemma run_inv s evs o :
  sys_inv s → run s evs o → serialized s evs = true → ∃ s', o = Next s' ∧ sys_inv s'.
Proof.
  intros Hinv Hrun. induction Hrun as [s|s ev s' evs o Hst _ IH|s ev Hst]; simpl; [eauto| |].
  - intros [Ht Hser]%andb_true_iff. destruct (step_inv s ev (Next s') Hinv Hst Ht) as (? & [= <-] & Hinv').
    apply step_exec in Hst. rewrite Hst in Hser. auto.
  - intros [Ht _]%andb_true_iff. by destruct (step_inv s ev Undefined Hinv Hst Ht) as (? & ? & _).
Qed.

(** One thread takes turns with itself. *)
Lemma single_serialized s evs o :
  run s evs o → (length (sys_threads s) ≤ 1)%nat → serialized s evs = true.
Proof.
  assert (Ht : ∀ s ev o, step s ev o → (length (sys_threads s) ≤ 1)%nat → take_turns s ev = true).
  { intros s' ev o' [] Hl; try done. simpl. destruct s0 as [c [|q [|]]]; simpl in *; try done; [|lia].
    destruct i; [|done]. injection H as ->. by rewrite H0. }
  assert (Hk : ∀ s ev s', step s ev (Next s') → length (sys_threads s') = length (sys_threads s)).
  { intros s1 ev s2 H. apply step_exec in H. unfold exec, set_thread in H.
    repeat case_hyp H; try done; injection H as <-; simpl; by rewrite ?length_insert. }
  induction 1 as [s|s ev s' evs o Hst _ IH|s ev Hst]; intros Hl; simpl; [done| |].
  - rewrite (Ht _ _ _ Hst Hl). simpl. pose proof (proj1 (step_exec _ _ _) Hst) as ->.
    apply IH. by rewrite (Hk _ _ _ Hst).
  - rewrite (Ht _ _ _ Hst Hl). by pose proof (proj1 (step_exec _ _ _) Hst) as ->.
Qed.


(** A request thread and the timer thread. *)
Definition send_plain (cmd : string) (want : bool) : SendArgs := MkSend cmd NO_RESULT None None 0 want.

Definition turns_example : list ThEvent :=
  [EvSend 0 (send_plain "AT" true); EvReader (ActLine "RING"); EvWake 0 false;
   EvReader (ActLine "OK"); EvWake 0 false; EvSend 1 (send_plain "AT+CSQ" true)].


(** C33: the turn-taking is necessary.  With two command threads - the driver
    has them, the request thread and the timer thread of the main loop - a
    call that finds a command pending cancels it, and the thread that waits
    for that command dereferences a NULL pointer when it is woken next, be it
    by the answer, by a spurious wake-up or by the close of the channel. *)
Theorem two_threads_undefined (c : Chan) (a b : SendArgs) (wake : list ThEvent) :
  ready c → send_args_ok a → send_args_ok b → wake ∈ [[]; [EvReader (ActLine "OK")]; [EvClose]] →
  run (sys_init 2 c) (EvSend 0 a :: EvSend 1 b :: wake ++ [EvWake 0 false]) Undefined.
Proof.
  intros ([Hi Hc] & Hcl & Hfd & Ho) Ha Hb Hw.
  assert (E1 : send_section a c = Some (Waiting a,
    set_response (Some at_response_new) (set_smsPDU (sa_pdu a) (set_prefix (sa_prefix a)
      (set_type (sa_type a) (set_tty (MkTty (tty_sent (s_tty c) ++ chars (sa_command a) ++ [CR]) []) c)))))).
  { unfold send_section, begin_command. rewrite Hi.
    by rewrite (proj1 (chan_write_ready (sa_command a) c Hcl Hfd Ho)). }
  eapply run_cons.
  { pose proof (step_send (sys_init 2 c) 0 Outside a eq_refl eq_refl Ha) as H.
    change (sys_chan (sys_init 2 c)) with c in H. rewrite E1 in H. exact H. }
  eapply run_cons.
  { match goal with |- step ?s _ _ => exact (step_send s 1 Outside b eq_refl eq_refl Hb) end. }
  cases_in Hw; subst wake; simpl app.
  - apply run_undef. apply step_exec. reflexivity.
  - eapply run_cons; [apply step_exec; reflexivity|]. apply run_undef. apply step_exec. reflexivity.
  - eapply run_cons; [apply step_exec; reflexivity|]. apply run_undef. apply step_exec. reflexivity.
Qed.

Lemma two_threads_undefined_witness :
  run (sys_init 2 (opened_chan []))
    (EvSend 0 (send_plain "AT" true) :: EvSend 1 (send_plain "AT+CREG?" true) ::
     [EvReader (ActLine "OK")] ++ [EvWake 0 false]) Undefined.
Proof.
  apply two_threads_undefined; [vm_compute; repeat split; congruence|done|done|in_list].
Defined.

(** *** The sequential functions are executions of the transition system *)

Definition event_steps (ev : WaitEvent) : list ThEvent :=
  match ev with
  | WReader a => [EvReader a; EvWake 0 false]
  | WTimeout => [EvWake 0 true]
  | WSpurious => [EvWake 0 false]
  | WClose => [EvClose; EvWake 0 false]
  end.

(** A wake-up of the only thread, when the loop condition is known. *)
Lemma wake_stays a c :
  wait_over c = Some false →
  step (MkSys c [Waiting a]) (EvWake 0 false) (Next (MkSys c [Waiting a])).
Proof.
  intros H. pose proof (step_wake (MkSys c [Waiting a]) 0 a false eq_refl) as Hst.
  unfold wake_section in Hst. cbn [andb sys_chan] in Hst. by rewrite H in Hst.
Qed.

Lemma wake_returns a c err out c' :
  wait_over c = Some true → finish_command (sa_want a) c = (err, out, c') →
  step (MkSys c [Waiting a]) (EvWake 0 false) (Next (MkSys c' [Returned a err out])).
Proof.
  intros H E. pose proof (step_wake (MkSys c [Waiting a]) 0 a false eq_refl) as Hst.
  unfold wake_section in Hst. cbn [andb sys_chan] in Hst. by rewrite H, E in Hst.
Qed.

Lemma wait_loop_refines a evs c err out c' cbs rest :
  wait_over c = Some false → wait_loop (sa_timeout a) (sa_want a) c evs = CmdDone err out c' cbs rest →
  ∃ used, evs = used ++ rest ∧
    run (MkSys c [Waiting a]) (flat_map event_steps used) (Next (MkSys c' [Returned a err out])).
Proof.
  revert c cbs. induction evs as [|ev evs IH]; intros c cbs Hov; cbn [wait_loop]; rewrite Hov; [done|].
  (* what follows a step that does not end the wait by itself *)
  assert (Hwake : ∀ c1 cbs1, wait_loop (sa_timeout a) (sa_want a) c1 evs = CmdDone err out c' cbs1 rest →
    ∃ used, ev :: evs = ev :: used ++ rest ∧
      run (MkSys c1 [Waiting a]) (EvWake 0 false :: flat_map event_steps used)
        (Next (MkSys c' [Returned a err out]))).
  { intros c1 cbs1 H. destruct (wait_over c1) as [[]|] eqn:Hov1.
    - destruct (finish_command (sa_want a) c1) as [[e o] c2] eqn:Ef. exists [].
      assert (CmdDone e o c2 [] evs = CmdDone err out c' cbs1 rest) as [= -> -> -> _ ->].
      { destruct evs; cbn [wait_loop] in H; by rewrite Hov1, Ef in H. }
      split; [done|]. eapply run_cons; [by eapply wake_returns|apply run_nil].
    - destruct (IH c1 cbs1 Hov1 H) as (used & -> & Hrun). exists used. split; [done|].
      eapply run_cons; [by apply wake_stays|exact Hrun].
    - destruct evs; cbn [wait_loop] in H; by rewrite Hov1 in H. }
  destruct ev as [ra| | |].
  - destruct (reader_step ra c) as [[c1 cbs1]|] eqn:Est; [|done]. intros H.
    destruct (wait_loop (sa_timeout a) (sa_want a) c1 evs) as [e o c2 cbs2 r| |] eqn:Ew; try done. injection H as -> -> -> _ ->.
    destruct (Hwake c1 cbs2 Ew) as (used & [= ->] & Hrun). exists (WReader ra :: used). split; [done|].
    eapply run_cons; [|exact Hrun]. apply step_exec. simpl. by rewrite Est.
  - destruct (Z.eqb_spec (sa_timeout a) 0) as [Hz|Hne]; intros H.
    + destruct (Hwake c cbs H) as (used & [= ->] & Hrun). exists (WTimeout :: used). split; [done|].
      inversion Hrun as [|? ? s1 ? ? Hst Hrest|]; subst. eapply run_cons; [|exact Hrest].
      apply step_exec in Hst. apply step_exec. rewrite <- Hst. simpl. unfold wake_section. by rewrite Hz.
    + injection H as <- <- <- _ <-. exists [WTimeout]. split; [done|]. eapply run_cons; [|apply run_nil].
      apply step_exec. simpl. unfold wake_section. by rewrite (proj2 (Z.eqb_neq (sa_timeout a) 0) Hne).
  - intros H. destruct (Hwake c cbs H) as (used & [= ->] & Hrun). by exists (WSpurious :: used).
  - intros H. destruct (Hwake (at_close c) cbs H) as (used & [= ->] & Hrun).
    exists (WClose :: used). split; [done|]. eapply run_cons; [|exact Hrun]. by apply step_exec.
Qed.

(** A command only gets to wait on a channel that is open. *)
Lemma begin_command_open command type prefix pdu c c' :
  idle c → begin_command command type prefix pdu c = Some (0, c') → s_readerClosed c' = 0.
Proof.
  intros [Hi Hc]. unfold begin_command. rewrite Hi. unfold chan_writeline, writeline, write_terminated.
  destruct (Z.ltb_spec 0 (s_readerClosed c)) as [|Hle]; [rewrite orb_true_r; by intros [= ]|].
  assert (E : s_readerClosed c = 0) by lia.
  destruct (_ || _); [by intros [= ]|].
  destruct (match write_all _ _ _ with Some _ => _ | None => _ end) as [[e t]|]; [|done].
  destruct (e <? 0); intros [= ]; subst; done.
Qed.

(** The sequential description of a command is an execution of the
    threads.  Whenever [at_send_command_full_nolock], given the events that
    occur while it waits, returns, then the transition system has the run in
    which the thread enters, the events it consumed happen in that order, and
    the thread has returned with the same error code and response, leaving the
    same shared state. *)
Theorem full_nolock_refines (a : SendArgs) (c : Chan) (evs : list WaitEvent)
    (err : Z) (out : option ATResponse) (c' : Chan) (cbs : list Callback) (rest : list WaitEvent) :
  idle c → send_args_ok a →
  at_send_command_full_nolock (sa_command a) (sa_type a) (sa_prefix a) (sa_pdu a)
    (sa_timeout a) (sa_want a) c evs = CmdDone err out c' cbs rest →
  ∃ used, evs = used ++ rest ∧
    run (MkSys c [Outside]) (EvSend 0 a :: flat_map event_steps used)
      (Next (MkSys c' [Returned a err out])).
Proof.
  intros Hi Ha. unfold at_send_command_full_nolock.
  pose proof (step_send (MkSys c [Outside]) 0 Outside a eq_refl eq_refl Ha) as Hst.
  unfold send_section in Hst. simpl sys_chan in Hst.
  destruct (begin_command_idle (sa_command a) (sa_type a) (sa_prefix a) (sa_pdu a) c Hi Ha) as
    (e & c1 & Eb & [(Hlt & _)|(-> & _ & Hs & Hc & _)]); rewrite Eb in *.
  - destruct (Z.ltb_spec e 0); [|lia]. intros [= <- <- <- _ <-]. exists []. split; [done|].
    eapply run_cons; [exact Hst|apply run_nil].
  - simpl in Hst. intros H. destruct (wait_over c1) as [[]|] eqn:Hov.
    + unfold wait_over in Hov. rewrite Hs in Hov. simpl in Hov.
      by rewrite (begin_command_open _ _ _ _ _ _ Hi Eb) in Hov.
    + apply (wait_loop_refines _ _ _ _ _ _ _ _ Hov) in H as (used & -> & Hrun).
      exists used. split; [done|]. eapply run_cons; [exact Hst|exact Hrun].
    + unfold wait_over in Hov. by rewrite Hs in Hov.
Qed.

Lemma full_nolock_refines_witness :
  let a := MkSend "AT+CSQ" SINGLELINE (Some "+CSQ:") None 0 true in
  let evs := WSpurious :: line_events ["RING"; "+CSQ: 20,99"; "OK"] ++ [WTimeout] in
  ∃ c' cbs used, idle (opened_chan []) ∧ send_args_ok a ∧ evs = used ++ [WTimeout] ∧
    at_send_command_full_nolock "AT+CSQ" SINGLELINE (Some "+CSQ:") None 0 true (opened_chan []) evs =
      CmdDone 0 (Some (MkResponse 1 (Some "OK") ["+CSQ: 20,99"])) c' cbs [WTimeout] ∧
    run (MkSys (opened_chan []) [Outside]) (EvSend 0 a :: flat_map event_steps used)
      (Next (MkSys c' [Returned a 0 (Some (MkResponse 1 (Some "OK") ["+CSQ: 20,99"]))])).
Proof.
  intros a evs.
  assert (Hi : idle (opened_chan [])) by (split; vm_compute; congruence).
  assert (Ha : send_args_ok a) by (intros _; by eexists).
  destruct (at_send_command_full_nolock "AT+CSQ" SINGLELINE (Some "+CSQ:") None 0 true
    (opened_chan []) evs) as [err out c' cbs rest| |] eqn:E; [|exfalso; vm_compute in E; discriminate E..].
  assert (Er : (err, out, rest) = (0, Some (MkResponse 1 (Some "OK") ["+CSQ: 20,99"]), [WTimeout])).
  { change (match CmdDone err out c' cbs rest with
            | CmdDone e o _ _ r => (e, o, r) | _ => (1, None, []) end =
            (0, Some (MkResponse 1 (Some "OK") ["+CSQ: 20,99"]), [WTimeout])).
    rewrite <- E. vm_compute. reflexivity. }
  injection Er as -> -> ->.
  destruct (full_nolock_refines a (opened_chan []) evs 0 _ c' cbs [WTimeout] Hi Ha E) as (used & Eu & Hrun).
  exists c', cbs, used. split_and!; [exact Hi|exact Ha|exact Eu|reflexivity|exact Hrun].
Defined.

(** ** Part 2: deadlines *)

(** [struct timespec], two 32-bit longs. *)
Record timespec := MkTimespec { tv_sec : Z; tv_nsec : Z }.

Definition nanoseconds (ts : timespec) : Z := tv_sec ts * 1000000000 + tv_nsec ts.

(** What POSIX asks of a [timespec]: EINVAL otherwise. *)
Definition normalised (ts : timespec) : Prop := 0 ≤ tv_nsec ts < 1000000000.

(** [now_sec], [now_usec]: what [gettimeofday] stores. *)
Definition setTimespecRelative (now_sec now_usec msec : Z) : timespec :=
  MkTimespec (int32 (now_sec + Z.quot msec 1000))
             (int32 ((now_usec + Z.rem msec 1000 * 1000) * 1000)).

(** One [nanosleep]: it ends, fails, or is interrupted after [slept]
    nanoseconds and stores what remains. *)
Inductive SleepEvent := SlDone | SlErr | SlIntr (slept : Z).

Definition of_nanoseconds (ns : Z) : timespec := MkTimespec (ns / 1000000000) (ns `mod` 1000000000).

(** The loop of [sleepMsec]; the time slept.  With no event left the call
    sleeps to its end. *)
Fixpoint sleep_loop (ts : timespec) (evs : list SleepEvent) : Z :=
  match evs with
  | [] | SlDone :: _ => nanoseconds ts
  | SlErr :: _ => 0
  | SlIntr slept :: evs' =>
      let slept := Z.min slept (nanoseconds ts) in
      slept + sleep_loop (of_nanoseconds (nanoseconds ts - slept)) evs'
  end.

Definition sleepMsec (msec : Z) (evs : list SleepEvent) : Z :=
  sleep_loop (MkTimespec (int32 (Z.quot msec 1000)) (int32 (Z.rem msec 1000 * 1000 * 1000))) evs.

(** The deadline of a timed wait denotes the right instant, but it is not
    always a valid [timespec].  For a current time with a valid microsecond
    count and a time-out that does not overflow the seconds, the deadline is
    exactly the current time plus the time-out and no 32-bit overflow occurs in
    the nanoseconds; yet it is normalised only when the microseconds do not
    carry, so a handshake attempt (250 ms) started in the last quarter of a
    second has an invalid deadline. *)
Theorem setTimespecRelative_spec (now_sec now_usec msec : Z) :
  0 ≤ now_usec < 1000000 → 0 ≤ now_sec → 0 ≤ msec → now_sec + msec / 1000 ≤ INT_MAX →
  let ts := setTimespecRelative now_sec now_usec msec in
  nanoseconds ts = now_sec * 1000000000 + now_usec * 1000 + msec * 1000000 ∧
  (normalised ts ↔ now_usec + (msec `mod` 1000) * 1000 < 1000000) ∧
  (msec = HANDSHAKE_TIMEOUT_MSEC → normalised ts ↔ now_usec < 750000).
Proof.
  intros Hu Hs Hm Ho. unfold setTimespecRelative, INT_MAX in *.
  rewrite Z.quot_div_nonneg, Z.rem_mod_nonneg by lia.
  pose proof (Z.mod_pos_bound msec 1000). pose proof (Z.div_mod msec 1000).
  pose proof (Z.div_pos msec 1000).
  rewrite !int32_id by (unfold is_int32, INT_MIN, INT_MAX; lia).
  unfold nanoseconds, normalised, HANDSHAKE_TIMEOUT_MSEC. simpl. split_and!; [lia|lia|].
  intros ->. change (250 `mod` 1000) with 250. lia.
Qed.

Lemma setTimespecRelative_spec_witness :
  let ts := setTimespecRelative 1300000000 800000 HANDSHAKE_TIMEOUT_MSEC in
  nanoseconds ts = 1300000000 * 1000000000 + 800000 * 1000 + HANDSHAKE_TIMEOUT_MSEC * 1000000 ∧
  (normalised ts ↔ 800000 + (HANDSHAKE_TIMEOUT_MSEC `mod` 1000) * 1000 < 1000000) ∧
  (HANDSHAKE_TIMEOUT_MSEC = HANDSHAKE_TIMEOUT_MSEC → normalised ts ↔ 800000 < 750000).
Proof. apply (setTimespecRelative_spec 1300000000 800000); vm_compute; intuition congruence. Defined.

(** [sleepMsec] sleeps the time asked for however often it is interrupted:
    when no call fails, the slices slept add up to [msec] milliseconds. *)
Theorem sleepMsec_total (msec : Z) (evs : list SleepEvent) :
  0 ≤ msec ≤ INT_MAX → Forall (λ e, match e with SlErr => False | SlIntr n => 0 ≤ n | SlDone => True end) evs →
  sleepMsec msec evs = msec * 1000000.
Proof.
  intros Hm Hevs. unfold sleepMsec, INT_MAX in *.
  rewrite Z.quot_div_nonneg, Z.rem_mod_nonneg by lia.
  pose proof (Z.mod_pos_bound msec 1000). pose proof (Z.div_mod msec 1000).
  pose proof (Z.div_pos msec 1000).
  rewrite !int32_id by (unfold is_int32, INT_MIN, INT_MAX; lia).
  replace (msec * 1000000) with (nanoseconds (MkTimespec (msec / 1000) (msec `mod` 1000 * 1000 * 1000)))
    by (unfold nanoseconds; simpl; lia).
  generalize (MkTimespec (msec / 1000) (msec `mod` 1000 * 1000 * 1000)). clear -Hevs.
  induction Hevs as [|e evs He _ IH]; intros ts; simpl; [done|]. destruct e as [| |n]; [done|done|].
  rewrite IH. unfold of_nanoseconds. unfold nanoseconds at 2. simpl.
  pose proof (Z.div_mod (nanoseconds ts - Z.min n (nanoseconds ts)) 1000000000). lia.
Qed.

Lemma sleepMsec_total_witness : sleepMsec 250 [SlIntr 1000; SlIntr 77000000] = 250 * 1000000.
Proof. apply (sleepMsec_total 250 [SlIntr 1000; SlIntr 77000000]); [vm_compute; intuition congruence|repeat constructor; lia]. Defined.
