(* ===== verification/RilInfo.v ===== *)
(** * rilinfo.c: the table of requests, and what the driver says it supports

    The request codes are those of ril.h, a header of the platform; the model
    takes them as the class [RilCodes], which states what an enumeration
    promises: the codes are distinct and positive. *)

From S2P Require Import Prelude CString.

Open Scope Z_scope.

(** ** Requests *)

(** The requests the driver names, with the names of ril.h. *)
Inductive Request :=
  | RIL_REQUEST_GET_SIM_STATUS | RIL_REQUEST_GET_CURRENT_CALLS | RIL_REQUEST_DIAL
  | RIL_REQUEST_SCREEN_STATE | RIL_REQUEST_EXIT_EMERGENCY_CALLBACK_MODE | RIL_REQUEST_SET_MUTE
  | RIL_REQUEST_CDMA_FLASH | RIL_REQUEST_HANGUP | RIL_REQUEST_HANGUP_WAITING_OR_BACKGROUND
  | RIL_REQUEST_HANGUP_FOREGROUND_RESUME_BACKGROUND
  | RIL_REQUEST_SWITCH_WAITING_OR_HOLDING_AND_ACTIVE | RIL_REQUEST_ANSWER
  | RIL_REQUEST_CONFERENCE | RIL_REQUEST_UDUB | RIL_REQUEST_SEPARATE_CONNECTION
  | RIL_REQUEST_SIGNAL_STRENGTH | RIL_REQUEST_REGISTRATION_STATE
  | RIL_REQUEST_GPRS_REGISTRATION_STATE | RIL_REQUEST_OPERATOR | RIL_REQUEST_CDMA_SUBSCRIPTION
  | RIL_REQUEST_DEVICE_IDENTITY | RIL_REQUEST_RADIO_POWER | RIL_REQUEST_QUERY_FACILITY_LOCK
  | RIL_REQUEST_SET_FACILITY_LOCK | RIL_REQUEST_DTMF | RIL_REQUEST_DTMF_START
  | RIL_REQUEST_DTMF_STOP | RIL_REQUEST_CDMA_BURST_DTMF | RIL_REQUEST_SEND_SMS
  | RIL_REQUEST_SETUP_DATA_CALL | RIL_REQUEST_LAST_DATA_CALL_FAIL_CAUSE
  | RIL_REQUEST_DEACTIVATE_DATA_CALL | RIL_REQUEST_SMS_ACKNOWLEDGE | RIL_REQUEST_GET_IMSI
  | RIL_REQUEST_BASEBAND_VERSION | RIL_REQUEST_GET_IMEI
  | RIL_REQUEST_SET_PREFERRED_NETWORK_TYPE | RIL_REQUEST_GET_PREFERRED_NETWORK_TYPE
  | RIL_REQUEST_SIM_IO | RIL_REQUEST_SEND_USSD | RIL_REQUEST_CANCEL_USSD
  | RIL_REQUEST_QUERY_NETWORK_SELECTION_MODE | RIL_REQUEST_SET_NETWORK_SELECTION_AUTOMATIC
  | RIL_REQUEST_SET_NETWORK_SELECTION_MANUAL | RIL_REQUEST_QUERY_AVAILABLE_NETWORKS
  | RIL_REQUEST_DATA_CALL_LIST | RIL_REQUEST_OEM_HOOK_RAW | RIL_REQUEST_OEM_HOOK_STRINGS
  | RIL_REQUEST_WRITE_SMS_TO_SIM | RIL_REQUEST_DELETE_SMS_ON_SIM | RIL_REQUEST_ENTER_SIM_PIN
  | RIL_REQUEST_ENTER_SIM_PIN2 | RIL_REQUEST_ENTER_SIM_PUK2 | RIL_REQUEST_CHANGE_SIM_PIN
  | RIL_REQUEST_CHANGE_SIM_PIN2 | RIL_REQUEST_ENTER_SIM_PUK | RIL_REQUEST_CDMA_SEND_SMS
  | RIL_REQUEST_CDMA_WRITE_SMS_TO_RUIM | RIL_REQUEST_CDMA_DELETE_SMS_ON_RUIM
  | RIL_REQUEST_CDMA_SMS_ACKNOWLEDGE | RIL_REQUEST_STK_SET_PROFILE
  | RIL_REQUEST_STK_SEND_ENVELOPE_COMMAND | RIL_REQUEST_STK_SEND_TERMINAL_RESPONSE
  | RIL_REQUEST_CDMA_SET_PREFERRED_VOICE_PRIVACY_MODE
  | RIL_REQUEST_CDMA_QUERY_PREFERRED_VOICE_PRIVACY_MODE.

#[export] Instance Request_eq_dec : EqDecision Request.
Proof. solve_decision. Defined.

Definition all_requests : list Request := [
  RIL_REQUEST_GET_SIM_STATUS; RIL_REQUEST_GET_CURRENT_CALLS; RIL_REQUEST_DIAL;
  RIL_REQUEST_SCREEN_STATE; RIL_REQUEST_EXIT_EMERGENCY_CALLBACK_MODE; RIL_REQUEST_SET_MUTE;
  RIL_REQUEST_CDMA_FLASH; RIL_REQUEST_HANGUP; RIL_REQUEST_HANGUP_WAITING_OR_BACKGROUND;
  RIL_REQUEST_HANGUP_FOREGROUND_RESUME_BACKGROUND;
  RIL_REQUEST_SWITCH_WAITING_OR_HOLDING_AND_ACTIVE; RIL_REQUEST_ANSWER;
  RIL_REQUEST_CONFERENCE; RIL_REQUEST_UDUB; RIL_REQUEST_SEPARATE_CONNECTION;
  RIL_REQUEST_SIGNAL_STRENGTH; RIL_REQUEST_REGISTRATION_STATE;
  RIL_REQUEST_GPRS_REGISTRATION_STATE; RIL_REQUEST_OPERATOR; RIL_REQUEST_CDMA_SUBSCRIPTION;
  RIL_REQUEST_DEVICE_IDENTITY; RIL_REQUEST_RADIO_POWER; RIL_REQUEST_QUERY_FACILITY_LOCK;
  RIL_REQUEST_SET_FACILITY_LOCK; RIL_REQUEST_DTMF; RIL_REQUEST_DTMF_START;
  RIL_REQUEST_DTMF_STOP; RIL_REQUEST_CDMA_BURST_DTMF; RIL_REQUEST_SEND_SMS;
  RIL_REQUEST_SETUP_DATA_CALL; RIL_REQUEST_LAST_DATA_CALL_FAIL_CAUSE;
  RIL_REQUEST_DEACTIVATE_DATA_CALL; RIL_REQUEST_SMS_ACKNOWLEDGE; RIL_REQUEST_GET_IMSI;
  RIL_REQUEST_BASEBAND_VERSION; RIL_REQUEST_GET_IMEI; RIL_REQUEST_SET_PREFERRED_NETWORK_TYPE;
  RIL_REQUEST_GET_PREFERRED_NETWORK_TYPE; RIL_REQUEST_SIM_IO; RIL_REQUEST_SEND_USSD;
  RIL_REQUEST_CANCEL_USSD; RIL_REQUEST_QUERY_NETWORK_SELECTION_MODE;
  RIL_REQUEST_SET_NETWORK_SELECTION_AUTOMATIC; RIL_REQUEST_SET_NETWORK_SELECTION_MANUAL;
  RIL_REQUEST_QUERY_AVAILABLE_NETWORKS; RIL_REQUEST_DATA_CALL_LIST; RIL_REQUEST_OEM_HOOK_RAW;
  RIL_REQUEST_OEM_HOOK_STRINGS; RIL_REQUEST_WRITE_SMS_TO_SIM; RIL_REQUEST_DELETE_SMS_ON_SIM;
  RIL_REQUEST_ENTER_SIM_PIN; RIL_REQUEST_ENTER_SIM_PIN2; RIL_REQUEST_ENTER_SIM_PUK2;
  RIL_REQUEST_CHANGE_SIM_PIN; RIL_REQUEST_CHANGE_SIM_PIN2; RIL_REQUEST_ENTER_SIM_PUK;
  RIL_REQUEST_CDMA_SEND_SMS; RIL_REQUEST_CDMA_WRITE_SMS_TO_RUIM;
  RIL_REQUEST_CDMA_DELETE_SMS_ON_RUIM; RIL_REQUEST_CDMA_SMS_ACKNOWLEDGE;
  RIL_REQUEST_STK_SET_PROFILE; RIL_REQUEST_STK_SEND_ENVELOPE_COMMAND;
  RIL_REQUEST_STK_SEND_TERMINAL_RESPONSE; RIL_REQUEST_CDMA_SET_PREFERRED_VOICE_PRIVACY_MODE;
  RIL_REQUEST_CDMA_QUERY_PREFERRED_VOICE_PRIVACY_MODE].

Lemma all_requests_complete r : r ∈ all_requests.
Proof. apply (bool_decide_unpack _). destruct r; vm_compute; exact I. Qed.

Class RilCodes := {
  req_code : Request → Z;
  req_code_inj : Inj (=) (=) req_code;
  req_code_pos r : 0 < req_code r
}.
#[export] Existing Instance req_code_inj.

(** A numbering, for the examples. *)
Definition index_code (r : Request) : Z :=
  match list_find (λ x, x = r) all_requests with
  | Some (i, _) => Z.of_nat i + 1
  | None => 1000
  end.

#[export] Program Instance index_codes : RilCodes := { req_code := index_code }.
Next Obligation.
  assert (Hf : ∀ r, ∃ i, list_find (λ x, x = r) all_requests = Some (i, r) ∧ index_code r = Z.of_nat i + 1).
  { intros r. unfold index_code.
    destruct (list_find_elem_of (λ x, x = r) all_requests r (all_requests_complete r) eq_refl) as [[i x] E].
    exists i. rewrite E. apply list_find_Some in E as (_ & -> & _). done. }
  intros x y H. destruct (Hf x) as (i & Ex & Ix), (Hf y) as (j & Ey & Iy).
  apply list_find_Some in Ex as (Ex & _), Ey as (Ey & _).
  assert (i = j) as <- by lia. congruence.
Qed.
Next Obligation. intros r. by destruct r. Qed.

(** ** The table *)

(** Product profiles: RRI_PROFILE_NS marks a feature that is not supported. *)
Definition RRI_PROFILE_1 : Z := 1.
Definition RRI_PROFILE_2 : Z := 2.
Definition RRI_PROFILE_NS : Z := 9.
Definition RRI_MY_PROFILE : Z := RRI_PROFILE_1.

Record ril_request_info_t := MkInfo { id : Request; profile : Z; name : string }.

(** [ril_request_info] without its terminator. *)
Definition ril_request_info : list ril_request_info_t := [
  MkInfo RIL_REQUEST_GET_SIM_STATUS RRI_PROFILE_NS "RIL_REQUEST_GET_SIM_STATUS";
  MkInfo RIL_REQUEST_GET_CURRENT_CALLS RRI_PROFILE_1 "RIL_REQUEST_GET_CURRENT_CALLS";
  MkInfo RIL_REQUEST_DIAL RRI_PROFILE_NS "RIL_REQUEST_DIAL";
  MkInfo RIL_REQUEST_SCREEN_STATE RRI_PROFILE_1 "RIL_REQUEST_SCREEN_STATE";
  MkInfo RIL_REQUEST_EXIT_EMERGENCY_CALLBACK_MODE RRI_PROFILE_2 "RIL_REQUEST_EXIT_EMERGENCY_CALLBACK_MODE";
  MkInfo RIL_REQUEST_SET_MUTE RRI_PROFILE_2 "RIL_REQUEST_SET_MUTE";
  MkInfo RIL_REQUEST_CDMA_FLASH RRI_PROFILE_1 "RIL_REQUEST_CDMA_FLASH";
  MkInfo RIL_REQUEST_HANGUP RRI_PROFILE_NS "RIL_REQUEST_HANGUP";
  MkInfo RIL_REQUEST_HANGUP_WAITING_OR_BACKGROUND RRI_PROFILE_1 "RIL_REQUEST_HANGUP_WAITING_OR_BACKGROUND";
  MkInfo RIL_REQUEST_HANGUP_FOREGROUND_RESUME_BACKGROUND RRI_PROFILE_1 "RIL_REQUEST_HANGUP_FOREGROUND_RESUME_BACKGROUND";
  MkInfo RIL_REQUEST_SWITCH_WAITING_OR_HOLDING_AND_ACTIVE RRI_PROFILE_1 "RIL_REQUEST_SWITCH_WAITING_OR_HOLDING_AND_ACTIVE";
  MkInfo RIL_REQUEST_ANSWER RRI_PROFILE_1 "RIL_REQUEST_ANSWER";
  MkInfo RIL_REQUEST_CONFERENCE RRI_PROFILE_2 "RIL_REQUEST_CONFERENCE";
  MkInfo RIL_REQUEST_UDUB RRI_PROFILE_1 "RIL_REQUEST_UDUB";
  MkInfo RIL_REQUEST_SEPARATE_CONNECTION RRI_PROFILE_1 "RIL_REQUEST_SEPARATE_CONNECTION";
  MkInfo RIL_REQUEST_SIGNAL_STRENGTH RRI_PROFILE_1 "RIL_REQUEST_SIGNAL_STRENGTH";
  MkInfo RIL_REQUEST_REGISTRATION_STATE RRI_PROFILE_1 "RIL_REQUEST_REGISTRATION_STATE";
  MkInfo RIL_REQUEST_GPRS_REGISTRATION_STATE RRI_PROFILE_1 "RIL_REQUEST_GPRS_REGISTRATION_STATE";
  MkInfo RIL_REQUEST_OPERATOR RRI_PROFILE_1 "RIL_REQUEST_OPERATOR";
  MkInfo RIL_REQUEST_CDMA_SUBSCRIPTION RRI_PROFILE_1 "RIL_REQUEST_CDMA_SUBSCRIPTION";
  MkInfo RIL_REQUEST_DEVICE_IDENTITY RRI_PROFILE_1 "RIL_REQUEST_DEVICE_IDENTITY";
  MkInfo RIL_REQUEST_RADIO_POWER RRI_PROFILE_1 "RIL_REQUEST_RADIO_POWER";
  MkInfo RIL_REQUEST_QUERY_FACILITY_LOCK RRI_PROFILE_1 "RIL_REQUEST_QUERY_FACILITY_LOCK";
  MkInfo RIL_REQUEST_SET_FACILITY_LOCK RRI_PROFILE_1 "RIL_REQUEST_SET_FACILITY_LOCK";
  MkInfo RIL_REQUEST_DTMF RRI_PROFILE_NS "RIL_REQUEST_DTMF";
  MkInfo RIL_REQUEST_DTMF_START RRI_PROFILE_NS "RIL_REQUEST_DTMF_START";
  MkInfo RIL_REQUEST_DTMF_STOP RRI_PROFILE_NS "RIL_REQUEST_DTMF_STOP";
  MkInfo RIL_REQUEST_CDMA_BURST_DTMF RRI_PROFILE_NS "RIL_REQUEST_CDMA_BURST_DTMF";
  MkInfo RIL_REQUEST_SEND_SMS RRI_PROFILE_NS "RIL_REQUEST_SEND_SMS";
  MkInfo RIL_REQUEST_SETUP_DATA_CALL RRI_PROFILE_1 "RIL_REQUEST_SETUP_DATA_CALL";
  MkInfo RIL_REQUEST_LAST_DATA_CALL_FAIL_CAUSE RRI_PROFILE_1 "RIL_REQUEST_LAST_DATA_CALL_FAIL_CAUSE";
  MkInfo RIL_REQUEST_DEACTIVATE_DATA_CALL RRI_PROFILE_1 "RIL_REQUEST_DEACTIVATE_DATA_CALL";
  MkInfo RIL_REQUEST_SMS_ACKNOWLEDGE RRI_PROFILE_1 "RIL_REQUEST_SMS_ACKNOWLEDGE";
  MkInfo RIL_REQUEST_GET_IMSI RRI_PROFILE_1 "RIL_REQUEST_GET_IMSI";
  MkInfo RIL_REQUEST_BASEBAND_VERSION RRI_PROFILE_1 "RIL_REQUEST_BASEBAND_VERSION";
  MkInfo RIL_REQUEST_GET_IMEI RRI_PROFILE_1 "RIL_REQUEST_GET_IMEI";
  MkInfo RIL_REQUEST_SET_PREFERRED_NETWORK_TYPE RRI_PROFILE_1 "RIL_REQUEST_SET_PREFERRED_NETWORK_TYPE";
  MkInfo RIL_REQUEST_GET_PREFERRED_NETWORK_TYPE RRI_PROFILE_1 "RIL_REQUEST_GET_PREFERRED_NETWORK_TYPE";
  MkInfo RIL_REQUEST_SIM_IO RRI_PROFILE_NS "RIL_REQUEST_SIM_IO";
  MkInfo RIL_REQUEST_SEND_USSD RRI_PROFILE_1 "RIL_REQUEST_SEND_USSD";
  MkInfo RIL_REQUEST_CANCEL_USSD RRI_PROFILE_1 "RIL_REQUEST_CANCEL_USSD";
  MkInfo RIL_REQUEST_QUERY_NETWORK_SELECTION_MODE RRI_PROFILE_1 "RIL_REQUEST_QUERY_NETWORK_SELECTION_MODE";
  MkInfo RIL_REQUEST_SET_NETWORK_SELECTION_AUTOMATIC RRI_PROFILE_1 "RIL_REQUEST_SET_NETWORK_SELECTION_AUTOMATIC";
  MkInfo RIL_REQUEST_SET_NETWORK_SELECTION_MANUAL RRI_PROFILE_1 "RIL_REQUEST_SET_NETWORK_SELECTION_MANUAL";
  MkInfo RIL_REQUEST_QUERY_AVAILABLE_NETWORKS RRI_PROFILE_1 "RIL_REQUEST_QUERY_AVAILABLE_NETWORKS";
  MkInfo RIL_REQUEST_DATA_CALL_LIST RRI_PROFILE_1 "RIL_REQUEST_DATA_CALL_LIST";
  MkInfo RIL_REQUEST_OEM_HOOK_RAW RRI_PROFILE_NS "RIL_REQUEST_OEM_HOOK_RAW";
  MkInfo RIL_REQUEST_OEM_HOOK_STRINGS RRI_PROFILE_NS "RIL_REQUEST_OEM_HOOK_STRINGS";
  MkInfo RIL_REQUEST_WRITE_SMS_TO_SIM RRI_PROFILE_NS "RIL_REQUEST_WRITE_SMS_TO_SIM";
  MkInfo RIL_REQUEST_DELETE_SMS_ON_SIM RRI_PROFILE_NS "RIL_REQUEST_DELETE_SMS_ON_SIM";
  MkInfo RIL_REQUEST_ENTER_SIM_PIN RRI_PROFILE_NS "RIL_REQUEST_ENTER_SIM_PIN";
  MkInfo RIL_REQUEST_ENTER_SIM_PIN2 RRI_PROFILE_NS "RIL_REQUEST_ENTER_SIM_PIN2";
  MkInfo RIL_REQUEST_ENTER_SIM_PUK2 RRI_PROFILE_NS "RIL_REQUEST_ENTER_SIM_PUK2";
  MkInfo RIL_REQUEST_CHANGE_SIM_PIN RRI_PROFILE_NS "RIL_REQUEST_CHANGE_SIM_PIN";
  MkInfo RIL_REQUEST_CHANGE_SIM_PIN2 RRI_PROFILE_NS "RIL_REQUEST_CHANGE_SIM_PIN2";
  MkInfo RIL_REQUEST_ENTER_SIM_PUK RRI_PROFILE_NS "RIL_REQUEST_ENTER_SIM_PUK";
  MkInfo RIL_REQUEST_CDMA_SEND_SMS RRI_PROFILE_1 "RIL_REQUEST_CDMA_SEND_SMS";
  MkInfo RIL_REQUEST_CDMA_WRITE_SMS_TO_RUIM RRI_PROFILE_NS "RIL_REQUEST_CDMA_WRITE_SMS_TO_RUIM";
  MkInfo RIL_REQUEST_CDMA_DELETE_SMS_ON_RUIM RRI_PROFILE_NS "RIL_REQUEST_CDMA_DELETE_SMS_ON_RUIM";
  MkInfo RIL_REQUEST_CDMA_SMS_ACKNOWLEDGE RRI_PROFILE_1 "RIL_REQUEST_CDMA_SMS_ACKNOWLEDGE";
  MkInfo RIL_REQUEST_STK_SET_PROFILE RRI_PROFILE_NS "RIL_REQUEST_STK_SET_PROFILE";
  MkInfo RIL_REQUEST_STK_SEND_ENVELOPE_COMMAND RRI_PROFILE_NS "RIL_REQUEST_STK_SEND_ENVELOPE_COMMAND";
  MkInfo RIL_REQUEST_STK_SEND_TERMINAL_RESPONSE RRI_PROFILE_NS "RIL_REQUEST_STK_SEND_TERMINAL_RESPONSE";
  MkInfo RIL_REQUEST_CDMA_SET_PREFERRED_VOICE_PRIVACY_MODE RRI_PROFILE_2 "RIL_REQUEST_CDMA_SET_PREFERRED_VOICE_PRIVACY_MODE";
  MkInfo RIL_REQUEST_CDMA_QUERY_PREFERRED_VOICE_PRIVACY_MODE RRI_PROFILE_2 "RIL_REQUEST_CDMA_QUERY_PREFERRED_VOICE_PRIVACY_MODE"].

(** ** The operations *)

Section rilinfo.
Context `{RilCodes}.

(** The search both functions share; [do ... while (info->id != 0)] on a
    table that is not empty. *)
Fixpoint table_search (request : Z) (table : list ril_request_info_t)
    : option ril_request_info_t :=
  match table with
  | [] => None
  | info :: table' => if request =? req_code (id info) then Some info else table_search request table'
  end.

Definition requestInfo (request : Z) : option ril_request_info_t :=
  table_search request ril_request_info.

Definition requestToString (request : Z) : option string :=
  option_map name (requestInfo request).

Definition onSupports (requestCode : Z) : Z :=
  match requestInfo requestCode with
  | None => 0
  | Some info => if profile info <=? RRI_MY_PROFILE then 1 else 0
  end.

(** The request a code stands for, what a [switch] on the codes selects. *)
Definition decode (request : Z) : option Request :=
  List.find (λ r, req_code r =? request) all_requests.

(** ** Lemmas *)

Lemma table_search_spec request table :
  match table_search request table with
  | Some info => request = req_code (id info) ∧ info ∈ table
  | None => ∀ info, info ∈ table → req_code (id info) ≠ request
  end.
Proof.
  induction table as [|i table IH]; simpl; [by intros info ?%elem_of_nil|].
  destruct (Z.eqb_spec request (req_code (id i))) as [E|E].
  - split; [done|by left].
  - destruct (table_search request table).
    + destruct IH. split; [done|by right].
    + intros info [->|Hin]%elem_of_cons; [congruence|auto].
Qed.

Lemma decode_code r : decode (req_code r) = Some r.
Proof.
  unfold decode. destruct (List.find _ all_requests) as [r'|] eqn:E.
  - apply List.find_some in E as [_ E]. apply Z.eqb_eq in E. by apply (inj req_code) in E as ->.
  - pose proof (List.find_none _ _ E r (proj1 (list_elem_of_In _ _) (all_requests_complete r))) as Hn.
    by apply Z.eqb_neq in Hn.
Qed.

Lemma decode_some z r : decode z = Some r ↔ req_code r = z.
Proof.
  split; [|intros <-; apply decode_code].
  unfold decode. intros [_ E]%List.find_some. by apply Z.eqb_eq.
Qed.

Lemma ids_NoDup : NoDup (id <$> ril_request_info).
Proof. apply (bool_decide_unpack (NoDup _)). vm_compute. exact I. Qed.

Lemma names_NoDup : NoDup (name <$> ril_request_info).
Proof. apply (bool_decide_unpack (NoDup _)). vm_compute. exact I. Qed.

Lemma names_fit : Forall (λ i, (String.length (name i) ≤ 64)%nat) ril_request_info.
Proof.
  assert (E : forallb (λ i, Nat.leb (String.length (name i)) 64) ril_request_info = true)
    by (vm_compute; reflexivity).
  apply Forall_bool in E. eapply Forall_impl; [exact E|]. by intros i ?%Nat.leb_le.
Qed.

Lemma ids_complete r : ∃ info, info ∈ ril_request_info ∧ id info = r.
Proof.
  assert (Hin : r ∈ id <$> ril_request_info) by (apply (bool_decide_unpack _); destruct r; vm_compute; exact I).
  apply list_elem_of_fmap in Hin as (info & -> & ?). eauto.
Qed.

Lemma requestInfo_code r : ∃ info, requestInfo (req_code r) = Some info ∧ id info = r ∧
  info ∈ ril_request_info.
Proof.
  unfold requestInfo. pose proof (table_search_spec (req_code r) ril_request_info) as Hs.
  destruct (table_search _ _) as [info|].
  - destruct Hs as [E%(inj req_code) Hin]. by exists info.
  - destruct (ids_complete r) as (info & Hin & <-). by destruct (Hs info Hin).
Qed.

(** The table search is a correct dictionary of the driver's requests.
    Every request of the driver has exactly one entry and is found by its
    code with the entry's own name; a code that is none of theirs is not
    found; the names are distinct and fit the field of the table. *)
Theorem requestInfo_spec :
  NoDup (id <$> ril_request_info) ∧ NoDup (name <$> ril_request_info) ∧
  Forall (λ i, (String.length (name i) ≤ 64)%nat) ril_request_info ∧
  (∀ r, ∃ info, info ∈ ril_request_info ∧ id info = r ∧
     requestInfo (req_code r) = Some info ∧ requestToString (req_code r) = Some (name info)) ∧
  (∀ z, decode z = None → requestInfo z = None ∧ requestToString z = None ∧ onSupports z = 0).
Proof.
  split_and!.
  - apply ids_NoDup.
  - apply names_NoDup.
  - apply names_fit.
  - intros r. destruct (requestInfo_code r) as (info & E & Hi & Hin). exists info.
    split_and!; [done|done|done|]. unfold requestToString. by rewrite E.
  - intros z Hz. assert (E : requestInfo z = None).
    { unfold requestInfo. pose proof (table_search_spec z ril_request_info) as Hs.
      destruct (table_search _ _) as [info|]; [|done]. destruct Hs as [-> _].
      by rewrite decode_code in Hz. }
    unfold requestToString, onSupports. by rewrite E.
Qed.
End rilinfo.
