(* ===== verification/RilBase.v ===== *)
(** * The context the request handlers run in

    The session context of fw100-ril.h, the outputs of the driver (answers to
    requests, unsolicited responses), the platform below it, and the monad the
    handlers are written in.  A handler may finish, take the [goto error] of
    the source, run into undefined behaviour, or never return. *)

From S2P Require Import Prelude CString AtTok AtReader AtChannel.

Open Scope Z_scope.

(** ** Data of ril.h *)

Inductive RIL_RadioState :=
  | RADIO_STATE_OFF | RADIO_STATE_UNAVAILABLE | RADIO_STATE_SIM_NOT_READY
  | RADIO_STATE_SIM_LOCKED_OR_ABSENT | RADIO_STATE_SIM_READY.

#[export] Instance RIL_RadioState_eq_dec : EqDecision RIL_RadioState.
Proof. solve_decision. Defined.

Inductive RIL_Errno :=
  | RIL_E_SUCCESS | RIL_E_RADIO_NOT_AVAILABLE | RIL_E_GENERIC_FAILURE
  | RIL_E_PASSWORD_INCORRECT | RIL_E_REQUEST_NOT_SUPPORTED.

Inductive UnsolCode :=
  | RIL_UNSOL_RESPONSE_RADIO_STATE_CHANGED | RIL_UNSOL_RESPONSE_NETWORK_STATE_CHANGED
  | RIL_UNSOL_RESPONSE_NEW_SMS | RIL_UNSOL_RESPONSE_NEW_SMS_STATUS_REPORT
  | RIL_UNSOL_NITZ_TIME_RECEIVED | RIL_UNSOL_SIGNAL_STRENGTH | RIL_UNSOL_DATA_CALL_LIST_CHANGED.

Inductive RIL_CallState :=
  | RIL_CALL_ACTIVE | RIL_CALL_HOLDING | RIL_CALL_DIALING
  | RIL_CALL_ALERTING | RIL_CALL_INCOMING | RIL_CALL_WAITING.

(** The structures that hold strings are parametrised by the type of their
    string fields: pointers while a handler runs, strings once delivered. *)
Record RIL_Call (X : Type) := MkCall {
  call_state : RIL_CallState; call_index : Z; call_toa : Z; call_isMpty : Z;
  call_isMT : Z; call_isVoice : Z; call_number : X
}.
Arguments MkCall {X}.
Arguments call_state {X}.
Arguments call_index {X}.
Arguments call_toa {X}.
Arguments call_isMpty {X}.
Arguments call_isMT {X}.
Arguments call_isVoice {X}.
Arguments call_number {X}.

Inductive RIL_CardState := RIL_CARDSTATE_ABSENT | RIL_CARDSTATE_PRESENT.

Inductive RIL_AppState :=
  | RIL_APPSTATE_UNKNOWN | RIL_APPSTATE_DETECTED | RIL_APPSTATE_PIN | RIL_APPSTATE_PUK
  | RIL_APPSTATE_SUBSCRIPTION_PERSO | RIL_APPSTATE_READY.

Inductive RIL_AppType := RIL_APPTYPE_UNKNOWN | RIL_APPTYPE_SIM.

Inductive RIL_PersoSubstate :=
  | RIL_PERSOSUBSTATE_UNKNOWN | RIL_PERSOSUBSTATE_READY | RIL_PERSOSUBSTATE_SIM_NETWORK.

Inductive RIL_PinState :=
  | RIL_PINSTATE_UNKNOWN | RIL_PINSTATE_ENABLED_NOT_VERIFIED | RIL_PINSTATE_ENABLED_BLOCKED.

(** Without the fields that are NULL or 0 in all of them. *)
Record RIL_AppStatus := MkAppStatus {
  app_type : RIL_AppType;
  app_state : RIL_AppState;
  perso_substate : RIL_PersoSubstate;
  pin1 : RIL_PinState
}.

Record RIL_CardStatus := MkCardStatus {
  card_state : RIL_CardState;
  universal_pin_state : RIL_PinState;
  gsm_umts_subscription_app_index : Z;
  cdma_subscription_app_index : Z;
  num_applications : Z;
  applications : list RIL_AppStatus
}.

(** What is handed to the RIL library, by type of content. *)
Inductive Payload (X : Type) :=
  | PayNull
  | PayStr (s : X)
  | PayStrs (ss : list X)
  | PayInts (zs : list Z)
  | PayCalls (cs : list (RIL_Call X))
  | PaySms
  | PayDataCall (cid active : Z) (type apn address : X)
  | PaySimIO (sw1 sw2 : Z) (simResponse : X)
  | PayCard (c : RIL_CardStatus)
  | PayEcho.     (** the request's own data, sent back *)
Arguments PayNull {X}.
Arguments PayStr {X}.
Arguments PayStrs {X}.
Arguments PayInts {X}.
Arguments PayCalls {X}.
Arguments PaySms {X}.
Arguments PayDataCall {X}.
Arguments PaySimIO {X}.
Arguments PayCard {X}.
Arguments PayEcho {X}.

(** The argument of a request, by type of content. *)
Inductive Data :=
  | DNull
  | DInts (zs : list Z)
  | DString (s : string)
  | DStrings (ss : list (option string))
  | DSimIO (command fileid p1 p2 p3 : Z) (data : option string)
  | DDial (address : string) (clir : Z)
  | DSmsWrite (status : Z) (pdu : string).

(** [sizeof(char * )] and [sizeof(int * )] on a 32-bit target. *)
Definition sizeof_ptr : Z := 4.
Definition sizeof_int : Z := 4.

(** The constants of ril.h the driver uses as numbers. *)
Class RilConsts := {
  RIL_VERSION : Z;
  sizeof_RIL_SMS_Response : Z;
  sizeof_RIL_Data_Call_Response : Z;
  sizeof_RIL_SIM_IO_Response : Z;
  sizeof_RIL_CardStatus : Z;
  PDP_FAIL_ERROR_UNSPECIFIED : Z;
  RIL_CARD_MAX_APPS : nat;
  card_max_apps_pos : (0 < RIL_CARD_MAX_APPS)%nat
}.

(** ** Memory *)

Inductive Ub :=
  | NullDeref | OutOfBounds | UninitRead | UseAfterFree | DoubleFree
  | SignedOverflow
  | BadArgument     (** the request's data is not of the type the request has *)
  | AssertFailed.

(** A [char *]: into a string literal or a static or caller-owned buffer, into
    an allocated block, or to a local variable that is gone. *)
Inductive Ptr :=
  | PNull
  | PStatic (s : string)
  | PHeap (block : nat) (s : string)
  | PDangling.

(** An [ATResponse *] that is not NULL. *)
Record Resp := MkResp { r_block : nat; r_val : ATResponse }.

(** A [char *] that walks over the line of a response. *)
Record Line := MkLine { ln_block : nat; ln_cur : cursor }.

(** Remove a block from the list of live ones; [None]: it is not live. *)
Fixpoint del (b : nat) (live : list nat) : option (list nat) :=
  match live with
  | [] => None
  | x :: live' => if Nat.eqb b x then Some live' else option_map (cons x) (del b live')
  end.

Definition is_live (b : nat) (live : list nat) : bool := existsb (Nat.eqb b) live.

(** The string a pointer denotes, [None] for NULL. *)
Definition resolve (live : list nat) (p : Ptr) : (option string) + Ub :=
  match p with
  | PNull => inl None
  | PStatic s => inl (Some s)
  | PHeap b s => if is_live b live then inl (Some s) else inr UseAfterFree
  | PDangling => inr UseAfterFree
  end.

Fixpoint resolve_all (live : list nat) (ps : list Ptr) : (list (option string)) + Ub :=
  match ps with
  | [] => inl []
  | p :: ps' =>
      match resolve live p, resolve_all live ps' with
      | inl s, inl ss => inl (s :: ss)
      | inr u, _ | _, inr u => inr u
      end
  end.

Fixpoint resolve_calls (live : list nat) (cs : list (RIL_Call Ptr)) : (list (RIL_Call (option string))) + Ub :=
  match cs with
  | [] => inl []
  | c :: cs' =>
      match resolve live (call_number c), resolve_calls live cs' with
      | inl s, inl cs'' =>
          inl (MkCall (call_state c) (call_index c) (call_toa c) (call_isMpty c) (call_isMT c)
                 (call_isVoice c) s :: cs'')
      | inr u, _ | _, inr u => inr u
      end
  end.

(** The content the receiver copies. *)
Definition resolve_payload (live : list nat) (p : Payload Ptr) : Payload (option string) + Ub :=
  match p with
  | PayNull => inl PayNull
  | PayStr s => match resolve live s with inl s => inl (PayStr s) | inr u => inr u end
  | PayStrs ss => match resolve_all live ss with inl ss => inl (PayStrs ss) | inr u => inr u end
  | PayInts zs => inl (PayInts zs)
  | PayCalls cs => match resolve_calls live cs with inl cs => inl (PayCalls cs) | inr u => inr u end
  | PaySms => inl PaySms
  | PayDataCall cid active ty apn addr =>
      match resolve_all live [ty; apn; addr] with
      | inl [ty; apn; addr] => inl (PayDataCall cid active ty apn addr)
      | inl _ => inr OutOfBounds
      | inr u => inr u
      end
  | PaySimIO sw1 sw2 s => match resolve live s with inl s => inl (PaySimIO sw1 sw2 s) | inr u => inr u end
  | PayCard c => inl (PayCard c)
  | PayEcho => inl PayEcho
  end.

(** ** The session context, [fw100SessionCtx_t] *)

Record Ctx := MkCtx {
  mainIsStarted : Z;
  s_atctrl_path : option string;
  s_data_path : option string;
  s_data_devname : option string;
  s_device_socket : Z;
  sState : RIL_RadioState;
  s_port : Z;
  s_closed : Z;
  networkSelectMode : Z;
  screenState : Z;
  inDataCall : Z;
  dataCallIsAutomatic : Z;
  dataCallLocalIP : string;
  dataCallGateway : string;
  gpsFifoEnable : Z;
  gpsFifoFD : Z;
  gpsTtyEnable : Z;
  gpsTtyFD : Z;
  meid : carray;                (** 32 bytes *)
  mdn : carray;                 (** 32 bytes *)
  carrier : carray;             (** 16 bytes *)
  otaMsgCnt : Z;
  otaMsg : carray;              (** 64 bytes *)
  moduleAutoActivate : Z;
  moduleIsActivated : Z;
  moduleActivateRetry : Z
}.

(** [memset(&fw100Ctx, 0, sizeof(fw100SessionCtx_t))]; RADIO_STATE_OFF is 0. *)
Definition zero_ctx : Ctx :=
  MkCtx 0 None None None 0 RADIO_STATE_OFF 0 0 0 0 0 0 "" "" 0 0 0 0
    (zero_array 32) (zero_array 32) (zero_array 16) 0 (zero_array 64) 0 0 0.

(** Assignments to its fields, [set_f v c] for [c->f = v]. *)
Definition set_mainIsStarted (v : Z) (c : Ctx) : Ctx :=
  MkCtx v (s_atctrl_path c) (s_data_path c) (s_data_devname c) (s_device_socket c)
    (sState c) (s_port c) (s_closed c) (networkSelectMode c) (screenState c) (inDataCall c)
    (dataCallIsAutomatic c) (dataCallLocalIP c) (dataCallGateway c) (gpsFifoEnable c)
    (gpsFifoFD c) (gpsTtyEnable c) (gpsTtyFD c) (meid c) (mdn c) (carrier c) (otaMsgCnt c)
    (otaMsg c) (moduleAutoActivate c) (moduleIsActivated c) (moduleActivateRetry c).
Definition set_s_atctrl_path (v : option string) (c : Ctx) : Ctx :=
  MkCtx (mainIsStarted c) v (s_data_path c) (s_data_devname c) (s_device_socket c)
    (sState c) (s_port c) (s_closed c) (networkSelectMode c) (screenState c) (inDataCall c)
    (dataCallIsAutomatic c) (dataCallLocalIP c) (dataCallGateway c) (gpsFifoEnable c)
    (gpsFifoFD c) (gpsTtyEnable c) (gpsTtyFD c) (meid c) (mdn c) (carrier c) (otaMsgCnt c)
    (otaMsg c) (moduleAutoActivate c) (moduleIsActivated c) (moduleActivateRetry c).
Definition set_s_data_path (v : option string) (c : Ctx) : Ctx :=
  MkCtx (mainIsStarted c) (s_atctrl_path c) v (s_data_devname c) (s_device_socket c)
    (sState c) (s_port c) (s_closed c) (networkSelectMode c) (screenState c) (inDataCall c)
    (dataCallIsAutomatic c) (dataCallLocalIP c) (dataCallGateway c) (gpsFifoEnable c)
    (gpsFifoFD c) (gpsTtyEnable c) (gpsTtyFD c) (meid c) (mdn c) (carrier c) (otaMsgCnt c)
    (otaMsg c) (moduleAutoActivate c) (moduleIsActivated c) (moduleActivateRetry c).
Definition set_s_data_devname (v : option string) (c : Ctx) : Ctx :=
  MkCtx (mainIsStarted c) (s_atctrl_path c) (s_data_path c) v (s_device_socket c) (sState c)
    (s_port c) (s_closed c) (networkSelectMode c) (screenState c) (inDataCall c)
    (dataCallIsAutomatic c) (dataCallLocalIP c) (dataCallGateway c) (gpsFifoEnable c)
    (gpsFifoFD c) (gpsTtyEnable c) (gpsTtyFD c) (meid c) (mdn c) (carrier c) (otaMsgCnt c)
    (otaMsg c) (moduleAutoActivate c) (moduleIsActivated c) (moduleActivateRetry c).
Definition set_s_device_socket (v : Z) (c : Ctx) : Ctx :=
  MkCtx (mainIsStarted c) (s_atctrl_path c) (s_data_path c) (s_data_devname c) v (sState c)
    (s_port c) (s_closed c) (networkSelectMode c) (screenState c) (inDataCall c)
    (dataCallIsAutomatic c) (dataCallLocalIP c) (dataCallGateway c) (gpsFifoEnable c)
    (gpsFifoFD c) (gpsTtyEnable c) (gpsTtyFD c) (meid c) (mdn c) (carrier c) (otaMsgCnt c)
    (otaMsg c) (moduleAutoActivate c) (moduleIsActivated c) (moduleActivateRetry c).
Definition set_sState (v : RIL_RadioState) (c : Ctx) : Ctx :=
  MkCtx (mainIsStarted c) (s_atctrl_path c) (s_data_path c) (s_data_devname c)
    (s_device_socket c) v (s_port c) (s_closed c) (networkSelectMode c) (screenState c)
    (inDataCall c) (dataCallIsAutomatic c) (dataCallLocalIP c) (dataCallGateway c)
    (gpsFifoEnable c) (gpsFifoFD c) (gpsTtyEnable c) (gpsTtyFD c) (meid c) (mdn c)
    (carrier c) (otaMsgCnt c) (otaMsg c) (moduleAutoActivate c) (moduleIsActivated c)
    (moduleActivateRetry c).
Definition set_s_port (v : Z) (c : Ctx) : Ctx :=
  MkCtx (mainIsStarted c) (s_atctrl_path c) (s_data_path c) (s_data_devname c)
    (s_device_socket c) (sState c) v (s_closed c) (networkSelectMode c) (screenState c)
    (inDataCall c) (dataCallIsAutomatic c) (dataCallLocalIP c) (dataCallGateway c)
    (gpsFifoEnable c) (gpsFifoFD c) (gpsTtyEnable c) (gpsTtyFD c) (meid c) (mdn c)
    (carrier c) (otaMsgCnt c) (otaMsg c) (moduleAutoActivate c) (moduleIsActivated c)
    (moduleActivateRetry c).
Definition set_s_closed (v : Z) (c : Ctx) : Ctx :=
  MkCtx (mainIsStarted c) (s_atctrl_path c) (s_data_path c) (s_data_devname c)
    (s_device_socket c) (sState c) (s_port c) v (networkSelectMode c) (screenState c)
    (inDataCall c) (dataCallIsAutomatic c) (dataCallLocalIP c) (dataCallGateway c)
    (gpsFifoEnable c) (gpsFifoFD c) (gpsTtyEnable c) (gpsTtyFD c) (meid c) (mdn c)
    (carrier c) (otaMsgCnt c) (otaMsg c) (moduleAutoActivate c) (moduleIsActivated c)
    (moduleActivateRetry c).
Definition set_networkSelectMode (v : Z) (c : Ctx) : Ctx :=
  MkCtx (mainIsStarted c) (s_atctrl_path c) (s_data_path c) (s_data_devname c)
    (s_device_socket c) (sState c) (s_port c) (s_closed c) v (screenState c) (inDataCall c)
    (dataCallIsAutomatic c) (dataCallLocalIP c) (dataCallGateway c) (gpsFifoEnable c)
    (gpsFifoFD c) (gpsTtyEnable c) (gpsTtyFD c) (meid c) (mdn c) (carrier c) (otaMsgCnt c)
    (otaMsg c) (moduleAutoActivate c) (moduleIsActivated c) (moduleActivateRetry c).
Definition set_screenState (v : Z) (c : Ctx) : Ctx :=
  MkCtx (mainIsStarted c) (s_atctrl_path c) (s_data_path c) (s_data_devname c)
    (s_device_socket c) (sState c) (s_port c) (s_closed c) (networkSelectMode c) v
    (inDataCall c) (dataCallIsAutomatic c) (dataCallLocalIP c) (dataCallGateway c)
    (gpsFifoEnable c) (gpsFifoFD c) (gpsTtyEnable c) (gpsTtyFD c) (meid c) (mdn c)
    (carrier c) (otaMsgCnt c) (otaMsg c) (moduleAutoActivate c) (moduleIsActivated c)
    (moduleActivateRetry c).
Definition set_inDataCall (v : Z) (c : Ctx) : Ctx :=
  MkCtx (mainIsStarted c) (s_atctrl_path c) (s_data_path c) (s_data_devname c)
    (s_device_socket c) (sState c) (s_port c) (s_closed c) (networkSelectMode c)
    (screenState c) v (dataCallIsAutomatic c) (dataCallLocalIP c) (dataCallGateway c)
    (gpsFifoEnable c) (gpsFifoFD c) (gpsTtyEnable c) (gpsTtyFD c) (meid c) (mdn c)
    (carrier c) (otaMsgCnt c) (otaMsg c) (moduleAutoActivate c) (moduleIsActivated c)
    (moduleActivateRetry c).
Definition set_dataCallIsAutomatic (v : Z) (c : Ctx) : Ctx :=
  MkCtx (mainIsStarted c) (s_atctrl_path c) (s_data_path c) (s_data_devname c)
    (s_device_socket c) (sState c) (s_port c) (s_closed c) (networkSelectMode c)
    (screenState c) (inDataCall c) v (dataCallLocalIP c) (dataCallGateway c)
    (gpsFifoEnable c) (gpsFifoFD c) (gpsTtyEnable c) (gpsTtyFD c) (meid c) (mdn c)
    (carrier c) (otaMsgCnt c) (otaMsg c) (moduleAutoActivate c) (moduleIsActivated c)
    (moduleActivateRetry c).
Definition set_dataCallLocalIP (v : string) (c : Ctx) : Ctx :=
  MkCtx (mainIsStarted c) (s_atctrl_path c) (s_data_path c) (s_data_devname c)
    (s_device_socket c) (sState c) (s_port c) (s_closed c) (networkSelectMode c)
    (screenState c) (inDataCall c) (dataCallIsAutomatic c) v (dataCallGateway c)
    (gpsFifoEnable c) (gpsFifoFD c) (gpsTtyEnable c) (gpsTtyFD c) (meid c) (mdn c)
    (carrier c) (otaMsgCnt c) (otaMsg c) (moduleAutoActivate c) (moduleIsActivated c)
    (moduleActivateRetry c).
Definition set_dataCallGateway (v : string) (c : Ctx) : Ctx :=
  MkCtx (mainIsStarted c) (s_atctrl_path c) (s_data_path c) (s_data_devname c)
    (s_device_socket c) (sState c) (s_port c) (s_closed c) (networkSelectMode c)
    (screenState c) (inDataCall c) (dataCallIsAutomatic c) (dataCallLocalIP c) v
    (gpsFifoEnable c) (gpsFifoFD c) (gpsTtyEnable c) (gpsTtyFD c) (meid c) (mdn c)
    (carrier c) (otaMsgCnt c) (otaMsg c) (moduleAutoActivate c) (moduleIsActivated c)
    (moduleActivateRetry c).
Definition set_gpsFifoEnable (v : Z) (c : Ctx) : Ctx :=
  MkCtx (mainIsStarted c) (s_atctrl_path c) (s_data_path c) (s_data_devname c)
    (s_device_socket c) (sState c) (s_port c) (s_closed c) (networkSelectMode c)
    (screenState c) (inDataCall c) (dataCallIsAutomatic c) (dataCallLocalIP c)
    (dataCallGateway c) v (gpsFifoFD c) (gpsTtyEnable c) (gpsTtyFD c) (meid c) (mdn c)
    (carrier c) (otaMsgCnt c) (otaMsg c) (moduleAutoActivate c) (moduleIsActivated c)
    (moduleActivateRetry c).
Definition set_gpsFifoFD (v : Z) (c : Ctx) : Ctx :=
  MkCtx (mainIsStarted c) (s_atctrl_path c) (s_data_path c) (s_data_devname c)
    (s_device_socket c) (sState c) (s_port c) (s_closed c) (networkSelectMode c)
    (screenState c) (inDataCall c) (dataCallIsAutomatic c) (dataCallLocalIP c)
    (dataCallGateway c) (gpsFifoEnable c) v (gpsTtyEnable c) (gpsTtyFD c) (meid c) (mdn c)
    (carrier c) (otaMsgCnt c) (otaMsg c) (moduleAutoActivate c) (moduleIsActivated c)
    (moduleActivateRetry c).
Definition set_gpsTtyEnable (v : Z) (c : Ctx) : Ctx :=
  MkCtx (mainIsStarted c) (s_atctrl_path c) (s_data_path c) (s_data_devname c)
    (s_device_socket c) (sState c) (s_port c) (s_closed c) (networkSelectMode c)
    (screenState c) (inDataCall c) (dataCallIsAutomatic c) (dataCallLocalIP c)
    (dataCallGateway c) (gpsFifoEnable c) (gpsFifoFD c) v (gpsTtyFD c) (meid c) (mdn c)
    (carrier c) (otaMsgCnt c) (otaMsg c) (moduleAutoActivate c) (moduleIsActivated c)
    (moduleActivateRetry c).
Definition set_gpsTtyFD (v : Z) (c : Ctx) : Ctx :=
  MkCtx (mainIsStarted c) (s_atctrl_path c) (s_data_path c) (s_data_devname c)
    (s_device_socket c) (sState c) (s_port c) (s_closed c) (networkSelectMode c)
    (screenState c) (inDataCall c) (dataCallIsAutomatic c) (dataCallLocalIP c)
    (dataCallGateway c) (gpsFifoEnable c) (gpsFifoFD c) (gpsTtyEnable c) v (meid c) (mdn c)
    (carrier c) (otaMsgCnt c) (otaMsg c) (moduleAutoActivate c) (moduleIsActivated c)
    (moduleActivateRetry c).
Definition set_meid (v : carray) (c : Ctx) : Ctx :=
  MkCtx (mainIsStarted c) (s_atctrl_path c) (s_data_path c) (s_data_devname c)
    (s_device_socket c) (sState c) (s_port c) (s_closed c) (networkSelectMode c)
    (screenState c) (inDataCall c) (dataCallIsAutomatic c) (dataCallLocalIP c)
    (dataCallGateway c) (gpsFifoEnable c) (gpsFifoFD c) (gpsTtyEnable c) (gpsTtyFD c) v
    (mdn c) (carrier c) (otaMsgCnt c) (otaMsg c) (moduleAutoActivate c)
    (moduleIsActivated c) (moduleActivateRetry c).
Definition set_mdn (v : carray) (c : Ctx) : Ctx :=
  MkCtx (mainIsStarted c) (s_atctrl_path c) (s_data_path c) (s_data_devname c)
    (s_device_socket c) (sState c) (s_port c) (s_closed c) (networkSelectMode c)
    (screenState c) (inDataCall c) (dataCallIsAutomatic c) (dataCallLocalIP c)
    (dataCallGateway c) (gpsFifoEnable c) (gpsFifoFD c) (gpsTtyEnable c) (gpsTtyFD c)
    (meid c) v (carrier c) (otaMsgCnt c) (otaMsg c) (moduleAutoActivate c)
    (moduleIsActivated c) (moduleActivateRetry c).
Definition set_carrier (v : carray) (c : Ctx) : Ctx :=
  MkCtx (mainIsStarted c) (s_atctrl_path c) (s_data_path c) (s_data_devname c)
    (s_device_socket c) (sState c) (s_port c) (s_closed c) (networkSelectMode c)
    (screenState c) (inDataCall c) (dataCallIsAutomatic c) (dataCallLocalIP c)
    (dataCallGateway c) (gpsFifoEnable c) (gpsFifoFD c) (gpsTtyEnable c) (gpsTtyFD c)
    (meid c) (mdn c) v (otaMsgCnt c) (otaMsg c) (moduleAutoActivate c) (moduleIsActivated c)
    (moduleActivateRetry c).
Definition set_otaMsgCnt (v : Z) (c : Ctx) : Ctx :=
  MkCtx (mainIsStarted c) (s_atctrl_path c) (s_data_path c) (s_data_devname c)
    (s_device_socket c) (sState c) (s_port c) (s_closed c) (networkSelectMode c)
    (screenState c) (inDataCall c) (dataCallIsAutomatic c) (dataCallLocalIP c)
    (dataCallGateway c) (gpsFifoEnable c) (gpsFifoFD c) (gpsTtyEnable c) (gpsTtyFD c)
    (meid c) (mdn c) (carrier c) v (otaMsg c) (moduleAutoActivate c) (moduleIsActivated c)
    (moduleActivateRetry c).
Definition set_otaMsg (v : carray) (c : Ctx) : Ctx :=
  MkCtx (mainIsStarted c) (s_atctrl_path c) (s_data_path c) (s_data_devname c)
    (s_device_socket c) (sState c) (s_port c) (s_closed c) (networkSelectMode c)
    (screenState c) (inDataCall c) (dataCallIsAutomatic c) (dataCallLocalIP c)
    (dataCallGateway c) (gpsFifoEnable c) (gpsFifoFD c) (gpsTtyEnable c) (gpsTtyFD c)
    (meid c) (mdn c) (carrier c) (otaMsgCnt c) v (moduleAutoActivate c)
    (moduleIsActivated c) (moduleActivateRetry c).
Definition set_moduleAutoActivate (v : Z) (c : Ctx) : Ctx :=
  MkCtx (mainIsStarted c) (s_atctrl_path c) (s_data_path c) (s_data_devname c)
    (s_device_socket c) (sState c) (s_port c) (s_closed c) (networkSelectMode c)
    (screenState c) (inDataCall c) (dataCallIsAutomatic c) (dataCallLocalIP c)
    (dataCallGateway c) (gpsFifoEnable c) (gpsFifoFD c) (gpsTtyEnable c) (gpsTtyFD c)
    (meid c) (mdn c) (carrier c) (otaMsgCnt c) (otaMsg c) v (moduleIsActivated c)
    (moduleActivateRetry c).
Definition set_moduleIsActivated (v : Z) (c : Ctx) : Ctx :=
  MkCtx (mainIsStarted c) (s_atctrl_path c) (s_data_path c) (s_data_devname c)
    (s_device_socket c) (sState c) (s_port c) (s_closed c) (networkSelectMode c)
    (screenState c) (inDataCall c) (dataCallIsAutomatic c) (dataCallLocalIP c)
    (dataCallGateway c) (gpsFifoEnable c) (gpsFifoFD c) (gpsTtyEnable c) (gpsTtyFD c)
    (meid c) (mdn c) (carrier c) (otaMsgCnt c) (otaMsg c) (moduleAutoActivate c) v
    (moduleActivateRetry c).
Definition set_moduleActivateRetry (v : Z) (c : Ctx) : Ctx :=
  MkCtx (mainIsStarted c) (s_atctrl_path c) (s_data_path c) (s_data_devname c)
    (s_device_socket c) (sState c) (s_port c) (s_closed c) (networkSelectMode c)
    (screenState c) (inDataCall c) (dataCallIsAutomatic c) (dataCallLocalIP c)
    (dataCallGateway c) (gpsFifoEnable c) (gpsFifoFD c) (gpsTtyEnable c) (gpsTtyFD c)
    (meid c) (mdn c) (carrier c) (otaMsgCnt c) (otaMsg c) (moduleAutoActivate c)
    (moduleIsActivated c) v.

(** ** The platform *)

(** System and library calls with an integer result.  [SysFopenWrite] is
    negative when [fopen] returns NULL; what is then printed up to [fclose] is
    written with one [SysWriteFile]. *)
Inductive SysCall :=
  | SysSystem (cmd : string)
  | SysKill (pid : Z)
  | SysIfcInit
  | SysIfcGetDefaultRoute (ifname : string)
  | SysFopenWrite (path : string)
  | SysWriteFile (path : string) (content : list string)
  | SysGetpt
  | SysGrantpt (fd : Z)
  | SysUnlockpt (fd : Z)
  | SysChmod (path : string)
  | SysPropertySet (key value : string)
  | SysMkfifo (path : string)
  | SysOpenFifo (path : string)
  | SysWrite (fd : Z) (s : string)
  | SysClose (fd : Z).

Class Platform (P : Type) := {
  pl_call : SysCall → P → Z * P;
  (** [property_get]: the value, or nothing when it is not set *)
  pl_property_get : string → P → option string * P;
  (** the content of a file, nothing when it cannot be opened *)
  pl_read_file : string → P → option string * P;
  (** the name of the slave of a pseudo-terminal *)
  pl_ptsname : Z → P → string * P;
  (** [ifc_get_info]: address, mask and flags, or an error *)
  pl_ifc_get_info : string → P → option (Z * Z * Z) * P;
  (** the directory entries of /proc with the first line of their status file *)
  pl_proc : P → option (list (string * option string)) * P;
  (** [sleep]: what the reader thread reports meanwhile *)
  pl_sleep : Z → P → list Callback * P
}.

(** ** The state of the driver *)

Inductive TimedAction := TimedPollSIMState | TimedInitialize.

Inductive Output :=
  | Complete (t : nat) (e : RIL_Errno) (v : Payload (option string)) (responselen : Z)
  | Unsol (code : UnsolCode) (v : Payload (option string)) (len : Z)
  | TimedCallback (a : TimedAction).

Record World (S P : Type) := MkWorld {
  w_ctx : Ctx;
  w_port : S;                 (** the AT channel *)
  w_plat : P;
  w_out : list Output;        (** in the order they are made *)
  w_live : list nat;          (** allocated blocks *)
  w_next : nat;               (** the next block *)
  w_strdup_leaks : nat;       (** lines duplicated by [onUnsolicited] *)
  w_pollSavedCREG : carray;   (** 64 bytes *)
  w_pollSavedCSQ : carray;    (** 64 bytes *)
  w_signal : list Z           (** cdma_dbm, cdma_ecio, evdo_dbm, evdo_ecio, evdo_ratio *)
}.
Arguments MkWorld {S P}.
Arguments w_ctx {S P}.
Arguments w_port {S P}.
Arguments w_plat {S P}.
Arguments w_out {S P}.
Arguments w_live {S P}.
Arguments w_next {S P}.
Arguments w_strdup_leaks {S P}.
Arguments w_pollSavedCREG {S P}.
Arguments w_pollSavedCSQ {S P}.
Arguments w_signal {S P}.

(** The statics of the driver when it is loaded: the lines saved by the polls
    are empty, the signal has its initial values. *)
Definition pollSaved_init : carray := zero_array 64.
Definition signal_init : list Z := [0; 0; 0; 750; 8].

(** Nothing was reported or allocated yet. *)
Definition fresh_world {S P} (c : Ctx) (port : S) (plat : P) : World S P :=
  MkWorld c port plat [] [] 0 0 pollSaved_init pollSaved_init signal_init.

(** The local variables that an error label of the function reads. *)
Record Locals := MkLocals { lv_resp : string → option Resp; lv_ptr : string → Ptr }.

Definition no_locals : Locals := MkLocals (λ _, None) (λ _, PNull).

Definition upd {A} (f : string → A) (x : string) (a : A) : string → A :=
  λ y, if String.eqb x y then a else f y.

(** ** The monad *)

Inductive Outcome (S P A : Type) :=
  | Ok (a : A) (l : Locals) (w : World S P)
  | Goto (l : Locals) (w : World S P)      (** [goto error] *)
  | Undef (u : Ub)
  | Hang.                                  (** an AT command never returns *)
Arguments Ok {S P A}.
Arguments Goto {S P A}.
Arguments Undef {S P A}.
Arguments Hang {S P A}.

Definition M (S P A : Type) : Type := Locals → World S P → Outcome S P A.

#[export] Instance M_ret {S P} : MRet (M S P) := λ A a l w, Ok a l w.

#[export] Instance M_bind {S P} : MBind (M S P) := λ A B f m l w,
  match m l w with
  | Ok a l' w' => f a l' w'
  | Goto l' w' => Goto l' w'
  | Undef u => Undef u
  | Hang => Hang
  end.

Section monad.
Context {S P : Type}.
Abbreviation W := (World S P).
Abbreviation M := (M S P).

Definition goto_error {A} : M A := λ l w, Goto l w.
Definition undef {A} (u : Ub) : M A := λ l w, Undef u.

(** [body; return; error: handler] *)
Definition on_error {A} (body handler : M A) : M A := λ l w,
  match body l w with
  | Goto l' w' => handler l' w'
  | r => r
  end.

(** A function call: the callee has its own local variables. *)
Definition frame {A} (m : M A) : M A := λ l w,
  match m no_locals w with
  | Ok a _ w' => Ok a l w'
  | Goto _ w' => Goto l w'
  | Undef u => Undef u
  | Hang => Hang
  end.

Definition when (b : bool) (m : M unit) : M unit := if b then m else mret tt.

Definition get_ctx : M Ctx := λ l w, Ok (w_ctx w) l w.

Definition with_ctx (c : Ctx) (w : W) : W :=
  MkWorld c (w_port w) (w_plat w) (w_out w) (w_live w) (w_next w) (w_strdup_leaks w)
    (w_pollSavedCREG w) (w_pollSavedCSQ w) (w_signal w).
Definition with_port (s : S) (w : W) : W :=
  MkWorld (w_ctx w) s (w_plat w) (w_out w) (w_live w) (w_next w) (w_strdup_leaks w)
    (w_pollSavedCREG w) (w_pollSavedCSQ w) (w_signal w).
Definition with_plat (p : P) (w : W) : W :=
  MkWorld (w_ctx w) (w_port w) p (w_out w) (w_live w) (w_next w) (w_strdup_leaks w)
    (w_pollSavedCREG w) (w_pollSavedCSQ w) (w_signal w).
Definition with_out (o : list Output) (w : W) : W :=
  MkWorld (w_ctx w) (w_port w) (w_plat w) o (w_live w) (w_next w) (w_strdup_leaks w)
    (w_pollSavedCREG w) (w_pollSavedCSQ w) (w_signal w).
Definition with_mem (live : list nat) (next : nat) (w : W) : W :=
  MkWorld (w_ctx w) (w_port w) (w_plat w) (w_out w) live next (w_strdup_leaks w)
    (w_pollSavedCREG w) (w_pollSavedCSQ w) (w_signal w).
Definition with_strdup_leak (w : W) : W :=
  MkWorld (w_ctx w) (w_port w) (w_plat w) (w_out w) (w_live w) (w_next w)
    (Datatypes.S (w_strdup_leaks w))
    (w_pollSavedCREG w) (w_pollSavedCSQ w) (w_signal w).
Definition with_polls (creg csq : carray) (w : W) : W :=
  MkWorld (w_ctx w) (w_port w) (w_plat w) (w_out w) (w_live w) (w_next w) (w_strdup_leaks w)
    creg csq (w_signal w).
Definition with_signal (s : list Z) (w : W) : W :=
  MkWorld (w_ctx w) (w_port w) (w_plat w) (w_out w) (w_live w) (w_next w) (w_strdup_leaks w)
    (w_pollSavedCREG w) (w_pollSavedCSQ w) s.

(** [c->field = ...], given as a function on the context. *)
Definition put_ctx (f : Ctx → Ctx) : M unit := λ l w, Ok tt l (with_ctx (f (w_ctx w)) w).

Definition update (f : W → W) : M unit := λ l w, Ok tt l (f w).
Definition get_world : M W := λ l w, Ok w l w.

(** *** Memory *)

Definition malloc : M nat := λ l w,
  Ok (w_next w) l (with_mem (w_next w :: w_live w) (Datatypes.S (w_next w)) w).

Definition free_block (b : nat) : M unit := λ l w,
  match del b (w_live w) with
  | Some live => Ok tt l (with_mem live (w_next w) w)
  | None => Undef DoubleFree
  end.

(** [asprintf(&cmd, ...)], and [free(cmd)]. *)
Definition asprintf (s : string) : M Ptr := b ← malloc; mret (PHeap b s).

Definition free_ptr (p : Ptr) : M unit :=
  match p with
  | PNull => mret tt
  | PHeap b _ => free_block b
  | PStatic _ | PDangling => undef DoubleFree
  end.

(** The bytes a pointer that is about to be read points to. *)
Definition read_str (p : Ptr) : M string := λ l w,
  match resolve (w_live w) p with
  | inl (Some s) => Ok s l w
  | inl None => Undef NullDeref
  | inr u => Undef u
  end.

Definition check_live (b : nat) : M unit := λ l w,
  if is_live b (w_live w) then Ok tt l w else Undef UseAfterFree.

(** [p + n] for a pointer that must stay within its string. *)
Definition ptr_add (p : Ptr) (n : nat) : M Ptr :=
  s ← read_str p;
  match advance n s with
  | None => undef OutOfBounds
  | Some s' => mret (match p with PHeap b _ => PHeap b s' | _ => PStatic s' end)
  end.

(** The string of a char array. *)
Definition read_array (a : carray) : M string :=
  match c_str a with Some s => mret s | None => undef OutOfBounds end.

(** *** Response variables, [ATResponse *x = NULL] until a command sets them *)

Definition set_resp (x : string) (r : option Resp) : M unit := λ l w,
  Ok tt (MkLocals (upd (lv_resp l) x r) (lv_ptr l)) w.

Definition get_resp (x : string) : M (option Resp) := λ l w, Ok (lv_resp l x) l w.

(** [*x] *)
Definition deref (x : string) : M Resp := λ l w,
  match lv_resp l x with
  | None => Undef NullDeref
  | Some r => if is_live (r_block r) (w_live w) then Ok r l w else Undef UseAfterFree
  end.

Definition set_ptr (x : string) (p : Ptr) : M unit := λ l w,
  Ok tt (MkLocals (lv_resp l) (upd (lv_ptr l) x p)) w.

Definition get_ptr (x : string) : M Ptr := λ l w, Ok (lv_ptr l x) l w.

(** [at_response_free(x)] *)
Definition at_response_free (x : string) : M unit :=
  r ← get_resp x;
  match r with None => mret tt | Some r => free_block (r_block r) end.

(** [err != 0 || x->success == 0], and the variant with [err < 0]. *)
Definition failed_ne (err : Z) (x : string) : M bool :=
  if negb (err =? 0) then mret true else r ← deref x; mret (success (r_val r) =? 0).

Definition failed_lt (err : Z) (x : string) : M bool :=
  if err <? 0 then mret true else r ← deref x; mret (success (r_val r) =? 0).

(** [if (...) goto error] on these conditions. *)
Definition check_ne (err : Z) (x : string) : M unit :=
  b ← failed_ne err x; if (b : bool) then goto_error else mret tt.

Definition check_lt (err : Z) (x : string) : M unit :=
  b ← failed_lt err x; if (b : bool) then goto_error else mret tt.

(** [x->p_intermediates->line] *)
Definition first_line (x : string) : M Line :=
  r ← deref x;
  match p_intermediates (r_val r) with
  | [] => undef NullDeref
  | s :: _ => mret (MkLine (r_block r) (Some s))
  end.

(** *** The tokenizer on lines; each operation goes to the error label when
    it fails *)

Definition line_start (ln : Line) : M Line :=
  check_live (ln_block ln);;
  match tok_start (ln_cur ln) with
  | Some c => mret (MkLine (ln_block ln) c)
  | None => goto_error
  end.

Definition line_int (ln : Line) : M (Z * Line) :=
  check_live (ln_block ln);;
  match tok_int (ln_cur ln) with
  | Some (z, c) => mret (z, MkLine (ln_block ln) c)
  | None => goto_error
  end.

Definition line_hexint (ln : Line) : M (Z * Line) :=
  check_live (ln_block ln);;
  match tok_hexint (ln_cur ln) with
  | Some (z, c) => mret (z, MkLine (ln_block ln) c)
  | None => goto_error
  end.

Definition line_bool (ln : Line) : M (Z * Line) :=
  check_live (ln_block ln);;
  match tok_bool (ln_cur ln) with
  | Some (z, c) => mret (z, MkLine (ln_block ln) c)
  | None => goto_error
  end.

Definition line_str (ln : Line) : M (Ptr * Line) :=
  check_live (ln_block ln);;
  match tok_str (ln_cur ln) with
  | Some (s, c) => mret (PHeap (ln_block ln) s, MkLine (ln_block ln) c)
  | None => goto_error
  end.

(** [n] integers skipped. *)
Fixpoint skip_ints (n : nat) (ln : Line) : M Line :=
  match n with
  | O => mret ln
  | Datatypes.S n' => '(_, ln) ← line_int ln; skip_ints n' ln
  end.

Fixpoint skip_strs (n : nat) (ln : Line) : M Line :=
  match n with
  | O => mret ln
  | Datatypes.S n' => '(_, ln) ← line_str ln; skip_strs n' ln
  end.

(** *** Arguments of requests *)

(** [((int * )data)[i]] *)
Definition data_int (d : Data) (i : nat) : M Z :=
  match d with
  | DInts zs => match zs !! i with Some z => mret z | None => undef OutOfBounds end
  | DNull => undef NullDeref
  | _ => undef BadArgument
  end.

(** [((char ** )data)[i]] *)
Definition data_str (d : Data) (i : nat) : M (option string) :=
  match d with
  | DStrings ss => match ss !! i with Some s => mret s | None => undef OutOfBounds end
  | DNull => undef NullDeref
  | _ => undef BadArgument
  end.

(** A string argument that is dereferenced. *)
Definition non_null (s : option string) : M string :=
  match s with Some s => mret s | None => undef NullDeref end.

(** The value of a signed [int] expression. *)
Definition arith (z : Z) : M Z :=
  if (INT_MIN <=? z) && (z <=? INT_MAX) then mret z else undef SignedOverflow.

(** [sprintf] into an array of [n] bytes. *)
Definition sprintf (n : Z) (s : string) : M string :=
  if strlen s <? n then mret s else undef OutOfBounds.

Definition assert (b : bool) : M unit := if b then mret tt else undef AssertFailed.

(** *** Outputs *)

(** The string pointers of the payload are followed when it is delivered. *)
Definition RIL_onRequestComplete (t : nat) (e : RIL_Errno) (p : Payload Ptr) (len : Z) : M unit := λ l w,
  match resolve_payload (w_live w) p with
  | inl v => Ok tt l (with_out (w_out w ++ [Complete t e v len]) w)
  | inr u => Undef u
  end.

Definition RIL_onUnsolicitedResponse (code : UnsolCode) (p : Payload Ptr) (len : Z) : M unit := λ l w,
  match resolve_payload (w_live w) p with
  | inl v => Ok tt l (with_out (w_out w ++ [Unsol code v len]) w)
  | inr u => Undef u
  end.

Definition RIL_requestTimedCallback (a : TimedAction) : M unit := λ l w,
  Ok tt l (with_out (w_out w ++ [TimedCallback a]) w).

(** *** Platform calls *)

Context `{Platform P}.

Definition lift {A} (f : P → A * P) : M A := λ l w,
  let '(a, p) := f (w_plat w) in Ok a l (with_plat p w).

Definition sys (c : SysCall) : M Z := lift (pl_call c).

(** [property_get(key, value, default)] into an array of [n] bytes. *)
Definition property_get (key default : string) (n : Z) : M string :=
  v ← lift (pl_property_get key);
  let s := match v with Some s => s | None => default end in
  if strlen s <? n then mret s else undef OutOfBounds.
End monad.
