(* ===== verification/RilLogic.v ===== *)
(** * A program logic for the handlers

    [wps m Q E l a] says: started with local variables [l] in any well-formed
    world with abstract state [a], the computation [m] does not run into
    undefined behaviour; if it finishes then in [Q], if it takes its error exit
    then in [E], in both cases in a well-formed world; and it does one of the two unless
    the modem leaves a command unanswered.  The abstract state is what the
    properties of the handlers talk about: the live memory blocks and the
    number of answers given to one request [t]. *)

From S2P Require Import Prelude CString AtTok AtReader AtChannel RilBase.

Open Scope Z_scope.

(** ** Well-formed worlds *)

(** The strings of the context that are printed are terminated, once the AT
    channel is closed the radio is unavailable, and the data device has a name
    that fits the command line of pppd. *)
Record ctx_ok (c : Ctx) : Prop := {
  ok_meid : is_Some (c_str (meid c));
  ok_mdn : is_Some (c_str (mdn c));
  ok_carrier : is_Some (c_str (carrier c));
  ok_closed : 0 < s_closed c → sState c = RADIO_STATE_UNAVAILABLE;
  ok_devname : ∃ d, s_data_devname c = Some d ∧ strlen d < 100
}.

Definition answers_to (t : nat) (o : Output) : bool :=
  match o with Complete t' _ _ _ => Nat.eqb t' t | _ => false end.

(** The answers to request [t] among the outputs. *)
Definition answers (t : nat) (out : list Output) : list Output := List.filter (answers_to t) out.

Lemma answers_app t o1 o2 : answers t (o1 ++ o2) = answers t o1 ++ answers t o2.
Proof. apply List.filter_app. Qed.

Record Abs := MkAbs { a_live : list nat; a_next : nat; a_answers : nat }.

(** [PROPERTY_VALUE_MAX] of the property service, the final NUL included. *)
Definition PROPERTY_VALUE_MAX : Z := 92.

(** What the platform is documented to keep to: the length of the values of
    properties, the status file of a process starting with a line of two words,
    and the callbacks that arrive during a sleep being as the reader makes them. *)
Class PlatformOk (P : Type) `{Platform P} := {
  property_fits key p v p' :
    pl_property_get key p = (Some v, p') → strlen v < PROPERTY_VALUE_MAX;
  proc_status p es p' :
    pl_proc p = (Some es, p') →
    Forall (λ e, match e.2 with Some b => is_Some (second_word b) | None => True end) es;
  sleep_callbacks n p : Forall cb_ok (pl_sleep n p).1
}.

(** The values of a property fit an array of [n] bytes; [property_fits] does not
    give that for the arrays of the driver that are shorter than it promises. *)
Definition property_within {P} `{Platform P} (key : string) (n : Z) : Prop :=
  ∀ (p p' : P) v, pl_property_get key p = (Some v, p') → strlen v < n.

Section logic.
Context {S P : Type} `{AtPortOk S} `{PlatformOk P} (t : nat).
Abbreviation W := (World S P).
Abbreviation M := (M S P).

Record wf (w : W) : Prop := {
  wf_port : port_inv (w_port w);
  wf_ctx : ctx_ok (w_ctx w)
}.

Definition abs (w : W) : Abs :=
  MkAbs (w_live w) (w_next w) (length (answers t (w_out w))).

(** A modem that answers every command and every handshake. *)
Definition port_responsive : Prop :=
  ∀ s, port_inv s →
    (∀ k cmd want, port_send k cmd want s ≠ Some PBlocked) ∧ port_handshake s ≠ Some PBlocked.

Definition wps {A} (m : M A) (Q : A → Locals → Abs → Prop) (E : Locals → Abs → Prop)
    (l : Locals) (a : Abs) : Prop :=
  ∀ w, wf w → abs w = a →
  match m l w with
  | Ok x l' w' => wf w' ∧ Q x l' (abs w')
  | Goto l' w' => wf w' ∧ E l' (abs w')
  | Undef _ => False
  | Hang => ¬ port_responsive
  end.

Implicit Types (a : Abs) (l : Locals).

(** *** Control *)

Lemma wps_ret {A} (x : A) Q E l a : Q x l a → wps (mret x) Q E l a.
Proof. intros HQ w Hw <-. by split. Qed.

Lemma wps_bind {A B} (m : M A) (f : A → M B) Q E l a :
  wps m (λ x l' a', wps (f x) Q E l' a') E l a → wps (m ≫= f) Q E l a.
Proof.
  intros Hm w Hw Ha. specialize (Hm w Hw Ha). unfold mbind, M_bind.
  destruct (m l w) as [x l' w'|l' w'| |]; try done. destruct Hm as [Hw' Hf]. by apply Hf.
Qed.

Lemma wps_goto {A} Q E l a : E l a → wps (goto_error : M A) Q E l a.
Proof. intros HE w Hw <-. by split. Qed.

Lemma wps_on_error {A} (body handler : M A) Q E l a :
  wps body Q (λ l' a', wps handler Q E l' a') l a → wps (on_error body handler) Q E l a.
Proof.
  intros Hb w Hw Ha. specialize (Hb w Hw Ha). unfold on_error.
  destruct (body l w) as [x l' w'|l' w'| |]; try done. destruct Hb as [Hw' Hh]. by apply Hh.
Qed.

Lemma wps_frame {A} (m : M A) Q E l a :
  wps m (λ x _ a', Q x l a') (λ _ a', E l a') no_locals a → wps (frame m) Q E l a.
Proof.
  intros Hm w Hw Ha. specialize (Hm w Hw Ha). unfold frame. by destruct (m no_locals w).
Qed.

Lemma wps_mono {A} (m : M A) (Q Q' : A → Locals → Abs → Prop) (E E' : Locals → Abs → Prop) l a :
  wps m Q E l a → (∀ x l' a', Q x l' a' → Q' x l' a') → (∀ l' a', E l' a' → E' l' a') →
  wps m Q' E' l a.
Proof.
  intros Hm HQ HE w Hw Ha. specialize (Hm w Hw Ha).
  destruct (m l w) as [x l' w'|l' w'| |]; try done; destruct Hm; auto.
Qed.

Lemma wps_when (b : bool) (m : M unit) Q E l a :
  (b = true → wps m Q E l a) → (b = false → Q tt l a) → wps (when b m) Q E l a.
Proof. destruct b; simpl; intros Ht Hf; [auto|]. apply wps_ret. auto. Qed.

(** *** Context *)

Lemma wps_get_ctx Q E l a : (∀ c, ctx_ok c → Q c l a) → wps get_ctx Q E l a.
Proof. intros HQ w Hw <-. split; [done|]. apply HQ, Hw. Qed.

Lemma wps_put_ctx f Q E l a :
  (∀ c, ctx_ok c → ctx_ok (f c)) → Q tt l a → wps (put_ctx f) Q E l a.
Proof.
  intros Hf HQ w Hw <-. simpl. split; [|done].
  destruct Hw as [Hp Hc]. split; [done|]. by apply Hf.
Qed.

Lemma wps_get_world Q E l a : (∀ w : W, wf w → Q w l a) → wps get_world Q E l a.
Proof. intros HQ w Hw <-. split; [done|]. by apply HQ. Qed.

(** An update of what neither the invariant nor the abstract state see. *)
Lemma wps_update f Q E l a :
  (∀ w, wf w → wf (f w) ∧ abs (f w) = abs w) → Q tt l a → wps (update f) Q E l a.
Proof. intros Hf HQ w Hw <-. simpl. destruct (Hf w Hw) as [? ->]. by split. Qed.

Lemma wps_polls creg csq Q E l a :
  Q tt l a → wps (update (with_polls creg csq)) Q E l a.
Proof. apply wps_update. intros w [? ?]. split; [by split|done]. Qed.

Lemma wps_signal s Q E l a : Q tt l a → wps (update (with_signal s)) Q E l a.
Proof. apply wps_update. intros w [? ?]. split; [by split|done]. Qed.

Lemma wps_strdup_leak Q E l a : Q tt l a → wps (update with_strdup_leak) Q E l a.
Proof. apply wps_update. intros w [? ?]. split; [by split|done]. Qed.

(** *** Memory *)

Lemma wps_malloc Q E l L n k :
  Q n l (MkAbs (n :: L) (Datatypes.S n) k) → wps malloc Q E l (MkAbs L n k).
Proof. intros HQ w [? ?] [= <- <- <-]. simpl. split; [by split|exact HQ]. Qed.

Lemma wps_asprintf s Q E l L n k :
  Q (PHeap n s) l (MkAbs (n :: L) (Datatypes.S n) k) → wps (asprintf s) Q E l (MkAbs L n k).
Proof. intros HQ. apply wps_bind, wps_malloc, wps_ret. exact HQ. Qed.

Lemma wps_free_block b L' Q E l L n k :
  del b L = Some L' → Q tt l (MkAbs L' n k) → wps (free_block b) Q E l (MkAbs L n k).
Proof.
  intros Hd HQ w [? ?] [= <- <- <-]. unfold free_block. rewrite Hd. split; [by split|exact HQ].
Qed.

Lemma wps_free_ptr p L' Q E l L n k :
  match p with
  | PNull => L' = L
  | PHeap b _ => del b L = Some L'
  | _ => False
  end → Q tt l (MkAbs L' n k) → wps (free_ptr p) Q E l (MkAbs L n k).
Proof.
  destruct p; simpl; try done.
  - intros -> HQ. by apply wps_ret.
  - intros Hd HQ. by eapply wps_free_block.
Qed.

Lemma wps_read_str p s Q E l L n k :
  resolve L p = inl (Some s) → Q s l (MkAbs L n k) → wps (read_str p) Q E l (MkAbs L n k).
Proof. intros Hr HQ w ? [= <- <- <-]. unfold read_str. by rewrite Hr. Qed.

Lemma wps_check_live b Q E l L n k :
  is_live b L = true → Q tt l (MkAbs L n k) → wps (check_live b) Q E l (MkAbs L n k).
Proof. intros Hr HQ w ? [= <- <- <-]. unfold check_live. by rewrite Hr. Qed.

Lemma wps_read_array arr Q E l a :
  is_Some (c_str arr) → (∀ s, c_str arr = Some s → Q s l a) → wps (read_array arr) Q E l a.
Proof. intros [s Hs] HQ. unfold read_array. rewrite Hs. apply wps_ret, HQ, Hs. Qed.

(** *** Response variables *)

Lemma wps_set_resp x r Q E l a :
  Q tt (MkLocals (upd (lv_resp l) x r) (lv_ptr l)) a → wps (set_resp x r) Q E l a.
Proof. intros HQ w Hw <-. by split. Qed.

Lemma wps_set_ptr x p Q E l a :
  Q tt (MkLocals (lv_resp l) (upd (lv_ptr l) x p)) a → wps (set_ptr x p) Q E l a.
Proof. intros HQ w Hw <-. by split. Qed.

Lemma wps_get_ptr x Q E l a : Q (lv_ptr l x) l a → wps (get_ptr x) Q E l a.
Proof. intros HQ w Hw <-. by split. Qed.

Lemma wps_get_resp x Q E l a : Q (lv_resp l x) l a → wps (get_resp x) Q E l a.
Proof. intros HQ w Hw <-. by split. Qed.

Lemma wps_deref x r Q E l L n k :
  lv_resp l x = Some r → is_live (r_block r) L = true → Q r l (MkAbs L n k) →
  wps (deref x) Q E l (MkAbs L n k).
Proof. intros Hx Hr HQ w ? [= <- <- <-]. unfold deref. by rewrite Hx, Hr. Qed.

Lemma wps_free_resp x L' Q E l L n k :
  match lv_resp l x with None => L' = L | Some r => del (r_block r) L = Some L' end →
  Q tt l (MkAbs L' n k) → wps (at_response_free x) Q E l (MkAbs L n k).
Proof.
  intros Hd HQ. unfold at_response_free. apply wps_bind, wps_get_resp.
  destruct (lv_resp l x); [by eapply wps_free_block|]. subst L'. by apply wps_ret.
Qed.

Lemma wps_failed_ne err x Q E l L n k :
  (err ≠ 0 → Q true l (MkAbs L n k)) →
  (err = 0 → ∃ r, lv_resp l x = Some r ∧ is_live (r_block r) L = true ∧
     Q (success (r_val r) =? 0) l (MkAbs L n k)) →
  wps (failed_ne err x) Q E l (MkAbs L n k).
Proof.
  intros Hne Heq. unfold failed_ne. destruct (Z.eqb_spec err 0); simpl; [|by apply wps_ret, Hne].
  destruct (Heq ltac:(done)) as (r & Hx & Hr & HQ).
  apply wps_bind. eapply wps_deref; [done..|]. by apply wps_ret.
Qed.

Lemma wps_failed_lt err x Q E l L n k :
  (err < 0 → Q true l (MkAbs L n k)) →
  (0 ≤ err → ∃ r, lv_resp l x = Some r ∧ is_live (r_block r) L = true ∧
     Q (success (r_val r) =? 0) l (MkAbs L n k)) →
  wps (failed_lt err x) Q E l (MkAbs L n k).
Proof.
  intros Hne Heq. unfold failed_lt. destruct (Z.ltb_spec err 0); simpl; [by apply wps_ret, Hne|].
  destruct (Heq ltac:(done)) as (r & Hx & Hr & HQ).
  apply wps_bind. eapply wps_deref; [done..|]. by apply wps_ret.
Qed.

Lemma wps_check_ne err x Q E l L n k :
  (err ≠ 0 → E l (MkAbs L n k)) →
  (err = 0 → ∃ r, lv_resp l x = Some r ∧ is_live (r_block r) L = true ∧
     (success (r_val r) = 0 → E l (MkAbs L n k)) ∧
     (success (r_val r) ≠ 0 → Q tt l (MkAbs L n k))) →
  wps (check_ne err x) Q E l (MkAbs L n k).
Proof.
  intros Hne Heq. apply wps_bind, wps_failed_ne.
  - intros Hn. by apply wps_goto, Hne.
  - intros ->. destruct (Heq eq_refl) as (r & Hx & Hr & Hs0 & Hs1). exists r. split_and!; [done..|].
    destruct (Z.eqb_spec (success (r_val r)) 0); [by apply wps_goto, Hs0|by apply wps_ret, Hs1].
Qed.

Lemma wps_check_lt err x Q E l L n k :
  (err < 0 → E l (MkAbs L n k)) →
  (0 ≤ err → ∃ r, lv_resp l x = Some r ∧ is_live (r_block r) L = true ∧
     (success (r_val r) = 0 → E l (MkAbs L n k)) ∧
     (success (r_val r) ≠ 0 → Q tt l (MkAbs L n k))) →
  wps (check_lt err x) Q E l (MkAbs L n k).
Proof.
  intros Hne Heq. apply wps_bind, wps_failed_lt.
  - intros Hn. by apply wps_goto, Hne.
  - intros He. destruct (Heq He) as (r & Hx & Hr & Hs0 & Hs1). exists r. split_and!; [done..|].
    destruct (Z.eqb_spec (success (r_val r)) 0); [by apply wps_goto, Hs0|by apply wps_ret, Hs1].
Qed.

Lemma wps_first_line x r s ss Q E l L n k :
  lv_resp l x = Some r → is_live (r_block r) L = true → p_intermediates (r_val r) = s :: ss →
  Q (MkLine (r_block r) (Some s)) l (MkAbs L n k) →
  wps (first_line x) Q E l (MkAbs L n k).
Proof.
  intros Hx Hr Hi HQ. unfold first_line. apply wps_bind. eapply wps_deref; [done..|].
  rewrite Hi. by apply wps_ret.
Qed.

(** *** Tokens *)

Lemma wps_line_start b c Q E l L n k :
  is_live b L = true →
  (∀ c', tok_start c = Some c' → Q (MkLine b c') l (MkAbs L n k)) →
  (tok_start c = None → E l (MkAbs L n k)) →
  wps (line_start (MkLine b c)) Q E l (MkAbs L n k).
Proof.
  intros Hb HQ HE. unfold line_start. simpl. apply wps_bind, wps_check_live; [done|].
  destruct (tok_start c); [by apply wps_ret, HQ|by apply wps_goto, HE].
Qed.

Lemma wps_line_int b c Q E l L n k :
  is_live b L = true →
  (∀ z c', tok_int c = Some (z, c') → Q (z, MkLine b c') l (MkAbs L n k)) →
  (tok_int c = None → E l (MkAbs L n k)) →
  wps (line_int (MkLine b c)) Q E l (MkAbs L n k).
Proof.
  intros Hb HQ HE. unfold line_int. simpl. apply wps_bind, wps_check_live; [done|].
  destruct (tok_int c) as [[]|]; [by apply wps_ret, HQ|by apply wps_goto, HE].
Qed.

Lemma wps_line_hexint b c Q E l L n k :
  is_live b L = true →
  (∀ z c', tok_hexint c = Some (z, c') → Q (z, MkLine b c') l (MkAbs L n k)) →
  (tok_hexint c = None → E l (MkAbs L n k)) →
  wps (line_hexint (MkLine b c)) Q E l (MkAbs L n k).
Proof.
  intros Hb HQ HE. unfold line_hexint. simpl. apply wps_bind, wps_check_live; [done|].
  destruct (tok_hexint c) as [[]|]; [by apply wps_ret, HQ|by apply wps_goto, HE].
Qed.

Lemma wps_line_bool b c Q E l L n k :
  is_live b L = true →
  (∀ z c', tok_bool c = Some (z, c') → Q (z, MkLine b c') l (MkAbs L n k)) →
  (tok_bool c = None → E l (MkAbs L n k)) →
  wps (line_bool (MkLine b c)) Q E l (MkAbs L n k).
Proof.
  intros Hb HQ HE. unfold line_bool. simpl. apply wps_bind, wps_check_live; [done|].
  destruct (tok_bool c) as [[]|]; [by apply wps_ret, HQ|by apply wps_goto, HE].
Qed.

Lemma wps_line_str b c Q E l L n k :
  is_live b L = true →
  (∀ s c', tok_str c = Some (s, c') → Q (PHeap b s, MkLine b c') l (MkAbs L n k)) →
  (tok_str c = None → E l (MkAbs L n k)) →
  wps (line_str (MkLine b c)) Q E l (MkAbs L n k).
Proof.
  intros Hb HQ HE. unfold line_str. simpl. apply wps_bind, wps_check_live; [done|].
  destruct (tok_str c) as [[]|]; [by apply wps_ret, HQ|by apply wps_goto, HE].
Qed.

Lemma wps_skip_ints m b c Q E l L n k :
  is_live b L = true →
  (∀ c', Q (MkLine b c') l (MkAbs L n k)) → E l (MkAbs L n k) →
  wps (skip_ints m (MkLine b c)) Q E l (MkAbs L n k).
Proof.
  intros Hb HQ HE. revert c. induction m as [|m IH]; intros c; cbn [skip_ints]; [by apply wps_ret|].
  apply wps_bind, wps_line_int; [done| |done]. intros z c' _. apply IH.
Qed.

Lemma wps_skip_strs m b c Q E l L n k :
  is_live b L = true →
  (∀ c', Q (MkLine b c') l (MkAbs L n k)) → E l (MkAbs L n k) →
  wps (skip_strs m (MkLine b c)) Q E l (MkAbs L n k).
Proof.
  intros Hb HQ HE. revert c. induction m as [|m IH]; intros c; cbn [skip_strs]; [by apply wps_ret|].
  apply wps_bind, wps_line_str; [done| |done]. intros s c' _. apply IH.
Qed.

(** *** Outputs *)

Lemma wps_complete t' e p len v Q E l L n k :
  resolve_payload L p = inl v →
  Q tt l (MkAbs L n (k + (if Nat.eqb t' t then 1 else 0))) →
  wps (RIL_onRequestComplete t' e p len) Q E l (MkAbs L n k).
Proof.
  intros Hr HQ w [Hp Hc] [= <- <- <-]. unfold RIL_onRequestComplete. rewrite Hr.
  split; [by split|]. unfold abs. simpl. rewrite answers_app, length_app. simpl.
  by destruct (Nat.eqb t' t).
Qed.

Lemma wps_unsol code p len v Q E l L n k :
  resolve_payload L p = inl v → Q tt l (MkAbs L n k) →
  wps (RIL_onUnsolicitedResponse code p len) Q E l (MkAbs L n k).
Proof.
  intros Hr HQ w [Hp Hc] [= <- <- <-]. unfold RIL_onUnsolicitedResponse. rewrite Hr.
  split; [by split|]. unfold abs. simpl. by rewrite answers_app, app_nil_r.
Qed.

Lemma wps_timed x Q E l a : Q tt l a → wps (RIL_requestTimedCallback x) Q E l a.
Proof.
  intros HQ w [Hp Hc] <-. simpl. split; [by split|].
  unfold abs. simpl. by rewrite answers_app, app_nil_r.
Qed.

(** *** Platform *)

Lemma wps_lift {A} (f : P → A * P) Q E l a :
  (∀ p x p', f p = (x, p') → Q x l a) → wps (lift f) Q E l a.
Proof.
  intros HQ w [Hp Hc] <-. unfold lift. destruct (f (w_plat w)) as [x p'] eqn:Ef.
  split; [by split|]. by eapply HQ.
Qed.

Lemma wps_sys c Q E l a : (∀ z, Q z l a) → wps (sys c) Q E l a.
Proof. intros HQ. apply wps_lift. auto. Qed.

Lemma wps_property_get key default n Q E l a :
  strlen default < n → property_within (P := P) key n → (∀ s, strlen s < n → Q s l a) →
  wps (property_get key default n) Q E l a.
Proof.
  intros Hd Hn HQ. unfold property_get. apply wps_bind, wps_lift. intros p v p' Ev.
  assert (strlen match v with Some s => s | None => default end < n) as Hlt.
  { destruct v; [|done]. by eapply Hn. }
  destruct (Z.ltb_spec (strlen match v with Some s => s | None => default end) n); [|lia].
  by apply wps_ret, HQ.
Qed.

Lemma wps_sprintf n s Q E l a : strlen s < n → Q s l a → wps (sprintf n s) Q E l a.
Proof.
  intros Hs HQ. unfold sprintf. rewrite (proj2 (Z.ltb_lt _ _) Hs). by apply wps_ret.
Qed.
End logic.
