(* ===== verification/RilReader.v ===== *)
(** * What runs on the reader thread, and sending AT commands

    fw100-ril-gps.c, and of fw100-ril.c the radio state, the handler of
    unsolicited lines and the callbacks of the AT channel.  A handler that sends
    a command waits while the reader thread works; [at_send] runs the callbacks
    the channel reports between the command and its result. *)

From S2P Require Import Prelude CString AtTok AtReader AtChannel RilBase RilLogic.

Open Scope Z_scope.

Definition GPS_PROPERTY_NAME : string := "ril.gps.port".
Definition RIL_GPS_FIFOPATH : string := "/opt/fusion/gpsfifo".

Section reader.
Context {S P : Type} `{AtPort S} `{Platform P}.
Abbreviation W := (World S P).
Abbreviation M := (M S P).

(** ** fw100-ril-gps.c *)

Definition rilWriteGPSFifo (file gpsinfo : string) : M Z :=
  c ← get_ctx;
  rc ← (if gpsFifoFD c <=? 0 then
          rc ← sys (SysMkfifo file);
          fd ← sys (SysOpenFifo file);
          put_ctx (set_gpsFifoFD fd);;
          mret rc
        else mret 0);
  c ← get_ctx;
  if gpsFifoFD c <=? 0 then mret rc
  else
    numw ← sys (SysWrite (gpsFifoFD c) gpsinfo);
    _ ← sys (SysWrite (gpsFifoFD c) (String LF ""));
    if numw <? 0 then
      _ ← sys (SysClose (gpsFifoFD c));
      put_ctx (set_gpsFifoFD 0);;
      mret (-1)
    else mret rc.

(** The tail of [rilWriteGPSTty]: the string, then a line feed. *)
Definition gps_tty_write (rc : Z) (gpsinfo : option string) : M Z :=
  c ← get_ctx;
  match gpsinfo with
  | None => undef NullDeref
  | Some s =>
      numw ← sys (SysWrite (gpsTtyFD c) s);
      _ ← sys (SysWrite (gpsTtyFD c) (String LF ""));
      if numw <? 0 then
        _ ← sys (SysClose (gpsTtyFD c));
        put_ctx (set_gpsTtyFD 0);;
        mret (-1)
      else mret rc
  end.

Definition rilWriteGPSTty (gpsinfo : option string) (options : Z) : M Z :=
  c ← get_ctx;
  if gpsTtyFD c <=? 0 then
    mfd ← sys SysGetpt;
    if mfd =? -1 then mret 0
    else
      rc ← sys (SysGrantpt mfd);
      if rc =? -1 then mret rc
      else
        rc ← sys (SysUnlockpt mfd);
        if rc =? -1 then mret rc
        else
          device ← lift (pl_ptsname mfd);
          _ ← sys (SysChmod device);
          rc ← sys (SysPropertySet GPS_PROPERTY_NAME device);
          put_ctx (set_gpsTtyFD mfd);;
          if negb (options =? 0) then mret rc
          else gps_tty_write rc gpsinfo
  else gps_tty_write 0 gpsinfo.

(** ** The radio state *)

Definition onRadioPowerOn : M unit :=
  RIL_onUnsolicitedResponse RIL_UNSOL_RESPONSE_NETWORK_STATE_CHANGED PayNull 0.

(** What [setRadioState] does under [s_state_mutex]; the old state. *)
Definition state_section (newState : RIL_RadioState) : M RIL_RadioState :=
  c ← get_ctx;
  let newState := if 0 <? s_closed c then RADIO_STATE_UNAVAILABLE else newState in
  when (negb (bool_decide (sState c = newState)) || (0 <? s_closed c))
    (put_ctx (set_sState newState));;
  mret (sState c).

(** And after it.  [onSIMReady]: the action for SIM_READY, which sends an AT
    command; on the reader thread that command fails with
    AT_ERROR_INVALID_THREAD at once. *)
Definition announce_state (onSIMReady : M unit) (oldState : RIL_RadioState) : M unit :=
  c ← get_ctx;
  when (negb (bool_decide (sState c = oldState)))
    (RIL_onUnsolicitedResponse RIL_UNSOL_RESPONSE_RADIO_STATE_CHANGED PayNull 0;;
     match sState c with
     | RADIO_STATE_SIM_READY => onSIMReady
     | RADIO_STATE_SIM_NOT_READY => onRadioPowerOn
     | _ => mret tt
     end).

Definition setRadioState_with (onSIMReady : M unit) (newState : RIL_RadioState) : M unit :=
  oldState ← state_section newState;
  announce_state onSIMReady oldState.

Definition setRadioState_reader (newState : RIL_RadioState) : M unit :=
  setRadioState_with (mret tt) newState.

(** [at_close()]: from here the port refuses commands. *)
Definition close_port : M unit := update (λ w, with_port (port_close (w_port w)) w).

Definition onATReaderClosed : M unit :=
  close_port;; put_ctx (set_s_closed 1);; setRadioState_reader RADIO_STATE_UNAVAILABLE.

(** The same statements; only the thread it runs on differs. *)
Definition onATTimeout : M unit :=
  close_port;; put_ctx (set_s_closed 1);; setRadioState_reader RADIO_STATE_UNAVAILABLE.

(** ** Unsolicited lines *)

(** [line = strdup(s)] is never freed. *)
Definition nitz_time (s : string) : M unit :=
  update with_strdup_leak;;
  let '(_, line) := at_tok_start (Some s) in
  match tok_str line with
  | None => mret tt
  | Some (response, _) =>
      RIL_onUnsolicitedResponse RIL_UNSOL_NITZ_TIME_RECEIVED (PayStr (PStatic response))
        (strlen response)
  end.

Definition new_sms (code : UnsolCode) (sms_pdu : option string) : M unit :=
  match sms_pdu with
  | None => undef NullDeref
  | Some pdu => RIL_onUnsolicitedResponse code (PayStr (PStatic pdu)) (strlen pdu)
  end.

Definition onUnsolicited (s : string) (sms_pdu : option string) : M unit :=
  c ← get_ctx;
  if bool_decide (sState c = RADIO_STATE_UNAVAILABLE) then mret tt
  else if strStartsWith s "%CTZV:" then nitz_time s
  else if strStartsWith s "+CRING:" || strStartsWith s "RING"
          || strStartsWith s "NO CARRIER" || strStartsWith s "+CCWA" then mret tt
  else if strStartsWith s "+CREG:" || strStartsWith s "+CGREG:" then
    RIL_onUnsolicitedResponse RIL_UNSOL_RESPONSE_NETWORK_STATE_CHANGED PayNull 0
  else if strStartsWith s "+CMT:" then new_sms RIL_UNSOL_RESPONSE_NEW_SMS sms_pdu
  else if strStartsWith s "+CDS:" then new_sms RIL_UNSOL_RESPONSE_NEW_SMS_STATUS_REPORT sms_pdu
  else if strStartsWith s "^ORIG:" then mret tt
  else if strStartsWith s "^OTACMSG:" then
    put_ctx (λ c, set_otaMsg (strncpy s 64) (set_otaMsgCnt (otaMsgCnt c + 1) c))
  else if strStartsWith s "^CONN:" then mret tt
  else if strStartsWith s "^CEND:" then mret tt
  else if strStartsWith s "$GP" then
    when (negb (gpsFifoEnable c =? 0)) (rilWriteGPSFifo RIL_GPS_FIFOPATH s;; mret tt);;
    when (negb (gpsTtyEnable c =? 0)) (rilWriteGPSTty (Some s) 0;; mret tt)
  else mret tt.

Definition run_callback (cb : Callback) : M unit :=
  match cb with
  | CbUnsol s sms_pdu => onUnsolicited s sms_pdu
  | CbReaderClosed => onATReaderClosed
  | CbTimeout => onATTimeout
  end.

Fixpoint run_callbacks (cbs : list Callback) : M unit :=
  match cbs with
  | [] => mret tt
  | cb :: cbs' => run_callback cb;; run_callbacks cbs'
  end.

(** ** Sending *)

(** The result of a command once its callbacks have run. *)
Definition await (r : option (PortResult S)) : M (Z * option ATResponse) := λ l w,
  match r with
  | None => Undef NullDeref
  | Some PBlocked => Hang
  | Some (PDone err out cbs s) => (run_callbacks cbs;; mret (err, out)) l (with_port s w)
  end.

Definition at_send (k : AtKind) (cmd : string) (want : bool) : M (Z * option ATResponse) := λ l w,
  await (port_send k cmd want (w_port w)) l w.

(** [err = at_send_command...(cmd, &x)].  An error leaves [x] alone, except
    AT_ERROR_INVALID_RESPONSE, which sets it to NULL. *)
Definition at_send_resp (x : string) (k : AtKind) (cmd : string) : M Z :=
  '(err, out) ← at_send k cmd true;
  match out with
  | Some r => b ← malloc; set_resp x (Some (MkResp b r))
  | None => when (err =? AT_ERROR_INVALID_RESPONSE) (set_resp x None)
  end;;
  mret err.

(** [err = at_send_command(cmd, NULL)] *)
Definition at_command (cmd : string) : M Z := '(err, _) ← at_send KPlain cmd false; mret err.

Definition handshake : M Z := λ l w,
  ('(err, _) ← await (port_handshake (w_port w)); mret err) l w.

Definition sleep (seconds : Z) : M unit := cbs ← lift (pl_sleep seconds); run_callbacks cbs.

Definition onSIMReady : M unit := at_command "AT+CNMI=1,2,2,1,1";; mret tt.

(** [setRadioState] on a command thread. *)
Definition setRadioState (newState : RIL_RadioState) : M unit :=
  setRadioState_with onSIMReady newState.
End reader.

(** ** Specifications *)

Section specs.
Context {S P : Type} `{AtPortOk S} `{PlatformOk P} (t : nat).
Abbreviation W := (World S P).
Abbreviation M := (M S P).
Abbreviation wps := (wps (S := S) (P := P) t).
Implicit Types (a : Abs) (l : Locals).

Lemma ctx_ok_sState c s : ctx_ok c → (0 < s_closed c → s = RADIO_STATE_UNAVAILABLE) →
  ctx_ok (set_sState s c).
Proof. intros [] ?. by split. Qed.

(** The state is well-formed after the critical section even if it was being
    closed. *)
Lemma state_section_ok newState l (w : W) :
  port_inv (w_port w) → ctx_ok (set_sState RADIO_STATE_UNAVAILABLE (w_ctx w)) →
  ∃ w', state_section newState l w = Ok (sState (w_ctx w)) l w' ∧ wf w' ∧ abs t w' = abs t w ∧
    (0 < s_closed (w_ctx w) → sState (w_ctx w') = RADIO_STATE_UNAVAILABLE).
Proof.
  intros Hp [Ok1 Ok2 Ok3 _ Ok5]. simpl in *. unfold state_section, get_ctx, mbind, M_bind, put_ctx. simpl.
  destruct (Z.ltb_spec 0 (s_closed (w_ctx w))); [rewrite orb_true_r|rewrite orb_false_r]; simpl.
  - eexists. split; [reflexivity|]. by repeat split.
  - destruct (bool_decide _); simpl; eexists; (split; [reflexivity|]); repeat split; simpl; try done; lia.
Qed.

Lemma wps_announce_state ready old Q E l a :
  (∀ a, Q tt l a → wps ready Q E l a) → Q tt l a → wps (announce_state ready old) Q E l a.
Proof.
  intros Hr HQ. destruct a as [L n k]. apply wps_bind, wps_get_ctx. intros c Hc.
  apply wps_when; [|done]. intros _. apply wps_bind. eapply wps_unsol; [done|].
  destruct (sState c); try (apply wps_ret; exact HQ).
  - eapply wps_unsol; [done|exact HQ].
  - by apply Hr.
Qed.

Lemma wps_setRadioState_with ready newState Q E l a :
  (∀ a, Q tt l a → wps ready Q E l a) → Q tt l a → wps (setRadioState_with ready newState) Q E l a.
Proof.
  intros Hr HQ w [Hp Hc] Ha. unfold setRadioState_with, mbind, M_bind.
  destruct (state_section_ok newState l w Hp) as (w' & -> & Hw' & Ha' & _);
    [by apply ctx_ok_sState|].
  apply (wps_announce_state ready _ Q E l a Hr HQ); [done|congruence].
Qed.

Lemma wps_setRadioState_reader newState Q E l a :
  Q tt l a → wps (setRadioState_reader newState) Q E l a.
Proof. apply wps_setRadioState_with. intros a' HQ. by apply wps_ret. Qed.

Lemma wps_onATReaderClosed Q E l a : Q tt l a → wps onATReaderClosed Q E l a.
Proof.
  intros HQ w [Hp [Ok1 Ok2 Ok3 Ok4 Ok5]] Ha. unfold onATReaderClosed, close_port, update, put_ctx,
    setRadioState_reader, setRadioState_with, mbind, M_bind. simpl.
  match goal with |- context [state_section ?n ?l ?w] =>
    destruct (state_section_ok n l w) as (w' & -> & Hw' & Ha' & _) end.
  - by apply port_close_ok.
  - by split.
  - apply (wps_announce_state (mret tt) _ Q E l a); [|done..|].
    + intros a' HQ'. by apply wps_ret.
    + by rewrite Ha'.
Qed.

Lemma wps_rilWriteGPSFifo file s Q E l a :
  (∀ rc, Q rc l a) → wps (rilWriteGPSFifo file s) Q E l a.
Proof.
  intros HQ. unfold rilWriteGPSFifo. apply wps_bind, wps_get_ctx. intros c Hc.
  apply wps_bind.
  assert (Hrest : ∀ rc, wps (c ← get_ctx;
    if gpsFifoFD c <=? 0 then mret rc
    else
      numw ← sys (SysWrite (gpsFifoFD c) s);
      _ ← sys (SysWrite (gpsFifoFD c) (String LF ""));
      if numw <? 0 then
        _ ← sys (SysClose (gpsFifoFD c));
        put_ctx (set_gpsFifoFD 0);; mret (-1)
      else mret rc) Q E l a).
  { intros rc. apply wps_bind, wps_get_ctx. intros c' Hc'. destruct (gpsFifoFD c' <=? 0); [by apply wps_ret|].
    apply wps_bind, wps_sys. intros numw. apply wps_bind, wps_sys. intros _.
    destruct (numw <? 0); [|by apply wps_ret]. apply wps_bind, wps_sys. intros _.
    apply wps_bind, wps_put_ctx; [intros ? []; by split|]. by apply wps_ret. }
  destruct (gpsFifoFD c <=? 0); [|by apply wps_ret].
  apply wps_bind, wps_sys. intros rc. apply wps_bind, wps_sys. intros fd.
  apply wps_bind, wps_put_ctx; [intros ? []; by split|]. by apply wps_ret.
Qed.

Lemma wps_gps_tty_write rc s Q E l a :
  (∀ rc, Q rc l a) → wps (gps_tty_write rc (Some s)) Q E l a.
Proof.
  intros HQ. apply wps_bind, wps_get_ctx. intros c Hc.
  apply wps_bind, wps_sys. intros numw. apply wps_bind, wps_sys. intros _.
  destruct (numw <? 0); [|by apply wps_ret]. apply wps_bind, wps_sys. intros _.
  apply wps_bind, wps_put_ctx; [intros ? []; by split|]. by apply wps_ret.
Qed.

Lemma wps_rilWriteGPSTty s options Q E l a :
  (∀ rc, Q rc l a) → wps (rilWriteGPSTty (Some s) options) Q E l a.
Proof.
  intros HQ. unfold rilWriteGPSTty. apply wps_bind, wps_get_ctx. intros c Hc.
  destruct (gpsTtyFD c <=? 0); [|by apply wps_gps_tty_write].
  apply wps_bind, wps_sys. intros mfd. destruct (mfd =? -1); [by apply wps_ret|].
  apply wps_bind, wps_sys. intros rc. destruct (rc =? -1); [by apply wps_ret|].
  apply wps_bind, wps_sys. intros rc'. destruct (rc' =? -1); [by apply wps_ret|].
  apply wps_bind, wps_lift. intros p device p' _. apply wps_bind, wps_sys. intros _.
  apply wps_bind, wps_sys. intros rc''. apply wps_bind, wps_put_ctx; [intros ? []; by split|].
  destruct (negb (options =? 0)); [by apply wps_ret|by apply wps_gps_tty_write].
Qed.

Lemma wps_onUnsolicited s pdu Q E l a :
  (pdu = None → isSMSUnsolicited s = false) → Q tt l a → wps (onUnsolicited s pdu) Q E l a.
Proof.
  intros Hpdu HQ. unfold onUnsolicited. apply wps_bind, wps_get_ctx. intros c Hc.
  destruct a as [L n k].
  assert (Hsms : ∀ code, (strStartsWith s "+CMT:" = true ∨ strStartsWith s "+CDS:" = true) →
    wps (new_sms code pdu) Q E l (MkAbs L n k)).
  { intros code Hs. unfold new_sms. destruct pdu; [by eapply wps_unsol|]. specialize (Hpdu eq_refl).
    unfold isSMSUnsolicited, s_smsUnsoliciteds in Hpdu. simpl in Hpdu.
    destruct Hs as [Hs|Hs]; rewrite Hs in Hpdu; [done|]. by rewrite orb_true_r in Hpdu. }
  case_bool_decide; [by apply wps_ret|].
  destruct (strStartsWith s "%CTZV:").
  { unfold nitz_time. apply wps_bind, wps_strdup_leak. destruct (at_tok_start (Some s)) as [? line].
    destruct (tok_str line) as [[response ?]|]; [by eapply wps_unsol|by apply wps_ret]. }
  destruct (_ || _); [by apply wps_ret|].
  destruct (_ || _); [by eapply wps_unsol|].
  destruct (strStartsWith s "+CMT:") eqn:?; [by apply Hsms; left|].
  destruct (strStartsWith s "+CDS:") eqn:?; [by apply Hsms; right|].
  destruct (strStartsWith s "^ORIG:"); [by apply wps_ret|].
  destruct (strStartsWith s "^OTACMSG:"); [apply wps_put_ctx; [intros ? []; by split|done]|].
  destruct (strStartsWith s "^CONN:"); [by apply wps_ret|].
  destruct (strStartsWith s "^CEND:"); [by apply wps_ret|].
  destruct (strStartsWith s "$GP"); [|by apply wps_ret].
  apply wps_bind, wps_when; intros _.
  - apply wps_bind, wps_rilWriteGPSFifo. intros _. apply wps_ret.
    apply wps_when; intros _; [|done]. apply wps_bind, wps_rilWriteGPSTty. intros _. by apply wps_ret.
  - apply wps_when; intros _; [|done]. apply wps_bind, wps_rilWriteGPSTty. intros _. by apply wps_ret.
Qed.

Lemma wps_run_callbacks cbs Q E l a :
  Forall cb_ok cbs → Q tt l a → wps (run_callbacks cbs) Q E l a.
Proof.
  intros Hcbs HQ. induction Hcbs as [|cb cbs Hcb _ IH]; cbn [run_callbacks]; [by apply wps_ret|].
  apply wps_bind. destruct cb as [s pdu| |]; simpl in *; [|by apply wps_onATReaderClosed|done].
  apply wps_onUnsolicited; [|done]. by intros ->.
Qed.

Lemma wps_sleep n Q E l a : Q tt l a → wps (sleep n) Q E l a.
Proof.
  intros HQ. unfold sleep. apply wps_bind, wps_lift. intros p cbs p' Ec.
  apply wps_run_callbacks; [|done]. pose proof (sleep_callbacks n p) as Hok. by rewrite Ec in Hok.
Qed.

(** A command, whatever its kind: the caller gets what [at_contract] says. *)
Lemma wps_at_send k cmd want Q E l a :
  (∀ err out, at_contract k want err out → Q (err, out) l a) → wps (at_send k cmd want) Q E l a.
Proof.
  intros HQ w [Hp Hc] Ha. unfold at_send. pose proof (port_send_ok k cmd want (w_port w) Hp) as Hs.
  destruct (port_send k cmd want (w_port w)) as [[err out cbs s'|]|] eqn:Es; simpl; [| |done].
  2: { intros Hresp. by apply (proj1 (Hresp _ Hp) k cmd want). }
  destruct Hs as (Hct & Hcbs & Hp').
  assert (Hrun : wps (run_callbacks cbs;; mret (err, out)) Q E l a).
  { apply wps_bind, wps_run_callbacks; [done|]. apply wps_ret. by apply HQ. }
  apply Hrun; [by split|done].
Qed.

Lemma wps_at_command cmd Q E l a :
  (∀ err, err = 0 ∨ err ∈ AT_errors → Q err l a) → wps (at_command cmd) Q E l a.
Proof.
  intros HQ. apply wps_bind, wps_at_send. intros err out [Hr _]. apply wps_ret, HQ.
  destruct Hr as [[? _]|?]; auto.
Qed.

Lemma wps_handshake Q E l a :
  (∀ err, err = 0 ∨ err ∈ AT_errors → Q err l a) → wps handshake Q E l a.
Proof.
  intros HQ w [Hp Hc] Ha. unfold handshake. pose proof (port_handshake_ok (w_port w) Hp) as Hs.
  destruct (port_handshake (w_port w)) as [[err out cbs s'|]|] eqn:Es; simpl; [| |done].
  2: { intros Hresp. by apply (proj2 (Hresp _ Hp)). }
  destruct Hs as (Herr & Hcbs & Hp').
  assert (Hrun : wps ('(err, _) ← (run_callbacks cbs;; mret (err, out)); mret err) Q E l a).
  { apply wps_bind, wps_bind, wps_run_callbacks; [done|]. apply wps_ret, wps_ret. by apply HQ. }
  apply Hrun; [by split|done].
Qed.

(** The outcomes of a command whose response goes to variable [x], with a
    fresh block [n] for the response. *)
Lemma wps_at_send_resp x k cmd Q E l L n c :
  (** failed without a response; the variable is left alone or NULL *)
  (∀ err, err ∈ AT_errors → Q err l (MkAbs L n c)) →
  (Q AT_ERROR_INVALID_RESPONSE (MkLocals (upd (lv_resp l) x None) (lv_ptr l)) (MkAbs L n c)) →
  (** failed with one *)
  (∀ err r, err ∈ AT_errors →
     Q err (MkLocals (upd (lv_resp l) x (Some (MkResp n r))) (lv_ptr l))
       (MkAbs (n :: L) (Datatypes.S n) c)) →
  (** answered *)
  (∀ r, response_ok (kind_type k) (kind_prefix k) r →
     (kind_requires k = true → success r = 1 → p_intermediates r ≠ []) →
     Q 0 (MkLocals (upd (lv_resp l) x (Some (MkResp n r))) (lv_ptr l))
       (MkAbs (n :: L) (Datatypes.S n) c)) →
  wps (at_send_resp x k cmd) Q E l (MkAbs L n c).
Proof.
  intros Hnone Hinval Hsome Hok. unfold at_send_resp. apply wps_bind, wps_at_send.
  intros err out [Hr Hreq]. apply wps_bind. destruct out as [r|].
  - apply wps_bind, wps_malloc, wps_set_resp, wps_ret. destruct Hr as [(-> & r' & [= <-] & Hro)|Herr].
    + apply Hok; [done|]. intros Hk Hs. by apply Hreq.
    + by apply Hsome.
  - destruct Hr as [(-> & r' & [=] & _)|Herr]. apply wps_when.
    + intros ->%Z.eqb_eq. by apply wps_set_resp, wps_ret.
    + intros _. by apply wps_ret, Hnone.
Qed.
End specs.
