(* ===== verification/RilSim.v ===== *)
(** * A concrete platform

    A platform made of tables - properties, files, the link of an interface,
    the processes - that logs the calls made to it, and a world with the real
    AT channel on top of it.  The examples of the development run on them. *)

From S2P Require Import Prelude CString AtTok AtReader AtChannel RilInfo RilBase RilLogic RilReader.

Open Scope Z_scope.

Record Sim := MkSim {
  sim_properties : list (string * string);
  sim_files : list (string * string);
  sim_link : option (Z * Z * Z);
  sim_processes : list (string * string);    (** pid and name *)
  sim_log : list SysCall
}.

Definition assoc (key : string) (l : list (string * string)) : option string :=
  option_map snd (List.find (λ e, String.eqb key e.1) l).

(** The values are kept shorter than the documented bound. *)
Definition sim_property (key : string) (p : Sim) : option string :=
  match assoc key (sim_properties p) with
  | Some v => if strlen v <? 20 then Some v else None
  | None => None
  end.

(** Opening a file yields descriptor 3, a write all its bytes, the rest 0. *)
Definition sim_call (c : SysCall) (p : Sim) : Z * Sim :=
  (match c with
   | SysWrite _ s => strlen s
   | SysFopenWrite _ | SysGetpt | SysOpenFifo _ => 3
   | _ => 0
   end,
   MkSim (sim_properties p) (sim_files p) (sim_link p) (sim_processes p) (sim_log p ++ [c])).

(** The first line of a status file, when there is a name. *)
Definition sim_status (name : string) : option string :=
  let line := "Name: " +:+ name in
  match second_word line with Some _ => Some line | None => None end.

#[export] Instance sim_platform : Platform Sim := {
  pl_call := sim_call;
  pl_property_get key p := (sim_property key p, p);
  pl_read_file file p := (assoc file (sim_files p), p);
  pl_ptsname _ p := ("/dev/pts/1", p);
  pl_ifc_get_info _ p := (sim_link p, p);
  pl_proc p := (Some ((λ e, (e.1, sim_status e.2)) <$> sim_processes p), p);
  pl_sleep _ p := ([], p)
}.

#[export] Program Instance sim_platform_ok : PlatformOk Sim.
Next Obligation.
  intros key p v p' E. simpl in E. unfold sim_property in E.
  destruct (assoc key (sim_properties p)) as [s|]; [|done].
  destruct (Z.ltb_spec (strlen s) 20); [|done]. inversion E; subst. unfold PROPERTY_VALUE_MAX. lia.
Qed.
Next Obligation.
  intros p es p' [= <- _]. apply Forall_fmap, Forall_true. intros [pid name].
  unfold sim_status. simpl. destruct (second_word _) eqn:E; [by rewrite E|done].
Qed.
Next Obligation. intros n p. constructor. Qed.

(** Its values fit every array of the driver. *)
Lemma sim_property_within key n : 20 ≤ n → property_within (P := Sim) key n.
Proof.
  intros Hn p p' v E. simpl in E. unfold sim_property in E.
  destruct (assoc key (sim_properties p)) as [s|]; [|done].
  destruct (Z.ltb_spec (strlen s) 20); [|done]. inversion E; subst. lia.
Qed.

#[export] Instance sim_consts : RilConsts := {
  RIL_VERSION := 1;
  sizeof_RIL_SMS_Response := 8;
  sizeof_RIL_Data_Call_Response := 20;
  sizeof_RIL_SIM_IO_Response := 12;
  sizeof_RIL_CardStatus := 276;
  PDP_FAIL_ERROR_UNSPECIFIED := 65535;
  RIL_CARD_MAX_APPS := 8;
  card_max_apps_pos := Nat.lt_0_succ 7
}.

Definition sim_empty : Sim := MkSim [] [] None [] [].

(** The context of a running session in the given radio state. *)
Definition sim_ctx (s : RIL_RadioState) : Ctx :=
  set_s_data_devname (Some "ttyUSB0") (set_sState s zero_ctx).

(** A world whose modem will say [lines], then [later] happens. *)
Definition sim_world (s : RIL_RadioState) (lines : list string) (p : Sim)
    : World ChanPort Sim :=
  fresh_world (sim_ctx s) (opened_chan [], line_events lines) p.

Lemma sim_world_wf s lines p :
  Forall (λ l, isSMSUnsolicited l = false) lines → wf (sim_world s lines p).
Proof.
  intros Hl. split.
  - split; [by split|]. unfold sim_world, line_events. simpl. by apply Forall_fmap.
  - split; [by eexists..|simpl; lia|by exists "ttyUSB0"].
Qed.
