(* ===== verification/RilUtils.v ===== *)
(** * fw100-ril-utils.c: upper case, activation, control and status files *)

From S2P Require Import Prelude CString AtTok AtReader AtChannel RilBase RilLogic RilReader.

Open Scope Z_scope.

Definition RIL_CONTROL_FILEPATH : string := "/opt/fusion/fwril-control.txt".
Definition RIL_STATUS_FILEPATH : string := "/opt/fusion/fwril-status.txt".

(** ** strToUpper *)

Fixpoint upper_loop (s : string) (len max : Z) : string :=
  match s with
  | EmptyString => EmptyString
  | String c s' => String (toupper c) (if max <? len + 1 then s' else upper_loop s' (len + 1) max)
  end.

Definition strToUpper (s : string) (max : Z) : string := upper_loop s 0 max.

(** [strToUpper(a, strlen(a))] on the string in an array. *)
Definition array_to_upper (m : string) (a : carray) : carray :=
  list_ascii_of_string (strToUpper m (strlen m)) ++ drop (String.length m) a.

(** ** The control file *)

(** What successive [fgets] with an [n]-byte buffer read; [room] is what the
    current line may still take. *)
Fixpoint fgets_all (n room : nat) (s : string) {struct s} : list string :=
  match s with
  | EmptyString => []
  | String c s' =>
      if (room <=? 1)%nat || Ascii.eqb c LF then String c "" :: fgets_all n (n - 1) s'
      else match fgets_all n (room - 1) s' with
           | l :: ls => String c l :: ls
           | [] => [String c ""]
           end
  end.

Definition fgets_lines (n : nat) (s : string) : list string := fgets_all n (n - 1) s.

(** The value of a yes/no preference: 0, 1, or 2 when both spellings occur. *)
Definition yes_no (buf : string) : Z :=
  (if strstr buf "Yes" then 1 else 0) + (if strstr buf "yes" then 1 else 0).

Definition control_line (buf : string) (c : Ctx) : Ctx :=
  let c := if strstr buf "DataCallIsAutomatic" then set_dataCallIsAutomatic (yes_no buf) c else c in
  if strstr buf "AutoActivate" then set_moduleAutoActivate (yes_no buf) c else c.

(** The lines of the status file. *)
Definition status_lines (s_meid s_mdn s_carrier : string) (c : Ctx) : list string :=
  let state := if moduleIsActivated c =? 0 then "No"
               else if moduleIsActivated c =? 1 then "Yes" else "Fail" in
  ["MEID=" +:+ s_meid; "MDN=" +:+ s_mdn; "Carrier=" +:+ s_carrier;
   "ModuleIsActivated=" +:+ state;
   "DataCallIsAutomatic=" +:+ (if dataCallIsAutomatic c =? 0 then "No" else "Yes")] ++
  (if inDataCall c =? 0 then ["InDataCall=No"]
   else ["InDataCall=Yes"; "LocalIP=" +:+ dataCallLocalIP c]).

Section utils.
Context {S P : Type} `{AtPort S} `{Platform P}.
Abbreviation M := (M S P).

Definition rilReadControl (file : string) : M Z :=
  f ← lift (pl_read_file file);
  match f with
  | None => mret (-1)
  | Some content =>
      put_ctx (λ c, foldl (λ c buf, control_line buf c) c (fgets_lines 128 content));;
      mret 0
  end.

(** ** The status file *)

Definition rilWriteStatus (file : string) : M Z :=
  f ← sys (SysFopenWrite file);
  if f <? 0 then mret (-1)
  else
    c ← get_ctx;
    s_meid ← read_array (meid c);
    s_mdn ← read_array (mdn c);
    s_carrier ← read_array (carrier c);
    _ ← sys (SysWriteFile file (status_lines s_meid s_mdn s_carrier c));
    _ ← sys (SysSystem ("chmod 666 " +:+ file));
    mret 0.

(** ** Activation *)

(** [strncpy(ctx->mdn, line+6, sizeof(ctx->mdn))] *)
Definition save_mdn (x : string) : M unit :=
  r ← deref x;
  ln ← first_line x;
  p ← ptr_add (match ln_cur ln with Some s => PHeap (r_block r) s | None => PNull end) 6;
  s ← read_str p;
  put_ctx (set_mdn (strncpy s 32)).

(** [do sleep(1); while ((ctx->otaMsgCnt < 5) && (retry++ < 30))], with [n]
    retries left. *)
Fixpoint wait_ota (n : nat) : M unit :=
  sleep 1;;
  c ← get_ctx;
  if otaMsgCnt c <? 5 then
    match n with O => mret tt | Datatypes.S n' => wait_ota n' end
  else mret tt.

(** The over-the-air activation call; the result is [ret]. *)
Definition otasp_call : M Z :=
  put_ctx (set_otaMsgCnt 0);;
  _ ← at_send_resp "otasp" (KSingle "OK") "AT+CDV=*22899";
  wait_ota 30;;
  c ← get_ctx;
  msg ← read_array (otaMsg c);
  if strstr msg "MSG:8" then
    put_ctx (set_moduleIsActivated 1);;
    err ← at_send_resp "verify" (KSingle "+VMDN:") "AT+VMDN?";
    b ← failed_ne err "verify";
    if (b : bool) then mret (-2) else (save_mdn "verify";; mret 0)
  else mret (-2).

(** The number of attempts is limited. *)
Definition otasp_attempt : M Z :=
  c ← get_ctx;
  when (negb (moduleActivateRetry c =? 0))
    (put_ctx (set_moduleActivateRetry (int32 (moduleActivateRetry c - 1))));;
  c ← get_ctx;
  if moduleActivateRetry c =? 0 then put_ctx (set_moduleIsActivated 2);; mret (-2) else otasp_call.

(** The module has no phone number yet: look at its carrier. *)
Definition activate_carrier : M Z :=
  err ← at_send_resp "carrier" (KSingle "") "AT$QCMIPGETP=0";
  b ← failed_ne err "carrier";
  if (b : bool) then mret (-2)
  else
    ln ← first_line "carrier";
    let line := match ln_cur ln with Some s => s | None => "" end in
    if strstr line "sprint" then mret (-2)
    else if strstr line "vzw" then
      c ← get_ctx;
      if moduleAutoActivate c =? 0 then mret (-2) else otasp_attempt
    else mret (-2).

(** Up to the label [done]. *)
Definition activate_body : M Z :=
  err ← at_send_resp "meid" (KSingle "^MEID:") "AT^MEID";
  b ← failed_ne err "meid";
  if (b : bool) then mret (-1)
  else
    ln ← first_line "meid";
    p ← ptr_add (match ln_cur ln with Some s => PHeap (ln_block ln) s | None => PNull end) 6;
    s ← read_str p;
    put_ctx (set_meid (strncpy s 32));;
    c ← get_ctx;
    m ← read_array (meid c);
    put_ctx (set_meid (array_to_upper m (meid c)));;
    err ← at_send_resp "mdn" (KSingle "+VMDN:") "AT+VMDN?";
    b ← failed_ne err "mdn";
    if (b : bool) then mret (-1)
    else
      ln ← first_line "mdn";
      p ← ptr_add (match ln_cur ln with Some s => PHeap (ln_block ln) s | None => PNull end) 6;
      s ← read_str p;
      if strStartsWith s "000" then activate_carrier
      else
        (put_ctx (set_moduleIsActivated 1);;
         save_mdn "mdn";;
         mret 0).

Definition activateHelper (options : Z) : M Z :=
  frame (
    ret ← activate_body;
    at_response_free "meid";;
    at_response_free "mdn";;
    at_response_free "carrier";;
    at_response_free "otasp";;
    at_response_free "verify";;
    _ ← rilWriteStatus RIL_STATUS_FILEPATH;
    mret ret).
End utils.

(** ** Lemmas *)

Lemma upper_loop_all s len max :
  len + strlen s ≤ max → upper_loop s len max = string_of_list_ascii (toupper <$> list_ascii_of_string s).
Proof.
  unfold strlen. revert len. induction s as [|c s IH]; intros len Hl; simpl in *; [done|].
  destruct (Z.ltb_spec max (len + 1)); [lia|]. by rewrite IH by lia.
Qed.

Section specs.
Context {S P : Type} `{AtPortOk S} `{PlatformOk P} (t : nat).
Abbreviation wps := (wps (S := S) (P := P) t).

Lemma wps_rilWriteStatus file Q E l a : (∀ rc, Q rc l a) → wps (rilWriteStatus file) Q E l a.
Proof.
  intros HQ. unfold rilWriteStatus. apply wps_bind, wps_sys. intros f.
  destruct (f <? 0); [by apply wps_ret|]. apply wps_bind, wps_get_ctx. intros c [Hmeid Hmdn Hcar _ _].
  apply wps_bind, wps_read_array; [done|]. intros s1 _.
  apply wps_bind, wps_read_array; [done|]. intros s2 _.
  apply wps_bind, wps_read_array; [done|]. intros s3 _.
  apply wps_bind, wps_sys. intros _. apply wps_bind, wps_sys. intros _. by apply wps_ret.
Qed.
End specs.
