(* ===== verification/RilAuto.v ===== *)
(** * Symbolic execution of handlers

    The composite rules for the idioms of the handlers (send a command, check
    the result, take the first line) and the tactics that drive them. *)

From S2P Require Import Prelude CString AtTok AtReader AtChannel RilBase RilLogic RilReader RilUtils.

Open Scope Z_scope.

(** ** Blocks *)

Lemma is_live_here b L : is_live b (b :: L) = true.
Proof. unfold is_live. simpl. by rewrite Nat.eqb_refl. Qed.

Lemma is_live_there b x L : is_live b L = true → is_live b (x :: L) = true.
Proof. unfold is_live. simpl. intros ->. by rewrite orb_true_r. Qed.

Lemma del_here b L : del b (b :: L) = Some L.
Proof. simpl. by rewrite Nat.eqb_refl. Qed.

Lemma del_there b x L L' : b ≠ x → del b L = Some L' → del b (x :: L) = Some (x :: L').
Proof. intros Hn Hd. simpl. apply Nat.eqb_neq in Hn. by rewrite Hn, Hd. Qed.

#[export] Hint Resolve is_live_here is_live_there : fw.

Lemma resolve_heap b s L : is_live b L = true → resolve L (PHeap b s) = inl (Some s).
Proof. simpl. by intros ->. Qed.

Lemma AT_errors_negative err : err ∈ AT_errors → err < 0.
Proof. unfold AT_errors. intros Hin. cases_in Hin; subst err; done. Qed.

(** Solves the side conditions on blocks. *)
Ltac live := eauto 8 with fw.
Ltac del_block := first [apply del_here | apply del_there; [lia|del_block]].
Ltac resolve_ptrs :=
  unfold resolve_payload, resolve_all; repeat (rewrite resolve_heap by live); reflexivity.

Section auto.
Context {S P : Type} `{AtPortOk S} `{PlatformOk P} (t0 : nat).
Abbreviation M := (M S P).
Abbreviation wps := (wps (S := S) (P := P) t0).

(** What a successful query leaves: a response with a first line. *)
Lemma wps_query_ne {A} x k cmd (f : Line → M A) Q E l L n c :
  kind_requires k = true →
  E l (MkAbs L n c) →
  E (MkLocals (upd (lv_resp l) x None) (lv_ptr l)) (MkAbs L n c) →
  (∀ r, E (MkLocals (upd (lv_resp l) x (Some (MkResp n r))) (lv_ptr l))
          (MkAbs (n :: L) (Datatypes.S n) c)) →
  (∀ r s, (kind_type k = SINGLELINE → prefixed (kind_prefix k) s) →
     wps (f (MkLine n (Some s))) Q E (MkLocals (upd (lv_resp l) x (Some (MkResp n r))) (lv_ptr l))
       (MkAbs (n :: L) (Datatypes.S n) c)) →
  wps (err ← at_send_resp x k cmd; check_ne err x;; line ← first_line x; f line) Q E l (MkAbs L n c).
Proof.
  intros Hk Hnone Hinv Hsome Hok. apply wps_bind, wps_at_send_resp.
  - intros err Herr%AT_errors_negative. apply wps_bind, wps_check_ne; [done|lia].
  - apply wps_bind, wps_check_ne; [done|done].
  - intros err r Herr%AT_errors_negative. apply wps_bind, wps_check_ne; [done|lia].
  - intros r [_ Hs Hi] Hreq. apply wps_bind, wps_check_ne; [done|]. intros _.
    eexists. split_and!; [simpl; unfold upd; by rewrite String.eqb_refl|apply is_live_here|done|].
    simpl. intros Hne. destruct (p_intermediates r) as [|s ss] eqn:Ei.
    { destruct Hs as [|Hs]; [done|]. by destruct (Hreq Hk Hs). }
    apply wps_bind. eapply wps_first_line; [simpl; unfold upd; by rewrite String.eqb_refl|apply is_live_here|exact Ei|].
    apply Hok. intros Ht. rewrite Ht in Hi. destruct Hi as [_ Hi]. by inversion Hi.
Qed.

Lemma wps_query_lt {A} x k cmd (f : Line → M A) Q E l L n c :
  kind_requires k = true →
  E l (MkAbs L n c) →
  E (MkLocals (upd (lv_resp l) x None) (lv_ptr l)) (MkAbs L n c) →
  (∀ r, E (MkLocals (upd (lv_resp l) x (Some (MkResp n r))) (lv_ptr l))
          (MkAbs (n :: L) (Datatypes.S n) c)) →
  (∀ r s, (kind_type k = SINGLELINE → prefixed (kind_prefix k) s) →
     wps (f (MkLine n (Some s))) Q E (MkLocals (upd (lv_resp l) x (Some (MkResp n r))) (lv_ptr l))
       (MkAbs (n :: L) (Datatypes.S n) c)) →
  wps (err ← at_send_resp x k cmd; check_lt err x;; line ← first_line x; f line) Q E l (MkAbs L n c).
Proof.
  intros Hk Hnone Hinv Hsome Hok. apply wps_bind, wps_at_send_resp.
  - intros err Herr%AT_errors_negative. apply wps_bind, wps_check_lt; [done|lia].
  - apply wps_bind, wps_check_lt; [done|done].
  - intros err r Herr%AT_errors_negative. apply wps_bind, wps_check_lt; [done|lia].
  - intros r [_ Hs Hi] Hreq. apply wps_bind, wps_check_lt; [done|]. intros _.
    eexists. split_and!; [simpl; unfold upd; by rewrite String.eqb_refl|apply is_live_here|done|].
    simpl. intros Hne. destruct (p_intermediates r) as [|s ss] eqn:Ei.
    { destruct Hs as [|Hs]; [done|]. by destruct (Hreq Hk Hs). }
    apply wps_bind. eapply wps_first_line; [simpl; unfold upd; by rewrite String.eqb_refl|apply is_live_here|exact Ei|].
    apply Hok. intros Ht. rewrite Ht in Hi. destruct Hi as [_ Hi]. by inversion Hi.
Qed.

(** The same without looking at the intermediate lines. *)
Lemma wps_send_ne {A} x k cmd (m : M A) Q E l L n c :
  E l (MkAbs L n c) →
  E (MkLocals (upd (lv_resp l) x None) (lv_ptr l)) (MkAbs L n c) →
  (∀ r, E (MkLocals (upd (lv_resp l) x (Some (MkResp n r))) (lv_ptr l))
          (MkAbs (n :: L) (Datatypes.S n) c)) →
  (∀ r, wps m Q E (MkLocals (upd (lv_resp l) x (Some (MkResp n r))) (lv_ptr l))
          (MkAbs (n :: L) (Datatypes.S n) c)) →
  wps (err ← at_send_resp x k cmd; check_ne err x;; m) Q E l (MkAbs L n c).
Proof.
  intros Hnone Hinv Hsome Hok. apply wps_bind, wps_at_send_resp.
  - intros err Herr%AT_errors_negative. apply wps_bind, wps_check_ne; [done|lia].
  - apply wps_bind, wps_check_ne; [done|done].
  - intros err r Herr%AT_errors_negative. apply wps_bind, wps_check_ne; [done|lia].
  - intros r _ _. apply wps_bind, wps_check_ne; [done|]. intros _.
    eexists. split_and!; [simpl; unfold upd; by rewrite String.eqb_refl|apply is_live_here|done|].
    intros _. apply Hok.
Qed.

Lemma wps_send_lt {A} x k cmd (m : M A) Q E l L n c :
  E l (MkAbs L n c) →
  E (MkLocals (upd (lv_resp l) x None) (lv_ptr l)) (MkAbs L n c) →
  (∀ r, E (MkLocals (upd (lv_resp l) x (Some (MkResp n r))) (lv_ptr l))
          (MkAbs (n :: L) (Datatypes.S n) c)) →
  (∀ r, wps m Q E (MkLocals (upd (lv_resp l) x (Some (MkResp n r))) (lv_ptr l))
          (MkAbs (n :: L) (Datatypes.S n) c)) →
  wps (err ← at_send_resp x k cmd; check_lt err x;; m) Q E l (MkAbs L n c).
Proof.
  intros Hnone Hinv Hsome Hok. apply wps_bind, wps_at_send_resp.
  - intros err Herr%AT_errors_negative. apply wps_bind, wps_check_lt; [done|lia].
  - apply wps_bind, wps_check_lt; [done|done].
  - intros err r Herr%AT_errors_negative. apply wps_bind, wps_check_lt; [done|lia].
  - intros r _ _. apply wps_bind, wps_check_lt; [done|]. intros _.
    eexists. split_and!; [simpl; unfold upd; by rewrite String.eqb_refl|apply is_live_here|done|].
    intros _. apply Hok.
Qed.

(** The check as a boolean, with the first line when it passes. *)
Lemma wps_send_failed_lt {A} x k cmd (f : bool → M A) Q E l L n c :
  wps (f true) Q E l (MkAbs L n c) →
  wps (f true) Q E (MkLocals (upd (lv_resp l) x None) (lv_ptr l)) (MkAbs L n c) →
  (∀ r, wps (f true) Q E (MkLocals (upd (lv_resp l) x (Some (MkResp n r))) (lv_ptr l))
          (MkAbs (n :: L) (Datatypes.S n) c)) →
  (∀ r, (kind_requires k = true → p_intermediates r ≠ []) →
     wps (f false) Q E (MkLocals (upd (lv_resp l) x (Some (MkResp n r))) (lv_ptr l))
          (MkAbs (n :: L) (Datatypes.S n) c)) →
  wps (err ← at_send_resp x k cmd; b ← failed_lt err x; f b) Q E l (MkAbs L n c).
Proof.
  intros Hnone Hinv Hsome Hok. apply wps_bind, wps_at_send_resp.
  - intros err Herr%AT_errors_negative. apply wps_bind, wps_failed_lt; [done|lia].
  - apply wps_bind, wps_failed_lt; [done|done].
  - intros err r Herr%AT_errors_negative. apply wps_bind, wps_failed_lt; [done|lia].
  - intros r [_ Hs _] Hreq. apply wps_bind, wps_failed_lt; [done|]. intros _.
    eexists. split_and!; [simpl; unfold upd; by rewrite String.eqb_refl|apply is_live_here|].
    simpl. destruct Hs as [Hs|Hs]; rewrite Hs; simpl; [apply Hsome|]. apply Hok. auto.
Qed.

Lemma wps_send_failed_ne {A} x k cmd (f : bool → M A) Q E l L n c :
  wps (f true) Q E l (MkAbs L n c) →
  wps (f true) Q E (MkLocals (upd (lv_resp l) x None) (lv_ptr l)) (MkAbs L n c) →
  (∀ r, wps (f true) Q E (MkLocals (upd (lv_resp l) x (Some (MkResp n r))) (lv_ptr l))
          (MkAbs (n :: L) (Datatypes.S n) c)) →
  (∀ r, (kind_requires k = true → p_intermediates r ≠ []) →
     wps (f false) Q E (MkLocals (upd (lv_resp l) x (Some (MkResp n r))) (lv_ptr l))
          (MkAbs (n :: L) (Datatypes.S n) c)) →
  wps (err ← at_send_resp x k cmd; b ← failed_ne err x; f b) Q E l (MkAbs L n c).
Proof.
  intros Hnone Hinv Hsome Hok. apply wps_bind, wps_at_send_resp.
  - intros err Herr%AT_errors_negative. apply wps_bind, wps_failed_ne; [done|lia].
  - apply wps_bind, wps_failed_ne; [done|done].
  - intros err r Herr%AT_errors_negative. apply wps_bind, wps_failed_ne; [done|lia].
  - intros r [_ Hs _] Hreq. apply wps_bind, wps_failed_ne; [done|]. intros _.
    eexists. split_and!; [simpl; unfold upd; by rewrite String.eqb_refl|apply is_live_here|].
    simpl. destruct Hs as [Hs|Hs]; rewrite Hs; simpl; [apply Hsome|]. apply Hok. auto.
Qed.

(** [free(cmd)] between the command and the check. *)
Lemma wps_send_free_failed_lt {A} x k cmd b s (f : bool → M A) L' Q E l L n c :
  b ≠ n → del b L = Some L' →
  wps (f true) Q E l (MkAbs L' n c) →
  wps (f true) Q E (MkLocals (upd (lv_resp l) x None) (lv_ptr l)) (MkAbs L' n c) →
  (∀ r v, wps (f v) Q E (MkLocals (upd (lv_resp l) x (Some (MkResp n r))) (lv_ptr l))
          (MkAbs (n :: L') (Datatypes.S n) c)) →
  wps (err ← at_send_resp x k cmd; free_ptr (PHeap b s);; b ← failed_lt err x; f b) Q E l (MkAbs L n c).
Proof.
  intros Hb Hd Hnone Hinv Hok.
  assert (Hd' : del b (n :: L) = Some (n :: L')) by by apply del_there.
  apply wps_bind, wps_at_send_resp.
  - intros err Herr%AT_errors_negative. apply wps_bind, (wps_free_ptr _ _ L'); [done|].
    apply wps_bind, wps_failed_lt; [done|lia].
  - apply wps_bind, (wps_free_ptr _ _ L'); [done|]. apply wps_bind, wps_failed_lt; [done|done].
  - intros err r Herr%AT_errors_negative. apply wps_bind, (wps_free_ptr _ _ (n :: L')); [done|].
    apply wps_bind, wps_failed_lt; [done|lia].
  - intros r _ _. apply wps_bind, (wps_free_ptr _ _ (n :: L')); [done|].
    apply wps_bind, wps_failed_lt; [done|]. intros _.
    eexists. split_and!; [simpl; unfold upd; by rewrite String.eqb_refl|apply is_live_here|done].
Qed.

Lemma wps_send_free_check_lt {A} x k cmd b s (m : M A) L' Q E l L n c :
  b ≠ n → del b L = Some L' →
  E l (MkAbs L' n c) →
  E (MkLocals (upd (lv_resp l) x None) (lv_ptr l)) (MkAbs L' n c) →
  (∀ r, E (MkLocals (upd (lv_resp l) x (Some (MkResp n r))) (lv_ptr l))
          (MkAbs (n :: L') (Datatypes.S n) c)) →
  (∀ r, wps m Q E (MkLocals (upd (lv_resp l) x (Some (MkResp n r))) (lv_ptr l))
          (MkAbs (n :: L') (Datatypes.S n) c)) →
  wps (err ← at_send_resp x k cmd; free_ptr (PHeap b s);; check_lt err x;; m) Q E l (MkAbs L n c).
Proof.
  intros Hb Hd Hnone Hinv Hsome Hok.
  assert (Hd' : del b (n :: L) = Some (n :: L')) by by apply del_there.
  apply wps_bind, wps_at_send_resp.
  - intros err Herr%AT_errors_negative. apply wps_bind, (wps_free_ptr _ _ L'); [done|].
    apply wps_bind, wps_check_lt; [done|lia].
  - apply wps_bind, (wps_free_ptr _ _ L'); [done|]. apply wps_bind, wps_check_lt; [done|done].
  - intros err r Herr%AT_errors_negative. apply wps_bind, (wps_free_ptr _ _ (n :: L')); [done|].
    apply wps_bind, wps_check_lt; [done|lia].
  - intros r _ _. apply wps_bind, (wps_free_ptr _ _ (n :: L')); [done|].
    apply wps_bind, wps_check_lt; [done|]. intros _.
    eexists. split_and!; [simpl; unfold upd; by rewrite String.eqb_refl|apply is_live_here|done..].
Qed.

Lemma wps_send_free_check_ne {A} x k cmd b s (m : M A) L' Q E l L n c :
  b ≠ n → del b L = Some L' →
  E l (MkAbs L' n c) →
  E (MkLocals (upd (lv_resp l) x None) (lv_ptr l)) (MkAbs L' n c) →
  (∀ r, E (MkLocals (upd (lv_resp l) x (Some (MkResp n r))) (lv_ptr l))
          (MkAbs (n :: L') (Datatypes.S n) c)) →
  (∀ r, wps m Q E (MkLocals (upd (lv_resp l) x (Some (MkResp n r))) (lv_ptr l))
          (MkAbs (n :: L') (Datatypes.S n) c)) →
  wps (err ← at_send_resp x k cmd; free_ptr (PHeap b s);; check_ne err x;; m) Q E l (MkAbs L n c).
Proof.
  intros Hb Hd Hnone Hinv Hsome Hok.
  assert (Hd' : del b (n :: L) = Some (n :: L')) by by apply del_there.
  apply wps_bind, wps_at_send_resp.
  - intros err Herr%AT_errors_negative. apply wps_bind, (wps_free_ptr _ _ L'); [done|].
    apply wps_bind, wps_check_ne; [done|lia].
  - apply wps_bind, (wps_free_ptr _ _ L'); [done|]. apply wps_bind, wps_check_ne; [done|done].
  - intros err r Herr%AT_errors_negative. apply wps_bind, (wps_free_ptr _ _ (n :: L')); [done|].
    apply wps_bind, wps_check_ne; [done|lia].
  - intros r _ _. apply wps_bind, (wps_free_ptr _ _ (n :: L')); [done|].
    apply wps_bind, wps_check_ne; [done|]. intros _.
    eexists. split_and!; [simpl; unfold upd; by rewrite String.eqb_refl|apply is_live_here|done..].
Qed.

(** [m] answers request [t] exactly [d] times and no other request, frees what
    it allocates, and has no undefined behaviour. *)
Definition answered (t d : nat) (m : M unit) : Prop :=
  ∀ l L n k, wps m
    (λ _ _ a', a_live a' = L ∧ a_answers a' = (k + (if Nat.eqb t t0 then d else 0))%nat)
    (λ _ _, False) l (MkAbs L n k).

Lemma answered_frame t d m :
  (∀ L n k, wps m
     (λ _ _ a', a_live a' = L ∧ a_answers a' = (k + (if Nat.eqb t t0 then d else 0))%nat)
     (λ _ _, False) no_locals (MkAbs L n k)) →
  answered t d (frame m).
Proof. intros Hm l L n k. apply wps_frame, Hm. Qed.
End auto.

(** ** Tactics *)

(** Reads a local variable. *)
Ltac local_var := cbv [lv_resp lv_ptr upd no_locals r_block String.eqb Ascii.eqb Bool.eqb].

(** The rules for the functions of later files, extended there. *)
Ltac wstep_call := fail.

(** One rule of the logic, by the shape of the computation. *)
Ltac wstep :=
  lazymatch goal with
  | |- wps _ (mret _) _ _ _ _ => apply wps_ret
  | |- wps _ (on_error _ _) _ _ _ _ => apply wps_on_error
  | |- wps _ (frame _) _ _ _ _ => apply wps_frame
  | |- wps _ goto_error _ _ _ _ => apply wps_goto
  | |- wps _ (asprintf _) _ _ _ _ => apply wps_asprintf
  | |- wps _ (at_response_free _) _ _ _ _ =>
      eapply wps_free_resp; [local_var; first [reflexivity|del_block]|]
  | |- wps _ (free_ptr _) _ _ _ _ => eapply wps_free_ptr; [local_var; first [reflexivity|del_block]|]
  | |- wps _ (RIL_onRequestComplete _ _ _ _) _ _ _ _ => eapply wps_complete; [resolve_ptrs|]
  | |- wps _ (RIL_onUnsolicitedResponse _ _ _) _ _ _ _ => eapply wps_unsol; [resolve_ptrs|]
  | |- wps _ (line_start _) _ _ _ _ => apply wps_line_start; [live|intros ? ?|intros _]
  | |- wps _ (line_int _) _ _ _ _ => apply wps_line_int; [live|intros ? ? ?|intros _]
  | |- wps _ (line_hexint _) _ _ _ _ => apply wps_line_hexint; [live|intros ? ? ?|intros _]
  | |- wps _ (line_bool _) _ _ _ _ => apply wps_line_bool; [live|intros ? ? ?|intros _]
  | |- wps _ (line_str _) _ _ _ _ => apply wps_line_str; [live|intros ? ? ?|intros _]
  | |- wps _ (skip_ints _ _) _ _ _ _ => apply wps_skip_ints; [live|intros ?|]
  | |- wps _ (skip_strs _ _) _ _ _ _ => apply wps_skip_strs; [live|intros ?|]
  | |- wps _ (read_str _) _ _ _ _ =>
      eapply wps_read_str; [first [apply resolve_heap; live|reflexivity]|]
  | |- wps _ (sys _) _ _ _ _ => apply wps_sys; intros ?
  | |- wps _ (at_command _) _ _ _ _ => apply wps_at_command; intros ? ?
  | |- wps _ (rilWriteStatus _) _ _ _ _ => apply wps_rilWriteStatus; intros ?
  | |- wps _ get_ctx _ _ _ _ => apply wps_get_ctx; intros ? ?
  | |- wps _ (put_ctx _) _ _ _ _ => apply wps_put_ctx; [try (intros ? []; by split)|]
  | |- wps _ (update (with_signal _)) _ _ _ _ => apply wps_signal
  | |- wps _ (update (with_polls _ _)) _ _ _ _ => apply wps_polls
  | |- wps _ (set_ptr _ _) _ _ _ _ => apply wps_set_ptr
  | |- wps _ (get_ptr _) _ _ _ _ => apply wps_get_ptr
  | |- wps _ (sleep _) _ _ _ _ => apply wps_sleep
  | |- wps _ (err ← at_send_resp _ _ _; check_ne err _;; line ← first_line _; _) _ _ _ _ =>
      apply wps_query_ne; [reflexivity| | |intros ?|intros ? ? ?]
  | |- wps _ (err ← at_send_resp _ _ _; check_lt err _;; line ← first_line _; _) _ _ _ _ =>
      apply wps_query_lt; [reflexivity| | |intros ?|intros ? ? ?]
  | |- wps _ (err ← at_send_resp _ _ _; free_ptr (PHeap _ _);; b ← failed_lt err _; _) _ _ _ _ =>
      eapply wps_send_free_failed_lt; [lia|del_block| | |intros ? ?]
  | |- wps _ (err ← at_send_resp _ _ _; free_ptr (PHeap _ _);; check_ne err _;; _) _ _ _ _ =>
      eapply wps_send_free_check_ne; [lia|del_block| | |intros ?|intros ?]
  | |- wps _ (err ← at_send_resp _ _ _; free_ptr (PHeap _ _);; check_lt err _;; _) _ _ _ _ =>
      eapply wps_send_free_check_lt; [lia|del_block| | |intros ?|intros ?]
  | |- wps _ (err ← at_send_resp _ _ _; check_ne err _;; _) _ _ _ _ =>
      apply wps_send_ne; [| |intros ?|intros ?]
  | |- wps _ (err ← at_send_resp _ _ _; check_lt err _;; _) _ _ _ _ =>
      apply wps_send_lt; [| |intros ?|intros ?]
  | |- wps _ (err ← at_send_resp _ _ _; b ← failed_lt err _; _) _ _ _ _ =>
      apply wps_send_failed_lt; [| |intros ?|intros ? ?]
  | |- wps _ (err ← at_send_resp _ _ _; b ← failed_ne err _; _) _ _ _ _ =>
      apply wps_send_failed_ne; [| |intros ?|intros ? ?]
  | |- wps _ (_ ≫= _) _ _ _ _ => apply wps_bind
  | |- _ => wstep_call
  end; cbv beta iota zeta.

Ltac wauto := repeat wstep.

(** The end of a path: the memory is as before, the answers are counted. *)
Ltac wdone :=
  cbn [a_live a_answers]; split; [reflexivity|];
  repeat match goal with |- context [Nat.eqb ?x ?y] => destruct (Nat.eqb x y) end; lia.
