(* ===== verification/RilRqst.v ===== *)
(** * fw100-ril-rqst.c: the handlers of requests about the modem and network

    One definition per function, in the order of the file.  Local variables
    that hold responses keep their names; what a handler assigns to its answer
    is the payload of [RIL_onRequestComplete]. *)

From S2P Require Import Prelude CString AtTok AtReader AtChannel RilInfo RilBase RilLogic RilReader RilUtils RilAuto.

Open Scope Z_scope.

(** ** Tables and constants *)

(** [operator_info]: code, long name, short name. *)
Definition operator_info : list (string * (string * string)) :=
  [("310000", ("Verizon Wireless", "VZW")); ("310004", ("Verizon Wireless", "VZW"));
   ("310005", ("Verizon Wireless", "VZW")); ("310012", ("Verizon Wireless", "VZW"))].

Definition find_operator (mccmnc : string) : option (string * string) :=
  option_map snd (List.find (λ o, String.eqb mccmnc o.1) operator_info).

Definition REGISTRATION_EVDO_REV_A : string := "8".
Definition REGISTRATION_CDMA_1XTT : string := "6".
Definition REGISTRATION_NETWORK_UNKNOWN : string := "0".
Definition DEFAULT_ROAMING_INDICATOR : string := "1".
Definition REGISTRATION_DEFAULT_VALUE : string := "0".
Definition REGISTRATION_DEFAULT_PRL_VALUE : string := "1".

Definition NETWORK_MODE_HYBRID : Z := 4.
Definition NETWORK_MODE_CDMA_NO_EVDO : Z := 5.
Definition NETWORK_MODE_EVDO_NO_CDMA : Z := 6.

Definition SIGNAL_STRENGTH_DEFAULT : Z := 0.
Definition EVDO_ECIO_DEFAULT : Z := 750.
Definition EVDO_SNR_DEFAULT : Z := 8.
Definition CDMA_ECIO_DEFAULT : Z := 90.

Definition SCREEN_IS_OFF : Z := 0.
Definition SCREEN_IS_ON : Z := 1.

(** ** Pure parts *)

(** Trim the leading 0x. *)
Definition trim_0x (s : string) : string :=
  match s with
  | String "0" (String "x" s') => s'
  | _ => s
  end%char.

(** [strncat(dst, src, n)] in an array of [size] bytes. *)
Definition strncat (size : Z) (dst src : string) (n : nat) : option string :=
  let s := dst +:+ str_take n src in
  if strlen s <? size then Some s else None.

(** What [requestGetPreferredNetworkType] answers for a mode of the modem. *)
Definition network_mode (mode : Z) : Z :=
  if mode =? 2 then NETWORK_MODE_CDMA_NO_EVDO
  else if mode =? 4 then NETWORK_MODE_EVDO_NO_CDMA
  else if mode =? 8 then NETWORK_MODE_HYBRID
  else 0.

(** The mode [requestSetPreferredNetworkType] sends; [None]: the error exit. *)
Definition modem_mode (mode : Z) : option Z :=
  if mode =? NETWORK_MODE_CDMA_NO_EVDO then Some 2
  else if mode =? NETWORK_MODE_EVDO_NO_CDMA then Some 4
  else if mode =? NETWORK_MODE_HYBRID then Some 8
  else None.

(** The signal strength in dBm for a value of ^HDRCSQ. *)
Definition hdr_dbm (hdr : Z) : Z :=
  if (hdr =? 0) || (hdr =? 20) then 105
  else if hdr =? 40 then 90
  else if hdr =? 60 then 75
  else if (hdr =? 80) || (hdr =? 99) then 60
  else 105.

(** [response.radio_technology] for a protocol of ^SYSINFO, before the request
    overrides it. *)
Definition radio_technology (protocolrev : Z) : string :=
  if (protocolrev =? 8) || (protocolrev =? 4) then REGISTRATION_EVDO_REV_A
  else if protocolrev =? 2 then REGISTRATION_CDMA_1XTT
  else REGISTRATION_NETWORK_UNKNOWN.

(** ** Calls *)

Definition clccStateToRILState (state : Z) : option RIL_CallState :=
  if state =? 0 then Some RIL_CALL_ACTIVE
  else if state =? 1 then Some RIL_CALL_HOLDING
  else if state =? 2 then Some RIL_CALL_DIALING
  else if state =? 3 then Some RIL_CALL_ALERTING
  else if state =? 4 then Some RIL_CALL_INCOMING
  else if state =? 5 then Some RIL_CALL_WAITING
  else None.

Definition zero_call : RIL_Call Ptr := MkCall RIL_CALL_ACTIVE 0 0 0 0 0 PNull.

Definition set_call_state v (p : RIL_Call Ptr) :=
  MkCall v (call_index p) (call_toa p) (call_isMpty p) (call_isMT p) (call_isVoice p) (call_number p).
Definition set_call_index v (p : RIL_Call Ptr) :=
  MkCall (call_state p) v (call_toa p) (call_isMpty p) (call_isMT p) (call_isVoice p) (call_number p).
Definition set_call_toa v (p : RIL_Call Ptr) :=
  MkCall (call_state p) (call_index p) v (call_isMpty p) (call_isMT p) (call_isVoice p) (call_number p).
Definition set_call_isMpty v (p : RIL_Call Ptr) :=
  MkCall (call_state p) (call_index p) (call_toa p) v (call_isMT p) (call_isVoice p) (call_number p).
Definition set_call_isMT v (p : RIL_Call Ptr) :=
  MkCall (call_state p) (call_index p) (call_toa p) (call_isMpty p) v (call_isVoice p) (call_number p).
Definition set_call_isVoice v (p : RIL_Call Ptr) :=
  MkCall (call_state p) (call_index p) (call_toa p) (call_isMpty p) (call_isMT p) v (call_number p).
Definition set_call_number (v : Ptr) (p : RIL_Call Ptr) : RIL_Call Ptr :=
  MkCall (call_state p) (call_index p) (call_toa p) (call_isMpty p) (call_isMT p) (call_isVoice p) v.

(** [0 == strspn(s, "+*#0123456789")] *)
Definition no_dial_char (s : string) : bool :=
  match s with
  | EmptyString => true
  | String c _ =>
      negb (existsb (Ascii.eqb c) (list_ascii_of_string "+*#0123456789"))
  end.

(** The number the call is reported with. *)
Definition clean_number (b : nat) (number : string) : Ptr :=
  if no_dial_char number
     && negb (String.eqb number "Restricted") && negb (String.eqb number "NotAvailable")
     && negb (String.eqb number "UNKNOWN")
  then PNull else PHeap b number.

(** The fields after the mode; [p_call->isVoice] is set. *)
Definition clcc_tail (b : nat) (line : cursor) (p : RIL_Call Ptr) : Z * RIL_Call Ptr :=
  match at_tok_nextbool line with
  | (err, o, line) =>
      let p := match o with Some v => set_call_isMpty v p | None => p end in
      if err <? 0 then (-1, p)
      else if at_tok_hasmore line then
        match at_tok_nextstr line with
        | (err, Some number, line) =>
            let p := set_call_number
                       (match number with Some s => clean_number b s | None => PNull end) p in
            if err <? 0 then (0, p)
            else
              match at_tok_nextint line with
              | (err, o, _) =>
                  let p := match o with Some v => set_call_toa v p | None => p end in
                  if err <? 0 then (-1, p) else (0, p)
              end
        | (_, None, _) => (0, p)
        end
      else (0, p)
  end.

(** [p] is the structure as it is filled in, also when the line turns out to
    be invalid (result -1); the strings point into block [b]. *)
Definition callFromCLCCLine (b : nat) (line : string) (p : RIL_Call Ptr) : Z * RIL_Call Ptr :=
  let '(err, line) := at_tok_start (Some line) in
  if err <? 0 then (-1, p)
  else
    let '(err, o, line) := at_tok_nextint line in
    let p := match o with Some v => set_call_index v p | None => p end in
    if err <? 0 then (-1, p)
    else
      let '(err, o, line) := at_tok_nextbool line in
      let p := match o with Some v => set_call_isMT v p | None => p end in
      if err <? 0 then (-1, p)
      else
        let '(err, o, line) := at_tok_nextint line in
        if err <? 0 then (-1, p)
        else
          match clccStateToRILState (match o with Some v => v | None => 0 end) with
          | None => (-1, p)
          | Some state =>
              let p := set_call_state state p in
              let '(err, o, line) := at_tok_nextint line in
              if err <? 0 then (-1, p)
              else
                let mode := match o with Some v => v | None => 0 end in
                let p := set_call_isVoice (if mode =? 0 then 1 else 0) p in
                if negb (mode =? 0) then (-1, p)
                else clcc_tail b line p
          end.

(** The loop over the intermediate lines: [calls] is the array [p_calls],
    [valid] is [countValidCalls]. *)
Fixpoint clcc_loop (b : nat) (lines : list string) (calls : list (RIL_Call Ptr)) (valid : nat)
    : list (RIL_Call Ptr) * nat :=
  match lines with
  | [] => (calls, valid)
  | line :: lines' =>
      let '(err, p) := callFromCLCCLine b line (default zero_call (calls !! valid)) in
      let calls := <[valid := p]> calls in
      if negb (err =? 0) then clcc_loop b lines' calls valid
      else
        (* p_calls->index = countValidCalls+1 *)
        let calls := alter (set_call_index (Z.of_nat valid + 1)) 0%nat calls in
        clcc_loop b lines' calls (Datatypes.S valid)
  end.

(** ** The handlers *)

Section rqst.
Context {S P : Type} `{AtPort S} `{Platform P} `{RilConsts}.
Abbreviation M := (M S P).

(** 0 and not 1 on success: the state read is thrown away. *)
Definition isRadioOn : M Z :=
  frame (on_error
    (err ← at_send_resp "p_response" (KSingle "+VPON:") "AT+VPON?";
     check_lt err "p_response";;
     line ← first_line "p_response";
     line ← line_start line;
     '(display_en, line) ← line_bool line;
     '(ps_en, line) ← line_bool line;
     at_response_free "p_response";;
     mret 0)
    (at_response_free "p_response";;
     mret (-1))).

(** The token of a response line that has a six- or seven-byte prefix. *)
Definition version_field (x : string) (k : AtKind) (cmd : string) (skip : nat) : M Ptr :=
  err ← at_send_resp x k cmd;
  check_ne err x;;
  line ← first_line x;
  '(pc, _) ← line_str line;
  ptr_add pc skip.

(** The three responses are never freed. *)
Definition requestBasebandVersion (t : nat) : M unit :=
  frame (on_error
    (pmodel ← version_field "p_response" (KSingle "+CGMM:") "AT+CGMM" 6;
     psw ← version_field "p_response" (KSingle "+GMR:") "AT+GMR" 6;
     phw ← version_field "p_response" (KSingle "^HWVER:") "AT^HWVER" 7;
     model ← read_str pmodel;
     sw ← read_str psw;
     hw ← read_str phw;
     let version := str_take 95 (model +:+ " sw:" +:+ sw +:+ " hw:" +:+ hw) in
     RIL_onRequestComplete t RIL_E_SUCCESS (PayStr (PStatic version)) sizeof_ptr)
    (RIL_onRequestComplete t RIL_E_GENERIC_FAILURE PayNull 0)).

(** A string of a response, less its leading 0x, in upper case. *)
Definition upper_id (p : Ptr) : M Ptr :=
  s ← read_str p;
  let s := trim_0x s in
  let s := strToUpper s (strlen s) in
  mret (match p with PHeap b _ => PHeap b s | _ => PStatic s end).

Definition requestGetIMEI (t : nat) : M unit :=
  frame (on_error
    (err ← at_send_resp "p_response" (KSingle "+VGMUID:") "AT+VGMUID?";
     check_ne err "p_response";;
     line ← first_line "p_response";
     line ← line_start line;
     line ← skip_strs 6 line;
     '(responseStr, _) ← line_str line;
     responseStr ← upper_id responseStr;
     RIL_onRequestComplete t RIL_E_SUCCESS (PayStr responseStr) sizeof_ptr;;
     at_response_free "p_response")
    (RIL_onRequestComplete t RIL_E_GENERIC_FAILURE PayNull 0;;
     at_response_free "p_response")).

(** From label [done] on: the carrier is saved, the responses are freed. *)
Definition network_done (response : list Ptr) : M (option (list Ptr)) :=
  short ← match response !! 1%nat with Some p => read_str p | None => undef OutOfBounds end;
  put_ctx (set_carrier (strncpy short 16));;
  at_response_free "p_response";;
  at_response_free "p_response2";;
  _ ← rilWriteStatus RIL_STATUS_FILEPATH;
  mret (Some response).

(** The entries of [response], or [None] for -1.  [mccmnc] is a local array,
    so the pointer to it stored in [response[2]] dangles once the function
    has returned. *)
Definition getNetworkInfo : M (option (list Ptr)) :=
  frame (on_error
    (err ← at_send_resp "p_response" (KSingle "+VMCCMNC:") "AT+VMCCMNC?";
     check_ne err "p_response";;
     line ← first_line "p_response";
     line ← line_start line;
     '(skip, line) ← line_int line;
     '(mcctoken, line) ← line_str line;
     mcc ← read_str mcctoken;
     (* the result of the last at_tok_nextstr is not checked *)
     mnc ← match tok_str (ln_cur line) with Some (s, _) => mret s | None => undef UninitRead end;
     mccmnc ← sprintf 32 (mcc +:+ mnc);
     match find_operator mccmnc with
     | Some (long, short) => network_done [PStatic long; PStatic short; PDangling]
     | None =>
         err ← at_send_resp "p_response2" (KSingle "") "AT$QCMIPGETP=0";
         check_ne err "p_response2";;
         line ← first_line "p_response2";
         let line := match ln_cur line with Some s => s | None => "" end in
         network_done
           (PStatic <$> (if strstr line "sprint" then ["Sprint PCS"; "SPCS"; "310120"]
                         else if strstr line "vzw" then ["Verizon Wireless"; "VZW"; "310004"]
                         else ["Unknown Operator"; "UNK"; "000000"]))
     end)
    (at_response_free "p_response";;
     at_response_free "p_response2";;
     mret None)).

(** [err = getNetworkInfo(response); if (err) goto error;] *)
Definition network_or_error : M (list Ptr) :=
  r ← getNetworkInfo;
  match r with Some response => mret response | None => goto_error end.

Definition requestGetIMSI (t : nat) : M unit :=
  frame (on_error
    (network ← network_or_error;
     err ← at_send_resp "p_response" (KSingle "^MEID:") "AT^MEID";
     check_ne err "p_response";;
     line ← first_line "p_response";
     line ← line_start line;
     '(meid, _) ← line_str line;
     meid ← upper_id meid;
     s_meid ← read_str meid;
     s_network ← read_str (default PNull (network !! 2%nat));
     responseStr ← read_array (strncpy s_network 64);
     responseStr ← match strncat 64 responseStr s_meid 64 with
                   | Some s => mret s | None => undef OutOfBounds end;
     RIL_onRequestComplete t RIL_E_SUCCESS (PayStr (PStatic responseStr)) sizeof_ptr;;
     at_response_free "p_response")
    (RIL_onRequestComplete t RIL_E_GENERIC_FAILURE PayNull 0;;
     at_response_free "p_response")).

Definition requestDeviceIdentity (t : nat) : M unit :=
  frame (on_error
    (err ← at_send_resp "p_gsn" (KSingle "+GSN:") "AT+GSN";
     check_ne err "p_gsn";;
     line ← first_line "p_gsn";
     line ← line_start line;
     '(gsn, _) ← line_str line;
     err ← at_send_resp "p_meid" (KSingle "^MEID:") "AT^MEID";
     check_ne err "p_meid";;
     line ← first_line "p_meid";
     line ← line_start line;
     '(meid, _) ← line_str line;
     meid ← upper_id meid;
     RIL_onRequestComplete t RIL_E_SUCCESS (PayStrs [PNull; PNull; gsn; meid]) (4 * sizeof_ptr);;
     at_response_free "p_gsn";;
     at_response_free "p_meid")
    (RIL_onRequestComplete t RIL_E_GENERIC_FAILURE PayNull 0;;
     at_response_free "p_gsn";;
     at_response_free "p_meid")).

Definition requestOperator (t : nat) : M unit :=
  frame (on_error
    (response ← network_or_error;
     display_optname ← property_get "ro.telephony.display_optname" "0" 20;
     RIL_onRequestComplete t RIL_E_SUCCESS (PayStrs response) (3 * sizeof_ptr))
    (RIL_onRequestComplete t RIL_E_GENERIC_FAILURE PayNull 0)).

Definition requestQueryAvailableNetworks (t : nat) : M unit :=
  frame (on_error
    (response ← network_or_error;
     RIL_onRequestComplete t RIL_E_SUCCESS (PayStrs (response ++ [PStatic "available"])) (4 * sizeof_ptr))
    (RIL_onRequestComplete t RIL_E_GENERIC_FAILURE PayNull 0)).

(** [x]: send, check, and position on the first field. *)
Definition ask (x : string) (k : AtKind) (cmd : string) : M Line :=
  err ← at_send_resp x k cmd;
  check_ne err x;;
  line ← first_line x;
  line_start line.

Definition free_all (xs : list string) : M unit :=
  foldr (λ x m, at_response_free x;; m) (mret tt) xs.

Definition registration_vars : list string :=
  ["p_response_status"; "p_response_protocolrev"; "p_response_sidnid"; "p_response_roaming"].

(** What the framework gets, an array of strings in C's eyes. *)
Record RIL_Registration_response := MkRegistrationResponse {
  register_state : Ptr;
  lac : Ptr;
  cid : Ptr;
  radio_technology_field : Ptr;
  basestation_id : Ptr;
  basestation_latitude : Ptr;
  basestation_longitude : Ptr;
  concurrent_service : Ptr;
  system_id : Ptr;
  network_id : Ptr;
  roaming_indicator : Ptr;
  prl_state : Ptr;
  prl_roaming_indicator : Ptr;
  deny_reason : Ptr;
  pri_scramble_code : Ptr
}.

Definition registration_fields (r : RIL_Registration_response) : list Ptr :=
  [register_state r; lac r; cid r; radio_technology_field r;
   basestation_id r; basestation_latitude r; basestation_longitude r; concurrent_service r;
   system_id r; network_id r; roaming_indicator r;
   prl_state r; prl_roaming_indicator r; deny_reason r; pri_scramble_code r].

(** The fields the modem is not asked for; lac, cid and the scrambling code
    stay NULL. *)
Definition registration_defaults (state technology system network roaming : Ptr) : RIL_Registration_response :=
  let default_val := PStatic REGISTRATION_DEFAULT_VALUE in
  {| register_state := state; lac := PNull; cid := PNull; radio_technology_field := technology;
     basestation_id := default_val; basestation_latitude := default_val;
     basestation_longitude := default_val; concurrent_service := default_val;
     system_id := system; network_id := network; roaming_indicator := roaming;
     prl_state := PStatic REGISTRATION_DEFAULT_PRL_VALUE;
     prl_roaming_indicator := PStatic DEFAULT_ROAMING_INDICATOR;
     deny_reason := default_val; pri_scramble_code := PNull |}.

Definition registration_done (t : nat) (response : RIL_Registration_response) : M unit :=
  RIL_onRequestComplete t RIL_E_SUCCESS (PayStrs (registration_fields response)) (15 * sizeof_ptr);;
  free_all registration_vars.

Definition registration_error (t : nat) : M unit :=
  RIL_onRequestComplete t RIL_E_GENERIC_FAILURE PayNull 0;;
  free_all registration_vars.

Definition requestRegistrationStateEVDO (request : Request) (t : nat) : M unit :=
  frame (on_error
    (line_status ← ask "p_response_status" (KSingle "+CREG:") "AT+CREG?";
     line_status ← skip_ints 3 line_status;
     '(register_state, _) ← line_str line_status;
     line_protocolrev ← ask "p_response_protocolrev" (KSingle "^SYSINFO:") "AT^SYSINFO";
     line_protocolrev ← skip_ints 2 line_protocolrev;
     '(response_roaming_indicator, line_protocolrev) ← line_int line_protocolrev;
     '(response_protocolrev, _) ← line_int line_protocolrev;
     let technology := radio_technology response_protocolrev in
     let technology :=
       if bool_decide (request = RIL_REQUEST_REGISTRATION_STATE) then "3"
       else if bool_decide (request = RIL_REQUEST_GPRS_REGISTRATION_STATE) then "3"
       else technology in
     (* toggled here, overwritten by +VROM below *)
     let roaming := if response_roaming_indicator =? 1 then "0" else "1" in
     line_sidnid ← ask "p_response_sidnid" (KSingle "+CSNID:") "AT+CSNID?";
     '(system_id, line_sidnid) ← line_str line_sidnid;
     '(network_id, _) ← line_str line_sidnid;
     line_roaming ← ask "p_response_roaming" (KSingle "+VROM:") "AT+VROM?";
     '(skip, line_roaming) ← line_int line_roaming;
     '(roaming_indicator, _) ← line_str line_roaming;
     s_roaming ← read_str roaming_indicator;
     let roaming_indicator :=
       if 12 <? atoi s_roaming then PStatic DEFAULT_ROAMING_INDICATOR else roaming_indicator in
     registration_done t
       (registration_defaults register_state (PStatic technology) system_id network_id roaming_indicator))
    (registration_error t)).

Definition requestGetPreferredNetworkType (t : nat) : M unit :=
  frame (on_error
    (err ← at_send_resp "p_response" (KSingle "PREFMODE:") "AT^PREFMODE?";
     check_lt err "p_response";;
     line ← first_line "p_response";
     line ← line_start line;
     '(mode, _) ← line_int line;
     RIL_onRequestComplete t RIL_E_SUCCESS (PayInts [network_mode mode]) sizeof_int;;
     at_response_free "p_response")
    (RIL_onRequestComplete t RIL_E_GENERIC_FAILURE PayNull 0;;
     at_response_free "p_response")).

Definition requestSetPreferredNetworkType (data : Data) (t : nat) : M unit :=
  frame (on_error
    (mode ← data_int data 0;
     match modem_mode mode with
     | None => goto_error
     | Some value =>
         cmd ← asprintf ("AT^PREFMODE=" +:+ pretty value);
         s ← read_str cmd;
         err ← at_command s;
         free_ptr cmd;;
         if negb (err =? 0) then goto_error
         else RIL_onRequestComplete t RIL_E_SUCCESS PayNull 0
     end)
    (RIL_onRequestComplete t RIL_E_GENERIC_FAILURE PayNull 0;;
     at_response_free "p_response")).

(** [err = ...; if (err < 0 || ...) { complete; goto error; }] *)
Definition check_complete (err : Z) (x : string) (t : nat) : M unit :=
  b ← failed_ne err x;
  if (b : bool)
  then (RIL_onRequestComplete t RIL_E_GENERIC_FAILURE PayNull 0;; goto_error)
  else mret tt.

(** The Ec/Io of +NETPAR, when it is reported; it is overwritten later. *)
Definition netpar_ecio : M Z :=
  err_netpar ← at_send_resp "p_response_cdma_ecio" (KSingle "+NETPAR:") "AT+NETPAR=0";
  b ← failed_ne err_netpar "p_response_cdma_ecio";
  if (b : bool) then mret CDMA_ECIO_DEFAULT
  else
    line ← first_line "p_response_cdma_ecio";
    line ← line_start line;
    line ← skip_ints 9 line;
    '(ecio, _) ← line_int line;
    mret ecio.

Definition requestSignalStrengthEVDO (t : nat) : M unit :=
  frame (on_error
    (err ← at_send_resp "p_response" (KSingle "+CSQ:") "AT+CSQ";
     check_complete err "p_response" t;;
     line ← first_line "p_response";
     line ← line_start line;
     '(csq, _) ← line_int line;
     err ← at_send_resp "p_response_hdr" (KSingle "^HDRCSQ:") "AT^HDRCSQ";
     check_complete err "p_response_hdr" t;;
     line_hdr ← first_line "p_response_hdr";
     line_hdr ← line_start line_hdr;
     '(hdr, _) ← line_int line_hdr;
     _ ← netpar_ecio;
     twice ← arith (csq * 2);
     cdma ← arith (113 - twice);
     let evdo := hdr_dbm hdr in
     update (with_signal [cdma; CDMA_ECIO_DEFAULT; evdo; EVDO_ECIO_DEFAULT; EVDO_SNR_DEFAULT]);;
     RIL_onRequestComplete t RIL_E_SUCCESS
       (PayInts [SIGNAL_STRENGTH_DEFAULT; SIGNAL_STRENGTH_DEFAULT; cdma; CDMA_ECIO_DEFAULT;
                 evdo; EVDO_ECIO_DEFAULT; EVDO_SNR_DEFAULT]) (7 * sizeof_int);;
     at_response_free "p_response")
    (RIL_onRequestComplete t RIL_E_GENERIC_FAILURE PayNull 0;;
     at_response_free "p_response")).

(** [err = at_send_command(cmd, NULL); if (err < 0) goto error;], in turn. *)
Fixpoint commands (cmds : list string) : M unit :=
  match cmds with
  | [] => mret tt
  | cmd :: cmds' => err ← at_command cmd; if err <? 0 then goto_error else commands cmds'
  end.

Definition requestScreenState (data : Data) (datalen : Z) (t : nat) : M unit :=
  frame (on_error
    (assert (sizeof_ptr <=? datalen);;
     screenState ← data_int data 0;
     (if screenState =? 1 then
        commands ["AT+ARSI=1,4"; "AT+CREG=1"; "AT+VMCCMNC=1"; "AT+VSER=1"];;
        RIL_onUnsolicitedResponse RIL_UNSOL_RESPONSE_NETWORK_STATE_CHANGED PayNull 0;;
        put_ctx (set_screenState SCREEN_IS_ON)
      else if screenState =? 0 then
        commands ["AT+ARSI=0,4"; "AT+CREG=0"; "AT+VMCCMNC=0"; "AT+VSER=0"];;
        put_ctx (set_screenState SCREEN_IS_OFF)
      else goto_error);;
     RIL_onRequestComplete t RIL_E_SUCCESS PayNull 0)
    (RIL_onRequestComplete t RIL_E_GENERIC_FAILURE PayNull 0)).

(** The last byte of the PDU becomes Ctrl-Z: [pdu[len-1] = 0x1a]. *)
Definition terminate_pdu (pdu : string) : option (string * Z) :=
  match rev (list_ascii_of_string pdu) with
  | [] => None
  | c :: r =>
      Some (string_of_list_ascii (rev (CTRL_Z :: r)), if Ascii.eqb c CTRL_Z then 0 else 1)
  end.

Definition requestSendSMSEVDO (data : Data) (t : nat) : M unit :=
  frame (on_error
    (_ ← at_command "at+cmgf=1";
     smsc ← data_str data 0;
     pdu ← data_str data 1;
     pdu ← non_null pdu;
     '(pdu, ctrlz) ← match terminate_pdu pdu with
                     | Some r => mret r | None => undef OutOfBounds end;
     let '(smsc, nulsmsc) := match smsc with Some s => (s, 0) | None => ("00", 1) end in
     _ ← sprintf 128 ("smsc=" +:+ smsc +:+ " pdu=" +:+ pdu +:+ " ctrlz=" +:+ pretty ctrlz
           +:+ " nulsmsc=" +:+ pretty nulsmsc +:+ String LF "");
     cmd1 ← asprintf ("AT^HCMGS=" +:+ smsc);
     s ← read_str cmd1;
     err ← at_send_resp "p_response" (KSms pdu "^HCMGS:") s;
     free_ptr cmd1;;
     check_ne err "p_response";;
     RIL_onRequestComplete t RIL_E_SUCCESS PaySms sizeof_RIL_SMS_Response;;
     at_response_free "p_response")
    (RIL_onRequestComplete t RIL_E_GENERIC_FAILURE PayNull 0;;
     at_response_free "p_response")).

(** On an error the response, if there is one, is not freed. *)
Definition requestGetCurrentCallsEVDO (t : nat) : M unit :=
  frame
    (err ← at_send_resp "p_response" (KMulti "+CLCC:") "AT+CLCC";
     b ← failed_ne err "p_response";
     if (b : bool) then RIL_onRequestComplete t RIL_E_GENERIC_FAILURE PayNull 0
     else
       r ← deref "p_response";
       let lines := p_intermediates (r_val r) in
       let '(calls, valid) :=
         clcc_loop (r_block r) lines (replicate (length lines) zero_call) 0 in
       RIL_onRequestComplete t RIL_E_SUCCESS (PayCalls (take valid calls))
         (Z.of_nat valid * sizeof_ptr);;
       at_response_free "p_response").
End rqst.

(** ** Specifications *)

Section specs.
Context {S P : Type} `{AtPortOk S} `{PlatformOk P} `{RilConsts} (t0 : nat).
Abbreviation wps := (wps (S := S) (P := P) t0).
Abbreviation answered := (answered (S := S) (P := P) t0).

Lemma wps_upper_id b s Q E l L n k :
  is_live b L = true → (∀ s', Q (PHeap b s') l (MkAbs L n k)) →
  wps (upper_id (PHeap b s)) Q E l (MkAbs L n k).
Proof. intros Hb HQ. unfold upper_id. wstep. wstep. by apply wps_ret. Qed.
End specs.

Ltac wstep_call ::=
  lazymatch goal with
  | |- wps _ (upper_id _) _ _ _ _ => apply wps_upper_id; [live|intros ?]
  end.

Section answers.
Context {S P : Type} `{AtPortOk S} `{PlatformOk P} `{RilConsts} (t0 : nat).
Abbreviation wps := (wps (S := S) (P := P) t0).
Abbreviation answered := (answered (S := S) (P := P) t0).

Lemma data_int_head z zs : data_int (S := S) (P := P) (DInts (z :: zs)) 0 = mret z.
Proof. done. Qed.

Lemma requestGetIMEI_answered t : answered t 1 (requestGetIMEI t).
Proof. apply answered_frame. intros L n k. wauto; wdone. Qed.

Lemma requestDeviceIdentity_answered t : answered t 1 (requestDeviceIdentity t).
Proof. apply answered_frame. intros L n k. wauto; wdone. Qed.

Lemma requestRegistrationStateEVDO_answered request t :
  answered t 1 (requestRegistrationStateEVDO request t).
Proof.
  apply answered_frame. intros L n k.
  unfold registration_done, registration_error, registration_fields, ask, free_all, registration_vars.
  cbn [foldr register_state lac cid radio_technology_field basestation_id basestation_latitude basestation_longitude
    concurrent_service system_id network_id roaming_indicator prl_state prl_roaming_indicator deny_reason
    pri_scramble_code registration_defaults].
  wauto. all: try wdone. destruct (12 <? atoi _); wauto; wdone.
Qed.

Lemma requestGetPreferredNetworkType_answered t : answered t 1 (requestGetPreferredNetworkType t).
Proof. apply answered_frame. intros L n k. wauto; wdone. Qed.

Lemma requestSetPreferredNetworkType_answered z zs t :
  answered t 1 (requestSetPreferredNetworkType (DInts (z :: zs)) t).
Proof.
  apply answered_frame. intros L n k. unfold requestSetPreferredNetworkType.
  rewrite data_int_head. wstep. wstep. wstep.
  destruct (modem_mode z) as [value|]; [|wauto; wdone].
  wauto. destruct (negb (_ =? 0)); wauto; wdone.
Qed.

Lemma wps_commands cmds Q E l L n k :
  Q tt l (MkAbs L n k) → E l (MkAbs L n k) → wps (commands cmds) Q E l (MkAbs L n k).
Proof.
  intros HQ HE. induction cmds as [|cmd cmds IH]; cbn [commands]; [by apply wps_ret|].
  wstep. wstep. destruct (_ <? 0); [by apply wps_goto|done].
Qed.

Lemma requestScreenState_answered z zs datalen t :
  sizeof_ptr ≤ datalen → answered t 1 (requestScreenState (DInts (z :: zs)) datalen t).
Proof.
  intros Hd. apply answered_frame. intros L n k. unfold requestScreenState, assert.
  rewrite (proj2 (Z.leb_le _ _) Hd), data_int_head. wstep. do 4 wstep. wstep.
  destruct (z =? 1); [|destruct (z =? 0)].
  - wstep. apply wps_commands; [|wauto; wdone]. wauto; wdone.
  - wstep. apply wps_commands; [|wauto; wdone]. wauto; wdone.
  - wauto; wdone.
Qed.

(** [isRadioOn] frees its response and never says that the radio is on. *)
Lemma wps_isRadioOn Q E l L n k :
  (∀ r n', r = -1 ∨ r = 0 → Q r l (MkAbs L n' k)) → wps isRadioOn Q E l (MkAbs L n k).
Proof. intros HQ. unfold isRadioOn. wauto; auto. Qed.
End answers.
