(* ===== verification/RilCalls.v ===== *)
(** * The list of calls, +CLCC

    What [callFromCLCCLine] and the loop of [requestGetCurrentCallsEVDO] make of
    the lines of a modem, by a printer of those lines. *)

From S2P Require Import Prelude CString AtTok AtReader AtChannel RilBase RilLogic RilReader RilRqst.

Open Scope Z_scope.

(** ** The modem's side *)

(** A call as 27.007 reports it; the number is printed between quotes. *)
Record ModemCall := MkModemCall {
  mc_index : Z; mc_isMT : Z; mc_state : Z; mc_isMpty : Z; mc_number : string; mc_toa : Z
}.

Definition quoted (s : string) : string := String DQUOTE (s +:+ String DQUOTE "").

Definition print_call (c : ModemCall) : string :=
  at_line "+CLCC" [pretty (mc_index c); pretty (mc_isMT c); pretty (mc_state c); "0";
                   pretty (mc_isMpty c); quoted (mc_number c); pretty (mc_toa c)].

Record modem_call_ok (c : ModemCall) : Prop := {
  mc_index_ok : is_int32 (mc_index c);
  mc_isMT_ok : mc_isMT c = 0 ∨ mc_isMT c = 1;
  mc_state_ok : 0 ≤ mc_state c < 6;
  mc_isMpty_ok : mc_isMpty c = 0 ∨ mc_isMpty c = 1;
  mc_number_ok : strchr (mc_number c) DQUOTE = None;
  mc_toa_ok : is_int32 (mc_toa c)
}.

(** ** The RIL's side *)

(** The call as it should be reported; strings point into block [b]. *)
Definition ril_call (b : nat) (c : ModemCall) : RIL_Call Ptr :=
  MkCall (default RIL_CALL_ACTIVE (clccStateToRILState (mc_state c))) (mc_index c) (mc_toa c)
    (mc_isMpty c) (mc_isMT c) 1 (clean_number b (mc_number c)).

(** The list as it is reported: [p_calls->index] is element 0, so that its index
    is the number of calls and the other indices are the modem's. *)
Definition reported (b : nat) (cs : list ModemCall) : list (RIL_Call Ptr) :=
  match ril_call b <$> cs with
  | [] => []
  | p :: ps => set_call_index (Z.of_nat (length cs)) p :: ps
  end.

(** The same once delivered: the strings themselves. *)
Definition ril_call_string (c : ModemCall) : RIL_Call (option string) :=
  MkCall (default RIL_CALL_ACTIVE (clccStateToRILState (mc_state c))) (mc_index c) (mc_toa c)
    (mc_isMpty c) (mc_isMT c) 1
    (match clean_number 0 (mc_number c) with PHeap _ s => Some s | _ => None end).

Definition delivered (cs : list ModemCall) : list (RIL_Call (option string)) :=
  match ril_call_string <$> cs with
  | [] => []
  | p :: ps =>
      MkCall (call_state p) (Z.of_nat (length cs)) (call_toa p) (call_isMpty p) (call_isMT p)
        (call_isVoice p) (call_number p) :: ps
  end.

(** ** Lemmas *)

Lemma string_app_assoc (a b c : string) : (a +:+ b) +:+ c = a +:+ (b +:+ c).
Proof. induction a as [|x a IH]; simpl; [done|by rewrite IH]. Qed.

Lemma nextTok_quoted_field q fs :
  strchr q DQUOTE = None → fs ≠ [] →
  nextTok (Some (commas (quoted q :: fs))) = (Some q, Some (commas fs)).
Proof.
  intros Hq Hfs. destruct fs as [|f fs]; [done|].
  change (commas (quoted q :: f :: fs)) with
    (String DQUOTE ((q +:+ String DQUOTE "") +:+ String "," (commas (f :: fs)))).
  rewrite string_app_assoc.
  unfold nextTok. simpl skipWhiteSpace. change (Ascii.eqb DQUOTE DQUOTE) with true. cbv iota.
  unfold strsep. change ((String DQUOTE "") +:+ String "," (commas (f :: fs)))
    with (String DQUOTE (String "," (commas (f :: fs)))).
  by rewrite strsep_from_tok.
Qed.

(** The functions with error codes, by the [option] versions. *)
Lemma at_tok_nextint_field z fs :
  is_int32 z → at_tok_nextint (Some (commas (pretty z :: fs))) =
    (0, Some z, match fs with [] => None | _ => Some (commas fs) end).
Proof.
  intros Hz. unfold at_tok_nextint, at_tok_nextint_base.
  rewrite nextTok_field by apply plain_field_pretty.
  rewrite strtol_pretty by done. simpl. by rewrite int32_id.
Qed.

Lemma at_tok_nextbool_field z fs :
  z = 0 ∨ z = 1 → at_tok_nextbool (Some (commas (pretty z :: fs))) =
    (0, Some z, match fs with [] => None | _ => Some (commas fs) end).
Proof.
  intros Hz. unfold at_tok_nextbool. rewrite at_tok_nextint_field.
  - by destruct Hz as [-> | ->].
  - unfold is_int32. destruct Hz as [-> | ->]; unfold INT_MIN, INT_MAX; lia.
Qed.

Lemma clcc_state_known z : 0 ≤ z < 6 → ∃ s, clccStateToRILState z = Some s.
Proof.
  intros Hz. assert (z = 0 ∨ z = 1 ∨ z = 2 ∨ z = 3 ∨ z = 4 ∨ z = 5) as H by lia.
  by repeat destruct H as [->|H]; try subst z; eexists.
Qed.

(** The tail: multiparty flag, number and type, whatever was there before. *)
Lemma clcc_tail_field b c p :
  modem_call_ok c →
  clcc_tail b (Some (commas [pretty (mc_isMpty c); quoted (mc_number c); pretty (mc_toa c)])) p =
  (0, set_call_toa (mc_toa c) (set_call_number (clean_number b (mc_number c))
        (set_call_isMpty (mc_isMpty c) p))).
Proof.
  intros [_ _ _ Hm Hn Ht]. unfold clcc_tail. rewrite at_tok_nextbool_field by done.
  cbn [Z.ltb Z.compare]. change (at_tok_hasmore _) with true. cbv iota.
  unfold at_tok_nextstr. rewrite nextTok_quoted_field by done. cbn [Z.ltb Z.compare].
  change (commas [pretty (mc_toa c)]) with (commas (pretty (mc_toa c) :: [])).
  by rewrite at_tok_nextint_field.
Qed.

Lemma callFromCLCCLine_print b c p :
  modem_call_ok c → callFromCLCCLine b (print_call c) p = (0, ril_call b c).
Proof.
  intros Hc. destruct (Hc) as [Hi Ht Hs Hm Hn Ha]. unfold callFromCLCCLine.
  assert (E : at_tok_start (Some (print_call c)) =
    (0, Some (commas [pretty (mc_index c); pretty (mc_isMT c); pretty (mc_state c); pretty 0;
                      pretty (mc_isMpty c); quoted (mc_number c); pretty (mc_toa c)]))) by reflexivity.
  rewrite E. cbn [Z.ltb Z.compare]. rewrite at_tok_nextint_field by done. cbn [Z.ltb Z.compare].
  rewrite at_tok_nextbool_field by done. cbn [Z.ltb Z.compare].
  rewrite at_tok_nextint_field by (unfold is_int32, INT_MIN, INT_MAX; lia). cbn [Z.ltb Z.compare].
  unfold ril_call. destruct (clcc_state_known (mc_state c) Hs) as [s ->].
  rewrite at_tok_nextint_field by (unfold is_int32, INT_MIN, INT_MAX; lia).
  cbn [Z.ltb Z.compare Z.eqb negb]. by rewrite clcc_tail_field.
Qed.

(** ** The loop over the lines *)

(** The lines of a reply and the voice calls among them; any other line, a data
    call for one, is rejected. *)
Inductive clcc_lines (b : nat) : list string → list ModemCall → Prop :=
  | clcc_nil : clcc_lines b [] []
  | clcc_call c ls cs : modem_call_ok c → clcc_lines b ls cs → clcc_lines b (print_call c :: ls) (c :: cs)
  | clcc_other l ls cs :
      (∀ p, (callFromCLCCLine b l p).1 ≠ 0) → clcc_lines b ls cs → clcc_lines b (l :: ls) cs.

Lemma reported_length b cs : length (reported b cs) = length cs.
Proof. unfold reported. destruct cs as [|c cs]; simpl; [done|by rewrite length_fmap]. Qed.

(** One more valid call: the entry is filled in and element 0 renumbered. *)
Lemma reported_snoc b cs c g :
  alter (set_call_index (Z.of_nat (length cs) + 1)) 0%nat (reported b cs ++ ril_call b c :: g) =
  reported b (cs ++ [c]) ++ g.
Proof.
  destruct cs as [|c0 cs]; [done|]. unfold reported. rewrite !fmap_app. simpl.
  rewrite <-app_assoc, length_app. simpl. f_equal. unfold set_call_index. simpl. f_equal. lia.
Qed.

Lemma clcc_loop_spec b lines cs :
  clcc_lines b lines cs →
  ∀ before g, (length lines ≤ length g)%nat →
  ∃ calls, clcc_loop b lines (reported b before ++ g) (length before) =
    (calls, length (before ++ cs)) ∧ take (length (before ++ cs)) calls = reported b (before ++ cs).
Proof.
  induction 1 as [|c ls cs Hc _ IH|l ls cs Hl _ IH]; intros before g Hg.
  - exists (reported b before ++ g). rewrite app_nil_r. split; [done|].
    by rewrite <-(reported_length b before), take_app_length.
  - destruct g as [|p g]; [simpl in Hg; lia|]. cbn [clcc_loop].
    rewrite lookup_app_r by (by rewrite reported_length). rewrite reported_length, Nat.sub_diag. simpl.
    rewrite callFromCLCCLine_print by done. cbn [Z.eqb negb].
    assert (Ei : <[length before := ril_call b c]> (reported b before ++ p :: g) =
                 reported b before ++ ril_call b c :: g).
    { rewrite <-(reported_length b before) at 1. by rewrite insert_app_r_alt, Nat.sub_diag by done. }
    rewrite Ei, reported_snoc.
    destruct (IH (before ++ [c]) g ltac:(simpl in Hg; lia)) as (calls & E & Ht).
    rewrite <-app_assoc in E, Ht. rewrite length_app, Nat.add_comm in E. exists calls. by split.
  - destruct g as [|p g]; [simpl in Hg; lia|]. cbn [clcc_loop].
    destruct (callFromCLCCLine b l _) as [err q] eqn:E. specialize (Hl (default zero_call ((reported b before ++ p :: g) !! length before))).
    rewrite E in Hl. simpl in Hl. apply Z.eqb_neq in Hl. rewrite Hl. cbn [negb].
    assert (Ei : <[length before := q]> (reported b before ++ p :: g) = reported b before ++ q :: g).
    { rewrite <-(reported_length b before) at 1. by rewrite insert_app_r_alt, Nat.sub_diag by done. }
    rewrite Ei. apply (IH before (q :: g)). simpl in *. lia.
Qed.

(** The strings are still there when the list is delivered. *)
Lemma resolve_clean_number L b number :
  is_live b L = true →
  resolve L (clean_number b number) =
  inl (match clean_number 0 number with PHeap _ s => Some s | _ => None end).
Proof. intros Hb. unfold clean_number. destruct (_ && _); simpl; by rewrite ?Hb. Qed.

Lemma resolve_ril_calls L b cs :
  is_live b L = true → resolve_calls L (ril_call b <$> cs) = inl (ril_call_string <$> cs).
Proof.
  intros Hb. induction cs as [|c cs IH]; [done|]. rewrite !fmap_cons. cbn [resolve_calls].
  rewrite IH. unfold ril_call at 1. cbn [call_number]. by rewrite resolve_clean_number.
Qed.

Lemma resolve_reported L b cs :
  is_live b L = true → resolve_calls L (reported b cs) = inl (delivered cs).
Proof.
  intros Hb. unfold reported, delivered. destruct cs as [|c cs]; [done|]. rewrite !fmap_cons.
  cbn [resolve_calls]. rewrite resolve_ril_calls by done. unfold set_call_index. cbn [call_number].
  change (call_number (ril_call b c)) with (clean_number b (mc_number c)).
  by rewrite resolve_clean_number.
Qed.

(** A data or fax call is one of the other lines. *)
Lemma data_call_rejected b c mode p :
  modem_call_ok c → is_int32 mode → mode ≠ 0 →
  (callFromCLCCLine b (at_line "+CLCC" [pretty (mc_index c); pretty (mc_isMT c); pretty (mc_state c);
     pretty mode; pretty (mc_isMpty c); quoted (mc_number c); pretty (mc_toa c)]) p).1 = -1.
Proof.
  intros Hc Hm Hne. destruct (Hc) as [Hi Ht Hs _ _ _]. unfold callFromCLCCLine.
  rewrite (eq_refl : at_tok_start (Some (at_line "+CLCC" _)) = (0, Some (commas _))).
  cbn [Z.ltb Z.compare]. rewrite at_tok_nextint_field by done. cbn [Z.ltb Z.compare].
  rewrite at_tok_nextbool_field by done. cbn [Z.ltb Z.compare].
  rewrite at_tok_nextint_field by (unfold is_int32, INT_MIN, INT_MAX; lia). cbn [Z.ltb Z.compare].
  destruct (clcc_state_known (mc_state c) Hs) as [s ->].
  rewrite at_tok_nextint_field by done. cbn [Z.ltb Z.compare].
  apply Z.eqb_neq in Hne. by rewrite Hne.
Qed.

(** ** Properties *)

(** The reply to AT+CLCC.  For a reply whose lines are voice calls as the
    modem prints them, in any number and mixed with lines that are none, the
    loop counts exactly the voice calls and its array starts with them, in
    order, each with the state, type, direction, multiparty flag and cleaned
    number the modem reported - whatever an earlier, rejected line left in the
    entry.  The index is the modem's except in the first entry, which holds the
    number of calls: the loop writes [p_calls->index], not that of the call. *)
Theorem clcc_loop_reports (b : nat) (lines : list string) (cs : list ModemCall) :
  clcc_lines b lines cs →
  ∃ calls, clcc_loop b lines (replicate (length lines) zero_call) 0 = (calls, length cs) ∧
           take (length cs) calls = reported b cs.
Proof.
  intros Hl. apply (clcc_loop_spec b lines cs Hl []). by rewrite length_replicate.
Qed.

Definition two_calls : list ModemCall :=
  [MkModemCall 1 0 0 0 "18005551234" 129; MkModemCall 2 1 5 0 "+49,30" 145].

(** Two voice calls and, between them, a data call. *)
Definition two_call_lines : list string :=
  [print_call (MkModemCall 1 0 0 0 "18005551234" 129); "+CLCC: 3,0,0,1,0";
   print_call (MkModemCall 2 1 5 0 "+49,30" 145)].

Lemma two_call_lines_ok b : clcc_lines b two_call_lines two_calls.
Proof.
  apply clcc_call; [|apply clcc_other; [intros p; vm_compute; discriminate|apply clcc_call; [|apply clcc_nil]]].
  all: split; simpl; try lia; try done; unfold is_int32, INT_MIN, INT_MAX; lia.
Qed.

Lemma clcc_loop_reports_witness :
  clcc_lines 4 two_call_lines two_calls ∧
  ∃ calls, clcc_loop 4 two_call_lines (replicate 3 zero_call) 0 = (calls, 2%nat) ∧
           take 2 calls = reported 4 two_calls.
Proof.
  split; [apply two_call_lines_ok|].
  exact (clcc_loop_reports 4 two_call_lines two_calls (two_call_lines_ok 4)).
Defined.
