(* ===== verification/RilData.v ===== *)
(** * fw100-ril-data.c: packet data calls through pppd *)

From S2P Require Import Prelude CString AtTok AtReader AtChannel RilBase RilLogic RilReader RilUtils RilAuto.

Open Scope Z_scope.

Definition DATA_STATE_DISCONNECTED : Z := 0.
Definition DATA_STATE_CONNECTED : Z := 1.

(** [inet_ntop(AF_INET, &addr, ...)] for an address in network byte order,
    read on a little-endian machine. *)
Definition octet (addr i : Z) : Z := Z.land (Z.shiftr addr (8 * i)) 255.

Definition inet_ntop (addr : Z) : string :=
  pretty (octet addr 0) +:+ "." +:+ pretty (octet addr 1) +:+ "." +:+
  pretty (octet addr 2) +:+ "." +:+ pretty (octet addr 3).

(** [strtol(s, NULL, 0)] of a string that starts with a digit. *)
Definition strtol_0 (s : string) : Z :=
  default 0
    (if strStartsWith s "0x" || strStartsWith s "0X" then strtol s 16
     else if Ascii.eqb (peek s) "0" then strtol s 8 else strtol s 10).

Section data.
Context {S P : Type} `{AtPort S} `{Platform P} `{RilConsts}.
Abbreviation M := (M S P).

(** The retry loop; [n] retries left.  The address and the gateway. *)
Fixpoint poll_loop (ifname : string) (n : nat) : M (option (Z * Z)) :=
  match n with
  | O => mret None
  | Datatypes.S n' =>
      info ← lift (pl_ifc_get_info ifname);
      match info with
      | None => poll_loop ifname n'
      | Some (addr, mask, flags) =>
          if Z.testbit flags 0 then
            gway ← sys (SysIfcGetDefaultRoute ifname);
            mret (Some (addr, gway))
          else (sleep 1;; poll_loop ifname n')
      end
  end.

(** [None]: the link is not up (-1). *)
Definition poll_ppp_linkstate (ifname : string) (max_retry : nat) : M (option (Z * Z)) :=
  rc ← sys SysIfcInit;
  if negb (rc =? 0) then mret None else poll_loop ifname max_retry.

(** Over the entries of /proc: name and first line of the status file. *)
Fixpoint find_pid (pidName : string) (entries : list (string * option string)) : M Z :=
  match entries with
  | [] => mret (-1)
  | (d_name, status) :: entries' =>
      if String.eqb d_name ".." then find_pid pidName entries'
      else if negb (isdigit (peek d_name)) then find_pid pidName entries'
      else match status with
           | None => find_pid pidName entries'
           | Some buffer =>
               match second_word buffer with
               | None => undef UninitRead
               | Some name =>
                   if String.eqb name pidName then mret (strtol_0 d_name)
                   else find_pid pidName entries'
               end
           end
  end.

Definition findPidByName (pidName : string) : M Z :=
  dir ← lift pl_proc;
  match dir with None => mret (-1) | Some entries => find_pid pidName entries end.

Definition killPppd : M unit :=
  pid ← findPidByName "pppd";
  when (0 <? pid) (sys (SysKill pid);; mret tt).

(** The answer is followed by a second one, from the error label. *)
Definition requestDataCallList (t : nat) : M unit :=
  c ← get_ctx;
  RIL_onRequestComplete t RIL_E_SUCCESS
    (if negb (inDataCall c =? 0)
     then PayDataCall 1 2 (PStatic "PPP") (PStatic "internet") (PStatic (dataCallLocalIP c))
     else PayDataCall 1 0 PNull PNull PNull)
    sizeof_RIL_Data_Call_Response;;
  RIL_onRequestComplete t RIL_E_GENERIC_FAILURE PayNull 0.

(** [sprintf(tmp,"/system/bin/pppd call %s", ctx->s_data_devname)] and
    [system(tmp)]. *)
Definition start_pppd : M Z :=
  c ← get_ctx;
  devname ← non_null (s_data_devname c);
  tmp ← sprintf 128 ("/system/bin/pppd call " +:+ devname);
  sys (SysSystem tmp).

Definition requestSetupDataCallEVDO (t : nat) : M unit :=
  frame (on_error
    (rc ← start_pppd;
     if rc <? 0 then goto_error
     else
       link ← poll_ppp_linkstate "ppp0" 30;
       match link with
       | None => goto_error
       | Some (addr, gway) =>
           put_ctx (λ c, set_dataCallGateway (inet_ntop gway)
                           (set_dataCallLocalIP (inet_ntop addr)
                             (set_inDataCall DATA_STATE_CONNECTED c)));;
           dns1 ← property_get "net.dns1" "0" 64;
           dns2 ← property_get "net.dns2" "0" 64;
           tmp ← sprintf 128 (dns1 +:+ " " +:+ dns2);
           c ← get_ctx;
           RIL_onRequestComplete t RIL_E_SUCCESS
             (PayStrs [PStatic "1"; PStatic "ppp0"; PStatic (dataCallLocalIP c);
                       PStatic tmp; PStatic (dataCallGateway c)])
             (5 * sizeof_ptr)
       end)
    (RIL_onRequestComplete t RIL_E_GENERIC_FAILURE PayNull 0)).

Definition requestDeactivateDataCallEVDO (data : Data) (t : nat) : M unit :=
  cid ← data_str data 0;
  _ ← at_command "ATH";
  sleep 2;;
  killPppd;;
  put_ctx (set_inDataCall DATA_STATE_DISCONNECTED);;
  RIL_onRequestComplete t RIL_E_SUCCESS PayNull 0;;
  sleep 2;;
  RIL_onUnsolicitedResponse RIL_UNSOL_RESPONSE_NETWORK_STATE_CHANGED PayNull 0.

Definition requestDataCallFailCause (t : nat) : M unit :=
  RIL_onRequestComplete t RIL_E_SUCCESS (PayInts [PDP_FAIL_ERROR_UNSPECIFIED]) sizeof_int.

Definition data_call_changed (active : Z) (ty apn address : Ptr) : M unit :=
  RIL_onUnsolicitedResponse RIL_UNSOL_DATA_CALL_LIST_CHANGED
    (PayDataCall 1 active ty apn address) sizeof_RIL_Data_Call_Response.

Definition pppAutomatic : M Z :=
  link ← poll_ppp_linkstate "ppp0" 30;
  c ← get_ctx;
  match link with
  | Some (addr, _) =>
      when (negb (inDataCall c =? DATA_STATE_CONNECTED))
        (put_ctx (λ c, set_dataCallLocalIP (inet_ntop addr) (set_inDataCall DATA_STATE_CONNECTED c));;
         apn ← read_array (carrier c);
         data_call_changed 2 (PStatic "IP") (PStatic apn) (PStatic (inet_ntop addr));;
         _ ← rilWriteStatus RIL_STATUS_FILEPATH;
         mret tt);;
      mret 0
  | None =>
      when (inDataCall c =? DATA_STATE_CONNECTED)
        (put_ctx (λ c, set_dataCallLocalIP "" (set_inDataCall DATA_STATE_DISCONNECTED c));;
         data_call_changed 0 PNull PNull PNull;;
         _ ← rilWriteStatus RIL_STATUS_FILEPATH;
         mret tt);;
      rc ← start_pppd;
      if rc <? 0 then mret (-1) else mret 0
  end.
End data.

(** ** Specifications *)

Section specs.
Context {S P : Type} `{AtPortOk S} `{PlatformOk P} `{RilConsts} (t0 : nat).
Abbreviation wps := (wps (S := S) (P := P) t0).
Abbreviation answered := (answered (S := S) (P := P) t0).

Lemma wps_poll_ppp_linkstate ifname n Q E l a :
  (∀ r, Q r l a) → wps (poll_ppp_linkstate ifname n) Q E l a.
Proof.
  intros HQ. unfold poll_ppp_linkstate. wstep. wstep. destruct (negb _); [by apply wps_ret|].
  induction n as [|n IH]; cbn [poll_loop]; [by apply wps_ret|].
  apply wps_bind, wps_lift. intros p info p' _.
  destruct info as [[[addr mask] flags]|]; [|exact IH].
  destruct (Z.testbit flags 0); [wstep; wstep; by apply wps_ret|]. wstep. by apply wps_sleep.
Qed.

Lemma wps_find_pid name es Q E l a :
  Forall (λ e, match e.2 with Some b => is_Some (second_word b) | None => True end) es →
  (∀ pid, Q pid l a) → wps (find_pid name es) Q E l a.
Proof.
  intros Hes HQ. induction Hes as [|[d_name status] es He _ IH]; cbn [find_pid]; [by apply wps_ret|].
  destruct (String.eqb d_name ".."); [done|]. destruct (negb _); [done|].
  destruct status as [buffer|]; [|done]. destruct He as [name' ->].
  destruct (String.eqb name' name); [by apply wps_ret|done].
Qed.

Lemma wps_killPppd Q E l a : Q tt l a → wps killPppd Q E l a.
Proof.
  intros HQ. unfold killPppd, findPidByName. apply wps_bind, wps_bind, wps_lift. intros p dir p' Ed.
  assert (Hpid : ∀ pid, wps (when (0 <? pid) (sys (SysKill pid);; mret tt)) Q E l a).
  { intros pid. apply wps_when; intros _; [|done]. wstep. wstep. by apply wps_ret. }
  destruct dir as [es|]; [|by apply wps_ret].
  apply wps_find_pid; [by eapply proc_status|]. exact Hpid.
Qed.

(** The name servers fit the arrays of [requestSetupDataCallEVDO]. *)
Definition dns_within : Prop :=
  property_within (P := P) "net.dns1" 64 ∧ property_within (P := P) "net.dns2" 64.

Lemma requestSetupDataCallEVDO_answered t : dns_within → answered t 1 (requestSetupDataCallEVDO t).
Proof.
  intros [Hdns1 Hdns2]. apply answered_frame. intros L n k. unfold start_pppd. wauto.
  match goal with Hc : ctx_ok _ |- _ => destruct Hc as [_ _ _ _ (dev & Hdev & Hlen)] end.
  unfold non_null. rewrite Hdev. wauto.
  apply wps_sprintf; [rewrite strlen_app; unfold strlen at 1; simpl; lia|]. cbv beta. wstep.
  destruct (_ <? 0); [wauto; wdone|]. apply wps_bind, wps_poll_ppp_linkstate.
  intros [[addr gway]|]; [|wauto; wdone]. wstep. wstep. wstep.
  apply wps_property_get; [done|exact Hdns1|]. intros dns1 H1'. wstep.
  apply wps_property_get; [done|exact Hdns2|]. intros dns2 H2'. wstep.
  apply wps_sprintf; [rewrite !strlen_app; unfold strlen at 2; simpl; lia|]. cbv beta.
  wauto; wdone.
Qed.

Lemma requestDeactivateDataCallEVDO_answered s ss t :
  answered t 1 (requestDeactivateDataCallEVDO (DStrings (s :: ss)) t).
Proof.
  intros l L n k. unfold requestDeactivateDataCallEVDO.
  change (data_str (DStrings (s :: ss)) 0) with (mret (M := M S P) s).
  wstep. wstep. wstep. wstep. wstep. wstep. wstep. apply wps_killPppd. cbv beta.
  wauto; wdone.
Qed.

Lemma requestDataCallFailCause_answered t : answered t 1 (requestDataCallFailCause t).
Proof. intros l L n k. unfold requestDataCallFailCause. wauto; wdone. Qed.

(** The list of data calls is answered twice. *)
Lemma requestDataCallList_answered t : answered t 2 (requestDataCallList t).
Proof.
  intros l L n k. unfold requestDataCallList. wstep. wstep.
  destruct (negb _); wauto; wdone.
Qed.
End specs.
