(* ===== verification/RilTimer.v ===== *)
(** * fw100-ril-timer.c: what the main loop polls while the screen is on *)

From S2P Require Import Prelude CString AtTok AtReader AtChannel RilBase RilLogic RilReader RilUtils RilAuto.

Open Scope Z_scope.

Definition GPS_TEST_GPGLL : string := "$GPGLL,3307.055350,N,11718.467958,W,234014.000,A,A*45".
Definition GPS_TEST_GPGSA : string := "$GPGSA,A,3,22,03,19,09,,,,,,,,,2.55,2.37,0.94*09".

(** [max]: the length of the line, at most that of the array; then
    [!strncmp(saved, line, max)], where the line has at least [max] bytes. *)
Definition poll_unchanged (saved : carray) (line : string) : bool :=
  let max := Nat.min (String.length line) 64 in
  bool_decide (take max saved = take max (list_ascii_of_string line)).

Section timer.
Context {S P : Type} `{AtPort S} `{Platform P}.
Abbreviation M := (M S P).

Definition line_text (ln : Line) : string := match ln_cur ln with Some s => s | None => "" end.

(** When nothing changed it returns without freeing the response. *)
Definition pollNetworkRegistration : M unit :=
  frame (on_error
    (err ← at_send_resp "p_response" (KSingle "+CREG:") "AT+CREG?";
     check_ne err "p_response";;
     line ← first_line "p_response";
     w ← get_world;
     if poll_unchanged (w_pollSavedCREG w) (line_text line) then mret tt
     else
       (update (λ w, with_polls (strncpy (line_text line) 64) (w_pollSavedCSQ w) w);;
        RIL_onUnsolicitedResponse RIL_UNSOL_RESPONSE_NETWORK_STATE_CHANGED PayNull 0;;
        at_response_free "p_response"))
    (at_response_free "p_response")).

Definition pollSignalStrength : M unit :=
  frame (on_error
    (err ← at_send_resp "p_response" (KSingle "+CSQ:") "AT+CSQ";
     check_lt err "p_response";;
     line ← first_line "p_response";
     w ← get_world;
     if poll_unchanged (w_pollSavedCSQ w) (line_text line) then mret tt
     else
       (update (λ w, with_polls (w_pollSavedCREG w) (strncpy (line_text line) 64) w);;
        line ← line_start line;
        '(rssi, line) ← line_int line;
        '(ber, _) ← line_int line;
        RIL_onUnsolicitedResponse RIL_UNSOL_SIGNAL_STRENGTH (PayInts [rssi; ber; 0; 0; 0; 0; 0])
          (7 * sizeof_int);;
        at_response_free "p_response"))
    (at_response_free "p_response")).

Definition fw100ModemTimer : M unit :=
  pollSignalStrength;;
  pollNetworkRegistration;;
  c ← get_ctx;
  when (negb (gpsFifoEnable c =? 0)) (rilWriteGPSFifo RIL_GPS_FIFOPATH GPS_TEST_GPGLL;; mret tt);;
  when (negb (gpsTtyEnable c =? 0)) (rilWriteGPSTty (Some GPS_TEST_GPGSA) 0;; mret tt).
End timer.

(** ** What counts as a change *)

Lemma string_length_list s : length (list_ascii_of_string s) = String.length s.
Proof. induction s as [|c s IH]; simpl; congruence. Qed.

Lemma list_ascii_app a b :
  list_ascii_of_string (a +:+ b) = list_ascii_of_string a ++ list_ascii_of_string b.
Proof. induction a as [|c a IH]; simpl; [done|by rewrite IH]. Qed.

Lemma list_ascii_inj a b : list_ascii_of_string a = list_ascii_of_string b → a = b.
Proof.
  intros E. by rewrite <-(string_of_list_ascii_of_string a), E, string_of_list_ascii_of_string.
Qed.

Definition nul_free (s : string) : Prop :=
  Forall (λ c, not_nul c = true) (list_ascii_of_string s).

(** What the polls report.  After a poll whose line was [old], a poll with
    a line [line] that fits the array counts as unchanged - nothing is reported
    and the response is leaked - exactly when [line] is a prefix of [old]; in
    particular the same line again is unchanged, and a shorter value, such as
    [+CSQ: 2] after [+CSQ: 23,99], goes unnoticed. *)
Lemma poll_unchanged_eq (old line : string) :
  nul_free line → (String.length line ≤ 64)%nat →
  poll_unchanged (strncpy old 64) line = strStartsWith old line.
Proof.
  intros Hnul Hlen. unfold poll_unchanged. rewrite Nat.min_l by done.
  set (n := String.length line). rewrite (take_ge (list_ascii_of_string line)) by (rewrite string_length_list; done).
  apply eq_true_iff_eq. rewrite bool_decide_eq_true, strStartsWith_spec. unfold strncpy. split.
  - intros E. destruct (decide (n ≤ String.length old)%nat) as [Hle|Hgt].
    + exists (string_of_list_ascii (drop n (list_ascii_of_string old))).
      apply list_ascii_inj. rewrite list_ascii_app, list_ascii_of_string_of_list_ascii, <-E.
      rewrite take_app_le by (rewrite length_take, string_length_list; lia).
      rewrite take_take, Nat.min_l by lia. by rewrite take_drop.
    + exfalso. rewrite (take_ge (list_ascii_of_string old)) in E by (rewrite string_length_list; lia).
      assert (Hi : list_ascii_of_string line !! String.length old = Some NUL).
      { rewrite <-E, lookup_take, decide_True by lia. rewrite lookup_app_r by (rewrite string_length_list; lia).
        rewrite string_length_list, Nat.sub_diag. apply lookup_replicate. split; [done|lia]. }
      unfold nul_free in Hnul. rewrite Forall_lookup in Hnul. by apply Hnul in Hi.
  - intros [rest ->]. rewrite list_ascii_app.
    assert (Hn : length (list_ascii_of_string line) = n) by apply string_length_list.
    rewrite take_app_le by (rewrite length_take, length_app; lia).
    rewrite take_take, Nat.min_l by lia. by rewrite <-Hn, take_app_length.
Qed.
