(* ===== verification/Ril.v ===== *)
(** * fw100-ril.c: requests, the SIM, start-up and the main loop

    The dispatcher [onRequest] with the handlers of this file, in its order;
    then the callbacks of the RIL event loop, and the start of the driver. *)

From S2P Require Import Prelude CString AtTok AtReader AtChannel RilInfo RilBase RilLogic RilReader RilUtils RilAuto RilRqst RilData RilTimer.

Open Scope Z_scope.

(** ** Pure parts *)

Inductive SIM_Status :=
  | SIM_ABSENT | SIM_NOT_READY | SIM_READY | SIM_PIN | SIM_PUK | SIM_NETWORK_PERSONALIZATION.

#[export] Instance SIM_Status_eq_dec : EqDecision SIM_Status.
Proof. solve_decision. Defined.

(** The file name in a path; [None] when the scan leaves the string, which it
    does on the empty path.  [i] is the index looked at; index 0 never is. *)
Fixpoint trim_loop (filepath : string) (i : nat) : option string :=
  let p := default NUL (String.get i filepath) in
  if Ascii.eqb p "/" || Ascii.eqb p "\" then advance (i + 1) filepath
  else match i with
       | O => None
       | Datatypes.S O => Some filepath
       | Datatypes.S i' => trim_loop filepath i'
       end.

Definition trim_path (filepath : string) : option string :=
  trim_loop filepath (String.length filepath).

(** [app_status_array], indexed by [SIM_Status]. *)
Definition app_status (s : SIM_Status) : RIL_AppStatus :=
  match s with
  | SIM_ABSENT =>
      MkAppStatus RIL_APPTYPE_UNKNOWN RIL_APPSTATE_UNKNOWN RIL_PERSOSUBSTATE_UNKNOWN RIL_PINSTATE_UNKNOWN
  | SIM_NOT_READY =>
      MkAppStatus RIL_APPTYPE_SIM RIL_APPSTATE_DETECTED RIL_PERSOSUBSTATE_UNKNOWN RIL_PINSTATE_UNKNOWN
  | SIM_READY =>
      MkAppStatus RIL_APPTYPE_SIM RIL_APPSTATE_READY RIL_PERSOSUBSTATE_READY RIL_PINSTATE_UNKNOWN
  | SIM_PIN =>
      MkAppStatus RIL_APPTYPE_SIM RIL_APPSTATE_PIN RIL_PERSOSUBSTATE_UNKNOWN
        RIL_PINSTATE_ENABLED_NOT_VERIFIED
  | SIM_PUK =>
      MkAppStatus RIL_APPTYPE_SIM RIL_APPSTATE_PUK RIL_PERSOSUBSTATE_UNKNOWN
        RIL_PINSTATE_ENABLED_BLOCKED
  | SIM_NETWORK_PERSONALIZATION =>
      MkAppStatus RIL_APPTYPE_SIM RIL_APPSTATE_SUBSCRIPTION_PERSO RIL_PERSOSUBSTATE_SIM_NETWORK
        RIL_PINSTATE_ENABLED_NOT_VERIFIED
  end.

Definition card_status `{RilConsts} (sim_status : SIM_Status) : RIL_CardStatus :=
  let absent := bool_decide (sim_status = SIM_ABSENT) in
  let apps := replicate RIL_CARD_MAX_APPS (app_status SIM_ABSENT) in
  if absent
  then MkCardStatus RIL_CARDSTATE_ABSENT RIL_PINSTATE_UNKNOWN (Z.of_nat RIL_CARD_MAX_APPS)
         (Z.of_nat RIL_CARD_MAX_APPS) 0 apps
  else MkCardStatus RIL_CARDSTATE_PRESENT RIL_PINSTATE_UNKNOWN 0
         (Z.of_nat RIL_CARD_MAX_APPS) 1 (<[0%nat := app_status sim_status]> apps).

(** The digits of [%x]. *)
Definition hex_char (d : Z) : ascii :=
  default "0"%char (String.get (Z.to_nat d) "0123456789abcdef").

Fixpoint hex_digits (fuel : nat) (z : Z) (acc : string) : string :=
  match fuel with
  | O => acc
  | Datatypes.S fuel' =>
      let acc := String (hex_char (z `mod` 16)) acc in
      if z / 16 =? 0 then acc else hex_digits fuel' (z / 16) acc
  end.

Definition print_hex (z : Z) : string := hex_digits 8 (uint32 z) "".

Definition count_commas (s : string) : nat :=
  length (List.filter (Ascii.eqb ",") (list_ascii_of_string s)).

(** ** The handlers of this file *)

Section handlers.
Context {S P : Type} `{AtPort S} `{Platform P} `{RilConsts}.
Abbreviation M := (M S P).

Definition requestRadioPower (data : Data) (datalen : Z) (t : nat) : M unit :=
  frame (on_error
    (assert (sizeof_ptr <=? datalen);;
     onOff ← data_int data 0;
     c ← get_ctx;
     (if (onOff =? 0) && negb (bool_decide (sState c = RADIO_STATE_OFF)) then
        err ← at_send_resp "p_response" KPlain "AT+CPOF";
        check_lt err "p_response";;
        setRadioState RADIO_STATE_OFF
      else if (0 <? onOff) && bool_decide (sState c = RADIO_STATE_OFF) then
        err ← at_send_resp "p_response" KPlain "AT+CPON";
        b ← failed_lt err "p_response";
        (if (b : bool) then
           on ← isRadioOn;
           if negb (on =? 1) then goto_error else mret tt
         else mret tt);;
        setRadioState RADIO_STATE_SIM_NOT_READY
      else mret tt);;
     at_response_free "p_response";;
     RIL_onRequestComplete t RIL_E_SUCCESS PayNull 0)
    (at_response_free "p_response";;
     RIL_onRequestComplete t RIL_E_GENERIC_FAILURE PayNull 0)).

Definition requestQueryNetworkSelectionMode (t : nat) : M unit :=
  frame (on_error
    (err ← at_send_resp "p_response" (KSingle "+COPS:") "AT+COPS?";
     check_lt err "p_response";;
     line ← first_line "p_response";
     line ← line_start line;
     '(_, _) ← line_int line;
     c ← get_ctx;
     RIL_onRequestComplete t RIL_E_SUCCESS (PayInts [networkSelectMode c]) sizeof_int;;
     at_response_free "p_response")
    (at_response_free "p_response";;
     RIL_onRequestComplete t RIL_E_GENERIC_FAILURE PayNull 0)).

(** [asprintf(&cmd, ...); at_send_command(cmd, NULL); free(cmd);] *)
Definition command_fmt (s : string) : M Z :=
  cmd ← asprintf s;
  s ← read_str cmd;
  ret ← at_command s;
  free_ptr cmd;;
  mret ret.

Definition requestDial (data : Data) (t : nat) : M unit :=
  match data with
  | DDial address clir =>
      let clir := if clir =? 1 then "I" else if clir =? 2 then "i" else "" in
      _ ← command_fmt ("ATD" +:+ address +:+ clir +:+ ";");
      RIL_onRequestComplete t RIL_E_SUCCESS PayNull 0
  | DNull => undef NullDeref
  | _ => undef BadArgument
  end.

(** [cmd] is not freed. *)
Definition requestWriteSmsToSim (data : Data) (t : nat) : M unit :=
  match data with
  | DSmsWrite status pdu =>
      frame (on_error
        (let length := Z.quot (strlen pdu) 2 in
         cmd ← asprintf ("AT+CMGW=" +:+ pretty length +:+ "," +:+ pretty status);
         s ← read_str cmd;
         err ← at_send_resp "p_response" (KSms pdu "+CMGW:") s;
         check_ne err "p_response";;
         RIL_onRequestComplete t RIL_E_SUCCESS PayNull 0;;
         at_response_free "p_response")
        (RIL_onRequestComplete t RIL_E_GENERIC_FAILURE PayNull 0;;
         at_response_free "p_response"))
  | DNull => undef NullDeref
  | _ => undef BadArgument
  end.

Definition requestHangup (data : Data) (t : nat) : M unit :=
  line ← data_int data 0;
  _ ← command_fmt ("AT+CHLD=1" +:+ pretty line);
  RIL_onRequestComplete t RIL_E_SUCCESS PayNull 0.

(** When the command fails the request is answered before the jump. *)
Definition requestSignalStrength (t : nat) : M unit :=
  frame (on_error
    (err ← at_send_resp "p_response" (KSingle "+CSQ:") "AT+CSQ";
     b ← failed_lt err "p_response";
     (if (b : bool)
      then (RIL_onRequestComplete t RIL_E_GENERIC_FAILURE PayNull 0;; goto_error)
      else mret tt);;
     line ← first_line "p_response";
     line ← line_start line;
     '(rssi, line) ← line_int line;
     '(ber, _) ← line_int line;
     RIL_onRequestComplete t RIL_E_SUCCESS (PayInts [rssi; ber; 0; 0; 0; 0; 0]) (7 * sizeof_int);;
     at_response_free "p_response")
    (RIL_onRequestComplete t RIL_E_GENERIC_FAILURE PayNull 0;;
     at_response_free "p_response")).

(** The three numbers of +CREG by the number of commas. *)
Definition creg_fields (line : Line) : M (list Z) :=
  match count_commas (line_text line) with
  | 0%nat => '(stat, _) ← line_int line; mret [stat; -1; -1]
  | 1%nat =>
      '(_, line) ← line_int line;
      '(stat, _) ← line_int line;
      mret [stat; -1; -1]
  | 2%nat =>
      '(stat, line) ← line_int line;
      '(lac, line) ← line_hexint line;
      '(cid, _) ← line_hexint line;
      mret [stat; lac; cid]
  | 3%nat =>
      '(_, line) ← line_int line;
      '(r1, line) ← line_int line;
      '(r2, line) ← line_hexint line;
      '(r0, _) ← line_hexint line;
      mret [r0; r1; r2]
  | _ => goto_error
  end.

(** Not dispatched any more.  The success flag is not checked, so a failed
    command has no line to read; the four strings are not freed. *)
Definition requestRegistrationState (request : Request) (t : nat) : M unit :=
  frame (on_error
    (assert (bool_decide (request = RIL_REQUEST_REGISTRATION_STATE)
             || bool_decide (request = RIL_REQUEST_GPRS_REGISTRATION_STATE));;
     err ← at_send_resp "p_response" (KSingle "+CREG:") "AT+CREG?";
     (if negb (err =? 0) then goto_error else mret tt);;
     line ← first_line "p_response";
     line ← line_start line;
     response ← creg_fields line;
     s0 ← asprintf (pretty (nth 0 response 0));
     s1 ← asprintf (print_hex (nth 1 response 0));
     s2 ← asprintf (print_hex (nth 2 response 0));
     s3 ← asprintf "8";
     RIL_onRequestComplete t RIL_E_SUCCESS (PayStrs [s0; s1; s2; s3]) (4 * sizeof_ptr);;
     at_response_free "p_response")
    (RIL_onRequestComplete t RIL_E_GENERIC_FAILURE PayNull 0;;
     at_response_free "p_response")).

(** The success answer runs into the error label. *)
Definition requestSMSAcknowledge (data : Data) (t : nat) : M unit :=
  frame
    (on_error
       (ackSuccess ← data_int data 0;
        _ ← (if ackSuccess =? 1 then at_command "AT+CNMA=1"
             else if ackSuccess =? 0 then at_command "AT+CNMA=2"
             else goto_error);
        RIL_onRequestComplete t RIL_E_SUCCESS PayNull 0)
       (mret tt);;
     RIL_onRequestComplete t RIL_E_GENERIC_FAILURE PayNull 0).

Definition free_cmd : M unit := cmd ← get_ptr "cmd"; free_ptr cmd.

Definition requestSIM_IO (data : Data) (t : nat) : M unit :=
  match data with
  | DSimIO command fileid p1 p2 p3 arg =>
      frame (on_error
        (let head := "AT+CRSM=" +:+ pretty command +:+ "," +:+ pretty fileid +:+ "," +:+
           pretty p1 +:+ "," +:+ pretty p2 +:+ "," +:+ pretty p3 in
         cmd ← asprintf (match arg with None => head | Some d => head +:+ "," +:+ d end);
         set_ptr "cmd" cmd;;
         s ← read_str cmd;
         err ← at_send_resp "p_response" (KSingle "+CRSM:") s;
         check_lt err "p_response";;
         line ← first_line "p_response";
         line ← line_start line;
         '(sw1, line) ← line_int line;
         '(sw2, line) ← line_int line;
         simResponse ← (if at_tok_hasmore (ln_cur line)
                        then '(r, _) ← line_str line; mret r
                        else mret PNull);
         RIL_onRequestComplete t RIL_E_SUCCESS (PaySimIO sw1 sw2 simResponse)
           sizeof_RIL_SIM_IO_Response;;
         at_response_free "p_response";;
         free_cmd)
        (RIL_onRequestComplete t RIL_E_GENERIC_FAILURE PayNull 0;;
         at_response_free "p_response";;
         free_cmd))
  | DNull => undef NullDeref
  | _ => undef BadArgument
  end.

Definition requestEnterSimPin (data : Data) (datalen : Z) (t : nat) : M unit :=
  frame
    (on_error
       (s ← (if datalen =? sizeof_ptr then
               pin ← data_str data 0; pin ← non_null pin;
               mret ("AT+CPIN=" +:+ pin)
             else if datalen =? 2 * sizeof_ptr then
               s0 ← data_str data 0; s0 ← non_null s0;
               s1 ← data_str data 1; s1 ← non_null s1;
               mret ("AT+CPIN=" +:+ s0 +:+ "," +:+ s1)
             else goto_error);
        cmd ← asprintf s;
        s ← read_str cmd;
        err ← at_send_resp "p_response" (KSingle "+CPIN:") s;
        free_ptr cmd;;
        check_lt err "p_response";;
        RIL_onRequestComplete t RIL_E_SUCCESS PayNull 0)
       (RIL_onRequestComplete t RIL_E_PASSWORD_INCORRECT PayNull 0);;
     at_response_free "p_response").

Definition requestSendUSSD (t : nat) : M unit :=
  RIL_onRequestComplete t RIL_E_REQUEST_NOT_SUPPORTED PayNull 0.

(** ** The SIM *)

(** The code in the answer to AT+CPIN?. *)
Definition cpin_status : M SIM_Status :=
  line ← first_line "p_response";
  check_live (ln_block line);;
  match tok_start (ln_cur line) with
  | None => mret SIM_NOT_READY
  | Some c =>
      match tok_str c with
      | None => mret SIM_NOT_READY
      | Some (cpinResult, _) =>
          mret (if String.eqb cpinResult "SIM PIN" then SIM_PIN
                else if String.eqb cpinResult "SIM PUK" then SIM_PUK
                else if String.eqb cpinResult "PH-NET PIN" then SIM_NETWORK_PERSONALIZATION
                else if String.eqb cpinResult "READY" then SIM_READY
                else SIM_ABSENT)
      end
  end.

(** The query of the SIM that follows the first [return] of [getSIMStatus] and
    is never reached: the state of the card by the answer to AT+CPIN?.  A
    network lock returns without freeing the response. *)
Definition query_cpin : M SIM_Status :=
  frame (
    c ← get_ctx;
    if bool_decide (sState c = RADIO_STATE_OFF) || bool_decide (sState c = RADIO_STATE_UNAVAILABLE)
    then mret SIM_NOT_READY
    else
      err ← at_send_resp "p_response" (KSingle "+CPIN:") "AT+CPIN?";
      ret ← (if negb (err =? 0) then mret SIM_NOT_READY
             else
               r ← deref "p_response";
               let cme := at_get_cme_error (r_val r) in
               if cme =? CME_SIM_NOT_INSERTED then mret SIM_ABSENT
               else if negb (cme =? CME_SUCCESS) then mret SIM_NOT_READY
               else cpin_status);
      when (negb (bool_decide (ret = SIM_NETWORK_PERSONALIZATION))) (at_response_free "p_response");;
      mret ret).

(** Everything after the first [return] is unreachable. *)
Definition getSIMStatus : M SIM_Status := mret SIM_READY.

Definition freeCardStatus (p_card_status : nat) : M unit := free_block p_card_status.

(** The block and the content of the card status. *)
Definition getCardStatus : M (nat * RIL_CardStatus) :=
  sim_status ← getSIMStatus;
  b ← malloc;
  mret (b, card_status sim_status).

Definition pollSIMState : M unit :=
  c ← get_ctx;
  if negb (bool_decide (sState c = RADIO_STATE_SIM_NOT_READY)) then mret tt
  else
    s ← getSIMStatus;
    match s with
    | SIM_NOT_READY => RIL_requestTimedCallback TimedPollSIMState
    | SIM_READY => setRadioState RADIO_STATE_SIM_READY
    | _ => setRadioState RADIO_STATE_SIM_LOCKED_OR_ABSENT
    end.
End handlers.

(** ** The dispatcher *)

Section dispatch.
Context {S P : Type} `{AtPort S} `{Platform P} `{RilConsts} `{RilCodes}.
Abbreviation M := (M S P).

(** A command whose result nobody looks at, then success. *)
Definition fire (cmd : string) (t : nat) : M unit :=
  _ ← at_command cmd;
  RIL_onRequestComplete t RIL_E_SUCCESS PayNull 0.

Definition separateConnection (data : Data) (t : nat) : M unit :=
  party ← data_int data 0;
  if (0 <? party) && (party <? 10) then
    cmd ← sprintf 12 ("AT+CHLD=2" +:+ pretty party);
    fire cmd t
  else RIL_onRequestComplete t RIL_E_GENERIC_FAILURE PayNull 0.

(** [%c] of a NUL byte ends the command. *)
Definition dtmf (data : Data) (t : nat) : M unit :=
  match data with
  | DString s =>
      let c := peek s in
      _ ← command_fmt ("AT+VTS=" +:+ if Ascii.eqb c NUL then "" else String c "");
      RIL_onRequestComplete t RIL_E_SUCCESS PayNull 0
  | DNull => undef NullDeref
  | _ => undef BadArgument
  end.

Definition cancelUSSD (t : nat) : M unit :=
  frame
    (err ← at_send_resp "p_response" KNumeric "AT+CUSD=2";
     b ← failed_lt err "p_response";
     (if (b : bool) then RIL_onRequestComplete t RIL_E_GENERIC_FAILURE PayNull 0
      else
        line ← first_line "p_response";
        RIL_onRequestComplete t RIL_E_SUCCESS
          (PayStr (match ln_cur line with Some s => PHeap (ln_block line) s | None => PNull end))
          sizeof_ptr);;
     at_response_free "p_response").

Definition deleteSmsOnSim (data : Data) (t : nat) : M unit :=
  frame
    (i ← data_int data 0;
     cmd ← asprintf ("AT+CMGD=" +:+ pretty i);
     s ← read_str cmd;
     err ← at_send_resp "p_response" KPlain s;
     free_ptr cmd;;
     b ← failed_lt err "p_response";
     (if (b : bool) then RIL_onRequestComplete t RIL_E_GENERIC_FAILURE PayNull 0
      else RIL_onRequestComplete t RIL_E_SUCCESS PayNull 0);;
     at_response_free "p_response").

Definition getSimStatusRequest (t : nat) : M unit :=
  '(p_card_status, card) ← getCardStatus;
  RIL_onRequestComplete t RIL_E_SUCCESS (PayCard card) sizeof_RIL_CardStatus;;
  freeCardStatus p_card_status.

Definition networkSelection (cmd : string) (mode : Z) (t : nat) : M unit :=
  _ ← at_command cmd;
  put_ctx (set_networkSelectMode mode);;
  RIL_onRequestComplete t RIL_E_SUCCESS PayNull 0.

(** The [switch] from the SMS cases on; [None] is a code that has no case. *)
Definition dispatch_services (request : option Request) (data : Data) (datalen : Z) (t : nat) : M unit :=
  match request with
  | Some RIL_REQUEST_SEND_SMS => requestSendSMSEVDO data t
  | Some RIL_REQUEST_SETUP_DATA_CALL => requestSetupDataCallEVDO t
  | Some RIL_REQUEST_DEACTIVATE_DATA_CALL => requestDeactivateDataCallEVDO data t
  | Some RIL_REQUEST_LAST_DATA_CALL_FAIL_CAUSE => requestDataCallFailCause t
  | Some RIL_REQUEST_SMS_ACKNOWLEDGE => requestSMSAcknowledge data t
  | Some RIL_REQUEST_GET_IMSI => requestGetIMSI t
  | Some RIL_REQUEST_BASEBAND_VERSION => requestBasebandVersion t
  | Some RIL_REQUEST_GET_IMEI => requestGetIMEI t
  | Some RIL_REQUEST_SET_PREFERRED_NETWORK_TYPE => requestSetPreferredNetworkType data t
  | Some RIL_REQUEST_GET_PREFERRED_NETWORK_TYPE => requestGetPreferredNetworkType t
  | Some RIL_REQUEST_SIM_IO => requestSIM_IO data t
  | Some RIL_REQUEST_SEND_USSD => requestSendUSSD t
  | Some RIL_REQUEST_CANCEL_USSD => cancelUSSD t
  | Some RIL_REQUEST_QUERY_NETWORK_SELECTION_MODE => requestQueryNetworkSelectionMode t
  | Some RIL_REQUEST_SET_NETWORK_SELECTION_AUTOMATIC => networkSelection "AT+COPS=0" 0 t
  | Some RIL_REQUEST_SET_NETWORK_SELECTION_MANUAL => networkSelection "AT+COPS=1" 1 t
  | Some RIL_REQUEST_QUERY_AVAILABLE_NETWORKS => requestQueryAvailableNetworks t
  | Some RIL_REQUEST_DATA_CALL_LIST => requestDataCallList t
  | Some RIL_REQUEST_OEM_HOOK_RAW | Some RIL_REQUEST_OEM_HOOK_STRINGS =>
      RIL_onRequestComplete t RIL_E_SUCCESS PayEcho datalen
  | Some RIL_REQUEST_WRITE_SMS_TO_SIM => requestWriteSmsToSim data t
  | Some RIL_REQUEST_DELETE_SMS_ON_SIM => deleteSmsOnSim data t
  | Some RIL_REQUEST_ENTER_SIM_PIN | Some RIL_REQUEST_ENTER_SIM_PUK
  | Some RIL_REQUEST_ENTER_SIM_PIN2 | Some RIL_REQUEST_ENTER_SIM_PUK2
  | Some RIL_REQUEST_CHANGE_SIM_PIN | Some RIL_REQUEST_CHANGE_SIM_PIN2 =>
      requestEnterSimPin data datalen t
  | _ => RIL_onRequestComplete t RIL_E_RADIO_NOT_AVAILABLE PayNull 0
  end.

(** The [switch]: the cases of cards, calls and the radio, then the others. *)
Definition dispatch (request : option Request) (data : Data) (datalen : Z) (t : nat) : M unit :=
  match request with
  | Some RIL_REQUEST_GET_SIM_STATUS => getSimStatusRequest t
  | Some RIL_REQUEST_GET_CURRENT_CALLS => requestGetCurrentCallsEVDO t
  | Some RIL_REQUEST_SCREEN_STATE => requestScreenState data datalen t
  | Some RIL_REQUEST_DIAL => requestDial data t
  | Some RIL_REQUEST_HANGUP => requestHangup data t
  | Some RIL_REQUEST_HANGUP_WAITING_OR_BACKGROUND => fire "AT+CHLD=0" t
  | Some RIL_REQUEST_HANGUP_FOREGROUND_RESUME_BACKGROUND => fire "AT+CHLD=1" t
  | Some RIL_REQUEST_SWITCH_WAITING_OR_HOLDING_AND_ACTIVE => fire "AT+CHLD=2" t
  | Some RIL_REQUEST_ANSWER => fire "ATA" t
  | Some RIL_REQUEST_CONFERENCE => fire "AT+CHLD=3" t
  | Some RIL_REQUEST_UDUB => fire "ATH" t
  | Some RIL_REQUEST_SEPARATE_CONNECTION => separateConnection data t
  | Some RIL_REQUEST_SIGNAL_STRENGTH => requestSignalStrength t
  | Some RIL_REQUEST_REGISTRATION_STATE =>
      requestRegistrationStateEVDO RIL_REQUEST_REGISTRATION_STATE t
  | Some RIL_REQUEST_GPRS_REGISTRATION_STATE =>
      requestRegistrationStateEVDO RIL_REQUEST_GPRS_REGISTRATION_STATE t
  | Some RIL_REQUEST_OPERATOR => requestOperator t
  | Some RIL_REQUEST_RADIO_POWER => requestRadioPower data datalen t
  | Some RIL_REQUEST_DTMF => dtmf data t
  | _ => dispatch_services request data datalen t
  end.

(** The requests that are served while the radio is off. *)
Definition allowed_when_off (request : option Request) : bool :=
  match request with
  | Some RIL_REQUEST_RADIO_POWER | Some RIL_REQUEST_GET_SIM_STATUS
  | Some RIL_REQUEST_SCREEN_STATE => true
  | _ => false
  end.

Definition onRequest (request : Z) (data : Data) (datalen : Z) (t : nat) : M unit :=
  c ← get_ctx;
  if bool_decide (sState c = RADIO_STATE_OFF) && negb (allowed_when_off (decode request))
  then RIL_onRequestComplete t RIL_E_RADIO_NOT_AVAILABLE PayNull 0
  else dispatch (decode request) data datalen t.

Definition currentState : M RIL_RadioState := c ← get_ctx; mret (sState c).

(** Requests are not cancelled, and the version is a constant. *)
Definition onCancel (t : nat) : M unit := mret tt.
Definition getVersion : string := "Fusion Wireless RIL 1.0".

(** Its body is compiled out. *)
Definition sendCallStateChanged : M unit := mret tt.

(** ** Start-up, the RIL event loop and the main loop *)

Definition run_commands (cmds : list string) : M unit :=
  foldr (λ cmd m, _ ← at_command cmd; m) (mret tt) cmds.

Definition atcommand_init : M unit :=
  frame
    (run_commands ["ATE0Q0V1"; "ATS0=0"; "AT+CMEE=1"];;
     _ ← at_send_resp "p_response" KPlain "AT+CREG=1";
     at_response_free "p_response";;
     run_commands ["AT+VMCCMNC=0"; "AT+ARSI=1,4"; "AT+CMGF=0"; "AT^MEID"; "AT+VMDN?";
                   "AT^HDRCSQ"; "AT^SYSINFO"; "AT+CSNID?"];;
     c ← get_ctx;
     when (negb (gpsFifoEnable c =? 0) || negb (gpsTtyEnable c =? 0))
       (run_commands ["AT^GPSLOC=0"; "AT^GPSMODE=1"; "AT^GPSQOS=1,255"; "AT^GPSLOC=1,1"])).

Definition initializeCallback : M unit :=
  setRadioState RADIO_STATE_OFF;;
  _ ← handshake;
  atcommand_init;;
  on ← isRadioOn;
  when (0 <? on) (setRadioState RADIO_STATE_SIM_NOT_READY).

(** One round of the monitoring loop of [mainLoop]; [false]: the session is
    closed and the port is opened again. *)
Definition monitor_round : M bool :=
  sleep 10;;
  c ← get_ctx;
  when (moduleIsActivated c =? 0) (_ ← activateHelper 1; mret tt);;
  c ← get_ctx;
  if negb (s_closed c =? 0) then mret false
  else
    (when (screenState c =? 1) fw100ModemTimer;;
     mret true).

(** The part of [initSessionContext] before the control file is read. *)
Definition MAX_AUTO_ACTIVATE_RETRY : Z := 6.

Definition init_fields (c : Ctx) (devname : string) : Ctx :=
  set_moduleActivateRetry MAX_AUTO_ACTIVATE_RETRY
    (set_moduleIsActivated 0 (set_moduleAutoActivate 1
      (set_s_data_devname (Some devname)
        (set_gpsTtyFD (-1) (set_gpsFifoFD (-1) (set_gpsTtyEnable 1
          (set_dataCallIsAutomatic 0 (set_inDataCall DATA_STATE_DISCONNECTED
            (set_screenState SCREEN_IS_OFF (set_networkSelectMode 1
              (set_s_closed 0 (set_s_port (-1) (set_sState RADIO_STATE_OFF c))))))))))))).

Definition initSessionContext : M unit :=
  c ← get_ctx;
  path ← non_null (s_data_path c);
  devname ← match trim_path path with Some d => mret d | None => undef OutOfBounds end;
  put_ctx (λ c, init_fields c devname);;
  _ ← rilReadControl RIL_CONTROL_FILEPATH;
  mret tt.

(** The options [getopt] delivers, applied to the zeroed context; [None] is
    the usage message. *)
Fixpoint parse_options (opts : list (ascii * string)) (c : Ctx) : option Ctx :=
  match opts with
  | [] => Some c
  | (opt, optarg) :: opts' =>
      if Ascii.eqb opt "p"%char then
        if atoi optarg =? 0 then None else parse_options opts' (set_s_port (atoi optarg) c)
      else if Ascii.eqb opt "a"%char then parse_options opts' (set_s_atctrl_path (Some optarg) c)
      else if Ascii.eqb opt "d"%char then parse_options opts' (set_s_data_path (Some optarg) c)
      else if Ascii.eqb opt "s"%char then
        parse_options opts' (set_s_device_socket 1 (set_s_atctrl_path (Some optarg) c))
      else None
  end.

(** What the RIL library calls the driver through. *)
Record RIL_RadioFunctions := MkRadioFunctions {
  rf_version : Z;
  rf_onRequest : Z → Data → Z → nat → M unit;
  rf_onStateRequest : M RIL_RadioState;
  rf_supports : Z → Z;
  rf_onCancel : nat → M unit;
  rf_getVersion : string
}.

Definition myRILDriverCallbacks : RIL_RadioFunctions :=
  MkRadioFunctions RIL_VERSION onRequest currentState onSupports onCancel getVersion.

End dispatch.

(** ** Specifications *)

(** An SMS whose PDU has a last byte to replace, and whose debug line fits
    [char tmp[128]]; ril.h asks for neither. *)
Definition sms_fits (smsc : option string) (pdu : string) : Prop :=
  pdu ≠ "" ∧ strlen (default "00" smsc) + strlen pdu ≤ 98.

(** The data the framework passes with a request, by ril.h. *)
Definition valid_data (r : Request) (data : Data) (datalen : Z) : Prop :=
  match r with
  | RIL_REQUEST_SCREEN_STATE | RIL_REQUEST_RADIO_POWER =>
      sizeof_ptr ≤ datalen ∧ ∃ z zs, data = DInts (z :: zs)
  | RIL_REQUEST_HANGUP | RIL_REQUEST_SEPARATE_CONNECTION | RIL_REQUEST_SMS_ACKNOWLEDGE
  | RIL_REQUEST_SET_PREFERRED_NETWORK_TYPE | RIL_REQUEST_DELETE_SMS_ON_SIM =>
      ∃ z zs, data = DInts (z :: zs)
  | RIL_REQUEST_DIAL => ∃ address clir, data = DDial address clir
  | RIL_REQUEST_DTMF => ∃ s, data = DString s
  | RIL_REQUEST_SIM_IO => ∃ c f p1 p2 p3 d, data = DSimIO c f p1 p2 p3 d
  | RIL_REQUEST_WRITE_SMS_TO_SIM => ∃ status pdu, data = DSmsWrite status pdu
  | RIL_REQUEST_DEACTIVATE_DATA_CALL => ∃ s ss, data = DStrings (s :: ss)
  | RIL_REQUEST_SEND_SMS =>
      ∃ smsc pdu ss, data = DStrings (smsc :: Some pdu :: ss)
  | RIL_REQUEST_ENTER_SIM_PIN | RIL_REQUEST_ENTER_SIM_PUK
  | RIL_REQUEST_ENTER_SIM_PIN2 | RIL_REQUEST_ENTER_SIM_PUK2
  | RIL_REQUEST_CHANGE_SIM_PIN | RIL_REQUEST_CHANGE_SIM_PIN2 =>
      (datalen = sizeof_ptr → ∃ s ss, data = DStrings (Some s :: ss)) ∧
      (datalen = 2 * sizeof_ptr → ∃ s0 s1 ss, data = DStrings (Some s0 :: Some s1 :: ss))
  | _ => True
  end.

Section specs.
Context {S P : Type} `{AtPortOk S} `{PlatformOk P} `{RilConsts} `{RilCodes} (t0 : nat).
Abbreviation wps := (wps (S := S) (P := P) t0).

Lemma wps_onSIMReady Q E l a : Q tt l a → wps onSIMReady Q E l a.
Proof. intros HQ. unfold onSIMReady. wstep. wstep. by apply wps_ret. Qed.

Lemma wps_setRadioState s Q E l a : Q tt l a → wps (setRadioState s) Q E l a.
Proof. apply wps_setRadioState_with. intros a' HQ. by apply wps_onSIMReady. Qed.

Lemma wps_command_fmt s Q E l L n k :
  (∀ r, Q r l (MkAbs L (Datatypes.S n) k)) → wps (command_fmt s) Q E l (MkAbs L n k).
Proof. intros HQ. unfold command_fmt. wauto. apply HQ. Qed.

End specs.

Ltac wstep_call ::=
  lazymatch goal with
  | |- wps _ (upper_id _) _ _ _ _ => apply wps_upper_id; [live|intros ?]
  | |- wps _ (setRadioState _) _ _ _ _ => apply wps_setRadioState
  | |- wps _ (command_fmt _) _ _ _ _ => apply wps_command_fmt; intros ?
  | |- wps _ isRadioOn _ _ _ _ => apply wps_isRadioOn; intros ? ? ?
  end.

Section answers.
Context {S P : Type} `{AtPortOk S} `{PlatformOk P} `{RilConsts} `{RilCodes} (t0 : nat).
Abbreviation wps := (wps (S := S) (P := P) t0).
Abbreviation answered := (answered (S := S) (P := P) t0).

Lemma requestRadioPower_answered z zs datalen t :
  sizeof_ptr ≤ datalen → answered t 1 (requestRadioPower (DInts (z :: zs)) datalen t).
Proof.
  intros Hd. apply answered_frame. intros L n k. unfold requestRadioPower, assert.
  rewrite (proj2 (Z.leb_le _ _) Hd), data_int_head. do 8 wstep.
  match goal with c : Ctx |- _ => destruct ((z =? 0) && negb (bool_decide (sState c = RADIO_STATE_OFF)));
    [|destruct ((0 <? z) && bool_decide (sState c = RADIO_STATE_OFF))] end.
  - wauto; wdone.
  - wauto; try wdone; destruct (negb (_ =? 1)); wauto; wdone.
  - wauto; wdone.
Qed.

Lemma requestQueryNetworkSelectionMode_answered t :
  answered t 1 (requestQueryNetworkSelectionMode t).
Proof.
  apply answered_frame. intros L n k. unfold requestQueryNetworkSelectionMode. wauto; wdone.
Qed.

Lemma requestDial_answered address clir t : answered t 1 (requestDial (DDial address clir) t).
Proof. intros l L n k. unfold requestDial. wauto; wdone. Qed.

Lemma requestHangup_answered z zs t : answered t 1 (requestHangup (DInts (z :: zs)) t).
Proof. intros l L n k. unfold requestHangup. rewrite data_int_head. wauto; wdone. Qed.

Lemma requestSIM_IO_answered c f p1 p2 p3 d t :
  answered t 1 (requestSIM_IO (DSimIO c f p1 p2 p3 d) t).
Proof.
  apply answered_frame. intros L n k. unfold free_cmd. wauto; try wdone.
  destruct (at_tok_hasmore _); wauto; wdone.
Qed.

Lemma fire_answered cmd t : answered t 1 (fire cmd t).
Proof. intros l L n k. unfold fire. wauto; wdone. Qed.

Lemma cancelUSSD_answered t : answered t 1 (cancelUSSD t).
Proof.
  apply answered_frame. intros L n k. wauto; try wdone.
  destruct (p_intermediates r) as [|x xs] eqn:Ei;
    [exfalso; match goal with Hr : _ → _ ≠ _ |- _ => apply Hr; reflexivity end|].
  eapply wps_first_line; [reflexivity|live|exact Ei|]. simpl; wauto; wdone.
Qed.

Lemma requestEnterSimPin_answered data datalen t :
  valid_data RIL_REQUEST_ENTER_SIM_PIN data datalen →
  answered t 1 (requestEnterSimPin data datalen t).
Proof.
  intros [H1' H2']. apply answered_frame. intros L n k. unfold non_null. wstep. wstep. wstep.
  destruct (Z.eqb_spec datalen sizeof_ptr) as [E1|_].
  { destruct (H1' E1) as (s & ss & ->).
    change (data_str (DStrings (Some s :: ss)) 0) with (mret (M := M S P) (Some s)).
    wauto; wdone. }
  destruct (Z.eqb_spec datalen (2 * sizeof_ptr)) as [E2|_]; [|wauto; wdone].
  destruct (H2' E2) as (s0 & s1 & ss & ->).
  change (data_str (DStrings (Some s0 :: Some s1 :: ss)) 0) with (mret (M := M S P) (Some s0)).
  change (data_str (DStrings (Some s0 :: Some s1 :: ss)) 1) with (mret (M := M S P) (Some s1)).
  wauto; wdone.
Qed.

Lemma separateConnection_answered z zs t :
  answered t 1 (separateConnection (DInts (z :: zs)) t).
Proof.
  intros l L n k. unfold separateConnection. rewrite data_int_head. wstep. wstep.
  destruct (Z.ltb_spec 0 z); [|cbn [andb]; wauto; wdone].
  destruct (Z.ltb_spec z 10); cbn [andb]; [|wauto; wdone].
  wstep. apply wps_sprintf; [|apply fire_answered].
  assert (z = 1 ∨ z = 2 ∨ z = 3 ∨ z = 4 ∨ z = 5 ∨ z = 6 ∨ z = 7 ∨ z = 8 ∨ z = 9) as Hz by lia.
  by repeat destruct Hz as [->|Hz]; try subst z.
Qed.

Lemma dtmf_answered s t : answered t 1 (dtmf (DString s) t).
Proof. intros l L n k. unfold dtmf. wauto; wdone. Qed.

Lemma deleteSmsOnSim_answered z zs t : answered t 1 (deleteSmsOnSim (DInts (z :: zs)) t).
Proof.
  apply answered_frame. intros L n k. rewrite data_int_head. wauto; try wdone.
  match goal with |- context [if ?v then _ else _] => destruct v end; wauto; wdone.
Qed.

Lemma getSimStatusRequest_answered t : answered t 1 (getSimStatusRequest t).
Proof.
  intros l L n k. unfold getSimStatusRequest, getCardStatus, getSIMStatus, freeCardStatus. wauto.
  apply wps_malloc. wauto. eapply wps_free_block; [del_block|]. wdone.
Qed.

Lemma networkSelection_answered cmd mode t : answered t 1 (networkSelection cmd mode t).
Proof. intros l L n k. unfold networkSelection. wauto; wdone. Qed.

Lemma terminate_pdu_some pdu :
  pdu ≠ "" → ∃ pdu' z, terminate_pdu pdu = Some (pdu', z) ∧ strlen pdu' = strlen pdu ∧ (z = 0 ∨ z = 1).
Proof.
  intros Hne. unfold terminate_pdu. destruct (rev (list_ascii_of_string pdu)) as [|c r] eqn:E.
  { destruct pdu as [|c pdu]; [done|]. simpl in E. by destruct (rev (list_ascii_of_string pdu)). }
  do 2 eexists. split; [reflexivity|]. split; [|destruct (Ascii.eqb c CTRL_Z); auto].
  unfold strlen. f_equal. assert (Hlen : ∀ s, String.length s = length (list_ascii_of_string s))
    by (intros s; induction s; simpl; congruence).
  rewrite !Hlen, list_ascii_of_string_of_list_ascii, length_rev.
  by rewrite <-(length_rev (list_ascii_of_string pdu)), E.
Qed.

Lemma requestSendSMSEVDO_answered smsc pdu ss t :
  sms_fits smsc pdu → answered t 1 (requestSendSMSEVDO (DStrings (smsc :: Some pdu :: ss)) t).
Proof.
  intros [Hne Hlen]. apply answered_frame. intros L n k. unfold non_null. do 3 wstep.
  change (data_str (DStrings (smsc :: Some pdu :: ss)) 0) with (mret (M := M S P) smsc).
  change (data_str (DStrings (smsc :: Some pdu :: ss)) 1) with (mret (M := M S P) (Some pdu)).
  do 6 wstep. destruct (terminate_pdu_some pdu Hne) as (pdu' & z & -> & Hpdu & Hz). do 2 wstep.
  destruct smsc as [smsc|]; cbn [default Datatypes.id] in Hlen; wstep; apply wps_sprintf;
    [|wauto; wdone| |wauto; wdone];
    rewrite !strlen_app, Hpdu; destruct Hz as [-> | ->];
    change (strlen "smsc=") with 5; change (strlen " pdu=") with 5; change (strlen " ctrlz=") with 7;
    change (strlen " nulsmsc=") with 9; change (strlen (String LF "")) with 1;
    change (strlen (pretty 0)) with 1; change (strlen (pretty 1)) with 1;
    change (strlen "00") with 2 in *; lia.
Qed.

Lemma requestSendUSSD_answered t : answered t 1 (requestSendUSSD t).
Proof. intros l L n k. unfold requestSendUSSD. wauto; wdone. Qed.

Lemma echo_answered e len t : answered t 1 (RIL_onRequestComplete t e PayEcho len).
Proof. intros l L n k. wauto; wdone. Qed.

Lemma refuse_answered e t : answered t 1 (RIL_onRequestComplete t e PayNull 0).
Proof. intros l L n k. wauto; wdone. Qed.
End answers.

