(* ===== verification/RilMain.v ===== *)
(** * mainLoop in fw100-ril.c: start-up, opening the port, the life of a session

    The system calls of one attempt to open the port are an [Attempt]; the
    loop of [mainLoop] is a sequence of sessions, each from an opened port to
    the close that the reader thread reports.  At the end, what [RIL_Init] makes
    of the options of the driver and what the main loop then opens. *)

From S2P Require Import Prelude CString AtTok AtReader AtChannel RilInfo RilBase RilLogic RilReader RilSim RilUtils RilAuto RilRqst RilData RilTimer Ril.

Open Scope Z_scope.

(** ** The terminal settings *)

(** The bits of termios.h, which are the platform's. *)
Class TermiosBits := {
  CLOCAL : Z; CREAD : Z; ICANON : Z; ECHO : Z; ECHOE : Z; ISIG : Z; OPOST : Z; B115200 : Z
}.

Record Termios := MkTermios {
  c_cflag : Z; c_lflag : Z; c_oflag : Z; c_VMIN : Z; c_VTIME : Z; c_ispeed : Z; c_ospeed : Z
}.

(** What is done to an open port.  [n]: the result of the call. *)
Inductive PortOp :=
  | OpSetFlags                            (** [fcntl(fd, F_SETFL, 0)] *)
  | OpFlush                               (** [tcflush(fd, TCIFLUSH)] *)
  | OpTcsetattr (ios : Termios) (n : Z)   (** [tcsetattr(fd, TCSANOW, &ios)] *)
  | OpWrite (s : string) (n : Z)
  | OpRead (bs : list ascii).             (** the bytes [read] stored *)

(** What [configure_modem_fd] makes of the settings it read. *)
Definition configure_termios `{TermiosBits} (ios : Termios) : Termios :=
  MkTermios (Z.lor (c_cflag ios) (Z.lor CLOCAL CREAD))
    (Z.land (c_lflag ios) (Z.lnot (Z.lor (Z.lor (Z.lor ICANON ECHO) ECHOE) ISIG)))
    (Z.land (c_oflag ios) (Z.lnot OPOST)) 1 0 B115200 B115200.

(** [ios] is what [tcgetattr] stored, [rc] what [tcsetattr] returns. *)
Definition configure_modem_fd `{TermiosBits} (ios : Termios) (rc : Z) : Z * list PortOp :=
  (if negb (rc =? 0) then -1 else 0, [OpSetFlags; OpFlush; OpTcsetattr (configure_termios ios) rc]).

Definition AT_CR : string := "AT" +:+ String CR "".

(** One attempt of [sync_modem] after a successful write: the bytes read so
    far, and what each [read] delivers ([] for end of file or an error).  The
    buffer has 255 bytes, the last one kept for the terminator. *)
Fixpoint sync_read (buffer : list ascii) (reads : list (list ascii))
    : bool * list (list ascii) * list PortOp :=
  match reads with
  | [] => (false, [], [OpRead []])
  | bs :: reads' =>
      match take (254 - length buffer) bs with
      | [] => (false, reads', [OpRead []])
      | got =>
          let buffer := buffer ++ got in
          if strstr (default "" (c_str (buffer ++ [NUL]))) "OK" then (true, reads', [OpRead got])
          else let '(ok, rest, ops) := sync_read buffer reads' in (ok, rest, OpRead got :: ops)
      end
  end.

(** [writes]: the results of [write(fd, "AT\r", 3)]. *)
Fixpoint sync_tries (tries : nat) (writes : list Z) (reads : list (list ascii)) : Z * list PortOp :=
  match tries with
  | O => (0, [])
  | Datatypes.S tries' =>
      match writes with
      | w :: writes' =>
          if w <? 3 then
            let '(ret, ops) := sync_tries tries' writes' reads in (ret, OpWrite AT_CR w :: ops)
          else
            let '(ok, reads', ops) := sync_read [] reads in
            if ok : bool then (0, OpWrite AT_CR w :: ops)
            else let '(ret, ops') := sync_tries tries' writes' reads' in
                 (ret, OpWrite AT_CR w :: ops ++ ops')
      | [] => let '(ret, ops) := sync_tries tries' [] reads in (ret, OpWrite AT_CR (-1) :: ops)
      end
  end.

Definition sync_modem (writes : list Z) (reads : list (list ascii)) : Z * list PortOp :=
  sync_tries 100 writes reads.

(** ** Opening the port *)

(** What the library prints for an error, and for a null pointer as %s. *)
Class Messages := { EAGAIN : Z; strerror : Z → string; null_string : string }.

Record Attempt := MkAttempt {
  a_loopback : Z;               (** [socket_loopback_client] *)
  a_local : string → Z;         (** [socket_local_client] *)
  a_qemu_write : Z;             (** [write(fd, "gsm", 3)] *)
  a_qemu_read : Z;              (** [read(fd, answer, 2)] and what it read *)
  a_qemu_answer : list ascii;
  a_open : Z;                   (** [open] *)
  a_open_errno : Z;             (** [errno] after it; an [open] that succeeds leaves an old value *)
  a_ios : Termios;
  a_tcsetattr : Z;
  a_writes : list Z;            (** the calls of [sync_modem] *)
  a_reads : list (list ascii);
  a_errno : Z                   (** [errno] when the attempt is over *)
}.

Definition QEMUD_SOCKET : string := "/dev/socket/qemud".

(** The greeting of the emulator's control socket succeeded. *)
Definition qemu_ok (a : Attempt) : bool :=
  (a_qemu_write a =? 3) && (a_qemu_read a =? 2) &&
  bool_decide (take 2 (a_qemu_answer a) = chars "OK").

(** What one attempt leaves: the descriptor (-1 for none), the descriptors it
    opened, those it closed, and what it did to a device. *)
Record Opened := MkOpened { o_fd : Z; o_open : list Z; o_closed : list Z; o_ops : list PortOp }.

Definition got (fd : Z) : list Z := if fd <? 0 then [] else [fd].

(** The lines that are printed into [char tmp[128]]. *)
Definition start_line `{Messages} (c : Ctx) : string :=
  "starting at:" +:+ default null_string (s_atctrl_path c) +:+ " data:" +:+
  default null_string (s_data_path c) +:+ String LF "".

Definition error_line `{Messages} (c : Ctx) (errno : Z) : string :=
  "error open devname " +:+ default null_string (s_atctrl_path c) +:+ " err=" +:+ pretty errno +:+
  " " +:+ strerror errno +:+ String LF "".

Definition launch_line `{Messages} (c : Ctx) (fd : Z) : string :=
  "launching at_open on fd:" +:+ pretty fd +:+ " " +:+ default null_string (s_atctrl_path c) +:+ String LF "".

(** The body of [while (fd < 0)] up to [check_fd]; [None] when a null path is
    compared. *)
Definition open_attempt `{TermiosBits, Messages} (c : Ctx) (a : Attempt) : option Opened :=
  if 0 <? s_port c then Some (MkOpened (a_loopback a) (got (a_loopback a)) [] [])
  else if negb (s_device_socket c =? 0) then
    path ← s_atctrl_path c;
    if String.eqb path QEMUD_SOCKET then
      let fd := a_local a "qemud" in
      if (0 <=? fd) && negb (qemu_ok a) then Some (MkOpened (-1) [fd] [fd] [])
      else Some (MkOpened fd (got fd) [] [])
    else let fd := a_local a path in Some (MkOpened fd (got fd) [] [])
  else
    match s_atctrl_path c with
    | None => Some (MkOpened (-1) [] [] [])
    | Some _ =>
        let fd := a_open a in
        if a_open_errno a =? EAGAIN then Some (MkOpened fd (got fd) [] [])
        else if 0 <=? fd then
          let '(ret, ops) := configure_modem_fd (a_ios a) (a_tcsetattr a) in
          if negb (ret =? 0) then Some (MkOpened (-1) [fd] [fd] ops)
          else
            let '(ret, ops') := sync_modem (a_writes a) (a_reads a) in
            if negb (ret =? 0) then Some (MkOpened (-1) [fd] [fd] (ops ++ ops'))
            else Some (MkOpened fd [fd] [] (ops ++ ops'))
        else Some (MkOpened fd [] [] [])
    end.

(** The line printed after an attempt: of the error before the next one, or of
    the launch once the port is open. *)
Definition attempt_line `{TermiosBits, Messages} (c : Ctx) (a : Attempt) (o : Opened) : string :=
  if o_fd o <? 0 then error_line c (a_errno a) else launch_line c (o_fd o).

(** The loop opened the port, after that many seconds of sleep and with those
    attempts unused; or ran into undefined behaviour; or goes on after the attempts given. *)
Inductive OpenLoop :=
  | OlOpened (o : Opened) (slept : Z) (rest : list Attempt)
  | OlUndef (u : Ub)
  | OlTrying.

(** [while (fd < 0)] and the line after it: an attempt that fails is followed by
    [sleep(5)]. *)
Fixpoint open_loop `{TermiosBits, Messages} (c : Ctx) (attempts : list Attempt) (slept : Z) : OpenLoop :=
  match attempts with
  | [] => OlTrying
  | a :: attempts' =>
      match open_attempt c a with
      | None => OlUndef NullDeref
      | Some o =>
          if 128 <=? strlen (attempt_line c a o) then OlUndef OutOfBounds
          else if o_fd o <? 0 then open_loop c attempts' (slept + 5)
          else OlOpened o slept attempts'
      end
  end.

(** ** Sessions *)

Section sessions.
Context {S P : Type} `{AtPort S} `{Platform P}.
Abbreviation M := (M S P).

(** From the opened port to the monitoring loop: [at_open] returns [ret] and
    leaves the channel in the state [p]; [false] when the thread ends. *)
Definition session_start (p : S) (ret : Z) : M bool :=
  put_ctx (λ c, set_s_closed 0 (set_mainIsStarted 1 c));;
  update (with_port p);;
  if ret <? 0 then mret false
  else (RIL_requestTimedCallback TimedInitialize;; mret true).

(** [do ... while (1)], up to [n] rounds; [true] when it was left. *)
Fixpoint monitor_loop (n : nat) : M bool :=
  match n with
  | O => mret false
  | Datatypes.S n' => again ← monitor_round; if again : bool then monitor_loop n' else mret true
  end.

(** Before the loop: [rilWriteGPSTty(ctx, NULL, 1)] creates the terminal for
    the GPS output. *)
Definition mainLoop_start : M unit :=
  c ← get_ctx;
  when (negb (gpsTtyEnable c =? 0)) (_ ← rilWriteGPSTty None 1; mret tt).

(** [mainLoop] up to [mainIsStarted = 1]: it prints what it starts with, creates
    the terminal and opens the port.  [Hang] when the attempts given end without
    a descriptor. *)
Definition mainLoop_open `{TermiosBits, Messages} (attempts : list Attempt) : M Opened :=
  c ← get_ctx;
  _ ← sprintf 128 (start_line c);
  mainLoop_start;;
  c ← get_ctx;
  match open_loop c attempts 0 with
  | OlOpened o _ _ => put_ctx (set_mainIsStarted 1);; mret o
  | OlUndef u => undef u
  | OlTrying => λ _ _, Hang
  end.

(** [RIL_Init]; [None] when it returns NULL.  [created]: the main loop thread is
    created (the result of [pthread_create] is not looked at).  The loop of
    [sleep(1)] ends when the main loop has set [mainIsStarted]; the state is the
    one at that moment. *)
Definition RIL_Init `{TermiosBits, Messages, RilConsts, RilCodes} (opts : list (ascii * string))
    (created : bool) (attempts : list Attempt) : M (option (RIL_RadioFunctions (S := S) (P := P))) :=
  put_ctx (λ _, zero_ctx);;
  match parse_options opts zero_ctx with
  | None => mret None
  | Some c =>
      put_ctx (λ _, c);;
      if (s_port c <? 0) && match s_atctrl_path c with None => true | Some _ => false end
      then mret None
      else
        initSessionContext;;
        if created then _ ← mainLoop_open attempts; mret (Some myRILDriverCallbacks)
        else λ _ _, Hang
  end.

(** One round of [for (;;)] from the opened port on: [None] when the thread
    returned, otherwise whether the session ended within [n] rounds. *)
Definition session (p : S) (ret : Z) (n : nat) : M (option bool) :=
  started ← session_start p ret;
  if started : bool then (ended ← monitor_loop n; mret (Some ended)) else mret None.
End sessions.

(** ** Specifications *)

(** The settings of a raw line at 115200 baud that is read byte by byte. *)
Definition raw_line `{TermiosBits} (t : Termios) : Prop :=
  Z.land (c_lflag t) ICANON = 0 ∧ Z.land (c_lflag t) ECHO = 0 ∧ Z.land (c_lflag t) ECHOE = 0 ∧
  Z.land (c_lflag t) ISIG = 0 ∧ Z.land (c_oflag t) OPOST = 0 ∧ Z.land (c_cflag t) CLOCAL = CLOCAL ∧
  Z.land (c_cflag t) CREAD = CREAD ∧ c_VMIN t = 1 ∧ c_VTIME t = 0 ∧
  c_ispeed t = B115200 ∧ c_ospeed t = B115200.

(** What was read, and whether OK is in it. *)
Definition received (ops : list PortOp) : list ascii :=
  flat_map (λ op, match op with OpRead bs => bs | _ => [] end) ops.

Definition says_ok (ops : list PortOp) : bool :=
  strstr (default "" (c_str (received ops ++ [NUL]))) "OK".

(** One try: AT and a CR are written; if all three bytes were, what comes is read. *)
Definition is_try (ops : list PortOp) : Prop :=
  ∃ n reads, ops = OpWrite AT_CR n :: (OpRead <$> reads) ∧ (n < 3 → reads = []).

(** The exchange ends with the first try that is answered OK, or after 100. *)
Definition synchronised (ops : list PortOp) : Prop :=
  ∃ tries final, ops = concat tries ++ final ∧ Forall (λ t, is_try t ∧ says_ok t = false) tries ∧
    is_try final ∧ (length tries < 100)%nat ∧ (says_ok final = true ∨ length tries = 99%nat).

(** The port was set to raw mode, and then synchronised. *)
Definition brought_up `{TermiosBits} (ops : list PortOp) : Prop :=
  ∃ before t exchange, ops = before ++ OpTcsetattr t 0 :: exchange ∧ raw_line t ∧ synchronised exchange.

Lemma sync_read_spec buffer reads ok rest ops :
  sync_read buffer reads = (ok, rest, ops) → strstr (default "" (c_str (buffer ++ [NUL]))) "OK" = false →
  ∃ bss, ops = OpRead <$> bss ∧
    strstr (default "" (c_str ((buffer ++ concat bss) ++ [NUL]))) "OK" = ok.
Proof.
  revert buffer ok rest ops. induction reads as [|bs reads IH]; intros buffer ok rest ops; cbn [sync_read].
  - intros [= <- <- <-] Hb. exists [[]]. split; [done|]. simpl. by rewrite app_nil_r.
  - destruct (take _ bs) as [|b bs'] eqn:Et.
    { intros [= <- <- <-] Hb. exists [[]]. split; [done|]. simpl. by rewrite app_nil_r. }
    cbv zeta. destruct (strstr _ "OK") eqn:Es.
    { intros [= <- <- <-] _. exists [b :: bs']. split; [done|]. simpl. by rewrite app_nil_r. }
    destruct (sync_read _ reads) as [[ok' rest'] ops'] eqn:E. intros [= <- <- <-] _.
    destruct (IH _ _ _ _ E Es) as (bss & -> & Hok). exists ((b :: bs') :: bss). split; [done|].
    cbn [concat]. by rewrite app_assoc.
Qed.

Lemma received_reads bss : received (OpRead <$> bss) = concat bss.
Proof.
  induction bss as [|bs bss IH]; [done|].
  change (bs ++ received (OpRead <$> bss) = bs ++ concat bss). by rewrite IH.
Qed.

(** One round of the loop of [sync_modem]. *)
Lemma sync_step n writes reads :
  ∃ t, is_try t ∧
    (says_ok t = true ∧ sync_tries (Datatypes.S n) writes reads = (0, t) ∨
     says_ok t = false ∧ ∃ writes' reads', sync_tries (Datatypes.S n) writes reads =
       let '(ret, ops) := sync_tries n writes' reads' in (ret, t ++ ops)).
Proof.
  cbn [sync_tries]. destruct writes as [|w writes].
  - exists [OpWrite AT_CR (-1)]. split; [by exists (-1), []|right]. split; [done|].
    exists [], reads. by destruct (sync_tries n [] reads).
  - destruct (Z.ltb_spec w 3) as [Hw|Hw].
    + exists [OpWrite AT_CR w]. split; [by exists w, []|right]. split; [done|].
      exists writes, reads. by destruct (sync_tries n writes reads).
    + destruct (sync_read [] reads) as [[ok reads'] ops] eqn:E.
      apply sync_read_spec in E as (bss & -> & Hok); [|done]. simpl app in Hok.
      exists (OpWrite AT_CR w :: (OpRead <$> bss)). split; [exists w, bss; split; [done|lia]|].
      assert (says_ok (OpWrite AT_CR w :: (OpRead <$> bss)) = ok) as ->.
      { unfold says_ok. change (received (OpWrite AT_CR w :: ?l)) with (received l). by rewrite received_reads. }
      destruct ok; [by left|right]. split; [done|]. exists writes, reads'.
      by destruct (sync_tries n writes reads').
Qed.

Lemma sync_tries_spec n writes reads :
  ∃ ops, sync_tries (Datatypes.S n) writes reads = (0, ops) ∧
  ∃ tries final, ops = concat tries ++ final ∧ Forall (λ t, is_try t ∧ says_ok t = false) tries ∧
    is_try final ∧ (length tries < Datatypes.S n)%nat ∧ (says_ok final = true ∨ length tries = n).
Proof.
  revert writes reads. induction n as [|n IH]; intros writes reads;
    match goal with |- context [sync_tries (Datatypes.S ?m) _ _] =>
      destruct (sync_step m writes reads) as (t & Ht & [[Hok ->]|(Hno & writes' & reads' & ->)]) end.
  1, 3: exists t; split; [done|]; exists [], t; split_and!; [done|done|done|simpl; lia|by left].
  - exists (t ++ []). split; [done|]. exists [], t. rewrite app_nil_r. split_and!; try done; [simpl; lia|by right].
  - destruct (IH writes' reads') as (ops & -> & tries & final & -> & Htries & Hfinal & Hlen & Hend).
    exists (t ++ concat tries ++ final). split; [done|]. exists (t :: tries), final.
    split_and!; [simpl; by rewrite app_assoc|by constructor|done|simpl; lia|].
    destruct Hend as [?|<-]; [by left|by right].
Qed.

(** The modem answers or not, [sync_modem] reports success. *)
Lemma sync_modem_spec writes reads :
  ∃ ops, sync_modem writes reads = (0, ops) ∧ synchronised ops.
Proof. apply (sync_tries_spec 99). Qed.

Section opening.
Context `{TermiosBits, Messages}.

(** Raw input and output. *)
Lemma configured_raw ios : raw_line (configure_termios ios).
Proof.
  unfold raw_line, configure_termios. simpl.
  split_and!; try done; apply Z.bits_inj'; intros n Hn;
    rewrite ?Z.land_spec, ?Z.lnot_spec, ?Z.lor_spec, ?Z.land_spec, ?Z.bits_0 by done;
    repeat match goal with |- context [Z.testbit ?x n] => destruct (Z.testbit x n) end; done.
Qed.

Lemma device_brought_up ios rc writes reads :
  rc = 0 → ∃ ops ops', configure_modem_fd ios rc = (0, ops) ∧ sync_modem writes reads = (0, ops') ∧
    brought_up (ops ++ ops').
Proof.
  intros ->. destruct (sync_modem_spec writes reads) as (ops' & -> & Hs).
  eexists _, ops'. split; [reflexivity|]. split; [done|].
  exists [OpSetFlags; OpFlush], (configure_termios ios), ops'. split_and!; [done|apply configured_raw|done].
Qed.

(** An attempt without a descriptor has closed everything it opened, one with
    a descriptor keeps exactly that one. *)
Definition balanced (o : Opened) : Prop :=
  if o_fd o <? 0 then o_open o = o_closed o else o_open o = [o_fd o] ∧ o_closed o = [].

Lemma got_balanced fd : balanced (MkOpened fd (got fd) [] []).
Proof. unfold balanced. simpl. unfold got. by destruct (fd <? 0). Qed.

(** A device that is open and usable by the driver. *)
Lemma open_attempt_spec c a o :
  open_attempt c a = Some o →
  balanced o ∧
  (s_port c ≤ 0 → s_device_socket c = 0 → a_open_errno a ≠ EAGAIN → 0 ≤ o_fd o → brought_up (o_ops o)).
Proof.
  unfold open_attempt. cbv zeta. intros Ho.
  destruct (Z.ltb_spec 0 (s_port c)) as [Hp|Hp]; [injection Ho as <-; split; [apply got_balanced|lia]|].
  destruct (Z.eqb_spec (s_device_socket c) 0) as [Hs|Hs]; cbn [negb] in Ho.
  - destruct (s_atctrl_path c); [|injection Ho as <-; split; [done|simpl; lia]].
    destruct (Z.eqb_spec (a_open_errno a) EAGAIN); [injection Ho as <-; split; [apply got_balanced|done]|].
    destruct (Z.leb_spec 0 (a_open a)) as [Hf|Hf].
    2: { injection Ho as <-. split; [|simpl; lia]. unfold balanced. simpl. by rewrite (proj2 (Z.ltb_lt _ _) Hf). }
    destruct (Z.eqb_spec (a_tcsetattr a) 0) as [Hrc|Hrc].
    + destruct (device_brought_up (a_ios a) (a_tcsetattr a) (a_writes a) (a_reads a) Hrc)
        as (ops & ops' & E1 & E2 & Hup).
      rewrite E1, E2 in Ho. cbn in Ho. injection Ho as <-. split; [|done].
      unfold balanced. simpl. by rewrite (proj2 (Z.ltb_ge _ _) Hf).
    + unfold configure_modem_fd in Ho. rewrite (proj2 (Z.eqb_neq _ _) Hrc) in Ho. cbn in Ho.
      injection Ho as <-. split; [done|simpl; lia].
  - split; [|done]. destruct (s_atctrl_path c) as [path|]; [cbn [mbind option_bind] in Ho|done].
    destruct (String.eqb path QEMUD_SOCKET); [|injection Ho as <-; apply got_balanced].
    destruct (_ && _); injection Ho as <-; [done|apply got_balanced].
Qed.

(** Only a null path is undefined behaviour. *)
Lemma open_attempt_total c a :
  s_atctrl_path c ≠ None ∨ s_device_socket c = 0 → ∃ o, open_attempt c a = Some o.
Proof.
  intros Hp. unfold open_attempt. destruct (0 <? s_port c); [eauto|].
  destruct (Z.eqb_spec (s_device_socket c) 0) as [Hs|Hs]; cbn [negb].
  - repeat case_match; eauto.
  - destruct (s_atctrl_path c); [|by destruct Hp]. cbn [mbind option_bind]. repeat case_match; eauto.
Qed.

(** An attempt that leaves the main loop without a descriptor, and with nothing open. *)
Definition attempt_failed (c : Ctx) (a : Attempt) : Prop :=
  ∃ o, open_attempt c a = Some o ∧ o_fd o < 0 ∧ o_open o = o_closed o.

(** C27: opening the port.  As long as every attempt fails the main loop goes
    on, and each failed attempt has closed what it opened; it ends at the first
    attempt that yields a descriptor, which is then the only one open, after
    sleeping 5 seconds for each failure.  When the port is a device - no
    loopback port, no socket - and errno is not EAGAIN after the open, the
    descriptor is one on which the settings of a raw line were made
    successfully and then AT was sent, either until a try was answered OK or a hundred
    times.  The loop is undefined only when the line it prints about an attempt
    does not fit 128 bytes. *)
Theorem open_loop_spec c attempts slept :
  s_atctrl_path c ≠ None →
  match open_loop c attempts slept with
  | OlTrying => Forall (attempt_failed c) attempts
  | OlUndef u => u = OutOfBounds ∧ ∃ failed a rest o, attempts = failed ++ a :: rest ∧
      Forall (attempt_failed c) failed ∧ open_attempt c a = Some o ∧ 128 ≤ strlen (attempt_line c a o)
  | OlOpened o slept' rest =>
      ∃ failed a, attempts = failed ++ a :: rest ∧ Forall (attempt_failed c) failed ∧
        open_attempt c a = Some o ∧ 0 ≤ o_fd o ∧ o_open o = [o_fd o] ∧ o_closed o = [] ∧
        slept' = slept + 5 * Z.of_nat (length failed) ∧
        (s_port c ≤ 0 → s_device_socket c = 0 → a_open_errno a ≠ EAGAIN → brought_up (o_ops o))
  end.
Proof.
  intros Hp. revert slept. induction attempts as [|a attempts IH]; intros slept; cbn [open_loop]; [constructor|].
  destruct (open_attempt_total c a (or_introl Hp)) as [o Eo]. rewrite Eo.
  destruct (open_attempt_spec c a o Eo) as [Hb Hup]. unfold balanced in Hb.
  destruct (Z.leb_spec 128 (strlen (attempt_line c a o))).
  { split; [done|]. by exists [], a, attempts, o. }
  destruct (Z.ltb_spec (o_fd o) 0) as [Hf|Hf].
  - specialize (IH (slept + 5)). assert (Ha : attempt_failed c a) by (by exists o).
    destruct (open_loop _ _ _) as [o' slept' rest|u|]; [| |by constructor].
    + destruct IH as (failed & a' & -> & ? & ? & ? & ? & ? & -> & ?).
      exists (a :: failed), a'. split_and!; try done; [by constructor|simpl; lia].
    + destruct IH as (-> & failed & a' & rest & o' & -> & ? & ? & ?). split; [done|].
      exists (a :: failed), a', rest, o'. split_and!; try done. by constructor.
  - destruct Hb as [? ?]. exists [], a. split_and!; try done; [cbn [length]; lia|]. intros. by apply Hup.
Qed.
End opening.

(** The device is missing, then cannot be configured, then it is there: 10 seconds. *)
Definition demo_bits : TermiosBits :=
  Build_TermiosBits 2048 128 2 8 16 1 1 4098.
Definition demo_messages : Messages :=
  Build_Messages 11 (λ e, if e =? 2 then "No such file or directory" else "error") "(null)".
Definition demo_attempt (fd rc : Z) : Attempt :=
  MkAttempt (-1) (λ _, -1) 0 0 [] fd 2 (MkTermios 0 10 1 0 0 0 0) rc [3] [chars "OK"] 2.
Definition demo_attempts : list Attempt := [demo_attempt (-1) 0; demo_attempt 7 (-1); demo_attempt 8 0].
Definition demo_ctx : Ctx := set_s_atctrl_path (Some "/dev/ttyUSB2") zero_ctx.

Lemma open_loop_spec_witness :
  match open_loop (H := demo_bits) (H0 := demo_messages) demo_ctx demo_attempts 0 with
  | OlOpened o slept rest => (o_fd o, slept, rest) = (8, 10, []) ∧
      brought_up (H := demo_bits) (o_ops o)
  | _ => False
  end.
Proof.
  pose proof (open_loop_spec (H := demo_bits) (H0 := demo_messages) demo_ctx demo_attempts 0) as Ho.
  destruct (open_loop (H := demo_bits) (H0 := demo_messages) demo_ctx demo_attempts 0) as [o slept rest|u|] eqn:E;
    [|vm_compute in E; discriminate E..].
  assert (Er : (o_fd o, slept, rest) = (8, 10, [])).
  { change (match OlOpened o slept rest with OlOpened o s r => (o_fd o, s, r) | _ => (0, 0, []) end = (8, 10, [])).
    rewrite <- E. vm_compute. reflexivity. }
  split; [exact Er|]. injection Er as Efd Es Er. subst slept rest.
  destruct Ho as (failed & a & Ea & _ & _ & _ & _ & _ & _ & Hup); [discriminate|].
  apply Hup; [vm_compute; discriminate|reflexivity|].
  assert (Hin : a ∈ demo_attempts) by (rewrite Ea; set_solver).
  unfold demo_attempts in Hin. by cases_in Hin; subst a.
Defined.

(** ** Start-up *)

(** [f] of the argument of the last option that satisfies [k]: later options
    overwrite earlier ones. *)
Definition last_opt {A} (k : ascii → bool) (f : string → A) (opts : list (ascii * string)) (dflt : A) : A :=
  foldl (λ acc o, if k o.1 then f o.2 else acc) dflt opts.

Definition is_opt (x o : ascii) : bool := Ascii.eqb o x.

(** [-a] and [-s] both name the control device. *)
Definition is_ctrl (o : ascii) : bool := is_opt "a" o || is_opt "s" o.

(** The options that do not end in the usage message. *)
Definition usable (o : ascii * string) : bool :=
  if is_opt "p" o.1 then negb (atoi o.2 =? 0) else is_ctrl o.1 || is_opt "d" o.1.

Lemma parse_options_spec opts c :
  match parse_options opts c with
  | None => forallb usable opts = false
  | Some c' => forallb usable opts = true ∧
      s_atctrl_path c' = last_opt is_ctrl Some opts (s_atctrl_path c) ∧
      s_data_path c' = last_opt (is_opt "d") Some opts (s_data_path c) ∧
      s_port c' = last_opt (is_opt "p") atoi opts (s_port c) ∧
      s_device_socket c' = last_opt (is_opt "s") (λ _, 1) opts (s_device_socket c)
  end.
Proof.
  revert c. induction opts as [|[o arg] opts IH]; intros c; [done|].
  cbn [parse_options forallb]. unfold last_opt. cbn [foldl fst snd].
  unfold usable, is_ctrl, is_opt. cbn [fst snd].
  destruct (Ascii.eqb_spec o "p") as [->|_]; [|destruct (Ascii.eqb_spec o "a") as [->|_];
    [|destruct (Ascii.eqb_spec o "d") as [->|_]; [|destruct (Ascii.eqb_spec o "s") as [->|_]; [|done]]]].
  - destruct (atoi arg =? 0); [done|]. apply IH.
  - apply (IH (set_s_atctrl_path (Some arg) c)).
  - apply (IH (set_s_data_path (Some arg) c)).
  - apply (IH (set_s_device_socket 1 (set_s_atctrl_path (Some arg) c))).
Qed.

(** A path separator. *)
Definition is_sep (c : ascii) : bool := Ascii.eqb c "/" || Ascii.eqb c "\".

(** From index [i] on the path has no separator. *)
Definition clean_from (i : nat) (path : string) : Prop :=
  ∀ j c, (i ≤ j)%nat → String.get j path = Some c → is_sep c = false.

(** The name of a file: what follows the last separator, the first character
    of the path not being looked at. *)
Definition file_name (path name : string) : Prop :=
  name = path ∧ clean_from 1 path ∨
  ∃ dir c, dir ≠ "" ∧ path = dir +:+ String c name ∧ is_sep c = true ∧ clean_from 0 name.

Lemma string_split i path c :
  String.get i path = Some c → ∃ a b, path = a +:+ String c b ∧ String.length a = i.
Proof.
  revert path. induction i as [|i IH]; intros [|x path]; simpl; try done.
  - intros [= ->]. by exists "", path.
  - intros (a & b & -> & <-)%IH. by exists (String x a), b.
Qed.

Lemma get_app_r a b j : String.get (String.length a + j) (a +:+ b) = String.get j b.
Proof. induction a as [|c a IH]; simpl; [done|apply IH]. Qed.

Lemma trim_loop_spec path i :
  (0 < i)%nat → clean_from (i + 1) path →
  ∃ name, trim_loop path i = Some name ∧ file_name path name.
Proof.
  revert path. induction i as [|i IH]; intros path; [lia|]. intros _ Hc. cbn [trim_loop].
  change (_ || _) with (is_sep (default NUL (String.get (Datatypes.S i) path))).
  destruct (is_sep _) eqn:Esep.
  - destruct (String.get (Datatypes.S i) path) as [c|] eqn:Eg; [|done]. cbn [default from_option] in Esep.
    destruct (string_split _ _ _ Eg) as (a & b & -> & Ha).
    exists b. split.
    + replace (a +:+ String c b) with ((a +:+ String c "") +:+ b) by (by rewrite str_app_assoc).
      replace (Datatypes.S i + 1)%nat with (String.length (a +:+ String c "")); [apply advance_app|].
      rewrite str_length_app, Ha. simpl. lia.
    + right. exists a, c. split_and!; [by intros ->|done|done|]. intros j x _ Hx.
      apply (Hc (Datatypes.S i + 1 + j)%nat x); [lia|]. rewrite <-Hx, <-Ha.
      replace (String.length a + 1 + j)%nat with (String.length a + Datatypes.S j)%nat by lia.
      by rewrite get_app_r.
  - assert (Hc' : clean_from (Datatypes.S i) path).
    { intros j x Hj Hx. destruct (decide (j = Datatypes.S i)) as [->|]; [|apply (Hc j x); [lia|done]].
      by rewrite Hx in Esep. }
    destruct i as [|i]; [exists path; split; [done|by left]|].
    apply IH; [lia|]. by rewrite Nat.add_1_r.
Qed.

Lemma get_beyond s i : (String.length s ≤ i)%nat → String.get i s = None.
Proof. revert i. induction s as [|c s IH]; intros [|i]; simpl; try done; [lia|]. intros ?. apply IH. lia. Qed.

(** The name is found unless the path is empty: there the scan starts before
    the string and leaves it. *)
Lemma trim_path_spec path :
  match trim_path path with Some name => path ≠ "" ∧ file_name path name | None => path = "" end.
Proof.
  destruct path as [|c path]; [done|]. unfold trim_path.
  destruct (trim_loop_spec (String c path) (String.length (String c path))) as (name & -> & Hn);
    [simpl; lia| |done].
  intros j x Hj. rewrite get_beyond by lia. done.
Qed.

(** The control file sets two preferences and nothing else. *)
Lemma control_line_fields buf c :
  let c' := control_line buf c in
  s_port c' = s_port c ∧ s_atctrl_path c' = s_atctrl_path c ∧
  s_device_socket c' = s_device_socket c ∧ s_data_path c' = s_data_path c ∧
  s_data_devname c' = s_data_devname c ∧ sState c' = sState c ∧ s_closed c' = s_closed c ∧
  gpsTtyFD c' = gpsTtyFD c.
Proof. unfold control_line. cbv zeta. by repeat case_match. Qed.

Lemma control_lines_fields bufs c :
  let c' := foldl (λ c buf, control_line buf c) c bufs in
  s_port c' = s_port c ∧ s_atctrl_path c' = s_atctrl_path c ∧
  s_device_socket c' = s_device_socket c ∧ s_data_path c' = s_data_path c ∧
  s_data_devname c' = s_data_devname c ∧ sState c' = sState c ∧ s_closed c' = s_closed c ∧
  gpsTtyFD c' = gpsTtyFD c.
Proof.
  revert c. induction bufs as [|buf bufs IH]; intros c; [done|]. cbn [foldl].
  destruct (IH (control_line buf c)) as (-> & -> & -> & -> & -> & -> & -> & ->).
  apply control_line_fields.
Qed.

Section startup.
Context {S P : Type} `{AtPort S} `{Platform P}.

Lemma initSessionContext_spec l (w : World S P) :
  match initSessionContext l w with
  | Ok _ _ w' => w_out w' = w_out w ∧
      let c := w_ctx w' in
      s_port c = -1 ∧ s_atctrl_path c = s_atctrl_path (w_ctx w) ∧
      s_device_socket c = s_device_socket (w_ctx w) ∧ s_data_path c = s_data_path (w_ctx w) ∧
      gpsTtyFD c = -1 ∧
      (∃ path name, s_data_path (w_ctx w) = Some path ∧ path ≠ "" ∧ s_data_devname c = Some name ∧
        file_name path name) ∧
      sState c = RADIO_STATE_OFF ∧ s_closed c = 0
  | Undef u => s_data_path (w_ctx w) = None ∧ u = NullDeref ∨
      s_data_path (w_ctx w) = Some "" ∧ u = OutOfBounds
  | Goto _ _ | Hang => False
  end.
Proof.
  unfold initSessionContext, mbind, M_bind, get_ctx, put_ctx, non_null.
  destruct (s_data_path (w_ctx w)) as [path|] eqn:Hd; [|by left]. cbn [mret M_ret].
  pose proof (trim_path_spec path) as Hn. destruct (trim_path path) as [name|]; [|right; by subst path].
  cbn [mret M_ret]. unfold rilReadControl, mbind, M_bind, lift, put_ctx. cbn [with_ctx w_plat].
  destruct (pl_read_file _ _) as [[content|] p]; cbn [mret M_ret].
  - cbn [with_plat with_ctx w_ctx w_out]. split; [done|].
    destruct (control_lines_fields (fgets_lines 128 content) (init_fields (w_ctx w) name))
      as (-> & -> & -> & -> & -> & -> & -> & ->).
    split_and!; try done. exists path, name. by destruct Hn.
  - split; [done|]. split_and!; try done. exists path, name. by destruct Hn.
Qed.

Lemma last_opt_none opts :
  last_opt is_ctrl Some opts None = None → last_opt (is_opt "s") (λ _, 1) opts 0 = 0.
Proof.
  induction opts as [|[o arg] opts IH] using rev_ind; [done|].
  unfold last_opt in *. rewrite !foldl_app. cbn [foldl fst snd]. unfold is_ctrl at 1.
  destruct (is_opt "s" o); [by rewrite orb_true_r|]. rewrite orb_false_r.
  by destruct (is_opt "a" o).
Qed.

(** Without a port and a device there is nothing to open. *)
Lemma open_loop_nothing `{TermiosBits, Messages} c attempts slept :
  s_port c ≤ 0 → s_device_socket c = 0 → s_atctrl_path c = None →
  match open_loop c attempts slept with OlOpened _ _ _ => False | _ => True end.
Proof.
  intros Hp Hs Hc. revert slept. induction attempts as [|a attempts IH]; intros slept; [done|].
  cbn [open_loop]. unfold open_attempt. rewrite (proj2 (Z.ltb_ge _ _)), Hs, Hc by lia.
  cbn. destruct (128 <=? _); [done|]. apply IH.
Qed.

(** The lines the main loop may print about these attempts. *)
Definition printed `{TermiosBits, Messages} (c : Ctx) (attempts : list Attempt) (line : string) : Prop :=
  line = start_line c ∨ ∃ a o, a ∈ attempts ∧ open_attempt c a = Some o ∧ line = attempt_line c a o.

Lemma open_loop_undef `{TermiosBits, Messages} c attempts slept u :
  s_atctrl_path c ≠ None ∨ s_device_socket c = 0 → open_loop c attempts slept = OlUndef u →
  u = OutOfBounds ∧ ∃ line, printed c attempts line ∧ 128 ≤ strlen line.
Proof.
  intros Hp. revert slept. induction attempts as [|a attempts IH]; intros slept; [done|]. cbn [open_loop].
  destruct (open_attempt_total c a Hp) as [o Eo]. rewrite Eo.
  destruct (Z.leb_spec 128 (strlen (attempt_line c a o))) as [Hl|_].
  - intros [= <-]. split; [done|]. exists (attempt_line c a o). split; [|done]. right.
    exists a, o. split_and!; [by left|done|done].
  - destruct (o_fd o <? 0); [|done]. intros (-> & line & Hpr & Hl)%IH. split; [done|].
    exists line. split; [|done]. destruct Hpr as [?|(a' & o' & ? & ? & ?)]; [by left|right].
    exists a', o'. split_and!; [by right|done|done].
Qed.

Lemma open_loop_trying `{TermiosBits, Messages} c attempts slept :
  open_loop c attempts slept = OlTrying → Forall (attempt_failed c) attempts.
Proof.
  revert slept. induction attempts as [|a attempts IH]; intros slept; [constructor|]. cbn [open_loop].
  destruct (open_attempt c a) as [o|] eqn:Eo; [|done]. destruct (open_attempt_spec c a o Eo) as [Hb _].
  unfold balanced in Hb. destruct (128 <=? _); [done|]. destruct (Z.ltb_spec (o_fd o) 0); [|done].
  intros Hf%IH. constructor; [by exists o|done].
Qed.

(** What the loop looks at in the context. *)
Definition same_device (c c' : Ctx) : Prop :=
  s_port c' = s_port c ∧ s_device_socket c' = s_device_socket c ∧ s_atctrl_path c' = s_atctrl_path c ∧
  s_data_path c' = s_data_path c.

Lemma open_attempt_same `{TermiosBits, Messages} c c' a :
  same_device c c' → open_attempt c' a = open_attempt c a.
Proof. intros (Hp & Hs & Ha & _). unfold open_attempt. by rewrite Hp, Hs, Ha. Qed.

Lemma attempt_line_same `{TermiosBits, Messages} c c' a o :
  same_device c c' → attempt_line c' a o = attempt_line c a o.
Proof. intros (_ & _ & Ha & _). unfold attempt_line, error_line, launch_line. by rewrite Ha. Qed.

Lemma open_loop_same `{TermiosBits, Messages} c c' attempts slept :
  same_device c c' → open_loop c' attempts slept = open_loop c attempts slept.
Proof.
  intros Hc. revert slept. induction attempts as [|a attempts IH]; intros slept; [done|]. cbn [open_loop].
  rewrite (open_attempt_same c c' a Hc). destruct (open_attempt c a) as [o|]; [|done].
  by rewrite (attempt_line_same c c' a o Hc), IH.
Qed.

(** The terminal for the GPS is created, or not. *)
Lemma mainLoop_start_spec l (w : World S P) :
  gpsTtyFD (w_ctx w) = -1 →
  ∃ w', mainLoop_start l w = Ok tt l w' ∧ w_out w' = w_out w ∧
    (w_ctx w' = w_ctx w ∨ ∃ fd, w_ctx w' = set_gpsTtyFD fd (w_ctx w)).
Proof.
  intros Hfd. unfold mainLoop_start, rilWriteGPSTty, when, mbind, M_bind, get_ctx, sys, lift, put_ctx.
  destruct (negb _); [|by eexists; eauto]. rewrite Hfd. cbn [Z.leb Z.compare].
  destruct (pl_call SysGetpt _) as [mfd p1]. destruct (mfd =? -1); [by eexists; eauto|].
  destruct (pl_call (SysGrantpt mfd) _) as [rc p2]. destruct (rc =? -1); [by eexists; eauto|].
  destruct (pl_call (SysUnlockpt mfd) _) as [rc' p3]. destruct (rc' =? -1); [by eexists; eauto|].
  destruct (pl_ptsname mfd _) as [device p4]. destruct (pl_call (SysChmod device) _) as [rc'' p5].
  destruct (pl_call (SysPropertySet GPS_PROPERTY_NAME device) _) as [rc3 p6]. eexists. split; [done|]. eauto.
Qed.

Lemma mainLoop_open_spec `{TermiosBits, Messages} attempts l (w : World S P) :
  let c := w_ctx w in
  gpsTtyFD c = -1 → s_atctrl_path c ≠ None ∨ s_device_socket c = 0 →
  match mainLoop_open attempts l w with
  | Ok o _ w' => w_out w' = w_out w ∧ same_device c (w_ctx w') ∧ mainIsStarted (w_ctx w') = 1 ∧
      s_data_devname (w_ctx w') = s_data_devname c ∧ sState (w_ctx w') = sState c ∧
      s_closed (w_ctx w') = s_closed c ∧
      ∃ slept rest, open_loop c attempts 0 = OlOpened o slept rest
  | Undef u => u = OutOfBounds ∧ ∃ line, printed c attempts line ∧ 128 ≤ strlen line
  | Hang => Forall (attempt_failed c) attempts
  | Goto _ _ => False
  end.
Proof.
  intros c Hfd Hpath. unfold mainLoop_open, mbind at 1, M_bind at 1, get_ctx at 1. fold c.
  unfold mbind at 1, M_bind at 1, sprintf.
  destruct (Z.ltb_spec (strlen (start_line c)) 128) as [Hl|Hl].
  2: { split; [done|]. exists (start_line c). split; [by left|done]. }
  cbn [mret M_ret]. unfold mbind at 1, M_bind at 1.
  destruct (mainLoop_start_spec l w Hfd) as (w1 & -> & Ho & Hctx). fold c in Hctx.
  assert (Hsame : same_device c (w_ctx w1)) by (destruct Hctx as [->|[fd ->]]; by split_and!).
  unfold mbind at 1, M_bind at 1, get_ctx. rewrite (open_loop_same c _ attempts 0 Hsame).
  destruct (open_loop c attempts 0) as [o slept rest|u|] eqn:E.
  - unfold mbind, M_bind, put_ctx. cbn [mret M_ret w_ctx w_out with_ctx].
    destruct Hctx as [->|[fd ->]]; by split_and!; eauto.
  - by apply open_loop_undef in E.
  - by eapply open_loop_trying.
Qed.

Lemma printed_same `{TermiosBits, Messages} c c' attempts line :
  same_device c c' → printed c' attempts line → printed c attempts line.
Proof.
  intros Hc [->|(a & o & Ha & Eo & ->)].
  - left. unfold start_line. by destruct Hc as (_ & _ & -> & ->).
  - right. exists a, o. rewrite <- (open_attempt_same c c' a Hc). split_and!; [done|done|].
    by apply attempt_line_same.
Qed.

Lemma failed_same `{TermiosBits, Messages} c c' attempts :
  same_device c c' → Forall (attempt_failed c') attempts → Forall (attempt_failed c) attempts.
Proof.
  intros Hc Hf. eapply Forall_impl; [exact Hf|]. intros a (o & Eo & ?). exists o. by rewrite <- (open_attempt_same c c' a Hc).
Qed.

(** C26: the options of the driver and the start of its main loop.  [RIL_Init]
    returns NULL exactly for an unknown option, for a port that is 0 or no
    number, and for a negative port without a device.  Otherwise, without a
    data device, or with an empty path for it, it runs into
    undefined behaviour, and else starts the main loop and waits until this has
    opened the port.  So it returns the table of the driver's functions only
    when the thread exists and one of the attempts gives a descriptor; then there is a
    control device, that of the last [-a] or [-s], the name of the data device
    is the file name of the last [-d], the radio is off and the main loop
    marked as started - and the port of [-p] is lost: it is reset to -1, so
    a loopback port is never opened, and with a port but no device [RIL_Init] never
    returns, however often the main loop tries.  It does not return
    either while every attempt fails, or when the thread could not be created;
    and it is undefined when a line that the main loop prints does not fit 128
    bytes. *)
Theorem RIL_Init_spec `{TermiosBits, Messages, RilConsts, RilCodes} opts created attempts l (w : World S P) :
  let port := last_opt (is_opt "p") atoi opts 0 in
  let ctrl := last_opt is_ctrl Some opts None in
  let data := last_opt (is_opt "d") Some opts None in
  let usage := forallb usable opts = false ∨ (port < 0 ∧ ctrl = None) in
  let c := set_s_device_socket (last_opt (is_opt "s") (λ _, 1) opts 0)
             (set_s_data_path data (set_s_atctrl_path ctrl (set_s_port (-1) zero_ctx))) in
  match RIL_Init opts created attempts l w with
  | Ok None _ w' => usage ∧ w_plat w' = w_plat w ∧ w_out w' = w_out w
  | Ok (Some f) _ w' => ¬ usage ∧ f = myRILDriverCallbacks ∧ created = true ∧ w_out w' = w_out w ∧
      (∃ o slept rest, open_loop c attempts 0 = OlOpened o slept rest) ∧
      same_device c (w_ctx w') ∧ ctrl ≠ None ∧ mainIsStarted (w_ctx w') = 1 ∧
      sState (w_ctx w') = RADIO_STATE_OFF ∧ s_closed (w_ctx w') = 0 ∧
      ∃ path name, data = Some path ∧ s_data_devname (w_ctx w') = Some name ∧ file_name path name
  | Undef u => ¬ usage ∧
      (data = None ∧ u = NullDeref ∨ data = Some "" ∧ u = OutOfBounds ∨
       created = true ∧ u = OutOfBounds ∧ ∃ line, printed c attempts line ∧ 128 ≤ strlen line)
  | Hang => ¬ usage ∧ (∃ path, data = Some path ∧ path ≠ "") ∧
      (created = true → Forall (attempt_failed c) attempts)
  | Goto _ _ => False
  end.
Proof.
  intros port ctrl data usage c. unfold RIL_Init, mbind at 1, M_bind at 1, put_ctx at 1.
  pose proof (parse_options_spec opts zero_ctx) as Ho.
  destruct (parse_options opts zero_ctx) as [c0|]; [|split; [by left|done]].
  destruct Ho as (Hu & Hc & Hd & Hp & Hs). cbn [zero_ctx s_atctrl_path s_data_path s_port s_device_socket] in *.
  unfold mbind at 1, M_bind at 1, put_ctx at 1. cbn [with_ctx w_ctx]. rewrite Hp, Hc. fold port ctrl.
  destruct (_ && _) eqn:Hb.
  { apply andb_true_iff in Hb as [Hb1%Z.ltb_lt Hb2]. split; [|done]. right. by destruct ctrl. }
  assert (Hno : ¬ usage).
  { intros [Hf|[Hneg Hnone]]; [congruence|]. rewrite Hnone, (proj2 (Z.ltb_lt _ _) Hneg) in Hb. done. }
  pose proof (initSessionContext_spec l (with_ctx c0 (with_ctx zero_ctx w))) as Hi.
  unfold mbind at 1, M_bind at 1. cbn [with_ctx w_ctx w_out] in Hi. rewrite Hc, Hs, Hd in Hi.
  fold ctrl data in Hi.
  destruct (initSessionContext _ _) as [[] l' w1| | |]; [|done|split; [done|]; tauto|done].
  destruct Hi as (Ho & Hport & Hctrl & Hsock & Hpath & Hfd & (path & name & Hdata & Hpne & Hname & Hfile) & Hst & Hcl).
  assert (Hsame : same_device c (w_ctx w1)) by (unfold same_device; by rewrite Hport, Hctrl, Hsock, Hpath).
  assert (Hne : ∃ path, data = Some path ∧ path ≠ "").
  { by exists path. }
  assert (Hdev : s_atctrl_path (w_ctx w1) ≠ None ∨ s_device_socket (w_ctx w1) = 0).
  { rewrite Hctrl, Hsock. destruct ctrl eqn:Ec; [by left|right]. by apply last_opt_none. }
  destruct created; [|by split_and!].
  pose proof (mainLoop_open_spec attempts l' w1 Hfd Hdev) as Hm. unfold mbind, M_bind.
  destruct (mainLoop_open attempts l' w1) as [o l2 w2| |u|]; [|done| |].
  - destruct Hm as (Ho2 & Hsame2 & Hstart & Hdn & Hst2 & Hcl2 & slept & rest & El).
    rewrite (open_loop_same c _ attempts 0 Hsame) in El. cbn [mret M_ret].
    split_and!; try done; [by rewrite Ho2|by do 3 eexists| | |by rewrite Hst2|by rewrite Hcl2|].
    + destruct Hsame as (? & ? & ? & ?), Hsame2 as (? & ? & ? & ?). split_and!; congruence.
    + intros En. pose proof (open_loop_nothing c attempts 0) as Hnot. rewrite El in Hnot.
      apply Hnot; [done| |exact En]. by apply last_opt_none.
    + exists path, name. by rewrite Hdn.
  - destruct Hm as (-> & line & Hpr & Hl). split; [done|]. right. right. split_and!; [done|done|].
    exists line. split; [by eapply printed_same|done].
  - split_and!; [done|done|]. intros _. by eapply failed_same.
Qed.
End startup.

(** The driver started with a device that appears at the third attempt, and
    with a port only: then [RIL_Init] does not return. *)
Definition start_world : World ChanPort Sim := fresh_world zero_ctx (opened_chan [], []) sim_empty.

Example started_with_device :
  match RIL_Init (H1 := demo_bits) (H2 := demo_messages)
          [("d"%char, "/dev/ttyUSB0"%string); ("a"%char, "/dev/ttyUSB2"%string)] true demo_attempts
          no_locals start_world with
  | Ok (Some _) _ w => s_data_devname (w_ctx w) = Some "ttyUSB0"%string ∧ mainIsStarted (w_ctx w) = 1
  | _ => False
  end.
Proof. vm_compute. by split. Qed.

Example started_with_port :
  RIL_Init (H1 := demo_bits) (H2 := demo_messages)
    [("d"%char, "/dev/ttyUSB0"%string); ("p"%char, "5000"%string)] true demo_attempts
    no_locals start_world = Hang.
Proof. vm_compute. reflexivity. Qed.
