(* ===== verification/RilKeeps.v ===== *)
(** * What the driver does to its context and its port

    [keeps R m]: whatever [m] does, and whatever the port and the platform do
    meanwhile, the session context and the port afterwards are related by [R]
    to those before.  No assumption about the modem, the arguments of the
    requests or the platform is made.  The handlers are followed through once,
    for every relation of the class [Stable]. *)

From S2P Require Import Prelude CString AtTok AtReader AtChannel RilInfo RilBase RilLogic RilReader RilUtils RilAuto RilRqst RilData RilTimer Ril RilMain.

Open Scope Z_scope.

(** The over-the-air activation call. *)
Definition OTASP_CALL : string := "AT+CDV=*22899".

Definition harmless (cmd : string) : Prop := String.eqb cmd OTASP_CALL = false.

(** The fields of the context that few functions write. *)
Definition core (c : Ctx) : RIL_RadioState * Z * Z := (sState c, s_closed c, moduleActivateRetry c).

(** A relation that the parts all handlers are made of keep: writing the other
    fields, sending a command other than the activation call, closing. *)
Class Stable {S} `{AtPort S} (R : relation (Ctx * S)) := {
  stable_preorder :: PreOrder R;
  stable_put c c' p : core c' = core c → R (c, p) (c', p);
  stable_section c p : 0 < s_closed c → R (c, p) (set_sState RADIO_STATE_UNAVAILABLE c, p);
  stable_closed c p :
    R (c, p) (set_sState RADIO_STATE_UNAVAILABLE (set_s_closed 1 c), port_close p);
  stable_send k cmd want c p err out cbs p' :
    harmless cmd → port_send k cmd want p = Some (PDone err out cbs p') → R (c, p) (c, p');
  stable_handshake c p err out cbs p' :
    port_handshake p = Some (PDone err out cbs p') → R (c, p) (c, p')
}.

(** [setRadioState(s)] is allowed. *)
Definition may_set {S} (R : relation (Ctx * S)) (s : RIL_RadioState) : Prop :=
  ∀ c p, s_closed c ≤ 0 → R (c, p) (set_sState s c, p).

(** ** Composition *)

Section keeps.
Context {S P : Type} `{AtPort S} `{Platform P}.
Abbreviation W := (World S P).
Abbreviation M := (M S P).

Definition view (w : W) : Ctx * S := (w_ctx w, w_port w).

Definition keeps {A} (R : relation (Ctx * S)) (m : M A) : Prop := ∀ l w,
  match m l w with
  | Ok _ _ w' | Goto _ w' => R (view w) (view w')
  | Undef _ | Hang => True
  end.

(** Relations compose with the statements. *)
Lemma keeps_compose {A B} (R1 R2 R3 : relation (Ctx * S)) (m : M A) (f : A → M B) :
  (∀ a b, R1 a b → R3 a b) → (∀ a b c, R1 a b → R2 b c → R3 a c) →
  keeps R1 m → (∀ x, keeps R2 (f x)) → keeps R3 (m ≫= f).
Proof.
  intros Hsub Hcomp Hm Hf l w. specialize (Hm l w). unfold mbind, M_bind.
  destruct (m l w) as [x l' w'|l' w'| |]; try done; [|by apply Hsub]. specialize (Hf x l' w').
  destruct (f x l' w'); try done; by eapply Hcomp.
Qed.

Context (R : relation (Ctx * S)) `{!Stable R}.

Lemma keeps_ret {A} (x : A) : keeps R (mret x).
Proof. intros l w. simpl. reflexivity. Qed.

Lemma keeps_bind {A B} (m : M A) (f : A → M B) : keeps R m → (∀ x, keeps R (f x)) → keeps R (m ≫= f).
Proof. apply keeps_compose; [done|]. intros a b c. apply transitivity. Qed.

Lemma keeps_ret_bind {A B} (x : A) (f : A → M B) : keeps R (f x) → keeps R (mret x ≫= f).
Proof. done. Qed.

Lemma keeps_undef_bind {A B} u (f : A → M B) : keeps R (undef u ≫= f).
Proof. done. Qed.

Lemma keeps_on_error {A} (m h : M A) : keeps R m → keeps R h → keeps R (on_error m h).
Proof.
  intros Hm Hf l w. specialize (Hm l w). unfold on_error.
  destruct (m l w) as [x l' w'|l' w'| |]; try done. specialize (Hf l' w').
  destruct (h l' w'); try done; by etrans.
Qed.

Lemma keeps_frame {A} (m : M A) : keeps R m → keeps R (frame m).
Proof. intros Hm l w. specialize (Hm no_locals w). unfold frame. by destruct (m no_locals w). Qed.

Lemma keeps_put f : (∀ c, core (f c) = core c) → keeps R (put_ctx f).
Proof. intros Hf l w. apply (stable_put (w_ctx w) (f (w_ctx w)) (w_port w)), Hf. Qed.

(** The strings a command is made of. *)
Lemma keeps_asprintf {A} s (f : Ptr → M A) :
  (∀ b, keeps R (f (PHeap b s))) → keeps R (asprintf s ≫= f).
Proof. intros Hf l w. apply (Hf _ l (with_mem _ _ w)). Qed.

Lemma keeps_read_heap {A} b s (f : string → M A) :
  keeps R (f s) → keeps R (read_str (PHeap b s) ≫= f).
Proof.
  intros Hf l w. unfold mbind, M_bind, read_str, resolve. destruct (is_live b (w_live w)); [apply Hf|done].
Qed.

Lemma keeps_sprintf {A} n s (f : string → M A) : keeps R (f s) → keeps R (sprintf n s ≫= f).
Proof. intros Hf l w. unfold sprintf, mbind, M_bind. destruct (strlen s <? n); [apply Hf|done]. Qed.

(** Computations that leave context and port alone. *)
Definition inert {A} (m : M A) : Prop := ∀ l w,
  match m l w with
  | Ok _ _ w' | Goto _ w' => view w' = view w
  | Undef _ | Hang => True
  end.

Lemma keeps_inert {A} (m : M A) : inert m → keeps R m.
Proof.
  intros Hm l w. specialize (Hm l w). destruct (m l w); try done; by rewrite Hm.
Qed.

Lemma inert_goto {A} : inert (goto_error : M A). Proof. by intros l w. Qed.
Lemma inert_undef {A} u : inert (undef u : M A). Proof. by intros l w. Qed.
Lemma inert_get_ctx : inert (get_ctx : M _). Proof. by intros l w. Qed.
Lemma inert_get_world : inert (get_world : M _). Proof. by intros l w. Qed.
Lemma inert_polls a b : inert (update (λ w, with_polls (a w) (b w) w) : M _).
Proof. by intros l w. Qed.
Lemma inert_signal s : inert (update (with_signal s) : M _). Proof. by intros l w. Qed.
Lemma inert_strdup : inert (update with_strdup_leak : M _). Proof. by intros l w. Qed.
Lemma inert_malloc : inert (malloc : M _). Proof. by intros l w. Qed.
Lemma inert_set_resp x r : inert (set_resp x r : M _). Proof. by intros l w. Qed.
Lemma inert_get_resp x : inert (get_resp x : M _). Proof. by intros l w. Qed.
Lemma inert_set_ptr x r : inert (set_ptr x r : M _). Proof. by intros l w. Qed.
Lemma inert_get_ptr x : inert (get_ptr x : M _). Proof. by intros l w. Qed.
Lemma inert_timed a : inert (RIL_requestTimedCallback a : M _). Proof. by intros l w. Qed.
Lemma inert_free_block b : inert (free_block b : M _).
Proof. intros l w. unfold free_block. by destruct (del b _). Qed.
Lemma inert_read_str p : inert (read_str p : M _).
Proof. intros l w. unfold read_str. by destruct (resolve _ _) as [[]|]. Qed.
Lemma inert_check_live b : inert (check_live b : M _).
Proof. intros l w. unfold check_live. by destruct (is_live _ _). Qed.
Lemma inert_deref x : inert (deref x : M _).
Proof. intros l w. unfold deref. destruct (lv_resp l x); [by destruct (is_live _ _)|done]. Qed.
Lemma inert_complete t e p n : inert (RIL_onRequestComplete t e p n : M _).
Proof. intros l w. unfold RIL_onRequestComplete. by destruct (resolve_payload _ _). Qed.
Lemma inert_unsol c p n : inert (RIL_onUnsolicitedResponse c p n : M _).
Proof. intros l w. unfold RIL_onUnsolicitedResponse. by destruct (resolve_payload _ _). Qed.
Lemma inert_lift {A} (f : P → A * P) : inert (lift f : M _).
Proof. intros l w. unfold lift. by destruct (f _). Qed.
End keeps.

#[export] Hint Resolve inert_goto inert_undef inert_get_ctx inert_get_world inert_polls
  inert_signal inert_strdup inert_malloc inert_set_resp inert_get_resp inert_set_ptr inert_get_ptr
  inert_timed inert_free_block inert_read_str inert_check_live inert_deref inert_complete
  inert_unsol inert_lift : fw.

(** The specifications of composite computations. *)
Create HintDb keeps.
#[export] Hint Extern 0 (Stable _) => apply _ : keeps.
#[export] Hint Extern 1 (harmless _) => unfold harmless; repeat case_match; reflexivity : keeps.

(** One step of a proof of [keeps]: by the shape of the computation, by a
    known specification, or by unfolding. *)
Ltac keep1 :=
  lazymatch goal with
  | |- keeps _ (mret _) => apply keeps_ret, _
  | |- keeps _ (undef _ ≫= _) => apply keeps_undef_bind
  | |- keeps _ (mret _ ≫= _) => apply keeps_ret_bind
  | |- keeps _ (asprintf _ ≫= _) => apply keeps_asprintf; intros ?
  | |- keeps _ (read_str (PHeap _ _) ≫= _) => apply keeps_read_heap
  | |- keeps _ (sprintf _ _ ≫= _) => apply keeps_sprintf
  | |- keeps _ (_ ≫= _) => apply keeps_bind; [apply _| |intros ?]
  | |- keeps _ (on_error _ _) => apply keeps_on_error; [apply _|..]
  | |- keeps _ (frame _) => apply keeps_frame
  | |- keeps _ (put_ctx _) => apply keeps_put; [apply _|]; intros ?; try reflexivity
  | |- keeps _ (when ?b _) => unfold when; destruct b
  | |- keeps _ (match ?x with _ => _ end) => destruct x
  | |- keeps _ ?m =>
      first [ solve [apply keeps_inert; [apply _|auto with fw]]
            | solve [eauto with keeps]
            | apply keeps_inert; [apply _|apply inert_polls]
            | let f := head_of m in unfold f ]
  end; cbv beta iota zeta.
Ltac keep := repeat keep1.

(** ** The parts of the handlers *)

Section parts.
Context {S P : Type} `{AtPort S} `{Platform P} `{RilConsts} (R : relation (Ctx * S)) `{!Stable R}.
Abbreviation W := (World S P).
Abbreviation M := (M S P).
Abbreviation keeps := (keeps (S := S) (P := P) R).

Lemma skip_ints_keeps n ln : keeps (skip_ints n ln).
Proof. revert ln. induction n; intros ln; cbn [skip_ints]; keep. Qed.

Lemma skip_strs_keeps n ln : keeps (skip_strs n ln).
Proof. revert ln. induction n; intros ln; cbn [skip_strs]; keep. Qed.

Lemma announce_state_keeps ready old : keeps ready → keeps (announce_state ready old).
Proof. intros Hr. unfold announce_state. keep; auto. Qed.

(** The critical section of [setRadioState]: a closed session cannot be
    given another state than UNAVAILABLE. *)
Lemma state_section_keeps s : may_set R s → keeps (state_section s).
Proof.
  intros Hs l w. unfold state_section, mbind, M_bind, get_ctx, put_ctx. simpl.
  destruct (Z.ltb_spec 0 (s_closed (w_ctx w))); [rewrite orb_true_r|rewrite orb_false_r]; simpl.
  - by apply stable_section.
  - destruct (bool_decide _); simpl; [reflexivity|by apply Hs].
Qed.

Lemma setRadioState_with_keeps ready s : may_set R s → keeps ready → keeps (setRadioState_with ready s).
Proof.
  intros Hs Hr. apply keeps_bind; [apply _|by apply state_section_keeps|].
  intros old. by apply announce_state_keeps.
Qed.

Lemma state_section_closed s l (w : W) :
  0 < s_closed (w_ctx w) →
  state_section s l w =
    Ok (sState (w_ctx w)) l (with_ctx (set_sState RADIO_STATE_UNAVAILABLE (w_ctx w)) w).
Proof.
  intros Hc%Z.ltb_lt. unfold state_section, mbind, M_bind, get_ctx, put_ctx.
  by rewrite Hc, orb_true_r.
Qed.

Lemma onATReaderClosed_keeps : keeps onATReaderClosed.
Proof.
  intros l w. unfold onATReaderClosed, close_port, setRadioState_reader, setRadioState_with, update, put_ctx.
  unfold mbind at 1 2 3, M_bind. rewrite state_section_closed by done.
  set (w' := with_ctx _ (with_ctx _ _)).
  assert (Ha : keeps (announce_state (S := S) (P := P) (mret tt) (sState (w_ctx w))))
    by apply announce_state_keeps, keeps_ret, _.
  specialize (Ha l w'). pose proof (stable_closed (w_ctx w) (w_port w)) as Hc.
  change (R (view w) (view w')) in Hc. cbn [w_ctx with_ctx with_port set_s_closed sState] in *.
  destruct (announce_state _ _ l w'); try done; by etrans.
Qed.

Lemma onATTimeout_keeps : keeps onATTimeout.
Proof. exact onATReaderClosed_keeps. Qed.

Lemma onUnsolicited_keeps s pdu : keeps (onUnsolicited s pdu).
Proof. unfold onUnsolicited. keep. Qed.

Lemma run_callbacks_keeps cbs : keeps (run_callbacks cbs).
Proof.
  induction cbs as [|cb cbs IH]; cbn [run_callbacks]; [apply keeps_ret, _|].
  apply keeps_bind; [apply _| |done].
  destruct cb; [apply onUnsolicited_keeps|apply onATReaderClosed_keeps|apply onATTimeout_keeps].
Qed.

(** A command: what the port does, then the callbacks. *)
Lemma await_keeps (R1 R2 : relation (Ctx * S)) (f : S → option (PortResult S)) :
  (∀ a b, R1 a b → R2 a b) → (∀ a b c, R1 a b → R b c → R2 a c) →
  (∀ c p err out cbs p', f p = Some (PDone err out cbs p') → R1 (c, p) (c, p')) →
  RilKeeps.keeps (P := P) R2 (λ l w, await (f (w_port w)) l w).
Proof.
  intros Hsub Hcomp Hf l w. unfold await.
  destruct (f (w_port w)) as [[err out cbs s|]|] eqn:E; try done.
  assert (Hr : keeps (run_callbacks cbs;; mret (err, out)))
    by (apply keeps_bind; [apply _|apply run_callbacks_keeps|intros ?; apply keeps_ret, _]).
  specialize (Hr l (with_port s w)). specialize (Hf (w_ctx w) _ _ _ _ _ E).
  destruct ((run_callbacks cbs ≫= _) l (with_port s w)); try done; by eapply Hcomp.
Qed.

Lemma at_send_keeps k cmd want : harmless cmd → keeps (at_send k cmd want).
Proof.
  intros Hh. apply (await_keeps R R (port_send k cmd want)); [done|intros a b c; apply transitivity|].
  intros c p err out cbs p'. by apply stable_send.
Qed.

Lemma handshake_keeps : keeps handshake.
Proof.
  assert (Hk : keeps (λ l w, await (port_handshake (w_port w)) l w)).
  { apply (await_keeps R R port_handshake); [done|intros a b c; apply transitivity|].
    intros c p err out cbs p'. by apply stable_handshake. }
  intros l w. specialize (Hk l w). cbv beta in Hk.
  unfold handshake, mbind, M_bind. destruct (await (port_handshake (w_port w)) l w) as [[]| | |]; exact Hk.
Qed.
End parts.

#[export] Hint Resolve skip_ints_keeps skip_strs_keeps run_callbacks_keeps at_send_keeps
  handshake_keeps onUnsolicited_keeps : keeps.

Section recursive.
Context {S P : Type} `{AtPort S} `{Platform P} `{RilConsts} (R : relation (Ctx * S)) `{!Stable R}.
Abbreviation keeps := (keeps (S := S) (P := P) R).

Lemma poll_loop_keeps ifname n : keeps (poll_loop ifname n).
Proof. induction n; cbn [poll_loop]; keep. Qed.

Lemma find_pid_keeps name es : keeps (find_pid name es).
Proof. induction es; cbn [find_pid]; keep. Qed.

Lemma wait_ota_keeps n : keeps (wait_ota n).
Proof. induction n; cbn [wait_ota]; keep. Qed.

Lemma commands_keeps cmds : Forall harmless cmds → keeps (commands cmds).
Proof. intros Hc. induction Hc; cbn [commands]; keep. Qed.

Lemma run_commands_keeps cmds : Forall harmless cmds → keeps (run_commands cmds).
Proof. intros Hc. induction Hc; cbn [run_commands foldr]; keep. Qed.

Lemma free_all_keeps xs : keeps (free_all xs).
Proof. induction xs; cbn [free_all foldr]; keep. Qed.
End recursive.

#[export] Hint Resolve poll_loop_keeps find_pid_keeps wait_ota_keeps commands_keeps
  run_commands_keeps free_all_keeps : keeps.
#[export] Hint Extern 1 (Forall harmless _) => repeat constructor : keeps.

(** ** The events *)

Lemma setRadioState_keeps {S P} `{AtPort S} `{Platform P} `{RilConsts} (R : relation (Ctx * S)) `{!Stable R} s :
  may_set R s → keeps (P := P) R (setRadioState s).
Proof. intros Hs. apply setRadioState_with_keeps; [apply _|done|]. keep. Qed.

#[export] Hint Resolve setRadioState_keeps : keeps.

Section handlers.
Context {S P : Type} `{AtPort S} `{Platform P} `{RilConsts} `{RilCodes}.
Context (R : relation (Ctx * S)) `{!Stable R}.
Abbreviation M := (M S P).
Abbreviation keeps := (keeps (S := S) (P := P) R).

(** What a computation returns. *)
Definition yields {A} (φ : A → Prop) (m : M A) : Prop := ∀ l w,
  match m l w with Ok x _ _ => φ x | _ => True end.

Lemma yields_bind {A B} (φ : B → Prop) (m : M A) (f : A → M B) :
  (∀ x, yields φ (f x)) → yields φ (m ≫= f).
Proof.
  intros Hf l w. unfold mbind, M_bind. destruct (m l w); try done. apply Hf.
Qed.

Lemma yields_ret {A} (φ : A → Prop) (x : A) : φ x → yields φ (mret x).
Proof. by intros Hx l w. Qed.

Lemma yields_frame {A} (φ : A → Prop) (m : M A) : yields φ m → yields φ (frame m).
Proof. intros Hm l w. specialize (Hm no_locals w). unfold frame. by destruct (m no_locals w). Qed.

Lemma yields_on_error {A} (φ : A → Prop) (m h : M A) :
  yields φ m → yields φ h → yields φ (on_error m h).
Proof.
  intros Hm Hh l w. specialize (Hm l w). unfold on_error.
  destruct (m l w) as [| l' w'| |]; try done. apply Hh.
Qed.

Lemma keeps_bind_yields {A B} (φ : A → Prop) (m : M A) (f : A → M B) :
  yields φ m → keeps m → (∀ x, φ x → keeps (f x)) → keeps (m ≫= f).
Proof.
  intros Hy Hm Hf l w. specialize (Hy l w). specialize (Hm l w). unfold mbind, M_bind.
  destruct (m l w) as [x l' w'|l' w'| |]; try done. specialize (Hf x Hy l' w').
  destruct (f x l' w'); try done; by etrans.
Qed.

(** The radio as [isRadioOn] reports it is never on. *)
Lemma isRadioOn_never_on : yields (λ on, on ≤ 0) isRadioOn.
Proof.
  apply yields_frame, yields_on_error;
    repeat first [apply yields_ret; lia | apply yields_bind; intros ?
                 | match goal with |- yields _ (let '_ := ?x in _) => destruct x end].
Qed.

(** The PIN command is printed in either branch. *)
Lemma requestEnterSimPin_keeps data datalen t : keeps (requestEnterSimPin data datalen t).
Proof.
  unfold requestEnterSimPin. do 2 keep1; [|keep]. keep1; [|keep].
  apply (keeps_bind_yields harmless); [|keep|intros s Hs; keep].
  repeat case_match; repeat first [apply yields_ret; reflexivity|apply yields_bind; intros ?|done].
Qed.

Lemma requestRadioPower_keeps z zs datalen t :
  (z = 0 → may_set R RADIO_STATE_OFF) → (0 < z → may_set R RADIO_STATE_SIM_NOT_READY) →
  keeps (requestRadioPower (DInts (z :: zs)) datalen t).
Proof.
  intros Hoff Hon. unfold requestRadioPower. rewrite data_int_head. do 3 keep1; [keep| |keep..]. keep1.
  destruct (Z.eqb_spec z 0) as [->|]; [|destruct (Z.ltb_spec 0 z)];
    change (0 <? 0) with false; cbn [andb]; keep; auto with keeps.
Qed.

Lemma requestRadioPower_no_data data datalen t :
  (∀ z zs, data ≠ DInts (z :: zs)) → keeps (requestRadioPower data datalen t).
Proof.
  intros Hd. unfold requestRadioPower.
  assert (Hu : ∃ u, data_int (S := S) (P := P) data 0 = undef u).
  { destruct data as [|[|z zs]| | | | |]; try (by eexists). by destruct (Hd z zs). }
  destruct Hu as [u ->]. keep.
Qed.

#[local] Hint Resolve requestEnterSimPin_keeps : keeps.

Lemma dispatch_keeps r data datalen t :
  r ≠ Some RIL_REQUEST_RADIO_POWER → keeps (dispatch r data datalen t).
Proof.
  intros Hr. destruct r as [r|]; [|keep]. destruct r; try done; cbn [dispatch dispatch_services]; keep.
Qed.

(** [initializeCallback] may set SIM_NOT_READY only when [isRadioOn] says so. *)
Lemma initializeCallback_keeps : may_set R RADIO_STATE_OFF → keeps initializeCallback.
Proof.
  intros Hoff. unfold initializeCallback. do 3 (apply keeps_bind; [apply _|keep|intros _]).
  apply (keeps_bind_yields (λ on, on ≤ 0)); [apply isRadioOn_never_on|keep|].
  intros on Hon. rewrite (proj2 (Z.ltb_ge 0 on)) by lia. keep.
Qed.

Lemma pollSIMState_keeps : may_set R RADIO_STATE_SIM_READY → keeps pollSIMState.
Proof. intros Hr. unfold pollSIMState, getSIMStatus. keep. Qed.

Lemma run_callback_keeps cb : keeps (run_callback cb).
Proof.
  destruct cb; [by apply onUnsolicited_keeps|by apply onATReaderClosed_keeps|by apply onATTimeout_keeps].
Qed.

(** A round of the main loop, given what the activation does. *)
Lemma monitor_round_keeps : keeps (activateHelper 1) → keeps monitor_round.
Proof. intros Ha. unfold monitor_round. keep. Qed.

(** The activation, given what an attempt does. *)
Lemma activateHelper_keeps options : keeps otasp_attempt → keeps (activateHelper options).
Proof.
  intros Ho. unfold activateHelper, activate_body, activate_carrier, save_mdn. keep; auto with keeps.
Qed.

(** The activation call adds what the command does to the port. *)
Lemma otasp_call_keeps (R2 : relation (Ctx * S)) :
  (∀ a b, R a b → R2 a b) → (∀ a b c, R a b → R2 b c → R2 a c) → (∀ a b c, R2 a b → R b c → R2 a c) →
  (∀ k want c p err out cbs p',
     port_send k OTASP_CALL want p = Some (PDone err out cbs p') → R2 (c, p) (c, p')) →
  RilKeeps.keeps (P := P) R2 otasp_call.
Proof.
  intros Hsub Hpre Hpost Hsend. unfold otasp_call. apply (keeps_compose R R2); [done|done|keep|intros _].
  apply (keeps_compose R2 R); [done|done| |intros ?; unfold save_mdn; keep].
  unfold at_send_resp. apply (keeps_compose R2 R); [done|done| |intros ?; keep].
  apply (await_keeps R R2 R2); [done|done|]. intros c p err out cbs p'. apply Hsend.
Qed.
End handlers.
