(* ===== verification/RilState.v ===== *)
(** * The radio state over the life of a session

    Which events may put the radio into which state: the relation [moves] is
    kept by everything the driver does ([RilKeeps]), whatever the modem, the
    requests and the platform are. *)

From S2P Require Import Prelude CString AtTok AtReader AtChannel RilInfo RilBase RilLogic RilReader RilSim RilUtils RilAuto RilRqst RilData RilTimer Ril RilMain RilKeeps.

Open Scope Z_scope.

(** ** The relations *)

(** A closed session stays closed; the radio state stays, or becomes one of
    [X] if the session is open, or UNAVAILABLE in a closed session. *)
Definition moves (X : list RIL_RadioState) (c c' : Ctx) : Prop :=
  (0 < s_closed c → 0 < s_closed c') ∧
  (sState c' = sState c ∨
   (sState c' ∈ X ∧ s_closed c ≤ 0) ∨
   (sState c' = RADIO_STATE_UNAVAILABLE ∧ 0 < s_closed c')).

#[export] Instance moves_refl X : Reflexive (moves X).
Proof. intros c. split; auto. Qed.

#[export] Instance moves_trans X : Transitive (moves X).
Proof.
  intros c1 c2 c3 [Hc1 H1] [Hc2 H2]. split; [auto|].
  destruct H2 as [E2|[[Hx2 Hn2]|[E2 Hu2]]]; [|right; left; split; [done|]|auto].
  - rewrite E2. destruct H1 as [?|[?|[? ?]]]; auto.
  - destruct (Z.lt_ge_cases 0 (s_closed c1)) as [Hlt|]; [specialize (Hc1 Hlt); lia|done].
Qed.

#[export] Instance moves_preorder X : PreOrder (moves X).
Proof. split; apply _. Qed.

(** As a relation on the context and the port. *)
Definition moves_on {S} (X : list RIL_RadioState) : relation (Ctx * S) := λ a b, moves X a.1 b.1.

#[export] Instance moves_stable {S} `{AtPort S} X : Stable (S := S) (moves_on X).
Proof.
  split; unfold moves_on; cbn [fst snd].
  - split; [intros a; reflexivity|intros a b c; apply transitivity].
  - intros c c' _ [= Hs Hc _]. split; [by rewrite Hc|by left].
  - intros c _ Hc. split; simpl; auto.
  - intros c _. split; simpl; [lia|]. right; right. split; [done|lia].
  - reflexivity.
  - reflexivity.
Qed.

Lemma moves_may_set {S} X s : s ∈ X → may_set (S := S) (moves_on X) s.
Proof. intros Hs c p Hc. split; simpl; auto. Qed.

#[export] Hint Resolve moves_may_set list_elem_of_here : keeps.

(** ** The events of the driver *)

(** What the RIL library, the reader thread and the main loop make it do.
    [EvOpen] is the main loop opening the port (again): the channel it gets and
    what [at_open] returned. *)
Inductive Event (S : Type) :=
  | EvRequest (request : Z) (data : Data) (datalen : Z) (t : nat)
  | EvCallback (cb : Callback)
  | EvPollSIM
  | EvInitialize
  | EvRound
  | EvOpen (p : S) (ret : Z).
Arguments EvRequest {S}.
Arguments EvCallback {S}.
Arguments EvPollSIM {S}.
Arguments EvInitialize {S}.
Arguments EvRound {S}.
Arguments EvOpen {S}.

Definition opens {S} (ev : Event S) : bool := match ev with EvOpen _ _ => true | _ => false end.

(** The states an event may set, apart from UNAVAILABLE when the session is
    closed. *)
Definition targets {S} `{RilCodes} (ev : Event S) : list RIL_RadioState :=
  match ev with
  | EvRequest request data _ _ =>
      match decode request, data with
      | Some RIL_REQUEST_RADIO_POWER, DInts (z :: _) =>
          if z =? 0 then [RADIO_STATE_OFF] else if 0 <? z then [RADIO_STATE_SIM_NOT_READY] else []
      | _, _ => []
      end
  | EvPollSIM => [RADIO_STATE_SIM_READY]
  | EvInitialize => [RADIO_STATE_OFF]
  | EvCallback _ | EvRound | EvOpen _ _ => []
  end.

Section events.
Context {S P : Type} `{AtPort S} `{Platform P} `{RilConsts} `{RilCodes}.
Abbreviation W := (World S P).
Abbreviation M := (M S P).

Definition handle (ev : Event S) : M unit :=
  match ev with
  | EvRequest request data datalen t => rf_onRequest myRILDriverCallbacks request data datalen t
  | EvCallback cb => run_callback cb
  | EvPollSIM => pollSIMState
  | EvInitialize => initializeCallback
  | EvRound => _ ← monitor_round; mret tt
  | EvOpen p ret => _ ← session_start p ret; mret tt
  end.

(** What the events have in common: a relation that the driver's own steps
    keep, and that allows the states the event may set, is kept by the event. *)
Lemma handle_stable (R : relation (Ctx * S)) `{!Stable R} (ev : Event S) :
  opens ev = false → (∀ s, s ∈ targets ev → may_set R s) → keeps (P := P) R otasp_attempt →
  keeps (P := P) R (handle ev).
Proof.
  intros Ho Hset Hotasp. destruct ev as [request data datalen t|cb| | | |p ret]; cbn [handle targets] in *.
  - cbn [rf_onRequest myRILDriverCallbacks]. unfold onRequest. keep1; [keep|]. keep1; [keep|].
    destruct (decide (decode request = Some RIL_REQUEST_RADIO_POWER)) as [E|E].
    + rewrite E in *. cbn [dispatch]. destruct data as [|[|z zs]| | | | |];
        first [by apply requestRadioPower_no_data; [apply _|]|apply requestRadioPower_keeps; [apply _|..]].
      * intros ->. apply Hset, list_elem_of_here.
      * intros Hz. rewrite (proj2 (Z.eqb_neq _ _)), (proj2 (Z.ltb_lt _ _)) in Hset by lia.
        apply Hset, list_elem_of_here.
    + by apply dispatch_keeps; [apply _|].
  - apply run_callback_keeps, _.
  - apply pollSIMState_keeps; [apply _|]. apply Hset, list_elem_of_here.
  - apply initializeCallback_keeps; [apply _|]. apply Hset, list_elem_of_here.
  - apply keeps_bind; [apply _| |intros ?; keep]. apply monitor_round_keeps; [apply _|].
    by apply activateHelper_keeps; [apply _|].
  - done.
Qed.

(** The worlds the driver gets into from [w] without opening the port again. *)
Inductive reachable (w : W) : W → Prop :=
| reachable_refl : reachable w w
| reachable_step w1 w2 ev l :
    reachable w w1 → opens ev = false → handle ev no_locals w1 = Ok tt l w2 → reachable w w2.
End events.

Section transitions.
Context {S P : Type} `{AtPort S} `{Platform P} `{RilConsts} `{RilCodes}.
Abbreviation W := (World S P).
Abbreviation M := (M S P).
Abbreviation keeps X := (keeps (S := S) (P := P) (moves_on X)).

Lemma otasp_attempt_moves X : keeps X otasp_attempt.
Proof.
  unfold otasp_attempt.
  assert (Hput : keeps X (put_ctx (set_moduleIsActivated 2))) by keep.
  apply keeps_bind; [apply _|keep|intros c]. apply keeps_bind; [apply _| |intros _].
  - unfold when. destruct (negb _); [|keep]. intros l w. by split; [|left].
  - apply keeps_bind; [apply _|keep|intros c'].
    destruct (moduleActivateRetry c' =? 0); [apply keeps_bind; [apply _|done|intros _; keep]|].
    apply (otasp_call_keeps (moves_on X)); [done|intros a b d; apply transitivity..|].
    intros k want d p err out cbs p' _. apply (reflexivity (R := moves X) d).
Qed.

Lemma activation_moves X options : keeps X (activateHelper options).
Proof. apply activateHelper_keeps; [apply _|apply otasp_attempt_moves]. Qed.

Lemma handle_keeps (ev : Event S) : opens ev = false → keeps (targets ev) (handle ev).
Proof.
  intros Ho. apply handle_stable; [apply _|done|intros s; apply moves_may_set|apply otasp_attempt_moves].
Qed.

(** Opening the port begins a session and leaves the radio state alone. *)
Lemma session_start_spec (p : S) ret l (w : W) :
  ∃ b w', session_start p ret l w = Ok b l w' ∧ b = negb (ret <? 0) ∧
    s_closed (w_ctx w') = 0 ∧ sState (w_ctx w') = sState (w_ctx w) ∧ w_port w' = p ∧
    w_out w' = w_out w ++ (if ret <? 0 then [] else [TimedCallback TimedInitialize]).
Proof.
  unfold session_start, put_ctx, update, RIL_requestTimedCallback, mbind, M_bind. simpl.
  destruct (ret <? 0); eexists _, _; (split; [done|]); simpl; rewrite ?app_nil_r; done.
Qed.

(** C4: the radio state machine.  Whatever happens - any request with any
    data, any callback, the SIM poll, the initialisation, a round of the main
    loop or its opening of the port - and whatever the modem and the platform
    do meanwhile: the radio goes OFF only by a power request with 0 or the
    initialisation, to SIM_NOT_READY only by a power request with a positive
    number, to SIM_READY only by the SIM poll, to UNAVAILABLE only in a closed
    session, and to no other state; and only opening the port ends the closed
    state of a session. *)
Theorem radio_transitions (ev : Event S) (w : W) :
  match handle ev no_locals w with
  | Ok _ _ w' | Goto _ w' =>
      (opens ev = false → 0 < s_closed (w_ctx w) → 0 < s_closed (w_ctx w')) ∧
      (sState (w_ctx w') = sState (w_ctx w) ∨
       (sState (w_ctx w') ∈ targets ev ∧ s_closed (w_ctx w) ≤ 0) ∨
       (sState (w_ctx w') = RADIO_STATE_UNAVAILABLE ∧ 0 < s_closed (w_ctx w')))
  | Undef _ | Hang => True
  end.
Proof.
  destruct (opens ev) eqn:Ho.
  - destruct ev as [| | | | |p ret]; try done. cbn [handle]. unfold mbind, M_bind.
    destruct (session_start_spec p ret no_locals w) as (b & w' & -> & _ & _ & Es & _). by split; [|left].
  - pose proof (handle_keeps ev Ho no_locals w) as Hk.
    destruct (handle ev no_locals w); try done; destruct Hk; auto.
Qed.

(** The part of a round before the test of [s_closed]. *)
Definition round_start : M unit :=
  sleep 10;;
  c ← get_ctx;
  when (moduleIsActivated c =? 0) (_ ← activateHelper 1; mret tt).

Lemma monitor_round_eq l (w : W) :
  (monitor_round : M bool) l w =
  (round_start;; c ← get_ctx;
   if negb (s_closed c =? 0) then mret false
   else (when (screenState c =? 1) fw100ModemTimer;; mret true)) l w.
Proof.
  unfold monitor_round, round_start, mbind, M_bind. destruct (sleep 10 l w); try done.
Qed.

(** The monitoring loop is left in a closed session only, and a round that
    begins in a closed session is the last one. *)
Lemma monitor_round_left l l' (w w' : W) :
  monitor_round l w = Ok false l' w' → s_closed (w_ctx w') ≠ 0.
Proof.
  rewrite monitor_round_eq. unfold mbind, M_bind, get_ctx.
  destruct (round_start l w) as [[] l1 w1|l1 w1| |]; try done.
  destruct (Z.eqb_spec (s_closed (w_ctx w1)) 0); simpl; [|by intros [= <- <-]].
  by destruct (when _ _ l1 w1).
Qed.

Lemma monitor_round_closed l l' b (w w' : W) :
  0 < s_closed (w_ctx w) → monitor_round l w = Ok b l' w' → b = false.
Proof.
  intros Hc. rewrite monitor_round_eq. unfold mbind, M_bind, get_ctx.
  assert (Hk : keeps [] round_start)
    by (pose proof (activation_moves [] 1); unfold round_start; keep; auto).
  specialize (Hk l w).
  destruct (round_start l w) as [[] l1 w1|l1 w1| |]; try done. destruct Hk as [Hk _]. cbn [view fst] in Hk.
  destruct (Z.eqb_spec (s_closed (w_ctx w1)) 0); [lia|]. by intros [= <- _ _].
Qed.

Lemma monitor_loop_left n l l' (w w' : W) :
  monitor_loop n l w = Ok true l' w' → s_closed (w_ctx w') ≠ 0.
Proof.
  revert l w. induction n as [|n IH]; intros l w; [done|]. cbn [monitor_loop]. unfold mbind, M_bind.
  destruct (monitor_round l w) as [[] l1 w1|l1 w1| |] eqn:E; try done; [apply IH|].
  intros [= <- <-]. by eapply monitor_round_left.
Qed.

Lemma closed_preserved (w w' : W) :
  reachable w w' → 0 < s_closed (w_ctx w) → sState (w_ctx w) = RADIO_STATE_UNAVAILABLE →
  0 < s_closed (w_ctx w') ∧ sState (w_ctx w') = RADIO_STATE_UNAVAILABLE.
Proof.
  intros Hr Hc Hs. induction Hr as [|w1 w2 ev l Hr IH Ho E]; [done|]. destruct IH as [Hc1 Hs1].
  pose proof (handle_keeps ev Ho no_locals w1) as Hk. rewrite E in Hk. destruct Hk as [Hc2 Hm]. cbn [view fst] in Hc2, Hm.
  split; [auto|]. destruct Hm as [->|[[_ ?]|[? _]]]; [done|lia|done].
Qed.

(** Once the channel has been closed and the radio is UNAVAILABLE, no sequence
    of events other than the main loop opening the port again brings it back
    ([reachable] has every event but [EvOpen]), and every line the modem still
    sends is ignored: nothing is reported and no state changes. *)
Theorem closed_session_final (w w' : W) (s : string) (sms_pdu : option string) (l : Locals) :
  reachable w w' → 0 < s_closed (w_ctx w) → sState (w_ctx w) = RADIO_STATE_UNAVAILABLE →
  0 < s_closed (w_ctx w') ∧ sState (w_ctx w') = RADIO_STATE_UNAVAILABLE ∧
  onUnsolicited s sms_pdu l w' = Ok tt l w'.
Proof.
  intros Hr Hc Hs. destruct (closed_preserved w w' Hr Hc Hs) as [Hc' Hs'].
  split_and!; [done|done|]. unfold onUnsolicited, mbind, M_bind, get_ctx. by rewrite Hs'.
Qed.
End transitions.

(** A session the reader thread has just closed, and a request in it. *)
Definition closed_world : World ChanPort Sim :=
  match run_callback CbReaderClosed no_locals (sim_world RADIO_STATE_SIM_READY [] sim_empty) with
  | Ok _ _ w => w
  | _ => sim_world RADIO_STATE_SIM_READY [] sim_empty
  end.

Lemma closed_session_final_witness :
  ∃ w' : World ChanPort Sim,
    reachable closed_world w' ∧ length (w_out w') = 2%nat ∧
    0 < s_closed (w_ctx w') ∧ sState (w_ctx w') = RADIO_STATE_UNAVAILABLE ∧
    onUnsolicited "+CREG: 1" None no_locals w' = Ok tt no_locals w'.
Proof.
  destruct (handle (EvRequest (req_code RIL_REQUEST_ANSWER) DNull 0 5) no_locals closed_world)
    as [[] l w'| | |] eqn:E; [|exfalso; vm_compute in E; discriminate E..].
  assert (Hr : reachable closed_world w')
    by (eapply (reachable_step _ _ _ (EvRequest _ _ _ _)); [apply reachable_refl|reflexivity|exact E]).
  exists w'. split; [exact Hr|]. split.
  - assert (Hl : Some (length (w_out w')) = Some 2%nat); [|by injection Hl].
    change (match (Ok tt l w' : Outcome ChanPort Sim unit) with
            | Ok _ _ w'' => Some (length (w_out w'')) | _ => None end = Some 2%nat).
    rewrite <- E. vm_compute. reflexivity.
  - apply (closed_session_final closed_world w' "+CREG: 1" None no_locals Hr); vm_compute; reflexivity.
Defined.
