(* ===== verification/RilActivate.v ===== *)
(** * The over-the-air activation is attempted at most five times

    The port is wrapped in a log of the commands it is given; the number of
    activation calls in it is bounded by the retries left in the context,
    through every event of the driver. *)

From S2P Require Import Prelude CString AtTok AtReader AtChannel RilInfo RilBase RilLogic RilReader RilSim RilUtils RilAuto RilRqst RilData RilTimer Ril RilMain RilKeeps RilState.

Open Scope Z_scope.

(** ** A port that logs its commands *)

Record Logged (S : Type) := MkLogged { lg_port : S; lg_log : list string }.
Arguments MkLogged {S}.
Arguments lg_port {S}.
Arguments lg_log {S}.

Definition log_result {S} (log : list string) (r : option (PortResult S)) : option (PortResult (Logged S)) :=
  match r with
  | Some (PDone err out cbs s) => Some (PDone err out cbs (MkLogged s log))
  | Some PBlocked => Some PBlocked
  | None => None
  end.

#[export] Instance logged_port {S} `{AtPort S} : AtPort (Logged S) := {
  port_send k cmd want p := log_result (lg_log p ++ [cmd]) (port_send k cmd want (lg_port p));
  port_handshake p := log_result (lg_log p) (port_handshake (lg_port p));
  port_close p := MkLogged (port_close (lg_port p)) (lg_log p)
}.

(** The activation calls in a log. *)
Definition otasp_calls (log : list string) : Z :=
  Z.of_nat (length (List.filter (String.eqb OTASP_CALL) log)).

Lemma otasp_calls_app l1 l2 : otasp_calls (l1 ++ l2) = otasp_calls l1 + otasp_calls l2.
Proof. unfold otasp_calls. rewrite List.filter_app, length_app. lia. Qed.

Lemma otasp_calls_harmless cmd : harmless cmd → otasp_calls [cmd] = 0.
Proof. unfold harmless, otasp_calls. cbn [List.filter]. rewrite String.eqb_sym. by intros ->. Qed.

Lemma otasp_calls_nonneg log : 0 ≤ otasp_calls log.
Proof. unfold otasp_calls. lia. Qed.

(** ** The budget *)

Section budget.
Context {S P : Type} `{AtPort S} `{Platform P} `{RilConsts} `{RilCodes}.
Abbreviation Port := (Logged S).
Abbreviation W := (World Port P).
Abbreviation M := (M Port P).

(** Calls made, and calls that may still be made. *)
Definition potential (a : Ctx * Port) : Z :=
  otasp_calls (lg_log a.2) + Z.max 1 (moduleActivateRetry a.1).

(** The retries stay in their range and the potential grows by [k] at most. *)
Definition spends (k : Z) : relation (Ctx * Port) := λ a b,
  0 ≤ moduleActivateRetry a.1 ≤ MAX_AUTO_ACTIVATE_RETRY →
  0 ≤ moduleActivateRetry b.1 ≤ MAX_AUTO_ACTIVATE_RETRY ∧ potential b ≤ potential a + k.

Lemma spends_trans j k n a b c : j + k ≤ n → spends j a b → spends k b c → spends n a c.
Proof. intros Hn Hab Hbc Ha. destruct (Hab Ha) as [Hb ?]. destruct (Hbc Hb). split; [done|lia]. Qed.

Lemma spends_le j k a b : j ≤ k → spends j a b → spends k a b.
Proof. intros Hle Hab Ha. destruct (Hab Ha). split; [done|lia]. Qed.

(** Nothing that counts has changed. *)
Lemma spends_same a b :
  moduleActivateRetry b.1 = moduleActivateRetry a.1 →
  otasp_calls (lg_log b.2) = otasp_calls (lg_log a.2) → spends 0 a b.
Proof. unfold spends, potential. intros -> ->. lia. Qed.

Lemma log_result_done log r err out cbs (p' : Port) :
  log_result log r = Some (PDone err out cbs p') → lg_log p' = log.
Proof. destruct r as [[]|]; [|done..]. by intros [= <- <- <- <-]. Qed.

#[export] Instance spends_stable : Stable (spends 0).
Proof.
  split.
  - split; [intros a; by apply spends_same|intros a b c; by apply spends_trans].
  - intros c c' p [= _ _ Hr]. by apply spends_same.
  - intros c p _. by apply spends_same.
  - intros c p. by apply spends_same.
  - intros k cmd want c p err out cbs p' Hh Hs%log_result_done. apply spends_same; [done|].
    cbn [snd]. rewrite Hs, otasp_calls_app, otasp_calls_harmless by done. lia.
  - intros c p err out cbs p' Hs%log_result_done. apply spends_same; [done|]. cbn [snd]. by rewrite Hs.
Qed.

Lemma spends_may_set s : may_set (spends 0) s.
Proof. intros c p _. by apply spends_same. Qed.

(** The call itself costs one. *)
Lemma otasp_call_spends : keeps (P := P) (spends 1) otasp_call.
Proof.
  apply (otasp_call_keeps (spends 0)).
  - intros a b. by apply spends_le.
  - intros a b c. by apply spends_trans.
  - intros a b c. by apply spends_trans.
  - intros k want c p err out cbs p' Hs%log_result_done Ha. split; [done|]. unfold potential. cbn [fst snd].
    rewrite Hs, otasp_calls_app. change (otasp_calls [OTASP_CALL]) with 1. lia.
Qed.

(** An attempt pays for the call with a retry; the last retry buys nothing. *)
Lemma otasp_attempt_spends : keeps (P := P) (spends 0) otasp_attempt.
Proof.
  intros l w. destruct (decide (0 ≤ moduleActivateRetry (w_ctx w) ≤ MAX_AUTO_ACTIVATE_RETRY)) as [Hr|Hr];
    [|destruct (otasp_attempt l w); try done; by intros ?].
  unfold MAX_AUTO_ACTIVATE_RETRY in Hr. unfold otasp_attempt, mbind, M_bind, get_ctx, when.
  destruct (Z.eqb_spec (moduleActivateRetry (w_ctx w)) 0) as [E|E]; cbn [negb mret M_ret].
  - rewrite E. by apply spends_same.
  - unfold put_ctx at 1. cbn [with_ctx w_ctx moduleActivateRetry set_moduleActivateRetry].
    rewrite int32_id by (unfold is_int32, INT_MIN, INT_MAX; lia).
    destruct (Z.eqb_spec (moduleActivateRetry (w_ctx w) - 1) 0) as [E1|E1].
    + intros _. unfold potential, MAX_AUTO_ACTIVATE_RETRY. simpl. lia.
    + match goal with |- match otasp_call ?l1 ?w1 with _ => _ end =>
        pose proof (otasp_call_spends l1 w1) as Hc; destruct (otasp_call l1 w1) end; try done;
      intros _; (destruct Hc as [? Hp]; [simpl; unfold MAX_AUTO_ACTIVATE_RETRY; lia|]);
      (split; [done|]); unfold potential in *; cbn [view fst snd w_ctx w_port with_ctx moduleActivateRetry set_moduleActivateRetry] in *; lia.
Qed.

Lemma handle_spends (ev : Event Port) : opens ev = false → keeps (P := P) (spends 0) (handle ev).
Proof.
  intros Ho. apply handle_stable; [apply _|done|intros s _; apply spends_may_set|apply otasp_attempt_spends].
Qed.

(** The life of the driver: any sequence of events, the port being opened
    again on the same log. *)
Inductive life (w : W) : W → Prop :=
| life_start : life w w
| life_event w1 w2 ev l :
    life w w1 → opens ev = false → handle ev no_locals w1 = Ok tt l w2 → life w w2
| life_open w1 w2 p ret l :
    life w w1 → lg_log p = lg_log (w_port w1) → handle (EvOpen p ret) no_locals w1 = Ok tt l w2 →
    life w w2.

Lemma life_spends w w' : life w w' → spends 0 (view w) (view w').
Proof.
  intros Hl. induction Hl as [|w1 w2 ev l Hl IH Ho E|w1 w2 p ret l Hl IH Hp E].
  - by apply spends_same.
  - apply (spends_trans 0 0 0 _ (view w1)); [done|done|].
    pose proof (handle_spends ev Ho no_locals w1) as Hk. by rewrite E in Hk.
  - apply (spends_trans 0 0 0 _ (view w1)); [done|done|]. apply spends_same.
    + cbn [handle] in E. unfold session_start, put_ctx, update, RIL_requestTimedCallback, mbind, M_bind in E.
      simpl in E. destruct (ret <? 0); by inversion E.
    + destruct (session_start_spec p ret no_locals w1) as (b & w3 & E3 & _ & _ & _ & Ep & _).
      cbn [handle] in E. unfold mbind, M_bind in E. rewrite E3 in E. injection E as _ <-.
      unfold view. cbn [snd]. by rewrite Ep, Hp.
Qed.

(** C11: the activation call is made at most five times.  From the start of the
    driver on, with its six retries, and whatever the modem, the platform and
    the requests do, however often the port is opened again: AT+CDV=*22899 is
    sent at most five times, and the retries never leave their range. *)
Theorem activation_bounded (w w' : W) :
  life w w' → moduleActivateRetry (w_ctx w) = MAX_AUTO_ACTIVATE_RETRY → lg_log (w_port w) = [] →
  otasp_calls (lg_log (w_port w')) ≤ MAX_AUTO_ACTIVATE_RETRY - 1 ∧
  0 ≤ moduleActivateRetry (w_ctx w') ≤ MAX_AUTO_ACTIVATE_RETRY.
Proof.
  intros Hl%life_spends Hr Hlog. unfold spends, potential, view in Hl. cbn [fst snd] in Hl.
  rewrite Hr, Hlog in Hl. unfold MAX_AUTO_ACTIVATE_RETRY in *. change (otasp_calls []) with 0 in Hl.
  destruct Hl as [? ?]; [lia|]. split; lia.
Qed.
End budget.

(** ** Example: a modem that is never activated *)

(** [n] rounds of the main loop. *)
Fixpoint rounds (n : nat) (w : World (Logged ChanPort) Sim) : option (World (Logged ChanPort) Sim) :=
  match n with
  | O => Some w
  | Datatypes.S n' =>
      match handle EvRound no_locals w with Ok _ _ w' => rounds n' w' | _ => None end
  end.

Lemma rounds_life n w0 w w' : life w0 w → rounds n w = Some w' → life w0 w'.
Proof.
  revert w. induction n as [|n IH]; intros w Hl; cbn [rounds]; [by intros [= <-]|].
  destruct (handle EvRound no_locals w) as [[] l w1| | |] eqn:E; [|done..]. apply IH.
  by apply (life_event w0 w w1 EvRound l).
Qed.

(** Without a phone number, of a carrier that activates over the air. *)
Definition unprovisioned : list string :=
  ["^MEID:a1000"; "OK"; "+VMDN:0000000000"; "OK"; "vzw3g"; "OK"].

Definition activation_world : World (Logged ChanPort) Sim :=
  fresh_world (init_fields zero_ctx "ttyUSB0")
    (MkLogged (opened_chan [], line_events (concat (replicate 5 (unprovisioned ++ ["OK"])) ++ unprovisioned)) [])
    sim_empty.

Definition after_rounds : World (Logged ChanPort) Sim :=
  default activation_world (rounds 6 activation_world).

(** Six rounds: five calls, and the module counts as failed. *)
Lemma activation_bounded_witness :
  otasp_calls (lg_log (w_port after_rounds)) = 5 ∧ moduleIsActivated (w_ctx after_rounds) = 2 ∧
  otasp_calls (lg_log (w_port after_rounds)) ≤ 6 - 1 ∧ 0 ≤ moduleActivateRetry (w_ctx after_rounds) ≤ 6.
Proof.
  split; [vm_compute; reflexivity|]. split; [vm_compute; reflexivity|].
  apply (activation_bounded activation_world after_rounds); [|reflexivity|reflexivity].
  apply (rounds_life 6 activation_world activation_world); [apply life_start|vm_compute; reflexivity].
Defined.
