(* ===== verification/RilSpec.v ===== *)
(** * What the dispatcher promises to the RIL library

    Every request whose data fits the arrays of its handler ([within_buffers])
    is answered exactly once, leaves no memory behind and runs into no undefined
    behaviour, for any port that keeps the contract of the AT channel; the requests that do not keep this promise are listed, each with
    the theorem that shows how it fails. *)

From S2P Require Import Prelude CString AtTok AtReader AtChannel RilInfo RilBase RilLogic RilReader RilSim RilUtils RilAuto RilRqst RilData RilTimer Ril.

Open Scope Z_scope.

(** The handlers that answer once. *)
Create HintDb answers.

(** The requests whose handlers break the promise. *)
Definition defective : list Request :=
  [RIL_REQUEST_OPERATOR; RIL_REQUEST_GET_IMSI; RIL_REQUEST_QUERY_AVAILABLE_NETWORKS;
   RIL_REQUEST_BASEBAND_VERSION; RIL_REQUEST_SMS_ACKNOWLEDGE;
   RIL_REQUEST_DATA_CALL_LIST; RIL_REQUEST_SIGNAL_STRENGTH; RIL_REQUEST_WRITE_SMS_TO_SIM;
   RIL_REQUEST_GET_CURRENT_CALLS].

(** Not in ril.h, but assumed by the arrays of two handlers: the log line of an
    SMS ([tmp[128]], see [send_sms_overflow]) and the name servers of a data
    call ([dns[64]], see [RilOverflow.long_property_overflow]). *)
Definition within_buffers {P} `{Platform P} (r : Request) (data : Data) : Prop :=
  match r with
  | RIL_REQUEST_SEND_SMS =>
      match data with DStrings (smsc :: Some pdu :: _) => sms_fits smsc pdu | _ => True end
  | RIL_REQUEST_SETUP_DATA_CALL => dns_within (P := P)
  | _ => True
  end.

(** A known request comes with its data, is not defective, and fits. *)
Definition good_request {P} `{Platform P} (r : option Request) (data : Data) (datalen : Z) : Prop :=
  match r with
  | Some r => (r ∉ defective) ∧ valid_data r data datalen ∧ within_buffers (P := P) r data
  | None => True
  end.

#[export] Hint Resolve requestRadioPower_answered requestQueryNetworkSelectionMode_answered
  requestDial_answered requestHangup_answered requestSIM_IO_answered fire_answered
  cancelUSSD_answered requestEnterSimPin_answered separateConnection_answered dtmf_answered
  deleteSmsOnSim_answered getSimStatusRequest_answered networkSelection_answered
  refuse_answered echo_answered requestSendSMSEVDO_answered requestSendUSSD_answered requestGetIMEI_answered requestRegistrationStateEVDO_answered
  requestGetPreferredNetworkType_answered requestSetPreferredNetworkType_answered
  requestScreenState_answered requestSetupDataCallEVDO_answered
  requestDeactivateDataCallEVDO_answered requestDataCallFailCause_answered : answers.

Section answers.
Context {S P : Type} `{AtPortOk S} `{PlatformOk P} `{RilConsts} `{RilCodes}.
Abbreviation answered := (answered (S := S) (P := P)).

Lemma dispatch_answered t0 r data datalen t :
  good_request (P := P) r data datalen → answered t0 t 1 (dispatch r data datalen t).
Proof.
  destruct r as [r|]; [|intros _; apply refuse_answered]. intros (Hdef & Hv & Hb).
  destruct r; try (exfalso; apply Hdef; unfold defective; in_list);
    cbn [dispatch dispatch_services valid_data within_buffers] in *;
    repeat match goal with
           | Hx : ∃ _, _ |- _ => destruct Hx
           | Hx : sizeof_ptr ≤ _ ∧ _ |- _ => destruct Hx
           end; subst; auto with answers.
Qed.

(** C1: a request whose data is what ril.h says, that is not one of the
    [defective] ones, and that fits the arrays of its handler, is answered
    exactly once and no other request is
    answered; the blocks it allocates are freed, nothing it does is undefined, and
    it returns, unless the modem never answers a command.  Fitting
    ([within_buffers]) restricts two requests, beyond ril.h: an SMS has a PDU
    that is not empty and at most 98 characters with its service centre, and for
    the setup of a data call the properties net.dns1 and net.dns2 have less than
    64 characters; what happens otherwise is [send_sms_overflow] and
    [RilOverflow.long_property_overflow]. *)
Theorem onRequest_answered request data datalen t t0 (w : World S P) :
  good_request (P := P) (decode request) data datalen → wf w →
  match onRequest request data datalen t no_locals w with
  | Ok _ _ w' =>
      wf w' ∧ w_live w' = w_live w ∧
      length (answers t0 (w_out w')) =
        (length (answers t0 (w_out w)) + (if Nat.eqb t t0 then 1 else 0))%nat
  | Goto _ _ => False
  | Undef _ => False
  | Hang => ¬ port_responsive (S := S)
  end.
Proof.
  intros Hg Hw.
  assert (Ha : answered t0 t 1 (onRequest request data datalen t)).
  { intros l L n k. unfold onRequest. apply wps_bind, wps_get_ctx. intros c _.
    destruct (_ && _); [by apply refuse_answered|by apply dispatch_answered]. }
  specialize (Ha no_locals _ _ _ w Hw eq_refl).
  destruct (onRequest _ _ _ _ _ w); [|tauto|done..].
  destruct Ha as (? & ? & ?). auto.
Qed.
End answers.

(** ** The requests that break the promise *)

Section defects.
Context {S P : Type} `{AtPortOk S} `{PlatformOk P} `{RilConsts} `{RilCodes}.
Abbreviation answered := (answered (S := S) (P := P)).

Lemma requestSMSAcknowledge_answered t0 z zs t :
  answered t0 t (if (z =? 0) || (z =? 1) then 2 else 1) (requestSMSAcknowledge (DInts (z :: zs)) t).
Proof.
  apply answered_frame. intros L n k. rewrite data_int_head. do 5 wstep.
  destruct (Z.eqb_spec z 1) as [->|]; [|destruct (Z.eqb_spec z 0) as [->|]]; cbn [orb Z.eqb];
    wauto; wdone.
Qed.

(** The requests that are always answered twice. *)
Definition twice_answered (r : Request) (data : Data) : Prop :=
  r = RIL_REQUEST_DATA_CALL_LIST ∨
  (r = RIL_REQUEST_SMS_ACKNOWLEDGE ∧ ∃ z zs, data = DInts (z :: zs) ∧ (z = 0 ∨ z = 1)).

Lemma twice_answered_dispatch t0 r data datalen t :
  twice_answered r data → answered t0 t 2 (dispatch (Some r) data datalen t).
Proof.
  intros [->|(-> & z & zs & -> & Hz)]; cbn [dispatch dispatch_services]; [apply requestDataCallList_answered|].
  pose proof (requestSMSAcknowledge_answered t0 z zs t) as Ha. by destruct Hz as [-> | ->].
Qed.

(** C38: two requests are answered twice.  With the radio on, a request for the
    list of data calls, and the acknowledgement of an SMS (success or error),
    get a success answer and then, for the same token, a failure answer; they
    still free what they allocate and run into no undefined behaviour. *)
Theorem onRequest_answered_twice r data datalen t (w : World S P) :
  twice_answered r data → sState (w_ctx w) ≠ RADIO_STATE_OFF → wf w →
  match onRequest (req_code r) data datalen t no_locals w with
  | Ok _ _ w' => w_live w' = w_live w ∧
      length (answers t (w_out w')) = (length (answers t (w_out w)) + 2)%nat
  | Goto _ _ | Undef _ => False
  | Hang => ¬ port_responsive (S := S)
  end.
Proof.
  intros Hr Hs Hw. pose proof (twice_answered_dispatch t r data datalen t Hr no_locals) as Ha.
  unfold onRequest, mbind, M_bind, get_ctx. rewrite bool_decide_eq_false_2, decode_code by done.
  cbn [andb]. specialize (Ha _ _ _ w Hw eq_refl). rewrite Nat.eqb_refl in Ha.
  destruct (dispatch _ _ _ _ _ w); [|tauto|done..]. by destruct Ha as (_ & ? & ?).
Qed.

Lemma terminate_pdu_length pdu pdu' z :
  terminate_pdu pdu = Some (pdu', z) → strlen pdu' = strlen pdu ∧ (z = 0 ∨ z = 1).
Proof.
  intros E. assert (Hne : pdu ≠ "") by (intros ->; discriminate E).
  destruct (terminate_pdu_some pdu Hne) as (p & z' & E' & ? & ?). by simplify_eq.
Qed.

(** An SMS whose log line has more than the 128 bytes of its buffer. *)
Definition sms_too_long (smsc : option string) (pdu : string) : Prop :=
  98 < strlen (default "00" smsc) + strlen pdu.

(** C39: a long SMS overruns the debug buffer.  An SMS request whose service
    centre number and PDU have more than 98 characters together - a PDU may
    have 350 - is undefined behaviour, whatever the modem does: the log line
    is printed into [char tmp[128]]. *)
Theorem send_sms_overflow smsc pdu ss datalen t (w : World S P) :
  sms_too_long smsc pdu → sState (w_ctx w) ≠ RADIO_STATE_OFF → wf w →
  match onRequest (req_code RIL_REQUEST_SEND_SMS) (DStrings (smsc :: Some pdu :: ss)) datalen t no_locals w with
  | Undef u => u = OutOfBounds
  | Hang => ¬ port_responsive (S := S)
  | Ok _ _ _ | Goto _ _ => False
  end.
Proof.
  unfold sms_too_long. intros Hlen Hs Hw. unfold onRequest, mbind, M_bind, get_ctx.
  rewrite bool_decide_eq_false_2, decode_code by done. cbn [andb dispatch dispatch_services].
  unfold requestSendSMSEVDO, frame, on_error, mbind at 1, M_bind.
  pose proof (wps_at_command t "at+cmgf=1" (λ _ _ _, True) (λ _ _, False) no_locals (abs t w)
    ltac:(done) w Hw eq_refl) as Hc.
  destruct (at_command "at+cmgf=1" no_locals w) as [err l' w'| l' w'| |]; [|tauto|done..].
  unfold mbind, M_bind, data_str, non_null, mret, M_ret. cbn [lookup list_lookup].
  destruct (terminate_pdu pdu) as [[pdu' z]|] eqn:Et; [|done].
  apply terminate_pdu_length in Et as [Hpdu Hz].
  unfold sprintf. destruct smsc as [smsc|]; cbn [default Datatypes.id] in Hlen;
    (match goal with |- context [strlen ?line <? 128] =>
       destruct (Z.ltb_spec (strlen line) 128) as [Hlt|]; [exfalso|done] end);
    rewrite !strlen_app, Hpdu in Hlt; revert Hlt; destruct Hz as [-> | ->];
    change (strlen "smsc=") with 5; change (strlen " pdu=") with 5; change (strlen " ctrlz=") with 7;
    change (strlen " nulsmsc=") with 9; change (strlen (String LF "")) with 1;
    change (strlen (pretty 0)) with 1; change (strlen (pretty 1)) with 1;
    change (strlen "00") with 2 in *; lia.
Qed.
End defects.

Lemma good_request_code r data datalen :
  bool_decide (r ∈ defective) = false → valid_data r data datalen → within_buffers (P := Sim) r data →
  good_request (P := Sim) (decode (req_code r)) data datalen.
Proof.
  intros Hd%bool_decide_eq_false Hv Hb. by rewrite decode_code.
Qed.

Lemma onRequest_answered_witness :
  let w := sim_world RADIO_STATE_SIM_READY ["RING"; "+CRSM: 144,0,6F07"; "OK"] sim_empty in
  let data := DSimIO 176 28423 0 0 9 None in
  good_request (P := Sim) (decode (req_code RIL_REQUEST_SIM_IO)) data 0 ∧ wf w ∧
  match onRequest (req_code RIL_REQUEST_SIM_IO) data 0 7 no_locals w with
  | Ok _ _ w' =>
      wf w' ∧ w_live w' = w_live w ∧
      length (answers 7 (w_out w')) = (length (answers 7 (w_out w)) + 1)%nat
  | Goto _ _ => False
  | Undef _ => False
  | Hang => ¬ port_responsive (S := ChanPort)
  end.
Proof.
  assert (Hg : good_request (P := Sim) (decode (req_code RIL_REQUEST_SIM_IO)) (DSimIO 176 28423 0 0 9 None) 0).
  { apply good_request_code; [reflexivity| |exact I]. by do 6 eexists. }
  assert (Hw : wf (sim_world RADIO_STATE_SIM_READY ["RING"; "+CRSM: 144,0,6F07"; "OK"] sim_empty))
    by (apply sim_world_wf; repeat constructor).
  split; [exact Hg|]. split; [exact Hw|].
  exact (onRequest_answered (req_code RIL_REQUEST_SIM_IO) _ 0 7 7 _ Hg Hw).
Defined.

Lemma onRequest_answered_twice_witness :
  let w := sim_world RADIO_STATE_SIM_READY ["OK"] sim_empty in
  match onRequest (req_code RIL_REQUEST_SMS_ACKNOWLEDGE) (DInts [1; 0]) 8 5 no_locals w with
  | Ok _ _ w' => w_live w' = w_live w ∧
      length (answers 5 (w_out w')) = (length (answers 5 (w_out w)) + 2)%nat
  | Goto _ _ | Undef _ => False
  | Hang => ¬ port_responsive (S := ChanPort)
  end.
Proof.
  apply (onRequest_answered_twice RIL_REQUEST_SMS_ACKNOWLEDGE (DInts [1; 0]) 8 5
    (sim_world RADIO_STATE_SIM_READY ["OK"] sim_empty)).
  - right. split; [reflexivity|]. exists 1, [0]. by auto.
  - discriminate.
  - apply sim_world_wf. repeat constructor.
Defined.

(** A PDU of 120 hexadecimal digits. *)
Definition long_pdu : string := string_of_list_ascii (replicate 120 "7"%char).

Lemma send_sms_overflow_witness :
  let w := sim_world RADIO_STATE_SIM_READY ["OK"] sim_empty in
  match onRequest (req_code RIL_REQUEST_SEND_SMS) (DStrings [None; Some long_pdu]) 8 6 no_locals w with
  | Undef u => u = OutOfBounds
  | Hang => ¬ port_responsive (S := ChanPort)
  | Ok _ _ _ | Goto _ _ => False
  end.
Proof.
  apply (send_sms_overflow None long_pdu [] 8 6 (sim_world RADIO_STATE_SIM_READY ["OK"] sim_empty)).
  - vm_compute. reflexivity.
  - discriminate.
  - apply sim_world_wf. repeat constructor.
Defined.
