(* ===== verification/RilLeaks.v ===== *)
(** * The requests that lose memory

    The handlers that RilSpec leaves out of the promise of the dispatcher but
    that are still defined: how often they answer, and how many blocks they
    lose.  Whatever the modem does, nothing else goes wrong.  At the end, what the
    query of the SIM that is never reached would do. *)

From S2P Require Import Prelude CString AtTok AtReader AtChannel RilInfo RilBase RilLogic RilReader RilSim RilUtils RilAuto RilRqst RilData RilTimer Ril RilSpec.

Open Scope Z_scope.

(** ** The list of calls, for any reply *)

(** The number of a call is null or lies in block [b]. *)
Definition call_in (b : nat) (p : RIL_Call Ptr) : Prop :=
  call_number p = PNull ∨ ∃ s, call_number p = PHeap b s.

Lemma clean_number_in b s p : call_in b (set_call_number (clean_number b s) p).
Proof. unfold call_in, clean_number. cbn [set_call_number call_number]. destruct (_ && _); eauto. Qed.

Lemma clcc_tail_in b line p : call_in b p → call_in b (clcc_tail b line p).2.
Proof.
  intros Hp. unfold clcc_tail. repeat case_match; cbn [snd]; try done;
    first [apply clean_number_in | by left].
Qed.

Lemma callFromCLCCLine_in b line p : call_in b p → call_in b (callFromCLCCLine b line p).2.
Proof.
  intros Hp. unfold callFromCLCCLine.
  repeat case_match; try exact Hp; by apply clcc_tail_in.
Qed.

Lemma clcc_loop_in b lines calls valid :
  Forall (call_in b) calls → Forall (call_in b) (clcc_loop b lines calls valid).1.
Proof.
  revert calls valid. induction lines as [|line lines IH]; intros calls valid Hc; [done|].
  cbn [clcc_loop].
  assert (Hp : call_in b (default zero_call (calls !! valid))).
  { destruct (calls !! valid) eqn:E; [by eapply Forall_lookup_1|by left]. }
  apply (callFromCLCCLine_in b line) in Hp.
  destruct (callFromCLCCLine b line _) as [err p]. cbn [snd] in Hp.
  assert (Hi : Forall (call_in b) (<[valid := p]> calls)) by (by apply Forall_insert).
  destruct (negb _); apply IH; [done|]. apply Forall_alter; [done|]. intros q _. auto.
Qed.

Lemma resolve_calls_in L b calls :
  is_live b L = true → Forall (call_in b) calls → ∃ cs, resolve_calls L calls = inl cs.
Proof.
  intros Hb. induction 1 as [|p calls Hp _ [cs IH]]; [by exists []|]. cbn [resolve_calls]. rewrite IH.
  destruct Hp as [-> |[s ->]]; cbn [resolve]; [|rewrite Hb]; eauto.
Qed.

(** ** The handlers *)

Section leaks.
Context {S P : Type} `{AtPortOk S} `{PlatformOk P} `{RilConsts} `{RilCodes} (t0 : nat).
Abbreviation M := (M S P).
Abbreviation wps := (wps (S := S) (P := P) t0).

(** [wps] for the worlds of [I] only. *)
Definition wps_from {A} (I : World S P → Prop) (m : M A) (Q : A → Locals → Abs → Prop)
    (E : Locals → Abs → Prop) (l : Locals) (a : Abs) : Prop :=
  ∀ w, I w → wf w → abs t0 w = a →
  match m l w with
  | Ok x l' w' => wf w' ∧ Q x l' (abs t0 w')
  | Goto l' w' => wf w' ∧ E l' (abs t0 w')
  | Undef _ => False
  | Hang => ¬ port_responsive (S := S)
  end.

Lemma wps_from_wps {A} I (m : M A) Q E l a : wps m Q E l a → wps_from I m Q E l a.
Proof. intros Hm w _. by apply Hm. Qed.

Lemma wps_from_frame {A} I (m : M A) Q E l a :
  wps_from I m (λ x _ a', Q x l a') (λ _ a', E l a') no_locals a → wps_from I (frame m) Q E l a.
Proof. intros Hm w Hi Hw Ha. specialize (Hm w Hi Hw Ha). unfold frame. by destruct (m no_locals w). Qed.

Lemma wps_from_on_error {A} I (body handler : M A) Q E l a :
  wps_from I body Q (λ l' a', wps handler Q E l' a') l a → wps_from I (on_error body handler) Q E l a.
Proof.
  intros Hb w Hi Hw Ha. specialize (Hb w Hi Hw Ha). unfold on_error.
  destruct (body l w) as [x l' w'|l' w'| |]; try done. destruct Hb as [Hw' Hh]. by apply Hh.
Qed.

Lemma wps_from_bind {A B} I (m : M A) (f : A → M B) Q E l a :
  wps_from I m (λ x l' a', wps (f x) Q E l' a') E l a → wps_from I (m ≫= f) Q E l a.
Proof.
  intros Hm w Hi Hw Ha. specialize (Hm w Hi Hw Ha). unfold mbind, M_bind.
  destruct (m l w) as [x l' w'|l' w'| |]; try done. destruct Hm as [Hw' Hf]. by apply Hf.
Qed.

(** A command sent first, for the worlds where it has a given result. *)
Lemma wps_from_send {A} I k cmd want (f : Z * option ATResponse → M A) Q E l a :
  (∀ w err out cbs s, I w → port_send k cmd want (w_port w) = Some (PDone err out cbs s) →
     at_contract k want err out → wps (f (err, out)) Q E l a) →
  wps_from I (at_send k cmd want ≫= f) Q E l a.
Proof.
  intros Hf w Hi [Hp Hc] Ha. unfold mbind, M_bind, at_send.
  pose proof (port_send_ok k cmd want (w_port w) Hp) as Hs.
  destruct (port_send k cmd want (w_port w)) as [[err out cbs s'|]|] eqn:Es; simpl; [| |done].
  2: { intros Hresp. by apply (proj1 (Hresp _ Hp) k cmd want). }
  destruct Hs as (Hct & Hcbs & Hp').
  assert (Hrun : wps ((run_callbacks cbs;; mret (err, out)) ≫= f) Q E l a).
  { apply wps_bind, wps_bind, wps_run_callbacks; [done|]. apply wps_ret. by eapply Hf. }
  apply (Hrun (with_port s' w)); [by split|done].
Qed.

(** [m], started in a world of [I], answers request [t] exactly [d] times, and
    no other request; it loses at most [b] blocks, and frees no block of others. *)
Definition leaves (I : World S P → Prop) (t d b : nat) (m : M unit) : Prop :=
  ∀ l L n k, wps_from I m
    (λ _ _ a', (∃ lost, a_live a' = lost ++ L ∧ (length lost ≤ b)%nat) ∧
       a_answers a' = (k + (if Nat.eqb t t0 then d else 0))%nat)
    (λ _ _, False) l (MkAbs L n k).

(** The end of a path that lost the blocks [lost]. *)
Ltac lost blocks :=
  cbn [a_live a_answers]; split; [exists blocks; split; [reflexivity|simpl; lia]|];
  repeat match goal with |- context [Nat.eqb ?x ?y] => destruct (Nat.eqb x y) end; lia.

Lemma leaves_answered I t b m : answered t0 t 1 m → leaves I t 1 b m.
Proof.
  intros Hm l L n k. apply wps_from_wps. eapply wps_mono; [apply Hm| |done].
  intros _ l' a' [Hl Ha]. split; [exists []; rewrite Hl; split; [done|simpl; lia]|done].
Qed.

Lemma requestWriteSmsToSim_leaves I status pdu t :
  leaves I t 1 1 (requestWriteSmsToSim (DSmsWrite status pdu) t).
Proof.
  intros l L n k. apply wps_from_wps. cbn [requestWriteSmsToSim]. wauto; lost [n].
Qed.

(** The modem does not answer AT+CSQ, or with a final response of failure. *)
Definition query_failed (w : World S P) : bool :=
  match port_send (KSingle "+CSQ:") "AT+CSQ" true (w_port w) with
  | Some (PDone err out _ _) =>
      negb (err =? 0) || match out with Some r => success r =? 0 | None => true end
  | _ => false
  end.

Lemma at_errors_negative err : err ∈ AT_errors → err < 0.
Proof. intros Herr. unfold AT_errors in Herr. by cases_in Herr; subst err. Qed.

Lemma requestSignalStrength_leaves b t :
  leaves (λ w, query_failed w = b) t (if b then 2 else 1) 0 (requestSignalStrength t).
Proof.
  intros l L n k. unfold requestSignalStrength. apply wps_from_frame, wps_from_on_error.
  apply wps_from_bind. unfold at_send_resp. apply wps_from_send. intros w err out cbs s Hf Es [Hr Hreq].
  unfold query_failed in Hf. rewrite Es in Hf. cbn [kind_type kind_prefix kind_requires] in Hr, Hreq.
  destruct Hr as [(-> & r & -> & Hro)|Herr%at_errors_negative].
  - cbn [Z.eqb negb orb] in Hf. subst b. apply wps_bind, wps_bind, wps_malloc, wps_set_resp, wps_ret.
    apply wps_bind, wps_failed_lt; [lia|]. intros _. eexists. split_and!; [reflexivity|live|]. cbn [r_val].
    destruct (Z.eqb_spec (success r) 0) as [E0|E0]; [wauto; lost (@nil nat)|]. wauto.
    destruct (p_intermediates r) as [|s0 ss] eqn:Ei.
    { destruct (ro_success _ _ _ Hro) as [?|Hs1]; [done|]. by destruct (Hreq eq_refl eq_refl r eq_refl Hs1). }
    eapply wps_first_line; [reflexivity|live|exact Ei|]. wauto; lost (@nil nat).
  - rewrite (proj2 (Z.eqb_neq err 0)) in Hf by lia. simpl in Hf. subst b. apply wps_bind.
    destruct out as [r|]; [apply wps_bind, wps_malloc, wps_set_resp, wps_ret|
      apply wps_when; intros _; [apply wps_set_resp|]; apply wps_ret];
      (apply wps_bind, wps_failed_lt; [intros _; wauto; lost (@nil nat)|lia]).
Qed.

Lemma requestGetCurrentCalls_leaves I t : leaves I t 1 1 (requestGetCurrentCallsEVDO t).
Proof.
  intros l L n k. apply wps_from_wps. unfold requestGetCurrentCallsEVDO. wauto; [lost (@nil nat)|lost (@nil nat)|lost [n]|].
  eapply wps_deref; [reflexivity|live|]. cbn [r_val r_block].
  set (lines := p_intermediates r). pose proof (clcc_loop_in n lines (replicate (length lines) zero_call) 0) as Hin.
  destruct (clcc_loop n lines _ 0) as [calls valid]. cbn [fst] in Hin.
  assert (Hc : Forall (call_in n) (take valid calls)).
  { apply Forall_take, Hin, Forall_replicate. by left. }
  apply (resolve_calls_in (n :: L)) in Hc as [cs Hcs]; [|live].
  wstep. eapply wps_complete; [unfold resolve_payload; by rewrite Hcs|]. wauto; lost (@nil nat).
Qed.
(** How often they answer: twice when the query for the signal strength is sent
    and fails.  And how many blocks they may lose: the blocks are the formatted
    command, and the response of a failed query. *)
Definition answer_count (r : Request) (w : World S P) : nat :=
  if bool_decide (r = RIL_REQUEST_SIGNAL_STRENGTH) &&
     negb (bool_decide (sState (w_ctx w) = RADIO_STATE_OFF)) && query_failed w then 2 else 1.
Definition leak_bound (r : Request) : nat :=
  if bool_decide (r = RIL_REQUEST_SIGNAL_STRENGTH) then 0 else 1.

Definition leaky : list Request :=
  [RIL_REQUEST_WRITE_SMS_TO_SIM; RIL_REQUEST_GET_CURRENT_CALLS; RIL_REQUEST_SIGNAL_STRENGTH].

Lemma dispatch_leaves r data datalen t d :
  r ∈ leaky → valid_data r data datalen →
  leaves (λ w, sState (w_ctx w) ≠ RADIO_STATE_OFF ∧ answer_count r w = d) t d (leak_bound r)
    (dispatch (Some r) data datalen t).
Proof.
  intros Hr Hv l L n k w [Hs Hd]. unfold answer_count in Hd. rewrite (bool_decide_eq_false_2 _ Hs) in Hd.
  unfold leaky in Hr. cases_in Hr; subst r; cbn [dispatch dispatch_services] in *; simpl in Hd.
  - subst d. destruct Hv as (status & pdu & ->). by apply (requestWriteSmsToSim_leaves (λ _, True)).
  - subst d. by apply (requestGetCurrentCalls_leaves (λ _, True)).
  - subst d. by apply (requestSignalStrength_leaves (query_failed w)).
Qed.

(** C37: the requests that lose memory.  A request to store an SMS on the SIM,
    for the list of calls or for the signal strength is never undefined, and
    no other request is answered in its place; it is answered exactly once, except
    that the signal strength is answered exactly twice when the radio is on and the modem
    does not answer AT+CSQ, or answers it with a failure; and at most one
    block is lost: the formatted command of the SMS, or the response of a failed
    +CLCC - nothing in the case of the signal strength, and no block of others. *)
Theorem onRequest_leaks r data datalen t (w : World S P) :
  r ∈ leaky → valid_data r data datalen → wf w →
  match onRequest (req_code r) data datalen t no_locals w with
  | Ok _ _ w' =>
      wf w' ∧ (∃ lost, w_live w' = lost ++ w_live w ∧ (length lost ≤ leak_bound r)%nat) ∧
      length (answers t0 (w_out w')) =
        (length (answers t0 (w_out w)) + (if Nat.eqb t t0 then answer_count r w else 0))%nat
  | Goto _ _ | Undef _ => False
  | Hang => ¬ port_responsive (S := S)
  end.
Proof.
  intros Hr Hv Hw.
  assert (Ha : leaves (λ w', w' = w) t (answer_count r w) (leak_bound r) (onRequest (req_code r) data datalen t)).
  { intros l L n k w' -> _ Ha. unfold onRequest, mbind, M_bind, get_ctx. rewrite decode_code.
    destruct (bool_decide_reflect (sState (w_ctx w) = RADIO_STATE_OFF)) as [Hs|Hs]; cbn [andb].
    - unfold answer_count. rewrite (bool_decide_eq_true_2 _ Hs), andb_false_r.
      replace (negb (allowed_when_off (Some r))) with true by (unfold leaky in Hr; cases_in Hr; by subst r).
      exact (leaves_answered (λ _, True) t (leak_bound r) _ (refuse_answered t0 _ t) l L n k w I Hw Ha).
    - exact (dispatch_leaves r data datalen t (answer_count r w) Hr Hv l L n k w (conj Hs eq_refl) Hw Ha). }
  specialize (Ha no_locals _ _ _ w eq_refl Hw eq_refl).
  destruct (onRequest _ _ _ _ _ w); [|tauto|done..].
  destruct Ha as (? & ? & ?). auto.
Qed.
End leaks.

(** A modem that refuses AT+CSQ. *)
Lemma onRequest_leaks_witness :
  let w := sim_world RADIO_STATE_SIM_READY ["ERROR"] sim_empty in
  query_failed w = true ∧
  match onRequest (req_code RIL_REQUEST_SIGNAL_STRENGTH) DNull 0 7 no_locals w with
  | Ok _ _ w' =>
      wf w' ∧ (∃ lost, w_live w' = lost ++ w_live w ∧ (length lost ≤ leak_bound RIL_REQUEST_SIGNAL_STRENGTH)%nat) ∧
      length (answers 7 (w_out w')) = (length (answers 7 (w_out w)) + 2)%nat
  | Goto _ _ | Undef _ => False
  | Hang => ¬ port_responsive (S := ChanPort)
  end.
Proof.
  assert (Hw : wf (sim_world RADIO_STATE_SIM_READY ["ERROR"] sim_empty))
    by (apply sim_world_wf; repeat constructor).
  assert (Hr : RIL_REQUEST_SIGNAL_STRENGTH ∈ leaky) by (rewrite list_elem_of_In; right; right; left; reflexivity).
  split; [vm_compute; reflexivity|].
  pose proof (onRequest_leaks 7 RIL_REQUEST_SIGNAL_STRENGTH DNull 0 7 _ Hr I Hw) as Ho.
  exact Ho.
Defined.

(** ** The unreachable query of the SIM *)

(** What it returns for a reply of the modem, and the blocks it leaves. *)
Definition cpin_run (lines : list string) : option (SIM_Status * list nat) :=
  match query_cpin no_locals (sim_world RADIO_STATE_SIM_READY lines sim_empty) with
  | Ok s _ w => Some (s, w_live w)
  | _ => None
  end.

(** The codes it knows; a network lock keeps the response. *)
Example cpin_codes :
  (λ code, cpin_run ["+CPIN: " +:+ code; "OK"]) <$> ["READY"; "SIM PIN"; "SIM PUK"; "PH-NET PIN"; "other"] =
  [Some (SIM_READY, []); Some (SIM_PIN, []); Some (SIM_PUK, []); Some (SIM_NETWORK_PERSONALIZATION, [0%nat]);
   Some (SIM_ABSENT, [])].
Proof. vm_compute. reflexivity. Qed.

(** Error 0 of the modem is mistaken for success: there is no line to look at. *)
Example cpin_error_zero :
  cpin_run ["+CME ERROR: 10"] = Some (SIM_ABSENT, []) ∧
  query_cpin no_locals (sim_world RADIO_STATE_SIM_READY ["+CME ERROR: 0"] sim_empty) = Undef NullDeref.
Proof. by vm_compute. Qed.
