(* ===== verification/RilSession.v ===== *)
(** * Sessions with a modem

    Requests followed from the bytes sent to the modem to the answer given to
    the RIL library: the handlers on the real AT channel, with a modem whose
    replies are known.  [runs m Q E l w] says that [m], started with locals [l]
    in world [w], finishes in [Q] or takes its error exit in [E]. *)

From S2P Require Import Prelude CString AtTok AtReader AtChannel RilInfo RilBase RilLogic RilReader RilSim RilUtils RilAuto RilRqst RilCalls RilData RilTimer Ril.

Open Scope Z_scope.

(** ** The channel *)

(** An open channel between two commands, with a handler of unsolicited lines. *)
Definition live_chan (c : Chan) : Prop := ready c ∧ s_unsolHandler c = true.

(** [c'] after the command [cmd] was sent on [c]. *)
Definition sent_on (c c' : Chan) (cmd : string) : Prop :=
  live_chan c' ∧ tty_sent (s_tty c') = tty_sent (s_tty c) ++ chars cmd ++ [CR].

(** A caller that does not want the response differs only in that. *)
Definition drop_response (r : CmdResult) : CmdResult :=
  match r with CmdDone err _ c cbs rest => CmdDone err None c cbs rest | _ => r end.

Lemma wait_loop_unwanted timeout c evs :
  wait_loop timeout false c evs = drop_response (wait_loop timeout true c evs).
Proof.
  revert c. induction evs as [|ev evs IH]; intros c; cbn [wait_loop];
    (destruct (wait_over c) as [[]|]; [done| |done]); [done|].
  destruct ev as [a| | |]; [|by destruct (timeout =? 0)|done..].
  destruct (reader_step a c) as [[c' cbs]|]; [|done]. rewrite IH.
  by destruct (wait_loop timeout true c' evs).
Qed.

Lemma full_answered command type prefix want c lines f rest :
  live_chan c → (needs_prefix type = true → is_Some prefix) →
  Forall (λ l, isFinalResponse l = false) lines → isFinalResponse f = true →
  let su := split_session type prefix false lines in
  ∃ c', at_send_command_full false command type prefix None 0 want c
          (line_events (lines ++ [f]) ++ rest) =
        CmdDone 0
          (if want then Some (MkResponse (if isFinalResponseSuccess f then 1 else 0) (Some f) su.1)
           else None)
          c' ((λ l, CbUnsol l None) <$> su.2) rest ∧ sent_on c c' command.
Proof.
  intros [([Hi Hcl0] & Hcl & Hfd & Ho) Hh] Hp Hl Hf su.
  unfold at_send_command_full, at_send_command_full_nolock, begin_command.
  rewrite Hi, (proj1 (chan_write_ready _ _ Hcl Hfd Ho)). cbn -[wait_loop line_events].
  assert (E : ∀ c, wait_loop 0 want c (line_events (lines ++ [f]) ++ rest) =
    let r := wait_loop 0 true c (line_events (lines ++ [f]) ++ rest) in
    if want then r else drop_response r)
    by (intros c'; destruct want; [done|apply wait_loop_unwanted]).
  rewrite E, (wait_loop_session lines f rest _ at_response_new); try done.
  exists (clearPendingCommand (set_response (Some at_response_new) (set_smsPDU None
    (set_prefix prefix (set_type type
      (set_tty (MkTty (tty_sent (s_tty c) ++ chars command ++ [CR]) []) c)))))).
  split; [destruct want; simpl; by rewrite app_nil_r|].
  split; [|done]. split; [|done]. split; [by split|by split_and!].
Qed.

(** ** Running handlers *)

Section runs.
Context {P : Type} `{Platform P}.
Abbreviation W := (World ChanPort P).
Abbreviation M := (M ChanPort P).

Definition runs {A} (m : M A) (Q : A → Locals → W → Prop) (E : Locals → W → Prop)
    (l : Locals) (w : W) : Prop :=
  match m l w with
  | Ok x l' w' => Q x l' w'
  | Goto l' w' => E l' w'
  | Undef _ | Hang => False
  end.

Lemma runs_bind {A B} (m : M A) (f : A → M B) Q E l w :
  runs m (λ x l' w', runs (f x) Q E l' w') E l w → runs (m ≫= f) Q E l w.
Proof. unfold runs, mbind, M_bind. by destruct (m l w). Qed.

Lemma runs_ret {A} (x : A) Q E l w : Q x l w → runs (mret x) Q E l w.
Proof. done. Qed.

Lemma runs_on_error {A} (m h : M A) Q E l w :
  runs m Q (λ l' w', runs h Q E l' w') l w → runs (on_error m h) Q E l w.
Proof. unfold runs, on_error. by destruct (m l w). Qed.

Lemma runs_frame {A} (m : M A) Q E l w :
  runs m (λ x _ w', Q x l w') (λ _ w', E l w') no_locals w → runs (frame m) Q E l w.
Proof. unfold runs, frame. by destruct (m no_locals w). Qed.

(** The world in which a command has been answered on [c']. *)
Definition after_send (c' : Chan) (rest : list WaitEvent) (w : W) : W := with_port (S := ChanPort) (c', rest) w.

(** A single-line query that is answered by [line] and OK. *)
Lemma runs_query x p cmd line c rest Q E l (w : W) :
  w_port w = (c, line_events [line; "OK"] ++ rest) → live_chan c →
  strStartsWith line p = true → isFinalResponse line = false →
  (∀ c', sent_on c c' cmd →
     Q 0 (MkLocals (upd (lv_resp l) x (Some (MkResp (w_next w) (MkResponse 1 (Some "OK") [line]))))
            (lv_ptr l))
       (with_mem (w_next w :: w_live w) (Datatypes.S (w_next w)) (after_send c' rest w))) →
  runs (at_send_resp x (KSingle p) cmd) Q E l w.
Proof.
  intros Hport Hc Hp Hl HQ.
  destruct (full_answered cmd SINGLELINE (Some p) true c [line] "OK" rest) as (c' & Ec & Hs);
    [done|eauto|by repeat constructor|done|].
  assert (Es : at_send (S := ChanPort) (P := P) (KSingle p) cmd true l w =
    Ok (0, Some (MkResponse 1 (Some "OK") [line])) l (after_send c' rest w)).
  { unfold at_send. rewrite Hport. cbn [port_send chan_port chan_send].
    change (line_events [line; "OK"]) with (line_events ([line] ++ ["OK"])).
    unfold at_send_command_singleline. rewrite Ec. cbn [split_session takes]. rewrite Hp. done. }
  specialize (HQ c' Hs). unfold at_send_resp. apply runs_bind. unfold runs at 1. rewrite Es. exact HQ.
Qed.

(** A multi-line query. *)
Lemma runs_multiline x p cmd lines c rest Q E l (w : W) :
  w_port w = (c, line_events (lines ++ ["OK"]) ++ rest) → live_chan c →
  Forall (λ line, strStartsWith line p = true) lines →
  Forall (λ line, isFinalResponse line = false) lines →
  (∀ c', sent_on c c' cmd →
     Q 0 (MkLocals (upd (lv_resp l) x (Some (MkResp (w_next w) (MkResponse 1 (Some "OK") lines))))
            (lv_ptr l))
       (with_mem (w_next w :: w_live w) (Datatypes.S (w_next w)) (after_send c' rest w))) →
  runs (at_send_resp x (KMulti p) cmd) Q E l w.
Proof.
  intros Hport Hc Hp Hl HQ.
  destruct (full_answered cmd MULTILINE (Some p) true c lines "OK" rest) as (c' & Ec & Hs);
    [done|eauto|done|done|].
  rewrite split_session_multiline in Ec. cbn [fst snd] in Ec.
  assert (Ef : List.filter (λ l, strStartsWith l p) lines = lines ∧
               List.filter (λ l, negb (strStartsWith l p)) lines = []).
  { clear -Hp. induction Hp as [|line lines Hline _ [IH1 IH2]]; [done|]. simpl. rewrite Hline. simpl.
    by rewrite IH1, IH2. }
  destruct Ef as [Ef1 Ef2]. rewrite Ef1, Ef2 in Ec.
  assert (Es : at_send (S := ChanPort) (P := P) (KMulti p) cmd true l w =
    Ok (0, Some (MkResponse 1 (Some "OK") lines)) l (after_send c' rest w)).
  { unfold at_send. rewrite Hport. cbn [port_send chan_port chan_send].
    unfold at_send_command_multiline. rewrite Ec. done. }
  specialize (HQ c' Hs). unfold at_send_resp. apply runs_bind. unfold runs at 1. rewrite Es. exact HQ.
Qed.

(** A command that is answered by OK, its response not looked at. *)
Lemma runs_command cmd c rest Q E l (w : W) :
  w_port w = (c, line_events ["OK"] ++ rest) → live_chan c →
  (∀ c', sent_on c c' cmd → Q 0 l (after_send c' rest w)) →
  runs (at_command cmd) Q E l w.
Proof.
  intros Hport Hc HQ.
  destruct (full_answered cmd NO_RESULT None false c [] "OK" rest) as (c' & Ec & Hs);
    [done|done|by repeat constructor|done|].
  assert (Es : at_send (S := ChanPort) (P := P) KPlain cmd false l w = Ok (0, None) l (after_send c' rest w)).
  { unfold at_send. rewrite Hport. cbn [port_send chan_port chan_send]. unfold at_send_command.
    change (line_events ["OK"]) with (line_events ([] ++ ["OK"])). by rewrite Ec. }
  specialize (HQ c' Hs). unfold at_command. apply runs_bind. unfold runs at 1. rewrite Es. exact HQ.
Qed.

(** The state after a query: the response is in [x], in the newest block. *)
Definition after_query (x line : string) (l : Locals) (w : W) : Locals :=
  MkLocals (upd (lv_resp l) x (Some (MkResp (w_next w) (MkResponse 1 (Some "OK") [line])))) (lv_ptr l).

Definition with_response (c' : Chan) (rest : list WaitEvent) (w : W) : W :=
  with_mem (w_next w :: w_live w) (Datatypes.S (w_next w)) (after_send c' rest w).

Lemma after_query_resp x line l w :
  lv_resp (after_query x line l w) x = Some (MkResp (w_next w) (MkResponse 1 (Some "OK") [line])).
Proof. simpl. unfold upd. by rewrite String.eqb_refl. Qed.

Lemma runs_deref x r Q E l w :
  lv_resp l x = Some r → is_live (r_block r) (w_live w) = true →
  Q r l w → runs (deref x) Q E l w.
Proof. intros Hx Hb HQ. unfold runs, deref. by rewrite Hx, Hb. Qed.

Lemma runs_failed_lt x r Q E l w :
  lv_resp l x = Some r → is_live (r_block r) (w_live w) = true →
  Q (success (r_val r) =? 0) l w → runs (failed_lt 0 x) Q E l w.
Proof.
  intros Hx Hb HQ. unfold runs, failed_lt, mbind, M_bind, deref. simpl. by rewrite Hx, Hb.
Qed.

Lemma runs_failed_ne x r Q E l w :
  lv_resp l x = Some r → is_live (r_block r) (w_live w) = true →
  Q (success (r_val r) =? 0) l w → runs (failed_ne 0 x) Q E l w.
Proof.
  intros Hx Hb HQ. unfold runs, failed_ne, mbind, M_bind, deref. simpl. by rewrite Hx, Hb.
Qed.

Lemma runs_first_line x r s ss Q E l w :
  lv_resp l x = Some r → is_live (r_block r) (w_live w) = true → p_intermediates (r_val r) = s :: ss →
  Q (MkLine (r_block r) (Some s)) l w → runs (first_line x) Q E l w.
Proof.
  intros Hx Hb Hi HQ. unfold runs, first_line, mbind, M_bind, deref. rewrite Hx, Hb, Hi. exact HQ.
Qed.

Lemma runs_line_start b cur cur' Q E l w :
  is_live b (w_live w) = true → tok_start cur = Some cur' →
  Q (MkLine b cur') l w → runs (line_start (MkLine b cur)) Q E l w.
Proof.
  intros Hb Ht HQ. unfold line_start, runs, mbind, M_bind, check_live. simpl. by rewrite Hb, Ht.
Qed.

Lemma runs_line_int b cur z cur' Q E l w :
  is_live b (w_live w) = true → tok_int cur = Some (z, cur') →
  Q (z, MkLine b cur') l w → runs (line_int (MkLine b cur)) Q E l w.
Proof.
  intros Hb Ht HQ. unfold line_int, runs, mbind, M_bind, check_live. simpl. by rewrite Hb, Ht.
Qed.

Lemma runs_line_str b cur s cur' Q E l w :
  is_live b (w_live w) = true → tok_str cur = Some (s, cur') →
  Q (PHeap b s, MkLine b cur') l w → runs (line_str (MkLine b cur)) Q E l w.
Proof.
  intros Hb Ht HQ. unfold line_str, runs, mbind, M_bind, check_live. simpl. by rewrite Hb, Ht.
Qed.

Lemma runs_asprintf s Q E l w :
  Q (PHeap (w_next w) s) l (with_mem (w_next w :: w_live w) (Datatypes.S (w_next w)) w) →
  runs (asprintf s) Q E l w.
Proof. done. Qed.

Lemma runs_read_heap b s Q E l w :
  is_live b (w_live w) = true → Q s l w → runs (read_str (PHeap b s)) Q E l w.
Proof. intros Hb HQ. unfold runs, read_str, resolve. by rewrite Hb. Qed.

Lemma runs_free_heap b s live' Q E l w :
  del b (w_live w) = Some live' → Q tt l (with_mem live' (w_next w) w) →
  runs (free_ptr (PHeap b s)) Q E l w.
Proof. intros Hd HQ. unfold runs, free_ptr, free_block. by rewrite Hd. Qed.

Lemma runs_skip_strs fs b s cur' Q E l w :
  is_live b (w_live w) = true → Forall (λ f, plain_field f = true) fs → cur' = Some (commas s) →
  s ≠ [] → Q (MkLine b cur') l w →
  runs (skip_strs (length fs) (MkLine b (Some (commas (fs ++ s))))) Q E l w.
Proof.
  intros Hb Hfs -> Hs HQ. induction Hfs as [|f fs Hf Hfs IH]; [done|]. cbn [length skip_strs app].
  apply runs_bind. eapply runs_line_str; [done|by apply tok_str_field|].
  destruct (fs ++ s) eqn:Ea; [by destruct fs|]. exact IH.
Qed.

Lemma runs_sys c Q E l w : (∀ z p, Q z l (with_plat p w)) → runs (sys c) Q E l w.
Proof. intros HQ. unfold runs, sys, lift. destruct (pl_call c (w_plat w)). apply HQ. Qed.

Lemma runs_read_array a s Q E l w : c_str a = Some s → Q s l w → runs (read_array a) Q E l w.
Proof. intros Ha HQ. unfold runs, read_array. by rewrite Ha. Qed.

(** The status file is written whatever the platform says. *)
Lemma runs_rilWriteStatus file s1 s2 s3 Q E l w :
  c_str (meid (w_ctx w)) = Some s1 → c_str (mdn (w_ctx w)) = Some s2 →
  c_str (carrier (w_ctx w)) = Some s3 →
  (∀ rc p, Q rc l (with_plat p w)) → runs (rilWriteStatus file) Q E l w.
Proof.
  intros H1 H2 H3 HQ. unfold rilWriteStatus. apply runs_bind, runs_sys. intros f p.
  destruct (f <? 0); [apply HQ|]. apply runs_bind. unfold runs at 1, get_ctx. cbn [with_plat w_ctx].
  apply runs_bind. eapply runs_read_array; [exact H1|].
  apply runs_bind. eapply runs_read_array; [exact H2|].
  apply runs_bind. eapply runs_read_array; [exact H3|].
  apply runs_bind, runs_sys. intros ? p'. apply runs_bind, runs_sys. intros ? p''.
  apply (HQ 0 p'').
Qed.

Lemma runs_complete t e p len v Q E l w :
  resolve_payload (w_live w) p = inl v →
  Q tt l (with_out (w_out w ++ [Complete t e v len]) w) →
  runs (RIL_onRequestComplete t e p len) Q E l w.
Proof. intros Hr HQ. unfold runs, RIL_onRequestComplete. by rewrite Hr. Qed.

Lemma runs_free_none x Q E l w :
  lv_resp l x = None → Q tt l w → runs (at_response_free x) Q E l w.
Proof. intros Hx HQ. unfold at_response_free, get_resp, runs, mbind, M_bind. by rewrite Hx. Qed.

Lemma runs_free_resp x r live' Q E l w :
  lv_resp l x = Some r → del (r_block r) (w_live w) = Some live' →
  Q tt l (with_mem live' (w_next w) w) → runs (at_response_free x) Q E l w.
Proof.
  intros Hx Hd HQ. unfold at_response_free, get_resp, runs, mbind, M_bind. rewrite Hx.
  unfold free_block. by rewrite Hd.
Qed.
End runs.

(** An operator of the table has a code of six characters and a short name. *)
Lemma find_operator_fits mccmnc long short :
  find_operator mccmnc = Some (long, short) →
  strlen mccmnc < 32 ∧ c_str (strncpy short 16) = Some short.
Proof.
  unfold find_operator. destruct (List.find _ _) as [[code [x y]]|] eqn:Ef; [|done].
  intros [= -> ->]. apply List.find_some in Ef as [Hin Heq]. simpl in Heq.
  apply String.eqb_eq in Heq. subst mccmnc.
  repeat destruct Hin as [[= <- <- <-]|Hin]; [by split..|destruct Hin].
Qed.

(** A request that is not stopped by the state of the radio. *)
Lemma onRequest_dispatch {P} `{Platform P, RilConsts, RilCodes} r data datalen t l (w : World ChanPort P) :
  sState (w_ctx w) ≠ RADIO_STATE_OFF →
  onRequest (req_code r) data datalen t l w = dispatch (Some r) data datalen t l w.
Proof.
  intros Hs. unfold onRequest, mbind, M_bind, get_ctx. by rewrite bool_decide_eq_false_2, decode_code.
Qed.

(** ** Sessions *)

(** What a request did: it answered [v], the memory is as before, and the bytes
    sent are those of [cmds], each with its CR. *)
Definition answered_with {P} (w w' : World ChanPort P) (cmds : list string) (o : list Output)
    (rest : list WaitEvent) : Prop :=
  w_out w' = w_out w ++ o ∧ w_live w' = w_live w ∧ live_chan (w_port w').1 ∧ (w_port w').2 = rest ∧
  tty_sent (s_tty (w_port w').1) =
    tty_sent (s_tty (w_port w).1) ++ flat_map (λ cmd, chars cmd ++ [CR]) cmds.

(** A line that does not end a session. *)
Definition plain_line (line : string) : Prop := isFinalResponse line = false.

Lemma runs_session {P} `{Platform P} (m : M ChanPort P unit) (R : World ChanPort P → Prop) w :
  runs m (λ _ l' w', l' = no_locals ∧ R w') (λ _ _, False) no_locals w →
  ∃ w', m no_locals w = Ok tt no_locals w' ∧ R w'.
Proof.
  unfold runs. intros Hr. destruct (m no_locals w) as [[] l' w'| | |]; [|done..].
  destruct Hr as [-> Hr]. by exists w'.
Qed.

(** One rule of [runs], by the shape of the computation. *)
Ltac rstep :=
  lazymatch goal with
  | |- runs (mret _) _ _ _ _ => apply runs_ret
  | |- runs (on_error _ _) _ _ _ _ => apply runs_on_error
  | |- runs (frame _) _ _ _ _ => apply runs_frame
  | |- runs (_ ≫= _) _ _ _ _ => apply runs_bind
  | |- runs (failed_lt _ _) _ _ _ _ => eapply runs_failed_lt; [reflexivity|apply is_live_here|]
  | |- runs (failed_ne _ _) _ _ _ _ => eapply runs_failed_ne; [reflexivity|apply is_live_here|]
  | |- runs (first_line _) _ _ _ _ => eapply runs_first_line; [reflexivity|apply is_live_here|reflexivity|]
  | |- runs (line_start _) _ _ _ _ =>
      eapply runs_line_start; [apply is_live_here|by apply tok_start_at_line|]
  | |- runs (line_int _) _ _ _ _ =>
      eapply runs_line_int; [apply is_live_here|first [by apply tok_int_field]|]
  | |- runs (line_str _) _ _ _ _ =>
      eapply runs_line_str; [apply is_live_here|first [by apply tok_str_field]|]
  | |- runs (asprintf _) _ _ _ _ => apply runs_asprintf
  | |- runs (read_str (PHeap _ _)) _ _ _ _ => apply runs_read_heap; [apply is_live_here|]
  | |- runs (free_ptr (PHeap _ _)) _ _ _ _ => eapply runs_free_heap; [apply del_here|]
  | |- runs (at_response_free _) _ _ _ _ =>
      first [apply runs_free_none; [reflexivity|] | eapply runs_free_resp; [reflexivity|apply del_here|]]
  | |- runs (RIL_onRequestComplete _ _ _ _) _ _ _ _ =>
      eapply runs_complete; [unfold resolve_payload, resolve_all, resolve; cbn [w_live with_mem with_out r_block];
         rewrite ?is_live_here; reflexivity|]
  | |- runs (if ?b then _ else _) _ _ _ _ =>
      let v := eval cbn in b in
      lazymatch v with true => idtac | false => idtac end; change b with v
  | |- runs ?m _ _ _ _ => let f := head_of m in unfold f
  end; cbv beta iota zeta.

Section sessions.
Context {P : Type} `{Platform P, RilConsts, RilCodes}.
Abbreviation W := (World ChanPort P).

(** Signal strength, end to end.  When the modem reports [+CSQ: rssi,ber]
    and OK, the request sends exactly AT+CSQ and is answered with these two
    numbers and zeros for the other five fields, once. *)
Theorem signal_strength_session (rssi ber : Z) (t : nat) (rest : list WaitEvent) (w : W) :
  is_int32 rssi → is_int32 ber → live_chan (w_port w).1 →
  (w_port w).2 = line_events [at_line "+CSQ" [pretty rssi; pretty ber]; "OK"] ++ rest →
  sState (w_ctx w) ≠ RADIO_STATE_OFF →
  ∃ w', onRequest (req_code RIL_REQUEST_SIGNAL_STRENGTH) DNull 0 t no_locals w = Ok tt no_locals w' ∧
    answered_with w w' ["AT+CSQ"]
      [Complete t RIL_E_SUCCESS (PayInts [rssi; ber; 0; 0; 0; 0; 0]) 28] rest.
Proof.
  intros Hrssi Hber Hc Hev Hs. rewrite onRequest_dispatch by done. cbn [dispatch dispatch_services].
  destruct (w_port w) as [c evs] eqn:Hport. cbn [fst snd] in Hc, Hev. subst evs.
  apply runs_session. unfold requestSignalStrength. do 3 rstep.
  eapply runs_query; [exact Hport|done|apply (strStartsWith_app "+CSQ:")|reflexivity|].
  intros c' [Hc' Hsent]. cbv beta. repeat rstep. split; [done|].
  unfold answered_with. rewrite Hport. by split_and!.
Qed.

Lemma set_preferred_session mode v t c rest (w : W) :
  modem_mode mode = Some v → live_chan c → w_port w = (c, line_events ["OK"] ++ rest) →
  ∃ w', requestSetPreferredNetworkType (DInts [mode]) t no_locals w = Ok tt no_locals w' ∧
    w_ctx w' = w_ctx w ∧
    answered_with w w' ["AT^PREFMODE=" +:+ pretty v] [Complete t RIL_E_SUCCESS PayNull 0] rest.
Proof.
  intros Hm Hc Hport. apply (runs_session _ (λ w', w_ctx w' = w_ctx w ∧ _)).
  unfold requestSetPreferredNetworkType. rewrite data_int_head. do 4 rstep.
  rewrite Hm. do 5 rstep. eapply runs_command; [exact Hport|done|]. intros c' [Hc' Hsent]. cbv beta.
  repeat rstep. split; [done|]. split; [done|].
  unfold answered_with. rewrite Hport. cbn [flat_map]. rewrite app_nil_r. by split_and!.
Qed.

Lemma get_preferred_session v t c rest (w : W) :
  is_int32 v → live_chan c →
  w_port w = (c, line_events [at_line "PREFMODE" [pretty v]; "OK"] ++ rest) →
  ∃ w', requestGetPreferredNetworkType t no_locals w = Ok tt no_locals w' ∧
    answered_with w w' ["AT^PREFMODE?"]
      [Complete t RIL_E_SUCCESS (PayInts [network_mode v]) 4] rest.
Proof.
  intros Hv Hc Hport. apply runs_session. unfold requestGetPreferredNetworkType. do 3 rstep.
  eapply runs_query; [exact Hport|done|apply (strStartsWith_app "PREFMODE:")|reflexivity|].
  intros c' [Hc' Hsent]. cbv beta. repeat rstep. split; [done|].
  unfold answered_with. rewrite Hport. by split_and!.
Qed.

(** The two tables of network types are inverse to each other. *)
Lemma network_mode_inverse mode v : modem_mode mode = Some v → network_mode v = mode ∧ is_int32 v.
Proof.
  unfold modem_mode, NETWORK_MODE_CDMA_NO_EVDO, NETWORK_MODE_EVDO_NO_CDMA, NETWORK_MODE_HYBRID.
  repeat case_match; try done; intros [= <-];
    repeat match goal with Hx : (_ =? _) = true |- _ => apply Z.eqb_eq in Hx end; subst;
    (split; [done|unfold is_int32, INT_MIN, INT_MAX; lia]).
Qed.

(** C24: the preferred network type survives the round trip through the modem.
    For each of the three types the driver can set: the request sends
    AT^PREFMODE with the modem's code for it and is answered with success;
    when the modem later reports the code it was sent, the query is answered
    with the type that was set; each request is answered once and leaves no
    memory behind. *)
Theorem preferred_network_roundtrip (mode v : Z) (t1 t2 : nat) (rest : list WaitEvent) (w : W) :
  modem_mode mode = Some v → live_chan (w_port w).1 →
  (w_port w).2 = line_events ["OK"] ++ line_events [at_line "PREFMODE" [pretty v]; "OK"] ++ rest →
  sState (w_ctx w) ≠ RADIO_STATE_OFF →
  ∃ w1 w2,
    onRequest (req_code RIL_REQUEST_SET_PREFERRED_NETWORK_TYPE) (DInts [mode]) 4 t1 no_locals w =
      Ok tt no_locals w1 ∧
    onRequest (req_code RIL_REQUEST_GET_PREFERRED_NETWORK_TYPE) DNull 0 t2 no_locals w1 =
      Ok tt no_locals w2 ∧
    answered_with w w2 ["AT^PREFMODE=" +:+ pretty v; "AT^PREFMODE?"]
      [Complete t1 RIL_E_SUCCESS PayNull 0; Complete t2 RIL_E_SUCCESS (PayInts [mode]) 4] rest.
Proof.
  intros Hm Hc Hev Hs. destruct (w_port w) as [c evs] eqn:Hport. cbn [fst snd] in Hc, Hev. subst evs.
  destruct (network_mode_inverse mode v Hm) as [Hmode Hv].
  destruct (set_preferred_session mode v t1 c _ w Hm Hc Hport) as (w1 & E1 & Hctx & Ho1 & Hl1 & Hc1 & Hr1 & Hs1).
  destruct (w_port w1) as [c1 evs1] eqn:Hport1. cbn [fst snd] in *. subst evs1.
  destruct (get_preferred_session v t2 c1 rest w1 Hv Hc1 Hport1) as (w2 & E2 & Ho2 & Hl2 & Hc2 & Hr2 & Hs2).
  exists w1, w2. rewrite !onRequest_dispatch by (rewrite ?Hctx; done). split_and!; [done|done|].
  rewrite Hport in Hs1. rewrite Hport1 in Hs2. cbn [fst] in Hs1, Hs2. rewrite Hs1 in Hs2.
  unfold answered_with. rewrite Hport, Ho2, Ho1, Hl2, Hl1, Hmode, <-app_assoc. split_and!; [done..|].
  rewrite Hs2. cbn [flat_map fst]. by rewrite !app_nil_r, <-app_assoc.
Qed.

Lemma get_imei_session fs s t c rest (w : W) :
  length fs = 6%nat → Forall (λ f, plain_field f = true) (fs ++ [s]) → live_chan c →
  w_port w = (c, line_events [at_line "+VGMUID" (fs ++ [s]); "OK"] ++ rest) →
  ∃ w', requestGetIMEI t no_locals w = Ok tt no_locals w' ∧
    answered_with w w' ["AT+VGMUID?"]
      [Complete t RIL_E_SUCCESS (PayStr (Some (strToUpper (trim_0x s) (strlen (trim_0x s))))) 4] rest.
Proof.
  intros Hlen Hfs Hc Hport. apply Forall_app in Hfs as [Hfs Hs].
  apply runs_session. unfold requestGetIMEI. do 3 rstep.
  eapply runs_query; [exact Hport|done|apply (strStartsWith_app "+VGMUID:")|reflexivity|].
  intros c' [Hc' Hsent]. cbv beta. do 8 rstep.
  rewrite <- Hlen. do 3 rstep.
  eapply (runs_skip_strs fs _ [s]); [apply is_live_here|done|reflexivity|done|]. cbv beta.
  apply Forall_cons in Hs as [Hs _].
  repeat rstep. split; [done|].
  unfold answered_with. rewrite Hport. by split_and!.
Qed.

(** The identity of the device.  When the modem answers AT+VGMUID? with
    six plain fields and then the MEID, the request is answered with the MEID,
    less a leading 0x and with every letter in upper case - no letter is left
    out, whatever its length. *)
Theorem get_imei_session_spec (fs : list string) (s : string) (t : nat) (rest : list WaitEvent) (w : W) :
  length fs = 6%nat → Forall (λ f, plain_field f = true) (fs ++ [s]) → live_chan (w_port w).1 →
  (w_port w).2 = line_events [at_line "+VGMUID" (fs ++ [s]); "OK"] ++ rest →
  sState (w_ctx w) ≠ RADIO_STATE_OFF →
  ∃ w', onRequest (req_code RIL_REQUEST_GET_IMEI) DNull 0 t no_locals w = Ok tt no_locals w' ∧
    answered_with w w' ["AT+VGMUID?"]
      [Complete t RIL_E_SUCCESS
         (PayStr (Some (string_of_list_ascii (toupper <$> list_ascii_of_string (trim_0x s))))) 4] rest.
Proof.
  intros Hlen Hfs Hc Hev Hs. destruct (w_port w) as [c evs] eqn:Hport. cbn [fst snd] in Hc, Hev. subst evs.
  rewrite onRequest_dispatch by done. cbn [dispatch dispatch_services].
  rewrite <- (upper_loop_all (trim_0x s) 0 (strlen (trim_0x s))) by lia.
  by apply (get_imei_session fs s t c rest w).
Qed.

(** C20: the list of calls, end to end.  When the modem lists its calls, the
    request sends exactly AT+CLCC and is answered once with the voice calls
    among the lines, in order, with their numbers (or none for a number that
    cannot be dialled), and the response is freed; the first entry's index is
    the number of calls. *)
Theorem current_calls_session (lines : list string) (cs : list ModemCall) (t : nat)
    (rest : list WaitEvent) (w : W) :
  clcc_lines (w_next w) lines cs →
  Forall (λ line, strStartsWith line "+CLCC:" = true) lines → live_chan (w_port w).1 →
  (w_port w).2 = line_events (lines ++ ["OK"]) ++ rest →
  sState (w_ctx w) ≠ RADIO_STATE_OFF →
  ∃ w', onRequest (req_code RIL_REQUEST_GET_CURRENT_CALLS) DNull 0 t no_locals w = Ok tt no_locals w' ∧
    answered_with w w' ["AT+CLCC"]
      [Complete t RIL_E_SUCCESS (PayCalls (delivered cs)) (Z.of_nat (length cs) * 4)] rest.
Proof.
  intros Hl Hp Hc Hev Hs. rewrite onRequest_dispatch by done. cbn [dispatch dispatch_services].
  destruct (w_port w) as [c evs] eqn:Hport. cbn [fst snd] in Hc, Hev. subst evs.
  apply runs_session. unfold requestGetCurrentCallsEVDO. do 2 rstep.
  eapply runs_multiline; [exact Hport|done|done| |].
  { eapply Forall_impl; [exact Hp|]. intros line (r & ->)%strStartsWith_spec. reflexivity. }
  intros c' [Hc' Hsent]. cbv beta. do 3 rstep. rstep.
  eapply runs_deref; [reflexivity|apply is_live_here|]. cbv beta zeta. cbn [r_val p_intermediates r_block].
  destruct (clcc_loop_spec (w_next w) lines cs Hl [] (replicate (length lines) zero_call))
    as (calls & E & Ht); [by rewrite length_replicate|].
  cbn [app reported fmap list_fmap length] in E, Ht. rewrite E. rstep.
  eapply runs_complete.
  { unfold resolve_payload. rewrite Ht, resolve_reported by apply is_live_here. reflexivity. }
  rstep. split; [done|]. unfold answered_with. rewrite Hport. by split_and!.
Qed.

(** The operator's strings as [getNetworkInfo] leaves them: the third is a
    pointer to its own local array. *)
Lemma getNetworkInfo_table k mcc mnc long short c rest l (w : W) :
  is_int32 k → plain_field mcc = true → plain_field mnc = true →
  find_operator (mcc +:+ mnc) = Some (long, short) → ctx_ok (w_ctx w) → live_chan c →
  w_port w = (c, line_events [at_line "+VMCCMNC" [pretty k; mcc; mnc]; "OK"] ++ rest) →
  runs getNetworkInfo (λ r _ _, r = Some [PStatic long; PStatic short; PDangling]) (λ _ _, False) l w.
Proof.
  intros Hk Hmcc Hmnc Hop Hctx Hc Hport. destruct (find_operator_fits _ _ _ Hop) as [Hlen Hshort].
  unfold getNetworkInfo. do 3 rstep.
  eapply runs_query; [exact Hport|done|apply (strStartsWith_app "+VMCCMNC:")|reflexivity|].
  intros c' [Hc' Hsent]. cbv beta. do 17 rstep.
  cbn [ln_cur]. rewrite tok_str_field by done. cbv iota beta. do 2 rstep.
  unfold sprintf. rewrite (proj2 (Z.ltb_lt _ _) Hlen). rstep. rewrite Hop.
  unfold network_done. cbn [lookup list_lookup].
  destruct Hctx as [[s1 Hs1] [s2 Hs2] _ _ _]. rstep.
  unfold runs at 1, read_str, resolve. do 2 rstep. unfold runs at 1, put_ctx. do 5 rstep.
  eapply runs_rilWriteStatus; [exact Hs1|exact Hs2|exact Hshort|]. done.
Qed.

(** C40: the name of a known operator cannot be delivered.  When the modem
    reports a network of [operator_info], a request for the operator or for
    the available networks is undefined behaviour: the third string of the
    answer is a local array of a function that has returned. *)
Theorem operator_dangling (r : Request) (k : Z) (mcc mnc long short : string) (t : nat)
    (rest : list WaitEvent) (w : W) :
  r = RIL_REQUEST_OPERATOR ∨ r = RIL_REQUEST_QUERY_AVAILABLE_NETWORKS →
  is_int32 k → plain_field mcc = true → plain_field mnc = true →
  find_operator (mcc +:+ mnc) = Some (long, short) → ctx_ok (w_ctx w) → live_chan (w_port w).1 →
  (w_port w).2 = line_events [at_line "+VMCCMNC" [pretty k; mcc; mnc]; "OK"] ++ rest →
  sState (w_ctx w) ≠ RADIO_STATE_OFF →
  ∃ u, onRequest (req_code r) DNull 0 t no_locals w = Undef u.
Proof.
  intros Hr Hk Hmcc Hmnc Hop Hctx Hc Hev Hs. rewrite onRequest_dispatch by done.
  destruct (w_port w) as [c evs] eqn:Hport. cbn [fst snd] in Hc, Hev. subst evs.
  pose proof (getNetworkInfo_table k mcc mnc long short c rest no_locals w Hk Hmcc Hmnc Hop Hctx Hc Hport) as Hn.
  unfold runs in Hn. destruct Hr as [-> | ->]; cbn [dispatch dispatch_services];
    unfold requestOperator, requestQueryAvailableNetworks, network_or_error, frame, on_error;
    unfold mbind, M_bind; destruct (getNetworkInfo no_locals w); try done; subst; [|by eexists].
  unfold mret, M_ret, property_get, mbind, M_bind, lift.
  destruct (pl_property_get _ _) as [v p]. destruct (_ <? 20); by eexists.
Qed.
End sessions.

(** ** The sessions on a concrete modem *)

Lemma opened_live : live_chan (opened_chan []).
Proof. split; [|reflexivity]. split; [by split|by split_and!]. Qed.

Lemma signal_strength_session_witness :
  let w := sim_world RADIO_STATE_SIM_READY [at_line "+CSQ" [pretty 23; pretty 99]; "OK"] sim_empty in
  ∃ w', onRequest (req_code RIL_REQUEST_SIGNAL_STRENGTH) DNull 0 8 no_locals w = Ok tt no_locals w' ∧
    answered_with w w' ["AT+CSQ"]
      [Complete 8 RIL_E_SUCCESS (PayInts [23; 99; 0; 0; 0; 0; 0]) 28] [].
Proof.
  refine (signal_strength_session 23 99 8 []
    (sim_world RADIO_STATE_SIM_READY [at_line "+CSQ" [pretty 23; pretty 99]; "OK"] sim_empty) _ _ _ _ _).
  - vm_compute. split; discriminate.
  - vm_compute. split; discriminate.
  - exact opened_live.
  - reflexivity.
  - discriminate.
Defined.

Lemma preferred_network_roundtrip_witness :
  let w := sim_world RADIO_STATE_SIM_READY ["OK"; at_line "PREFMODE" [pretty 4]; "OK"] sim_empty in
  ∃ w1 w2,
    onRequest (req_code RIL_REQUEST_SET_PREFERRED_NETWORK_TYPE) (DInts [NETWORK_MODE_EVDO_NO_CDMA]) 4 1
      no_locals w = Ok tt no_locals w1 ∧
    onRequest (req_code RIL_REQUEST_GET_PREFERRED_NETWORK_TYPE) DNull 0 2 no_locals w1 =
      Ok tt no_locals w2 ∧
    answered_with w w2 ["AT^PREFMODE=" +:+ pretty 4; "AT^PREFMODE?"]
      [Complete 1 RIL_E_SUCCESS PayNull 0;
       Complete 2 RIL_E_SUCCESS (PayInts [NETWORK_MODE_EVDO_NO_CDMA]) 4] [].
Proof.
  refine (preferred_network_roundtrip NETWORK_MODE_EVDO_NO_CDMA 4 1 2 []
    (sim_world RADIO_STATE_SIM_READY ["OK"; at_line "PREFMODE" [pretty 4]; "OK"] sim_empty) _ _ _ _).
  - reflexivity.
  - exact opened_live.
  - reflexivity.
  - discriminate.
Defined.

Lemma get_imei_session_spec_witness :
  let w := sim_world RADIO_STATE_SIM_READY
    [at_line "+VGMUID" (["1"; "2"; "3"; "4"; "5"; "6"] ++ ["0xa10000009ef2b"]); "OK"] sim_empty in
  ∃ w', onRequest (req_code RIL_REQUEST_GET_IMEI) DNull 0 3 no_locals w = Ok tt no_locals w' ∧
    answered_with w w' ["AT+VGMUID?"]
      [Complete 3 RIL_E_SUCCESS (PayStr (Some "A10000009EF2B"%string)) 4] [].
Proof.
  refine (get_imei_session_spec ["1"; "2"; "3"; "4"; "5"; "6"] "0xa10000009ef2b" 3 []
    (sim_world RADIO_STATE_SIM_READY
      [at_line "+VGMUID" (["1"; "2"; "3"; "4"; "5"; "6"] ++ ["0xa10000009ef2b"]); "OK"] sim_empty) _ _ _ _ _).
  - reflexivity.
  - repeat constructor.
  - exact opened_live.
  - reflexivity.
  - discriminate.
Defined.

Lemma current_calls_session_witness :
  let w := sim_world RADIO_STATE_SIM_READY (two_call_lines ++ ["OK"]) sim_empty in
  ∃ w', onRequest (req_code RIL_REQUEST_GET_CURRENT_CALLS) DNull 0 4 no_locals w = Ok tt no_locals w' ∧
    answered_with w w' ["AT+CLCC"]
      [Complete 4 RIL_E_SUCCESS (PayCalls (delivered two_calls)) 8] [].
Proof.
  refine (current_calls_session two_call_lines two_calls 4 []
    (sim_world RADIO_STATE_SIM_READY (two_call_lines ++ ["OK"]) sim_empty) _ _ _ _ _).
  - apply two_call_lines_ok.
  - repeat constructor.
  - exact opened_live.
  - by rewrite app_nil_r.
  - discriminate.
Defined.
Lemma operator_dangling_witness :
  let w := sim_world RADIO_STATE_SIM_READY [at_line "+VMCCMNC" [pretty 1; "310"; "004"]; "OK"] sim_empty in
  ∃ u, onRequest (req_code RIL_REQUEST_OPERATOR) DNull 0 9 no_locals w = Undef u.
Proof.
  refine (operator_dangling RIL_REQUEST_OPERATOR 1 "310" "004" "Verizon Wireless" "VZW" 9 []
    (sim_world RADIO_STATE_SIM_READY [at_line "+VMCCMNC" [pretty 1; "310"; "004"]; "OK"] sim_empty)
    _ _ _ _ _ _ _ _ _).
  - left. reflexivity.
  - vm_compute. split; discriminate.
  - reflexivity.
  - reflexivity.
  - reflexivity.
  - apply sim_world_wf with (lines := []) (s := RADIO_STATE_SIM_READY) (p := sim_empty). constructor.
  - exact opened_live.
  - reflexivity.
  - discriminate.
Defined.
