(* ===== verification/RilModem.v ===== *)
(** * Registration and polling, followed through the modem's replies

    The request with four queries, and the polls of the main loop, in the style
    of RilSession: from the bytes sent to the modem to what the RIL library is
    told, with the memory they leave. *)

From S2P Require Import Prelude CString AtTok AtReader AtChannel RilInfo RilBase RilLogic RilReader RilSim RilUtils RilAuto RilRqst RilTimer Ril RilSession.

Open Scope Z_scope.

(** ** A query with its checks *)

Section ask.
Context {P : Type} `{Platform P}.
Abbreviation W := (World ChanPort P).

(** [ask] when the modem replies with [line] and OK. *)
Lemma runs_ask x p cmd line cur c rest Q E l (w : W) :
  w_port w = (c, line_events [line; "OK"] ++ rest) → live_chan c →
  strStartsWith line p = true → isFinalResponse line = false →
  tok_start (Some line) = Some cur →
  (∀ c', sent_on c c' cmd →
     Q (MkLine (w_next w) cur) (after_query x line l w) (with_response c' rest w)) →
  runs (ask x (KSingle p) cmd) Q E l w.
Proof.
  intros Hport Hc Hp Hl Hcur HQ. unfold ask. apply runs_bind.
  eapply runs_query; [exact Hport|done..|]. intros c' Hs.
  unfold check_ne. apply runs_bind, runs_bind.
  eapply runs_failed_ne; [apply after_query_resp|apply is_live_here|]. cbn. apply (runs_ret _ _ E), runs_bind.
  eapply runs_first_line; [apply after_query_resp|apply is_live_here|reflexivity|].
  apply runs_line_start with (cur' := cur); [apply is_live_here|done|]. apply (HQ c' Hs).
Qed.

Lemma runs_skip_ints zs b fs cur' Q E l (w : W) :
  is_live b (w_live w) = true → Forall is_int32 zs → cur' = Some (commas fs) → fs ≠ [] →
  Q (MkLine b cur') l w →
  runs (skip_ints (length zs) (MkLine b (Some (commas (map pretty zs ++ fs))))) Q E l w.
Proof.
  intros Hb Hzs -> Hfs HQ. induction Hzs as [|z zs Hz Hzs IH]; [done|]. cbn [length skip_ints map app].
  apply runs_bind. eapply runs_line_int; [done|by apply tok_int_field|].
  destruct (map pretty zs ++ fs) eqn:Ea; [by destruct zs|]. exact IH.
Qed.
End ask.

(** ** Registration *)

(** What the modem knows of its registration. *)
Record Registration := MkRegistration {
  reg_sid : Z; reg_nid : Z; reg_mode : Z;       (** the numbers before the status in +CREG *)
  reg_status : string;
  reg_service : Z; reg_domain : Z;              (** the first two of ^SYSINFO *)
  reg_roam : Z; reg_protocol : Z; reg_sysmode : string;
  reg_system_id : string; reg_network_id : string;
  reg_vrom : Z; reg_indicator : string
}.

Record registration_ok (r : Registration) : Prop := {
  reg_ints : Forall is_int32 [reg_sid r; reg_nid r; reg_mode r; reg_service r; reg_domain r;
                              reg_roam r; reg_protocol r; reg_vrom r];
  reg_strs : Forall (λ f, plain_field f = true)
               [reg_status r; reg_system_id r; reg_network_id r; reg_indicator r]
}.

(** Its four replies. *)
Definition creg_reply (r : Registration) : string :=
  at_line "+CREG" [pretty (reg_mode r); pretty (reg_sid r); pretty (reg_nid r); reg_status r].
Definition sysinfo_reply (r : Registration) : string :=
  at_line "^SYSINFO" [pretty (reg_service r); pretty (reg_domain r); pretty (reg_roam r);
                      pretty (reg_protocol r); reg_sysmode r].
Definition csnid_reply (r : Registration) : string :=
  at_line "+CSNID" [reg_system_id r; reg_network_id r].
Definition vrom_reply (r : Registration) : string :=
  at_line "+VROM" [pretty (reg_vrom r); reg_indicator r].

Definition registration_replies (r : Registration) : list WaitEvent :=
  line_events [creg_reply r; "OK"] ++ line_events [sysinfo_reply r; "OK"] ++
  line_events [csnid_reply r; "OK"] ++ line_events [vrom_reply r; "OK"].

(** The answer: [RIL_Registration_response] as it reaches the framework. *)
Definition registration_answer (r : Registration) : Payload (option string) :=
  PayStrs [Some (reg_status r); None; None; Some "3"; Some "0"; Some "0"; Some "0"; Some "0";
           Some (reg_system_id r); Some (reg_network_id r);
           Some (if 12 <? atoi (reg_indicator r) then "1" else reg_indicator r);
           Some "1"; Some "1"; Some "0"; None].

(** Brings the live blocks and their names to the surface. *)
Ltac blocks :=
  unfold after_query, with_response, after_send; cbn [w_live w_next with_mem with_port with_out with_ctx r_block].

Section sessions.
Context {P : Type} `{Platform P, RilConsts, RilCodes}.
Abbreviation W := (World ChanPort P).

Lemma registration_session r request t c rest (w : W) :
  registration_ok r → live_chan c →
  (request = RIL_REQUEST_REGISTRATION_STATE ∨ request = RIL_REQUEST_GPRS_REGISTRATION_STATE) →
  w_port w = (c, registration_replies r ++ rest) →
  ∃ w', requestRegistrationStateEVDO request t no_locals w = Ok tt no_locals w' ∧
    answered_with w w' ["AT+CREG?"; "AT^SYSINFO"; "AT+CSNID?"; "AT+VROM?"]
      [Complete t RIL_E_SUCCESS (registration_answer r) 60] rest.
Proof.
  intros [Hz Hs] Hc Hr Hport. rewrite !Forall_cons in Hz. rewrite !Forall_cons in Hs.
  destruct Hz as (? & ? & ? & ? & ? & ? & ? & ? & _), Hs as (? & ? & ? & ? & _).
  unfold registration_replies in Hport. rewrite <-!app_assoc in Hport.
  apply runs_session. unfold requestRegistrationStateEVDO. do 3 rstep.
  eapply runs_ask; [exact Hport|done|apply (strStartsWith_app "+CREG:")|reflexivity|by apply tok_start_at_line|].
  intros c1 [Hc1 Hs1]. cbv beta. rstep.
  eapply (runs_skip_ints [reg_mode r; reg_sid r; reg_nid r] _ [reg_status r]);
    [apply is_live_here|auto 8 using List.Forall_cons, List.Forall_nil|reflexivity|done|]. cbv beta. do 3 rstep.
  eapply runs_ask; [reflexivity|done|apply (strStartsWith_app "^SYSINFO:")|reflexivity|by apply tok_start_at_line|].
  intros c2 [Hc2 Hs2]. cbv beta. rstep.
  eapply (runs_skip_ints [reg_service r; reg_domain r] _ [pretty (reg_roam r); pretty (reg_protocol r); reg_sysmode r]);
    [apply is_live_here|auto 8 using List.Forall_cons, List.Forall_nil|reflexivity|done|]. cbv beta. do 5 rstep.
  eapply runs_ask; [reflexivity|done|apply (strStartsWith_app "+CSNID:")|reflexivity|by apply tok_start_at_line|].
  intros c3 [Hc3 Hs3]. cbv beta. do 5 rstep.
  eapply runs_ask; [reflexivity|done|apply (strStartsWith_app "+VROM:")|reflexivity|by apply tok_start_at_line|].
  intros c4 [Hc4 Hs4]. cbv beta. do 6 rstep.
  replace (if bool_decide (request = RIL_REQUEST_REGISTRATION_STATE) then _ else _) with "3"
    by (by destruct Hr as [-> | ->]).
  do 2 rstep. eapply (runs_complete t _ _ _ (registration_answer r)).
  { unfold registration_answer, registration_fields. cbn [registration_defaults register_state lac cid radio_technology_field
      basestation_id basestation_latitude basestation_longitude concurrent_service system_id network_id
      roaming_indicator prl_state prl_roaming_indicator deny_reason pri_scramble_code].
    blocks. destruct (12 <? atoi (reg_indicator r)); resolve_ptrs. }
  unfold free_all, registration_vars. cbn [foldr].
  do 4 (apply runs_bind; eapply runs_free_resp; [reflexivity|blocks; del_block|]). apply runs_ret.
  split; [done|]. unfold answered_with. rewrite Hport. split_and!; try done.
  change (tty_sent (s_tty c4) = tty_sent (s_tty c) ++
    flat_map (λ cmd, chars cmd ++ [CR]) ["AT+CREG?"; "AT^SYSINFO"; "AT+CSNID?"; "AT+VROM?"]).
  cbn [flat_map]. by rewrite Hs4, Hs3, Hs2, Hs1, app_nil_r, <-!app_assoc.
Qed.

(** C25: the registration of the modem, end to end.  When the modem answers the
    four queries AT+CREG?, AT^SYSINFO, AT+CSNID? and AT+VROM?, either
    registration request sends exactly these and is answered once: with the
    status, system and network id and roaming indicator the modem reported (an
    indicator above 12 becomes 1), the radio technology 3 whatever protocol the
    modem named, and constants in the other fields; the four responses are freed. *)
Theorem registration_state_session (r : Registration) request t rest (w : W) :
  request = RIL_REQUEST_REGISTRATION_STATE ∨ request = RIL_REQUEST_GPRS_REGISTRATION_STATE →
  registration_ok r → live_chan (w_port w).1 → (w_port w).2 = registration_replies r ++ rest →
  sState (w_ctx w) ≠ RADIO_STATE_OFF →
  ∃ w', onRequest (req_code request) DNull 0 t no_locals w = Ok tt no_locals w' ∧
    answered_with w w' ["AT+CREG?"; "AT^SYSINFO"; "AT+CSNID?"; "AT+VROM?"]
      [Complete t RIL_E_SUCCESS (registration_answer r) 60] rest.
Proof.
  intros Hr Hok Hc Hev Hs. destruct (w_port w) as [c evs] eqn:Hport. cbn [fst snd] in Hc, Hev. subst evs.
  rewrite onRequest_dispatch by done.
  destruct (registration_session r request t c rest w Hok Hc Hr Hport) as (w' & E & Ha).
  exists w'. split; [|exact Ha]. by destruct Hr as [-> | ->].
Qed.
End sessions.

Definition demo_registration : Registration :=
  MkRegistration 4145 7 1 "1" 2 255 0 8 "240" "4145" "7" 0 "64".

Lemma registration_state_session_witness :
  let lines := [creg_reply demo_registration; "OK"; sysinfo_reply demo_registration; "OK";
                csnid_reply demo_registration; "OK"; vrom_reply demo_registration; "OK"] in
  let w := sim_world RADIO_STATE_SIM_READY lines sim_empty in
  ∃ w', onRequest (req_code RIL_REQUEST_REGISTRATION_STATE) DNull 0 6 no_locals w = Ok tt no_locals w' ∧
    answered_with w w' ["AT+CREG?"; "AT^SYSINFO"; "AT+CSNID?"; "AT+VROM?"]
      [Complete 6 RIL_E_SUCCESS
         (PayStrs [Some "1"; None; None; Some "3"; Some "0"; Some "0"; Some "0"; Some "0";
                   Some "4145"; Some "7"; Some "1"; Some "1"; Some "1"; Some "0"; None]%string) 60] [].
Proof.
  refine (registration_state_session demo_registration RIL_REQUEST_REGISTRATION_STATE 6 []
    (sim_world RADIO_STATE_SIM_READY
       [creg_reply demo_registration; "OK"; sysinfo_reply demo_registration; "OK";
        csnid_reply demo_registration; "OK"; vrom_reply demo_registration; "OK"] sim_empty) _ _ _ _ _).
  - left. reflexivity.
  - split; repeat (apply List.Forall_cons; [vm_compute; intuition discriminate|]); apply List.Forall_nil.
  - exact opened_live.
  - reflexivity.
  - discriminate.
Defined.

(** ** The polls of the main loop *)

Section quiet.
Context {P : Type} `{Platform P}.
Abbreviation W := (World ChanPort P).
Abbreviation M := (M ChanPort P).

(** What the GPS output leaves alone. *)
Definition quiet (w w' : W) : Prop :=
  w_port w' = w_port w ∧ w_out w' = w_out w ∧ w_live w' = w_live w ∧
  w_pollSavedCREG w' = w_pollSavedCREG w ∧ w_pollSavedCSQ w' = w_pollSavedCSQ w.

Definition quietly {A} (m : M A) : Prop :=
  ∀ l w, runs m (λ _ l' w', l' = l ∧ quiet w w') (λ _ _, False) l w.

Lemma quietly_ret {A} (x : A) : quietly (mret x).
Proof. intros l w. by split. Qed.

Lemma quietly_bind {A B} (m : M A) (f : A → M B) :
  quietly m → (∀ x, quietly (f x)) → quietly (m ≫= f).
Proof.
  intros Hm Hf l w. apply runs_bind. specialize (Hm l w). unfold runs in *.
  destruct (m l w) as [x l1 w1| | |]; [|done..]. destruct Hm as [-> (Ep & Eo & El & E1 & E2)].
  specialize (Hf x l w1). unfold runs in Hf. destruct (f x l w1) as [y l2 w2| | |]; [|done..].
  destruct Hf as [-> (Fp & Fo & Fl & F1 & F2)]. split; [done|].
  by split_and!; etrans; eauto.
Qed.

Lemma quietly_get_ctx : quietly get_ctx.
Proof. intros l w. by split. Qed.

Lemma quietly_put_ctx f : quietly (put_ctx f).
Proof. intros l w. by split. Qed.

Lemma quietly_lift {A} (f : P → A * P) : quietly (lift f).
Proof. intros l w. unfold runs, lift. by destruct (f (w_plat w)). Qed.

Lemma quietly_when (b : bool) (m : M unit) : quietly m → quietly (when b m).
Proof. destruct b; [done|]. intros _. apply quietly_ret. Qed.

Ltac quiet_step :=
  first [apply quietly_bind; [|intros ?] | apply quietly_ret | apply quietly_get_ctx
        | apply quietly_put_ctx | apply quietly_lift | apply quietly_when
        | match goal with |- quietly (if ?b then _ else _) => destruct b end].

Lemma quietly_fifo file s : quietly (rilWriteGPSFifo file s).
Proof. unfold rilWriteGPSFifo, sys. repeat quiet_step. Qed.

Lemma quietly_tty s options : quietly (rilWriteGPSTty (Some s) options).
Proof. unfold rilWriteGPSTty, gps_tty_write, sys. repeat quiet_step. Qed.

(** The GPS part of the timer. *)
Definition timer_gps : M unit :=
  c ← get_ctx;
  when (negb (gpsFifoEnable c =? 0)) (rilWriteGPSFifo RIL_GPS_FIFOPATH GPS_TEST_GPGLL;; mret tt);;
  when (negb (gpsTtyEnable c =? 0)) (rilWriteGPSTty (Some GPS_TEST_GPGSA) 0;; mret tt).

Lemma quietly_timer_gps : quietly timer_gps.
Proof.
  unfold timer_gps. repeat first [apply quietly_fifo | apply quietly_tty | quiet_step].
Qed.
End quiet.

Section polls.
Context {P : Type} `{Platform P}.
Abbreviation W := (World ChanPort P).

Definition csq_reply (rssi ber : Z) : string := at_line "+CSQ" [pretty rssi; pretty ber].

Lemma pretty_nul_free (z : Z) : nul_free (pretty z).
Proof.
  eapply Forall_impl; [apply pretty_chars|]. intros c [Hc| ->]; [|done].
  by destruct c as [[] [] [] [] [] [] [] []].
Qed.

Lemma pretty_int32_length (z : Z) : is_int32 z → (String.length (pretty z) ≤ 11)%nat.
Proof.
  unfold is_int32, INT_MIN, INT_MAX. intros Hz. destruct (decide (z < 0)) as [Hn|Hn].
  - rewrite pretty_Z_neg by done. pose proof (pretty_length 10 (- z) ltac:(lia) ltac:(lia)) as Hl.
    rewrite pretty_Z_pos in Hl by lia. cbn [String.length]. lia.
  - pose proof (pretty_length 10 z ltac:(lia) ltac:(lia)). lia.
Qed.

Lemma csq_reply_fits rssi ber :
  is_int32 rssi → is_int32 ber →
  nul_free (csq_reply rssi ber) ∧ (String.length (csq_reply rssi ber) ≤ 64)%nat.
Proof.
  intros Hr%pretty_int32_length Hb%pretty_int32_length.
  unfold csq_reply, at_line. cbn [commas]. split.
  - unfold nul_free. cbn [String.append list_ascii_of_string]. rewrite chars_app.
    repeat (apply Forall_cons; split; [done|]). apply Forall_app. split; [apply pretty_nul_free|].
    apply Forall_cons. split; [done|]. apply pretty_nul_free.
  - cbn [String.append String.length]. rewrite str_length_app. cbn [String.length]. lia.
Qed.

Lemma runs_mono {A} (m : M ChanPort P A) (Q Q' : A → Locals → W → Prop) (E E' : Locals → W → Prop) l w :
  runs m Q E l w → (∀ x l' w', Q x l' w' → Q' x l' w') → (∀ l' w', E l' w' → E' l' w') →
  runs m Q' E' l w.
Proof. unfold runs. intros Hm HQ HE. destruct (m l w); auto. Qed.

Lemma runs_get_ctx Q E l (w : W) : Q (w_ctx w) l w → runs get_ctx Q E l w.
Proof. done. Qed.

Lemma runs_put_ctx f Q E l (w : W) : Q tt l (with_ctx (f (w_ctx w)) w) → runs (put_ctx f) Q E l w.
Proof. done. Qed.

Lemma runs_sprintf n s Q E l (w : W) : strlen s < n → Q s l w → runs (sprintf n s) Q E l w.
Proof. intros Hs HQ. unfold sprintf. by rewrite (proj2 (Z.ltb_lt _ _)). Qed.

Lemma runs_get_world Q E l (w : W) : Q w l w → runs get_world Q E l w.
Proof. done. Qed.

Lemma runs_update f Q E l (w : W) : Q tt l (f w) → runs (update f) Q E l w.
Proof. done. Qed.

Lemma runs_unsol code p len v Q E l (w : W) :
  resolve_payload (w_live w) p = inl v → Q tt l (with_out (w_out w ++ [Unsol code v len]) w) →
  runs (RIL_onUnsolicitedResponse code p len) Q E l w.
Proof. intros Hr HQ. unfold runs, RIL_onUnsolicitedResponse. by rewrite Hr. Qed.

(** A poll with reply [line], the last saved line being [old]: an unchanged
    line is not reported and its response stays allocated. *)
Record polled (w w' : W) (cmd old line : string) (o : Output) : Prop := {
  pd_out : w_out w' = w_out w ++ (if strStartsWith old line then [] else [o]);
  pd_live : w_live w' = (if strStartsWith old line then [w_next w] else []) ++ w_live w;
  pd_sent : ∀ c evs, w_port w = (c, line_events [line; "OK"] ++ evs) →
            ∃ c', w_port w' = (c', evs) ∧ sent_on c c' cmd
}.

(** What is saved after it. *)
Definition saved_line (old line : string) : string := if strStartsWith old line then old else line.

Lemma poll_signal_session old rssi ber c rest l (w : W) :
  is_int32 rssi → is_int32 ber → live_chan c →
  w_port w = (c, line_events [csq_reply rssi ber; "OK"] ++ rest) → w_pollSavedCSQ w = strncpy old 64 →
  runs pollSignalStrength (λ _ l' w', l' = l ∧
      polled w w' "AT+CSQ" old (csq_reply rssi ber)
        (Unsol RIL_UNSOL_SIGNAL_STRENGTH (PayInts [rssi; ber; 0; 0; 0; 0; 0]) 28) ∧
      w_pollSavedCSQ w' = strncpy (saved_line old (csq_reply rssi ber)) 64 ∧
      w_pollSavedCREG w' = w_pollSavedCREG w) (λ _ _, False) l w.
Proof.
  intros Hr Hb Hc Hport Hold. destruct (csq_reply_fits rssi ber Hr Hb) as [Hnul Hlen].
  unfold pollSignalStrength. do 3 rstep.
  eapply runs_query; [exact Hport|done|apply (strStartsWith_app "+CSQ:")|reflexivity|].
  intros c' Hs. cbv beta. do 9 rstep. apply runs_get_world.
  unfold line_text. cbn [ln_cur r_block].
  change (w_pollSavedCSQ _) with (w_pollSavedCSQ w) at 1. rewrite Hold, poll_unchanged_eq by done.
  destruct (strStartsWith old (csq_reply rssi ber)) eqn:Hsame.
  - apply runs_ret. unfold saved_line. split_and!; [done| |by rewrite Hsame|done].
    split; [by rewrite Hsame, app_nil_r|by rewrite Hsame|]. rewrite Hport. intros ? ? [= <- <-].
    by exists c'.
  - do 2 rstep. apply runs_update. do 7 rstep. eapply runs_unsol; [reflexivity|]. rstep.
    unfold saved_line. split_and!; [done| |by rewrite Hsame|done].
    split; [by rewrite Hsame|by rewrite Hsame|]. rewrite Hport. intros ? ? [= <- <-].
    by exists c'.
Qed.

Lemma poll_registration_session old line c rest l (w : W) :
  strStartsWith line "+CREG:" = true → isFinalResponse line = false → nul_free line →
  (String.length line ≤ 64)%nat → live_chan c →
  w_port w = (c, line_events [line; "OK"] ++ rest) → w_pollSavedCREG w = strncpy old 64 →
  runs pollNetworkRegistration (λ _ l' w', l' = l ∧
      polled w w' "AT+CREG?" old line (Unsol RIL_UNSOL_RESPONSE_NETWORK_STATE_CHANGED PayNull 0) ∧
      w_pollSavedCREG w' = strncpy (saved_line old line) 64 ∧
      w_pollSavedCSQ w' = w_pollSavedCSQ w) (λ _ _, False) l w.
Proof.
  intros Hp Hf Hnul Hlen Hc Hport Hold. unfold pollNetworkRegistration. do 3 rstep.
  eapply runs_query; [exact Hport|done..|]. intros c' Hs. cbv beta. do 9 rstep. apply runs_get_world.
  unfold line_text. cbn [ln_cur r_block].
  change (w_pollSavedCREG _) with (w_pollSavedCREG w) at 1. rewrite Hold, poll_unchanged_eq by done.
  destruct (strStartsWith old line) eqn:Hsame.
  - apply runs_ret. unfold saved_line. split_and!; [done| |by rewrite Hsame|done].
    split; [by rewrite Hsame, app_nil_r|by rewrite Hsame|]. rewrite Hport. intros ? ? [= <- <-].
    by exists c'.
  - do 2 rstep. apply runs_update. rstep. eapply runs_unsol; [reflexivity|]. rstep.
    unfold saved_line. split_and!; [done| |by rewrite Hsame|done].
    split; [by rewrite Hsame|by rewrite Hsame|]. rewrite Hport. intros ? ? [= <- <-].
    by exists c'.
Qed.

(** C29: what the main loop reports while the screen is on.  A round of
    [fw100ModemTimer] sends AT+CSQ and AT+CREG?.  The signal strength is
    reported with the two numbers of the reply, and a change of the network is
    announced, exactly when the reply is not a prefix of the last one that was
    saved - so [+CSQ:2,9] after [+CSQ:2,99] goes unnoticed - and the reply is
    then saved; each reply that is not reported leaves its response allocated
    for good. *)
Theorem modem_timer_session (rssi ber : Z) (creg old_csq old_creg : string) rest (w : W) :
  let csq := csq_reply rssi ber in
  let same_csq := strStartsWith old_csq csq in
  let same_creg := strStartsWith old_creg creg in
  is_int32 rssi → is_int32 ber →
  strStartsWith creg "+CREG:" = true → isFinalResponse creg = false → nul_free creg →
  (String.length creg ≤ 64)%nat → live_chan (w_port w).1 →
  (w_port w).2 = line_events [csq; "OK"] ++ line_events [creg; "OK"] ++ rest →
  w_pollSavedCSQ w = strncpy old_csq 64 → w_pollSavedCREG w = strncpy old_creg 64 →
  ∃ w', fw100ModemTimer no_locals w = Ok tt no_locals w' ∧
    w_out w' = w_out w ++
      (if same_csq then [] else [Unsol RIL_UNSOL_SIGNAL_STRENGTH (PayInts [rssi; ber; 0; 0; 0; 0; 0]) 28]) ++
      (if same_creg then [] else [Unsol RIL_UNSOL_RESPONSE_NETWORK_STATE_CHANGED PayNull 0]) ∧
    length (w_live w') = (length (w_live w) + (if same_csq then 1 else 0) + (if same_creg then 1 else 0))%nat ∧
    w_pollSavedCSQ w' = strncpy (saved_line old_csq csq) 64 ∧
    w_pollSavedCREG w' = strncpy (saved_line old_creg creg) 64 ∧
    live_chan (w_port w').1 ∧ (w_port w').2 = rest ∧
    tty_sent (s_tty (w_port w').1) =
      tty_sent (s_tty (w_port w).1) ++ chars "AT+CSQ" ++ [CR] ++ chars "AT+CREG?" ++ [CR].
Proof.
  intros csq same_csq same_creg Hr Hb Hp Hf Hnul Hlen Hc Hev Hcsq Hcreg.
  destruct (w_port w) as [c evs] eqn:Hport. cbn [fst snd] in Hc, Hev. subst evs.
  apply runs_session. change fw100ModemTimer with (pollSignalStrength;; pollNetworkRegistration;; timer_gps).
  apply runs_bind. eapply runs_mono; [by apply (poll_signal_session old_csq rssi ber c (line_events [creg; "OK"] ++ rest) no_locals w)| |done].
  intros _ l1 w1 (-> & [Ho1 Hl1 Hs1] & Hcsq1 & Hcreg1).
  destruct (Hs1 c _ Hport) as (c1 & Hport1 & Hc1 & Hsent1). rewrite Hcreg in Hcreg1.
  apply runs_bind. eapply runs_mono; [by apply (poll_registration_session old_creg creg c1 rest no_locals w1)| |done].
  intros _ l2 w2 (-> & [Ho2 Hl2 Hs2] & Hcreg2 & Hcsq2).
  destruct (Hs2 c1 _ Hport1) as (c2 & Hport2 & Hc2 & Hsent2).
  eapply runs_mono; [apply quietly_timer_gps| |done].
  intros _ l3 w3 (-> & Eport & Eout & Elive & Ecreg & Ecsq). split; [done|].
  rewrite Eport, Eout, Elive, Ecreg, Ecsq, Hport2, Ho2, Hl2, Ho1, Hl1, Hcsq2, <-app_assoc.
  cbn [fst snd]. split_and!; try done.
  - rewrite !length_app. unfold same_csq, same_creg, csq.
    destruct (strStartsWith _ _), (strStartsWith _ _); cbn [length]; lia.
  - rewrite Hsent2, Hsent1. by rewrite <-!app_assoc.
Qed.
End polls.

Lemma modem_timer_session_witness :
  let w := with_polls (strncpy "+CREG:1,4145,7,1" 64) (strncpy "+CSQ:23,99" 64)
    (sim_world RADIO_STATE_SIM_READY [csq_reply 23 9; "OK"; "+CREG:1,4145,7,2"; "OK"] sim_empty) in
  ∃ w', fw100ModemTimer no_locals w = Ok tt no_locals w' ∧
    w_out w' = [] ++ [] ++ [Unsol RIL_UNSOL_RESPONSE_NETWORK_STATE_CHANGED PayNull 0] ∧
    length (w_live w') = 1%nat ∧
    w_pollSavedCSQ w' = strncpy "+CSQ:23,99" 64 ∧
    w_pollSavedCREG w' = strncpy "+CREG:1,4145,7,2" 64 ∧
    live_chan (w_port w').1 ∧ (w_port w').2 = [] ∧
    tty_sent (s_tty (w_port w').1) = [] ++ chars "AT+CSQ" ++ [CR] ++ chars "AT+CREG?" ++ [CR].
Proof.
  refine (modem_timer_session 23 9 "+CREG:1,4145,7,2" "+CSQ:23,99" "+CREG:1,4145,7,1" []
    (with_polls (strncpy "+CREG:1,4145,7,1" 64) (strncpy "+CSQ:23,99" 64)
      (sim_world RADIO_STATE_SIM_READY [csq_reply 23 9; "OK"; "+CREG:1,4145,7,2"; "OK"] sim_empty))
    _ _ _ _ _ _ _ _ _ _).
  - vm_compute. split; discriminate.
  - vm_compute. split; discriminate.
  - reflexivity.
  - reflexivity.
  - repeat constructor.
  - simpl. lia.
  - exact opened_live.
  - reflexivity.
  - reflexivity.
  - reflexivity.
Defined.
