(* ===== verification/RilNetwork.v ===== *)
(** * Operator and subscriber, followed through the modem's replies

    The requests that name the operator or the subscriber, for a network that
    is not in [operator_info]: there the strings are constants, and the answer
    is defined. *)

From S2P Require Import Prelude CString AtTok AtReader AtChannel RilInfo RilBase RilLogic RilReader RilSim RilUtils RilAuto RilRqst Ril RilSession RilModem.

Open Scope Z_scope.

(** The names and the code by the carrier's reply to AT$QCMIPGETP. *)
Definition carrier_names (line : string) : list string :=
  if strstr line "sprint" then ["Sprint PCS"; "SPCS"; "310120"]
  else if strstr line "vzw" then ["Verizon Wireless"; "VZW"; "310004"]
  else ["Unknown Operator"; "UNK"; "000000"].

Lemma carrier_names_fit line :
  ∃ long short code, carrier_names line = [long; short; code] ∧
    c_str (strncpy short 16) = Some short ∧ c_str (strncpy code 64) = Some code ∧ strlen code = 6.
Proof. unfold carrier_names. repeat case_match; by do 3 eexists. Qed.

(** What was exchanged with the modem, nothing else having changed. *)
Definition exchanged {P} (w w' : World ChanPort P) (cmds : list string) (rest : list WaitEvent) : Prop :=
  answered_with w w' cmds [] rest ∧ ctx_ok (w_ctx w').

Section network.
Context {P : Type} `{Platform P, RilConsts}.
Abbreviation W := (World ChanPort P).

Lemma runs_read_static s Q E l (w : W) : Q s l w → runs (read_str (PStatic s)) Q E l w.
Proof. done. Qed.

Lemma getNetworkInfo_unlisted k mcc mnc line c rest l (w : W) :
  is_int32 k → plain_field mcc = true → plain_field mnc = true →
  find_operator (mcc +:+ mnc) = None → strlen (mcc +:+ mnc) < 32 →
  isFinalResponse line = false → ctx_ok (w_ctx w) → live_chan c →
  w_port w = (c, line_events [at_line "+VMCCMNC" [pretty k; mcc; mnc]; "OK"] ++ line_events [line; "OK"] ++ rest) →
  runs getNetworkInfo (λ r l' w', l' = l ∧ r = Some (PStatic <$> carrier_names line) ∧
      exchanged w w' ["AT+VMCCMNC?"; "AT$QCMIPGETP=0"] rest) (λ _ _, False) l w.
Proof.
  intros Hk Hmcc Hmnc Hop Hlen Hline Hctx Hc Hport.
  unfold getNetworkInfo. do 3 rstep.
  eapply runs_query; [exact Hport|done|apply (strStartsWith_app "+VMCCMNC:")|reflexivity|].
  intros c' [Hc' Hsent]. cbv beta. do 17 rstep.
  cbn [ln_cur]. rewrite tok_str_field by done. cbv iota beta. do 2 rstep.
  unfold sprintf. rewrite (proj2 (Z.ltb_lt _ _) Hlen). rstep. rewrite Hop. rstep.
  eapply runs_query; [reflexivity|done|by destruct line|done|].
  intros c2 [Hc2 Hsent2]. cbv beta. do 9 rstep. cbn [ln_cur].
  change (if strstr line "sprint" then _ else _) with (carrier_names line).
  destruct (carrier_names_fit line) as (long & short & code & E & Hshort & _). rewrite E.
  cbn [fmap list_fmap lookup list_lookup].
  apply runs_read_static. rstep. apply runs_put_ctx. rstep.
  eapply runs_free_resp; [reflexivity|blocks; del_block|]. rstep.
  eapply runs_free_resp; [reflexivity|blocks; del_block|]. rstep.
  destruct (Hctx) as [[s1 Hs1] [s2 Hs2] _ ? ?].
  eapply runs_rilWriteStatus; [exact Hs1|exact Hs2|exact Hshort|]. intros ? p'. rstep.
  split_and!; [done|done|]. split; [|by split; eauto].
  unfold answered_with. rewrite Hport, app_nil_r. split_and!; try done.
  change (tty_sent (s_tty c2) = tty_sent (s_tty c) ++
    flat_map (λ cmd, chars cmd ++ [CR]) ["AT+VMCCMNC?"; "AT$QCMIPGETP=0"]).
  cbn [flat_map]. by rewrite Hsent2, Hsent, app_nil_r, <-!app_assoc.
Qed.

Lemma runs_network_or_error names l (w : W) cmds rest Q E :
  runs getNetworkInfo (λ r l' w', l' = l ∧ r = Some names ∧ exchanged w w' cmds rest) (λ _ _, False) l w →
  (∀ w', exchanged w w' cmds rest → Q names l w') → runs network_or_error Q E l w.
Proof.
  intros Hn HQ. unfold network_or_error. apply runs_bind. eapply runs_mono; [exact Hn| |done].
  intros r l' w' (-> & -> & Hx). apply runs_ret, HQ, Hx.
Qed.
End network.

Section sessions.
Context {P : Type} `{Platform P, RilConsts, RilCodes}.
Abbreviation W := (World ChanPort P).

(** The modem's side: a network that is not in the table. *)
Record unlisted (k : Z) (mcc mnc line : string) : Prop := {
  un_int : is_int32 k;
  un_mcc : plain_field mcc = true;
  un_mnc : plain_field mnc = true;
  un_table : find_operator (mcc +:+ mnc) = None;
  un_length : strlen (mcc +:+ mnc) < 32;
  un_line : isFinalResponse line = false
}.

Definition network_replies (k : Z) (mcc mnc line : string) : list WaitEvent :=
  line_events [at_line "+VMCCMNC" [pretty k; mcc; mnc]; "OK"] ++ line_events [line; "OK"].

Lemma runs_unlisted k mcc mnc line c rest Q E l (w : W) :
  unlisted k mcc mnc line → ctx_ok (w_ctx w) → live_chan c →
  w_port w = (c, network_replies k mcc mnc line ++ rest) →
  (∀ w', exchanged w w' ["AT+VMCCMNC?"; "AT$QCMIPGETP=0"] rest →
     Q (PStatic <$> carrier_names line) l w') →
  runs network_or_error Q E l w.
Proof.
  intros [] Hctx Hc Hport HQ. unfold network_replies in Hport. rewrite <-app_assoc in Hport.
  eapply runs_network_or_error; [|exact HQ].
  by apply (getNetworkInfo_unlisted k mcc mnc line c).
Qed.

Lemma runs_property_get key d n Q E l (w : W) :
  strlen d < n → property_within (P := P) key n → (∀ s p, Q s l (with_plat p w)) → runs (property_get key d n) Q E l w.
Proof.
  intros Hd Hn HQ. unfold property_get. apply runs_bind. unfold runs at 1, lift.
  destruct (pl_property_get key (w_plat w)) as [v p] eqn:Ev.
  assert (Hs : strlen match v with Some s => s | None => d end < n).
  { destruct v; [by eapply Hn|done]. }
  rewrite (proj2 (Z.ltb_lt _ _) Hs). apply runs_ret, HQ.
Qed.

Lemma resolve_static L ss : resolve_all L (PStatic <$> ss) = inl (Some <$> ss).
Proof. induction ss as [|s ss IH]; [done|]. cbn [fmap list_fmap resolve_all resolve]. by rewrite IH. Qed.

(** The answer to a request about the operator, and its length in bytes. *)
Definition operator_answer (r : Request) (line : string) : Payload (option string) * Z :=
  if bool_decide (r = RIL_REQUEST_OPERATOR) then (PayStrs (Some <$> carrier_names line), 12)
  else (PayStrs (Some <$> (carrier_names line ++ ["available"])), 16).

(** [requestOperator] reads a property into 20 bytes, whose value it does not use. *)
Definition name_shown_within (r : Request) : Prop :=
  r = RIL_REQUEST_OPERATOR → property_within (P := P) "ro.telephony.display_optname" 20.

Lemma operator_session r k mcc mnc line t c rest (w : W) :
  r = RIL_REQUEST_OPERATOR ∨ r = RIL_REQUEST_QUERY_AVAILABLE_NETWORKS →
  unlisted k mcc mnc line → ctx_ok (w_ctx w) → live_chan c →
  w_port w = (c, network_replies k mcc mnc line ++ rest) → name_shown_within r →
  ∃ w', dispatch (Some r) DNull 0 t no_locals w = Ok tt no_locals w' ∧
    answered_with w w' ["AT+VMCCMNC?"; "AT$QCMIPGETP=0"]
      [Complete t RIL_E_SUCCESS (operator_answer r line).1 (operator_answer r line).2] rest.
Proof.
  intros Hr Hu Hctx Hc Hport Hopt. apply runs_session. destruct Hr as [-> | ->]; cbn [dispatch dispatch_services].
  - unfold requestOperator. do 3 rstep.
    eapply runs_unlisted; [done..|]. intros w1 [(Ho & Hl & Hc1 & Hr1 & Hs1) _].
    rstep. apply runs_property_get; [done|by apply Hopt|]. intros s p.
    eapply runs_complete; [unfold resolve_payload; by rewrite resolve_static|].
    split; [done|]. split_and!; cbn; try done. by rewrite Ho, app_nil_r.
  - unfold requestQueryAvailableNetworks. do 3 rstep.
    eapply runs_unlisted; [done..|]. intros w1 [(Ho & Hl & Hc1 & Hr1 & Hs1) _].
    eapply runs_complete.
    { unfold resolve_payload. change [PStatic "available"] with (PStatic <$> ["available"%string]).
      rewrite <-fmap_app. by rewrite resolve_static. }
    split; [done|]. split_and!; cbn; try done. by rewrite Ho, app_nil_r.
Qed.

Lemma strlen_upper s : strlen (string_of_list_ascii (toupper <$> list_ascii_of_string s)) = strlen s.
Proof. unfold strlen. f_equal. induction s as [|c s IH]; simpl; [done|]. by f_equal. Qed.

Lemma upper_loop_eq s :
  strToUpper s (strlen s) = string_of_list_ascii (toupper <$> list_ascii_of_string s).
Proof. apply upper_loop_all. lia. Qed.

Lemma str_take_all n s : (String.length s ≤ n)%nat → str_take n s = s.
Proof.
  unfold str_take. revert n. induction s as [|c s IH]; intros [|n] Hn; simpl in *; try done; [lia|].
  f_equal. apply IH. lia.
Qed.

Lemma strncat_fits size dst src n :
  size = Z.of_nat n → strlen dst + strlen src < size → strncat size dst src n = Some (dst +:+ src).
Proof.
  intros -> Hn. unfold strncat. rewrite str_take_all by (unfold strlen in Hn; lia).
  rewrite strlen_app, (proj2 (Z.ltb_lt _ _)) by lia. done.
Qed.

(** The subscriber: the carrier's code and the MEID. *)
Definition imsi (line meid : string) : string :=
  default "" (carrier_names line !! 2%nat) +:+
  string_of_list_ascii (toupper <$> list_ascii_of_string (trim_0x meid)).

Lemma imsi_session k mcc mnc line meid t c rest (w : W) :
  unlisted k mcc mnc line → plain_field meid = true → strlen (trim_0x meid) < 58 →
  ctx_ok (w_ctx w) → live_chan c →
  w_port w = (c, network_replies k mcc mnc line ++ line_events [at_line "^MEID" [meid]; "OK"] ++ rest) →
  ∃ w', requestGetIMSI t no_locals w = Ok tt no_locals w' ∧
    answered_with w w' ["AT+VMCCMNC?"; "AT$QCMIPGETP=0"; "AT^MEID"]
      [Complete t RIL_E_SUCCESS (PayStr (Some (imsi line meid))) 4] rest.
Proof.
  intros Hu Hm Hlen Hctx Hc Hport. apply runs_session. unfold requestGetIMSI. do 3 rstep.
  eapply runs_unlisted; [done..|]. intros w1 [(Ho & Hl & Hc1 & Hr1 & Hs1) _].
  destruct (w_port w1) as [c1 evs] eqn:Hport1. cbn [fst snd] in *. subst evs. rstep.
  eapply runs_query; [exact Hport1|done|apply (strStartsWith_app "^MEID:")|reflexivity|].
  intros c2 [Hc2 Hs2]. cbv beta. do 12 rstep.
  destruct (carrier_names_fit line) as (long & short & code & E & _ & Hcode & Hlc).
  unfold imsi. rewrite E. cbn [fmap list_fmap lookup list_lookup default from_option r_block].
  do 5 rstep. rewrite upper_loop_eq. rstep.
  apply runs_read_heap; [apply is_live_here|]. rstep. apply runs_read_static. rstep.
  eapply runs_read_array; [exact Hcode|]. rstep. rewrite strncat_fits by (rewrite ?strlen_upper; lia).
  do 4 rstep. split; [done|]. unfold answered_with. rewrite Hport. cbn [fst snd] in Hs1 |- *.
  split_and!; try done.
  - cbn [w_out with_mem with_out after_send with_port]. unfold after_send. cbn [w_out with_port].
    by rewrite Ho, app_nil_r.
  - change (tty_sent (s_tty c2) = tty_sent (s_tty c) ++
      flat_map (λ cmd, chars cmd ++ [CR]) (["AT+VMCCMNC?"; "AT$QCMIPGETP=0"] ++ ["AT^MEID"])).
    rewrite Hport in Hs1. cbn [fst] in Hs1.
    rewrite Hs2, Hs1, flat_map_app, <-app_assoc. cbn [flat_map]. by rewrite app_nil_r.
Qed.

(** C28: the operator and the subscriber of a network that is not in the
    driver's table.  The modem is asked for the network and then for the
    carrier, and the request for the operator or for the available networks is answered with
    the names and the code that go with the carrier's reply; the request for the IMSI goes
    on to ask for the MEID and is answered with this code and the MEID, less a
    leading 0x and in upper case.  Each request is answered once and its
    responses are freed.  For the operator, the property
    ro.telephony.display_optname is assumed shorter than the 20 bytes it is
    read into (otherwise: [RilOverflow.long_property_overflow]).  The reply
    310,00 of the Known Issues of README.txt is such a network; it is not given
    the default code 310000 ([no_default_code]). *)
Theorem unlisted_network_session k mcc mnc line meid t rest (w : W) :
  unlisted k mcc mnc line → plain_field meid = true → strlen (trim_0x meid) < 58 →
  ctx_ok (w_ctx w) → live_chan (w_port w).1 →
  (w_port w).2 = network_replies k mcc mnc line ++ line_events [at_line "^MEID" [meid]; "OK"] ++ rest →
  sState (w_ctx w) ≠ RADIO_STATE_OFF →
  (∀ r, r = RIL_REQUEST_OPERATOR ∨ r = RIL_REQUEST_QUERY_AVAILABLE_NETWORKS →
     name_shown_within r →
     ∃ w', onRequest (req_code r) DNull 0 t no_locals w = Ok tt no_locals w' ∧
       answered_with w w' ["AT+VMCCMNC?"; "AT$QCMIPGETP=0"]
         [Complete t RIL_E_SUCCESS (operator_answer r line).1 (operator_answer r line).2]
         (line_events [at_line "^MEID" [meid]; "OK"] ++ rest)) ∧
  ∃ w', onRequest (req_code RIL_REQUEST_GET_IMSI) DNull 0 t no_locals w = Ok tt no_locals w' ∧
    answered_with w w' ["AT+VMCCMNC?"; "AT$QCMIPGETP=0"; "AT^MEID"]
      [Complete t RIL_E_SUCCESS (PayStr (Some (imsi line meid))) 4] rest.
Proof.
  intros Hu Hm Hlen Hctx Hc Hev Hs. destruct (w_port w) as [c evs] eqn:Hport.
  cbn [fst snd] in Hc, Hev. subst evs. split.
  - intros r Hr Hopt. rewrite onRequest_dispatch by done. by apply (operator_session r k mcc mnc line t c).
  - rewrite onRequest_dispatch by done. cbn [dispatch dispatch_services]. by apply (imsi_session k mcc mnc line meid t c).
Qed.
End sessions.

Lemma unlisted_network_session_witness :
  let lines := [at_line "+VMCCMNC" [pretty 0; "311"; "480"]; "OK"; "0,vzw3g.com,1"; "OK";
                at_line "^MEID" ["0xa10000009ef2b"]; "OK"] in
  let w := sim_world RADIO_STATE_SIM_READY lines sim_empty in
  (∀ r, r = RIL_REQUEST_OPERATOR ∨ r = RIL_REQUEST_QUERY_AVAILABLE_NETWORKS →
     ∃ w', onRequest (req_code r) DNull 0 9 no_locals w = Ok tt no_locals w' ∧
       answered_with w w' ["AT+VMCCMNC?"; "AT$QCMIPGETP=0"]
         [Complete 9 RIL_E_SUCCESS (operator_answer r "0,vzw3g.com,1").1 (operator_answer r "0,vzw3g.com,1").2]
         (line_events [at_line "^MEID" ["0xa10000009ef2b"]; "OK"] ++ [])) ∧
  ∃ w', onRequest (req_code RIL_REQUEST_GET_IMSI) DNull 0 9 no_locals w = Ok tt no_locals w' ∧
    answered_with w w' ["AT+VMCCMNC?"; "AT$QCMIPGETP=0"; "AT^MEID"]
      [Complete 9 RIL_E_SUCCESS (PayStr (Some (imsi "0,vzw3g.com,1" "0xa10000009ef2b"))) 4] [].
Proof.
  epose proof (unlisted_network_session 0 "311" "480" "0,vzw3g.com,1" "0xa10000009ef2b" 9 []
    (sim_world RADIO_STATE_SIM_READY
       [at_line "+VMCCMNC" [pretty 0; "311"; "480"]; "OK"; "0,vzw3g.com,1"; "OK";
        at_line "^MEID" ["0xa10000009ef2b"]; "OK"] sim_empty) _ _ _ _ _ _ _) as [Hop Himsi].
  { split; [|exact Himsi]. intros r Hr. apply Hop; [exact Hr|]. intros _. by apply sim_property_within. }
  Unshelve.
  - split; try reflexivity. vm_compute. split; discriminate.
  - reflexivity.
  - vm_compute. reflexivity.
  - apply sim_world_wf with (lines := []) (s := RADIO_STATE_SIM_READY) (p := sim_empty). constructor.
  - exact opened_live.
  - reflexivity.
  - discriminate.
Defined.

(** README.txt, Known Issues: the FW2770 returns +VMCCMNC:0,310,00, for which
    the default code 310000 is assigned.  The code that did it is compiled out
    ([BUILD_MCCMNC_WORKAROUND] is 0): 31000 is not in the table, and no reply of
    the carrier leads to 310000. *)
Example no_default_code :
  find_operator ("310" +:+ "00") = None ∧
  find_operator "310000" = Some ("Verizon Wireless", "VZW")%string ∧
  ∀ line, carrier_names line !! 2%nat ≠ Some "310000"%string.
Proof.
  split; [by vm_compute|]. split; [by vm_compute|].
  intros line. unfold carrier_names. by repeat case_match.
Qed.

(** What the IMSI is in this example. *)
Example imsi_value : imsi "0,vzw3g.com,1" "0xa10000009ef2b" = "310004A10000009EF2B"%string.
Proof. reflexivity. Qed.
