(* ===== verification/RilStartup.v ===== *)
(** * Start-up and activation, followed through the modem's replies

    What the driver says to a modem when a session begins, and how a module
    gets its phone number, in the style of RilSession. *)

From S2P Require Import Prelude CString AtTok AtReader AtChannel RilInfo RilBase RilLogic RilReader RilSim RilUtils RilAuto RilRqst RilTimer Ril RilMain RilSession RilModem.

Open Scope Z_scope.

(** ** Sequences of commands *)

(** [c'] after the commands [cmds] were sent on [c]. *)
Definition sent_all (c c' : Chan) (cmds : list string) : Prop :=
  live_chan c' ∧
  tty_sent (s_tty c') = tty_sent (s_tty c) ++ flat_map (λ cmd, chars cmd ++ [CR]) cmds.

Lemma sent_all_nil c : live_chan c → sent_all c c [].
Proof. intros Hc. split; [done|by rewrite app_nil_r]. Qed.

Lemma sent_all_one c c' cmd : sent_on c c' cmd → sent_all c c' [cmd].
Proof. intros [Hc Hs]. split; [done|]. by rewrite Hs, flat_map_concat_map; cbn; rewrite app_nil_r. Qed.

Lemma sent_all_app c1 c2 c3 l1 l2 : sent_all c1 c2 l1 → sent_all c2 c3 l2 → sent_all c1 c3 (l1 ++ l2).
Proof. intros [_ H1] [Hc H2]. split; [done|]. by rewrite H2, H1, flat_map_app, app_assoc. Qed.

(** The modem answers [n] commands with OK. *)
Definition oks (n : nat) : list WaitEvent := line_events (replicate n "OK").

Section sequences.
Context {P : Type} `{Platform P}.
Abbreviation W := (World ChanPort P).

Lemma runs_run_commands cmds c rest Q E l (w : W) :
  w_port w = (c, oks (length cmds) ++ rest) → live_chan c →
  (∀ c', sent_all c c' cmds → Q tt l (after_send c' rest w)) →
  runs (run_commands cmds) Q E l w.
Proof.
  revert c w Q. induction cmds as [|cmd cmds IH]; intros c w Q Hport Hc HQ.
  - replace w with (after_send c rest w) by (destruct w; cbn in *; by subst).
    apply HQ, sent_all_nil, Hc.
  - change (run_commands (cmd :: cmds)) with (_ ← at_command (S := ChanPort) (P := P) cmd; run_commands cmds).
    apply runs_bind. eapply runs_command; [exact Hport|done|]. intros c' Hs.
    apply (IH c' (after_send c' (oks (length cmds) ++ rest) w)); [done|apply Hs|].
    intros c2 Hs2. apply HQ. apply (sent_all_app _ c' _ [cmd]); [by apply sent_all_one|done].
Qed.

(** A command that is answered by OK, its response kept. *)
Lemma runs_plain x cmd c rest Q E l (w : W) :
  w_port w = (c, oks 1 ++ rest) → live_chan c →
  (∀ c', sent_on c c' cmd →
     Q 0 (MkLocals (upd (lv_resp l) x (Some (MkResp (w_next w) (MkResponse 1 (Some "OK") [])))) (lv_ptr l))
       (with_response c' rest w)) →
  runs (at_send_resp x KPlain cmd) Q E l w.
Proof.
  intros Hport Hc HQ.
  destruct (full_answered cmd NO_RESULT None true c [] "OK" rest) as (c' & Ec & Hs);
    [done|done|by repeat constructor|done|].
  assert (Es : at_send (S := ChanPort) (P := P) KPlain cmd true l w =
    Ok (0, Some (MkResponse 1 (Some "OK") [])) l (after_send c' rest w)).
  { unfold at_send. rewrite Hport. cbn [port_send chan_port chan_send]. unfold at_send_command.
    change (oks 1) with (line_events ([] ++ ["OK"])). by rewrite Ec. }
  specialize (HQ c' Hs). unfold at_send_resp. apply runs_bind. unfold runs at 1. rewrite Es. exact HQ.
Qed.

(** The handshake of a modem that misses the first [k] attempts. *)
Lemma runs_handshake k c rest Q E l (w : W) :
  w_port w = (c, replicate k WTimeout ++ oks 1 ++ rest) → (k < HANDSHAKE_RETRY_COUNT)%nat → live_chan c →
  (∀ c', sent_all c c' (replicate (Datatypes.S k) "ATE0Q0V1") → Q 0 l (after_send c' rest w)) →
  runs handshake Q E l w.
Proof.
  intros Hport Hk [Hr Hh] HQ.
  destruct (handshake_loop_retries k HANDSHAKE_RETRY_COUNT 0 c [] rest) as (c' & Ec & Hr' & Hs & Hh'); [done..|].
  unfold runs, handshake, mbind, M_bind. rewrite Hport. cbn [port_handshake chan_port fst snd].
  unfold at_handshake. change (oks 1) with (line_events ["OK"]). rewrite Ec. apply HQ.
  split; [split; [done|congruence]|]. rewrite Hs. f_equal. unfold ATE0Q0V1. clear.
  induction (Datatypes.S k) as [|n IH]; [done|]. cbn [replicate concat flat_map]. by rewrite IH.
Qed.

(** The radio goes off; a change is announced. *)
Lemma runs_radio_off Q E l (w : W) :
  s_closed (w_ctx w) ≤ 0 →
  Q tt l (with_out (w_out w ++ (if bool_decide (sState (w_ctx w) = RADIO_STATE_OFF) then []
                               else [Unsol RIL_UNSOL_RESPONSE_RADIO_STATE_CHANGED PayNull 0]))
            (with_ctx (set_sState RADIO_STATE_OFF (w_ctx w)) w)) →
  runs (setRadioState RADIO_STATE_OFF) Q E l w.
Proof.
  intros Hc HQ. unfold setRadioState, setRadioState_with, state_section, announce_state, runs, mbind, M_bind, get_ctx, when.
  rewrite (proj2 (Z.ltb_ge _ _) Hc), orb_false_r.
  destruct (decide (sState (w_ctx w) = RADIO_STATE_OFF)) as [Es|Es].
  - rewrite bool_decide_eq_true_2 by done. cbn [negb mret M_ret]. rewrite bool_decide_eq_true_2 in * by done.
    rewrite app_nil_r in HQ. cbn [negb mret M_ret].
    replace w with (with_out (w_out w) (with_ctx (set_sState RADIO_STATE_OFF (w_ctx w)) w)); [exact HQ|].
    destruct w as [[] ? ? ? ? ? ? ? ? ?]; cbn in *. by subst.
  - rewrite bool_decide_eq_false_2 by done. cbn [negb]. unfold put_ctx. cbn [with_ctx w_ctx sState set_sState mret M_ret].
    rewrite bool_decide_eq_false_2 in * by (intros ?; congruence). cbn [negb]. exact HQ.
Qed.

(** The query of the radio: whatever the modem reports, it counts as off. *)
Lemma runs_isRadioOn vpon c rest Q E l (w : W) :
  w_port w = (c, line_events [vpon; "OK"] ++ rest) → live_chan c →
  strStartsWith vpon "+VPON:" = true → isFinalResponse vpon = false →
  (∀ c' on, sent_on c c' "AT+VPON?" → on ≤ 0 →
     Q on l (with_mem (w_live w) (Datatypes.S (w_next w)) (after_send c' rest w))) →
  runs isRadioOn Q E l w.
Proof.
  intros Hport Hc Hp Hf HQ. unfold isRadioOn. do 3 rstep.
  eapply runs_query; [exact Hport|done..|]. intros c' Hs. cbv beta. do 9 rstep.
  specialize (HQ c'). unfold runs, line_start, line_bool, mbind, M_bind, check_live. cbn [ln_block ln_cur r_block].
  cbn [w_live with_mem after_send with_port]. rewrite is_live_here.
  assert (Hfree : ∀ l0 (w0 : W), lv_resp l0 "p_response" = Some (MkResp (w_next w) (MkResponse 1 (Some "OK") [vpon])) →
    w_live w0 = w_next w :: w_live w →
    at_response_free "p_response" l0 w0 = Ok tt l0 (with_mem (w_live w) (w_next w0) w0)).
  { intros l0 w0 Hl Hw. unfold at_response_free, get_resp, mbind, M_bind, free_block. rewrite Hl, Hw. cbn [r_block].
    by rewrite del_here. }
  destruct (tok_start (Some vpon)) as [cur|]; cbn [mret M_ret ln_block ln_cur]; [|unfold goto_error; by rewrite Hfree; [apply HQ|..]].
  cbn [w_live with_mem after_send with_port]. rewrite is_live_here.
  destruct (tok_bool cur) as [[d cur1]|]; cbn [mret M_ret goto_error ln_block ln_cur];
    [|unfold goto_error; by rewrite Hfree; [apply HQ|..]].
  cbn [w_live with_mem after_send with_port]. rewrite is_live_here.
  destruct (tok_bool cur1) as [[d1 cur2]|]; unfold goto_error; cbn [mret M_ret]; by rewrite Hfree; [apply HQ|..].
Qed.
End sequences.

(** ** The beginning of a session *)

(** The commands after the handshake. *)
Definition init_commands (c : Ctx) : list string :=
  ["ATE0Q0V1"; "ATS0=0"; "AT+CMEE=1"; "AT+CREG=1"; "AT+VMCCMNC=0"; "AT+ARSI=1,4"; "AT+CMGF=0"; "AT^MEID";
   "AT+VMDN?"; "AT^HDRCSQ"; "AT^SYSINFO"; "AT+CSNID?"] ++
  (if negb (gpsFifoEnable c =? 0) || negb (gpsTtyEnable c =? 0)
   then ["AT^GPSLOC=0"; "AT^GPSMODE=1"; "AT^GPSQOS=1,255"; "AT^GPSLOC=1,1"] else []).

Section startup.
Context {P : Type} `{Platform P, RilConsts, RilCodes}.
Abbreviation W := (World ChanPort P).

Lemma runs_atcommand_init c rest Q E l (w : W) :
  w_port w = (c, oks (length (init_commands (w_ctx w))) ++ rest) → live_chan c →
  (∀ c', sent_all c c' (init_commands (w_ctx w)) →
     Q tt l (with_mem (w_live w) (Datatypes.S (w_next w)) (after_send c' rest w))) →
  runs atcommand_init Q E l w.
Proof.
  intros Hport Hc HQ. set (gps := if negb (gpsFifoEnable (w_ctx w) =? 0) || negb (gpsTtyEnable (w_ctx w) =? 0)
    then ["AT^GPSLOC=0"; "AT^GPSMODE=1"; "AT^GPSQOS=1,255"; "AT^GPSLOC=1,1"] else []).
  assert (Hn : oks (length (init_commands (w_ctx w))) ++ rest =
               oks 3 ++ (oks 1 ++ (oks 8 ++ (oks (length gps) ++ rest)))) by (unfold init_commands; by fold gps).
  rewrite Hn in Hport. unfold atcommand_init. do 2 rstep.
  eapply runs_run_commands; [exact Hport|done|]. intros c1 Hs1. rstep.
  eapply runs_plain; [reflexivity|apply Hs1|]. intros c2 Hs2. cbv beta. do 3 rstep.
  eapply runs_run_commands; [reflexivity|apply Hs2|]. intros c3 Hs3. cbv beta. rstep. unfold get_ctx at 1, runs at 1.
  cbv beta. cbn [w_ctx with_mem after_send with_response with_port].
  assert (Hlast : ∀ c4, sent_all c3 c4 gps →
    Q tt l (with_mem (w_live w) (Datatypes.S (w_next w)) (after_send c4 rest w))).
  { intros c4 Hs4. apply HQ.
    change (init_commands (w_ctx w)) with (["ATE0Q0V1"; "ATS0=0"; "AT+CMEE=1"] ++ (["AT+CREG=1"] ++
      (["AT+VMCCMNC=0"; "AT+ARSI=1,4"; "AT+CMGF=0"; "AT^MEID"; "AT+VMDN?"; "AT^HDRCSQ"; "AT^SYSINFO"; "AT+CSNID?"]
       ++ gps))).
    apply (sent_all_app _ c1); [done|]. apply (sent_all_app _ c2); [by apply sent_all_one|].
    by apply (sent_all_app _ c3). }
  unfold when. subst gps. destruct (_ || _).
  - eapply runs_run_commands; [reflexivity|apply Hs3|exact Hlast].
  - apply (runs_ret _ _ E), (Hlast c3), sent_all_nil, Hs3.
Qed.

(** C12: what the driver says when a session begins.  With a modem that misses
    the first [k] handshakes, answers every command with OK and the query of
    the radio with any line: the callback sends the handshake [k + 1] times, the
    list of initialising commands - the GPS commands only when an output for
    its sentences is enabled - and the query, in this order; the radio is then
    off whatever the modem said of it, and a change to that state is announced;
    nothing else of the context changes and no memory is left. *)
Theorem startup_session (k : nat) (vpon : string) rest (w : W) :
  (k < HANDSHAKE_RETRY_COUNT)%nat → strStartsWith vpon "+VPON:" = true → isFinalResponse vpon = false →
  live_chan (w_port w).1 → s_closed (w_ctx w) ≤ 0 →
  (w_port w).2 = replicate k WTimeout ++ oks 1 ++ oks (length (init_commands (w_ctx w))) ++
                 line_events [vpon; "OK"] ++ rest →
  ∃ w', initializeCallback no_locals w = Ok tt no_locals w' ∧
    w_ctx w' = set_sState RADIO_STATE_OFF (w_ctx w) ∧
    answered_with w w' (replicate (Datatypes.S k) "ATE0Q0V1" ++ init_commands (w_ctx w) ++ ["AT+VPON?"])
      (if bool_decide (sState (w_ctx w) = RADIO_STATE_OFF) then []
       else [Unsol RIL_UNSOL_RESPONSE_RADIO_STATE_CHANGED PayNull 0]) rest.
Proof.
  intros Hk Hp Hf Hc Hcl Hev. destruct (w_port w) as [c evs] eqn:Hport. cbn [fst snd] in Hc, Hev. subst evs.
  apply (runs_session _ (λ w', w_ctx w' = set_sState RADIO_STATE_OFF (w_ctx w) ∧ _)).
  unfold initializeCallback. rstep. apply runs_radio_off; [done|]. rstep.
  eapply runs_handshake; [cbn [w_port with_out with_ctx]; exact Hport|done..|]. intros c1 Hs1. rstep.
  eapply runs_atcommand_init; [reflexivity|apply Hs1|]. intros c2 Hs2. rstep.
  eapply runs_isRadioOn; [reflexivity|apply Hs2|done..|]. intros c3 on Hs3 Hon.
  unfold when. rewrite (proj2 (Z.ltb_ge _ _) Hon). rstep. split; [done|]. split; [done|].
  assert (Hall : sent_all c c3 (replicate (Datatypes.S k) "ATE0Q0V1" ++ init_commands (w_ctx w) ++ ["AT+VPON?"])).
  { apply (sent_all_app _ c1); [done|]. apply (sent_all_app _ c2); [done|by apply sent_all_one]. }
  unfold answered_with. rewrite Hport. destruct Hall. by split_and!.
Qed.
End startup.

Lemma startup_session_witness :
  let w := fresh_world (sim_ctx RADIO_STATE_UNAVAILABLE)
    (opened_chan [], replicate 2 WTimeout ++ oks 13 ++ line_events ["+VPON:1,1"; "OK"])
    sim_empty in
  ∃ w', initializeCallback no_locals w = Ok tt no_locals w' ∧
    w_ctx w' = sim_ctx RADIO_STATE_OFF ∧
    answered_with w w' (["ATE0Q0V1"; "ATE0Q0V1"; "ATE0Q0V1"] ++
      ["ATE0Q0V1"; "ATS0=0"; "AT+CMEE=1"; "AT+CREG=1"; "AT+VMCCMNC=0"; "AT+ARSI=1,4"; "AT+CMGF=0"; "AT^MEID";
       "AT+VMDN?"; "AT^HDRCSQ"; "AT^SYSINFO"; "AT+CSNID?"] ++ ["AT+VPON?"])
      [Unsol RIL_UNSOL_RESPONSE_RADIO_STATE_CHANGED PayNull 0] [].
Proof.
  refine (startup_session 2 "+VPON:1,1" []
    (fresh_world (sim_ctx RADIO_STATE_UNAVAILABLE)
      (opened_chan [], replicate 2 WTimeout ++ oks 13 ++ line_events ["+VPON:1,1"; "OK"])
      sim_empty) _ _ _ _ _ _).
  - unfold HANDSHAKE_RETRY_COUNT. lia.
  - reflexivity.
  - reflexivity.
  - exact opened_live.
  - vm_compute. discriminate.
  - reflexivity.
Defined.
