(* ===== verification/RilOta.v ===== *)
(** * Over-the-air activation, followed through modem, reader thread and files

    A module without a phone number is activated by a call to its carrier; the
    messages of the call arrive on the reader thread while the main loop
    sleeps.  The whole of [activateHelper] on the real channel, from the bytes
    sent to the status file. *)

From S2P Require Import Prelude CString AtTok AtReader AtChannel RilInfo RilBase RilLogic RilReader RilSim RilUtils RilAuto RilRqst RilTimer Ril RilMain RilSession RilModem RilStartup.

Open Scope Z_scope.

Section ota.
Context {P : Type} `{Platform P}.
Abbreviation W := (World ChanPort P).
Abbreviation M := (M ChanPort P).

(** ** Messages that arrive during a sleep *)

(** The platform delivers the batches of lines in successive sleeps. *)
Fixpoint delivers (p : P) (batches : list (list string)) (p' : P) : Prop :=
  match batches with
  | [] => p' = p
  | b :: bs => ∃ p1, pl_sleep 1 p = ((λ m, CbUnsol m None) <$> b, p1) ∧ delivers p1 bs p'
  end.

(** The fifth message, counting from [n], arrives in the last batch. *)
Fixpoint fifth_in_last (n : Z) (batches : list (list string)) : bool :=
  match batches with
  | [] => false
  | b :: bs =>
      if n + Z.of_nat (length b) <? 5 then fifth_in_last (n + Z.of_nat (length b)) bs
      else match bs with [] => true | _ => false end
  end.

(** [onUnsolicited] on the messages of the call: they are counted and the last
    one is kept. *)
Definition ota_received (msgs : list string) (c : Ctx) : Ctx :=
  foldl (λ c m, set_otaMsg (strncpy m 64) (set_otaMsgCnt (otaMsgCnt c + 1) c)) c msgs.

Lemma onUnsolicited_ota m pdu l (w : W) :
  sState (w_ctx w) ≠ RADIO_STATE_UNAVAILABLE → strStartsWith m "^OTACMSG:" = true →
  onUnsolicited m pdu l w = Ok tt l (with_ctx (ota_received [m] (w_ctx w)) w).
Proof.
  intros Hs Hm. unfold onUnsolicited, mbind, M_bind, get_ctx. rewrite bool_decide_eq_false_2 by done.
  apply strStartsWith_spec in Hm as [r ->]. cbn -[strncpy]. by destruct r.
Qed.

Lemma ota_callbacks msgs l (w : W) :
  sState (w_ctx w) ≠ RADIO_STATE_UNAVAILABLE → Forall (λ m, strStartsWith m "^OTACMSG:" = true) msgs →
  run_callbacks ((λ m, CbUnsol m None) <$> msgs) l w = Ok tt l (with_ctx (ota_received msgs (w_ctx w)) w).
Proof.
  intros Hs Hm. revert w Hs. induction Hm as [|m msgs Hm _ IH]; intros w Hs; [by destruct w|].
  cbn [fmap list_fmap run_callbacks run_callback]. unfold mbind, M_bind.
  rewrite onUnsolicited_ota by done. by rewrite IH.
Qed.

Lemma ota_received_app a b c : ota_received (a ++ b) c = ota_received b (ota_received a c).
Proof. apply foldl_app. Qed.

Lemma ota_received_fields msgs c :
  let c' := ota_received msgs c in
  otaMsgCnt c' = otaMsgCnt c + Z.of_nat (length msgs) ∧
  otaMsg c' = match last msgs with Some m => strncpy m 64 | None => otaMsg c end ∧
  c' = set_otaMsg (otaMsg c') (set_otaMsgCnt (otaMsgCnt c') c).
Proof.
  induction msgs as [|m msgs IH] using rev_ind; cbv zeta in *.
  - simpl. split_and!; [lia|done|by destruct c].
  - rewrite ota_received_app, last_snoc. cbn [ota_received foldl]. destruct IH as (E1 & _ & E3).
    fold (ota_received msgs c). rewrite length_app. cbn [length otaMsgCnt otaMsg set_otaMsg set_otaMsgCnt].
    split_and!; [rewrite E1; lia|done|]. set (d := ota_received msgs c) in *. clearbody d.
    by rewrite E3.
Qed.

(** The wait ends with the batch that brings the fifth message. *)
Lemma runs_wait_ota batches n p' Q E l (w : W) :
  sState (w_ctx w) ≠ RADIO_STATE_UNAVAILABLE →
  Forall (Forall (λ m, strStartsWith m "^OTACMSG:" = true)) batches →
  (length batches ≤ Datatypes.S n)%nat → fifth_in_last (otaMsgCnt (w_ctx w)) batches = true →
  delivers (w_plat w) batches p' →
  Q tt l (with_plat p' (with_ctx (ota_received (concat batches) (w_ctx w)) w)) →
  runs (wait_ota n) Q E l w.
Proof.
  intros Hs Hm. revert n w Hs. induction Hm as [|b bs Hb _ IH]; intros n w Hs Hn Hf Hd HQ; [done|].
  destruct Hd as (p1 & Hsl & Hd). cbn [fifth_in_last] in Hf.
  assert (E1 : ∀ l, sleep 1 l w = Ok tt l (with_plat p1 (with_ctx (ota_received b (w_ctx w)) w))).
  { intros l0. unfold sleep, mbind, M_bind, lift. rewrite Hsl. by rewrite ota_callbacks. }
  destruct (ota_received_fields b (w_ctx w)) as (Ec & _ & Ew).
  assert (Es : sState (ota_received b (w_ctx w)) = sState (w_ctx w)) by (by rewrite Ew).
  destruct n as [|n]; cbn [wait_ota]; apply runs_bind; unfold runs at 1; rewrite E1; apply runs_bind;
    unfold runs at 1, get_ctx; cbn [w_ctx with_plat with_ctx]; rewrite Ec; destruct (_ <? 5) eqn:E5.
  - destruct bs; [done|simpl in Hn; lia].
  - destruct bs; [|done]. cbn in Hd. subst p'. cbn [concat] in HQ. rewrite app_nil_r in HQ. by apply runs_ret.
  - apply IH; cbn [w_ctx with_plat with_ctx w_plat]; rewrite ?Es, ?Ec; try done; [simpl in Hn; lia|].
    cbn [concat] in HQ. by rewrite ota_received_app in HQ.
  - destruct bs; [|done]. cbn in Hd. subst p'. cbn [concat] in HQ. rewrite app_nil_r in HQ. by apply runs_ret.
Qed.

(** ** The status file *)

(** The platform after the status file has been written, if it can be opened. *)
Definition status_written (file : string) (lines : list string) (p : P) : P :=
  let '(f, p1) := pl_call (SysFopenWrite file) p in
  if f <? 0 then p1
  else (pl_call (SysSystem ("chmod 666 " +:+ file)) (pl_call (SysWriteFile file lines) p1).2).2.

Lemma runs_status file s1 s2 s3 Q E l (w : W) :
  c_str (meid (w_ctx w)) = Some s1 → c_str (mdn (w_ctx w)) = Some s2 → c_str (carrier (w_ctx w)) = Some s3 →
  (∀ rc, Q rc l (with_plat (status_written file (status_lines s1 s2 s3 (w_ctx w)) (w_plat w)) w)) →
  runs (rilWriteStatus file) Q E l w.
Proof.
  intros H1 H2 H3 HQ. unfold rilWriteStatus, status_written in *. apply runs_bind. unfold runs at 1, sys, lift.
  destruct (pl_call (SysFopenWrite file) (w_plat w)) as [f p1]. destruct (f <? 0); [apply (HQ (-1))|].
  apply runs_bind, runs_get_ctx. cbn [with_plat w_ctx].
  apply runs_bind. eapply runs_read_array; [exact H1|].
  apply runs_bind. eapply runs_read_array; [exact H2|].
  apply runs_bind. eapply runs_read_array; [exact H3|].
  apply runs_bind. unfold runs at 1. cbn [with_plat w_plat].
  destruct (pl_call (SysWriteFile _ _) p1) as [rc2 p2]. cbn [snd] in HQ.
  apply runs_bind. unfold runs at 1. cbn [with_plat w_plat].
  destruct (pl_call (SysSystem _) p2) as [rc3 p3]. cbn [snd] in HQ. apply (HQ 0).
Qed.

(** ** The identity of the module, in upper case *)

Definition upper (s : string) : string := string_of_list_ascii (toupper <$> list_ascii_of_string s).

Lemma upper_length s : String.length (upper s) = String.length s.
Proof. unfold upper. by rewrite <-string_length_list, list_ascii_of_string_of_list_ascii, length_fmap, string_length_list. Qed.

Lemma upper_nul_free s : nul_free s → nul_free (upper s).
Proof.
  unfold nul_free, upper. rewrite list_ascii_of_string_of_list_ascii. intros Hs. apply Forall_fmap.
  eapply Forall_impl; [exact Hs|]. intros c Hc. by destruct c as [[] [] [] [] [] [] [] []].
Qed.

Lemma nul_free_c_str s n : nul_free s → (String.length s < n)%nat → c_str (strncpy s n) = Some s.
Proof. intros Hs Hl. apply c_str_strncpy; done. Qed.

Lemma array_to_upper_strncpy m n :
  (String.length m < n)%nat → array_to_upper m (strncpy m n) = strncpy (upper m) n.
Proof.
  intros Hl. unfold array_to_upper, strToUpper. rewrite upper_loop_all by lia. fold (upper m).
  unfold strncpy. rewrite !(take_ge (list_ascii_of_string _)) by (rewrite string_length_list, ?upper_length; lia).
  rewrite !string_length_list, upper_length. f_equal.
  rewrite <-(string_length_list m), drop_app_length. done.
Qed.
End ota.

(** ** Queries of the activation *)

Section queries.
Context {P : Type} `{Platform P}.
Abbreviation W := (World ChanPort P).
Abbreviation M := (M ChanPort P).

(** A query that passes its check. *)
Lemma runs_passed {A} x p cmd line (k : bool → M A) c rest Q E l (w : W) :
  w_port w = (c, line_events [line; "OK"] ++ rest) → live_chan c →
  strStartsWith line p = true → isFinalResponse line = false →
  (∀ c', sent_on c c' cmd →
     runs (k false) Q E (after_query x line l w) (with_response c' rest w)) →
  runs (err ← at_send_resp x (KSingle p) cmd; b ← failed_ne err x; k b) Q E l w.
Proof.
  intros Hport Hc Hp Hf HQ. apply runs_bind. eapply runs_query; [exact Hport|done..|]. intros c' Hs.
  apply runs_bind. eapply runs_failed_ne; [apply after_query_resp|apply is_live_here|].
  cbn [success r_val]. change (1 =? 0) with false. by apply HQ.
Qed.

(** The answer to the call is OK alone: an invalid response. *)
Lemma runs_no_line x p cmd c rest Q E l (w : W) :
  w_port w = (c, oks 1 ++ rest) → live_chan c →
  (∀ c', sent_on c c' cmd →
     Q AT_ERROR_INVALID_RESPONSE (MkLocals (upd (lv_resp l) x None) (lv_ptr l)) (after_send c' rest w)) →
  runs (at_send_resp x (KSingle p) cmd) Q E l w.
Proof.
  intros Hport Hc HQ.
  destruct (full_answered cmd SINGLELINE (Some p) true c [] "OK" rest) as (c' & Ec & Hs);
    [done|eauto|by repeat constructor|done|].
  assert (Es : at_send (S := ChanPort) (P := P) (KSingle p) cmd true l w =
    Ok (AT_ERROR_INVALID_RESPONSE, None) l (after_send c' rest w)).
  { unfold at_send. rewrite Hport. cbn [port_send chan_port chan_send]. unfold at_send_command_singleline.
    change (oks 1) with (line_events ([] ++ ["OK"])). by rewrite Ec. }
  specialize (HQ c' Hs). unfold at_send_resp. apply runs_bind. unfold runs at 1. rewrite Es. exact HQ.
Qed.

Lemma runs_ptr_add b s n s' Q E l (w : W) :
  is_live b (w_live w) = true → advance n s = Some s' → Q (PHeap b s') l w →
  runs (ptr_add (PHeap b s) n) Q E l w.
Proof.
  intros Hb Ha HQ. unfold ptr_add. apply runs_bind. apply runs_read_heap; [done|].
  rewrite Ha. by apply (runs_ret _ _ E).
Qed.

(** [strncpy(ctx->mdn, line+6, sizeof(ctx->mdn))] *)
Lemma runs_save_mdn x b line s Q E l (w : W) :
  lv_resp l x = Some (MkResp b (MkResponse 1 (Some "OK") [line])) → is_live b (w_live w) = true →
  advance 6 line = Some s → Q tt l (with_ctx (set_mdn (strncpy s 32) (w_ctx w)) w) →
  runs (save_mdn x) Q E l w.
Proof.
  intros Hx Hb Ha HQ. unfold save_mdn. apply runs_bind. eapply runs_deref; [exact Hx|exact Hb|].
  apply runs_bind. eapply runs_first_line; [exact Hx|exact Hb|reflexivity|]. cbn [ln_cur r_block].
  apply runs_bind. eapply runs_ptr_add; [done|exact Ha|]. apply runs_bind. by apply runs_read_heap.
Qed.
End queries.

(** ** The session *)

(** The modem's side. *)
Record Ota := MkOta {
  ota_meid : string;
  ota_old : string;       (** the number before the call, of zeros *)
  ota_carrier : string;   (** what AT$QCMIPGETP reports *)
  ota_new : string        (** the number after it *)
}.

Record ota_ok (o : Ota) : Prop := {
  oo_meid : nul_free (ota_meid o) ∧ (String.length (ota_meid o) < 32)%nat;
  oo_new : nul_free (ota_new o) ∧ (String.length (ota_new o) < 32)%nat;
  oo_old : strStartsWith (ota_old o) "000" = true;
  oo_carrier : isFinalResponse (ota_carrier o) = false ∧ strstr (ota_carrier o) "sprint" = false ∧
               strstr (ota_carrier o) "vzw" = true
}.

Definition ota_replies (o : Ota) : list WaitEvent :=
  line_events ["^MEID:" +:+ ota_meid o; "OK"] ++ line_events ["+VMDN:" +:+ ota_old o; "OK"] ++
  line_events [ota_carrier o; "OK"] ++ oks 1 ++ line_events ["+VMDN:" +:+ ota_new o; "OK"].

Definition ota_commands : list string := ["AT^MEID"; "AT+VMDN?"; "AT$QCMIPGETP=0"; "AT+CDV=*22899"; "AT+VMDN?"].

(** The context after it. *)
Definition ota_ctx (o : Ota) (msgs : list string) (c : Ctx) : Ctx :=
  set_mdn (strncpy (ota_new o) 32)
    (set_moduleIsActivated 1
      (ota_received msgs
        (set_otaMsgCnt 0
          (set_moduleActivateRetry (moduleActivateRetry c - 1)
            (set_meid (strncpy (upper (ota_meid o)) 32) c))))).

Lemma ota_ctx_strings o msgs c :
  ota_ok o →
  c_str (meid (ota_ctx o msgs c)) = Some (upper (ota_meid o)) ∧
  c_str (mdn (ota_ctx o msgs c)) = Some (ota_new o) ∧ carrier (ota_ctx o msgs c) = carrier c.
Proof.
  intros [[Hmn Hml] [Hnn Hnl] _ _]. unfold ota_ctx. cbn [meid mdn carrier set_mdn set_moduleIsActivated].
  destruct (ota_received_fields msgs (set_otaMsgCnt 0 (set_moduleActivateRetry (moduleActivateRetry c - 1)
    (set_meid (strncpy (upper (ota_meid o)) 32) c)))) as (_ & _ & ->).
  cbn [meid carrier set_otaMsg set_otaMsgCnt set_moduleActivateRetry set_meid].
  split_and!; [apply nul_free_c_str; [by apply upper_nul_free|by rewrite upper_length]|by apply nul_free_c_str|done].
Qed.

Section session.
Context {P : Type} `{Platform P}.
Abbreviation W := (World ChanPort P).
Abbreviation M := (M ChanPort P).

(** The messages of the call, and what the platform is after them. *)
Record ota_messages (p : P) (batches : list (list string)) (p' : P) : Prop := {
  om_lines : Forall (Forall (λ m, strStartsWith m "^OTACMSG:" = true)) batches;
  om_fifth : fifth_in_last 0 batches = true;
  om_time : (length batches ≤ 31)%nat;
  om_done : ∃ m, last (concat batches) = Some m ∧ nul_free m ∧ (String.length m < 64)%nat ∧
                 strstr m "MSG:8" = true;
  om_delivered : delivers p batches p'
}.

(** The call, and the number it brought. *)
Lemma runs_otasp_call o batches p' c rest Q E l (w : W) :
  ota_ok o → ota_messages (w_plat w) batches p' → sState (w_ctx w) ≠ RADIO_STATE_UNAVAILABLE →
  w_port w = (c, oks 1 ++ line_events ["+VMDN:" +:+ ota_new o; "OK"] ++ rest) → live_chan c →
  (∀ c', sent_all c c' ["AT+CDV=*22899"; "AT+VMDN?"] →
     Q 0 (after_query "verify" ("+VMDN:" +:+ ota_new o)
            (MkLocals (upd (lv_resp l) "otasp" None) (lv_ptr l)) w)
       (with_ctx (set_mdn (strncpy (ota_new o) 32) (set_moduleIsActivated 1
                    (ota_received (concat batches) (set_otaMsgCnt 0 (w_ctx w)))))
          (with_plat p' (with_response c' rest w)))) →
  runs otasp_call Q E l w.
Proof.
  intros Hok [Hl Hf Ht (m & Hm & Hmn & Hml & Hm8) Hd] Hs Hport Hc HQ. unfold otasp_call.
  apply runs_bind, runs_put_ctx. apply runs_bind.
  eapply runs_no_line; [exact Hport|done|]. intros c1 Hs1. apply runs_bind.
  eapply (runs_wait_ota batches); [exact Hs|done|done|exact Hf|exact Hd|].
  apply runs_bind, runs_get_ctx. apply runs_bind.
  cbn [w_ctx with_plat with_ctx after_send with_port].
  destruct (ota_received_fields (concat batches) (set_otaMsgCnt 0 (w_ctx w))) as (_ & Em & _).
  rewrite Hm in Em.
  eapply (runs_read_array _ m); [rewrite Em; by apply nul_free_c_str|]. rewrite Hm8.
  apply runs_bind, runs_put_ctx.
  eapply (runs_passed _ _ _ ("+VMDN:" +:+ ota_new o)); [reflexivity|apply Hs1|apply (strStartsWith_app "+VMDN:")|reflexivity|].
  intros c2 Hs2. cbv iota. apply runs_bind.
  eapply (runs_save_mdn _ (w_next w) ("+VMDN:" +:+ ota_new o)); [reflexivity|apply is_live_here|
    apply (advance_app "+VMDN:")|].
  apply (runs_ret _ _ E). apply (HQ c2).
  apply (sent_all_app _ c1 _ ["AT+CDV=*22899"]); by apply sent_all_one.
Qed.

(** The attempt is allowed while two retries are left. *)
Lemma runs_otasp_attempt o batches p' c rest Q E l (w : W) :
  ota_ok o → ota_messages (w_plat w) batches p' → sState (w_ctx w) ≠ RADIO_STATE_UNAVAILABLE →
  2 ≤ moduleActivateRetry (w_ctx w) ≤ MAX_AUTO_ACTIVATE_RETRY →
  w_port w = (c, oks 1 ++ line_events ["+VMDN:" +:+ ota_new o; "OK"] ++ rest) → live_chan c →
  (∀ c', sent_all c c' ["AT+CDV=*22899"; "AT+VMDN?"] →
     Q 0 (after_query "verify" ("+VMDN:" +:+ ota_new o)
            (MkLocals (upd (lv_resp l) "otasp" None) (lv_ptr l)) w)
       (with_ctx (set_mdn (strncpy (ota_new o) 32) (set_moduleIsActivated 1
                    (ota_received (concat batches) (set_otaMsgCnt 0
                       (set_moduleActivateRetry (moduleActivateRetry (w_ctx w) - 1) (w_ctx w))))))
          (with_plat p' (with_response c' rest w)))) →
  runs otasp_attempt Q E l w.
Proof.
  unfold MAX_AUTO_ACTIVATE_RETRY. intros Hok Hm Hs Hr Hport Hc HQ. unfold otasp_attempt.
  apply runs_bind, runs_get_ctx. rewrite (proj2 (Z.eqb_neq _ _)) by lia. cbn [negb when].
  rewrite int32_id by (unfold is_int32, INT_MIN, INT_MAX; lia).
  apply runs_bind, runs_put_ctx. apply runs_bind, runs_get_ctx.
  cbn [w_ctx with_ctx moduleActivateRetry set_moduleActivateRetry]. rewrite (proj2 (Z.eqb_neq _ _)) by lia.
  eapply runs_otasp_call; [exact Hok|exact Hm|done|exact Hport|done|exact HQ].
Qed.

(** The identity of the module is saved in upper case; [k] goes on. *)
Lemma runs_identity k o c rest Q E l (w : W) :
  ota_ok o → w_port w = (c, line_events ["^MEID:" +:+ ota_meid o; "OK"] ++ rest) → live_chan c →
  (∀ c', sent_on c c' "AT^MEID" →
     runs k Q E (after_query "meid" ("^MEID:" +:+ ota_meid o) l w)
       (with_ctx (set_meid (strncpy (upper (ota_meid o)) 32) (w_ctx w)) (with_response c' rest w))) →
  runs (
    err ← at_send_resp "meid" (KSingle "^MEID:") "AT^MEID";
    b ← failed_ne err "meid";
    if (b : bool) then mret (-1)
    else
      ln ← first_line "meid";
      p ← ptr_add (match ln_cur ln with Some s => PHeap (ln_block ln) s | None => PNull end) 6;
      s ← read_str p;
      put_ctx (set_meid (strncpy s 32));;
      c ← get_ctx;
      m ← read_array (meid c);
      put_ctx (set_meid (array_to_upper m (meid c)));;
      k) Q E l w.
Proof.
  intros [[Hmn Hml] _ _ _] Hport Hc HQ.
  eapply (runs_passed _ _ _ ("^MEID:" +:+ ota_meid o)); [exact Hport|done|apply (strStartsWith_app "^MEID:")|reflexivity|].
  intros c1 Hs1. cbv iota. do 2 rstep. apply runs_bind. cbn [ln_cur ln_block r_block].
  eapply runs_ptr_add; [apply is_live_here|apply (advance_app "^MEID:")|]. do 2 rstep.
  apply runs_bind, runs_put_ctx. apply runs_bind, runs_get_ctx.
  cbn [w_ctx with_ctx meid set_meid]. apply runs_bind.
  eapply (runs_read_array _ (ota_meid o)); [by apply nul_free_c_str|]. rewrite array_to_upper_strncpy by done.
  apply runs_bind. exact (HQ c1 Hs1).
Qed.

(** The carrier is one of those that are activated by a call. *)
Lemma runs_carrier o c rest Q E l (w : W) :
  ota_ok o → moduleAutoActivate (w_ctx w) ≠ 0 →
  w_port w = (c, line_events [ota_carrier o; "OK"] ++ rest) → live_chan c →
  (∀ c', sent_on c c' "AT$QCMIPGETP=0" →
     runs otasp_attempt Q E (after_query "carrier" (ota_carrier o) l w) (with_response c' rest w)) →
  runs activate_carrier Q E l w.
Proof.
  intros [_ _ _ (Hf & Hsp & Hvz)] Ha Hport Hc HQ. unfold activate_carrier.
  eapply (runs_passed _ _ _ (ota_carrier o)); [exact Hport|done|by destruct (ota_carrier o)|done|].
  intros c3 Hs3. cbv iota. do 2 rstep. cbn [ln_cur]. rewrite Hsp, Hvz.
  apply runs_bind, runs_get_ctx. rewrite (proj2 (Z.eqb_neq _ _)) by exact Ha. by apply HQ.
Qed.

(** C10: a module is activated over the air.  When the module has no number and
    its carrier is vzw, activation is enabled and retries are left: given a call
    whose messages - at least five within 31 sleeps, the last with MSG:8 -
    arrive while the driver sleeps, [activateHelper] sends the five commands and
    nothing else, returns 0 with one retry fewer, the state active, the identity
    of the module in upper case and the new number in the context and in the
    status file, and frees every response. *)
Theorem activation_session options (o : Ota) (batches : list (list string)) (p' : P) (s : string) rest (w : W) :
  ota_ok o → ota_messages (w_plat w) batches p' →
  sState (w_ctx w) ≠ RADIO_STATE_UNAVAILABLE → moduleAutoActivate (w_ctx w) ≠ 0 →
  2 ≤ moduleActivateRetry (w_ctx w) ≤ MAX_AUTO_ACTIVATE_RETRY →
  c_str (carrier (w_ctx w)) = Some s → live_chan (w_port w).1 → (w_port w).2 = ota_replies o ++ rest →
  ∃ w', activateHelper options no_locals w = Ok 0 no_locals w' ∧
    w_ctx w' = ota_ctx o (concat batches) (w_ctx w) ∧
    answered_with w w' ota_commands [] rest ∧
    w_plat w' = status_written RIL_STATUS_FILEPATH
      (status_lines (upper (ota_meid o)) (ota_new o) s (w_ctx w')) p'.
Proof.
  intros Hok Hmsgs Hs Ha Hr Hcar Hc Hev. destruct (w_port w) as [c evs] eqn:Hport. cbn [fst snd] in Hc, Hev. subst evs.
  enough (Hrun : runs (activateHelper options) (λ x l' w', x = 0 ∧ l' = no_locals ∧
    w_ctx w' = ota_ctx o (concat batches) (w_ctx w) ∧ answered_with w w' ota_commands [] rest ∧
    w_plat w' = status_written RIL_STATUS_FILEPATH
      (status_lines (upper (ota_meid o)) (ota_new o) s (w_ctx w')) p') (λ _ _, False) no_locals w).
  { unfold runs in Hrun. destruct (activateHelper options no_locals w) as [x l' w'| | |]; [|done..].
    destruct Hrun as (-> & -> & Hrun). by exists w'. }
  unfold ota_replies in Hport. rewrite <-!app_assoc in Hport.
  unfold activateHelper. apply runs_frame, runs_bind.
  apply (runs_identity _ o c _ _ _ _ _ Hok Hport Hc). intros c1 Hs1.
  eapply (runs_passed _ _ _ ("+VMDN:" +:+ ota_old o)); [reflexivity|apply Hs1|apply (strStartsWith_app "+VMDN:")|reflexivity|].
  intros c2 Hs2. cbv iota. do 2 rstep. apply runs_bind. cbn [ln_cur ln_block r_block].
  eapply runs_ptr_add; [apply is_live_here|apply (advance_app "+VMDN:")|]. do 2 rstep.
  rewrite (oo_old o Hok). eapply runs_carrier; [exact Hok|exact Ha|reflexivity|apply Hs2|]. intros c3 Hs3.
  eapply runs_otasp_attempt; [exact Hok|exact Hmsgs|exact Hs|exact Hr|reflexivity|apply Hs3|].
  intros c4 Hs4.
  do 3 (apply runs_bind; eapply runs_free_resp; [reflexivity|blocks; cbn [w_live w_next with_plat with_ctx]; del_block|]).
  apply runs_bind, runs_free_none; [reflexivity|]. apply runs_bind.
  eapply runs_free_resp; [reflexivity|blocks; cbn [w_live w_next with_plat with_ctx]; apply del_here|].
  set (w9 := with_mem _ _ _).
  assert (Ew : (w_ctx w9, w_out w9, w_live w9, w_port w9, w_plat w9) =
    (ota_ctx o (concat batches) (w_ctx w), w_out w, w_live w, (c4, rest), p')) by reflexivity.
  clearbody w9. injection Ew as Ectx Eout Elive Eport Eplat.
  destruct (ota_ctx_strings o (concat batches) (w_ctx w) Hok) as (Emeid & Emdn & Ecar).
  apply runs_bind, (runs_status _ (upper (ota_meid o)) (ota_new o) s); [by rewrite Ectx, ?Ecar..|].
  intros rc. rstep. unfold answered_with. cbn [w_ctx w_out w_live w_port w_plat with_plat].
  rewrite Hport, Eout, Elive, Eport, Eplat.
  assert (Hall : sent_all c c4 ota_commands).
  { apply (sent_all_app _ c1 _ ["AT^MEID"]); [by apply sent_all_one|].
    apply (sent_all_app _ c2 _ ["AT+VMDN?"]); [by apply sent_all_one|].
    apply (sent_all_app _ c3 _ ["AT$QCMIPGETP=0"]); [by apply sent_all_one|done]. }
  destruct Hall. split_and!; try done. by rewrite app_nil_r.
Qed.
End session.

(** ** An example *)

(** A platform whose sleeps deliver a script of lines, and that logs its calls. *)
Record Script := MkScript { sc_batches : list (list string); sc_log : list SysCall }.

#[local] Instance script_platform : Platform Script := {
  pl_call c p := (match c with SysFopenWrite _ => 3 | _ => 0 end, MkScript (sc_batches p) (sc_log p ++ [c]));
  pl_property_get _ p := (None, p);
  pl_read_file _ p := (None, p);
  pl_ptsname _ p := ("/dev/pts/1", p);
  pl_ifc_get_info _ p := (None, p);
  pl_proc p := (None, p);
  pl_sleep _ p := match sc_batches p with
                  | [] => ([], p)
                  | b :: bs => ((λ m, CbUnsol m None) <$> b, MkScript bs (sc_log p))
                  end
}.

Definition demo_ota : Ota := MkOta "a1000009ab" "0000007890" "npa vzw" "8585550100".

Definition demo_batches : list (list string) :=
  [["^OTACMSG:1"; "^OTACMSG:2"; "^OTACMSG:4"]; []; ["^OTACMSG:7"; "^OTACMSG:8"]].

Definition demo_ota_ctx : Ctx :=
  set_moduleAutoActivate 1 (set_moduleActivateRetry 6 (sim_ctx RADIO_STATE_SIM_READY)).

Lemma activation_session_witness :
  let w := fresh_world demo_ota_ctx (opened_chan [], ota_replies demo_ota) (MkScript demo_batches []) in
  ∃ w', activateHelper 0 no_locals w = Ok 0 no_locals w' ∧
    w_ctx w' = ota_ctx demo_ota (concat demo_batches) demo_ota_ctx ∧
    answered_with w w' ota_commands [] [] ∧
    w_plat w' = MkScript []
      [SysFopenWrite RIL_STATUS_FILEPATH;
       SysWriteFile RIL_STATUS_FILEPATH
         ["MEID=A1000009AB"; "MDN=8585550100"; "Carrier="; "ModuleIsActivated=Yes";
          "DataCallIsAutomatic=No"; "InDataCall=No"];
       SysSystem ("chmod 666 " +:+ RIL_STATUS_FILEPATH)].
Proof.
  destruct (activation_session 0 demo_ota demo_batches (MkScript [] []) "" []
    (fresh_world demo_ota_ctx (opened_chan [], ota_replies demo_ota) (MkScript demo_batches []))) as (w' & E & Ec & Ha & Ep).
  - split; [by vm_compute; repeat constructor|by vm_compute; repeat constructor|reflexivity|by split_and!].
  - split; [by repeat constructor|reflexivity|simpl; lia|
      exists "^OTACMSG:8"; by vm_compute; repeat constructor|].
    exists (MkScript (tail demo_batches) []). split; [reflexivity|].
    exists (MkScript (tail (tail demo_batches)) []). split; [reflexivity|].
    exists (MkScript [] []). by split.
  - discriminate.
  - discriminate.
  - split; discriminate.
  - reflexivity.
  - exact opened_live.
  - reflexivity.
  - exists w'. split; [exact E|]. split; [exact Ec|]. split; [exact Ha|]. etrans; [exact Ep|]. rewrite Ec. reflexivity.
Defined.
