(* ===== verification/RilPpp.v ===== *)
(** * Data calls, followed through pppd and its interface

    The requests that set up, list and end a data call, on the real channel and
    for every platform: what it must show is a predicate on its successive
    states, so that the calls made to it, and the seconds slept, are exactly
    those of the predicate. *)

From S2P Require Import Prelude CString AtTok AtReader AtChannel RilInfo RilBase RilLogic RilReader RilSim RilUtils RilAuto RilRqst RilData RilTimer Ril RilSession RilModem RilStartup.

Open Scope Z_scope.

(** What a look at the interface shows. *)
Inductive Look := NoInterface | LinkDown | LinkUp (addr : Z).

Definition is_up (k : Look) : bool := match k with LinkUp _ => true | _ => false end.

Section platform.
Context {P : Type} `{Platform P}.

(** [shows p looks p']: the interface is looked at as often as [looks] is long,
    with these results; only an interface that exists and is down is waited
    for, one second. *)
Fixpoint shows (p : P) (looks : list Look) (p' : P) : Prop :=
  match looks with
  | [] => p' = p
  | k :: looks' =>
      ∃ info p1, pl_ifc_get_info "ppp0" p = (info, p1) ∧
        match k, info with
        | NoInterface, None => shows p1 looks' p'
        | LinkDown, Some (_, _, flags) =>
            Z.testbit flags 0 = false ∧ ∃ p2, pl_sleep 1 p1 = ([], p2) ∧ shows p2 looks' p'
        | LinkUp addr, Some (a, _, flags) => Z.testbit flags 0 = true ∧ a = addr ∧ shows p1 looks' p'
        | _, _ => False
        end
  end.

(** The process that is stopped: the first whose status names it. *)
Definition is_process (name : string) (e : string * option string) : bool :=
  negb (String.eqb e.1 "..") && isdigit (peek e.1) &&
  match e.2 with Some b => bool_decide (second_word b = Some name) | None => false end.

Definition process_id (name : string) (es : list (string * option string)) : Z :=
  match List.find (is_process name) es with Some e => strtol_0 e.1 | None => -1 end.

Definition readable (es : list (string * option string)) : Prop :=
  Forall (λ e, match e.2 with Some b => second_word b ≠ None | None => True end) es.

(** What a call has that is set up. *)
Record Call := MkCall {
  cl_dev : string; cl_addr : Z; cl_gway : Z; cl_dns1 : string; cl_dns2 : string
}.

Definition call_ok (d : Call) : Prop :=
  strlen (cl_dev d) ≤ 64 ∧ strlen (cl_dns1 d) < 64 ∧ strlen (cl_dns2 d) < 63.

(** pppd is started for the device. *)
Definition started (d : Call) (p p' : P) : Prop :=
  ∃ rc p1, pl_call (SysSystem ("/system/bin/pppd call " +:+ cl_dev d)) p = (rc, p1) ∧ 0 ≤ rc ∧
    pl_call SysIfcInit p1 = (0, p').

(** The link has come up. *)
Definition comes_up (d : Call) (looks : list Look) (p p' : P) : Prop :=
  ∃ p1 p2 p3 p4 o1 o2,
    started d p p1 ∧ shows p1 (looks ++ [LinkUp (cl_addr d)]) p2 ∧
    pl_call (SysIfcGetDefaultRoute "ppp0") p2 = (cl_gway d, p3) ∧
    pl_property_get "net.dns1" p3 = (o1, p4) ∧ default "0" o1 = cl_dns1 d ∧
    pl_property_get "net.dns2" p4 = (o2, p') ∧ default "0" o2 = cl_dns2 d.

(** The call is ended: pppd is stopped if it runs. *)
Definition hangs_up (es : list (string * option string)) (p p' : P) : Prop :=
  let pid := process_id "pppd" es in
  ∃ p1 p2, pl_sleep 2 p = ([], p1) ∧ pl_proc p1 = (Some es, p2) ∧
    pl_sleep 2 (if 0 <? pid then (pl_call (SysKill pid) p2).2 else p2) = ([], p').
End platform.

Section calls.
Context {P : Type} `{Platform P, RilConsts, RilCodes}.
Abbreviation W := (World ChanPort P).
Abbreviation M := (M ChanPort P).

Lemma runs_call c z p Q E l (w : W) :
  pl_call c (w_plat w) = (z, p) → Q z l (with_plat p w) → runs (sys c) Q E l w.
Proof. intros Hc HQ. unfold runs, sys, lift. by rewrite Hc. Qed.

Lemma runs_lift {A} (f : P → A * P) x p Q E l (w : W) :
  f (w_plat w) = (x, p) → Q x l (with_plat p w) → runs (lift f) Q E l w.
Proof. intros Hf HQ. unfold runs, lift. by rewrite Hf. Qed.

(** A sleep in which nothing arrives. *)
Lemma runs_sleep_quiet n p Q E l (w : W) :
  pl_sleep n (w_plat w) = ([], p) → Q tt l (with_plat p w) → runs (sleep n) Q E l w.
Proof. intros Hs HQ. unfold sleep. apply runs_bind. by eapply runs_lift. Qed.

Lemma runs_property key n s o p Q E l (w : W) :
  pl_property_get key (w_plat w) = (o, p) → default "0" o = s → strlen s < n →
  Q s l (with_plat p w) → runs (property_get key "0" n) Q E l w.
Proof.
  intros Ho Hd Hs HQ. unfold property_get. apply runs_bind. eapply runs_lift; [exact Ho|]. cbv beta zeta.
  replace (match o with Some s0 => s0 | None => "0" end) with s by (by destruct o).
  by rewrite (proj2 (Z.ltb_lt _ _)).
Qed.

(** The looks before the one that finds the link up. *)
Lemma runs_looks looks n tl p' Q E l (w : W) :
  forallb (λ k, negb (is_up k)) looks = true → shows (w_plat w) (looks ++ tl) p' →
  (∀ p1, shows p1 tl p' → runs (poll_loop "ppp0" n) Q E l (with_plat p1 w)) →
  runs (poll_loop "ppp0" (length looks + n)) Q E l w.
Proof.
  revert w. induction looks as [|k looks IH]; intros w Hup Hs HQ.
  - specialize (HQ (w_plat w) Hs). by destruct w.
  - cbn [forallb] in Hup. apply andb_true_iff in Hup as [Hk Hup]. destruct Hs as (info & p1 & Hi & Hs).
    cbn [length Nat.add poll_loop]. apply runs_bind. eapply runs_lift; [exact Hi|]. fold (shows (P := P)) in Hs.
    destruct k, info as [[[a m] flags]|]; try done.
    + apply IH; [done|exact Hs|]. intros p2 Hp. by apply HQ.
    + destruct Hs as (-> & p2 & Hsl & Hs). apply runs_bind. eapply runs_sleep_quiet; [exact Hsl|].
      apply IH; [done|exact Hs|]. intros p3 Hp. by apply HQ.
Qed.

(** The link is found up within 30 looks, or not. *)
Lemma runs_poll_up looks addr gway p2 p3 Q E l (w : W) p1 :
  pl_call SysIfcInit (w_plat w) = (0, p1) → forallb (λ k, negb (is_up k)) looks = true →
  (length looks < 30)%nat → shows p1 (looks ++ [LinkUp addr]) p2 →
  pl_call (SysIfcGetDefaultRoute "ppp0") p2 = (gway, p3) →
  Q (Some (addr, gway)) l (with_plat p3 w) →
  runs (poll_ppp_linkstate "ppp0" 30) Q E l w.
Proof.
  intros Hi Hup Hlen Hs Hr HQ. unfold poll_ppp_linkstate. apply runs_bind.
  eapply runs_call; [exact Hi|]. cbn [Z.eqb negb].
  replace 30%nat with (length looks + (30 - length looks))%nat by lia.
  eapply runs_looks; [done|exact Hs|]. intros p4 (info & p5 & Hinfo & Hp).
  destruct (30 - length looks)%nat as [|n] eqn:En; [lia|]. cbn [poll_loop].
  apply runs_bind. eapply runs_lift; [exact Hinfo|]. destruct info as [[[a m] flags]|]; [|done].
  destruct Hp as (-> & -> & ->). apply runs_bind. eapply runs_call; [exact Hr|]. by apply (runs_ret _ _ E).
Qed.

Lemma runs_poll_down looks p1 p2 Q E l (w : W) :
  pl_call SysIfcInit (w_plat w) = (0, p1) → forallb (λ k, negb (is_up k)) looks = true →
  length looks = 30%nat → shows p1 looks p2 → Q None l (with_plat p2 w) →
  runs (poll_ppp_linkstate "ppp0" 30) Q E l w.
Proof.
  intros Hi Hup Hlen Hs HQ. unfold poll_ppp_linkstate. apply runs_bind.
  eapply runs_call; [exact Hi|]. cbn [Z.eqb negb]. replace 30%nat with (length looks + 0)%nat by lia.
  rewrite <-(app_nil_r looks) in Hs. eapply runs_looks; [done|exact Hs|].
  intros p3 ->. by apply (runs_ret _ _ E).
Qed.

Lemma runs_start_pppd d p' Q E l (w : W) :
  s_data_devname (w_ctx w) = Some (cl_dev d) → strlen (cl_dev d) ≤ 64 → started d (w_plat w) p' →
  (∀ rc p1, 0 ≤ rc → pl_call SysIfcInit p1 = (0, p') → Q rc l (with_plat p1 w)) →
  runs start_pppd Q E l w.
Proof.
  intros Hdev Hlen (rc & p1 & Hs & Hrc & Hi) HQ. unfold start_pppd. apply runs_bind, runs_get_ctx.
  rewrite Hdev. apply runs_bind, (runs_ret _ _ E), runs_bind, runs_sprintf.
  { rewrite strlen_app. change (strlen "/system/bin/pppd call ") with 22. lia. }
  eapply runs_call; [exact Hs|]. by apply HQ.
Qed.

Lemma runs_find_pid name es Q E l (w : W) :
  readable es → Q (process_id name es) l w → runs (find_pid name es) Q E l w.
Proof.
  unfold process_id. intros Hes HQ. induction Hes as [|[d_name status] es He _ IH]; [done|].
  cbn [find_pid List.find] in *. unfold is_process at 1 in HQ. cbn [fst snd] in *.
  destruct (String.eqb d_name ".."); [by apply IH|]. destruct (isdigit _); [|by apply IH].
  destruct status as [b|]; [|by apply IH]. destruct (second_word b) as [name'|]; [|done].
  destruct (String.eqb_spec name' name) as [->|Hn]; cbn [negb andb] in HQ.
  - by rewrite bool_decide_eq_true_2 in HQ.
  - rewrite bool_decide_eq_false_2 in HQ by congruence. by apply IH.
Qed.

Lemma runs_killPppd es p2 Q E l (w : W) :
  pl_proc (w_plat w) = (Some es, p2) → readable es →
  Q tt l (with_plat (if 0 <? process_id "pppd" es then (pl_call (SysKill (process_id "pppd" es)) p2).2 else p2) w) →
  runs killPppd Q E l w.
Proof.
  intros Hp Hes HQ. unfold killPppd, findPidByName. apply runs_bind, runs_bind.
  eapply runs_lift; [exact Hp|]. apply runs_find_pid; [done|]. unfold when.
  destruct (0 <? _); [|by apply (runs_ret _ _ E)]. apply runs_bind. unfold sys.
  eapply runs_lift; [apply surjective_pairing|]. by apply (runs_ret _ _ E).
Qed.

(** ** The requests *)

(** The context while the call is up, and the answer to its setup. *)
Definition in_call (d : Call) (c : Ctx) : Ctx :=
  set_dataCallGateway (inet_ntop (cl_gway d))
    (set_dataCallLocalIP (inet_ntop (cl_addr d)) (set_inDataCall DATA_STATE_CONNECTED c)).

Definition setup_answer (d : Call) : Payload (option string) :=
  PayStrs [Some "1"; Some "ppp0"; Some (inet_ntop (cl_addr d)); Some (cl_dns1 d +:+ " " +:+ cl_dns2 d);
           Some (inet_ntop (cl_gway d))]%string.

Lemma runs_setup d looks p' t Q E l (w : W) :
  call_ok d → s_data_devname (w_ctx w) = Some (cl_dev d) →
  forallb (λ k, negb (is_up k)) looks = true → (length looks < 30)%nat → comes_up d looks (w_plat w) p' →
  Q tt l (with_out (w_out w ++ [Complete t RIL_E_SUCCESS (setup_answer d) 20])
            (with_ctx (in_call d (w_ctx w)) (with_plat p' w))) →
  runs (requestSetupDataCallEVDO t) Q E l w.
Proof.
  intros (Hdl & Hd1 & Hd2) Hdev Hup Hlen (p1 & p2 & p3 & p4 & o1 & o2 & Hst & Hs & Hr & Ho1 & E1 & Ho2 & E2) HQ.
  unfold requestSetupDataCallEVDO. apply runs_frame, runs_on_error, runs_bind.
  eapply runs_start_pppd; [exact Hdev|done|exact Hst|]. intros rc p0 Hrc Hi.
  rewrite (proj2 (Z.ltb_ge _ _)) by done. apply runs_bind.
  eapply runs_poll_up; [exact Hi|done|exact Hlen|exact Hs|exact Hr|].
  apply runs_bind, runs_put_ctx, runs_bind.
  eapply runs_property; [exact Ho1|exact E1|done|]. apply runs_bind.
  eapply runs_property; [exact Ho2|exact E2|lia|]. apply runs_bind, runs_sprintf.
  { rewrite !strlen_app. change (strlen " ") with 1. lia. }
  apply runs_bind, runs_get_ctx. eapply runs_complete; [reflexivity|]. exact HQ.
Qed.

(** The list of calls, answered twice. *)
Lemma runs_call_list t Q E l (w : W) :
  inDataCall (w_ctx w) ≠ 0 →
  Q tt l (with_out (w_out w ++
     [Complete t RIL_E_SUCCESS
        (PayDataCall 1 2 (Some "PPP") (Some "internet") (Some (dataCallLocalIP (w_ctx w))))
        sizeof_RIL_Data_Call_Response;
      Complete t RIL_E_GENERIC_FAILURE PayNull 0]) w) →
  runs (requestDataCallList t) Q E l w.
Proof.
  intros Hc HQ. unfold requestDataCallList. apply runs_bind, runs_get_ctx.
  rewrite (proj2 (Z.eqb_neq _ _)) by done. apply runs_bind. eapply runs_complete; [reflexivity|].
  eapply runs_complete; [reflexivity|]. cbn [w_out with_out]. by rewrite <-app_assoc.
Qed.

Lemma runs_deactivate es c p' s ss t rest Q E l (w : W) :
  w_port w = (c, oks 1 ++ rest) → live_chan c → readable es → hangs_up es (w_plat w) p' →
  (∀ c', sent_on c c' "ATH" →
     Q tt l (with_out (w_out w ++ [Complete t RIL_E_SUCCESS PayNull 0;
                                   Unsol RIL_UNSOL_RESPONSE_NETWORK_STATE_CHANGED PayNull 0])
       (with_ctx (set_inDataCall DATA_STATE_DISCONNECTED (w_ctx w)) (with_plat p' (after_send c' rest w))))) →
  runs (requestDeactivateDataCallEVDO (DStrings (s :: ss)) t) Q E l w.
Proof.
  intros Hport Hc Hes (p1 & p2 & Hs1 & Hp & Hs2) HQ. unfold requestDeactivateDataCallEVDO.
  change (data_str (DStrings (s :: ss)) 0) with (mret (M := M) s).
  apply runs_bind, (runs_ret _ _ E), runs_bind. eapply runs_command; [exact Hport|done|]. intros c' Hsent.
  apply runs_bind. eapply runs_sleep_quiet; [exact Hs1|]. apply runs_bind.
  eapply runs_killPppd; [exact Hp|done|]. apply runs_bind, runs_put_ctx, runs_bind.
  eapply runs_complete; [reflexivity|]. apply runs_bind. eapply runs_sleep_quiet; [exact Hs2|].
  eapply runs_unsol; [reflexivity|]. cbn [w_out with_out with_plat with_ctx after_send with_port].
  specialize (HQ c' Hsent). by rewrite <-app_assoc.
Qed.

(** A link that does not come up: one failure, and pppd goes on. *)
Lemma setup_fails d looks p1 p' t (w : W) :
  s_data_devname (w_ctx w) = Some (cl_dev d) → strlen (cl_dev d) ≤ 64 →
  forallb (λ k, negb (is_up k)) looks = true → length looks = 30%nat →
  started d (w_plat w) p1 → shows p1 looks p' →
  requestSetupDataCallEVDO t no_locals w =
  Ok tt no_locals (with_out (w_out w ++ [Complete t RIL_E_GENERIC_FAILURE PayNull 0]) (with_plat p' w)).
Proof.
  intros Hdev Hlen Hup Hn Hst Hs.
  assert (Hr : runs (requestSetupDataCallEVDO t) (λ _ l' w', l' = no_locals ∧
    w' = with_out (w_out w ++ [Complete t RIL_E_GENERIC_FAILURE PayNull 0]) (with_plat p' w)) (λ _ _, False) no_locals w).
  { unfold requestSetupDataCallEVDO. apply runs_frame, runs_on_error, runs_bind.
    eapply runs_start_pppd; [exact Hdev|done|exact Hst|]. intros rc p0 Hrc Hi.
    rewrite (proj2 (Z.ltb_ge _ _)) by done. apply runs_bind.
    eapply runs_poll_down; [exact Hi|done|exact Hn|exact Hs|].
    eapply runs_complete; [reflexivity|]. by split. }
  unfold runs in Hr. destruct (requestSetupDataCallEVDO t no_locals w) as [[] l' w'| | |]; [|done..].
  by destruct Hr as [-> ->].
Qed.

Lemma runs_dispatch r data datalen t Q E l (w : W) :
  sState (w_ctx w) ≠ RADIO_STATE_OFF →
  runs (dispatch (Some r) data datalen t) Q E l w → runs (onRequest (req_code r) data datalen t) Q E l w.
Proof. intros Hs. unfold runs. by rewrite onRequest_dispatch. Qed.

(** C13: the life of a data call.  The framework asks for a call, for the list
    of calls and for the end of the call.  When pppd starts and its interface
    is up at one of the first thirty looks: the setup is answered with the
    addresses of the interface and the name servers, the list with the call
    (and, wrongly, with a failure after it), the end with success and a change
    of the network; the modem is sent ATH and nothing else; the platform went
    through exactly the states of [comes_up] and [hangs_up] - so an interface
    that is missing is looked at again without a pause, and the process that is
    stopped is the first one named pppd - and the call is then over, its
    addresses still in the context. *)
Theorem data_call_session d looks es p1 p2 data1 len1 t1 data2 len2 t2 s ss len3 t3 rest (w : W) :
  let ip := inet_ntop (cl_addr d) in
  call_ok d → s_data_devname (w_ctx w) = Some (cl_dev d) →
  forallb (λ k, negb (is_up k)) looks = true → (length looks < 30)%nat →
  comes_up d looks (w_plat w) p1 → readable es → hangs_up es p1 p2 →
  sState (w_ctx w) ≠ RADIO_STATE_OFF → live_chan (w_port w).1 → (w_port w).2 = oks 1 ++ rest →
  ∃ w', (onRequest (req_code RIL_REQUEST_SETUP_DATA_CALL) data1 len1 t1;;
         onRequest (req_code RIL_REQUEST_DATA_CALL_LIST) data2 len2 t2;;
         onRequest (req_code RIL_REQUEST_DEACTIVATE_DATA_CALL) (DStrings (s :: ss)) len3 t3)
          no_locals w = Ok tt no_locals w' ∧
    w_ctx w' = set_inDataCall DATA_STATE_DISCONNECTED (in_call d (w_ctx w)) ∧ w_plat w' = p2 ∧
    answered_with w w' ["ATH"]
      [Complete t1 RIL_E_SUCCESS
         (PayStrs [Some "1"; Some "ppp0"; Some ip; Some (cl_dns1 d +:+ " " +:+ cl_dns2 d);
                   Some (inet_ntop (cl_gway d))]%string) 20;
       Complete t2 RIL_E_SUCCESS (PayDataCall 1 2 (Some "PPP") (Some "internet") (Some ip))
         sizeof_RIL_Data_Call_Response;
       Complete t2 RIL_E_GENERIC_FAILURE PayNull 0;
       Complete t3 RIL_E_SUCCESS PayNull 0;
       Unsol RIL_UNSOL_RESPONSE_NETWORK_STATE_CHANGED PayNull 0] rest.
Proof.
  intros ip Hok Hdev Hup Hlen Hcome Hes Hhang Hs Hc Hev.
  destruct (w_port w) as [c evs] eqn:Hport. cbn [fst snd] in Hc, Hev. subst evs.
  apply (runs_session _ (λ w', w_ctx w' = _ ∧ w_plat w' = p2 ∧ _)).
  apply runs_bind, runs_dispatch; [done|].
  change (dispatch (Some RIL_REQUEST_SETUP_DATA_CALL) data1 len1 t1) with (requestSetupDataCallEVDO t1 : M unit).
  eapply runs_setup; [exact Hok|exact Hdev|done|exact Hlen|exact Hcome|].
  apply runs_bind, runs_dispatch; [done|].
  change (dispatch (Some RIL_REQUEST_DATA_CALL_LIST) data2 len2 t2) with (requestDataCallList t2 : M unit).
  eapply runs_call_list; [done|]. apply runs_dispatch; [done|].
  change (dispatch (Some RIL_REQUEST_DEACTIVATE_DATA_CALL) (DStrings (s :: ss)) len3 t3)
    with (requestDeactivateDataCallEVDO (DStrings (s :: ss)) t3 : M unit).
  eapply runs_deactivate; [exact Hport|done|exact Hes|exact Hhang|]. intros c' Hsent.
  split; [done|]. split; [done|]. split; [done|]. unfold answered_with. rewrite Hport.
  apply sent_all_one in Hsent as [Hc' Hsent]. split_and!; try done.
  cbn [w_out with_out with_plat with_ctx after_send with_port]. by rewrite <-!app_assoc.
Qed.
End calls.

(** ** An example *)

(** A platform that logs its calls and its sleeps, whose interface shows a
    script of looks. *)
Record PppSim := MkPppSim { ps_looks : list (option (Z * Z * Z)); ps_log : list (SysCall + Z) }.

Definition ps_step (e : SysCall + Z) (p : PppSim) : PppSim := MkPppSim (ps_looks p) (ps_log p ++ [e]).

#[local] Instance ppp_platform : Platform PppSim := {
  pl_call c p := (match c with SysIfcGetDefaultRoute _ => 16777226 | _ => 0 end, ps_step (inl c) p);
  pl_property_get key p := (if String.eqb key "net.dns1" then Some "8.8.8.8" else None, p);
  pl_read_file _ p := (None, p);
  pl_ptsname _ p := ("/dev/pts/1", p);
  pl_ifc_get_info _ p := match ps_looks p with
                         | [] => (None, p)
                         | k :: ks => (k, MkPppSim ks (ps_log p))
                         end;
  pl_proc p := (Some [("1", Some "Name: init"); ("self", None); ("321", Some "Name: pppd")], p);
  pl_sleep n p := ([], ps_step (inr n) p)
}.

Definition demo_call : Call := MkCall "ttyUSB0" 50331658 16777226 "8.8.8.8" "0".

(** The interface appears at the third look and is up at the fourth. *)
Definition demo_ppp : PppSim := MkPppSim [None; None; Some (0, 0, 0); Some (50331658, 0, 1)] [].

Lemma data_call_session_witness :
  let w := fresh_world (sim_ctx RADIO_STATE_SIM_READY) (opened_chan [], oks 1) demo_ppp in
  ∃ w', (onRequest (req_code RIL_REQUEST_SETUP_DATA_CALL) DNull 0 1;;
         onRequest (req_code RIL_REQUEST_DATA_CALL_LIST) DNull 0 2;;
         onRequest (req_code RIL_REQUEST_DEACTIVATE_DATA_CALL) (DStrings [Some "1"%string]) 4 3)
          no_locals w = Ok tt no_locals w' ∧
    w_ctx w' = set_inDataCall DATA_STATE_DISCONNECTED (in_call demo_call (sim_ctx RADIO_STATE_SIM_READY)) ∧
    w_plat w' = MkPppSim []
      [inl (SysSystem "/system/bin/pppd call ttyUSB0"); inl SysIfcInit; inr 1;
       inl (SysIfcGetDefaultRoute "ppp0"); inr 2; inl (SysKill 321); inr 2] ∧
    answered_with w w' ["ATH"]
      [Complete 1 RIL_E_SUCCESS
         (PayStrs [Some "1"; Some "ppp0"; Some "10.0.0.3"; Some "8.8.8.8 0"; Some "10.0.0.1"]%string) 20;
       Complete 2 RIL_E_SUCCESS (PayDataCall 1 2 (Some "PPP") (Some "internet") (Some "10.0.0.3"))%string
         sizeof_RIL_Data_Call_Response;
       Complete 2 RIL_E_GENERIC_FAILURE PayNull 0;
       Complete 3 RIL_E_SUCCESS PayNull 0;
       Unsol RIL_UNSOL_RESPONSE_NETWORK_STATE_CHANGED PayNull 0] [].
Proof.
  refine (data_call_session demo_call [NoInterface; NoInterface; LinkDown]
    [("1", Some "Name: init"); ("self", None); ("321", Some "Name: pppd")]%string
    _ _ DNull 0 1 DNull 0 2 (Some "1"%string) [] 4 3 []
    (fresh_world (sim_ctx RADIO_STATE_SIM_READY) (opened_chan [], oks 1) demo_ppp) _ _ _ _ _ _ _ _ _ _).
  - by split.
  - reflexivity.
  - reflexivity.
  - simpl. lia.
  - do 6 eexists. split; [do 2 eexists; by split|]. split.
    + do 2 eexists. split; [reflexivity|]. do 2 eexists. split; [reflexivity|].
      do 2 eexists. split; [reflexivity|]. split; [reflexivity|]. eexists. split; [reflexivity|].
      do 2 eexists. split; [reflexivity|]. split; [reflexivity|]. by split.
    + by split_and!.
  - by repeat constructor.
  - do 2 eexists. split; [reflexivity|]. split; reflexivity.
  - discriminate.
  - exact opened_live.
  - reflexivity.
Defined.
