(* ===== verification/RilOverflow.v ===== *)
(** * Properties that do not fit

    [property_get] stores values of up to 91 characters.  Two requests read
    them into shorter arrays: [requestOperator] has 20 bytes for
    ro.telephony.display_optname, [requestSetupDataCallEVDO] 64 for net.dns1
    and net.dns2. *)

From S2P Require Import Prelude CString AtTok AtReader AtChannel RilInfo RilBase RilLogic RilReader RilSim RilUtils RilAuto RilRqst RilData Ril RilSession RilModem RilNetwork RilPpp.

Open Scope Z_scope.

Section overflow.
Context {P : Type} `{Platform P, RilConsts, RilCodes}.
Abbreviation W := (World ChanPort P).
Abbreviation M := (M ChanPort P).

(** Every value the platform gives for the property has at least [n] characters. *)
Definition property_exceeds (key : string) (n : Z) : Prop :=
  ∀ p : P, ∃ v p', pl_property_get key p = (Some v, p') ∧ n ≤ strlen v.

(** What is undefined after a part that is defined. *)
Lemma undef_bind {A B} (m : M A) (f : A → M B) u Q l (w : W) :
  runs m Q (λ _ _, False) l w → (∀ x l' w', Q x l' w' → f x l' w' = Undef u) → (m ≫= f) l w = Undef u.
Proof. unfold runs, mbind, M_bind. intros Hm Hf. destruct (m l w); try done. by apply Hf. Qed.

Lemma undef_frame {A} (body handler : M A) u l (w : W) :
  body no_locals w = Undef u → frame (on_error body handler) l w = Undef u.
Proof. intros Hb. unfold frame, on_error. by rewrite Hb. Qed.

Lemma property_get_overflow {A} key v p' n (f : string → M A) l (w : W) :
  pl_property_get key (w_plat w) = (Some v, p') → n ≤ strlen v →
  (property_get key "0" n ≫= f) l w = Undef OutOfBounds.
Proof.
  intros Hv Hn. unfold property_get, mbind, M_bind, lift. rewrite Hv. cbv zeta.
  by rewrite (proj2 (Z.ltb_ge _ _) Hn).
Qed.

Lemma operator_overflow k mcc mnc line t c rest (w : W) :
  unlisted k mcc mnc line → ctx_ok (w_ctx w) → live_chan c →
  w_port w = (c, network_replies k mcc mnc line ++ rest) →
  property_exceeds "ro.telephony.display_optname" 20 →
  requestOperator t no_locals w = Undef OutOfBounds.
Proof.
  intros Hu Hctx Hc Hport Hopt. apply undef_frame.
  eapply (undef_bind _ _ _ (λ _ _ _, True)); [by eapply runs_unlisted|].
  intros x l' w' _. destruct (Hopt (w_plat w')) as (v & p' & Hv & Hn).
  by eapply property_get_overflow.
Qed.

(** The call is up, and the platform will now give the two name servers. *)
Definition link_up (d : Call) (looks : list Look) (p p3 : P) : Prop :=
  ∃ p1 p2, started d p p1 ∧ shows p1 (looks ++ [LinkUp (cl_addr d)]) p2 ∧
    pl_call (SysIfcGetDefaultRoute "ppp0") p2 = (cl_gway d, p3).

Lemma setup_overflow d looks p3 v1 p4 t (w : W) :
  s_data_devname (w_ctx w) = Some (cl_dev d) → strlen (cl_dev d) ≤ 64 →
  forallb (λ k, negb (is_up k)) looks = true → (length looks < 30)%nat → link_up d looks (w_plat w) p3 →
  pl_property_get "net.dns1" p3 = (v1, p4) →
  64 ≤ strlen (default "0" v1) ∨ (∃ v2 p5, pl_property_get "net.dns2" p4 = (Some v2, p5) ∧ 64 ≤ strlen v2) →
  requestSetupDataCallEVDO t no_locals w = Undef OutOfBounds.
Proof.
  intros Hdev Hlen Hup Hn (p1 & p2 & Hst & Hs & Hr) Hd1 Hd2. apply undef_frame.
  eapply (undef_bind _ _ _ (λ rc _ w', 0 ≤ rc ∧ w_ctx w' = w_ctx w ∧ pl_call SysIfcInit (w_plat w') = (0, p1))).
  { eapply runs_start_pppd; [exact Hdev|done|exact Hst|]. intros rc p0 Hrc Hi. by split_and!. }
  intros rc l' w1 (Hrc & _ & Hi). rewrite (proj2 (Z.ltb_ge _ _) Hrc).
  eapply (undef_bind _ _ _ (λ link _ w', link = Some (cl_addr d, cl_gway d) ∧ w_plat w' = p3)).
  { eapply runs_poll_up; [exact Hi|exact Hup|exact Hn|exact Hs|exact Hr|done]. }
  intros link l2 w2 [-> <-].
  unfold mbind at 1, M_bind at 1, put_ctx at 1.
  destruct (Z.leb_spec 64 (strlen (default "0" v1))) as [Hlong|Hshort].
  - destruct v1 as [v1|]; [|done]. eapply property_get_overflow; [exact Hd1|exact Hlong].
  - destruct Hd2 as [?|(v2 & p5 & Hv2 & Hl2)]; [lia|].
    eapply (undef_bind _ _ _ (λ _ _ w', w_plat w' = p4)).
    { eapply (runs_property _ _ _ v1 p4); [exact Hd1|reflexivity|lia|done]. }
    intros x l3 w3 Hp4. eapply property_get_overflow; [|exact Hl2]. by rewrite Hp4.
Qed.

(** C35: values of properties that the property service allows overrun the
    driver's arrays.  The request for the operator of a network that is not in
    the table is undefined when ro.telephony.display_optname has 20 characters
    or more; the setup of a data call whose link has come up is undefined when
    net.dns1 or net.dns2 has 64 characters or more. *)
Theorem long_property_overflow data datalen t (w : W) :
  sState (w_ctx w) ≠ RADIO_STATE_OFF →
  (∀ k mcc mnc line rest,
     unlisted k mcc mnc line → ctx_ok (w_ctx w) → live_chan (w_port w).1 →
     (w_port w).2 = network_replies k mcc mnc line ++ rest →
     property_exceeds "ro.telephony.display_optname" 20 →
     onRequest (req_code RIL_REQUEST_OPERATOR) data datalen t no_locals w = Undef OutOfBounds) ∧
  (∀ d looks p3 v1 p4,
     s_data_devname (w_ctx w) = Some (cl_dev d) → strlen (cl_dev d) ≤ 64 →
     forallb (λ k, negb (is_up k)) looks = true → (length looks < 30)%nat → link_up d looks (w_plat w) p3 →
     pl_property_get "net.dns1" p3 = (v1, p4) →
     64 ≤ strlen (default "0" v1) ∨ (∃ v2 p5, pl_property_get "net.dns2" p4 = (Some v2, p5) ∧ 64 ≤ strlen v2) →
     onRequest (req_code RIL_REQUEST_SETUP_DATA_CALL) data datalen t no_locals w = Undef OutOfBounds).
Proof.
  intros Hs. split.
  - intros k mcc mnc line rest Hu Hctx Hc Hev Hopt. rewrite onRequest_dispatch by done.
    destruct (w_port w) as [c evs] eqn:Hport. cbn [fst snd] in Hc, Hev. subst evs.
    by apply (operator_overflow k mcc mnc line t c rest).
  - intros d looks p3 v1 p4 Hdev Hlen Hup Hn Hl Hd1 Hd2. rewrite onRequest_dispatch by done.
    by eapply (setup_overflow d looks p3 v1 p4).
Qed.
End overflow.

(** ** An example *)

(** A platform like that of RilPpp, where every property has 64 characters. *)
Definition long_value : string := string_of_list_ascii (replicate 64 "a"%char).

#[local] Instance long_platform : Platform unit := {
  pl_call c p := (match c with SysIfcGetDefaultRoute _ => 16777226 | _ => 0 end, p);
  pl_property_get _ p := (Some long_value, p);
  pl_read_file _ p := (None, p);
  pl_ptsname _ p := ("/dev/pts/1"%string, p);
  pl_ifc_get_info _ p := (Some (50331658, 0, 1), p);
  pl_proc p := (None, p);
  pl_sleep _ p := ([], p)
}.

(** Such a platform keeps to what [PlatformOk] says. *)
#[local] Program Instance long_platform_ok : PlatformOk unit.
Next Obligation. intros key p v p' [= <- _]. vm_compute. reflexivity. Qed.
Next Obligation. intros p es p' [=]. Qed.
Next Obligation. intros n p. constructor. Qed.

Lemma long_property_overflow_witness :
  let w := fresh_world (sim_ctx RADIO_STATE_SIM_READY)
             (opened_chan [], network_replies 0 "310" "00" "0,vzw3g.com,1") tt in
  onRequest (req_code RIL_REQUEST_OPERATOR) DNull 0 3 no_locals w = Undef OutOfBounds ∧
  onRequest (req_code RIL_REQUEST_SETUP_DATA_CALL) DNull 0 3 no_locals w = Undef OutOfBounds.
Proof.
  destruct (long_property_overflow DNull 0 3
    (fresh_world (sim_ctx RADIO_STATE_SIM_READY)
       (opened_chan [], network_replies 0 "310" "00" "0,vzw3g.com,1") tt)) as [Hop Hsetup]; [discriminate|].
  split.
  - apply (Hop 0 "310" "00" "0,vzw3g.com,1" [])%string.
    + split; try reflexivity. vm_compute. split; discriminate.
    + by apply (sim_world_wf RADIO_STATE_SIM_READY [] sim_empty).
    + exact opened_live.
    + by rewrite app_nil_r.
    + intros p. exists long_value, p. split; [done|]. by vm_compute.
  - apply (Hsetup demo_call [] tt (Some long_value) tt); [done|done|done|simpl; lia| |done|left; by vm_compute].
    exists tt, tt. split; [do 2 eexists; by split|]. split; [|done].
    do 2 eexists. split; [reflexivity|]. by repeat split.
Defined.
