(* ===== verification/RilCommands.v ===== *)
(** * The requests that are one AT command

    Calls, tones and the choice of the network: a table of their commands, and
    the theorem that the dispatcher follows it. *)

From S2P Require Import Prelude CString AtTok AtReader AtChannel RilInfo RilBase RilLogic RilReader RilSim RilUtils RilAuto RilRqst RilTimer Ril RilSession RilModem RilStartup.

Open Scope Z_scope.

(** The command a request stands for. *)
Definition simple_command (r : Request) (data : Data) : option string :=
  match r, data with
  | RIL_REQUEST_ANSWER, _ => Some "ATA"
  | RIL_REQUEST_UDUB, _ => Some "ATH"
  | RIL_REQUEST_HANGUP_WAITING_OR_BACKGROUND, _ => Some "AT+CHLD=0"
  | RIL_REQUEST_HANGUP_FOREGROUND_RESUME_BACKGROUND, _ => Some "AT+CHLD=1"
  | RIL_REQUEST_SWITCH_WAITING_OR_HOLDING_AND_ACTIVE, _ => Some "AT+CHLD=2"
  | RIL_REQUEST_CONFERENCE, _ => Some "AT+CHLD=3"
  | RIL_REQUEST_HANGUP, DInts (z :: _) => Some ("AT+CHLD=1" +:+ pretty z)
  | RIL_REQUEST_SEPARATE_CONNECTION, DInts (z :: _) =>
      if (1 <=? z) && (z <=? 9) then Some ("AT+CHLD=2" +:+ pretty z) else None
  | RIL_REQUEST_DIAL, DDial address clir =>
      Some ("ATD" +:+ address +:+ (if clir =? 1 then "I;" else if clir =? 2 then "i;" else ";"))
  | RIL_REQUEST_DTMF, DString (String c _) =>
      if Ascii.eqb c NUL then None else Some ("AT+VTS=" +:+ String c "")
  | RIL_REQUEST_SET_NETWORK_SELECTION_AUTOMATIC, _ => Some "AT+COPS=0"
  | RIL_REQUEST_SET_NETWORK_SELECTION_MANUAL, _ => Some "AT+COPS=1"
  | _, _ => None
  end.

(** What the context keeps of it. *)
Definition simple_ctx (r : Request) (c : Ctx) : Ctx :=
  match r with
  | RIL_REQUEST_SET_NETWORK_SELECTION_AUTOMATIC => set_networkSelectMode 0 c
  | RIL_REQUEST_SET_NETWORK_SELECTION_MANUAL => set_networkSelectMode 1 c
  | _ => c
  end.

Section commands.
Context {P : Type} `{Platform P, RilConsts, RilCodes}.
Abbreviation W := (World ChanPort P).
Abbreviation M := (M ChanPort P).

(** A command that ends in any final response; its result is 0. *)
Lemma runs_command_final cmd f c rest Q E l (w : W) :
  w_port w = (c, line_events [f] ++ rest) → live_chan c → isFinalResponse f = true →
  (∀ c', sent_on c c' cmd → Q 0 l (after_send c' rest w)) →
  runs (at_command cmd) Q E l w.
Proof.
  intros Hport Hc Hf HQ.
  destruct (full_answered cmd NO_RESULT None false c [] f rest) as (c' & Ec & Hs); [done|done|by repeat constructor|done|].
  assert (Es : at_send (S := ChanPort) (P := P) KPlain cmd false l w = Ok (0, None) l (after_send c' rest w)).
  { unfold at_send. rewrite Hport. cbn [port_send chan_port chan_send]. unfold at_send_command.
    change (line_events [f]) with (line_events ([] ++ [f])). by rewrite Ec. }
  specialize (HQ c' Hs). unfold at_command. apply runs_bind. unfold runs at 1. rewrite Es. exact HQ.
Qed.

(** What the handlers of the table do with their command. *)
Definition does (m : M unit) (cmd : string) (f : Ctx → Ctx) (t : nat) : Prop :=
  ∀ Q E l c final rest w, w_port w = (c, line_events [final] ++ rest) → live_chan c → isFinalResponse final = true →
    (∀ c' n, sent_on c c' cmd →
       Q tt l (with_out (w_out w ++ [Complete t RIL_E_SUCCESS PayNull 0])
                (with_ctx (f (w_ctx w)) (with_mem (w_live w) n (after_send c' rest w))))) →
    runs m Q E l w.

Lemma after_send_same c rest (w : W) : with_mem (w_live w) (w_next w) (after_send c rest w) = after_send c rest w.
Proof. done. Qed.

Lemma fire_does cmd t : does (fire cmd t) cmd Datatypes.id t.
Proof.
  intros Q E l c final rest w Hp Hc Hf HQ. unfold fire. apply runs_bind.
  eapply runs_command_final; [exact Hp|done..|]. intros c' Hs. eapply runs_complete; [reflexivity|].
  exact (HQ c' (w_next w) Hs).
Qed.

Lemma command_fmt_does cmd t :
  does (_ ← command_fmt cmd; RIL_onRequestComplete t RIL_E_SUCCESS PayNull 0) cmd Datatypes.id t.
Proof.
  intros Q E l c final rest w Hp Hc Hf HQ. apply runs_bind. unfold command_fmt. do 5 rstep.
  eapply runs_command_final; [exact Hp|done..|]. intros c' Hs. rstep.
  eapply runs_free_heap; [blocks; apply del_here|]. rstep. eapply runs_complete; [reflexivity|].
  exact (HQ c' _ Hs).
Qed.

Lemma networkSelection_does cmd mode t : does (networkSelection cmd mode t) cmd (set_networkSelectMode mode) t.
Proof.
  intros Q E l c final rest w Hp Hc Hf HQ. unfold networkSelection. apply runs_bind.
  eapply runs_command_final; [exact Hp|done..|]. intros c' Hs. apply runs_bind, runs_put_ctx.
  eapply runs_complete; [reflexivity|]. exact (HQ c' (w_next w) Hs).
Qed.

Lemma requestDial_does address clir t :
  does (requestDial (DDial address clir) t)
    ("ATD" +:+ address +:+ (if clir =? 1 then "I;" else if clir =? 2 then "i;" else ";")) Datatypes.id t.
Proof.
  unfold requestDial. replace ((if clir =? 1 then "I" else if clir =? 2 then "i" else "") +:+ ";")
    with (if clir =? 1 then "I;" else if clir =? 2 then "i;" else ";") by (by repeat case_match).
  apply command_fmt_does.
Qed.

Lemma requestHangup_does z zs t :
  does (requestHangup (DInts (z :: zs)) t) ("AT+CHLD=1" +:+ pretty z) Datatypes.id t.
Proof.
  intros Q E l c final rest w Hp Hc Hf HQ. unfold requestHangup. rewrite data_int_head.
  apply runs_bind, (runs_ret _ _ E). by eapply command_fmt_does.
Qed.

Lemma separateConnection_does z zs t :
  1 ≤ z ≤ 9 → does (separateConnection (DInts (z :: zs)) t) ("AT+CHLD=2" +:+ pretty z) Datatypes.id t.
Proof.
  intros Hz Q E l c final rest w Hp Hc Hf HQ. unfold separateConnection. rewrite data_int_head.
  apply runs_bind, (runs_ret _ _ E). rewrite (proj2 (Z.ltb_lt 0 z)), (proj2 (Z.ltb_lt z 10)) by lia.
  apply runs_bind, runs_sprintf; [|by eapply fire_does].
  assert (z = 1 ∨ z = 2 ∨ z = 3 ∨ z = 4 ∨ z = 5 ∨ z = 6 ∨ z = 7 ∨ z = 8 ∨ z = 9) as H' by lia.
  by repeat destruct H' as [->|H']; try subst z.
Qed.

Lemma dtmf_does a s t :
  Ascii.eqb a NUL = false → does (dtmf (DString (String a s)) t) ("AT+VTS=" +:+ String a "") Datatypes.id t.
Proof. intros Ha. unfold dtmf. cbn [peek]. rewrite Ha. apply command_fmt_does. Qed.

Lemma dispatch_does r data datalen t cmd :
  simple_command r data = Some cmd → does (dispatch (Some r) data datalen t) cmd (simple_ctx r) t.
Proof.
  destruct r; try done; cbn [simple_command dispatch dispatch_services simple_ctx]; intros Hcmd;
    try (injection Hcmd as <-; first [apply fire_does|apply networkSelection_does]);
    destruct data as [|[|z zs]|[|a s]| | | |]; try done.
  - injection Hcmd as <-. apply requestDial_does.
  - injection Hcmd as <-. apply requestHangup_does.
  - destruct (_ && _) eqn:Hz in Hcmd; [|done]. injection Hcmd as <-.
    apply andb_true_iff in Hz as [?%Z.leb_le ?%Z.leb_le]. by apply separateConnection_does.
  - destruct (Ascii.eqb a NUL) eqn:Ha in Hcmd; [done|]. injection Hcmd as <-. by apply dtmf_does.
Qed.

(** C16: the requests that are one command.  A request of the table - answer,
    hang up, hold, conference, separate a call, dial, a tone, the choice of the
    network - sends exactly its command, is answered with success whatever
    final response the modem gives, leaves no memory, and changes nothing but
    the selection mode of the network. *)
Theorem simple_command_session (r : Request) (data : Data) (datalen : Z) (t : nat) (cmd final : string)
    rest (w : W) :
  simple_command r data = Some cmd → isFinalResponse final = true → live_chan (w_port w).1 →
  (w_port w).2 = line_events [final] ++ rest → sState (w_ctx w) ≠ RADIO_STATE_OFF →
  ∃ w', onRequest (req_code r) data datalen t no_locals w = Ok tt no_locals w' ∧
    w_ctx w' = simple_ctx r (w_ctx w) ∧ w_plat w' = w_plat w ∧
    answered_with w w' [cmd] [Complete t RIL_E_SUCCESS PayNull 0] rest.
Proof.
  intros Hcmd Hf Hc Hev Hs. destruct (w_port w) as [c evs] eqn:Hport. cbn [fst snd] in Hc, Hev. subst evs.
  rewrite onRequest_dispatch by done. apply (runs_session _ (λ w', w_ctx w' = _ ∧ w_plat w' = _ ∧ _)).
  eapply dispatch_does; [exact Hcmd|exact Hport|done|exact Hf|]. intros c' n Hsent.
  apply sent_all_one in Hsent as [Hc' Hsent]. split; [done|]. split; [done|]. split; [done|].
  unfold answered_with. rewrite Hport. by split_and!.
Qed.
End commands.

Lemma simple_command_session_witness :
  let w := sim_world RADIO_STATE_SIM_READY ["NO CARRIER"] sim_empty in
  ∃ w', onRequest (req_code RIL_REQUEST_DIAL) (DDial "*228" 2) 8 3 no_locals w = Ok tt no_locals w' ∧
    w_ctx w' = sim_ctx RADIO_STATE_SIM_READY ∧ w_plat w' = sim_empty ∧
    answered_with w w' ["ATD*228i;"] [Complete 3 RIL_E_SUCCESS PayNull 0] [].
Proof.
  refine (simple_command_session RIL_REQUEST_DIAL (DDial "*228" 2) 8 3 "ATD*228i;" "NO CARRIER" []
    (sim_world RADIO_STATE_SIM_READY ["NO CARRIER"] sim_empty) _ _ _ _ _).
  - reflexivity.
  - reflexivity.
  - exact opened_live.
  - reflexivity.
  - discriminate.
Defined.
