(* ===== verification/RilSms.v ===== *)
(** * Short messages, followed through the modem's prompt

    The two requests that hand the modem a message: the command, the prompt,
    the message, the result - in the style of RilSession. *)

From S2P Require Import Prelude CString AtTok AtReader AtChannel RilInfo RilBase RilLogic RilReader RilSim RilUtils RilAuto RilRqst RilTimer Ril RilSpec RilSession RilModem RilStartup.

Open Scope Z_scope.

(** ** The dialogue *)

(** What the modem says after the message: its line and OK, or a refusal. *)
Inductive SmsReply := SmsAccepted (line : string) | SmsRefused (final : string).

Definition sms_reply_lines (r : SmsReply) : list string :=
  match r with SmsAccepted line => [line; "OK"] | SmsRefused f => [f] end.

Definition sms_reply_ok (prefix : string) (r : SmsReply) : Prop :=
  match r with
  | SmsAccepted line => strStartsWith line prefix = true ∧ isFinalResponse line = false
  | SmsRefused f => isFinalResponse f = true ∧ isFinalResponseSuccess f = false
  end.

Definition sms_response (r : SmsReply) : ATResponse :=
  match r with
  | SmsAccepted line => MkResponse 1 (Some "OK") [line]
  | SmsRefused f => MkResponse 0 (Some f) []
  end.

Definition accepted (r : SmsReply) : bool := match r with SmsAccepted _ => true | SmsRefused _ => false end.

(** The bytes of the dialogue. *)
Definition sms_bytes (cmd pdu : string) : list ascii := chars cmd ++ [CR] ++ chars pdu ++ [CTRL_Z].

Section dialogue.
Context {P : Type} `{Platform P}.
Abbreviation W := (World ChanPort P).

Lemma runs_sms x pdu p cmd r c rest Q E l (w : W) :
  w_port w = (c, line_events ("> " :: sms_reply_lines r) ++ rest) → live_chan c → sms_reply_ok p r →
  (∀ c', live_chan c' → tty_sent (s_tty c') = tty_sent (s_tty c) ++ sms_bytes cmd pdu →
     Q 0 (MkLocals (upd (lv_resp l) x (Some (MkResp (w_next w) (sms_response r)))) (lv_ptr l))
       (with_response c' rest w)) →
  runs (at_send_resp x (KSms pdu p) cmd) Q E l w.
Proof.
  intros Hport [Hc Hh] Hr HQ.
  assert (Es : ∃ c', at_send (S := ChanPort) (P := P) (KSms pdu p) cmd true l w =
    Ok (0, Some (sms_response r)) l (after_send c' rest w) ∧ live_chan c' ∧
    tty_sent (s_tty c') = tty_sent (s_tty c) ++ sms_bytes cmd pdu).
  { unfold at_send. rewrite Hport. cbn [port_send chan_port chan_send]. destruct r as [line|f]; destruct Hr as [Hp Hl].
    - destruct (at_send_command_sms_session cmd pdu p c [line] "OK" rest Hc Hh) as (c' & Ec & Hc' & Hh' & Hs);
        [by repeat constructor|done|]. exists c'. cbn [split_session takes] in Ec. rewrite Hp in Ec.
      change (line_events ("> " :: sms_reply_lines (SmsAccepted line))) with (line_events ("> " :: [line] ++ ["OK"])).
      rewrite Ec. split_and!; [done|by split|]. rewrite Hs. unfold sms_bytes. by rewrite <-!app_assoc.
    - destruct (at_send_command_sms_session cmd pdu p c [] f rest Hc Hh) as (c' & Ec & Hc' & Hh' & Hs);
        [by repeat constructor|done|]. exists c'. cbn [split_session takes fst snd] in Ec. rewrite Hl in Ec.
      change (line_events ("> " :: sms_reply_lines (SmsRefused f))) with (line_events ("> " :: [] ++ [f])).
      rewrite Ec. split_and!; [done|by split|]. rewrite Hs. unfold sms_bytes. by rewrite <-!app_assoc. }
  destruct Es as (c' & Es & Hc' & Hs). specialize (HQ c' Hc' Hs).
  unfold at_send_resp. apply runs_bind. unfold runs at 1. rewrite Es. exact HQ.
Qed.
End dialogue.

(** ** The requests *)

Lemma terminate_pdu_snoc msg c :
  terminate_pdu (msg +:+ String c "") = Some (msg +:+ String CTRL_Z "", if Ascii.eqb c CTRL_Z then 0 else 1).
Proof.
  unfold terminate_pdu. rewrite list_ascii_app, rev_app_distr. cbn [list_ascii_of_string rev app].
  f_equal. f_equal. rewrite rev_involutive.
  apply list_ascii_inj. by rewrite list_ascii_of_string_of_list_ascii, list_ascii_app.
Qed.

(** The destination the driver uses. *)
Definition sms_da (smsc : option string) : string := default "00" smsc.

Definition sms_answer `{RilConsts} (t : nat) (r : SmsReply) : Output :=
  if accepted r then Complete t RIL_E_SUCCESS PaySms sizeof_RIL_SMS_Response
  else Complete t RIL_E_GENERIC_FAILURE PayNull 0.

Section requests.
Context {P : Type} `{Platform P, RilConsts, RilCodes}.
Abbreviation W := (World ChanPort P).
Abbreviation M := (M ChanPort P).

(** The message [msg] followed by the byte [b]. *)
Lemma send_sms_session_body smsc msg b ss t r c rest (w : W) :
  strlen (sms_da smsc) + strlen msg ≤ 97 → live_chan c → sms_reply_ok "^HCMGS:" r →
  w_port w = (c, oks 1 ++ line_events ("> " :: sms_reply_lines r) ++ rest) →
  ∃ w', requestSendSMSEVDO (DStrings (smsc :: Some (msg +:+ String b "") :: ss)) t no_locals w = Ok tt no_locals w' ∧
    w_ctx w' = w_ctx w ∧ w_plat w' = w_plat w ∧ w_out w' = w_out w ++ [sms_answer t r] ∧ w_live w' = w_live w ∧
    live_chan (w_port w').1 ∧ (w_port w').2 = rest ∧
    tty_sent (s_tty (w_port w').1) = tty_sent (s_tty c) ++ chars "at+cmgf=1" ++ [CR] ++
      sms_bytes ("AT^HCMGS=" +:+ sms_da smsc) (msg +:+ String CTRL_Z "").
Proof.
  intros Hlen Hc Hr Hport.
  apply (runs_session _ (λ w', w_ctx w' = w_ctx w ∧ _)). unfold requestSendSMSEVDO.
  apply runs_frame, runs_on_error, runs_bind. eapply runs_command; [exact Hport|done|]. intros c1 [Hc1 Hs1].
  change (data_str (DStrings (smsc :: Some (msg +:+ String b "") :: ss)) 0) with (mret (M := M) smsc).
  change (data_str (DStrings (smsc :: Some (msg +:+ String b "") :: ss)) 1) with (mret (M := M) (Some (msg +:+ String b ""))).
  do 3 (apply runs_bind; eapply runs_ret). rewrite terminate_pdu_snoc. apply runs_bind, (runs_ret _ _ _).
  cbv beta iota. set (z := if Ascii.eqb b CTRL_Z then 0 else 1).
  replace (match smsc with Some s => (s, 0) | None => ("00", 1) end)
    with (sms_da smsc, match smsc with Some _ => 0 | None => 1 end) by (by destruct smsc).
  assert (Hz : strlen (pretty z) = 1 ∧ strlen (pretty (match smsc with Some _ => 0 | None => 1 end)) = 1)
    by (split; [by subst z; destruct (Ascii.eqb b CTRL_Z)|by destruct smsc]).
  apply runs_bind, runs_sprintf.
  { rewrite !strlen_app. destruct Hz as [-> ->]. cbn. change (strlen (String LF "")) with 1. unfold strlen in *. cbn [String.length] in *. lia. }
  clearbody z. do 5 rstep.
  eapply runs_sms; [reflexivity|done|exact Hr|]. intros c2 Hc2 Hs2. rstep.
  eapply runs_free_heap; [blocks; del_block|]. rstep. unfold check_ne. rstep.
  eapply runs_failed_ne; [reflexivity|blocks; apply is_live_here|]. cbn [r_val].
  assert (Hsent : tty_sent (s_tty c2) = tty_sent (s_tty c) ++ chars "at+cmgf=1" ++ [CR] ++
      sms_bytes ("AT^HCMGS=" +:+ sms_da smsc) (msg +:+ String CTRL_Z "")) by (by rewrite Hs2, Hs1, <-!app_assoc).
  destruct r as [line|f]; cbn [sms_response success Z.eqb accepted sms_answer].
  - rstep. rstep. eapply runs_complete; [reflexivity|].
    eapply runs_free_resp; [reflexivity|blocks; apply del_here|]. by split_and!.
  - unfold goto_error, runs at 1. rstep. eapply runs_complete; [reflexivity|].
    eapply runs_free_resp; [reflexivity|blocks; apply del_here|]. by split_and!.
Qed.

(** A message stored in the modem: the command that was formatted is lost. *)
Lemma write_sms_session status pdu t r c rest (w : W) :
  live_chan c → sms_reply_ok "+CMGW:" r →
  w_port w = (c, line_events ("> " :: sms_reply_lines r) ++ rest) →
  ∃ w', requestWriteSmsToSim (DSmsWrite status pdu) t no_locals w = Ok tt no_locals w' ∧
    w_out w' = w_out w ++ [Complete t (if accepted r then RIL_E_SUCCESS else RIL_E_GENERIC_FAILURE) PayNull 0] ∧
    w_live w' = w_next w :: w_live w ∧
    tty_sent (s_tty (w_port w').1) = tty_sent (s_tty c) ++
      sms_bytes ("AT+CMGW=" +:+ pretty (Z.quot (strlen pdu) 2) +:+ "," +:+ pretty status) pdu.
Proof.
  intros Hc Hr Hport. apply (runs_session _ (λ w', w_out w' = _ ∧ _)). unfold requestWriteSmsToSim. do 7 rstep.
  eapply runs_sms; [exact Hport|done|exact Hr|]. intros c2 Hc2 Hs2. rstep. unfold check_ne. rstep.
  eapply runs_failed_ne; [reflexivity|blocks; apply is_live_here|]. cbn [r_val].
  destruct r as [line|f]; cbn [sms_response success Z.eqb accepted].
  - rstep. rstep. eapply runs_complete; [reflexivity|].
    eapply runs_free_resp; [reflexivity|blocks; apply del_here|]. by split_and!.
  - unfold goto_error, runs at 1. rstep. eapply runs_complete; [reflexivity|].
    eapply runs_free_resp; [reflexivity|blocks; apply del_here|]. by split_and!.
Qed.

(** C15: a short message on its way out.  The request selects the text format,
    names the destination - 00 when there is none - and, at the prompt, sends
    the message with its last byte replaced by Ctrl-Z and then a second Ctrl-Z:
    a message without a terminator, which is what the framework passes, loses
    its last character.  It is answered once, by what the modem said, the
    response is freed and the context unchanged. *)
Theorem send_sms_session (smsc : option string) (msg : string) (b : ascii) (ss : list (option string))
    (datalen : Z) (t : nat) (r : SmsReply) rest (w : W) :
  strlen (sms_da smsc) + strlen msg ≤ 97 → sms_reply_ok "^HCMGS:" r → live_chan (w_port w).1 →
  (w_port w).2 = oks 1 ++ line_events ("> " :: sms_reply_lines r) ++ rest →
  sState (w_ctx w) ≠ RADIO_STATE_OFF →
  ∃ w', onRequest (req_code RIL_REQUEST_SEND_SMS) (DStrings (smsc :: Some (msg +:+ String b "") :: ss)) datalen t
          no_locals w = Ok tt no_locals w' ∧
    w_ctx w' = w_ctx w ∧ w_plat w' = w_plat w ∧ w_out w' = w_out w ++ [sms_answer t r] ∧ w_live w' = w_live w ∧
    live_chan (w_port w').1 ∧ (w_port w').2 = rest ∧
    tty_sent (s_tty (w_port w').1) = tty_sent (s_tty (w_port w).1) ++ chars "at+cmgf=1" ++ [CR] ++
      chars ("AT^HCMGS=" +:+ sms_da smsc) ++ [CR] ++ chars msg ++ [CTRL_Z; CTRL_Z].
Proof.
  intros Hlen Hr Hc Hev Hs. destruct (w_port w) as [c evs] eqn:Hport. cbn [fst snd] in Hc, Hev |- *. subst evs.
  rewrite onRequest_dispatch by done.
  destruct (send_sms_session_body smsc msg b ss t r c rest w Hlen Hc Hr Hport) as (w' & E & H').
  exists w'. split; [exact E|]. destruct H' as (? & ? & ? & ? & ? & ? & Hsent). split_and!; try done.
  rewrite Hsent. unfold sms_bytes, chars. rewrite (list_ascii_app msg). by rewrite <-!app_assoc.
Qed.
End requests.

Lemma send_sms_session_witness :
  let w := sim_world RADIO_STATE_SIM_READY ["OK"; "> "; "^HCMGS:12"; "OK"] sim_empty in
  ∃ w', onRequest (req_code RIL_REQUEST_SEND_SMS) (DStrings [Some "8585550100"; Some "Hello"]%string) 8 5
          no_locals w = Ok tt no_locals w' ∧
    w_ctx w' = sim_ctx RADIO_STATE_SIM_READY ∧ w_plat w' = sim_empty ∧
    w_out w' = [] ++ [Complete 5 RIL_E_SUCCESS PaySms sizeof_RIL_SMS_Response] ∧ w_live w' = [] ∧
    live_chan (w_port w').1 ∧ (w_port w').2 = [] ∧
    tty_sent (s_tty (w_port w').1) = [] ++ chars "at+cmgf=1" ++ [CR] ++
      chars "AT^HCMGS=8585550100" ++ [CR] ++ chars "Hell" ++ [CTRL_Z; CTRL_Z].
Proof.
  refine (send_sms_session (Some "8585550100"%string) "Hell" "o" [] 8 5 (SmsAccepted "^HCMGS:12") []
    (sim_world RADIO_STATE_SIM_READY ["OK"; "> "; "^HCMGS:12"; "OK"] sim_empty) _ _ _ _ _).
  - vm_compute. discriminate.
  - by split.
  - exact opened_live.
  - reflexivity.
  - discriminate.
Defined.
