(* ===== verification/RilThread.v ===== *)
(** * The reader thread, from the bytes of the modem to the RIL library

    [readline], [readerLoop], [processLine], [onUnsolicited] and the callback
    for the end of the channel, put together: what the RIL library is told of
    the notices a modem sends while no command is pending. *)

From S2P Require Import Prelude CString AtTok AtReader AtFrame AtChannel RilInfo RilBase RilLogic RilReader RilSim RilUtils RilAuto RilRqst RilTimer Ril RilSession RilModem RilStartup RilOta.

Open Scope Z_scope.

(** ** The thread *)

Section thread.
Context {P : Type} `{Platform P}.
Abbreviation W := (World ChanPort P).
Abbreviation M := (M ChanPort P).

(** One action on the channel, and the callbacks it makes. *)
Definition reader_act (a : ReaderAction) : M unit := λ l w,
  match reader_step a (w_port w).1 with
  | None => Undef NullDeref
  | Some (c, cbs) => run_callbacks cbs l (with_port (S := ChanPort) (c, (w_port w).2) w)
  end.

Fixpoint reader_acts (acts : list ReaderAction) : M unit :=
  match acts with
  | [] => mret tt
  | a :: acts' => reader_act a;; reader_acts acts'
  end.

(** [readerLoop] on the line buffer of atchannel.c: [calls] bounds the calls of
    [readline], [fuel] the reads of each. *)
Definition reader_thread (calls fuel : nat) (input : list ReadEvent) : M unit :=
  match read_all AT_RESPONSE_SIZE calls fuel (reader_init AT_RESPONSE_SIZE) input with
  | LinesUpTo lines => reader_acts (readerLoop (string_of_list_ascii <$> lines))
  | StillReading => λ _ _, Hang
  | OutsideBuffer => undef OutOfBounds
  end.

Lemma reader_acts_app a b l (w : W) : reader_acts (a ++ b) l w = (reader_acts a;; reader_acts b) l w.
Proof.
  revert l w. induction a as [|x a IH]; intros l w; [done|].
  cbn [app reader_acts]. unfold mbind, M_bind in *. destruct (reader_act x l w); [apply IH|done..].
Qed.
End thread.

(** ** What a modem may say *)

Inductive Notice :=
  | NTime (f : string) (fs : list string)   (** the fields of %CTZV *)
  | NNetwork (s : string)
  | NPacketNetwork (s : string)
  | NSms (header pdu : string)
  | NReport (header pdu : string)
  | NBroadcast (header pdu : string)
  | NOta (s : string)
  | NOther (line : string).

Definition notice_lines (n : Notice) : list string :=
  match n with
  | NTime f fs => [at_line "%CTZV" (f :: fs)]
  | NNetwork s => ["+CREG:" +:+ s]
  | NPacketNetwork s => ["+CGREG:" +:+ s]
  | NSms header pdu => ["+CMT:" +:+ header; pdu]
  | NReport header pdu => ["+CDS:" +:+ header; pdu]
  | NBroadcast header pdu => ["+CBM:" +:+ header; pdu]
  | NOta s => ["^OTACMSG:" +:+ s]
  | NOther line => [line]
  end.

(** Lines nobody looks at, calls and final responses among them. *)
Definition ignored (line : string) : bool :=
  negb (existsb (strStartsWith line)
          ["%CTZV:"; "+CREG:"; "+CGREG:"; "+CMT:"; "+CDS:"; "+CBM:"; "^OTACMSG:"; "$GP"]).

Definition notice_ok (n : Notice) : Prop :=
  match n with
  | NTime f _ => plain_field f = true
  | NOther line => ignored line = true
  | _ => True
  end.

(** What the RIL library is told. *)
Definition notice_output (n : Notice) : list Output :=
  match n with
  | NTime f _ => [Unsol RIL_UNSOL_NITZ_TIME_RECEIVED (PayStr (Some f)) (strlen f)]
  | NNetwork _ | NPacketNetwork _ => [Unsol RIL_UNSOL_RESPONSE_NETWORK_STATE_CHANGED PayNull 0]
  | NSms _ pdu => [Unsol RIL_UNSOL_RESPONSE_NEW_SMS (PayStr (Some pdu)) (strlen pdu)]
  | NReport _ pdu => [Unsol RIL_UNSOL_RESPONSE_NEW_SMS_STATUS_REPORT (PayStr (Some pdu)) (strlen pdu)]
  | NBroadcast _ _ | NOta _ | NOther _ => []
  end.

(** What the context keeps of it. *)
Definition notice_ctx (n : Notice) (c : Ctx) : Ctx :=
  match n with NOta s => ota_received ["^OTACMSG:" +:+ s] c | _ => c end.

Definition notice_leaks (n : Notice) : nat := match n with NTime _ _ => 1 | _ => 0 end.

Definition notice_actions (n : Notice) : ReaderAction :=
  match n with
  | NSms header pdu => ActSms ("+CMT:" +:+ header) pdu
  | NReport header pdu => ActSms ("+CDS:" +:+ header) pdu
  | NBroadcast header pdu => ActSms ("+CBM:" +:+ header) pdu
  | _ => ActLine (hd "" (notice_lines n))
  end.

Lemma ignored_plain line : ignored line = true → isSMSUnsolicited line = false.
Proof.
  unfold ignored, isSMSUnsolicited. cbn [existsb s_smsUnsoliciteds].
  rewrite negb_true_iff, !orb_false_iff. tauto.
Qed.

Lemma sms_header p h : In p s_smsUnsoliciteds → isSMSUnsolicited (p +:+ h) = true.
Proof. intros Hp. apply List.existsb_exists. exists p. split; [done|apply strStartsWith_app]. Qed.

Lemma readerLoop_notices ns :
  Forall notice_ok ns → readerLoop (flat_map notice_lines ns) = map notice_actions ns ++ [ActClosed].
Proof.
  intros Hns. induction Hns as [|n ns Hn _ IH]; [done|].
  destruct n as [f fs|s|s|h p|h p|h p|s|line]; cbn [flat_map notice_lines app readerLoop map notice_actions hd];
    first [rewrite ignored_plain by done | rewrite sms_header by (simpl; auto)
          | match goal with |- context [if isSMSUnsolicited ?l then _ else _] =>
              change (isSMSUnsolicited l) with false end]; cbv iota; by rewrite IH.
Qed.

(** ** The notices handled *)

Section notices.
Context {P : Type} `{Platform P}.
Abbreviation W := (World ChanPort P).
Abbreviation M := (M ChanPort P).

(** The world after a notice. *)
Definition noticed (n : Notice) (w : W) : W :=
  let w := with_ctx (notice_ctx n (w_ctx w)) (with_out (w_out w ++ notice_output n) w) in
  match n with NTime _ _ => with_strdup_leak w | _ => w end.

Lemma onUnsolicited_notice n l (w : W) :
  notice_ok n → sState (w_ctx w) ≠ RADIO_STATE_UNAVAILABLE →
  match notice_actions n with
  | ActLine s => onUnsolicited s None
  | ActSms h p => onUnsolicited h (Some p)
  | ActClosed => mret tt
  end l w = Ok tt l (noticed n w).
Proof.
  intros Hn Hs. unfold onUnsolicited, mbind, M_bind, get_ctx.
  destruct n as [f fs|s|s|h p|h p|h p|s|line]; cbn [notice_actions notice_lines hd];
    rewrite bool_decide_eq_false_2 by done; cbn -[strncpy tok_str at_line strlen]; rewrite ?strStartsWith_nil.
  - assert (E : strStartsWith (at_line "%CTZV" (f :: fs)) "%CTZV:" = true) by apply (strStartsWith_app "%CTZV:").
    rewrite E. unfold nitz_time, mbind, M_bind, update, at_tok_start, at_line. rewrite strchr_app by done.
    by rewrite tok_str_field.
  - done.
  - done.
  - done.
  - done.
  - unfold noticed. cbn. rewrite app_nil_r. by destruct w.
  - unfold noticed. cbn -[strncpy]. rewrite app_nil_r. by destruct w.
  - cbn [notice_ok] in Hn. unfold ignored in Hn. cbn [existsb] in Hn. rewrite negb_true_iff, !orb_false_iff in Hn.
    destruct Hn as (-> & -> & -> & -> & -> & _ & -> & -> & _). cbn [orb]. unfold noticed. cbn.
    rewrite app_nil_r. repeat match goal with |- context [strStartsWith line ?p] => destruct (strStartsWith line p) end;
      by destruct w.
Qed.

(** A channel between two commands, with its callbacks registered. *)
Definition listening (c : Chan) : Prop :=
  sp_response c = None ∧ s_unsolHandler c = true ∧ s_onReaderClosed c = true ∧ s_readerClosed c = 0.

Lemma noticed_fields n (w : W) :
  w_port (noticed n w) = w_port w ∧ sState (w_ctx (noticed n w)) = sState (w_ctx w) ∧
  s_closed (w_ctx (noticed n w)) = s_closed (w_ctx w).
Proof. by destruct n. Qed.

Lemma reader_act_notice n l (w : W) :
  notice_ok n → listening (w_port w).1 → sState (w_ctx w) ≠ RADIO_STATE_UNAVAILABLE →
  reader_act (notice_actions n) l w = Ok tt l (noticed n w).
Proof.
  intros Hn (Hr & Hh & _) Hs. pose proof (onUnsolicited_notice n l w Hn Hs) as E.
  assert (Ew : with_port (S := ChanPort) ((w_port w).1, (w_port w).2) w = w)
    by (destruct w as [? []]; done).
  unfold reader_act. destruct (notice_actions n) as [s|h p|] eqn:Ea; cbn [reader_step].
  - unfold processLine. rewrite Hr. unfold handleUnsolicited. rewrite Hh, Ew. cbn [run_callbacks run_callback].
    unfold mbind, M_bind. by rewrite E.
  - rewrite Hh, Ew. cbn [run_callbacks run_callback]. unfold mbind, M_bind. by rewrite E.
  - by destruct n.
Qed.

Definition notices (ns : list Notice) (w : W) : W := foldl (λ w n, noticed n w) w ns.

Lemma reader_acts_notices ns l (w : W) :
  Forall notice_ok ns → listening (w_port w).1 → sState (w_ctx w) ≠ RADIO_STATE_UNAVAILABLE →
  reader_acts (map notice_actions ns) l w = Ok tt l (notices ns w).
Proof.
  intros Hns. revert w. induction Hns as [|n ns Hn _ IH]; intros w Hl Hs; [done|].
  cbn [map reader_acts]. unfold mbind, M_bind. rewrite reader_act_notice by done.
  destruct (noticed_fields n w) as (Ep & Es & _). apply IH; [by rewrite Ep|by rewrite Es].
Qed.

Lemma notices_fields ns (w : W) :
  w_out (notices ns w) = w_out w ++ flat_map notice_output ns ∧
  w_ctx (notices ns w) = foldl (λ c n, notice_ctx n c) (w_ctx w) ns ∧
  w_strdup_leaks (notices ns w) = (w_strdup_leaks w + sum_list_with notice_leaks ns)%nat ∧
  w_port (notices ns w) = w_port w ∧ w_live (notices ns w) = w_live w ∧ w_plat (notices ns w) = w_plat w ∧
  sState (w_ctx (notices ns w)) = sState (w_ctx w) ∧ s_closed (w_ctx (notices ns w)) = s_closed (w_ctx w).
Proof.
  revert w. induction ns as [|n ns IH]; intros w.
  { cbn. by rewrite app_nil_r, Nat.add_0_r. }
  cbn [notices foldl flat_map]. fold (notices ns (noticed n w)).
  destruct (IH (noticed n w)) as (-> & -> & -> & -> & -> & -> & -> & ->). rewrite app_assoc.
  destruct n; split_and!; try done; cbn; lia.
Qed.

(** The end of the channel. *)
Lemma reader_act_closed l (w : W) :
  listening (w_port w).1 → sState (w_ctx w) ≠ RADIO_STATE_UNAVAILABLE →
  ∃ c, reader_act ActClosed l w =
    Ok tt l (with_out (w_out w ++ [Unsol RIL_UNSOL_RESPONSE_RADIO_STATE_CHANGED PayNull 0])
      (with_ctx (set_sState RADIO_STATE_UNAVAILABLE (set_s_closed 1 (w_ctx w)))
        (with_port (S := ChanPort) (c, (w_port w).2) w))) ∧ s_readerClosed c = 1 ∧ s_fd c = -1.
Proof.
  intros (_ & _ & Hc & H0) Hs. unfold reader_act. cbn [reader_step]. unfold onReaderClosed. rewrite Hc, H0.
  exists (at_close (set_closed 1 (w_port w).1)). split; [|done].
  cbn [Z.eqb andb run_callbacks run_callback]. unfold onATReaderClosed, close_port, setRadioState_reader,
    setRadioState_with, state_section, announce_state, mbind, M_bind, get_ctx, put_ctx, update, when.
  cbn -[bool_decide]. rewrite orb_true_r. cbn -[bool_decide].
  by rewrite bool_decide_eq_false_2 by (intros ?; congruence).
Qed.

(** C14: from the bytes of the modem to the RIL library.  While no command is
    pending the modem sends notices, each line followed by line terminators,
    and the channel then ends.  However [read] cuts the bytes into pieces and
    however often it is interrupted, the RIL library is told of the time, the
    changes of the network, the messages and the reports among them - once, in
    their order, with their text - and at last of the change of the radio,
    which is then unavailable in a closed session; broadcasts and all other
    lines are dropped, the activation messages are kept in the context, and
    each time notice costs one copy of its line that is never freed. *)
Theorem received_notices (calls fuel : nat) (input : list ReadEvent) (start : list ascii)
    (frames : list Framed) (ns : list Notice) (w : W) :
  whole_stream input → bytes_of input = stream_bytes start frames →
  terminators start → Forall (framed_ok AT_RESPONSE_SIZE) frames →
  fr_line <$> frames = flat_map notice_lines ns → Forall notice_ok ns →
  (isize input < fuel)%nat → (length (bytes_of input) < calls)%nat →
  listening (w_port w).1 → sState (w_ctx w) ≠ RADIO_STATE_UNAVAILABLE →
  ∃ w', reader_thread calls fuel input no_locals w = Ok tt no_locals w' ∧
    w_out w' = w_out w ++ flat_map notice_output ns ++
               [Unsol RIL_UNSOL_RESPONSE_RADIO_STATE_CHANGED PayNull 0] ∧
    w_ctx w' = set_sState RADIO_STATE_UNAVAILABLE
                 (set_s_closed 1 (foldl (λ c n, notice_ctx n c) (w_ctx w) ns)) ∧
    w_strdup_leaks w' = (w_strdup_leaks w + sum_list_with notice_leaks ns)%nat ∧
    w_live w' = w_live w ∧ w_plat w' = w_plat w ∧ s_readerClosed (w_port w').1 = 1.
Proof.
  intros Hw Hb Hst Hfr Hns Hok Hf Hc Hl Hs. unfold reader_thread.
  assert (Hsize : (4 < AT_RESPONSE_SIZE)%nat) by (unfold AT_RESPONSE_SIZE; lia).
  pose proof (stream_ok_framed AT_RESPONSE_SIZE start frames Hsize Hst Hfr) as Hstream. rewrite <-Hb in Hstream.
  rewrite (read_all_lines AT_RESPONSE_SIZE calls fuel (reader_init AT_RESPONSE_SIZE) input (bytes_of input));
    [|by apply reader_at_init|done..].
  rewrite Hb, (lines_of_stream AT_RESPONSE_SIZE) by done.
  assert (El : string_of_list_ascii <$> ((λ f, chars (fr_line f)) <$> frames) = flat_map notice_lines ns).
  { rewrite <-Hns, <-list_fmap_compose. apply list_fmap_ext. intros _ f _. apply string_of_list_ascii_of_string. }
  rewrite El, readerLoop_notices, reader_acts_app by done. unfold mbind at 1, M_bind at 1.
  rewrite reader_acts_notices by done.
  destruct (notices_fields ns w) as (Eo & Ec & El' & Ep & Elive & Eplat & Es & _).
  cbn [reader_acts]. unfold mbind, M_bind.
  destruct (reader_act_closed no_locals (notices ns w)) as (c & -> & Hrc & _); [by rewrite Ep|by rewrite Es|].
  eexists. split; [reflexivity|]. cbn [w_out w_ctx w_strdup_leaks w_live w_plat w_port with_out with_ctx with_port fst].
  rewrite Eo, Ec, El', Elive, Eplat. by rewrite <-app_assoc.
Qed.
End notices.

(** ** An example *)

Definition demo_notices : list Notice :=
  [NTime "08/07/30" ["09:02:11-20"; "0"]; NOther "RING"; NSms " ,23" "0791AA"; NNetwork " 1"; NOta "4"].

Definition demo_frames : list Framed :=
  (λ l, MkFramed l [CR; LF]) <$> flat_map notice_lines demo_notices.

(** The bytes in three pieces, one read interrupted. *)
Definition demo_bytes : list ascii := stream_bytes [CR; LF] demo_frames.
Definition demo_input : list ReadEvent :=
  [RdData (take 9 demo_bytes); RdIntr; RdData (take 40 (drop 9 demo_bytes)); RdData (drop 49 demo_bytes); RdEOF].

Definition demo_listener : World ChanPort Sim := sim_world RADIO_STATE_SIM_READY [] sim_empty.

Lemma received_notices_witness :
  ∃ w', reader_thread 200 400 demo_input no_locals demo_listener = Ok tt no_locals w' ∧
    w_out w' = [] ++
      [Unsol RIL_UNSOL_NITZ_TIME_RECEIVED (PayStr (Some "08/07/30"%string)) 8;
       Unsol RIL_UNSOL_RESPONSE_NEW_SMS (PayStr (Some "0791AA"%string)) 6;
       Unsol RIL_UNSOL_RESPONSE_NETWORK_STATE_CHANGED PayNull 0] ++
      [Unsol RIL_UNSOL_RESPONSE_RADIO_STATE_CHANGED PayNull 0] ∧
    w_ctx w' = set_sState RADIO_STATE_UNAVAILABLE
      (set_s_closed 1 (ota_received ["^OTACMSG:4"%string] (sim_ctx RADIO_STATE_SIM_READY))) ∧
    w_strdup_leaks w' = 1%nat ∧ w_live w' = [] ∧ w_plat w' = sim_empty ∧ s_readerClosed (w_port w').1 = 1.
Proof.
  refine (received_notices 200 400 demo_input [CR; LF] demo_frames demo_notices demo_listener _ _ _ _ _ _ _ _ _ _).
  - by repeat constructor.
  - vm_compute. reflexivity.
  - split; [by repeat constructor|simpl; lia].
  - unfold demo_frames. repeat (apply List.Forall_cons; [split; [by repeat constructor|done|
      apply Nat.ltb_lt; vm_compute; reflexivity|by split; [split; [by repeat constructor|simpl; lia]|]]|]). apply List.Forall_nil.
  - reflexivity.
  - repeat constructor.
  - apply Nat.ltb_lt. vm_compute. reflexivity.
  - apply Nat.ltb_lt. vm_compute. reflexivity.
  - by split_and!.
  - discriminate.
Defined.
