(* ===== verification/CDouble.v ===== *)
(** * C doubles, and strtod

    The GPS library computes with [double].  A double is a [spec_float] of the
    Standard Library (IEEE 754, executable and without axioms) at the width of
    binary64; [strtod] is the one of C99 (decimal, hexadecimal, infinities and
    NaN), correctly rounded.  Conversions to [int] out of range are
    undefined ([None]). *)

From S2P Require Import Prelude CString.
From Stdlib Require Export SpecFloat.

Open Scope Z_scope.

Abbreviation double := spec_float (only parsing).

Definition dprec : Z := 53.
Definition demax : Z := 1024.

Definition dadd : double → double → double := SFadd dprec demax.
Definition dsub : double → double → double := SFsub dprec demax.
Definition dmul : double → double → double := SFmul dprec demax.
Definition ddiv : double → double → double := SFdiv dprec demax.
Definition dneg : double → double := SFopp.
Definition deqb : double → double → bool := SFeqb.

#[global] Instance double_eq_dec : EqDecision double.
Proof. solve_decision. Defined.

(** The conversion of an integer. *)
Definition double_of_Z (z : Z) : double := binary_normalize dprec demax z 0 false.

(** The double nearest to [m * 10^e], for an unsigned numeral [m]. *)
Definition round_decimal (neg : bool) (m : Z) (e : Z) : double :=
  match m with
  | Zpos p =>
      if 0 <=? e then binary_round dprec demax neg (p * Z.to_pos (10 ^ e)) 0
      else
        let '(mz, ez, lz) := SFdiv_core_binary dprec demax m 0 (10 ^ (- e)) 0 in
        binary_round_aux dprec demax neg mz ez lz
  | _ => S754_zero neg
  end.

(** A decimal constant of the source, [n * 10^(-k)]. *)
Definition dconst (n : Z) (k : Z) : double := round_decimal (n <? 0) (Z.abs n) (- k).

(** [floor] of math.h. *)
Definition dfloor (x : double) : double :=
  match x with
  | S754_finite s m e =>
      if 0 <=? e then x
      else double_of_Z ((if s then Zneg m else Zpos m) / 2 ^ (- e))
  | _ => x
  end.

(** The integer part, rounded towards zero. *)
Definition dtrunc (x : double) : option Z :=
  match x with
  | S754_zero _ => Some 0
  | S754_finite s m e =>
      let a := if 0 <=? e then Zpos m * 2 ^ e else Zpos m / 2 ^ (- e) in
      Some (if s then - a else a)
  | _ => None
  end.

(** The conversion [(int)x]. *)
Definition int_of_double (x : double) : option Z :=
  z ← dtrunc x; if (INT_MIN <=? z) && (z <=? INT_MAX) then Some z else None.

(** ** strtod *)

(** The digits under the cursor: their number, the numeral they continue, and
    what follows them. *)
Fixpoint scan_digits (base acc : Z) (n : nat) (s : string) : Z * nat * string :=
  match s with
  | String c s' =>
      if digit_of c <? base then scan_digits base (acc * base + digit_of c) (Datatypes.S n) s'
      else (acc, n, s)
  | EmptyString => (acc, n, s)
  end.

(** Digits with an optional point: the numeral without its point, the number
    of digits after the point, and what follows; [None] without a digit. *)
Definition scan_mantissa (base : Z) (s : string) : option (Z * nat * string) :=
  let '(m, n, s1) := scan_digits base 0 0 s in
  let '(m, k, s2) :=
    match s1 with
    | String "." s' => scan_digits base m 0 s'
    | _ => (m, O, s1)
    end%char in
  if Nat.eqb (n + k) 0 then None else Some (m, k, s2).

(** An optional exponent after the letter [l] (or its upper case [u]), 0 when
    there is none.  It saturates at 999, far beyond what a token of 15 bytes can use. *)
Definition scan_exponent (l u : ascii) (s : string) : Z :=
  match s with
  | String c s' =>
      if Ascii.eqb c l || Ascii.eqb c u then
        let '(neg, s1) := scan_sign s' in
        let e := Z.min 999 (scan_num 10 0 s1) in
        if neg then - e else e
      else 0
  | EmptyString => 0
  end.

Definition upper_string (s : string) : string :=
  string_of_list_ascii (map toupper (list_ascii_of_string s)).

(** [strtod(s, NULL)]; 0 when there is no conversion. *)
Definition strtod (s : string) : double :=
  let '(neg, s) := scan_sign (skip_space s) in
  match s with
  | String "0" (String x s') =>
      if (Ascii.eqb x "x" || Ascii.eqb x "X") then
        match scan_mantissa 16 s' with
        | Some (Zpos p, k, s2) =>
            binary_round dprec demax neg p (scan_exponent "p" "P" s2 - 4 * Z.of_nat k)
        | _ => S754_zero neg
        end
      else
        match scan_mantissa 10 s with
        | Some (m, k, s2) => round_decimal neg m (scan_exponent "e" "E" s2 - Z.of_nat k)
        | None => S754_zero false
        end
  | _ =>
      match scan_mantissa 10 s with
      | Some (m, k, s2) => round_decimal neg m (scan_exponent "e" "E" s2 - Z.of_nat k)
      | None =>
          let u := upper_string s in
          if strStartsWith u "INF" then S754_infinity neg
          else if strStartsWith u "NAN" then S754_nan
          else S754_zero false
      end
  end%char.

Example strtod_examples :
  strtod "2.55" = dconst 255 2 ∧ strtod " -0.5e1x" = double_of_Z (-5) ∧
  strtod "0x1.8p1" = double_of_Z 3 ∧ strtod "abc" = S754_zero false ∧
  strtod "0012" = double_of_Z 12 ∧ strtod "1e9999999" = S754_infinity false ∧
  strtod "inf" = S754_infinity false.
Proof. by vm_compute. Qed.
