(* ===== verification/CDoubleFacts.v ===== *)
(** * The error of the operations on C doubles

    The value of a finite double as a real number, and for the operations that
    a position goes through - the conversion of a decimal numeral, sum,
    difference and quotient of doubles that are not negative - the distance
    between the result and the exact one.  For results below [2^15] it is at
    most [2^-38], half a unit in the last place of such a number and its
    double being enough for positions; and rounding never crosses an integer. *)

From Stdlib Require Import Reals Lra.
From S2P Require Import Prelude CString CDouble.

Open Scope Z_scope.

(** ** Values *)

(** [2^e] *)
Definition bp (e : Z) : R := powerRZ 2 e.

Definition dval (x : double) : R :=
  match x with
  | S754_finite s m e => (IZR (if s then Zneg m else Zpos m) * bp e)%R
  | _ => 0%R
  end.

Definition is_number (x : double) : bool :=
  match x with S754_zero _ | S754_finite _ _ _ => true | _ => false end.

Lemma dval_neg x : dval (dneg x) = (- dval x)%R.
Proof.
  destruct x as [s|s| |s m e]; simpl; try lra.
  change (Zneg m) with (- Zpos m). destruct s; cbn [negb]; rewrite opp_IZR; ring.
Qed.

Lemma is_number_neg x : is_number (dneg x) = is_number x.
Proof. by destruct x. Qed.

(** Zero, or a positive number with an exponent as numbers below [2^15] have. *)
Definition small (x : double) : Prop :=
  match x with
  | S754_zero s => s = false
  | S754_finite s m e => s = false ∧ -1074 ≤ e ≤ -37
  | _ => False
  end.

Lemma small_number x : small x → is_number x = true.
Proof. by destruct x. Qed.

Lemma rabs_bounds a b : (Rabs a <= b)%R → (- b <= a <= b)%R.
Proof. unfold Rabs. destruct (Rcase_abs a); lra. Qed.

(** ** Powers of two *)

Lemma bp_pos e : (0 < bp e)%R.
Proof. apply powerRZ_lt. lra. Qed.

Lemma bp_add a b : bp (a + b) = (bp a * bp b)%R.
Proof. apply powerRZ_add. lra. Qed.

Lemma bp_Z n : 0 ≤ n → bp n = IZR (2 ^ n).
Proof.
  intros Hn. unfold bp. rewrite <- (Z2Nat.id n Hn), <- pow_powerRZ.
  rewrite <- (pow_IZR 2 (Z.to_nat n)). by rewrite pow_powerRZ.
Qed.

Lemma bp_mono a b : a ≤ b → (bp a <= bp b)%R.
Proof.
  intros Hab. replace b with (a + (b - a)) by lia. rewrite bp_add, (bp_Z (b - a)) by lia.
  pose proof (bp_pos a). assert (1 <= IZR (2 ^ (b - a)))%R by (apply IZR_le; lia). nra.
Qed.

Lemma bp_lt_inv a b : (bp a < bp b)%R → a < b.
Proof.
  intros Hab. destruct (Z_lt_le_dec a b) as [|Hba]; [done|]. pose proof (bp_mono b a Hba). lra.
Qed.

(** [q * 2^n] at exponent [e] is [q] at exponent [e + n]. *)
Lemma bp_shift q n e : 0 ≤ n → (IZR (q * 2 ^ n) * bp e)%R = (IZR q * bp (e + n))%R.
Proof. intros Hn. rewrite mult_IZR, bp_add, (bp_Z n Hn). ring. Qed.

Lemma zdigits_bounds q : 0 < q → 2 ^ (Zdigits2 q - 1) ≤ q < 2 ^ Zdigits2 q ∧ 1 ≤ Zdigits2 q.
Proof.
  destruct q as [|p|p]; [lia| |lia]. intros _. cbn [Zdigits2].
  assert (H : 2 ^ (Zpos (digits2_pos p) - 1) ≤ Zpos p < 2 ^ Zpos (digits2_pos p)); [|lia].
  induction p as [p IH|p IH|]; cbn [digits2_pos]; [| |done];
    rewrite Pos2Z.inj_succ; replace (Z.succ (Zpos (digits2_pos p)) - 1) with (Zpos (digits2_pos p)) by lia;
    (assert (E : 2 ^ Zpos (digits2_pos p) = 2 * 2 ^ (Zpos (digits2_pos p) - 1))
       by (rewrite <- Z.pow_succ_r by lia; f_equal; lia));
    rewrite Z.pow_succ_r by lia; lia.
Qed.

(** ** Rounding *)

Lemma shr_1_div mrs : 0 ≤ shr_m mrs → shr_m (shr_1 mrs) = shr_m mrs / 2.
Proof.
  destruct mrs as [m r s]. cbn [shr_m]. destruct m as [|[p|p|]|p]; intros Hm; cbn [shr_1 shr_m]; try done; try lia.
  - rewrite (Pos2Z.inj_xI p), Z.add_comm, Z.mul_comm, Z.div_add by lia. done.
  - rewrite (Pos2Z.inj_xO p), Z.mul_comm, Z.div_mul by lia. done.
Qed.

Lemma shr_1_nonneg mrs : 0 ≤ shr_m mrs → 0 ≤ shr_m (shr_1 mrs).
Proof. intros Hm. rewrite shr_1_div by done. by apply Z.div_pos. Qed.

Lemma shr_iter_div p mrs :
  0 ≤ shr_m mrs → shr_m (SpecFloat.iter_pos shr_1 p mrs) = shr_m mrs / 2 ^ Zpos p ∧
                  0 ≤ shr_m (SpecFloat.iter_pos shr_1 p mrs).
Proof.
  revert mrs. induction p as [p IH|p IH|]; intros mrs Hm; cbn [SpecFloat.iter_pos].
  - destruct (IH _ (shr_1_nonneg _ Hm)) as [E1 H1]. destruct (IH _ H1) as [E2 H2]. split; [|done].
    rewrite E2, E1, shr_1_div by done. rewrite !Z.div_div by lia. f_equal.
    rewrite (Pos2Z.inj_xI p), Z.pow_add_r, Z.mul_comm, Z.pow_twice_r by lia. lia.
  - destruct (IH _ Hm) as [E1 H1]. destruct (IH _ H1) as [E2 H2]. split; [|done].
    rewrite E2, E1, Z.div_div by lia. f_equal. rewrite (Pos2Z.inj_xO p), Z.pow_twice_r. lia.
  - split; [by apply shr_1_div|by apply shr_1_nonneg].
Qed.

Lemma shr_m_of_loc m l : shr_m (shr_record_of_loc m l) = m.
Proof. by destruct l as [|[]]. Qed.

(** The shift that brings [q] to 53 bits. *)
Definition excess (q : Z) : Z := Z.max 0 (Zdigits2 q - 53).

Lemma shr_fexp_spec q e l :
  0 ≤ q → -1074 ≤ e →
  ∃ mrs, shr_fexp dprec demax q e l = (mrs, e + excess q) ∧ shr_m mrs = q / 2 ^ excess q ∧
    (excess q = 0 → mrs = shr_record_of_loc q l).
Proof.
  intros Hq He. unfold shr_fexp, excess. set (d := Zdigits2 q).
  assert (En : fexp dprec demax (d + e) - e = Z.max (d - 53) (-1074 - e))
    by (unfold fexp, emin, dprec, demax; lia).
  rewrite En. destruct (Z_le_gt_dec d 53) as [Hd|Hd].
  - rewrite (Z.max_l 0 (d - 53)) by lia. exists (shr_record_of_loc q l).
    rewrite Z.add_0_r, shr_m_of_loc, Z.div_1_r. split_and!; [|done|done].
    unfold shr. destruct (Z.max (d - 53) (-1074 - e)) eqn:E; [done|lia|done].
  - rewrite (Z.max_r 0 (d - 53)), Z.max_l by lia. destruct (d - 53) as [|p|p] eqn:E; [lia| |lia].
    cbn [shr]. eexists. split; [reflexivity|]. split; [|lia].
    by rewrite (proj1 (shr_iter_div p _ ltac:(by rewrite shr_m_of_loc))), shr_m_of_loc.
Qed.

(** What is rounded to: the truncation or the number after it. *)
Lemma round_nearest_even_cases m l : round_nearest_even m l = m ∨ round_nearest_even m l = m + 1.
Proof. destruct l as [|[]]; simpl; try destruct (Z.even m); auto. Qed.

(** [x] is [m * 2^e], that is not negative. *)
Definition represents (x : double) (m e : Z) : Prop :=
  match x with
  | S754_zero s => s = false ∧ m = 0
  | S754_finite s m' e' => s = false ∧ e ≤ e' ≤ e + 1 ∧ (m < 2 ^ 53 → e' = e) ∧ dval x = (IZR m * bp e)%R
  | _ => False
  end.

Lemma excess_bound q : 0 ≤ q → 0 ≤ q / 2 ^ excess q < 2 ^ 53.
Proof.
  intros Hq. split; [apply Z.div_pos; [done|apply Z.pow_pos_nonneg; unfold excess; lia]|].
  destruct (Z.eq_dec q 0) as [->|Hn]; [done|]. destruct (zdigits_bounds q) as [[_ Hlt] Hd]; [lia|].
  unfold excess. apply Z.div_lt_upper_bound; [apply Z.pow_pos_nonneg; lia|].
  rewrite <- Z.pow_add_r by lia. eapply Z.lt_le_trans; [exact Hlt|]. apply Z.pow_le_mono_r; lia.
Qed.

Lemma binary_round_aux_spec q e l :
  0 ≤ q → -1074 ≤ e → e + excess q ≤ 900 →
  ∃ m, represents (binary_round_aux dprec demax false q e l) m (e + excess q) ∧
    (m = q / 2 ^ excess q ∨ m = q / 2 ^ excess q + 1) ∧ (excess q = 0 → l = loc_Exact → m = q).
Proof.
  intros Hq He Hmax. pose proof (excess_bound q Hq) as Hb. unfold binary_round_aux.
  destruct (shr_fexp_spec q e l Hq He) as (mrs & -> & Em & Hex).
  set (m := round_nearest_even (shr_m mrs) (loc_of_shr_record mrs)).
  assert (Hm : m = q / 2 ^ excess q ∨ m = q / 2 ^ excess q + 1)
    by (rewrite <- Em; apply round_nearest_even_cases).
  assert (Hm0 : 0 ≤ m ≤ 2 ^ 53) by lia.
  exists m. split_and!; [|done|]. 2: { intros E0 ->. unfold m. by rewrite (Hex E0). }
  set (e' := e + excess q) in *. assert (He' : -1074 ≤ e') by (unfold e', excess; lia).
  destruct (shr_fexp_spec m e' loc_Exact ltac:(lia) He') as (mrs' & -> & Em' & _). rewrite Em'.
  destruct (Z.eq_dec m (2 ^ 53)) as [E53|Hn53].
  - rewrite E53. change (excess (2 ^ 53)) with 1. change (2 ^ 53 / 2 ^ 1) with 4503599627370496. cbv iota.
    rewrite (proj2 (Z.leb_le _ _)) by (unfold demax, dprec; lia). cbn [represents dval].
    split_and!; [done|lia|lia|lia|]. rewrite bp_add. change (bp 1) with (2 * 1)%R.
    change (2 ^ 53) with (2 * 4503599627370496). rewrite mult_IZR. ring.
  - assert (Hex0 : excess m = 0).
    { unfold excess. destruct (Z.eq_dec m 0) as [->|]; [done|]. destruct (zdigits_bounds m) as [[Hle _] _]; [lia|].
      destruct (Z_le_gt_dec (Zdigits2 m) 53); [lia|]. exfalso.
      assert (2 ^ 53 ≤ 2 ^ (Zdigits2 m - 1)) by (apply Z.pow_le_mono_r; lia). lia. }
    rewrite Hex0, Z.div_1_r, Z.add_0_r. destruct m as [|p|p]; [done| |lia].
    rewrite (proj2 (Z.leb_le _ _)) by (unfold demax, dprec; lia). cbn [represents dval].
    split_and!; [done|lia|lia|lia|done].
Qed.

(** ** Results below [2^15] *)

(** [x] is the double for the real number [r]. *)
Record rounds (x : double) (r : R) : Prop := {
  rd_small : small x;
  rd_error : (Rabs (dval x - r) <= bp (-38))%R;
  rd_floor : ∀ i : Z, (IZR i <= r)%R → (IZR i <= dval x)%R
}.

Lemma rounds_exact x : small x → rounds x (dval x).
Proof.
  intros Hx. split; [done| |done]. rewrite Rminus_diag, Rabs_R0. apply Rlt_le, bp_pos.
Qed.

Lemma represents_small x m e : represents x m e → -1074 ≤ e ≤ -38 → small x ∧ dval x = (IZR m * bp e)%R.
Proof.
  intros Hx He. destruct x as [s| | |s m' e']; try done; simpl in Hx.
  - destruct Hx as [-> ->]. split; [done|]. simpl. ring.
  - destruct Hx as (-> & ? & _ & ?). split; [|done]. simpl. lia.
Qed.

(** A number that was truncated to [q * 2^e]. *)
Lemma rounds_truncated q e l r :
  0 ≤ q → -1074 ≤ e ≤ -38 → (IZR q * bp e <= r < IZR (q + 1) * bp e)%R → (r < bp 15)%R →
  rounds (binary_round_aux dprec demax false q e l) r.
Proof.
  intros Hq He [Hlo Hhi] Hr. set (n := excess q). assert (Hn : 0 ≤ n) by (unfold n, excess; lia).
  assert (He' : -1074 ≤ e + n ≤ -38).
  { unfold n, excess. destruct (Z_le_gt_dec (Zdigits2 q) 53) as [|Hd]; [lia|].
    destruct (Z.eq_dec q 0) as [E0|]; [rewrite E0 in Hd; simpl in Hd; lia|].
    destruct (zdigits_bounds q) as [[Hle _] _]; [lia|].
    assert (Hlt : Zdigits2 q - 1 + e < 15); [|lia]. apply bp_lt_inv. eapply Rle_lt_trans; [|exact Hr].
    rewrite Z.add_comm, bp_add, (bp_Z (Zdigits2 q - 1)) by lia.
    eapply Rle_trans; [|exact Hlo]. rewrite Rmult_comm. apply Rmult_le_compat_r; [apply Rlt_le, bp_pos|].
    by apply IZR_le. }
  destruct (binary_round_aux_spec q e l Hq ltac:(lia) ltac:(fold n; lia)) as (m & Hrep & Hm & _). fold n in Hrep, Hm.
  destruct (represents_small _ _ _ Hrep He') as [Hs Hv].
  set (t := q / 2 ^ n) in *. assert (H2n : 0 < 2 ^ n) by (apply Z.pow_pos_nonneg; lia).
  pose proof (Z.div_mod q (2 ^ n) ltac:(lia)) as Hdm. pose proof (Z.mod_pos_bound q (2 ^ n) H2n) as Hmod.
  assert (Hlo' : (IZR t * bp (e + n) <= r)%R).
  { rewrite <- (bp_shift t n e) by done. eapply Rle_trans; [|exact Hlo].
    apply Rmult_le_compat_r; [apply Rlt_le, bp_pos|]. apply IZR_le. unfold t. lia. }
  assert (Hhi' : (r < IZR (t + 1) * bp (e + n))%R).
  { rewrite <- (bp_shift (t + 1) n e) by done. eapply Rlt_le_trans; [exact Hhi|].
    apply Rmult_le_compat_r; [apply Rlt_le, bp_pos|]. apply IZR_le. unfold t. lia. }
  pose proof (bp_pos (e + n)) as Hp. pose proof (bp_mono (e + n) (-38) ltac:(lia)) as Hmono.
  rewrite plus_IZR in Hhi'. split; [done| |].
  - rewrite Hv. destruct Hm as [-> | ->]; [|rewrite plus_IZR]; apply Rabs_le; split; lra.
  - intros i Hi. rewrite Hv.
    assert (Hit : i * 2 ^ (- (e + n)) ≤ t).
    { apply Zlt_succ_le, lt_IZR. unfold Z.succ. rewrite plus_IZR, mult_IZR, <- bp_Z by lia.
      apply (Rmult_lt_reg_r (bp (e + n))); [done|]. rewrite Rmult_assoc, <- bp_add.
      replace (- (e + n) + (e + n)) with 0 by lia. change (bp 0) with 1%R. lra. }
    assert (Hitm : (IZR (i * 2 ^ (- (e + n))) * bp (e + n) <= IZR m * bp (e + n))%R).
    { apply Rmult_le_compat_r; [lra|]. apply IZR_le. lia. }
    rewrite bp_shift in Hitm by lia. replace (e + n + - (e + n)) with 0 in Hitm by lia.
    change (bp 0) with 1%R in Hitm. lra.
Qed.

Lemma bp_opp e : (bp (- e) * bp e = 1)%R.
Proof. rewrite <- bp_add. by replace (- e + e) with 0 by lia. Qed.

(** ** Quotients *)

(** The quotient is computed to 53 bits or more, truncated. *)
Lemma div_core_spec m1 e1 m2 e2 :
  let x := (IZR (Zpos m1) * bp e1 / (IZR (Zpos m2) * bp e2))%R in
  -1074 ≤ e1 - e2 → (x < bp 15)%R →
  ∃ q e l, SFdiv_core_binary dprec demax (Zpos m1) e1 (Zpos m2) e2 = (q, e, l) ∧
    0 ≤ q ∧ -1074 ≤ e ≤ -38 ∧ (IZR q * bp e <= x < IZR (q + 1) * bp e)%R.
Proof.
  intros x He Hx. unfold SFdiv_core_binary. set (d1 := Zdigits2 (Zpos m1)). set (d2 := Zdigits2 (Zpos m2)).
  set (e' := Z.min (fexp dprec demax (d1 + e1 - (d2 + e2))) (e1 - e2)).
  pose proof (zdigits_bounds (Zpos m1) ltac:(lia)) as [[Hm1 _] Hd1]. fold d1 in Hm1, Hd1.
  pose proof (zdigits_bounds (Zpos m2) ltac:(lia)) as [[_ Hm2] Hd2]. fold d2 in Hm2, Hd2.
  pose proof (bp_pos e1) as Hp1. pose proof (bp_pos e2) as Hp2.
  assert (Hz1 : (0 < IZR (Zpos m1))%R) by by apply IZR_lt.
  assert (Hz2 : (0 < IZR (Zpos m2))%R) by by apply IZR_lt.
  assert (Hden : (0 < IZR (Zpos m2) * bp e2)%R) by by apply Rmult_lt_0_compat.
  assert (Hlow : d1 - 1 + e1 - d2 - e2 < 15).
  { apply bp_lt_inv. eapply Rle_lt_trans; [|exact Hx]. unfold x, Rdiv.
    apply (Rmult_le_reg_r (IZR (Zpos m2) * bp e2)); [done|].
    rewrite (Rmult_assoc _ (/ _)), Rinv_l, Rmult_1_r by lra.
    replace (d1 - 1 + e1 - d2 - e2) with ((d1 - 1) + e1 + (- d2) + (- e2)) by lia. rewrite !bp_add.
    rewrite (bp_Z (d1 - 1)) by lia. pose proof (bp_opp e2) as Ho2. pose proof (bp_opp d2) as Hod2.
    apply IZR_le in Hm1. apply IZR_lt in Hm2. rewrite <- bp_Z in Hm2 by lia. pose proof (bp_pos (- d2)) as Hpd2.
    assert (Hq : (bp (- d2) * IZR (Zpos m2) <= 1)%R) by nra.
    replace (IZR (2 ^ (d1 - 1)) * bp e1 * bp (- d2) * bp (- e2) * (IZR (Zpos m2) * bp e2))%R
      with (IZR (2 ^ (d1 - 1)) * bp e1 * (bp (- d2) * IZR (Zpos m2)) * (bp (- e2) * bp e2))%R by ring.
    rewrite Ho2, Rmult_1_r. assert (0 < IZR (2 ^ (d1 - 1)))%R by (apply IZR_lt, Z.pow_pos_nonneg; lia).
    assert (IZR (2 ^ (d1 - 1)) * bp e1 <= IZR (Zpos m1) * bp e1)%R by (apply Rmult_le_compat_r; lra).
    assert (0 < IZR (2 ^ (d1 - 1)) * bp e1)%R by (by apply Rmult_lt_0_compat). nra. }
  assert (Hrange : -1074 ≤ e' ≤ -38) by (unfold e', fexp, emin, dprec, demax; lia).
  set (s := e1 - e2 - e'). assert (Hs : 0 ≤ s) by (unfold s, e'; lia).
  replace (match s with 0 => Zpos m1 | Zpos _ => Z.shiftl (Zpos m1) s | Zneg _ => 0 end) with (Zpos m1 * 2 ^ s).
  2: { destruct s as [|p|p] eqn:E; [by rewrite Z.mul_1_r|by rewrite Z.shiftl_mul_pow2|done]. }
  pose proof (Z_div_mod (Zpos m1 * 2 ^ s) (Zpos m2) ltac:(lia)) as Hdm.
  destruct (Z.div_eucl (Zpos m1 * 2 ^ s) (Zpos m2)) as [q r]. destruct Hdm as [Hdm Hr].
  exists q, e', (new_location (Zpos m2) r). split; [done|].
  assert (H2s : 0 < 2 ^ s) by (apply Z.pow_pos_nonneg; lia).
  split; [nia|]. split; [done|].
  assert (Ex : (x * IZR (Zpos m2) = IZR (Zpos m1 * 2 ^ s) * bp e')%R).
  { rewrite bp_shift by done. replace (e' + s) with (e1 + - e2) by (unfold s; lia). rewrite bp_add. unfold x.
    pose proof (bp_opp e2) as Ho2. apply (Rmult_eq_reg_r (bp e2)); [|lra].
    replace (IZR (Zpos m1) * (bp e1 * bp (- e2)) * bp e2)%R
      with (IZR (Zpos m1) * bp e1 * (bp (- e2) * bp e2))%R by ring.
    rewrite Ho2. field. lra. }
  rewrite Hdm, plus_IZR, mult_IZR in Ex. pose proof (bp_pos e') as Hpe.
  assert (Hr0 : (0 <= IZR r)%R) by (apply IZR_le; lia).
  assert (Hr1 : (IZR r < IZR (Zpos m2))%R) by (apply IZR_lt; lia). rewrite plus_IZR. split.
  - apply (Rmult_le_reg_r (IZR (Zpos m2))); [done|]. nra.
  - apply (Rmult_lt_reg_r (IZR (Zpos m2))); [done|]. nra.
Qed.

Lemma ddiv_rounds x y :
  small x → small y → dval y ≠ 0%R → (dval x / dval y < bp 15)%R → rounds (ddiv x y) (dval x / dval y).
Proof.
  intros Hx Hy Hy0 Hlt. destruct y as [s| | |s m2 e2]; try done. destruct Hy as [-> Hy].
  destruct x as [s| | |s m1 e1]; try done; simpl in Hx.
  - subst s. simpl. replace (0 / (IZR (Zpos m2) * bp e2))%R with 0%R by (unfold Rdiv; ring).
    by apply (rounds_exact (S754_zero false)).
  - destruct Hx as [-> Hx]. cbn [dval] in *. unfold ddiv. cbn [SFdiv].
    destruct (div_core_spec m1 e1 m2 e2 ltac:(lia) Hlt) as (q & e & l & -> & ? & ? & ?).
    by apply rounds_truncated.
Qed.

(** The double for the decimal numeral [n / 10^k]. *)
Lemma round_decimal_rounds n k :
  0 ≤ n → 0 < k → (IZR n / IZR (10 ^ k) < bp 15)%R → rounds (round_decimal false n (- k)) (IZR n / IZR (10 ^ k)).
Proof.
  intros Hn Hk Hlt. unfold round_decimal. destruct n as [|p|p]; [| |lia].
  - replace (0 / IZR (10 ^ k))%R with 0%R by (unfold Rdiv; ring). by apply (rounds_exact (S754_zero false)).
  - rewrite (proj2 (Z.leb_gt 0 (- k))) by lia. rewrite Z.opp_involutive.
    assert (Hpow : 0 < 10 ^ k) by (apply Z.pow_pos_nonneg; lia). destruct (10 ^ k) as [|t|t] eqn:Et; [lia| |lia].
    pose proof (div_core_spec p 0 t 0 ltac:(lia)) as Hd. cbv zeta in Hd. change (bp 0) with 1%R in Hd.
    rewrite !Rmult_1_r in Hd. destruct (Hd Hlt) as (q & e & l & -> & ? & ? & ?).
    by apply rounds_truncated.
Qed.

(** ** Sums and differences *)

Lemma shl_align_spec m e e' :
  e' ≤ e → (IZR (Zpos (fst (shl_align m e e'))) * bp e' = IZR (Zpos m) * bp e)%R ∧ snd (shl_align m e e') = e'.
Proof.
  intros He. unfold shl_align. destruct (e' - e) as [|p|p] eqn:E; [|lia|]; cbn [fst snd].
  - by replace e' with e by lia.
  - split; [|done]. replace (Zpos (Pos.iter xO m p)) with (Zpos m * 2 ^ Zpos p).
    + rewrite bp_shift by lia. do 2 f_equal. lia.
    + clear. induction p as [|p IH] using Pos.peano_ind; [simpl; lia|].
      rewrite Pos.iter_succ, Pos2Z.inj_succ, Z.pow_succ_r, (Pos2Z.inj_xO (Pos.iter xO m p)), <- IH by lia. lia.
Qed.

Lemma binary_round_rounds m e :
  -1074 ≤ e ≤ -38 → (IZR (Zpos m) * bp e < bp 15)%R →
  rounds (binary_round dprec demax false m e) (IZR (Zpos m) * bp e).
Proof.
  intros He Hlt. unfold binary_round. set (f := fexp dprec demax (Zpos (digits2_pos m) + e)).
  assert (Haux : ∀ m' e', -1074 ≤ e' ≤ -38 → (IZR (Zpos m') * bp e' = IZR (Zpos m) * bp e)%R →
    rounds (binary_round_aux dprec demax false (Zpos m') e' loc_Exact) (IZR (Zpos m) * bp e)).
  { intros m' e' He' Heq. apply rounds_truncated; [lia|done| |done]. rewrite <- Heq, plus_IZR.
    pose proof (bp_pos e'). lra. }
  assert (Hf : -1074 ≤ f) by (unfold f, fexp, emin, dprec, demax; lia).
  destruct (Z_le_gt_dec f e) as [Hle|Hgt].
  - destruct (shl_align_spec m e f Hle) as [Heq Hsnd]. destruct (shl_align m e f) as [mz ez].
    cbn [fst snd] in *. subst ez. apply Haux; [lia|done].
  - unfold shl_align. destruct (f - e) eqn:E; [lia| |lia]. by apply Haux.
Qed.

Lemma normalize_rounds z e b :
  0 ≤ z → (z = 0 → b = false) → -1074 ≤ e ≤ -38 → (IZR z * bp e < bp 15)%R →
  rounds (binary_normalize dprec demax z e b) (IZR z * bp e).
Proof.
  intros Hz Hb He Hlt. destruct z as [|p|p]; [|by apply binary_round_rounds|lia].
  rewrite Hb, Rmult_0_l by done. by apply (rounds_exact (S754_zero false)).
Qed.

(** An operand that is not zero has its last place below [2^-38]. *)
Definition fine (x : double) : Prop := match x with S754_finite _ _ e => e ≤ -38 | _ => True end.

Lemma dadd_rounds x y :
  small x → small y → fine x ∨ fine y →
  (dval x + dval y < bp 15)%R → rounds (dadd x y) (dval x + dval y).
Proof.
  intros Hx Hy Hf Hlt. unfold dadd.
  destruct x as [s| | |s m1 e1]; try done; simpl in Hx; destruct y as [s'| | |s' m2 e2]; try done; simpl in Hy.
  - subst. simpl. rewrite Rplus_0_l. by apply (rounds_exact (S754_zero false)).
  - destruct Hy as [-> Hy]. cbn [SFadd]. change (dval (S754_zero s)) with 0%R. rewrite Rplus_0_l.
    by apply rounds_exact.
  - destruct Hx as [-> Hx]. cbn [SFadd]. change (dval (S754_zero s')) with 0%R. rewrite Rplus_0_r.
    by apply rounds_exact.
  - destruct Hx as [-> Hx], Hy as [-> Hy]. cbn [SFadd cond_Zopp]. simpl in Hf.
    destruct (shl_align_spec m1 e1 (Z.min e1 e2) ltac:(lia)) as [E1 _].
    destruct (shl_align_spec m2 e2 (Z.min e1 e2) ltac:(lia)) as [E2 _]. cbn [dval] in *.
    rewrite <- E1, <- E2, <- Rmult_plus_distr_r, <- plus_IZR in *. apply normalize_rounds; [lia|done|lia|done].
Qed.

Lemma dsub_rounds x y :
  small x → small y → fine x ∨ fine y → (dval y <= dval x)%R → (dval x - dval y < bp 15)%R →
  rounds (dsub x y) (dval x - dval y).
Proof.
  intros Hx Hy Hf Hle Hlt. unfold dsub.
  destruct x as [s| | |s m1 e1]; try done; simpl in Hx; destruct y as [s'| | |s' m2 e2]; try done; simpl in Hy.
  - subst. simpl. rewrite Rminus_0_r. by apply (rounds_exact (S754_zero false)).
  - destruct Hy as [-> Hy]. exfalso. cbn [dval] in Hle. pose proof (bp_pos e2).
    assert (0 < IZR (Zpos m2))%R by by apply IZR_lt. nra.
  - destruct Hx as [-> Hx]. cbn [SFsub]. change (dval (S754_zero s')) with 0%R. rewrite Rminus_0_r.
    by apply rounds_exact.
  - destruct Hx as [-> Hx], Hy as [-> Hy]. cbn [SFsub cond_Zopp]. simpl in Hf.
    destruct (shl_align_spec m1 e1 (Z.min e1 e2) ltac:(lia)) as [E1 _].
    destruct (shl_align_spec m2 e2 (Z.min e1 e2) ltac:(lia)) as [E2 _]. cbn [dval] in *.
    rewrite <- E1, <- E2, <- Rmult_minus_distr_r, <- minus_IZR in *.
    apply normalize_rounds; [|done|lia|done].
    apply Rmult_le_reg_r, le_IZR in Hle; [lia|apply bp_pos].
Qed.

(** ** Integers *)

(** Integers below [2^15] are converted exactly. *)
Lemma double_of_Z_spec z :
  0 ≤ z < 2 ^ 15 → small (double_of_Z z) ∧ fine (double_of_Z z) ∧ dval (double_of_Z z) = IZR z.
Proof.
  intros Hz. unfold double_of_Z. destruct z as [|p|p]; [done| |lia]. cbn [binary_normalize]. unfold binary_round.
  pose proof (zdigits_bounds (Zpos p) ltac:(lia)) as [[Hlo Hhi] Hd]. set (d := Zdigits2 (Zpos p)) in *.
  change (Zpos (digits2_pos p)) with d. assert (Hd15 : d ≤ 15).
  { destruct (Z_le_gt_dec d 15); [done|]. assert (2 ^ 15 ≤ 2 ^ (d - 1)) by (apply Z.pow_le_mono_r; lia). lia. }
  replace (fexp dprec demax (d + 0)) with (d - 53) by (unfold fexp, emin, dprec, demax; lia).
  destruct (shl_align_spec p 0 (d - 53) ltac:(lia)) as [Heq Hsnd].
  destruct (shl_align p 0 (d - 53)) as [m e]. cbn [fst snd] in *. subst e.
  assert (Em : Zpos m = Zpos p * 2 ^ (53 - d)).
  { apply eq_IZR. apply (Rmult_eq_reg_r (bp (d - 53))); [|pose proof (bp_pos (d - 53)); lra].
    rewrite Heq, bp_shift by lia. by replace (d - 53 + (53 - d)) with 0 by lia. }
  assert (Hm53 : Zpos m < 2 ^ 53).
  { rewrite Em. replace 53 with (d + (53 - d)) at 2 by lia. rewrite Z.pow_add_r by lia.
    apply Z.mul_lt_mono_pos_r; [apply Z.pow_pos_nonneg; lia|lia]. }
  assert (Hex : excess (Zpos m) = 0).
  { unfold excess. destruct (zdigits_bounds (Zpos m) ltac:(lia)) as [[Hle _] _].
    destruct (Z_le_gt_dec (Zdigits2 (Zpos m)) 53); [lia|]. exfalso.
    assert (2 ^ 53 ≤ 2 ^ (Zdigits2 (Zpos m) - 1)) by (apply Z.pow_le_mono_r; lia). lia. }
  destruct (binary_round_aux_spec (Zpos m) (d - 53) loc_Exact) as (q & Hrep & _ & Hq); [lia..|].
  rewrite Hex, Z.add_0_r in Hrep. rewrite (Hq Hex eq_refl) in Hrep.
  destruct (represents_small _ _ _ Hrep ltac:(lia)) as [Hs Hv]. split_and!; [done| |].
  - destruct (binary_round_aux _ _ _ _ _ _) as [| | |s m' e']; try done.
    destruct Hrep as (_ & _ & He & _). simpl. rewrite He; lia.
  - rewrite Hv, Heq. change (bp 0) with 1%R. ring.
Qed.

(** The mantissa of a rounded number that is not too close below the next integer. *)
Lemma mantissa_floor m e r i :
  rounds (S754_finite false m e) r → (IZR i <= r)%R → (r + bp (-38) < IZR (i + 1))%R →
  e < 0 ∧ Zpos m / 2 ^ (- e) = i.
Proof.
  intros [[_ He] Herr Hfl] Hlo Hhi. apply rabs_bounds in Herr. specialize (Hfl i Hlo). cbn [dval] in *.
  split; [lia|].
  assert (Hp : 0 < 2 ^ (- e)) by (apply Z.pow_pos_nonneg; lia). pose proof (bp_pos e) as Hbe.
  assert (Hsc : ∀ j, (IZR j = IZR (j * 2 ^ (- e)) * bp e)%R).
  { intros j. rewrite bp_shift by lia. replace (e + - e) with 0 by lia. change (bp 0) with 1%R. ring. }
  symmetry. apply (Z.div_unique_pos _ _ i (Zpos m - i * 2 ^ (- e))); [|lia]. split.
  - rewrite (Hsc i) in Hfl. apply Rmult_le_reg_r, le_IZR in Hfl; [lia|done].
  - assert (Hlt : (IZR (Zpos m) * bp e < IZR (i + 1))%R) by lra. rewrite (Hsc (i + 1)) in Hlt.
    apply Rmult_lt_reg_r, lt_IZR in Hlt; [lia|done].
Qed.

Lemma zero_floor r i :
  rounds (S754_zero false) r → 0 ≤ i → (IZR i <= r)%R → i = 0.
Proof. intros [_ _ Hfl] Hi Hlo. specialize (Hfl i Hlo). cbn [dval] in Hfl. apply le_IZR in Hfl. lia. Qed.

Lemma dfloor_rounds x r i :
  rounds x r → 0 ≤ i → (IZR i <= r)%R → (r + bp (-38) < IZR (i + 1))%R → dfloor x = double_of_Z i.
Proof.
  intros Hr Hi Hlo Hhi. pose proof (rd_small _ _ Hr) as Hs.
  destruct x as [s| | |s m e]; try done; simpl in Hs.
  - subst s. by rewrite (zero_floor r i Hr Hi Hlo).
  - destruct Hs as [-> He]. destruct (mantissa_floor m e r i Hr Hlo Hhi) as [Hneg <-].
    cbn [dfloor]. by rewrite (proj2 (Z.leb_gt 0 e)) by lia.
Qed.

Lemma int_of_double_rounds x r i :
  rounds x r → 0 ≤ i ≤ INT_MAX → (IZR i <= r)%R → (r + bp (-38) < IZR (i + 1))%R → int_of_double x = Some i.
Proof.
  intros Hr Hi Hlo Hhi. pose proof (rd_small _ _ Hr) as Hs. unfold int_of_double.
  assert (dtrunc x = Some i) as ->.
  { destruct x as [s| | |s m e]; try done; simpl in Hs.
    - subst s. by rewrite (zero_floor r i Hr ltac:(lia) Hlo).
    - destruct Hs as [-> He]. destruct (mantissa_floor m e r i Hr Hlo Hhi) as [Hneg <-].
      cbn [dtrunc]. by rewrite (proj2 (Z.leb_gt 0 e)) by lia. }
  cbn [mbind option_bind]. unfold INT_MIN. rewrite !(proj2 (Z.leb_le _ _)) by lia. done.
Qed.
