(* ===== verification/Nmea.v ===== *)
(** * gps_freerunner.c, first half: the NMEA tokenizer and parser

    The reader keeps the bytes of a sentence in the array [in]; a token is a
    pair of offsets into it.  An undefined behaviour of the C code (signed
    overflow, a shift by a negative count, a write outside [sv_list], a double
    out of the range of [int]) is [None]. *)

From S2P Require Import Prelude CString CDouble.

Open Scope Z_scope.

(** ** gps.h, which is not part of the repository *)

(** The constants, the length of [sv_list], and the conversion done when a
    [double] is stored into one of the fields [speed], [bearing], [accuracy],
    [elevation], [azimuth] and [snr], whose type that header chooses. *)
Class GpsHeader := {
  GPS_LOCATION_HAS_LAT_LONG : Z;
  GPS_LOCATION_HAS_ALTITUDE : Z;
  GPS_LOCATION_HAS_SPEED : Z;
  GPS_LOCATION_HAS_BEARING : Z;
  GPS_LOCATION_HAS_ACCURACY : Z;
  GPS_STATUS_SESSION_BEGIN : Z;
  GPS_STATUS_SESSION_END : Z;
  GPS_STATUS_ENGINE_ON : Z;
  GPS_STATUS_ENGINE_OFF : Z;
  GPS_POSITION_MODE_STANDALONE : Z;
  GPS_MAX_SVS : nat;
  gps_float : double → double
}.

(** ** Data *)

Definition NMEA_MAX_SIZE : nat := 83.
Definition MAX_NMEA_TOKENS : nat := 32.

Record GpsLocation := {
  fl_flags : Z; fl_latitude : double; fl_longitude : double; fl_altitude : double;
  fl_speed : double; fl_bearing : double; fl_accuracy : double; fl_timestamp : Z
}.

Record GpsSvInfo := {
  sv_prn : Z; sv_elevation : double; sv_azimuth : double; sv_snr : double
}.

Record GpsSvStatus := { num_svs : Z; sv_list : list GpsSvInfo; used_in_fix_mask : Z }.

Record NmeaReader := {
  nr_pos : nat;
  nr_overflow : bool;
  utc_year : Z; utc_mon : Z; utc_day : Z; utc_diff : Z;
  nr_fix : GpsLocation;
  sv_status : GpsSvStatus;
  sv_status_changed : Z;
  nr_in : carray
}.

Definition set_line (pos : nat) (ov : bool) (inb : carray) (r : NmeaReader) : NmeaReader :=
  {| nr_pos := pos; nr_overflow := ov; utc_year := utc_year r; utc_mon := utc_mon r;
     utc_day := utc_day r; utc_diff := utc_diff r; nr_fix := nr_fix r; sv_status := sv_status r;
     sv_status_changed := sv_status_changed r; nr_in := inb |}.

Definition set_date (y m d : Z) (r : NmeaReader) : NmeaReader :=
  {| nr_pos := nr_pos r; nr_overflow := nr_overflow r; utc_year := y; utc_mon := m;
     utc_day := d; utc_diff := utc_diff r; nr_fix := nr_fix r; sv_status := sv_status r;
     sv_status_changed := sv_status_changed r; nr_in := nr_in r |}.

Definition set_fix (f : GpsLocation) (r : NmeaReader) : NmeaReader :=
  {| nr_pos := nr_pos r; nr_overflow := nr_overflow r; utc_year := utc_year r;
     utc_mon := utc_mon r; utc_day := utc_day r; utc_diff := utc_diff r; nr_fix := f;
     sv_status := sv_status r; sv_status_changed := sv_status_changed r; nr_in := nr_in r |}.

Definition set_sv (s : GpsSvStatus) (changed : Z) (r : NmeaReader) : NmeaReader :=
  {| nr_pos := nr_pos r; nr_overflow := nr_overflow r; utc_year := utc_year r;
     utc_mon := utc_mon r; utc_day := utc_day r; utc_diff := utc_diff r; nr_fix := nr_fix r;
     sv_status := s; sv_status_changed := changed; nr_in := nr_in r |}.

(** ** Tokenizer *)

(** Offsets [p] and [end] into [in]; [Dummy] is the empty string that
    [nmea_tokenizer_get] returns for a missing token. *)
Inductive Token := Tok (p e : nat) | Dummy.

#[global] Instance Token_eq_dec : EqDecision Token.
Proof. solve_decision. Defined.

(** [memchr(p, ',', end-p)], or [end]. *)
Fixpoint memchr_comma (b : carray) (p : nat) (n : nat) : nat :=
  match n with
  | O => p
  | Datatypes.S n' =>
      if bool_decide (b !! p = Some ","%char) then p
      else memchr_comma b (Datatypes.S p) n'
  end.

(** The loop, which stores the first [MAX_NMEA_TOKENS] tokens ([count] are
    stored already).  Each round moves [p] forward. *)
Fixpoint tokenizer_loop (fuel : nat) (b : carray) (p e count : nat) : list Token :=
  match fuel with
  | O => []
  | Datatypes.S fuel' =>
      if (p <? e)%nat then
        let q := memchr_comma b p (e - p) in
        let p' := if (q <? e)%nat then Datatypes.S q else q in
        if (count <? MAX_NMEA_TOKENS)%nat
        then Tok p q :: tokenizer_loop fuel' b p' e (Datatypes.S count)
        else tokenizer_loop fuel' b p' e count
      else []
  end.

Definition byte_is (b : carray) (i : nat) (c : ascii) : bool := bool_decide (b !! i = Some c).

(** The bounds left by the optional dollar sign, the line end and the checksum. *)
Definition tokenizer_bounds (b : carray) (e : nat) : nat * nat :=
  let p := if (0 <? e)%nat && byte_is b 0 "$"%char then 1%nat else 0%nat in
  let e :=
    if (p <? e)%nat && byte_is b (e - 1) LF then
      let e := (e - 1)%nat in
      if (p <? e)%nat && byte_is b (e - 1) CR then (e - 1)%nat else e
    else e in
  let e := if (p + 3 <=? e)%nat && byte_is b (e - 3) "*"%char then (e - 3)%nat else e in
  (p, e).

Definition nmea_tokenizer_init (b : carray) (e : nat) : list Token :=
  let '(p, e) := tokenizer_bounds b e in tokenizer_loop (e - p) b p e 0.

Definition nmea_tokenizer_get (tz : list Token) (i : nat) : Token :=
  match tz !! i with Some t => t | None => Dummy end.

(** The byte [tok.p[0]], read even when the token is empty.  It is only compared
    with ASCII constants and with 0, for which the sign of [char], which
    differs between platforms, makes no difference. *)
Definition tok_p0 (b : carray) (t : Token) : Z :=
  match t with
  | Tok p _ => match b !! p with Some c => code c | None => 0 end
  | Dummy => 0
  end.

(** The bytes from [tok.p] to [tok.end]. *)
Definition tok_bytes (b : carray) (t : Token) : list ascii :=
  match t with Tok p e => take (e - p) (drop p b) | Dummy => [] end.

(** ** Numbers *)

(** The result of a signed operation, undefined when it overflows. *)
Definition chk (z : Z) : option Z :=
  if (INT_MIN <=? z) && (z <=? INT_MAX) then Some z else None.

Fixpoint str2int_loop (s : list ascii) (result : Z) : option Z :=
  match s with
  | [] => Some result
  | a :: s' =>
      let c := code a - 48 in
      if (c <? 0) || (10 <=? c) then Some (-1)
      else (t ← chk (result * 10); result ← chk (t + c); str2int_loop s' result)
  end.

Definition str2int (s : list ascii) : option Z :=
  match s with [] => Some (-1) | _ => str2int_loop s 0 end.

Definition str2float (s : list ascii) : double :=
  match s with
  | [] => dconst (-1) 0
  | _ => if (16 <=? length s)%nat then S754_zero false
         else strtod (string_of_list_ascii (take_while not_nul s))
  end.

(** ** mkgmtime *)

Record tm := {
  tm_year : Z; tm_mon : Z; tm_mday : Z; tm_hour : Z; tm_min : Z; tm_sec : Z
}.

(** Conversion to [short]. *)
Definition short (z : Z) : Z := (z + 32768) `mod` 65536 - 32768.

Definition m_to_d : list Z := [0; 31; 59; 90; 120; 151; 181; 212; 243; 273; 304; 334].

(** [time_t] is a [long] of 32 bits. *)
Definition mkgmtime (t : tm) : option Z :=
  let month := short (tm_mon t) in
  y ← chk (tm_year t + Z.quot month 12);
  y ← chk (y + 1900);
  let year := short y in
  let month := Z.rem month 12 in
  let '(year, month) := if month <? 0 then (short (year - 1), month + 12) else (year, month) in
  md ← m_to_d !! Z.to_nat month;
  let result := (year - 1970) * 365 + md in
  let year := if month <=? 1 then short (year - 1) else year in
  let result := result + Z.quot (year - 1968) 4 in
  let result := result - Z.quot (year - 1900) 100 in
  let result := result + Z.quot (year - 1600) 400 in
  result ← chk (result + tm_mday t);
  result ← chk (result - 1);
  result ← chk (result * 24);
  result ← chk (result + tm_hour t);
  result ← chk (result * 60);
  result ← chk (result + tm_min t);
  result ← chk (result * 60);
  chk (result + tm_sec t).

(** ** Updates *)

(** [time_local] and [time_utc] are what [mktime] makes of the local and the
    UTC broken-down time of the moment. *)
Definition nmea_reader_update_utc_diff (time_local time_utc : Z) (r : NmeaReader) : NmeaReader :=
  {| nr_pos := nr_pos r; nr_overflow := nr_overflow r; utc_year := utc_year r;
     utc_mon := utc_mon r; utc_day := utc_day r; utc_diff := int32 (time_local - time_utc);
     nr_fix := nr_fix r; sv_status := sv_status r; sv_status_changed := sv_status_changed r;
     nr_in := nr_in r |}.

Definition no_location : GpsLocation :=
  {| fl_flags := 0; fl_latitude := S754_zero false; fl_longitude := S754_zero false;
     fl_altitude := S754_zero false; fl_speed := S754_zero false; fl_bearing := S754_zero false;
     fl_accuracy := S754_zero false; fl_timestamp := 0 |}.

Definition no_sv : GpsSvInfo :=
  {| sv_prn := 0; sv_elevation := S754_zero false; sv_azimuth := S754_zero false;
     sv_snr := S754_zero false |}.

(** The reader sits inside [_gps_state]; [memset] clears every field. *)
Definition nmea_reader_init `{GpsHeader} (time_local time_utc : Z) : NmeaReader :=
  nmea_reader_update_utc_diff time_local time_utc
    {| nr_pos := 0; nr_overflow := false; utc_year := -1; utc_mon := -1; utc_day := -1;
       utc_diff := 0; nr_fix := no_location;
       sv_status := {| num_svs := 0; sv_list := replicate GPS_MAX_SVS no_sv;
                       used_in_fix_mask := 0 |};
       sv_status_changed := 0; nr_in := zero_array (NMEA_MAX_SIZE + 1) |}.

Section updates.
Context `{GpsHeader}.

Definition set_timestamp (t : Z) (f : GpsLocation) : GpsLocation :=
  {| fl_flags := fl_flags f; fl_latitude := fl_latitude f; fl_longitude := fl_longitude f;
     fl_altitude := fl_altitude f; fl_speed := fl_speed f; fl_bearing := fl_bearing f;
     fl_accuracy := fl_accuracy f; fl_timestamp := t |}.

Definition set_latlong (lat lon : double) (f : GpsLocation) : GpsLocation :=
  {| fl_flags := Z.lor (fl_flags f) GPS_LOCATION_HAS_LAT_LONG; fl_latitude := lat;
     fl_longitude := lon; fl_altitude := fl_altitude f; fl_speed := fl_speed f;
     fl_bearing := fl_bearing f; fl_accuracy := fl_accuracy f; fl_timestamp := fl_timestamp f |}.

Definition set_altitude (x : double) (f : GpsLocation) : GpsLocation :=
  {| fl_flags := Z.lor (fl_flags f) GPS_LOCATION_HAS_ALTITUDE; fl_latitude := fl_latitude f;
     fl_longitude := fl_longitude f; fl_altitude := x; fl_speed := fl_speed f;
     fl_bearing := fl_bearing f; fl_accuracy := fl_accuracy f; fl_timestamp := fl_timestamp f |}.

(** The accuracy, without its flag. *)
Definition set_accuracy (x : double) (f : GpsLocation) : GpsLocation :=
  {| fl_flags := fl_flags f; fl_latitude := fl_latitude f; fl_longitude := fl_longitude f;
     fl_altitude := fl_altitude f; fl_speed := fl_speed f; fl_bearing := fl_bearing f;
     fl_accuracy := x; fl_timestamp := fl_timestamp f |}.

Definition set_bearing (x : double) (f : GpsLocation) : GpsLocation :=
  {| fl_flags := Z.lor (fl_flags f) GPS_LOCATION_HAS_BEARING; fl_latitude := fl_latitude f;
     fl_longitude := fl_longitude f; fl_altitude := fl_altitude f; fl_speed := fl_speed f;
     fl_bearing := x; fl_accuracy := fl_accuracy f; fl_timestamp := fl_timestamp f |}.

Definition set_speed (x : double) (f : GpsLocation) : GpsLocation :=
  {| fl_flags := Z.lor (fl_flags f) GPS_LOCATION_HAS_SPEED; fl_latitude := fl_latitude f;
     fl_longitude := fl_longitude f; fl_altitude := fl_altitude f; fl_speed := x;
     fl_bearing := fl_bearing f; fl_accuracy := fl_accuracy f; fl_timestamp := fl_timestamp f |}.

Definition set_flags (z : Z) (f : GpsLocation) : GpsLocation :=
  {| fl_flags := z; fl_latitude := fl_latitude f; fl_longitude := fl_longitude f;
     fl_altitude := fl_altitude f; fl_speed := fl_speed f; fl_bearing := fl_bearing f;
     fl_accuracy := fl_accuracy f; fl_timestamp := fl_timestamp f |}.

(** The milliseconds of a time token of [hhmmss.fff]. *)
Definition milliseconds (s : list ascii) : option Z :=
  let left := Z.of_nat (length s) - 7 in
  if left =? 2 then (z ← str2int (drop 7 s); chk (z * 10))
  else if left =? 1 then (z ← str2int (drop 7 s); chk (z * 100))
  else if 3 <=? left then str2int (take 3 (drop 7 s))
  else Some 0.

(** The return value and the reader.  The product with 1000 is computed in
    64 bits and cannot overflow. *)
Definition nmea_reader_update_time (r : NmeaReader) (tok : Token) : option (Z * NmeaReader) :=
  let s := tok_bytes (nr_in r) tok in
  if (length s <? 6)%nat then Some (-1, r)
  else if utc_year r <? 0 then Some (-1, r)
  else
    (hour ← str2int (take 2 s);
     minute ← str2int (take 2 (drop 2 s));
     seconds ← str2int (take 2 (drop 4 s));
     ms ← milliseconds s;
     fix_time ← mkgmtime {| tm_year := utc_year r - 1900; tm_mon := utc_mon r - 1;
                            tm_mday := utc_day r; tm_hour := hour; tm_min := minute;
                            tm_sec := seconds |};
     Some (0, set_fix (set_timestamp (fix_time * 1000 + ms) (nr_fix r)) r)).

Definition nmea_reader_update_cdate (r : NmeaReader) (tok_d tok_m tok_y : Token)
    : option (Z * NmeaReader) :=
  let d := tok_bytes (nr_in r) tok_d in
  let m := tok_bytes (nr_in r) tok_m in
  let y := tok_bytes (nr_in r) tok_y in
  if (length d <? 2)%nat || (length m <? 2)%nat || (length y <? 4)%nat then Some (-1, r)
  else
    (day ← str2int (take 2 d);
     mon ← str2int (take 2 m);
     year ← str2int (take 4 y);
     Some (0, set_date year mon day r)).

Definition nmea_reader_update_date (r : NmeaReader) (date time : Token) : option (Z * NmeaReader) :=
  let s := tok_bytes (nr_in r) date in
  if negb (length s =? 6)%nat then Some (-1, r)
  else
    (day ← str2int (take 2 s);
     mon ← str2int (take 2 (drop 2 s));
     year ← str2int (take 2 (drop 4 s));
     let year := year + 2000 in
     if Z.lor (Z.lor day mon) year <? 0 then Some (-1, r)
     else nmea_reader_update_time (set_date year mon day r) time).

Definition convert_from_hhmm (s : list ascii) : option double :=
  let val := str2float s in
  degrees ← int_of_double (ddiv (dfloor val) (double_of_Z 100));
  let minutes := dsub val (dmul (double_of_Z degrees) (double_of_Z 100)) in
  Some (dadd (double_of_Z degrees) (ddiv minutes (double_of_Z 60))).

Definition nmea_reader_update_latlong (r : NmeaReader) (latitude : Token) (latitudeHemi : Z)
    (longitude : Token) (longitudeHemi : Z) : option (Z * NmeaReader) :=
  let slat := tok_bytes (nr_in r) latitude in
  let slon := tok_bytes (nr_in r) longitude in
  if (length slat <? 6)%nat then Some (-1, r)
  else
    (lat ← convert_from_hhmm slat;
     let lat := if latitudeHemi =? code "S" then dneg lat else lat in
     if (length slon <? 6)%nat then Some (-1, r)
     else
       (lon ← convert_from_hhmm slon;
        let lon := if longitudeHemi =? code "W" then dneg lon else lon in
        Some (0, set_fix (set_latlong lat lon (nr_fix r)) r))).

Definition nmea_reader_update_altitude (r : NmeaReader) (altitude units : Token) : Z * NmeaReader :=
  match tok_bytes (nr_in r) altitude with
  | [] => (-1, r)
  | s => (0, set_fix (set_altitude (str2float s) (nr_fix r)) r)
  end.

Definition nmea_reader_update_accuracy (r : NmeaReader) (accuracy : Token) : Z * NmeaReader :=
  match tok_bytes (nr_in r) accuracy with
  | [] => (-1, r)
  | s =>
      let f := set_accuracy (gps_float (str2float s)) (nr_fix r) in
      if deqb (fl_accuracy f) (dconst 9999 2) then (0, set_fix f r)
      else (0, set_fix (set_flags (Z.lor (fl_flags f) GPS_LOCATION_HAS_ACCURACY) f) r)
  end.

Definition nmea_reader_update_bearing (r : NmeaReader) (bearing : Token) : Z * NmeaReader :=
  match tok_bytes (nr_in r) bearing with
  | [] => (-1, r)
  | s => (0, set_fix (set_bearing (gps_float (str2float s)) (nr_fix r)) r)
  end.

Definition nmea_reader_update_speed (r : NmeaReader) (speed : Token) : Z * NmeaReader :=
  match tok_bytes (nr_in r) speed with
  | [] => (-1, r)
  | s =>
      let v := ddiv (dmul (str2float s) (dconst 1852 3)) (dconst 36 1) in
      (0, set_fix (set_speed (gps_float v) (nr_fix r)) r)
  end.

(** ** Sentences

    Each is a branch of [nmea_reader_parse]; the return values of the updates
    are ignored there. *)

Definition parse_GGA (r : NmeaReader) (tz : list Token) : option NmeaReader :=
  let tok i := nmea_tokenizer_get tz i in
  let b := nr_in r in
  if (code "0" <? tok_p0 b (tok 6%nat)) && (0 <=? utc_year r) then
    ('(_, r) ← nmea_reader_update_latlong r (tok 2%nat) (tok_p0 b (tok 3%nat))
                 (tok 4%nat) (tok_p0 b (tok 5%nat));
     Some (nmea_reader_update_altitude r (tok 9%nat) (tok 10%nat)).2)
  else Some r.

Definition parse_GLL (r : NmeaReader) (tz : list Token) : option NmeaReader :=
  let tok i := nmea_tokenizer_get tz i in
  let b := nr_in r in
  if (tok_p0 b (tok 6%nat) =? code "A") && (0 <=? utc_year r) then
    ('(_, r) ← nmea_reader_update_latlong r (tok 1%nat) (tok_p0 b (tok 2%nat))
                 (tok 3%nat) (tok_p0 b (tok 4%nat));
     Some r)
  else Some r.

(** [mask |= 1ul << (32 - prn)], undefined unless the count is 0 to 31. *)
Definition mask_prn (prn mask : Z) : option Z :=
  if (0 <=? 32 - prn) && (32 - prn <? 32)
  then Some (uint32 (Z.lor mask (Z.shiftl 1 (32 - prn)))) else None.

(** The loop over the tokens from [i] on, [n] of them. *)
Fixpoint gsa_loop (b : carray) (tz : list Token) (i n : nat) (mask changed : Z) : option (Z * Z) :=
  match n with
  | O => Some (mask, changed)
  | Datatypes.S n' =>
      prn ← str2int (tok_bytes b (nmea_tokenizer_get tz i));
      if 0 <? prn
      then (mask ← mask_prn prn mask; gsa_loop b tz (Datatypes.S i) n' mask 1)
      else gsa_loop b tz (Datatypes.S i) n' mask changed
  end.

Definition parse_GSA (r : NmeaReader) (tz : list Token) : option NmeaReader :=
  let tok i := nmea_tokenizer_get tz i in
  let b := nr_in r in
  let status := tok_p0 b (tok 2%nat) in
  if negb (status =? 0) && negb (status =? code "1") then
    let r := (nmea_reader_update_accuracy r (tok 15%nat)).2 in
    ('(mask, changed) ← gsa_loop b tz 3 12 0 (sv_status_changed r);
     let s := sv_status r in
     Some (set_sv {| num_svs := num_svs s; sv_list := sv_list s; used_in_fix_mask := mask |}
             changed r))
  else Some r.

(** The loop [while (i < 4 && num_svs < noSatellites)], [n] rounds left.
    [curr] equals [num_svs] in every round.  The code does not compare [curr]
    with the size of [sv_list]: [None] is the write past its end, an undefined
    behaviour, which the exact bound of [GpsSpec.gsv_bound] characterises. *)
Fixpoint gsv_loop (b : carray) (tz : list Token) (total : Z) (i n : nat)
    (curr : Z) (s : GpsSvStatus) : option GpsSvStatus :=
  match n with
  | O => Some s
  | Datatypes.S n' =>
      if num_svs s <? total then
        let tok k := tok_bytes b (nmea_tokenizer_get tz (i * 4 + k)%nat) in
        (prn ← str2int (tok 4%nat);
         if (0 <=? curr) && (curr <? Z.of_nat (length (sv_list s))) then
           gsv_loop b tz total (Datatypes.S i) n' (curr + 1)
             {| num_svs := num_svs s + 1;
                sv_list := <[Z.to_nat curr :=
                  {| sv_prn := prn; sv_elevation := gps_float (str2float (tok 5%nat));
                     sv_azimuth := gps_float (str2float (tok 6%nat));
                     sv_snr := gps_float (str2float (tok 7%nat)) |}]> (sv_list s);
                used_in_fix_mask := used_in_fix_mask s |}
         else None)
      else Some s
  end.

Definition parse_GSV (r : NmeaReader) (tz : list Token) : option NmeaReader :=
  let b := nr_in r in
  let num i := str2int (tok_bytes b (nmea_tokenizer_get tz i)) in
  total ← num 3%nat;
  if 0 <? total then
    (sentence ← num 2%nat;
     totalSentences ← num 1%nat;
     let s := sv_status r in
     let r :=
       if sentence =? 1
       then set_sv {| num_svs := 0; sv_list := sv_list s;
                      used_in_fix_mask := used_in_fix_mask s |} 0 r
       else r in
     s ← gsv_loop b tz total 0 4 (num_svs (sv_status r)) (sv_status r);
     Some (set_sv s (if sentence =? totalSentences then 1 else sv_status_changed r) r))
  else Some r.

Definition parse_RMC (r : NmeaReader) (tz : list Token) : option NmeaReader :=
  let tok i := nmea_tokenizer_get tz i in
  let b := nr_in r in
  if tok_p0 b (tok 2%nat) =? code "A" then
    ('(_, r) ← nmea_reader_update_date r (tok 9%nat) (tok 1%nat);
     '(_, r) ← nmea_reader_update_latlong r (tok 3%nat) (tok_p0 b (tok 4%nat))
                 (tok 5%nat) (tok_p0 b (tok 6%nat));
     let r := (nmea_reader_update_bearing r (tok 8%nat)).2 in
     Some (nmea_reader_update_speed r (tok 7%nat)).2)
  else Some r.

Definition parse_VTG (r : NmeaReader) (tz : list Token) : option NmeaReader :=
  let tok i := nmea_tokenizer_get tz i in
  let b := nr_in r in
  let status := tok_p0 b (tok 9%nat) in
  if negb (status =? 0) && negb (status =? code "N") then
    let r := (nmea_reader_update_bearing r (tok 1%nat)).2 in
    Some (nmea_reader_update_speed r (tok 5%nat)).2
  else Some r.

Definition parse_ZDA (r : NmeaReader) (tz : list Token) : option NmeaReader :=
  let tok i := nmea_tokenizer_get tz i in
  let b := nr_in r in
  if negb (tok_p0 b (tok 4%nat) =? 0) && negb (tok_p0 b (tok 1%nat) =? 0) then
    ('(_, r) ← nmea_reader_update_cdate r (tok 2%nat) (tok 3%nat) (tok 4%nat);
     '(_, r) ← nmea_reader_update_time r (tok 1%nat);
     Some r)
  else Some r.

Definition is_id (s : list ascii) (id : string) : bool :=
  bool_decide (take 3 (drop 2 s) = list_ascii_of_string id).

(** The chain of comparisons of [nmea_reader_parse] with the sentence id. *)
Definition parse_branch (r : NmeaReader) (tz : list Token) (id : list ascii) : option NmeaReader :=
  if is_id id "GGA" then parse_GGA r tz
  else if is_id id "GLL" then parse_GLL r tz
  else if is_id id "GSA" then parse_GSA r tz
  else if is_id id "GSV" then parse_GSV r tz
  else if is_id id "RMC" then parse_RMC r tz
  else if is_id id "VTG" then parse_VTG r tz
  else if is_id id "ZDA" then parse_ZDA r tz
  else Some r.
End updates.

(** ** An instance of the header, for examples *)

(** The values of the header that comes with Android. *)
Definition float_of_double (x : double) : double :=
  match x with
  | S754_finite s m e => binary_round 24 128 s m e
  | _ => x
  end.

Definition android_gps : GpsHeader := {|
  GPS_LOCATION_HAS_LAT_LONG := 1; GPS_LOCATION_HAS_ALTITUDE := 2; GPS_LOCATION_HAS_SPEED := 4;
  GPS_LOCATION_HAS_BEARING := 8; GPS_LOCATION_HAS_ACCURACY := 16;
  GPS_STATUS_SESSION_BEGIN := 1; GPS_STATUS_SESSION_END := 2; GPS_STATUS_ENGINE_ON := 3;
  GPS_STATUS_ENGINE_OFF := 4; GPS_POSITION_MODE_STANDALONE := 0; GPS_MAX_SVS := 32;
  gps_float := float_of_double
|}.

(** ** Specifications *)

(** *** The calendar *)

Definition leap (y : Z) : bool :=
  (y `mod` 4 =? 0) && (negb (y `mod` 100 =? 0) || (y `mod` 400 =? 0)).

Definition month_days (y m : Z) : Z :=
  if m =? 2 then (if leap y then 29 else 28)
  else if bool_decide (m ∈ [4; 6; 9; 11]) then 30 else 31.

Definition year_days (y : Z) : Z := if leap y then 366 else 365.

Fixpoint days_of_years (y : Z) (n : nat) : Z :=
  match n with O => 0 | Datatypes.S n' => year_days y + days_of_years (y + 1) n' end.

Fixpoint days_of_months (y m : Z) (n : nat) : Z :=
  match n with O => 0 | Datatypes.S n' => month_days y m + days_of_months y (m + 1) n' end.

(** Seconds from 1970-01-01 00:00:00 UTC, counting every year and month. *)
Definition epoch_seconds (y mo d h mi s : Z) : Z :=
  let days := days_of_years 1970 (Z.to_nat (y - 1970)) +
              days_of_months y 1 (Z.to_nat (mo - 1)) + (d - 1) in
  ((days * 24 + h) * 60 + mi) * 60 + s.

(** The days the C formula counts before the month [month] (from 0) of [year]. *)
Definition formula_days (year month : Z) : Z :=
  let y := if month <=? 1 then year - 1 else year in
  (year - 1970) * 365 + default 0 (m_to_d !! Z.to_nat month) +
  (y - 1968) `div` 4 - (y - 1900) `div` 100 + (y - 1600) `div` 400.

Lemma days_of_years_last y n :
  days_of_years y (Datatypes.S n) = days_of_years y n + year_days (y + Z.of_nat n).
Proof.
  revert y. induction n as [|n IH]; intros y.
  - change (year_days y + 0 = 0 + year_days (y + 0)). rewrite !Z.add_0_r. lia.
  - change (days_of_years y (Datatypes.S (Datatypes.S n)))
      with (year_days y + days_of_years (y + 1) (Datatypes.S n)).
    rewrite IH, Nat2Z.inj_succ.
    replace (y + 1 + Z.of_nat n) with (y + Z.succ (Z.of_nat n)) by lia. simpl. lia.
Qed.

Lemma days_of_years_formula n :
  days_of_years 1970 n =
    let y := 1970 + Z.of_nat n in
    (y - 1970) * 365 + (y - 1 - 1968) `div` 4 - (y - 1 - 1900) `div` 100 + (y - 1 - 1600) `div` 400.
Proof.
  induction n as [|n IH]; [reflexivity|]. rewrite days_of_years_last, IH. cbv zeta.
  unfold year_days, leap. rewrite Nat2Z.inj_succ.
  destruct (Z.eqb_spec ((1970 + Z.of_nat n) `mod` 4) 0),
    (Z.eqb_spec ((1970 + Z.of_nat n) `mod` 100) 0),
    (Z.eqb_spec ((1970 + Z.of_nat n) `mod` 400) 0); simpl;
    Z.to_euclidean_division_equations; lia.
Qed.

Lemma leap_step y :
  (y - 1968) `div` 4 - (y - 1900) `div` 100 + (y - 1600) `div` 400 =
  (y - 1 - 1968) `div` 4 - (y - 1 - 1900) `div` 100 + (y - 1 - 1600) `div` 400 +
  (if leap y then 1 else 0).
Proof.
  unfold leap.
  destruct (Z.eqb_spec (y `mod` 4) 0), (Z.eqb_spec (y `mod` 100) 0),
    (Z.eqb_spec (y `mod` 400) 0); simpl; Z.to_euclidean_division_equations; lia.
Qed.

Lemma formula_days_correct y mo :
  1970 ≤ y → 1 ≤ mo ≤ 12 →
  formula_days y (mo - 1) =
    days_of_years 1970 (Z.to_nat (y - 1970)) + days_of_months y 1 (Z.to_nat (mo - 1)).
Proof.
  intros Hy Hm. rewrite days_of_years_formula. unfold formula_days.
  replace (1970 + Z.of_nat (Z.to_nat (y - 1970))) with y by lia. cbv zeta.
  pose proof (leap_step y) as Hl.
  assert (Hcase : mo ∈ [1;2;3;4;5;6;7;8;9;10;11;12]) by (rewrite !elem_of_cons; lia).
  cases_in Hcase; subst mo; simpl; unfold month_days; simpl; destruct (leap y); lia.
Qed.

Lemma chk_id z : is_int32 z → chk z = Some z.
Proof.
  unfold is_int32, chk. intros. destruct (Z.leb_spec INT_MIN z), (Z.leb_spec z INT_MAX); simpl; auto; lia.
Qed.

Lemma chk_Some z z' : chk z = Some z' → z' = z ∧ is_int32 z.
Proof.
  unfold is_int32, chk. destruct (Z.leb_spec INT_MIN z), (Z.leb_spec z INT_MAX); simpl; intros [= <-]; auto.
Qed.

Lemma short_id z : -32768 ≤ z ≤ 32767 → short z = z.
Proof. unfold short. intros. rewrite Z.mod_small; lia. Qed.

(** The checked products and sums are those of the last one when the terms
    are not negative. *)
Lemma chk_chain d h mi s :
  0 ≤ d → 0 ≤ h → 0 ≤ mi → 0 ≤ s →
  (r ← chk (d + 1); r ← chk (r - 1); r ← chk (r * 24); r ← chk (r + h); r ← chk (r * 60);
   r ← chk (r + mi); r ← chk (r * 60); chk (r + s)) = chk (((d * 24 + h) * 60 + mi) * 60 + s).
Proof.
  intros. destruct (decide (is_int32 (((d * 24 + h) * 60 + mi) * 60 + s))) as [Hi|Hi].
  - unfold is_int32, INT_MIN, INT_MAX in *.
    assert (d + 1 ≤ 2147483647 ∨ d = 0) by lia.
    repeat (rewrite chk_id by (unfold is_int32, INT_MIN, INT_MAX; lia); simpl).
    f_equal. lia.
  - assert (E : chk (((d * 24 + h) * 60 + mi) * 60 + s) = None).
    { destruct (chk _) eqn:E; [|done]. by apply chk_Some in E as [_ ?]. }
    rewrite E.
    repeat match goal with
    | |- context [chk ?x] => destruct (chk x) as [?|] eqn:?; simpl; [|done]
    end; repeat match goal with H : chk _ = Some _ |- _ => apply chk_Some in H as [-> ?] end.
    exfalso. apply Hi. by replace (d + 1 - 1) with d in * by lia.
Qed.

Lemma formula_days_nonneg y mo :
  1970 ≤ y → 1 ≤ mo ≤ 12 → 0 ≤ formula_days y (mo - 1).
Proof.
  intros Hy Hm. rewrite formula_days_correct by done.
  assert (Hd : ∀ n x, 0 ≤ days_of_years x n).
  { induction n as [|n IH]; intros x; simpl; [lia|]. specialize (IH (x + 1)).
    unfold year_days. destruct (leap x); lia. }
  assert (He : ∀ n x, 0 ≤ days_of_months y x n).
  { induction n as [|n IH]; intros x; simpl; [lia|]. specialize (IH (x + 1)).
    unfold month_days. repeat case_match; lia. }
  specialize (Hd (Z.to_nat (y - 1970)) 1970). specialize (He (Z.to_nat (mo - 1)) 1). lia.
Qed.

(** On a date from 1970 on, the C code computes [formula_days]. *)
Lemma mkgmtime_formula y mo d h mi s :
  1970 ≤ y ≤ 9999 → 1 ≤ mo ≤ 12 →
  mkgmtime {| tm_year := y - 1900; tm_mon := mo - 1; tm_mday := d;
              tm_hour := h; tm_min := mi; tm_sec := s |} =
  (r ← chk (formula_days y (mo - 1) + d); r ← chk (r - 1); r ← chk (r * 24); r ← chk (r + h);
   r ← chk (r * 60); r ← chk (r + mi); r ← chk (r * 60); chk (r + s)).
Proof.
  intros Hy Hm. unfold mkgmtime, formula_days. cbn [tm_year tm_mon tm_mday tm_hour tm_min tm_sec].
  rewrite (short_id (mo - 1)), (Z.quot_small (mo - 1)), (Z.rem_small (mo - 1)) by lia.
  rewrite Z.add_0_r, chk_id by (unfold is_int32, INT_MIN, INT_MAX; lia). simpl.
  replace (y - 1900 + 1900) with y by lia.
  rewrite chk_id by (unfold is_int32, INT_MIN, INT_MAX; lia). simpl.
  rewrite (short_id y) by lia.
  destruct (Z.ltb_spec (mo - 1) 0) as [?|_]; [lia|].
  destruct (m_to_d !! Z.to_nat (mo - 1)) as [md|] eqn:Emd.
  2: { apply lookup_ge_None in Emd. simpl in Emd. lia. }
  simpl. destruct (Z.leb_spec (mo - 1) 1) as [?|?].
  - rewrite (short_id (y - 1)) by lia. by rewrite !Z.quot_div_nonneg by lia.
  - by rewrite !Z.quot_div_nonneg by lia.
Qed.

Lemma epoch_seconds_nonneg y mo d h mi s :
  1970 ≤ y → 1 ≤ mo ≤ 12 → 1 ≤ d → 0 ≤ h → 0 ≤ mi → 0 ≤ s → 0 ≤ epoch_seconds y mo d h mi s.
Proof.
  intros Hy Hm Hd Hh Hmi Hs. pose proof (formula_days_nonneg y mo Hy Hm).
  unfold epoch_seconds. rewrite <-formula_days_correct by lia. lia.
Qed.

Lemma mkgmtime_chk y mo d h mi s :
  1970 ≤ y ≤ 9999 → 1 ≤ mo ≤ 12 → 1 ≤ d → 0 ≤ h → 0 ≤ mi → 0 ≤ s →
  mkgmtime {| tm_year := y - 1900; tm_mon := mo - 1; tm_mday := d;
              tm_hour := h; tm_min := mi; tm_sec := s |} = chk (epoch_seconds y mo d h mi s).
Proof.
  intros Hy Hm Hd Hh Hmi Hs. rewrite mkgmtime_formula by done.
  pose proof (formula_days_nonneg y mo) as Hn.
  replace (formula_days y (mo - 1) + d) with (formula_days y (mo - 1) + (d - 1) + 1) by lia.
  rewrite chk_chain by lia. by rewrite formula_days_correct by lia.
Qed.

(** C17: [mkgmtime] is the calendar.  For every date from 1970 on it returns the
    number of seconds that counting years and months one by one gives, as long
    as that fits the 32 bits of [time_t] (until January 2038); a later date
    overflows. *)
Theorem mkgmtime_spec (y mo d h mi s : Z) :
  1970 ≤ y ≤ 9999 → 1 ≤ mo ≤ 12 → 1 ≤ d ≤ 31 → 0 ≤ h → 0 ≤ mi → 0 ≤ s →
  mkgmtime {| tm_year := y - 1900; tm_mon := mo - 1; tm_mday := d;
              tm_hour := h; tm_min := mi; tm_sec := s |} =
  (if epoch_seconds y mo d h mi s <=? INT_MAX
   then Some (epoch_seconds y mo d h mi s) else None).
Proof.
  intros Hy Hm Hd Hh Hmi Hs. rewrite mkgmtime_chk by lia.
  pose proof (epoch_seconds_nonneg y mo d h mi s). unfold chk.
  destruct (Z.leb_spec INT_MIN (epoch_seconds y mo d h mi s)); [done|]. unfold INT_MIN in *. lia.
Qed.

Lemma mkgmtime_spec_witness :
  epoch_seconds 2009 2 13 23 31 30 = 1234567890 ∧
  mkgmtime {| tm_year := 2009 - 1900; tm_mon := 2 - 1; tm_mday := 13;
              tm_hour := 23; tm_min := 31; tm_sec := 30 |} =
  (if epoch_seconds 2009 2 13 23 31 30 <=? INT_MAX
   then Some (epoch_seconds 2009 2 13 23 31 30) else None).
Proof. split; [by vm_compute|]. apply mkgmtime_spec; lia. Defined.

(** *** Tokens *)

Definition is_comma (c : ascii) : bool := Ascii.eqb c ",".
Definition not_comma (c : ascii) : bool := negb (is_comma c).

(** The fields between the commas; there is always one. *)
Fixpoint split_commas (l : list ascii) : list ascii * list (list ascii) :=
  match l with
  | [] => ([], [])
  | c :: l' =>
      let '(f, fs) := split_commas l' in
      if is_comma c then ([], f :: fs) else (c :: f, fs)
  end.

(** The fields, without the last one when it is empty. *)
Fixpoint drop_empty_last (fs : list (list ascii)) : list (list ascii) :=
  match fs with
  | [] => []
  | [f] => match f with [] => [] | _ => [f] end
  | f :: fs' => f :: drop_empty_last fs'
  end.

Definition fields (l : list ascii) : list (list ascii) :=
  let '(f, fs) := split_commas l in drop_empty_last (f :: fs).

(** A suffix of a line, if it has it. *)
Definition strip_end (p : list ascii → bool) (n : nat) (l : list ascii) : list ascii :=
  if (n <=? length l)%nat && p (drop (length l - n) l) then take (length l - n) l else l.

Definition ends_LF (s : list ascii) : bool := bool_decide (s = [LF]).
Definition ends_CR (s : list ascii) : bool := bool_decide (s = [CR]).
Definition is_checksum (s : list ascii) : bool := bool_decide (head s = Some "*"%char).

(** What the tokenizer splits: the sentence without [$], line end and
    checksum. *)
Definition sentence_body (l : list ascii) : list ascii :=
  let l := match l with c :: l' => if Ascii.eqb c "$" then l' else l | [] => [] end in
  let l := if (0 <? length l)%nat && ends_LF (drop (length l - 1) l)
           then strip_end ends_CR 1 (take (length l - 1) l) else l in
  strip_end is_checksum 3 l.

Lemma fields_nil : fields [] = [].
Proof. reflexivity. Qed.

Lemma split_commas_span l :
  split_commas l =
  (take_while not_comma l,
   match drop_while not_comma l with
   | [] => []
   | _ :: l' => let '(f, fs) := split_commas l' in f :: fs
   end).
Proof.
  induction l as [|c l IH]; [reflexivity|]. cbn [split_commas take_while drop_while].
  replace (not_comma c) with (negb (is_comma c)) by done.
  destruct (is_comma c); cbn [negb]; [by destruct (split_commas l)|]. by rewrite IH.
Qed.

Lemma fields_cons l :
  l ≠ [] →
  fields l = take_while not_comma l :: fields (drop 1 (drop_while not_comma l)).
Proof.
  intros Hl. unfold fields. rewrite split_commas_span.
  destruct (drop_while not_comma l) as [|c l'] eqn:E; simpl.
  - destruct (take_while not_comma l) eqn:Et; [|done].
    pose proof (take_drop_while not_comma l) as H. rewrite E, Et in H. by destruct l.
  - rewrite drop_0. by destruct (split_commas l') as [f fs].
Qed.

Lemma memchr_comma_spec b p n :
  (p + n ≤ length b)%nat →
  memchr_comma b p n = (p + length (take_while not_comma (take n (drop p b))))%nat.
Proof.
  revert p. induction n as [|n IH]; intros p Hp; simpl; [lia|].
  destruct (lookup_lt_is_Some_2 b p) as [c Hc]; [lia|].
  rewrite (drop_S b c p Hc). simpl. rewrite Hc.
  unfold not_comma at 1, is_comma. case_bool_decide as Hb.
  - injection Hb as ->. simpl. lia.
  - destruct (Ascii.eqb_spec c ","%char) as [->|?]; [done|]. simpl. rewrite IH by lia. lia.
Qed.

(** The loop makes the fields of what lies between the bounds. *)
Lemma tokenizer_loop_spec fuel b p e count :
  (e - p ≤ fuel)%nat → (e ≤ length b)%nat →
  map (tok_bytes b) (tokenizer_loop fuel b p e count) =
  take (MAX_NMEA_TOKENS - count) (fields (take (e - p) (drop p b))).
Proof.
  revert p count. induction fuel as [|fuel IH]; intros p count Hf He; cbn [tokenizer_loop].
  { replace (e - p)%nat with 0%nat by lia. by rewrite take_0, fields_nil, take_nil. }
  destruct (Nat.ltb_spec p e) as [Hlt|Hge].
  2: { replace (e - p)%nat with 0%nat by lia. by rewrite take_0, fields_nil, take_nil. }
  rewrite memchr_comma_spec by lia.
  set (l := take (e - p) (drop p b)). set (k := length (take_while not_comma l)).
  assert (Hlen : length l = (e - p)%nat) by (unfold l; rewrite length_take, length_drop; lia).
  assert (Hk : (k ≤ e - p)%nat).
  { rewrite <-Hlen. apply take_while_length. }
  rewrite fields_cons by (intros E; rewrite E in Hlen; simpl in Hlen; lia).
  assert (Htok : tok_bytes b (Tok p (p + k)) = take_while not_comma l).
  { simpl. replace (p + k - p)%nat with k by lia.
    rewrite (take_while_take not_comma l). fold k. unfold l. rewrite take_take. f_equal. lia. }
  assert (Hfuel : (e - (if (p + k <? e)%nat then Datatypes.S (p + k) else (p + k)%nat) ≤ fuel)%nat)
    by (destruct (Nat.ltb_spec (p + k) e); lia).
  assert (Hrest : take (e - (if (p + k <? e)%nat then Datatypes.S (p + k) else (p + k)%nat))
                    (drop (if (p + k <? e)%nat then Datatypes.S (p + k) else (p + k)%nat) b) =
                  drop 1 (drop_while not_comma l)).
  { rewrite drop_while_skip. fold k. unfold l. rewrite drop_drop, skipn_firstn_comm, drop_drop.
    destruct (Nat.ltb_spec (p + k) e).
    - f_equal; [lia|]. f_equal. lia.
    - replace (e - (p + k))%nat with 0%nat by lia.
      by replace (e - p - (k + 1))%nat with 0%nat by lia. }
  destruct (Nat.ltb_spec count MAX_NMEA_TOKENS).
  - rewrite map_cons, Htok, IH by lia. rewrite Hrest.
    by replace (MAX_NMEA_TOKENS - count)%nat with (Datatypes.S (MAX_NMEA_TOKENS - Datatypes.S count)) by lia.
  - rewrite IH by lia. by replace (MAX_NMEA_TOKENS - count)%nat with 0%nat by lia.
Qed.

(** The bytes from [p] to [e]. *)
Abbreviation slice b p e := (take (e - p) (drop p (b : list ascii))).

Lemma slice_length b p e : (e ≤ length b)%nat → length (slice b p e) = (e - p)%nat.
Proof. rewrite length_take, length_drop. lia. Qed.

Lemma slice_end b p e n :
  (0 < n ≤ e - p)%nat → (e ≤ length b)%nat →
  drop (length (slice b p e) - n) (slice b p e) = take n (drop (e - n) b).
Proof.
  intros. rewrite slice_length, skipn_firstn_comm, drop_drop by done.
  f_equal; [lia|]. f_equal. lia.
Qed.

Lemma slice_take b p e n :
  (n ≤ e - p)%nat → (e ≤ length b)%nat →
  take (length (slice b p e) - n) (slice b p e) = slice b p (e - n).
Proof. intros. rewrite slice_length, take_take by done. f_equal. lia. Qed.

Lemma take_1_drop (b : list ascii) i c : b !! i = Some c → take 1 (drop i b) = [c].
Proof. intros H. by rewrite (drop_S b c i H). Qed.

Lemma ends_last (b : list ascii) i c (p : list ascii → bool) :
  (∀ x, p [x] = bool_decide (x = c)) → (i < length b)%nat →
  p (take 1 (drop i b)) = byte_is b i c.
Proof.
  intros Hp Hi. destruct (lookup_lt_is_Some_2 b i Hi) as [x Hx].
  rewrite (take_1_drop _ _ _ Hx), Hp. unfold byte_is. rewrite Hx.
  apply bool_decide_ext. naive_solver.
Qed.

Lemma ends_LF_last b i :
  (i < length b)%nat → ends_LF (take 1 (drop i b)) = byte_is b i LF.
Proof. apply ends_last. intros x. apply bool_decide_ext. naive_solver. Qed.

Lemma ends_CR_last b i :
  (i < length b)%nat → ends_CR (take 1 (drop i b)) = byte_is b i CR.
Proof. apply ends_last. intros x. apply bool_decide_ext. naive_solver. Qed.

Lemma is_checksum_drop b i :
  (i < length b)%nat → is_checksum (take 3 (drop i b)) = byte_is b i "*"%char.
Proof.
  intros Hi. destruct (lookup_lt_is_Some_2 b i Hi) as [x Hx].
  unfold is_checksum, byte_is. by rewrite (drop_S b x i Hx), Hx.
Qed.

(** One end stripped: a byte that ends the slice, or the three bytes of a
    checksum. *)
Lemma strip_end_slice b p e n (q : list ascii → bool) (t : bool) :
  (0 < n)%nat → (e ≤ length b)%nat →
  ((n ≤ e - p)%nat → q (take n (drop (e - n) b)) = t) →
  strip_end q n (slice b p e) =
  slice b p (if (n <=? e - p)%nat && t then (e - n)%nat else e).
Proof.
  intros Hn He Hq. unfold strip_end. rewrite (slice_length _ _ _ He) at 1.
  destruct (Nat.leb_spec n (e - p)); simpl; [|done].
  rewrite slice_end, Hq by done. destruct t; [|done]. by apply slice_take.
Qed.

Lemma sentence_body_spec b e :
  (e ≤ length b)%nat →
  let '(p, e') := tokenizer_bounds b e in
  slice b p e' = sentence_body (take e b) ∧ (e' ≤ length b)%nat.
Proof.
  intros He. unfold tokenizer_bounds, sentence_body.
  set (p := if (0 <? e)%nat && byte_is b 0 "$"%char then 1%nat else 0%nat).
  assert (Hl : match take e b with c :: l' => if Ascii.eqb c "$" then l' else take e b | [] => [] end =
               slice b p e).
  { unfold p, byte_is. destruct b as [|c b], e as [|e]; simpl in He; try lia; try done.
    simpl. case_bool_decide as Hc.
    - injection Hc as ->. simpl. by rewrite Nat.sub_0_r.
    - destruct (Ascii.eqb_spec c "$"%char); [congruence|done]. }
  cbv zeta. rewrite Hl. clear Hl.
  rewrite (slice_length _ _ _ He).
  replace ((0 <? e - p)%nat && ends_LF (drop (e - p - 1) (slice b p e)))
    with ((p <? e)%nat && byte_is b (e - 1) LF).
  2: { destruct (Nat.ltb_spec p e), (Nat.ltb_spec 0 (e - p)); try lia; simpl; try done.
       replace (e - p - 1)%nat with (length (slice b p e) - 1)%nat by (by rewrite slice_length). rewrite slice_end by lia. by rewrite ends_LF_last by lia. }
  set (e1 := if (p <? e)%nat && byte_is b (e - 1) LF then _ else e).
  assert (He1 : (e1 ≤ length b)%nat) by (unfold e1; repeat case_match; lia).
  match goal with |- context [strip_end is_checksum 3 ?l] =>
    assert (Hl1 : l = slice b p e1); [|rewrite Hl1] end.
  { unfold e1. destruct (Nat.ltb_spec p e); simpl; [|done]. destruct (byte_is b (e - 1) LF); [|done].
    replace (e - p - 1)%nat with (length (slice b p e) - 1)%nat by (by rewrite slice_length). rewrite slice_take by lia.
    rewrite (strip_end_slice b p (e - 1) 1 ends_CR (byte_is b (e - 1 - 1) CR)) by
      (try lia; intros; apply ends_CR_last; lia).
    by replace (1 <=? e - 1 - p)%nat with (p <? e - 1)%nat
      by (destruct (Nat.ltb_spec p (e - 1)), (Nat.leb_spec 1 (e - 1 - p)); lia). }
  rewrite (strip_end_slice b p e1 3 is_checksum (byte_is b (e1 - 3) "*")) by
    (try lia; intros; apply is_checksum_drop; lia).
  replace (3 <=? e1 - p)%nat with (p + 3 <=? e1)%nat
    by (destruct (Nat.leb_spec (p + 3) e1), (Nat.leb_spec 3 (e1 - p)); lia).
  split; [done|]. repeat case_match; lia.
Qed.

Lemma tokens_fields (b : carray) (e : nat) :
  (e ≤ length b)%nat →
  map (tok_bytes b) (nmea_tokenizer_init b e) =
  take MAX_NMEA_TOKENS (fields (sentence_body (take e b))).
Proof.
  intros He. pose proof (sentence_body_spec b e He) as Hs. unfold nmea_tokenizer_init.
  destruct (tokenizer_bounds b e) as [p e']. destruct Hs as [<- Hl].
  by rewrite tokenizer_loop_spec by lia.
Qed.

Lemma get_field b tz i :
  tok_bytes b (nmea_tokenizer_get tz i) = default [] (map (tok_bytes b) tz !! i).
Proof.
  unfold nmea_tokenizer_get. rewrite list_lookup_fmap. by destruct (tz !! i) as [t|].
Qed.

(** C18: the tokenizer cuts a sentence at its commas.  For every content of
    the buffer, the [i]th token that [nmea_tokenizer_get] returns is the [i]th
    field of the sentence without its dollar sign, its line end and its
    checksum, where an empty last field does not count; it is empty beyond the
    last field and beyond [MAX_NMEA_TOKENS], and the count is that of these
    fields. *)
Theorem nmea_tokenizer_spec (b : carray) (e : nat) :
  (e ≤ length b)%nat →
  let fs := fields (sentence_body (take e b)) in
  length (nmea_tokenizer_init b e) = Nat.min MAX_NMEA_TOKENS (length fs) ∧
  ∀ i, tok_bytes b (nmea_tokenizer_get (nmea_tokenizer_init b e) i) =
       if (i <? MAX_NMEA_TOKENS)%nat then default [] (fs !! i) else [].
Proof.
  intros He fs. pose proof (tokens_fields b e He) as Hm. fold fs in Hm. split.
  - by rewrite <-(length_map (tok_bytes b)), Hm, length_take.
  - intros i. rewrite get_field, Hm. destruct (Nat.ltb_spec i MAX_NMEA_TOKENS).
    + by rewrite lookup_take_lt.
    + by rewrite lookup_take_ge.
Qed.

Lemma nmea_tokenizer_spec_witness :
  let b := list_ascii_of_string ("$GPVTG,054.7,T,,M,*34" +:+ String CR (String LF "stale")) in
  let fs := fields (sentence_body (take 23 b)) in
  fs = map list_ascii_of_string ["GPVTG"; "054.7"; "T"; ""; "M"] ∧
  length (nmea_tokenizer_init b 23) = Nat.min MAX_NMEA_TOKENS (length fs) ∧
  ∀ i, tok_bytes b (nmea_tokenizer_get (nmea_tokenizer_init b 23) i) =
       if (i <? MAX_NMEA_TOKENS)%nat then default [] (fs !! i) else [].
Proof. split; [by vm_compute|]. apply nmea_tokenizer_spec. vm_compute. lia. Defined.
