(* ===== verification/NmeaCoord.v ===== *)
(** * Coordinates: what is printed and what is stored

    A printer of the coordinate fields of NMEA sentences - degrees, minutes and
    a decimal fraction of minutes - and the theorem that [convert_from_hhmm]
    gives a double within [10^-11] degrees of the coordinate printed. *)

From Stdlib Require Import Reals Lra.
From S2P Require Import Prelude CString CDouble CDoubleFacts Nmea.

Open Scope Z_scope.

(** ** Digits *)

Definition dig (n : Z) : ascii := ascii_of_N (Z.to_N (48 + n)).
Definition pad2 (n : Z) : list ascii := [dig (n / 10); dig (n mod 10)].
Definition pad3 (n : Z) : list ascii := [dig (n / 100); dig (n / 10 mod 10); dig (n mod 10)].

Lemma code_dig n : 0 ≤ n ≤ 9 → code (dig n) = 48 + n.
Proof.
  intros Hn. unfold code, dig. rewrite N_ascii_embedding by lia. lia.
Qed.

Lemma str2int_loop_dig n s r :
  0 ≤ n ≤ 9 → 0 ≤ r ≤ 1000000 → str2int_loop (dig n :: s) r = str2int_loop s (r * 10 + n).
Proof.
  intros Hn Hr. cbn [str2int_loop]. rewrite code_dig by done.
  replace (48 + n - 48) with n by lia.
  rewrite (proj2 (Z.ltb_ge n 0)), (proj2 (Z.leb_gt 10 n)) by lia. cbn [orb].
  rewrite chk_id by (unfold is_int32, INT_MIN, INT_MAX; lia). cbn [mbind option_bind].
  by rewrite chk_id by (unfold is_int32, INT_MIN, INT_MAX; lia).
Qed.

Lemma str2int_pad2 n : 0 ≤ n ≤ 99 → str2int (pad2 n) = Some n.
Proof.
  intros Hn. unfold pad2, str2int.
  rewrite !str2int_loop_dig by (Z.to_euclidean_division_equations; lia). cbn [str2int_loop].
  f_equal. Z.to_euclidean_division_equations; lia.
Qed.

Lemma str2int_pad3 n : 0 ≤ n ≤ 999 → str2int (pad3 n) = Some n.
Proof.
  intros Hn. unfold pad3, str2int.
  rewrite !str2int_loop_dig by (Z.to_euclidean_division_equations; lia). cbn [str2int_loop].
  f_equal. Z.to_euclidean_division_equations; lia.
Qed.

(** ** Coordinates *)

(** Degrees, minutes, and the digits of the decimal fraction of the minutes. *)
Record Coord := MkCoord { co_deg : Z; co_min : Z; co_digits : list Z }.

Definition is_digit (n : Z) : Prop := 0 ≤ n ≤ 9.

Definition coord_ok (c : Coord) : Prop :=
  0 ≤ co_deg c ≤ 180 ∧ 0 ≤ co_min c ≤ 59 ∧ Forall is_digit (co_digits c) ∧ co_digits c ≠ [].

(** The numeral of digits. *)
Definition numeral (ds : list Z) : Z := foldl (λ a d, a * 10 + d) 0 ds.

(** The coordinate, in degrees: a minute is a 60th. *)
Definition coord_degrees (c : Coord) : R :=
  (IZR (co_deg c) + (IZR (co_min c) + IZR (numeral (co_digits c)) / 10 ^ length (co_digits c)) / 60)%R.

(** The field: two digits for the degrees of a latitude, three for those of a
    longitude, two for the minutes, and the fraction after a point. *)
Definition coord_tail (c : Coord) : list ascii := pad2 (co_min c) ++ "."%char :: (dig <$> co_digits c).

Definition lat_field (c : Coord) : list ascii := pad2 (co_deg c) ++ coord_tail c.
Definition lon_field (c : Coord) : list ascii := pad3 (co_deg c) ++ coord_tail c.

(** ** Numerals *)

Lemma dig_facts n :
  is_digit n → digit_of (dig n) = n ∧ is_space (dig n) = false ∧ not_nul (dig n) = true ∧
    Ascii.eqb (dig n) "x" = false ∧ Ascii.eqb (dig n) "X" = false ∧
    Ascii.eqb (dig n) "-" = false ∧ Ascii.eqb (dig n) "+" = false.
Proof.
  unfold is_digit. intros Hn.
  assert (Hc : n ∈ [0; 1; 2; 3; 4; 5; 6; 7; 8; 9]) by (rewrite !elem_of_cons; lia).
  by cases_in Hc; subst n.
Qed.

Definition digits_string (ds : list Z) (s : string) : string :=
  foldr (λ d, String (dig d)) s ds.

Lemma scan_digits_digits ds acc n s :
  Forall is_digit ds → (∀ c s', s = String c s' → (digit_of c <? 10) = false) →
  scan_digits 10 acc n (digits_string ds s) = (foldl (λ a d, a * 10 + d) acc ds, (n + length ds)%nat, s).
Proof.
  intros Hds Hs. revert acc n. induction Hds as [|d ds Hd _ IH]; intros acc n; cbn [digits_string foldr].
  - rewrite Nat.add_0_r. destruct s as [|c s]; [done|]. cbn [scan_digits]. by rewrite (Hs c s).
  - cbn [scan_digits]. destruct (dig_facts d Hd) as (-> & _). rewrite (proj2 (Z.ltb_lt _ _)) by (destruct Hd; lia).
    fold (digits_string ds s). rewrite IH. cbn [length foldl]. by rewrite Nat.add_succ_r.
Qed.

Lemma foldl_numeral ds acc :
  foldl (λ a d, a * 10 + d) acc ds = acc * 10 ^ Z.of_nat (length ds) + numeral ds.
Proof.
  unfold numeral. revert acc. induction ds as [|d ds IH]; intros acc; cbn [foldl length]; [lia|].
  rewrite (IH (acc * 10 + d)), (IH (0 * 10 + d)), Nat2Z.inj_succ, Z.pow_succ_r by lia. lia.
Qed.

Lemma numeral_bounds ds : Forall is_digit ds → 0 ≤ numeral ds < 10 ^ Z.of_nat (length ds).
Proof.
  unfold numeral. induction 1 as [|d ds Hd _ IH]; cbn [foldl length]; [lia|].
  rewrite (foldl_numeral ds (0 * 10 + d)). unfold numeral. rewrite Nat2Z.inj_succ, Z.pow_succ_r by lia.
  destruct Hd. nia.
Qed.

(** A numeral with a point is read as that decimal. *)
Lemma strtod_decimal d1 d2 ds fs :
  Forall is_digit (d1 :: d2 :: ds) → Forall is_digit fs →
  strtod (digits_string (d1 :: d2 :: ds) (String "." (digits_string fs ""))) =
  round_decimal false (numeral ((d1 :: d2 :: ds) ++ fs)) (- Z.of_nat (length fs)).
Proof.
  intros Hds Hfs. set (s := digits_string (d1 :: d2 :: ds) _).
  assert (Hm : scan_mantissa 10 s = Some (numeral ((d1 :: d2 :: ds) ++ fs), length fs, "")).
  { unfold scan_mantissa, s. rewrite scan_digits_digits; [|done|by intros c s' [= <- <-]].
    rewrite scan_digits_digits by done. cbn [Nat.add]. rewrite (proj2 (Nat.eqb_neq _ _)) by (simpl; lia).
    unfold numeral. by rewrite foldl_app. }
  pose proof (Forall_cons_1 _ _ _ Hds) as [H1 [H2 _]%Forall_cons_1].
  destruct (dig_facts d1 H1) as (_ & Hsp & _ & _ & _ & Hmi & Hpl). destruct (dig_facts d2 H2) as (_ & _ & _ & Hx & HX & _).
  assert (Esp : skip_space s = s) by (unfold s; cbn [digits_string foldr skip_space]; by rewrite Hsp).
  assert (Esg : scan_sign s = (false, s)).
  { unfold is_digit in H1. assert (Hc : d1 ∈ [0; 1; 2; 3; 4; 5; 6; 7; 8; 9]) by (rewrite !elem_of_cons; lia).
    unfold s. by cases_in Hc; subst d1. }
  unfold strtod. rewrite Esp, Esg, Hm. unfold s in *. cbn [digits_string foldr].
  assert (Hc : d1 ∈ [0; 1; 2; 3; 4; 5; 6; 7; 8; 9]) by (rewrite !elem_of_cons; unfold is_digit in H1; lia).
  cases_in Hc; subst d1; try reflexivity. change (dig 0) with "0"%char. cbv iota. rewrite Hx, HX. reflexivity.
Qed.

Lemma digits_string_list ds s :
  digits_string ds s = string_of_list_ascii ((dig <$> ds) ++ list_ascii_of_string s).
Proof.
  induction ds as [|d ds IH]; cbn [digits_string foldr fmap list_fmap app string_of_list_ascii].
  - by rewrite string_of_list_ascii_of_string.
  - f_equal. exact IH.
Qed.

(** [str2float] of digits, a point and digits. *)
Lemma str2float_decimal d1 d2 ds fs :
  Forall is_digit (d1 :: d2 :: ds) → Forall is_digit fs → (length ds + length fs ≤ 12)%nat →
  str2float ((dig <$> d1 :: d2 :: ds) ++ "."%char :: (dig <$> fs)) =
  round_decimal false (numeral ((d1 :: d2 :: ds) ++ fs)) (- Z.of_nat (length fs)).
Proof.
  intros Hds Hfs Hlen. set (l := (dig <$> d1 :: d2 :: ds) ++ "."%char :: (dig <$> fs)).
  assert (El : (16 <=? length l)%nat = false).
  { apply Nat.leb_gt. unfold l. rewrite length_app, length_fmap. cbn [length]. rewrite length_fmap. lia. }
  assert (En : take_while not_nul l = l).
  { rewrite <- (app_nil_r l) at 1. rewrite take_while_app_all; [by rewrite app_nil_r|].
    assert (Hd : ∀ xs, Forall is_digit xs → Forall (λ c, not_nul c = true) (dig <$> xs)).
    { intros xs Hxs. apply Forall_fmap. eapply Forall_impl; [exact Hxs|]. intros x Hx. apply dig_facts, Hx. }
    apply Forall_app. split; [by apply Hd|]. constructor; [done|by apply Hd]. }
  unfold str2float. rewrite El, En. rewrite <- strtod_decimal by done. rewrite digits_string_list.
  assert (E2 : list_ascii_of_string (String "." (digits_string fs "")) = "."%char :: (dig <$> fs)).
  { rewrite digits_string_list. cbn [list_ascii_of_string]. by rewrite list_ascii_of_string_of_list_ascii, app_nil_r. }
  by rewrite E2.
Qed.

(** The digits before the point. *)
Definition deg_digits (wide : bool) (c : Coord) : list Z :=
  (if wide then [co_deg c / 100; co_deg c / 10 mod 10] else [co_deg c / 10]) ++
  [co_deg c mod 10; co_min c / 10; co_min c mod 10].

Definition coord_field (wide : bool) (c : Coord) : list ascii := if wide then lon_field c else lat_field c.

Lemma coord_field_digits wide c :
  coord_field wide c = (dig <$> deg_digits wide c) ++ "."%char :: (dig <$> co_digits c).
Proof. by destruct wide. Qed.

Lemma deg_digits_ok wide c :
  coord_ok c → (wide = false → co_deg c ≤ 99) →
  Forall is_digit (deg_digits wide c) ∧ numeral (deg_digits wide c) = co_deg c * 100 + co_min c.
Proof.
  intros (Hd & Hm & _) Hw. unfold deg_digits, is_digit. destruct wide; [|specialize (Hw eq_refl)];
    (split; [repeat constructor; Z.to_euclidean_division_equations; lia|]);
    unfold numeral; cbn [app foldl]; Z.to_euclidean_division_equations; lia.
Qed.

(** ** The conversion *)

(** The exact number in the field, as degrees in hundreds. *)
Definition hhmm (c : Coord) : R :=
  (IZR (co_deg c * 100 + co_min c) + IZR (numeral (co_digits c)) / 10 ^ length (co_digits c))%R.

Lemma pow10_bounds n : (n ≤ 10)%nat → (1 <= 10 ^ n <= 10000000000)%R.
Proof. intros Hn. do 11 (destruct n as [|n]; [simpl; lra|]). lia. Qed.

Lemma fraction_bounds c :
  coord_ok c → (length (co_digits c) ≤ 10)%nat →
  (0 <= IZR (numeral (co_digits c)) / 10 ^ length (co_digits c) <= 1 - / 10000000000)%R.
Proof.
  intros (_ & _ & Hds & _) Hn. pose proof (numeral_bounds _ Hds) as [H0 H1].
  destruct (pow10_bounds _ Hn) as [Hp1 Hp2]. set (p := (10 ^ length (co_digits c))%R) in *.
  assert (Hz : (IZR (numeral (co_digits c)) <= p - 1)%R).
  { unfold p. rewrite (pow_IZR 10), <- minus_IZR. apply IZR_le. lia. }
  apply IZR_le in H0. split.
  - apply Rmult_le_pos; [lra|]. apply Rlt_le, Rinv_0_lt_compat. lra.
  - apply (Rmult_le_reg_r p); [lra|]. unfold Rdiv. rewrite Rmult_assoc, Rinv_l, Rmult_1_r by lra.
    rewrite Rmult_minus_distr_r. assert (/ 10000000000 * p <= 1)%R by lra. lra.
Qed.

Lemma bp_38 : bp (-38) = (/ 274877906944)%R.
Proof.
  pose proof (bp_opp 38) as Hb. rewrite (bp_Z 38) in Hb by lia. change (2 ^ 38) with 274877906944 in Hb.
  change (- (38)) with (-38) in Hb. lra.
Qed.

Lemma bp_15 : bp 15 = 32768%R.
Proof. by rewrite bp_Z. Qed.

(** The number read. *)
Lemma field_rounds wide c :
  coord_ok c → (wide = false → co_deg c ≤ 99) → (length (coord_field wide c) ≤ 15)%nat →
  rounds (str2float (coord_field wide c)) (hhmm c) ∧ (length (co_digits c) ≤ 10)%nat.
Proof.
  intros Hc Hw Hlen. destruct (deg_digits_ok wide c Hc Hw) as [Hdd Hnum].
  destruct Hc as (Hd & Hm & Hds & Hne). rewrite coord_field_digits in *.
  rewrite length_app, length_fmap in Hlen. cbn [length] in Hlen. rewrite length_fmap in Hlen.
  assert (Hk : (length (co_digits c) ≤ 10)%nat) by (unfold deg_digits in Hlen; destruct wide; simpl in Hlen; lia).
  split; [|done]. pose proof (conj Hd (conj Hm (conj Hds Hne)) : coord_ok c) as Hc.
  pose proof (fraction_bounds c Hc Hk) as Hfr.
  assert (E : ∃ d1 d2 ds, deg_digits wide c = d1 :: d2 :: ds).
  { unfold deg_digits. destruct wide; by do 3 eexists. }
  destruct E as (d1 & d2 & ds & E). rewrite E in *. cbn [length] in Hlen.
  rewrite str2float_decimal by (done || lia).
  assert (Ep : IZR (10 ^ Z.of_nat (length (co_digits c))) = (10 ^ length (co_digits c))%R).
  { by rewrite pow_IZR. }
  assert (En : (IZR (numeral ((d1 :: d2 :: ds) ++ co_digits c)) / IZR (10 ^ Z.of_nat (length (co_digits c))))%R = hhmm c).
  { unfold numeral. rewrite foldl_app, foldl_numeral. fold (numeral (d1 :: d2 :: ds)). rewrite Hnum.
    unfold hhmm. rewrite plus_IZR, mult_IZR, Ep. pose proof (pow10_bounds _ Hk). field. lra. }
  rewrite <- En. apply round_decimal_rounds.
  - unfold numeral. rewrite foldl_app, foldl_numeral. fold (numeral (d1 :: d2 :: ds)). rewrite Hnum.
    pose proof (numeral_bounds _ Hds). assert (0 < 10 ^ Z.of_nat (length (co_digits c))) by (apply Z.pow_pos_nonneg; lia). nia.
  - destruct (co_digits c); [done|]. simpl. lia.
  - rewrite En, bp_15. unfold hhmm.
    assert (IZR (co_deg c * 100 + co_min c) <= 18059)%R by (apply IZR_le; lia). lra.
Qed.

(** Degrees in hundreds fit what [double_of_Z] converts exactly. *)
Lemma hundred_degrees d :
  0 ≤ d ≤ 180 → dmul (double_of_Z d) (double_of_Z 100) = double_of_Z (100 * d).
Proof.
  intros Hd.
  assert (Ht : forallb (λ n, bool_decide (dmul (double_of_Z (Z.of_nat n)) (double_of_Z 100) =
                                          double_of_Z (100 * Z.of_nat n))) (seq 0 181) = true)
    by (vm_compute; reflexivity).
  rewrite forallb_forall in Ht. specialize (Ht (Z.to_nat d)). rewrite Z2Nat.id in Ht by lia.
  apply (bool_decide_eq_true_1 _), Ht, in_seq. lia.
Qed.

(** The double of a coordinate is within [10^-11] degrees of it. *)
Lemma convert_from_hhmm_spec wide c :
  coord_ok c → (wide = false → co_deg c ≤ 99) → (length (coord_field wide c) ≤ 15)%nat →
  ∃ x, convert_from_hhmm (coord_field wide c) = Some x ∧ is_number x = true ∧
       (Rabs (dval x - coord_degrees c) <= / 10 ^ 11)%R.
Proof.
  intros Hc Hw Hlen. destruct (field_rounds wide c Hc Hw Hlen) as [Hval Hk].
  pose proof (fraction_bounds c Hc Hk) as Hfr. pose proof bp_38 as H38. pose proof bp_15 as H15.
  destruct Hc as (Hd & Hm & _). unfold convert_from_hhmm. set (val := str2float _) in *.
  set (i := co_deg c * 100 + co_min c) in *. set (fr := (IZR (numeral _) / _)%R) in *.
  assert (Hi : hhmm c = (IZR i + fr)%R) by done.
  rewrite (dfloor_rounds val (hhmm c) i Hval) by (rewrite ?Hi, ?plus_IZR; lia || lra).
  destruct (double_of_Z_spec i ltac:(lia)) as (Hsi & _ & Hvi).
  destruct (double_of_Z_spec 100 ltac:(lia)) as (Hs100 & _ & Hv100).
  destruct (double_of_Z_spec 60 ltac:(lia)) as (Hs60 & _ & Hv60).
  destruct (double_of_Z_spec (co_deg c) ltac:(lia)) as (Hsd & Hfd & Hvd).
  destruct (double_of_Z_spec (100 * co_deg c) ltac:(lia)) as (Hshd & Hfhd & Hvhd).
  assert (Ei : IZR i = (100 * IZR (co_deg c) + IZR (co_min c))%R) by (unfold i; rewrite plus_IZR, mult_IZR; lra).
  assert (Bd : (0 <= IZR (co_deg c) <= 180)%R) by (split; apply IZR_le; lia).
  assert (Bm : (0 <= IZR (co_min c) <= 59)%R) by (split; apply IZR_le; lia).
  pose proof (ddiv_rounds _ _ Hsi Hs100) as Hdeg. rewrite Hvi, Hv100 in Hdeg.
  rewrite (int_of_double_rounds _ _ (co_deg c) (Hdeg ltac:(lra) ltac:(lra)))
    by (rewrite ?plus_IZR; unfold INT_MAX; lia || lra).
  cbn [mbind option_bind]. rewrite hundred_degrees by done. eexists. split; [reflexivity|].
  pose proof (rd_error _ _ Hval) as He1. apply rabs_bounds in He1.
  pose proof (rd_floor _ _ Hval (100 * co_deg c)) as Hlow. rewrite Hi, mult_IZR in Hlow. specialize (Hlow ltac:(lra)).
  pose proof (dsub_rounds val (double_of_Z (100 * co_deg c)) (rd_small _ _ Hval) Hshd (or_intror Hfhd)) as Hmin.
  rewrite Hvhd, mult_IZR in Hmin. specialize (Hmin ltac:(lra) ltac:(lra)).
  set (minutes := dsub val _) in *. pose proof (rd_error _ _ Hmin) as He2. apply rabs_bounds in He2.
  pose proof (ddiv_rounds minutes _ (rd_small _ _ Hmin) Hs60) as Hq. rewrite Hv60 in Hq.
  specialize (Hq ltac:(lra) ltac:(lra)). set (q := ddiv minutes _) in *.
  pose proof (rd_error _ _ Hq) as He3. apply rabs_bounds in He3.
  pose proof (dadd_rounds (double_of_Z (co_deg c)) q Hsd (rd_small _ _ Hq) (or_introl Hfd)) as Hx.
  rewrite Hvd in Hx. specialize (Hx ltac:(lra)). pose proof (rd_error _ _ Hx) as He4. apply rabs_bounds in He4.
  split; [apply small_number, (rd_small _ _ Hx)|]. unfold coord_degrees. fold fr. rewrite Hi, Ei in He1.
  apply Rabs_le. simpl pow. split; lra.
Qed.

(** ** Positions *)

(** [x] is a number within [10^-11] degrees of [r] - a micrometre. *)
Definition near (x : double) (r : R) : Prop := is_number x = true ∧ (Rabs (dval x - r) <= / 10 ^ 11)%R.

(** South and west are negative. *)
Definition signed (negative : bool) (r : R) : R := if negative then (- r)%R else r.

Lemma near_neg x r : near x r → near (dneg x) (- r).
Proof.
  intros [Hx Hr]. split; [by rewrite is_number_neg|]. rewrite dval_neg.
  replace (- dval x - - r)%R with (- (dval x - r))%R by lra. by rewrite Rabs_Ropp.
Qed.

Lemma near_signed (negative : bool) x r : near x r → near (if negative then dneg x else x) (signed negative r).
Proof. destruct negative; [apply near_neg|done]. Qed.

Lemma lat_near c :
  coord_ok c → co_deg c ≤ 99 → (length (lat_field c) ≤ 15)%nat →
  ∃ x, convert_from_hhmm (lat_field c) = Some x ∧ near x (coord_degrees c).
Proof. intros Hc Hd Hlen. exact (convert_from_hhmm_spec false c Hc (λ _, Hd) Hlen). Qed.

Lemma lon_near c :
  coord_ok c → (length (lon_field c) ≤ 15)%nat →
  ∃ x, convert_from_hhmm (lon_field c) = Some x ∧ near x (coord_degrees c).
Proof.
  intros Hc Hlen. apply (convert_from_hhmm_spec true c Hc); [done|exact Hlen].
Qed.

Lemma field_length wide c : coord_ok c → (6 ≤ length (coord_field wide c))%nat.
Proof.
  intros (_ & _ & _ & Hne). rewrite coord_field_digits, length_app, length_fmap. cbn [length].
  rewrite length_fmap. destruct (co_digits c); [done|]. unfold deg_digits. destruct wide; simpl; lia.
Qed.

(** 33 degrees 7.055350 minutes, 117 degrees 18.467958 minutes. *)
Example fields_printed :
  lat_field (MkCoord 33 7 [0; 5; 5; 3; 5; 0]) = list_ascii_of_string "3307.055350" ∧
  lon_field (MkCoord 117 18 [4; 6; 7; 9; 5; 8]) = list_ascii_of_string "11718.467958".
Proof. by vm_compute. Qed.
