(* ===== verification/GpsDev.v ===== *)
(** * gps_freerunner.c, last part: the commands sent to the GPS device

    A command is a proprietary NMEA sentence with a checksum, written to the
    descriptor of the device.  The outcomes of [write] are those of the serial
    port in AtReader ([Tty]). *)

From S2P Require Import Prelude CString AtReader.

Open Scope Z_scope.

Definition GPS_POWER_IF : string := "/sys/bus/platform/devices/neo1973-pm-gps.0/power_on".
Definition GPS_DEV_SLOW_UPDATE_RATE : Z := 10.
Definition GPS_DEV_HIGH_UPDATE_RATE : Z := 1.

(** ** Sending *)

Inductive SendResult :=
  | SendDone (t : Tty)
  | SendUndef            (** [write(fd, msg + n, i - n)] with [n < 0] *)
  | SendLoops.           (** still in the loop when the fuel is gone *)

(** The loop of [gps_dev_send]; a failed write that was not interrupted adds
    its -1 to [n]. *)
Fixpoint gps_dev_send_loop (fuel : nat) (msg : list ascii) (n : Z) (t : Tty) : SendResult :=
  match fuel with
  | O => SendLoops
  | Datatypes.S fuel' =>
      if n <? 0 then SendUndef
      else
        let '(ret, eintr, t') := tty_write (drop (Z.to_nat n) msg) t in
        let n' := if (ret <? 0) && eintr then n else n + ret in
        if n' <? Z.of_nat (length msg) then gps_dev_send_loop fuel' msg n' t' else SendDone t'
  end.

Definition gps_dev_send (fuel : nat) (msg : string) (t : Tty) : SendResult :=
  gps_dev_send_loop fuel (chars msg) 0 t.

(** ** Commands *)

(** The loop over [msg[1]], [msg[2]], ... until the asterisk; past the
    terminator it is undefined. *)
Fixpoint csum_loop (msg : string) (csum : Z) : option Z :=
  match msg with
  | EmptyString => None
  | String c msg' =>
      if Ascii.eqb c "*" then Some csum else csum_loop msg' (Z.lxor csum (code c))
  end.

Definition gps_dev_calc_nmea_csum (msg : string) : option Z :=
  match msg with EmptyString => None | String _ msg' => csum_loop msg' 0 end.

Definition hex_char (d : Z) : ascii :=
  ascii_of_N (Z.to_N (if d <? 10 then 48 + d else 87 + d)).

(** ["%02x"] of a byte. *)
Definition hex2 (b : Z) : string :=
  String (hex_char (b / 16)) (String (hex_char (b mod 16)) EmptyString).

(** The two [sprintf] into [buff[50]]: the text up to the asterisk, then
    checksum and line end; [None] when they do not fit. *)
Definition finish_command (buff : string) : option string :=
  csum ← gps_dev_calc_nmea_csum buff;
  let msg := buff +:+ hex2 csum +:+ CRLF in
  if (String.length msg <? 50)%nat then Some msg else None.

Definition gps_dev_set_nmea_message_rate (msg : string) (rate : Z) : option string :=
  finish_command ("$PUBX,40," +:+ msg +:+ "," +:+ pretty rate +:+ "," +:+ pretty rate +:+ ","
                  +:+ pretty rate +:+ ",0*").

(** One command for each of the ports 0 to 2. *)
Definition gps_dev_set_baud_rate (baud : Z) : option (list string) :=
  mapM (λ u : Z, finish_command ("$PUBX,41," +:+ pretty u +:+ ",0003,0003," +:+ pretty baud +:+ ",0*"))
       [0; 1; 2].

Definition gps_dev_set_message_rate (rate : Z) : option (list string) :=
  mapM (λ m, gps_dev_set_nmea_message_rate m rate)
       ["GGA"; "GLL"; "ZDA"; "VTG"; "GSA"; "GSV"; "RMC"].

Definition gps_dev_start : option (list string) := gps_dev_set_message_rate GPS_DEV_HIGH_UPDATE_RATE.
Definition gps_dev_stop : option (list string) := gps_dev_set_message_rate GPS_DEV_SLOW_UPDATE_RATE.

(** What is written to which file: [prop] is what [property_get] finds for
    [gps.power_on] (or the default [GPS_POWER_IF]), empty when it returns 0;
    the result of [open] decides whether anything is written. *)
Definition gps_dev_power (state : Z) (prop : string) (opened : bool) : option (string * ascii) :=
  if String.eqb prop "" then None
  else if opened then Some (prop, if state =? 0 then "0"%char else "1"%char) else None.

(** ** Specifications *)

(** A sentence as a receiver checks it: the two digits after the asterisk are
    the exclusive or of the bytes between the dollar sign and the asterisk. *)
Definition xor_bytes (l : list ascii) : Z := foldl (λ a c, Z.lxor a (code c)) 0 l.

Definition valid_command (msg : string) : Prop :=
  ∃ body : string,
    msg = "$" +:+ body +:+ "*" +:+ hex2 (xor_bytes (chars body)) +:+ CRLF ∧
    "*"%char ∉ chars body.

Lemma csum_loop_spec body acc :
  "*"%char ∉ chars body →
  csum_loop (body +:+ "*") acc = Some (foldl (λ a c, Z.lxor a (code c)) acc (chars body)).
Proof.
  revert acc. induction body as [|c body IH]; intros acc Hn; simpl in *; [done|].
  apply not_elem_of_cons in Hn as [Hc Hn].
  destruct (Ascii.eqb_spec c "*"%char); [congruence|]. by apply IH.
Qed.

Lemma finish_command_valid body msg :
  "*"%char ∉ chars body → finish_command ("$" +:+ body +:+ "*") = Some msg →
  valid_command msg ∧ (String.length msg < 50)%nat.
Proof.
  intros Hn. unfold finish_command, gps_dev_calc_nmea_csum. simpl.
  rewrite csum_loop_spec by done. cbn [mbind option_bind].
  case_match eqn:E; [|done]. intros [= <-]. apply Nat.ltb_lt in E. split; [|done].
  exists body. split; [|done]. unfold xor_bytes. by rewrite str_app_assoc.
Qed.

Lemma pretty_no_star (z : Z) : "*"%char ∉ chars (pretty z).
Proof.
  intros Hin. pose proof (pretty_chars z) as Hf. rewrite Forall_forall in Hf.
  by destruct (Hf _ Hin).
Qed.

Lemma finish_command_length body :
  "*"%char ∉ chars body →
  finish_command ("$" +:+ body +:+ "*") =
  if (String.length body + 6 <? 50)%nat
  then Some ("$" +:+ body +:+ "*" +:+ hex2 (xor_bytes (chars body)) +:+ CRLF) else None.
Proof.
  intros Hn. unfold finish_command, gps_dev_calc_nmea_csum. simpl.
  rewrite csum_loop_spec by done. cbn [mbind option_bind].
  rewrite !str_app_assoc. fold (xor_bytes (chars body)).
  rewrite str_length_app. simpl.
  by replace (Datatypes.S (String.length body + 5)) with (String.length body + 6)%nat by lia.
Qed.

(** The text of a rate command between the dollar sign and the asterisk. *)
Definition rate_body (msg : string) (rate : Z) : string :=
  "PUBX,40," +:+ msg +:+ "," +:+ pretty rate +:+ "," +:+ pretty rate +:+ "," +:+ pretty rate +:+ ",0".

Lemma no_star (l : list ascii) : forallb (λ c, negb (Ascii.eqb c "*")) l = true → "*"%char ∉ l.
Proof.
  intros Hl Hin. rewrite forallb_forall in Hl. apply list_elem_of_In in Hin. by apply Hl in Hin.
Qed.

Lemma rate_body_no_star msg rate :
  "*"%char ∉ chars msg → "*"%char ∉ chars (rate_body msg rate).
Proof.
  intros Hm. unfold rate_body, chars in *. rewrite !chars_app.
  pose proof (pretty_no_star rate) as Hp. unfold chars in Hp.
  rewrite !not_elem_of_app. split_and!; first [done|by apply no_star].
Qed.

Lemma set_nmea_message_rate_eq msg rate :
  gps_dev_set_nmea_message_rate msg rate = finish_command ("$" +:+ rate_body msg rate +:+ "*").
Proof. unfold gps_dev_set_nmea_message_rate, rate_body. by rewrite !str_app_assoc. Qed.

(** The rate commands are well formed and fit their buffer exactly up to
    nine digits.  For a three letter sentence name and a rate that is not
    negative, the command is a sentence with the right checksum when the rate
    is below 10^9; from there on the 50 bytes of [buff] are overrun. *)
Theorem message_rate_command (msg : string) (rate : Z) :
  String.length msg = 3%nat → "*"%char ∉ chars msg → 0 ≤ rate →
  if decide (rate < 10 ^ 9)
  then ∃ cmd, gps_dev_set_nmea_message_rate msg rate = Some cmd ∧ valid_command cmd
  else gps_dev_set_nmea_message_rate msg rate = None.
Proof.
  intros Hl Hs Hr. rewrite set_nmea_message_rate_eq.
  pose proof (rate_body_no_star msg rate Hs) as Hb. rewrite finish_command_length by done.
  replace (String.length (rate_body msg rate)) with (16 + 3 * String.length (pretty rate))%nat
    by (unfold rate_body; rewrite !str_length_app, Hl; simpl; lia).
  case_decide as Hd.
  - pose proof (pretty_length 9 rate) as H9. rewrite (proj2 (Nat.ltb_lt _ _)) by lia.
    eexists; split; [done|]. by eexists.
  - pose proof (pretty_length_ge 9 rate) as H9. by rewrite (proj2 (Nat.ltb_ge _ _)) by lia.
Qed.

Lemma message_rate_command_witness :
  if decide (GPS_DEV_SLOW_UPDATE_RATE < 10 ^ 9)
  then ∃ cmd, gps_dev_set_nmea_message_rate "GGA" GPS_DEV_SLOW_UPDATE_RATE = Some cmd ∧
              valid_command cmd
  else gps_dev_set_nmea_message_rate "GGA" GPS_DEV_SLOW_UPDATE_RATE = None.
Proof. apply message_rate_command; [done| |done]. by apply no_star. Defined.

(** The seven commands of [gps_dev_start] and of [gps_dev_stop]. *)
Lemma start_stop_commands :
  (∃ k, gps_dev_start = Some k ∧ length k = 7%nat) ∧
  (∃ k, gps_dev_stop = Some k ∧ length k = 7%nat) ∧
  gps_dev_set_nmea_message_rate "GGA" 1 = Some ("$PUBX,40,GGA,1,1,1,0*5b" +:+ CRLF).
Proof. split_and!; [by eexists|by eexists|]. by vm_compute. Qed.

(** *** Sending *)

(** When [write] only gets interrupted or writes a part, the whole command is
    sent, in order. *)
Lemma gps_dev_send_ok fuel msg n t :
  retries_only (tty_out t) → (length (tty_out t) + 1 < fuel)%nat → (n < length msg)%nat →
  ∃ out, gps_dev_send_loop fuel msg (Z.of_nat n) t =
         SendDone (MkTty (tty_sent t ++ drop n msg) out).
Proof.
  revert n t. induction fuel as [|fuel IH]; intros n t Hr Hf Hn; [lia|]. cbn [gps_dev_send_loop].
  destruct (Z.ltb_spec (Z.of_nat n) 0); [lia|]. rewrite Nat2Z.id. unfold tty_write.
  destruct (write_fd _ _) as [[k eintr] out'] eqn:E.
  assert (Hlen : length (drop n msg) = (length msg - n)%nat) by apply length_drop.
  destruct (write_fd_ok _ _ _ _ _ Hr E) as (Hr' & Hle & [(-> & -> & Hlt)|(Hk & -> & Hlt)]).
  - simpl. destruct (Z.ltb_spec (Z.of_nat n) (Z.of_nat (length msg))); [|lia].
    rewrite app_nil_r. apply (IH n (MkTty (tty_sent t) out')); simpl; [done|lia|done].
  - rewrite andb_false_r.
    destruct (Z.ltb_spec (Z.of_nat n + k) (Z.of_nat (length msg))).
    + destruct Hlt as [Hlt|[_ ->]]; [|lia].
      replace (Z.of_nat n + k) with (Z.of_nat (n + Z.to_nat k)) by lia.
      destruct (IH (n + Z.to_nat k)%nat (MkTty (tty_sent t ++ take (Z.to_nat k) (drop n msg)) out'))
        as [o ->]; simpl; [done|lia|lia|].
      exists o. by rewrite <-app_assoc, <-drop_drop, take_drop.
    + exists out'. rewrite take_ge by lia. done.
Qed.

(** Any other failure counts as minus one byte: on the first write the next
    one starts before the buffer, later ones repeat the last byte sent. *)
Lemma gps_dev_send_error fuel msg t out :
  tty_out t = WrErr :: out → (1 < fuel)%nat → msg ≠ [] → gps_dev_send_loop fuel msg 0 t = SendUndef.
Proof.
  intros Ho Hf Hm. destruct fuel as [|[|fuel]]; try lia. cbn [gps_dev_send_loop].
  unfold tty_write. simpl. rewrite Ho. simpl.
  destruct (Z.ltb_spec (0 + -1) (Z.of_nat (length msg))); [done|lia].
Qed.
