(* ===== verification/GpsState.v ===== *)
(** * gps_freerunner.c, second half: the GPS state, its threads and the interface

    [GpsState] is [_gps_state]; three threads share it: the client that calls
    the interface, the thread [gps_state_thread] and, while a session is on,
    [gps_timer_thread].  The threads are interleaved by [gstep]: a label says
    which of them moves and with which outcome of its system calls.  The
    semaphore [fix_sem] makes the parsing of a sentence and the body of the
    timer loop one step each. *)

From S2P Require Import Prelude CString AtReader CDouble Nmea GpsDev.

Open Scope Z_scope.

Definition STATE_QUIT : Z := 0.
Definition STATE_INIT : Z := 1.
Definition STATE_START : Z := 2.

Definition CMD_QUIT : Z := 0.
Definition CMD_START : Z := 1.
Definition CMD_STOP : Z := 2.

(** Which of the function pointers of [GpsCallbacks] are set. *)
Record GpsCallbacks := { location_cb : bool; status_cb : bool; sv_status_cb : bool }.

Record GpsState := {
  gs_init : Z;
  gs_fd : Z;
  gs_callbacks : GpsCallbacks;
  gs_fix_freq : Z;
  fix_sem : bool;          (** initialised, and not destroyed *)
  gs_first_fix : Z;
  gs_reader : NmeaReader
}.

(** What the threads do outside: callbacks, commands to the device, power. *)
Inductive GpsEvent :=
  | EvLocation (f : GpsLocation)
  | EvStatus (status : Z)
  | EvSvStatus (s : GpsSvStatus)
  | EvSend (msg : string)
  | EvPower (state : Z).

Section state.
Context `{GpsHeader}.

(** ** Setters *)

Definition with_reader (r : NmeaReader) (s : GpsState) : GpsState :=
  {| gs_init := gs_init s; gs_fd := gs_fd s; gs_callbacks := gs_callbacks s;
     gs_fix_freq := gs_fix_freq s; fix_sem := fix_sem s; gs_first_fix := gs_first_fix s;
     gs_reader := r |}.

Definition with_first_fix (z : Z) (s : GpsState) : GpsState :=
  {| gs_init := gs_init s; gs_fd := gs_fd s; gs_callbacks := gs_callbacks s;
     gs_fix_freq := gs_fix_freq s; fix_sem := fix_sem s; gs_first_fix := z;
     gs_reader := gs_reader s |}.

Definition with_init (z : Z) (s : GpsState) : GpsState :=
  {| gs_init := z; gs_fd := gs_fd s; gs_callbacks := gs_callbacks s;
     gs_fix_freq := gs_fix_freq s; fix_sem := fix_sem s; gs_first_fix := gs_first_fix s;
     gs_reader := gs_reader s |}.

Definition with_fix_freq (z : Z) (s : GpsState) : GpsState :=
  {| gs_init := gs_init s; gs_fd := gs_fd s; gs_callbacks := gs_callbacks s;
     gs_fix_freq := z; fix_sem := fix_sem s; gs_first_fix := gs_first_fix s;
     gs_reader := gs_reader s |}.

Definition with_callbacks (cb : GpsCallbacks) (s : GpsState) : GpsState :=
  {| gs_init := gs_init s; gs_fd := gs_fd s; gs_callbacks := cb;
     gs_fix_freq := gs_fix_freq s; fix_sem := fix_sem s; gs_first_fix := gs_first_fix s;
     gs_reader := gs_reader s |}.

Definition with_fd (z : Z) (s : GpsState) : GpsState :=
  {| gs_init := gs_init s; gs_fd := z; gs_callbacks := gs_callbacks s;
     gs_fix_freq := gs_fix_freq s; fix_sem := fix_sem s; gs_first_fix := gs_first_fix s;
     gs_reader := gs_reader s |}.

Definition with_sem (b : bool) (s : GpsState) : GpsState :=
  {| gs_init := gs_init s; gs_fd := gs_fd s; gs_callbacks := gs_callbacks s;
     gs_fix_freq := gs_fix_freq s; fix_sem := b; gs_first_fix := gs_first_fix s;
     gs_reader := gs_reader s |}.

(** ** Receiving *)

(** The first position is reported at once when no session is on; without a
    callback it is kept, and counts as reported. *)
Definition report_first_fix (s : GpsState) : GpsState * list GpsEvent :=
  let r := gs_reader s in
  if (gs_first_fix s =? 0) && (gs_init s =? STATE_INIT) &&
     negb (Z.land (fl_flags (nr_fix r)) GPS_LOCATION_HAS_LAT_LONG =? 0)
  then
    let '(s, evs) :=
      if location_cb (gs_callbacks s)
      then (with_reader (set_fix (set_flags 0 (nr_fix r)) r) s, [EvLocation (nr_fix r)])
      else (s, []) in
    (with_first_fix 1 s, evs)
  else (s, []).

(** A complete sentence.  [None] is an undefined behaviour of the parser. *)
Definition nmea_reader_parse (s : GpsState) : option (GpsState * list GpsEvent) :=
  let r := gs_reader s in
  if (nr_pos r <? 9)%nat then Some (s, [])
  else
    let tz := nmea_tokenizer_init (nr_in r) (nr_pos r) in
    let id := tok_bytes (nr_in r) (nmea_tokenizer_get tz 0) in
    if (length id <? 5)%nat then Some (s, [])
    else
      (r ← parse_branch r tz id;
       Some (report_first_fix (with_reader r s))).

(** One byte received. *)
Definition nmea_reader_addc (c : ascii) (s : GpsState) : option (GpsState * list GpsEvent) :=
  let r := gs_reader s in
  if nr_overflow r then
    Some (with_reader (set_line (nr_pos r) (negb (Ascii.eqb c LF)) (nr_in r) r) s, [])
  else if (NMEA_MAX_SIZE <=? nr_pos r)%nat then
    Some (with_reader (set_line 0 true (nr_in r) r) s, [])
  else
    let s := with_reader (set_line (Datatypes.S (nr_pos r)) false (<[nr_pos r := c]> (nr_in r)) r) s in
    if Ascii.eqb c LF then
      ('(s, evs) ← nmea_reader_parse s;
       let r := gs_reader s in
       Some (with_reader (set_line 0 (nr_overflow r) (nr_in r) r) s, evs))
    else Some (s, []).

(** The loop over the bytes of one [read]. *)
Fixpoint feed (cs : list ascii) (s : GpsState) : option (GpsState * list GpsEvent) :=
  match cs with
  | [] => Some (s, [])
  | c :: cs' =>
      '(s, evs) ← nmea_reader_addc c s;
      '(s, evs') ← feed cs' s;
      Some (s, evs ++ evs')
  end.

(** ** The body of the timer loop, under the semaphore *)

Definition timer_section (s : GpsState) : GpsState * list GpsEvent :=
  let f := nr_fix (gs_reader s) in
  let '(s, ev1) :=
    if negb (fl_flags f =? 0) then
      let '(s, ev) :=
        if location_cb (gs_callbacks s)
        then (with_first_fix 1 (with_reader (set_fix (set_flags 0 f) (gs_reader s)) s), [EvLocation f])
        else (s, []) in
      (if gs_fix_freq s =? 0 then with_fix_freq (-1) s else s, ev)
    else (s, []) in
  let r := gs_reader s in
  if negb (sv_status_changed r =? 0) && sv_status_cb (gs_callbacks s)
  then (with_reader (set_sv (sv_status r) 0 r) s, ev1 ++ [EvSvStatus (sv_status r)])
  else (s, ev1).

(** ** The threads *)

(** [gps_state_thread]: not created; created; in its loop; in the loop over
    the bytes of a [read]; joining the timer thread in CMD_STOP; returned. *)
Inductive GpsThread :=
  | GNone
  | GInit
  | GLoop (started : bool)
  | GFeed (started : bool) (cs : list ascii)
  | GJoin
  | GExited.

(** [gps_timer_thread]: before its body; asleep for so many seconds; returned. *)
Inductive TimerThread := TTop | TSleep (seconds : Z) | TExited.

(** The client: between two calls; in [freerunner_gps_init], about to store the
    callbacks; in [pthread_join] of [gps_state_done]. *)
Inductive Client := Idle | Registering (cb : GpsCallbacks) | Joining.

Record GWorld := {
  gw_state : GpsState;
  gw_control : list Z;             (** commands written and not read yet *)
  gw_gps : GpsThread;
  gw_timers : list TimerThread;    (** every one created; [tmr_thread] is the last *)
  gw_client : Client;
  gw_events : list GpsEvent
}.

Inductive GResult := Disabled | Undef | Next (w : GWorld).

Definition GPS_STATUS_CB (s : GpsState) (z : Z) : list GpsEvent :=
  if status_cb (gs_callbacks s) then [EvStatus z] else [].

(** The commands of [gps_dev_start] and [gps_dev_stop], which are defined. *)
Definition sends (k : option (list string)) : list GpsEvent :=
  match k with Some l => EvSend <$> l | None => [] end.

Definition gps_dev_init : list GpsEvent := EvPower 1 :: sends gps_dev_stop.
Definition gps_dev_deinit : list GpsEvent := [EvPower 0].

(** *** Moves of one thread *)

Definition gps_moves (s : GpsState) (g : GpsThread) (t : list TimerThread) (evs : list GpsEvent)
    (w : GWorld) : GWorld :=
  {| gw_state := s; gw_control := gw_control w; gw_gps := g; gw_timers := t;
     gw_client := gw_client w; gw_events := gw_events w ++ evs |}.

Definition client_moves (s : GpsState) (control : list Z) (c : Client) (w : GWorld) : GWorld :=
  {| gw_state := s; gw_control := control; gw_gps := gw_gps w; gw_timers := gw_timers w;
     gw_client := c; gw_events := gw_events w |}.

(** [Exit:] of [gps_state_thread]. *)
Definition gps_exit (w : GWorld) : GWorld :=
  gps_moves (gw_state w) GExited (gw_timers w)
    (GPS_STATUS_CB (gw_state w) GPS_STATUS_ENGINE_OFF ++ gps_dev_deinit) w.

(** A command read from the control socket; [timer_ok] is whether
    [pthread_create] succeeds. *)
Definition gps_command (cmd : Z) (started timer_ok : bool) (w : GWorld) : GWorld :=
  let s := gw_state w in
  if cmd =? CMD_QUIT then gps_exit w
  else if cmd =? CMD_START then
    if started then w
    else
      let evs := sends gps_dev_start ++ GPS_STATUS_CB s GPS_STATUS_SESSION_BEGIN in
      if timer_ok
      then gps_moves (with_init STATE_START s) (GLoop true) (gw_timers w ++ [TTop]) evs w
      else gps_exit (gps_moves (with_init STATE_INIT s) (GLoop false) (gw_timers w) evs w)
  else if cmd =? CMD_STOP then
    if started
    then gps_moves (with_init STATE_INIT s) GJoin (gw_timers w) (sends gps_dev_stop) w
    else w
  else w.

(** The thread of the timer at its body, or waking up. *)
Definition timer_step (t : TimerThread) (s : GpsState)
    : option (GpsState * TimerThread * list GpsEvent) :=
  match t with
  | TTop =>
      if fix_sem s
      then let '(s, evs) := timer_section s in Some (s, TSleep (uint32 (gs_fix_freq s)), evs)
      else None
  | TSleep _ => Some (s, if gs_init s =? STATE_START then TTop else TExited, [])
  | TExited => Some (s, TExited, [])
  end.

(** *** The interface *)

(** The outcomes of the system calls of [gps_state_init]: [ie_prop] is the
    property [ro.kernel.android.gps], [ie_open] the descriptor of a device. *)
Record InitEnv := {
  ie_sem : bool; ie_prop : string; ie_open : string → Z; ie_socket : bool; ie_thread : bool
}.

(** The state after [gps_state_init] and whether the thread is running.  When
    the socket pair or the thread fails, [gps_state_done] joins a thread that
    was never created: undefined. *)
Definition gps_state_init (env : InitEnv) (s : GpsState) : option (GpsState * bool) :=
  let s := with_first_fix 0 (with_fix_freq (-1) (with_fd (-1) (with_init STATE_INIT s))) in
  if negb (ie_sem env) then Some (s, false)
  else
    let s := with_sem true s in
    if String.eqb (ie_prop env) "" then Some (s, false)
    else
      let device := "/dev/" +:+ ie_prop env in
      if (256 <=? String.length device)%nat then Some (s, false)
      else
        let s := with_fd (ie_open env device) s in
        if gs_fd s <? 0 then Some (s, false)
        else if ie_socket env && ie_thread env then Some (s, true)
        else None.

Definition no_callbacks : GpsCallbacks :=
  {| location_cb := false; status_cb := false; sv_status_cb := false |}.

(** What [memset] leaves. *)
Definition zero_state : GpsState :=
  {| gs_init := 0; gs_fd := 0; gs_callbacks := no_callbacks; gs_fix_freq := 0; fix_sem := false;
     gs_first_fix := 0;
     gs_reader := {| nr_pos := 0; nr_overflow := false; utc_year := 0; utc_mon := 0; utc_day := 0;
                     utc_diff := 0; nr_fix := no_location;
                     sv_status := {| num_svs := 0; sv_list := replicate GPS_MAX_SVS no_sv;
                                     used_in_fix_mask := 0 |};
                     sv_status_changed := 0; nr_in := zero_array (NMEA_MAX_SIZE + 1) |} |}.

(** The part of [gps_state_done] after [pthread_join]. *)
Definition gps_state_done_joined (w : GWorld) : GWorld :=
  {| gw_state := zero_state; gw_control := []; gw_gps := GNone; gw_timers := gw_timers w;
     gw_client := Idle; gw_events := gw_events w |}.

(** The first part of [freerunner_gps_init]; the callbacks are stored in a
    step of its own, for the new thread may run before it. *)
Definition freerunner_gps_init (cb : GpsCallbacks) (env : InitEnv) (w : GWorld) : GResult :=
  match if gs_init (gw_state w) =? 0 then gps_state_init env (gw_state w)
        else Some (gw_state w, false) with
  | None => Undef
  | Some (s, created) =>
      let w' := client_moves s (gw_control w) (if gs_fd s <? 0 then Idle else Registering cb) w in
      Next (if created then gps_moves s GInit (gw_timers w) [] w' else w')
  end.

(** [do ret = write(s->control[0], &cmd, 1); while (ret < 0 && errno == EINTR)]:
    [ok] is whether the byte is written in the end. *)
Definition gps_state_send (cmd : Z) (ok : bool) (w : GWorld) : GWorld :=
  client_moves (gw_state w) (if ok then gw_control w ++ [cmd] else gw_control w) (gw_client w) w.

Definition gps_state_start (ok : bool) (w : GWorld) : GWorld := gps_state_send CMD_START ok w.

Definition gps_state_stop (ok : bool) (w : GWorld) : GWorld := gps_state_send CMD_STOP ok w.

Definition freerunner_gps_start (ok : bool) (w : GWorld) : GWorld :=
  if gs_init (gw_state w) =? 0 then w else gps_state_start ok w.

Definition freerunner_gps_stop (ok : bool) (w : GWorld) : GWorld :=
  if gs_init (gw_state w) =? 0 then w else gps_state_stop ok w.

Definition freerunner_gps_cleanup (w : GWorld) : GWorld :=
  if gs_init (gw_state w) =? 0 then w
  else client_moves (gw_state w) (gw_control w ++ [CMD_QUIT]) Joining w.

Definition freerunner_gps_set_fix_frequency (freq : Z) (s : GpsState) : GpsState :=
  if gs_init s =? 0 then s else with_fix_freq (if freq <=? 0 then 1 else freq) s.

(** There are no extensions. *)
Definition freerunner_gps_get_extension (name : string) : option unit := None.

(** [do ret = epoll_ctl(...); while (ret < 0 && errno == EINTR)]: the calls
    with their results and whether [errno] was EINTR; the result is not looked at. *)
Fixpoint epoll_register (calls : list (Z * bool)) : option Z :=
  match calls with
  | [] => None
  | (ret, eintr) :: calls' => if (ret <? 0) && eintr then epoll_register calls' else Some ret
  end.

Definition epoll_deregister (calls : list (Z * bool)) : option Z := epoll_register calls.

(** Not called by the library. *)
Definition gps_state_update_fix_freq (fix_freq : Z) (s : GpsState) : GpsState :=
  with_fix_freq fix_freq s.

(** Aiding is not supported: the rest of the interface does nothing. *)
Definition freerunner_gps_inject_time (time timeReference uncertainty : Z) (s : GpsState) : Z * GpsState :=
  (0, s).

Definition freerunner_gps_delete_aiding_data (flags : Z) (s : GpsState) : GpsState := s.

Definition freerunner_gps_set_position_mode (mode fix_frequency : Z) (s : GpsState) : Z * GpsState :=
  if negb (mode =? GPS_POSITION_MODE_STANDALONE) then (-1, s)
  else if (gs_init s =? 0) || (fix_frequency <? 0) then (-1, s)
  else (0, with_fix_freq fix_frequency s).

(** The table the client calls through. *)
Record GpsInterface := {
  gi_init : GpsCallbacks → InitEnv → GWorld → GResult;
  gi_start : bool → GWorld → GWorld;
  gi_stop : bool → GWorld → GWorld;
  gi_set_fix_frequency : Z → GpsState → GpsState;
  gi_cleanup : GWorld → GWorld;
  gi_inject_time : Z → Z → Z → GpsState → Z * GpsState;
  gi_delete_aiding_data : Z → GpsState → GpsState;
  gi_set_position_mode : Z → Z → GpsState → Z * GpsState;
  gi_get_extension : string → option unit
}.

Definition freerunnerGpsInterface : GpsInterface := {|
  gi_init := freerunner_gps_init;
  gi_start := freerunner_gps_start;
  gi_stop := freerunner_gps_stop;
  gi_set_fix_frequency := freerunner_gps_set_fix_frequency;
  gi_cleanup := freerunner_gps_cleanup;
  gi_inject_time := freerunner_gps_inject_time;
  gi_delete_aiding_data := freerunner_gps_delete_aiding_data;
  gi_set_position_mode := freerunner_gps_set_position_mode;
  gi_get_extension := freerunner_gps_get_extension
|}.

Definition gps_get_hardware_interface : GpsInterface := freerunnerGpsInterface.

(** *** One step of the system *)

Inductive GLabel :=
  | LInit (cb : GpsCallbacks) (env : InitEnv)
  | LRegister
  | LStart (ok : bool)
  | LStop (ok : bool)
  | LSetFrequency (freq : Z)
  | LSetMode (mode freq : Z)
  | LCleanup
  | LJoined
  | LGpsInit (time_local time_utc : Z)
  | LGpsCommand (timer_ok : bool)
  | LGpsData (cs : list ascii)
  | LGpsByte
  | LGpsError
  | LGpsJoined
  | LTimer (i : nat).

Definition client_step (l : GLabel) (w : GWorld) : GResult :=
  let s := gw_state w in
  match gw_client w, l with
  | Idle, LInit cb env => gi_init gps_get_hardware_interface cb env w
  | Registering cb, LRegister => Next (client_moves (with_callbacks cb s) (gw_control w) Idle w)
  | Idle, LStart ok => Next (gi_start gps_get_hardware_interface ok w)
  | Idle, LStop ok => Next (gi_stop gps_get_hardware_interface ok w)
  | Idle, LSetFrequency f =>
      Next (client_moves (gi_set_fix_frequency gps_get_hardware_interface f s) (gw_control w) Idle w)
  | Idle, LSetMode m f =>
      Next (client_moves (gi_set_position_mode gps_get_hardware_interface m f s).2 (gw_control w) Idle w)
  | Idle, LCleanup => Next (gi_cleanup gps_get_hardware_interface w)
  | Joining, LJoined =>
      match gw_gps w with
      | GExited => Next (gps_state_done_joined w)
      | GNone => Undef
      | _ => Disabled
      end
  | _, _ => Disabled
  end.

Definition gps_step (l : GLabel) (w : GWorld) : GResult :=
  let s := gw_state w in
  match gw_gps w, l with
  | GInit, LGpsInit tl tu =>
      Next (gps_moves (with_reader (nmea_reader_init tl tu) s) (GLoop false) (gw_timers w)
              (gps_dev_init ++ GPS_STATUS_CB s GPS_STATUS_ENGINE_ON) w)
  | GLoop started, LGpsCommand timer_ok =>
      match gw_control w with
      | cmd :: rest => Next (gps_command cmd started timer_ok (client_moves s rest (gw_client w) w))
      | [] => Disabled
      end
  | GLoop started, LGpsData cs => Next (gps_moves s (GFeed started cs) (gw_timers w) [] w)
  | GFeed started cs, LGpsByte =>
      match cs with
      | c :: cs' =>
          if fix_sem s then
            match nmea_reader_addc c s with
            | Some (s', evs) => Next (gps_moves s' (GFeed started cs') (gw_timers w) evs w)
            | None => Undef
            end
          else Undef
      | [] => Next (gps_moves s (GLoop started) (gw_timers w) [] w)
      end
  | GLoop _, LGpsError => Next (gps_exit w)
  | GJoin, LGpsJoined =>
      match last (gw_timers w) with
      | Some TExited =>
          Next (gps_moves s (GLoop false) (gw_timers w) (GPS_STATUS_CB s GPS_STATUS_SESSION_END) w)
      | _ => Disabled
      end
  | _, _ => Disabled
  end.

Definition gstep (l : GLabel) (w : GWorld) : GResult :=
  match l with
  | LTimer i =>
      match gw_timers w !! i with
      | Some t =>
          match timer_step t (gw_state w) with
          | Some (s, t', evs) => Next (gps_moves s (gw_gps w) (<[i := t']> (gw_timers w)) evs w)
          | None => Undef
          end
      | None => Disabled
      end
  | LGpsInit _ _ | LGpsCommand _ | LGpsData _ | LGpsByte | LGpsError | LGpsJoined => gps_step l w
  | _ => client_step l w
  end.

Definition gps_boot : GWorld :=
  {| gw_state := zero_state; gw_control := []; gw_gps := GNone; gw_timers := [];
     gw_client := Idle; gw_events := [] |}.
End state.

(** Calls through the table of the interface. *)
Ltac through_interface :=
  unfold gps_get_hardware_interface, freerunnerGpsInterface;
  cbn [gi_init gi_start gi_stop gi_set_fix_frequency gi_cleanup gi_set_position_mode].
