(* ===== verification/GpsThreads.v ===== *)
(** * The three threads of the GPS library: safety of their interleavings

    [careful] is the conjunction of two conditions.  [disciplined] is what the
    client has to do: call [freerunner_gps_cleanup] only when the library is not
    initialised, or the reading thread was created and no session is on.
    [system_ok] is what the system has to do: [socketpair] and [pthread_create]
    succeed.  Under both no interleaving is undefined, apart from what the
    parser does with the bytes received, and one timer thread at most is alive;
    [cleanup_in_session] and [join_without_thread] show what happens
    otherwise. *)

From S2P Require Import Prelude CString AtReader CDouble Nmea GpsDev GpsState.

Open Scope Z_scope.

Section threads.
Context `{GpsHeader}.

#[local] Arguments gps_dev_init : simpl never.
#[local] Arguments sends : simpl never.

(** ** Runs *)

(** A run from [w] to [w'] with the labels [ls], each allowed by [ok]. *)
Inductive grun (ok : GWorld → GLabel → Prop) (w : GWorld) : list GLabel → GWorld → Prop :=
  | grun_nil : grun ok w [] w
  | grun_step ls w1 l w2 :
      grun ok w ls w1 → ok w1 l → gstep l w1 = Next w2 →
      grun ok w (ls ++ [l]) w2.

Definition any (w : GWorld) (l : GLabel) : Prop := True.

(** Executable form: the result of the labels in order. *)
Fixpoint gexec (ls : list GLabel) (w : GWorld) : GResult :=
  match ls with
  | [] => Next w
  | l :: ls' => match gstep l w with Next w' => gexec ls' w' | r => r end
  end.

Definition alive (t : TimerThread) : bool := match t with TExited => false | _ => true end.

(** The thread exists and no session is on or being closed. *)
Definition quiet_thread (g : GpsThread) : bool :=
  match g with GInit | GLoop false | GFeed false _ | GExited => true | _ => false end.

Definition no_start (control : list Z) : Prop := CMD_START ∉ control.

(** The reading thread exists, no session is on and none is about to begin. *)
Definition session_off (w : GWorld) : Prop :=
  quiet_thread (gw_gps w) = true ∧ no_start (gw_control w) ∧
  Forall (λ t, alive t = false) (gw_timers w).

(** The system: [socketpair] and [pthread_create] succeed. *)
Definition system_ok (l : GLabel) : Prop :=
  match l with LInit _ env => (ie_socket env && ie_thread env) = true | _ => True end.

(** The client: it cleans up when the library is not initialised, or when the
    reading thread exists and no session is on. *)
Definition disciplined (w : GWorld) (l : GLabel) : Prop :=
  match l with LCleanup => gs_init (gw_state w) = 0 ∨ session_off w | _ => True end.

Definition careful (w : GWorld) (l : GLabel) : Prop := system_ok l ∧ disciplined w l.

(** Only the last timer thread may be alive. *)
Definition only_last (ts : list TimerThread) : Prop :=
  ∀ i t, ts !! i = Some t → alive t = true → Datatypes.S i = length ts.

Definition none_alive (ts : list TimerThread) : Prop := Forall (λ t, alive t = false) ts.

#[global] Instance session_off_dec w : Decision (session_off w).
Proof. unfold session_off, no_start. apply _. Defined.

#[global] Instance careful_dec w l : Decision (careful w l).
Proof. destruct l; unfold careful; simpl; apply _. Defined.

(** Executable form of a run of a careful client. *)
Fixpoint gexec_careful (ls : list GLabel) (w : GWorld) : option GWorld :=
  match ls with
  | [] => Some w
  | l :: ls' =>
      if decide (careful w l)
      then match gstep l w with Next w' => gexec_careful ls' w' | _ => None end
      else None
  end.

Lemma grun_exec pre ls w0 w w' :
  grun careful w0 pre w → gexec_careful ls w = Some w' → grun careful w0 (pre ++ ls) w'.
Proof.
  revert pre w. induction ls as [|l ls IH]; intros pre w Hr; simpl.
  - intros [= <-]. by rewrite app_nil_r.
  - case_decide; [|done]. destruct (gstep l w) as [| |w1] eqn:E; try done.
    intros Hx. replace (pre ++ l :: ls) with ((pre ++ [l]) ++ ls) by by rewrite <-app_assoc.
    eapply IH; [|done]. by econstructor.
Qed.

(** What holds of state and timers in each state of [gps_state_thread]. *)
Definition gps_inv (g : GpsThread) (init : Z) (ts : list TimerThread) : Prop :=
  match g with
  | GNone => none_alive ts ∧ init ≠ STATE_START
  | GInit | GLoop false | GFeed false _ => none_alive ts ∧ init = STATE_INIT
  | GLoop true | GFeed true _ =>
      init = STATE_START ∧ ∃ t, last ts = Some t ∧ alive t = true
  | GJoin => init = STATE_INIT
  | GExited => init ≠ 0
  end.

Record threads_inv (w : GWorld) : Prop := {
  ti_sem : gw_gps w ≠ GNone → fix_sem (gw_state w) = true;
  ti_last : only_last (gw_timers w);
  ti_gps : gps_inv (gw_gps w) (gs_init (gw_state w)) (gw_timers w);
  ti_join : gw_client w = Joining → session_off w;
  ti_none : gw_gps w = GNone → gs_init (gw_state w) ≠ 0 → gs_fd (gw_state w) < 0
}.

(** ** Lists of timers *)

Lemma none_only_last ts : none_alive ts → only_last ts.
Proof. intros Hn i t Hi Ha. eapply Forall_lookup_1 in Hn; [|done]. congruence. Qed.

Lemma only_last_none ts :
  only_last ts → last ts = Some TExited → none_alive ts.
Proof.
  intros Ho Hl. apply Forall_lookup_2. intros i t Hi. destruct (alive t) eqn:Ha; [|done].
  specialize (Ho _ _ Hi Ha). rewrite last_lookup in Hl.
  replace (pred (length ts)) with i in Hl by lia. rewrite Hi in Hl. by injection Hl as ->.
Qed.

Lemma none_snoc ts t : none_alive ts → only_last (ts ++ [t]).
Proof.
  intros Hn i x Hi Ha. apply lookup_app_Some in Hi as [Hi|[Hge Hi]].
  - eapply Forall_lookup_1 in Hn; [|done]. congruence.
  - apply list_lookup_singleton_Some in Hi as [? _]. rewrite length_app. simpl. lia.
Qed.

(** A timer thread that was alive may move on, one that returned may not. *)
Lemma insert_only_last ts i t t' :
  only_last ts → ts !! i = Some t → (alive t' = true → alive t = true) →
  only_last (<[i := t']> ts).
Proof.
  intros Ho Hi Ht j x Hj Ha. rewrite length_insert.
  destruct (decide (i = j)) as [->|Hn].
  - rewrite list_lookup_insert_eq in Hj by (by eapply lookup_lt_Some). injection Hj as <-. eauto.
  - rewrite list_lookup_insert_ne in Hj by done. eauto.
Qed.

Lemma insert_none_alive ts i t t' :
  none_alive ts → ts !! i = Some t → (alive t' = true → alive t = true) →
  none_alive (<[i := t']> ts).
Proof.
  intros Hn Hi Ht. apply Forall_insert; [done|].
  eapply Forall_lookup_1 in Hn; [|done]. destruct (alive t'); [|done]. rewrite Ht in Hn by done. done.
Qed.

Lemma insert_last_alive ts i t t' :
  (∃ x, last ts = Some x ∧ alive x = true) → ts !! i = Some t → (alive t = true → alive t' = true) →
  ∃ x, last (<[i := t']> ts) = Some x ∧ alive x = true.
Proof.
  intros (x & Hx & Ha) Hi Ht. rewrite last_lookup, length_insert. rewrite last_lookup in Hx.
  destruct (decide (i = pred (length ts))) as [->|Hn].
  - rewrite list_lookup_insert_eq by (by eapply lookup_lt_Some). exists t'. split; [done|].
    rewrite Hi in Hx. injection Hx as ->. auto.
  - rewrite list_lookup_insert_ne by done. eauto.
Qed.

(** ** Updates of the state that the threads' bookkeeping does not see *)

Definition same_control (s s' : GpsState) : Prop :=
  gs_init s' = gs_init s ∧ fix_sem s' = fix_sem s ∧ gs_fd s' = gs_fd s.

Lemma parse_same_control s s' evs :
  nmea_reader_parse s = Some (s', evs) → same_control s s'.
Proof.
  unfold nmea_reader_parse. repeat (case_match; [intros [= <- <-]; done|]).
  destruct (parse_branch _ _ _) as [r|]; [|done]. cbn [mbind option_bind]. unfold report_first_fix.
  intros E. repeat case_match; by simplify_eq.
Qed.

Lemma addc_same_control c s s' evs :
  nmea_reader_addc c s = Some (s', evs) → same_control s s'.
Proof.
  unfold nmea_reader_addc. repeat (case_match; [try (intros [= <- <-]; done)|]);
    try (intros [= <- <-]; done).
  destruct (nmea_reader_parse _) as [[s1 e1]|] eqn:E; [|done]. cbn [mbind option_bind].
  intros [= <- <-]. by apply parse_same_control in E.
Qed.

Lemma timer_section_same_control s : same_control s (timer_section s).1.
Proof. unfold timer_section. repeat case_match; simplify_eq; done. Qed.

(** ** Preservation *)

(** The bookkeeping depends on the state only through its control part. *)
Lemma inv_same_control w w' :
  threads_inv w → same_control (gw_state w) (gw_state w') → gw_control w' = gw_control w →
  gw_gps w' = gw_gps w → gw_timers w' = gw_timers w →
  (gw_client w' = Joining → gw_client w = Joining) → threads_inv w'.
Proof.
  intros [Hs Hl Hg Hj Hn] (Ei & Es & Ef) Ec Eg Et Hc.
  constructor; rewrite ?Ei, ?Es, ?Ef, ?Ec, ?Eg, ?Et; auto.
  intros ?. destruct Hj as (? & ? & ?); [auto|]. by unfold session_off; rewrite Eg, Ec, Et.
Qed.

Lemma gps_state_init_spec env s :
  (ie_socket env && ie_thread env) = true →
  ∃ s' created, gps_state_init env s = Some (s', created) ∧ gs_init s' = STATE_INIT ∧
    if created : bool then fix_sem s' = true else gs_fd s' < 0.
Proof.
  intros He. unfold gps_state_init. rewrite He.
  destruct (ie_sem env); cbn [negb]; [|by eexists _, false].
  destruct (String.eqb _ _); [by eexists _, false|]. cbv zeta.
  destruct (256 <=? _)%nat; [by eexists _, false|].
  destruct (Z.ltb_spec (gs_fd (with_fd (ie_open env ("/dev/" +:+ ie_prop env)) s)) 0) as [Hf|Hf];
    cbn [gs_fd with_fd] in Hf |- *.
  - rewrite (proj2 (Z.ltb_lt _ _) Hf). by eexists _, false.
  - rewrite (proj2 (Z.ltb_ge _ _) Hf). by eexists _, true.
Qed.

Lemma init_preserves cb env w :
  threads_inv w → (ie_socket env && ie_thread env) = true → gw_client w = Idle →
  ∃ w', freerunner_gps_init cb env w = Next w' ∧ threads_inv w'.
Proof.
  intros Hi He Hc. pose proof Hi as [Hs Hl Hg Hj Hn]. unfold freerunner_gps_init.
  destruct (Z.eqb_spec (gs_init (gw_state w)) 0) as [E0|E0].
  - destruct (gps_state_init_spec env (gw_state w) He) as (s & created & -> & Ei & Hcr).
    assert (Eg : gw_gps w = GNone ∧ none_alive (gw_timers w)).
    { revert Hg. rewrite E0. destruct (gw_gps w) as [| |[]|[] ?| |]; simpl; intros Hg;
        destruct_and?; done. }
    destruct Eg as [Eg Hna]. eexists; split; [done|].
    destruct created; simpl in Hcr.
    + constructor; simpl; try done. by destruct (gs_fd s <? 0).
    + rewrite (proj2 (Z.ltb_lt _ _) Hcr). constructor; simpl; rewrite ?Eg; try done. by split; [|rewrite Ei].
  - eexists; split; [done|]. eapply inv_same_control; [exact Hi|..]; try done; simpl.
    by destruct (gs_fd (gw_state w) <? 0).
Qed.

Lemma send_preserves cmd ok w :
  threads_inv w → gw_client w = Idle → threads_inv (gps_state_send cmd ok w).
Proof. intros [Hs Hl Hg Hj Hn] Hc. constructor; simpl; auto. by rewrite Hc. Qed.

Lemma cleanup_preserves w :
  threads_inv w → gs_init (gw_state w) = 0 ∨ session_off w →
  threads_inv (freerunner_gps_cleanup w).
Proof.
  intros Hi Ho. unfold freerunner_gps_cleanup. destruct (Z.eqb_spec (gs_init (gw_state w)) 0); [done|].
  destruct Ho as [?|(Hq & Hc & Ha)]; [done|]. destruct Hi as [Hs Hl Hg Hj Hn].
  constructor; simpl; auto. intros _. split_and!; simpl; [done| |done].
  unfold no_start. rewrite elem_of_app, list_elem_of_singleton. intros [?|?]; done.
Qed.

Lemma joined_preserves w :
  threads_inv w → gw_client w = Joining → threads_inv (gps_state_done_joined w).
Proof.
  intros [Hs Hl Hg Hj Hn] Hc. destruct (Hj Hc) as (_ & _ & Ha).
  constructor; simpl; done.
Qed.

(** The exit of the thread, from a state whose timers are in order. *)
Lemma exit_preserves w :
  fix_sem (gw_state w) = true → only_last (gw_timers w) → gs_init (gw_state w) ≠ 0 →
  (gw_client w = Joining → no_start (gw_control w) ∧ none_alive (gw_timers w)) →
  threads_inv (gps_exit w).
Proof.
  intros Hs Hl Hi Hj. constructor; simpl; try done. intros Hc. destruct (Hj Hc). by split_and!.
Qed.

Lemma loop_inv started w :
  threads_inv w → gw_gps w = GLoop started →
  fix_sem (gw_state w) = true ∧ gs_init (gw_state w) ≠ 0 ∧
  (started = false → none_alive (gw_timers w) ∧ gs_init (gw_state w) = STATE_INIT) ∧
  (gw_client w = Joining → no_start (gw_control w) ∧ none_alive (gw_timers w) ∧ started = false).
Proof.
  intros [Hs Hl Hg Hj Hn] Eg. rewrite Eg in *. split_and!; [by apply Hs| | |].
  - destruct started; simpl in Hg; [by destruct Hg as [-> _]|by destruct Hg as [_ ->]].
  - by intros ->.
  - intros Hc. destruct (Hj Hc) as (Hq & ? & ?). rewrite Eg in Hq. by destruct started.
Qed.

Lemma command_preserves started timer_ok cmd rest w :
  threads_inv w → gw_gps w = GLoop started → gw_control w = cmd :: rest →
  threads_inv (gps_command cmd started timer_ok (client_moves (gw_state w) rest (gw_client w) w)).
Proof.
  intros Hi Eg Ec. destruct (loop_inv _ _ Hi Eg) as (Hs & H0 & Hst & Hj). destruct Hi as [_ Hl Hg Hjo Hn].
  rewrite Ec in Hj. rewrite Eg in Hg.
  assert (Hj' : gw_client w = Joining → cmd ≠ CMD_START ∧ no_start rest ∧ none_alive (gw_timers w)
                ∧ started = false).
  { intros Hc. destruct (Hj Hc) as (Hin & ? & ?). apply not_elem_of_cons in Hin as [? ?]. by split_and!. }
  unfold gps_command. simpl.
  destruct (Z.eqb_spec cmd CMD_QUIT).
  { apply exit_preserves; simpl; [done|done|done|]. intros Hc. by destruct (Hj' Hc) as (_ & ? & ? & _). }
  assert (Hkeep : threads_inv (client_moves (gw_state w) rest (gw_client w) w)).
  { constructor; simpl; rewrite ?Eg; try done. intros Hc. destruct (Hj' Hc) as (? & ? & ? & ->).
    by rewrite ?Eg; split_and!; simpl; rewrite ?Eg. }
  destruct (Z.eqb_spec cmd CMD_START) as [->|].
  - destruct started; [done|]. destruct (Hst eq_refl) as [Hna Hin]. destruct timer_ok.
    + constructor; simpl; try done; [by apply none_snoc|by rewrite last_snoc; eauto|].
      intros Hc. by destruct (Hj' Hc).
    + apply exit_preserves; simpl; [done|done|done|]. intros Hc. by destruct (Hj' Hc).
  - destruct (Z.eqb_spec cmd CMD_STOP) as [->|]; [|done]. destruct started; [|done].
    constructor; simpl; try done. intros Hc. by destruct (Hj' Hc) as (_ & _ & _ & ?).
Qed.

Lemma gps_step_preserves l w w' :
  threads_inv w → gps_step l w = Next w' → threads_inv w'.
Proof.
  intros Hi. pose proof Hi as [Hs Hl Hg Hj Hn]. unfold gps_step.
  destruct (gw_gps w) as [| |started|started cs| |] eqn:Eg, l; try done.
  - intros [= <-]. constructor; simpl; try done; auto.
    intros Hc. destruct (Hj Hc) as (? & ? & ?). by split_and!.
  - destruct (gw_control w) as [|cmd rest] eqn:Ec; [done|]. intros [= <-]. by apply command_preserves.
  - intros [= <-]. constructor; simpl; rewrite ?Eg in *; try done; auto.
    intros Hc. destruct (Hj Hc) as (Hq & ? & ?). rewrite Eg in Hq. by split_and!.
  - intros [= <-]. destruct (loop_inv _ _ Hi Eg) as (? & ? & ? & Hjo).
    apply exit_preserves; try done. intros Hc. by destruct (Hjo Hc) as (? & ? & _).
  - assert (Hgen : ∀ s g, (g = GFeed started (drop 1 cs) ∨ g = GLoop started) →
             same_control (gw_state w) s → ∀ evs, threads_inv (gps_moves s g (gw_timers w) evs w)).
    { intros s g Hgg (Ei & Es & Ef) evs. constructor; simpl; rewrite ?Ei, ?Es, ?Ef; try done; auto.
      - by destruct Hgg as [-> | ->], started.
      - intros Hc. destruct (Hj Hc) as (Hq & ? & ?). rewrite Eg in Hq.
        by split_and!; [destruct Hgg as [-> | ->], started|..].
      - by destruct Hgg as [-> | ->]. }
    destruct cs as [|c cs]; [intros [= <-]; apply Hgen; [by right|done]|].
    destruct (fix_sem (gw_state w)); [|done].
    destruct (nmea_reader_addc c (gw_state w)) as [[s evs]|] eqn:E; [|done].
    intros [= <-]. apply Hgen; [left; simpl; by rewrite drop_0|]. by eapply addc_same_control.
  - destruct (last (gw_timers w)) as [[| |]|] eqn:El; try done. intros [= <-].
    constructor; simpl; try done; auto.
    + split; [by apply only_last_none|done].
    + intros Hc. destruct (Hj Hc) as (Hq & _). by rewrite Eg in Hq.
Qed.

Lemma timer_inv w i t :
  threads_inv w → gw_timers w !! i = Some t → alive t = true → fix_sem (gw_state w) = true.
Proof.
  intros [Hs Hl Hg Hj Hn] Hi Ha. apply Hs. intros E. rewrite E in Hg. destruct Hg as [Hna _].
  eapply Forall_lookup_1 in Hna; [|done]. congruence.
Qed.

Lemma timer_step_preserves i t s t' evs w :
  threads_inv w → gw_timers w !! i = Some t → timer_step t (gw_state w) = Some (s, t', evs) →
  threads_inv (gps_moves s (gw_gps w) (<[i := t']> (gw_timers w)) evs w).
Proof.
  intros [Hs Hl Hg Hj Hn] Hi Ht.
  assert (Hsame : same_control (gw_state w) s ∧ (alive t' = true → alive t = true) ∧
                  (gs_init (gw_state w) = STATE_START → alive t = true → alive t' = true)).
  { destruct t; simpl in Ht.
    - destruct (fix_sem _); [|done]. pose proof (timer_section_same_control (gw_state w)) as Hsc.
      destruct (timer_section _) as [s1 e1]. by simplify_eq.
    - simplify_eq. split_and!; [done|done|]. by intros ->.
    - by simplify_eq. }
  destruct Hsame as ((Ei & Es & Ef) & Hback & Hfwd).
  constructor; simpl; rewrite ?Ei, ?Es, ?Ef; try done; auto.
  - by eapply insert_only_last.
  - destruct (gw_gps w) as [| |[]|[] ?| |]; simpl in *; destruct_and?; try done;
      split; try done; first [by eapply insert_none_alive|by eapply insert_last_alive; eauto].
  - intros Hc. destruct (Hj Hc) as (? & ? & ?). split_and!; simpl; [done|done|].
    by eapply insert_none_alive.
Qed.

Lemma client_step_preserves l w w' :
  threads_inv w → careful w l → client_step l w = Next w' → threads_inv w'.
Proof.
  intros Hi [Hsys Hok]. unfold client_step. through_interface.
  destruct (gw_client w) eqn:Ec, l; simpl in Hok, Hsys; try done.
  - destruct (init_preserves cb env w) as (w1 & -> & ?); [done..|]. by intros [= <-].
  - intros [= <-]. unfold freerunner_gps_start. case_match; [done|by apply send_preserves].
  - intros [= <-]. unfold freerunner_gps_stop. case_match; [done|by apply send_preserves].
  - intros [= <-]. eapply inv_same_control; [exact Hi|..]; try done.
    unfold freerunner_gps_set_fix_frequency. simpl. by case_match.
  - intros [= <-]. eapply inv_same_control; [exact Hi|..]; try done.
    unfold freerunner_gps_set_position_mode. simpl. repeat case_match; done.
  - intros [= <-]. by apply cleanup_preserves.
  - intros [= <-]. by eapply inv_same_control; [exact Hi|..].
  - destruct (gw_gps w); try done. intros [= <-]. by apply joined_preserves.
Qed.

Lemma gstep_preserves l w w' :
  threads_inv w → careful w l → gstep l w = Next w' → threads_inv w'.
Proof.
  intros Hi Hok. destruct l; simpl; try (by apply client_step_preserves);
    try (by apply gps_step_preserves).
  destruct (gw_timers w !! i) as [t|] eqn:Et; [|done].
  destruct (timer_step t (gw_state w)) as [[[s t'] evs]|] eqn:E; [|done].
  intros [= <-]. by eapply timer_step_preserves.
Qed.

Lemma boot_inv : threads_inv gps_boot.
Proof. constructor; try done. split; [by apply Forall_nil|done]. Qed.

Lemma grun_inv ls w : grun careful gps_boot ls w → threads_inv w.
Proof. induction 1; [apply boot_inv|by eapply gstep_preserves]. Qed.

(** In a state of the invariant only the parser can be undefined. *)
Lemma gstep_undef l w :
  threads_inv w → careful w l → gstep l w = Undef →
  l = LGpsByte ∧ ∃ started c cs, gw_gps w = GFeed started (c :: cs) ∧
                                 nmea_reader_addc c (gw_state w) = None.
Proof.
  intros Hi [Hok _]. pose proof Hi as [Hs Hl Hg Hj Hn].
  assert (Hclient : client_step l w ≠ Undef).
  { unfold client_step. through_interface. destruct (gw_client w) eqn:Ec, l; try done.
    - destruct (init_preserves cb env w) as (w1 & -> & ?); done.
    - destruct (gw_gps w) eqn:Eg; try done. destruct (Hj eq_refl) as (Hq & _). by rewrite Eg in Hq. }
  assert (Hgps : gps_step l w = Undef → l = LGpsByte ∧ ∃ started c cs,
            gw_gps w = GFeed started (c :: cs) ∧ nmea_reader_addc c (gw_state w) = None).
  { unfold gps_step. destruct (gw_gps w) as [| |started|started cs| |] eqn:Eg, l; try done.
    - by destruct (gw_control w).
    - destruct cs as [|c cs]; [done|]. rewrite Hs by done.
      destruct (nmea_reader_addc _ _) as [[? ?]|] eqn:E; [done|]. eauto 10.
    - by destruct (last (gw_timers w)) as [[| |]|]. }
  destruct l; simpl; try done; try (by intros ?%Hgps).
  destruct (gw_timers w !! i) as [t|] eqn:Et; [|done].
  destruct (timer_step t (gw_state w)) as [[[s t'] evs]|] eqn:E; [done|].
  destruct t; simpl in E; try done. rewrite (timer_inv w i TTop) in E by done.
  by destruct (timer_section _).
Qed.


(** ** Cleaning up in a session *)

(** C36: [freerunner_gps_cleanup] while a session is on lets the timer thread
    use a destroyed semaphore.  In whatever session: after the cleanup, the
    exit of the reading thread and the [memset], the timer thread, which nobody
    joins, is still there; it is undefined if it is about to lock, and
    otherwise, when it wakes up, a new session started meanwhile keeps it
    running next to the new timer thread. *)
Theorem cleanup_in_session (ls : list GLabel) (b : bool) (w : GWorld) :
  grun careful gps_boot ls w → gw_gps w = GLoop true → gw_client w = Idle → gw_control w = [] →
  ∃ w' i t, gexec [LCleanup; LGpsCommand b; LJoined] w = Next w' ∧
    gw_timers w' !! i = Some t ∧ alive t = true ∧ fix_sem (gw_state w') = false ∧
    (t = TTop → gstep (LTimer i) w' = Undef) ∧
    (∀ secs w'', t = TSleep secs → gs_init (gw_state w'') = STATE_START →
       gw_timers w'' !! i = Some t →
       ∃ w3, gstep (LTimer i) w'' = Next w3 ∧ gw_timers w3 !! i = Some TTop).
Proof.
  intros Hi%grun_inv Eg Ec Ect. pose proof (ti_gps w Hi) as Hg. rewrite Eg in Hg.
  destruct Hg as [Est (t & Hlast & Ha)]. rewrite last_lookup in Hlast.
  simpl. unfold client_step. through_interface. rewrite Ec. unfold freerunner_gps_cleanup. rewrite Est. simpl.
  unfold gps_step. simpl. rewrite Eg, Ect. simpl.
  eexists _, (pred (length (gw_timers w))), t. split; [done|]. simpl.
  rewrite Hlast. split_and!; [done|done|done|by intros ->|].
  intros secs w'' -> Hin Hl. rewrite Hl. simpl. rewrite Hin. simpl. eexists; split; [done|].
  simpl. by rewrite list_lookup_insert_eq by (by eapply lookup_lt_Some).
Qed.

(** ** Cleaning up without a thread *)

(** The attempt to initialise reaches the socket pair and the thread. *)
Definition reaches_thread (env : InitEnv) : bool :=
  ie_sem env && negb (String.eqb (ie_prop env) "") &&
  (String.length ("/dev/" +:+ ie_prop env) <? 256)%nat && (0 <=? ie_open env ("/dev/" +:+ ie_prop env)).

Lemma gps_state_init_reaches env s :
  (reaches_thread env = true → (ie_socket env && ie_thread env) = false → gps_state_init env s = None) ∧
  (reaches_thread env = false → ∃ s', gps_state_init env s = Some (s', false) ∧
                                      gs_init s' = STATE_INIT ∧ gs_fd s' < 0).
Proof.
  assert (Hfail : ∀ s', gs_init s' = STATE_INIT → gs_fd s' < 0 → ∃ s1, Some (s', false) = Some (s1, false) ∧
    gs_init s1 = STATE_INIT ∧ gs_fd s1 < 0) by eauto.
  unfold reaches_thread, gps_state_init. destruct (ie_sem env); cbn [negb andb]; [|split; [done|intros _; by apply Hfail]].
  destruct (String.eqb _ _); cbn [negb andb]; [split; [done|intros _; by apply Hfail]|]. cbv zeta.
  destruct (Nat.ltb_spec (String.length ("/dev/" +:+ ie_prop env)) 256) as [Hn|Hn]; cbn [andb].
  2: { rewrite (proj2 (Nat.leb_le _ _) Hn). split; [done|intros _; by apply Hfail]. }
  rewrite (proj2 (Nat.leb_gt _ _) Hn). cbn [gs_fd with_fd].
  set (fd := ie_open env ("/dev/" +:+ ie_prop env)).
  destruct (Z.leb_spec 0 fd) as [Hf|Hf].
  - rewrite (proj2 (Z.ltb_ge _ _) Hf). split; [by intros _ ->|done].
  - rewrite (proj2 (Z.ltb_lt _ _) Hf). split; [done|intros _; by apply Hfail].
Qed.

(** C34: both conditions of [careful] are necessary where no thread exists.
    On a library that is not initialised and has no thread, an initialisation that gets as far as the
    socket pair but fails there, or in [pthread_create], joins a thread that
    was never created.  An initialisation that fails earlier - the semaphore,
    the property, the length of the device name, the device itself - leaves the
    library marked initialised, without a descriptor or a thread and without
    having stored the callbacks, and the cleanup after it joins a thread that
    was never created. *)
Theorem join_without_thread (w : GWorld) (cb : GpsCallbacks) (env : InitEnv) :
  gs_init (gw_state w) = 0 → gw_gps w = GNone → gw_client w = Idle →
  (reaches_thread env = true → (ie_socket env && ie_thread env) = false →
     gstep (LInit cb env) w = Undef) ∧
  (reaches_thread env = false →
     ∃ w1, gstep (LInit cb env) w = Next w1 ∧
       gs_init (gw_state w1) = STATE_INIT ∧ gs_fd (gw_state w1) < 0 ∧ gw_gps w1 = GNone ∧
       gw_client w1 = Idle ∧
       gexec [LCleanup; LJoined] w1 = Undef).
Proof.
  intros Hi Hg Hc. destruct (gps_state_init_reaches env (gw_state w)) as [H1 H2].
  simpl. unfold client_step. through_interface. rewrite Hc. unfold freerunner_gps_init. rewrite Hi. simpl.
  split; intros Hr.
  - intros Hst. by rewrite H1.
  - destruct (H2 Hr) as (s' & -> & Hi' & Hf). rewrite (proj2 (Z.ltb_lt _ _) Hf).
    eexists. split; [reflexivity|]. split_and!; [done..|]. simpl. unfold client_step. through_interface.
    cbn [gw_client client_moves]. unfold freerunner_gps_cleanup. simpl. rewrite Hi'. simpl. by rewrite Hg.
Qed.

(** A single fix asked for ([fix_frequency] 0): once it is delivered the timer
    thread sleeps for [UINT_MAX] seconds, and CMD_STOP waits for it. *)
Lemma one_shot_sleep s s' t evs :
  timer_step TTop s = Some (s', t, evs) → gs_fix_freq s = 0 →
  fl_flags (nr_fix (gs_reader s)) ≠ 0 → t = TSleep UINT_MAX.
Proof.
  simpl. destruct (fix_sem s); [|done]. intros Ht Hf Hn. revert Ht. unfold timer_section.
  rewrite (proj2 (Z.eqb_neq _ _) Hn). simpl.
  destruct (location_cb (gs_callbacks s)); simpl; rewrite Hf; simpl;
    destruct (_ && sv_status_cb _); intros [= <- <- <-]; reflexivity.
Qed.
End threads.

(** ** Examples *)

#[local] Existing Instance android_gps.

Definition all_callbacks : GpsCallbacks :=
  {| location_cb := true; status_cb := true; sv_status_cb := true |}.

Definition good_env : InitEnv :=
  {| ie_sem := true; ie_prop := "ttySAC1"; ie_open := λ _, 5; ie_socket := true; ie_thread := true |}.

(** The library opened, and a session started. *)
Definition opening : list GLabel :=
  [LInit all_callbacks good_env; LGpsInit 0 0; LRegister; LStart true; LGpsCommand true].

Definition run_of (ls : list GLabel) : GWorld :=
  match gexec_careful ls (gps_boot) with
  | Some w => w
  | None => gps_boot
  end.

Lemma opening_run :
  grun careful gps_boot opening (run_of opening).
Proof. apply (grun_exec [] opening _ gps_boot); [constructor|by vm_compute]. Qed.


(** A system without the GPS device, and one that cannot create threads. *)
Definition env_without (device thread : bool) : InitEnv :=
  {| ie_sem := true; ie_prop := "ttySAC1"; ie_open := λ _, if device then 5 else -1;
     ie_socket := true; ie_thread := thread |}.

Lemma join_without_thread_witness :
  gstep (LInit all_callbacks (env_without true false)) gps_boot = Undef ∧
  gexec [LInit all_callbacks (env_without false true); LCleanup; LJoined] gps_boot = Undef.
Proof.
  destruct (join_without_thread gps_boot all_callbacks (env_without true false)) as [H1 _]; [done..|].
  destruct (join_without_thread gps_boot all_callbacks (env_without false true)) as [_ H2]; [done..|].
  split; [by apply H1|]. destruct H2 as (w1 & Hs & _ & _ & _ & _ & Hu); [done|].
  change (match gstep (LInit all_callbacks (env_without false true)) gps_boot with
          | Next w' => gexec [LCleanup; LJoined] w' | r => r end = Undef).
  by rewrite Hs.
Defined.

Lemma cleanup_in_session_witness :
  let w := run_of opening in
  ∃ w' i t, gexec [LCleanup; LGpsCommand true; LJoined] w = Next w' ∧
    gw_timers w' !! i = Some t ∧ alive t = true ∧ fix_sem (gw_state w') = false ∧
    (t = TTop → gstep (LTimer i) w' = Undef) ∧
    (∀ secs w'', t = TSleep secs → gs_init (gw_state w'') = STATE_START →
       gw_timers w'' !! i = Some t →
       ∃ w3, gstep (LTimer i) w'' = Next w3 ∧ gw_timers w3 !! i = Some TTop).
Proof. intros w. by apply (cleanup_in_session opening true w opening_run). Defined.

(** Two timer threads alive: cleaned up in a session, started again. *)
Example two_timers :
  ∃ w, gexec (opening ++ [LTimer 0; LCleanup; LGpsCommand true; LJoined] ++ opening ++ [LTimer 0])
         gps_boot = Next w ∧ gw_timers w = [TTop; TTop].
Proof. eexists. split; [by vm_compute|reflexivity]. Qed.
