(* ===== verification/GpsProtocol.v ===== *)
(** * What a client of the GPS library observes

    The log of the library - callbacks, commands to the receiver, power - in
    every interleaving of its threads, against an abstract machine of engine
    and session: [spec_step] gives what each transition may log. *)

From S2P Require Import Prelude CString AtReader CDouble Nmea GpsDev GpsState GpsThreads.

Open Scope Z_scope.

(** The receiver is without power; on; in a session; stopping one. *)
Inductive Phase := PowerOff | EngineOn | InSession | Ending.

Section protocol.
Context `{GpsHeader}.

#[local] Arguments sends : simpl never.

(** A status, once the client has registered its callbacks. *)
Definition told (heard : bool) (status : Z) : list GpsEvent :=
  if heard then [EvStatus status] else [].

(** The abstract machine: a phase, and whether the client hears of it.  Only
    the power transitions may go unheard. *)
Inductive spec_step : Phase * bool → list GpsEvent → Phase * bool → Prop :=
  | spec_on h :
      spec_step (PowerOff, h) (EvPower 1 :: sends gps_dev_stop ++ told h GPS_STATUS_ENGINE_ON) (EngineOn, h)
  | spec_register p h : spec_step (p, h) [] (p, true)
  | spec_begin :
      spec_step (EngineOn, true) (sends gps_dev_start ++ [EvStatus GPS_STATUS_SESSION_BEGIN]) (InSession, true)
  | spec_stop : spec_step (InSession, true) (sends gps_dev_stop) (Ending, true)
  | spec_end : spec_step (Ending, true) [EvStatus GPS_STATUS_SESSION_END] (EngineOn, true)
  | spec_off p h :
      p = EngineOn ∨ p = InSession →
      spec_step (p, h) (told h GPS_STATUS_ENGINE_OFF ++ [EvPower 0]) (PowerOff, h)
  | spec_reset h : spec_step (PowerOff, h) [] (PowerOff, false)
  | spec_fix p h f : fl_flags f ≠ 0 → spec_step (p, h) [EvLocation f] (p, h)
  | spec_sv p h sv : spec_step (p, h) [EvSvStatus sv] (p, h).

Inductive spec_run (a : Phase * bool) : list GpsEvent → Phase * bool → Prop :=
  | spec_nil : spec_run a [] a
  | spec_snoc b c log evs : spec_run a log b → spec_step b evs c → spec_run a (log ++ evs) c.

Lemma spec_one a evs b : spec_step a evs b → spec_run a evs b.
Proof. intros Hs. apply (spec_snoc a a b [] evs); [constructor|done]. Qed.

Lemma spec_trans a b c log log' : spec_run a log b → spec_run b log' c → spec_run a (log ++ log') c.
Proof.
  intros Ha Hb. induction Hb as [|b' c' log' evs Hb IH Hs]; [by rewrite app_nil_r|].
  rewrite app_assoc. by econstructor.
Qed.

(** Reports leave the phase alone. *)
Definition report (e : GpsEvent) : Prop :=
  match e with EvLocation f => fl_flags f ≠ 0 | EvSvStatus _ => True | _ => False end.

Lemma reports_run a evs : Forall report evs → spec_run a evs a.
Proof.
  intros Hr. induction Hr as [|e evs He _ IH]; [constructor|].
  apply (spec_trans a a a [e] evs); [|done]. destruct a as [p h].
  apply spec_one. destruct e; simpl in He; try done; by constructor.
Qed.

(** ** The abstraction *)

Definition phase_of (g : GpsThread) : Phase :=
  match g with
  | GNone | GInit | GExited => PowerOff
  | GLoop started | GFeed started _ => if started then InSession else EngineOn
  | GJoin => Ending
  end.

Definition heard (w : GWorld) : bool := status_cb (gs_callbacks (gw_state w)).

Definition abstraction (w : GWorld) : Phase * bool := (phase_of (gw_gps w), heard w).

(** A client that wants the status. *)
Definition listens (w : GWorld) (l : GLabel) : Prop :=
  match l with LInit cb _ => status_cb cb = true | _ => True end.

(** Until the callbacks are stored the client is still in
    [freerunner_gps_init] and has sent nothing. *)
Record protocol_inv (w : GWorld) : Prop := {
  pi_none : gs_init (gw_state w) = 0 → gw_gps w = GNone ∧ gw_control w = [];
  pi_registering : ∀ cb, gw_client w = Registering cb → status_cb cb = true;
  pi_unheard : gw_gps w ≠ GNone → heard w = false →
    (∃ cb, gw_client w = Registering cb) ∧ gw_control w = [] ∧
    (phase_of (gw_gps w) = PowerOff ∨ phase_of (gw_gps w) = EngineOn)
}.

(** ** What the parser and the timer log *)

Definition logs_reports (s : GpsState) (r : GpsState * list GpsEvent) : Prop :=
  gs_callbacks r.1 = gs_callbacks s ∧ Forall report r.2.

Lemma land_flags_ne f z : Z.land f z ≠ 0 → f ≠ 0.
Proof. intros Hl ->. by rewrite Z.land_0_l in Hl. Qed.

Lemma first_fix_reports s : logs_reports s (report_first_fix s).
Proof.
  unfold report_first_fix. destruct (_ && _) eqn:E; [|done].
  apply andb_true_iff in E as [_ E%negb_true_iff%Z.eqb_neq%land_flags_ne].
  destruct (location_cb (gs_callbacks s)); by repeat constructor.
Qed.

Lemma parse_reports s r : nmea_reader_parse s = Some r → logs_reports s r.
Proof.
  unfold nmea_reader_parse. case_match; [by intros [= <-]|]. cbv zeta. case_match; [by intros [= <-]|].
  destruct (parse_branch _ _ _); [|done]. cbn [mbind option_bind]. intros [= <-].
  destruct (first_fix_reports (with_reader n s)) as [Hc Hr]. by split.
Qed.

Lemma addc_reports c s r : nmea_reader_addc c s = Some r → logs_reports s r.
Proof.
  unfold nmea_reader_addc. cbv zeta. repeat (case_match; [by try intros [= <-]|]); try by intros [= <-].
  all: case_match; [|by intros [= <-]].
  all: destruct (nmea_reader_parse _) as [[s1 e1]|] eqn:E; [|done]; cbn [mbind option_bind]; intros [= <-];
    by apply parse_reports in E.
Qed.

Lemma timer_reports s : logs_reports s (timer_section s).
Proof.
  unfold timer_section, logs_reports. destruct (Z.eqb_spec (fl_flags (nr_fix (gs_reader s))) 0); cbn [negb];
    repeat case_match; simplify_eq; (split; [done|]); simpl; by repeat constructor.
Qed.
(** ** Simulation *)

(** [w'] continues [w] as the abstract machine allows. *)
Definition follows (w w' : GWorld) : Prop :=
  ∃ evs, gw_events w' = gw_events w ++ evs ∧ spec_run (abstraction w) evs (abstraction w').

Lemma follows_quiet w w' :
  gw_events w' = gw_events w → abstraction w' = abstraction w → follows w w'.
Proof. intros He Ha. exists []. rewrite He, app_nil_r, Ha. split; [done|constructor]. Qed.

Lemma follows_step w w' evs :
  gw_events w' = gw_events w ++ evs → spec_step (abstraction w) evs (abstraction w') → follows w w'.
Proof. intros He Hs. exists evs. split; [done|by apply spec_one]. Qed.

(** While the client is between two calls it hears of a running thread. *)
Lemma idle_heard w :
  protocol_inv w → (∀ cb, gw_client w ≠ Registering cb) → gw_gps w ≠ GNone → heard w = true.
Proof.
  intros [_ _ Hu] Hc Hg. destruct (heard w) eqn:E; [done|].
  destruct (Hu Hg eq_refl) as ([cb Hcb] & _). by destruct (Hc cb).
Qed.

(** The client acts on the state and the control socket only. *)
Lemma client_moves_protocol s control c w :
  protocol_inv w → gs_callbacks s = gs_callbacks (gw_state w) →
  (gs_init s = 0 → gs_init (gw_state w) = 0 ∧ control = []) →
  (∀ cb, gw_client w ≠ Registering cb) → (∀ cb, c = Registering cb → status_cb cb = true) →
  protocol_inv (client_moves s control c w) ∧ follows w (client_moves s control c w).
Proof.
  intros Hi Hcb Hin Hw Hc. assert (Hh : heard (client_moves s control c w) = heard w)
    by (unfold heard; simpl; by rewrite Hcb).
  split.
  - constructor; simpl.
    + intros [Ei ->]%Hin. split; [|done]. by apply (pi_none w Hi).
    + exact Hc.
    + rewrite Hh. intros Hg Hu. pose proof (idle_heard w Hi Hw Hg). congruence.
  - apply follows_quiet; [done|]. unfold abstraction. by rewrite Hh.
Qed.

Lemma gps_state_init_fields env s s' created :
  gps_state_init env s = Some (s', created) →
  gs_callbacks s' = gs_callbacks s ∧ gs_init s' = STATE_INIT ∧ (created = true → (gs_fd s' <? 0) = false).
Proof.
  unfold gps_state_init. repeat case_match; intros; simplify_eq; done.
Qed.

Lemma init_protocol cb env w w' :
  protocol_inv w → gw_client w = Idle → status_cb cb = true →
  freerunner_gps_init cb env w = Next w' → protocol_inv w' ∧ follows w w'.
Proof.
  intros Hi Hc Hcb. assert (Hidle : ∀ cb, gw_client w ≠ Registering cb) by (by rewrite Hc).
  assert (Hreg : ∀ s cb', (if gs_fd s <? 0 then Idle else Registering cb) = Registering cb' →
                          status_cb cb' = true) by (intros s cb'; case_match; by intros [= <-]).
  unfold freerunner_gps_init. destruct (Z.eqb_spec (gs_init (gw_state w)) 0) as [E0|E0].
  - destruct (pi_none w Hi E0) as [Eg Ec].
    destruct (gps_state_init env (gw_state w)) as [[s created]|] eqn:E; [|done].
    apply gps_state_init_fields in E as (Es & Ei & Ef). destruct created; intros [= <-].
    + rewrite Ef by done. split; [|by apply follows_quiet; [apply app_nil_r|unfold abstraction, heard; simpl; by rewrite Es, Eg]].
      constructor; simpl; [by rewrite Ei|by intros ? [= <-]|].
      intros _ _. split_and!; [by exists cb|done|by left].
    + apply client_moves_protocol; try done; apply Hreg.
  - intros [= <-]. apply client_moves_protocol; try done. apply Hreg.
Qed.

Lemma client_protocol l w w' :
  protocol_inv w → listens w l → client_step l w = Next w' → protocol_inv w' ∧ follows w w'.
Proof.
  intros Hi Hl. unfold client_step. through_interface.
  destruct (gw_client w) as [|cb|] eqn:Ec, l; simpl in Hl; try done.
  all: try (assert (Hidle : ∀ cb, gw_client w ≠ Registering cb) by (by rewrite Ec)).
  all: assert (Hw : protocol_inv w ∧ follows w w) by (split; [done|by apply follows_quiet]).
  - by apply init_protocol.
  - intros [= <-]. unfold freerunner_gps_start, gps_state_start. destruct (Z.eqb_spec (gs_init (gw_state w)) 0); [done|].
    apply client_moves_protocol; try done. by rewrite Ec.
  - intros [= <-]. unfold freerunner_gps_stop, gps_state_stop. destruct (Z.eqb_spec (gs_init (gw_state w)) 0); [done|].
    apply client_moves_protocol; try done. by rewrite Ec.
  - intros [= <-]. unfold freerunner_gps_set_fix_frequency. destruct (Z.eqb_spec (gs_init (gw_state w)) 0) as [E|E];
      apply client_moves_protocol; try done. intros _. split; [done|]. by apply (pi_none w Hi).
  - intros [= <-]. apply client_moves_protocol; try done;
      unfold freerunner_gps_set_position_mode; repeat case_match; simpl; try done;
      intros E; (split; [done|]); by apply (pi_none w Hi).
  - intros [= <-]. unfold freerunner_gps_cleanup. destruct (Z.eqb_spec (gs_init (gw_state w)) 0); [done|].
    apply client_moves_protocol; done.
  - intros [= <-]. pose proof (pi_registering w Hi _ Ec) as Hcb. split.
    + constructor; simpl; [apply (pi_none w Hi)|done|]. unfold heard. simpl. by rewrite Hcb.
    + apply (follows_step _ _ []); [by rewrite app_nil_r|]. unfold abstraction, heard. simpl. rewrite Hcb.
      constructor.
  - destruct (gw_gps w) eqn:Eg; try done. intros [= <-]. split.
    + constructor; done.
    + apply (follows_step _ _ []); [by rewrite app_nil_r|]. unfold abstraction. rewrite Eg. constructor.
Qed.
(** The reading thread and the timers move the rest. *)
Lemma gps_moves_inv s g ts evs w :
  protocol_inv w → gs_callbacks s = gs_callbacks (gw_state w) → (gw_gps w ≠ GNone → gs_init s ≠ 0) →
  (gw_gps w = GNone → g = GNone ∧ gs_init s = gs_init (gw_state w)) →
  (heard w = false → phase_of g = PowerOff ∨ phase_of g = EngineOn) →
  protocol_inv (gps_moves s g ts evs w).
Proof.
  intros Hi Hcb Hin Hn Hp. assert (gw_gps w = GNone ∨ gw_gps w ≠ GNone) as [E|E] by (destruct (gw_gps w); auto).
  - destruct (Hn E) as [-> Es]. constructor; simpl; [|exact (pi_registering w Hi)|done].
    rewrite Es. intros Ei. split; [done|]. by apply (pi_none w Hi).
  - constructor; simpl; [intros Ei; by destruct (Hin E)|exact (pi_registering w Hi)|].
    unfold heard at 1. simpl. rewrite Hcb. intros _ Hu. destruct (pi_unheard w Hi E Hu) as (? & ? & _). auto.
Qed.

Lemma running_init w : protocol_inv w → gw_gps w ≠ GNone → gs_init (gw_state w) ≠ 0.
Proof. intros Hi Hg Ei. by destruct (pi_none w Hi Ei). Qed.

Lemma GPS_STATUS_CB_told w z : GPS_STATUS_CB (gw_state w) z = told (heard w) z.
Proof. done. Qed.

(** Commands reach the thread of a client that hears. *)
Lemma command_protocol cmd rest started timer_ok w :
  protocol_inv w → gw_gps w = GLoop started → gw_control w = cmd :: rest →
  let w' := gps_command cmd started timer_ok (client_moves (gw_state w) rest (gw_client w) w) in
  protocol_inv w' ∧ follows w w'.
Proof.
  intros Hi Eg Ec. assert (Hh : heard w = true).
  { destruct (heard w) eqn:E; [done|]. destruct (pi_unheard w Hi) as (_ & Hn & _); [by rewrite Eg|done|].
    by rewrite Ec in Hn. }
  assert (Hin : gs_init (gw_state w) ≠ 0) by (apply running_init; [done|by rewrite Eg]).
  set (w1 := client_moves (gw_state w) rest (gw_client w) w).
  assert (Hi1 : protocol_inv w1).
  { constructor; simpl; [done|exact (pi_registering w Hi)|]. change (heard w1) with (heard w). by rewrite Hh. }
  assert (Hstep : ∀ s g ts evs, gs_callbacks s = gs_callbacks (gw_state w) → gs_init s ≠ 0 →
    protocol_inv (gps_moves s g ts evs w1)).
  { intros s g ts evs Hs H0. apply gps_moves_inv; try done; [change (gw_gps w1) with (gw_gps w); by rewrite Eg|].
    change (heard w1) with (heard w). by rewrite Hh. }
  assert (Ha : abstraction w = (if started then InSession else EngineOn, true))
    by (unfold abstraction; by rewrite Eg, Hh).
  cbv zeta. unfold gps_command. destruct (cmd =? CMD_QUIT).
  { split; [by apply Hstep|]. eapply follows_step; [reflexivity|]. rewrite Ha.
    change (abstraction (gps_exit w1)) with (PowerOff, heard w). rewrite GPS_STATUS_CB_told.
    change (heard w1) with (heard w). rewrite Hh. apply spec_off. destruct started; auto. }
  assert (Hstay : protocol_inv w1 ∧ follows w w1) by (split; [done|by apply follows_quiet]).
  destruct (cmd =? CMD_START);
    [destruct started; [done|]|destruct (cmd =? CMD_STOP); [destruct started; [|done]|done]].
  - cbv zeta. rewrite GPS_STATUS_CB_told. change (heard w1) with (heard w). rewrite Hh. destruct timer_ok.
    + split; [by apply Hstep|]. eapply follows_step; [reflexivity|]. rewrite Ha.
      unfold abstraction, heard. simpl. unfold heard in Hh. rewrite Hh. constructor.
    + split; [|eexists; split; [simpl; rewrite <-app_assoc; reflexivity|]].
      * apply gps_moves_inv; [by apply Hstep|done|done|done|]. by left.
      * rewrite Ha. eapply spec_trans; [apply spec_one, spec_begin|]. apply spec_one.
        unfold GPS_STATUS_CB, abstraction, heard. simpl. unfold heard in Hh. rewrite Hh. apply (spec_off InSession true). auto.
  - split; [by apply Hstep|]. eapply follows_step; [reflexivity|]. rewrite Ha.
    unfold abstraction, heard. simpl. unfold heard in Hh. rewrite Hh. constructor.
Qed.
(** Bytes and timers log reports. *)
Lemma reports_protocol s g ts evs w :
  protocol_inv w → logs_reports (gw_state w) (s, evs) → gs_init s = gs_init (gw_state w) →
  phase_of g = phase_of (gw_gps w) → (gw_gps w = GNone → g = GNone) →
  protocol_inv (gps_moves s g ts evs w) ∧ follows w (gps_moves s g ts evs w).
Proof.
  intros Hi [Hcb Hr] Ei Ep Hn. cbn [fst snd] in *. split.
  - apply gps_moves_inv; try done; [intros Hg; rewrite Ei; by apply running_init|by split; [apply Hn|]|].
    rewrite Ep. intros Hu. destruct (gw_gps w) eqn:Eg; [by left|..];
      destruct (pi_unheard w Hi) as (_ & _ & Hp); rewrite ?Eg in *; done.
  - exists evs. split; [done|]. unfold abstraction, heard. simpl. rewrite Ep, Hcb. by apply reports_run.
Qed.

Lemma gps_step_protocol l w w' :
  protocol_inv w → gps_step l w = Next w' → protocol_inv w' ∧ follows w w'.
Proof.
  intros Hi. unfold gps_step.
  assert (Hin : gw_gps w ≠ GNone → gs_init (gw_state w) ≠ 0) by (by apply running_init).
  assert (Hu : gw_gps w ≠ GNone → heard w = false →
    phase_of (gw_gps w) = PowerOff ∨ phase_of (gw_gps w) = EngineOn) by (intros ? ?; by apply (pi_unheard w Hi)).
  destruct (gw_gps w) as [| |started|started cs| |] eqn:Eg, l; try done.
  - intros [= <-]. split; [apply gps_moves_inv; try done; try (by rewrite Eg); auto|].
    eapply follows_step; [reflexivity|]. unfold abstraction. rewrite Eg. unfold gps_dev_init.
    rewrite GPS_STATUS_CB_told. apply (spec_on (heard w)).
  - destruct (gw_control w) as [|cmd rest] eqn:Ec; [done|]. intros [= <-]. by apply command_protocol.
  - intros [= <-]. apply reports_protocol; try done; by rewrite Eg.
  - intros [= <-]. split; [apply gps_moves_inv; try done; try (by rewrite Eg); auto|].
    eapply follows_step; [reflexivity|]. rewrite GPS_STATUS_CB_told. unfold abstraction. rewrite Eg.
    apply spec_off. destruct started; auto.
  - destruct cs as [|c cs]; [intros [= <-]; apply reports_protocol; try done; by rewrite Eg|].
    destruct (fix_sem (gw_state w)); [|done].
    destruct (nmea_reader_addc c (gw_state w)) as [[s evs]|] eqn:E; [|done]. intros [= <-].
    apply reports_protocol; try done; try (by rewrite Eg);
      [by apply (addc_reports c)|by destruct (addc_same_control _ _ _ _ E)].
  - destruct (last (gw_timers w)) as [[| |]|]; try done. intros [= <-].
    split; [apply gps_moves_inv; try done; try (by rewrite Eg); auto|].
    assert (Hh : heard w = true) by (destruct (heard w); [done|]; by destruct Hu).
    eapply follows_step; [reflexivity|]. rewrite GPS_STATUS_CB_told, Hh. unfold abstraction.
    rewrite Eg, Hh. unfold heard in *. simpl. rewrite Hh. apply spec_end.
Qed.

Lemma gstep_protocol l w w' :
  protocol_inv w → listens w l → gstep l w = Next w' → protocol_inv w' ∧ follows w w'.
Proof.
  intros Hi Hl. destruct l; simpl; try (by apply client_protocol); try (by apply gps_step_protocol).
  destruct (gw_timers w !! i) as [t|]; [|done].
  assert (Hmove : ∀ s t' evs, timer_step t (gw_state w) = Some (s, t', evs) →
    logs_reports (gw_state w) (s, evs) ∧ gs_init s = gs_init (gw_state w)).
  { intros s t' evs. destruct t; simpl; [destruct (fix_sem _); [|done]|by intros [= <- _ <-]..].
    pose proof (timer_reports (gw_state w)) as Hr. pose proof (timer_section_same_control (gw_state w)) as [Ei _].
    destruct (timer_section (gw_state w)) as [s1 e1]. by intros [= <- _ <-]. }
  destruct (timer_step t (gw_state w)) as [[[s t'] evs]|] eqn:E; [|done]. intros [= <-].
  destruct (Hmove s t' evs eq_refl). by apply reports_protocol.
Qed.

Lemma boot_protocol : protocol_inv gps_boot.
Proof. by constructor. Qed.

Lemma grun_protocol ls w :
  grun listens gps_boot ls w → protocol_inv w ∧ spec_run (PowerOff, false) (gw_events w) (abstraction w).
Proof.
  intros Hr. induction Hr as [|ls w1 l w2 _ [Hi Hs] Hl Hg]; [split; [apply boot_protocol|constructor]|].
  destruct (gstep_protocol l w1 w2 Hi Hl Hg) as [Hi2 (evs & -> & Hf)].
  split; [done|]. by eapply spec_trans.
Qed.

(** C9: what a client observes.  In every interleaving of the threads, for a
    client that registers a status callback, the log of the library is one of
    the abstract machine: the receiver is powered and silenced, sessions begin
    with the start commands and end with the stop command and a wait for the
    timer, each announced, power is cut once; only ENGINE_ON and ENGINE_OFF
    can go unheard, when the thread is faster than the client storing its
    callbacks; fixes are never empty; and the machine is then in the phase of
    the thread. *)
Theorem gps_observed_protocol (ls : list GLabel) (w : GWorld) :
  grun listens gps_boot ls w →
  spec_run (PowerOff, false) (gw_events w) (phase_of (gw_gps w), heard w) ∧
  (heard w = false → gw_control w = [] ∧ phase_of (gw_gps w) ≠ InSession ∧ phase_of (gw_gps w) ≠ Ending ∨
                     gw_gps w = GNone).
Proof.
  intros Hr%grun_protocol. destruct Hr as [Hi Hs]. split; [done|]. intros Hu.
  destruct (gw_gps w) eqn:Eg; [by right|..]; left;
    destruct (pi_unheard w Hi) as (_ & ? & Hp); rewrite ?Eg in *; try done; split; try done;
    destruct Hp as [-> | ->]; done.
Qed.
End protocol.

(** ** Example *)

#[local] Existing Instance android_gps.

Lemma listens_exec pre ls w0 w w' :
  grun listens w0 pre w → Forall (listens w0) ls → gexec ls w = Next w' → grun listens w0 (pre ++ ls) w'.
Proof.
  revert pre w. induction ls as [|l ls IH]; intros pre w Hr Hf; simpl.
  - intros [= <-]. by rewrite app_nil_r.
  - destruct (gstep l w) as [| |w1] eqn:E; try done. intros Hx. apply Forall_cons in Hf as [Hl Hf].
    replace (pre ++ l :: ls) with ((pre ++ [l]) ++ ls) by by rewrite <-app_assoc.
    eapply IH; [|done..]. by eapply grun_step; [exact Hr|destruct l|].
Qed.

(** The thread runs before the callbacks are stored; then a session. *)
Definition unheard_opening : list GLabel :=
  [LInit all_callbacks good_env; LGpsInit 0 0; LRegister; LStart true; LGpsCommand true;
   LTimer 0; LStop true; LGpsCommand true; LTimer 0; LGpsJoined].

Definition statuses (evs : list GpsEvent) : list Z :=
  omap (λ e, match e with EvStatus z => Some z | _ => None end) evs.

Definition unheard_world : GWorld :=
  match gexec unheard_opening gps_boot with Next w => w | _ => gps_boot end.

Lemma gps_observed_protocol_witness :
  statuses (gw_events unheard_world) = [GPS_STATUS_SESSION_BEGIN; GPS_STATUS_SESSION_END] ∧
  spec_run (PowerOff, false) (gw_events unheard_world) (phase_of (gw_gps unheard_world), heard unheard_world) ∧
  (heard unheard_world = false →
     gw_control unheard_world = [] ∧ phase_of (gw_gps unheard_world) ≠ InSession ∧
     phase_of (gw_gps unheard_world) ≠ Ending ∨ gw_gps unheard_world = GNone).
Proof.
  split; [vm_compute; reflexivity|]. apply (gps_observed_protocol unheard_opening unheard_world).
  apply (listens_exec [] unheard_opening gps_boot gps_boot unheard_world).
  - apply grun_nil.
  - repeat (apply List.Forall_cons; [exact I || reflexivity|]). apply List.Forall_nil.
  - vm_compute. reflexivity.
Defined.
