(* ===== verification/GpsSpec.v ===== *)
(** * What the GPS library makes of the bytes it receives

    How bytes become sentences, the invariant of the reader where the parser is
    defined, and the bound of the satellite list. *)

From S2P Require Import Prelude CString AtReader CDouble Nmea GpsDev GpsState.

Open Scope Z_scope.

Section spec.
Context `{GpsHeader}.

(** ** Sentences from bytes *)

(** The reader between two sentences. *)
Record at_start (r : NmeaReader) : Prop := {
  as_pos : nr_pos r = 0%nat;
  as_overflow : nr_overflow r = false;
  as_in : length (nr_in r) = Datatypes.S NMEA_MAX_SIZE
}.

Definition no_LF (l : list ascii) : Prop := Forall (λ c, Ascii.eqb c LF = false) l.

(** The reader with the line [l] in its buffer. *)
Definition hold (l : list ascii) (pos : nat) (ov : bool) (s : GpsState) : GpsState :=
  with_reader (set_line pos ov (l ++ drop (length l) (nr_in (gs_reader s))) (gs_reader s)) s.

Lemma feed_app l1 l2 s :
  feed (l1 ++ l2) s =
  ('(s, e1) ← feed l1 s; '(s, e2) ← feed l2 s; Some (s, e1 ++ e2)).
Proof.
  revert s. induction l1 as [|c l1 IH]; intros s; cbn [feed app mbind option_bind].
  - destruct (feed l2 s) as [[s' e]|]; done.
  - destruct (nmea_reader_addc c s) as [[s1 e1]|]; [|done]. cbn [mbind option_bind]. rewrite IH.
    destruct (feed l1 s1) as [[s2 e2]|]; [|done]. cbn [mbind option_bind].
    destruct (feed l2 s2) as [[s3 e3]|]; [|done]. cbn. by rewrite app_assoc.
Qed.

Lemma with_reader_twice r r' s : with_reader r (with_reader r' s) = with_reader r s.
Proof. done. Qed.

(** The bytes of a line that fits are stored one after the other. *)
Lemma feed_line pre l s :
  at_start (gs_reader s) → no_LF l → (length pre + length l ≤ NMEA_MAX_SIZE)%nat →
  feed l (hold pre (length pre) false s) =
  Some (hold (pre ++ l) (length (pre ++ l)) false s, []).
Proof.
  intros Hs. revert pre. induction l as [|c l IH]; intros pre Hl Hlen.
  { simpl. by rewrite app_nil_r. }
  apply Forall_cons in Hl as [Hc Hl]. simpl in Hlen.
  assert (E : nmea_reader_addc c (hold pre (length pre) false s) =
              Some (hold (pre ++ [c]) (length (pre ++ [c])) false s, [])).
  { unfold nmea_reader_addc, hold. cbn [gs_reader with_reader nr_overflow nr_pos nr_in set_line].
    rewrite (proj2 (Nat.leb_gt _ _)) by lia. rewrite Hc. do 2 f_equal.
    unfold with_reader. simpl. f_equal. unfold set_line. simpl. f_equal.
    - rewrite length_app. simpl. lia.
    - rewrite insert_app_r_alt, Nat.sub_diag by lia. rewrite <-app_assoc, length_app. simpl.
      destruct (lookup_lt_is_Some_2 (nr_in (gs_reader s)) (length pre)) as [x Hx].
      { rewrite (as_in _ Hs). lia. }
      rewrite (drop_S _ x _ Hx). simpl. by rewrite Nat.add_1_r. }
  cbn [feed]. rewrite E. cbn [mbind option_bind]. rewrite IH by (rewrite ?length_app; simpl; auto; lia).
  by rewrite <-app_assoc.
Qed.

(** The bytes that are skipped after an overflow. *)
Lemma feed_skip l s :
  no_LF l → nr_overflow (gs_reader s) = true → feed l s = Some (s, []).
Proof.
  intros Hl Hov. induction Hl as [|c l Hc _ IH]; [done|]. cbn [feed].
  unfold nmea_reader_addc at 1. rewrite Hov, Hc. cbn [mbind option_bind].
  assert (E : with_reader (set_line (nr_pos (gs_reader s)) (negb false) (nr_in (gs_reader s)) (gs_reader s)) s = s).
  { destruct s as [? ? ? ? ? ? []]. simpl in *. by subst. }
  rewrite E, IH. done.
Qed.

(** The updates and the callbacks leave the line buffer alone, and keep the
    satellite list well formed. *)
Definition same_line (r r' : NmeaReader) : Prop :=
  nr_pos r' = nr_pos r ∧ nr_overflow r' = nr_overflow r ∧ nr_in r' = nr_in r.

Record sv_ok (s : GpsSvStatus) : Prop := {
  so_list : length (sv_list s) = GPS_MAX_SVS;
  so_num : 0 ≤ num_svs s ≤ Z.of_nat GPS_MAX_SVS;
  so_mask : 0 ≤ used_in_fix_mask s ≤ UINT_MAX
}.

Definition step_ok (r r' : NmeaReader) : Prop :=
  same_line r r' ∧ (sv_ok (sv_status r) → sv_ok (sv_status r')).

Lemma step_ok_refl r : step_ok r r.
Proof. unfold step_ok, same_line. by split_and!. Qed.

Lemma step_ok_trans r1 r2 r3 : step_ok r1 r2 → step_ok r2 r3 → step_ok r1 r3.
Proof.
  intros [(? & ? & ?) ?] [(? & ? & ?) ?]. split; [|auto]. unfold same_line. split_and!; congruence.
Qed.

(** An update of the fix or of the date. *)
Ltac same_now := unfold step_ok, same_line; by split_and!.

(** The first operation of a sequence succeeds. *)
Ltac bind_step :=
  match goal with
  | |- (?m ≫= _) = _ → _ => destruct m as [?|]; [cbn [mbind option_bind]|done]
  end.

(** One update step after another in the option monad. *)
Ltac update_step :=
  match goal with
  | |- (?m ≫= _) = Some _ → _ => let E := fresh "E" in destruct m as [?|] eqn:E; [|done]; cbn [mbind option_bind]
  | |- (let '(_, _) := ?p in _) = Some _ → _ => destruct p
  | |- (if ?b then _ else _) = Some _ → _ => destruct b
  | |- Some _ = Some _ → _ => intros; simplify_eq
  end.

Lemma update_time_line r tok z r' :
  nmea_reader_update_time r tok = Some (z, r') → step_ok r r'.
Proof. unfold nmea_reader_update_time. cbv zeta. repeat update_step; try done; same_now. Qed.

Lemma update_cdate_line r d m y z r' :
  nmea_reader_update_cdate r d m y = Some (z, r') → step_ok r r'.
Proof. unfold nmea_reader_update_cdate. cbv zeta. repeat update_step; try done; same_now. Qed.

Lemma update_date_line r d t z r' :
  nmea_reader_update_date r d t = Some (z, r') → step_ok r r'.
Proof.
  unfold nmea_reader_update_date. cbv zeta. repeat update_step; try done; [same_now..|].
  intros Ht. eapply step_ok_trans; [|by eapply update_time_line]. same_now.
Qed.

Lemma update_latlong_line r a ah o oh z r' :
  nmea_reader_update_latlong r a ah o oh = Some (z, r') → step_ok r r'.
Proof. unfold nmea_reader_update_latlong. cbv zeta. repeat update_step; try done; same_now. Qed.

Lemma update_altitude_line r a u : step_ok r (nmea_reader_update_altitude r a u).2.
Proof. unfold nmea_reader_update_altitude. case_match; same_now. Qed.

Lemma update_accuracy_line r a : step_ok r (nmea_reader_update_accuracy r a).2.
Proof. unfold nmea_reader_update_accuracy. repeat case_match; same_now. Qed.

Lemma update_bearing_line r a : step_ok r (nmea_reader_update_bearing r a).2.
Proof. unfold nmea_reader_update_bearing. case_match; same_now. Qed.

Lemma update_speed_line r a : step_ok r (nmea_reader_update_speed r a).2.
Proof. unfold nmea_reader_update_speed. case_match; same_now. Qed.

Hint Resolve step_ok_refl update_altitude_line update_accuracy_line update_bearing_line
  update_speed_line update_time_line update_cdate_line update_date_line update_latlong_line : fw.

Ltac line_chain :=
  match goal with
  | |- step_ok _ (if ?b then _ else _) => destruct b
  | _ => solve [eauto with fw]
  | |- step_ok _ (nmea_reader_update_speed ?r _).2 => apply (step_ok_trans _ r); [|eauto with fw]
  | |- step_ok _ (nmea_reader_update_bearing ?r _).2 => apply (step_ok_trans _ r); [|eauto with fw]
  | |- step_ok _ (nmea_reader_update_altitude ?r _ _).2 => apply (step_ok_trans _ r); [|eauto with fw]
  | E : nmea_reader_update_latlong ?r _ _ _ _ = Some (_, ?r') |- step_ok _ ?r' => apply (step_ok_trans _ r); [|eauto with fw]
  | E : nmea_reader_update_time ?r _ = Some (_, ?r') |- step_ok _ ?r' => apply (step_ok_trans _ r); [|eauto with fw]
  end.

(** *** The satellite list *)

Lemma uint32_range z : 0 ≤ uint32 z ≤ UINT_MAX.
Proof. unfold uint32, UINT_MAX. pose proof (Z.mod_pos_bound z 4294967296). lia. Qed.

Lemma gsa_loop_mask b tz i n mask changed mask' changed' :
  gsa_loop b tz i n mask changed = Some (mask', changed') →
  0 ≤ mask ≤ UINT_MAX → 0 ≤ mask' ≤ UINT_MAX.
Proof.
  revert i mask changed. induction n as [|n IH]; intros i mask changed; cbn [gsa_loop].
  { by intros [= <- <-]. }
  destruct (str2int _) as [prn|]; [|done]. cbn [mbind option_bind].
  destruct (0 <? prn); [|by apply IH]. unfold mask_prn.
  destruct (_ && _); [|done]. cbn [mbind option_bind]. intros E _. eapply IH; [exact E|].
  apply uint32_range.
Qed.

Lemma gsv_loop_ok b tz total i n curr s s' :
  gsv_loop b tz total i n curr s = Some s' → curr = num_svs s → sv_ok s → sv_ok s'.
Proof.
  revert i curr s. induction n as [|n IH]; intros i curr s; cbn [gsv_loop]; [by intros [= <-]|].
  destruct (num_svs s <? total); [|by intros [= <-]].
  destruct (str2int _) as [prn|]; [|done]. cbn [mbind option_bind].
  destruct (_ && _) eqn:E; [|done]. apply andb_true_iff in E as [E1 E2].
  apply Z.leb_le in E1. apply Z.ltb_lt in E2.
  intros Hl -> [? ? ?]. eapply IH; [exact Hl|done|]. constructor; simpl; [by rewrite length_insert|lia|done].
Qed.

Lemma parse_GSA_ok r tz r' : parse_GSA r tz = Some r' → step_ok r r'.
Proof.
  unfold parse_GSA. cbv zeta. case_match; [|intros [= <-]; apply step_ok_refl].
  match goal with |- context [gsa_loop ?b ?t ?i ?n ?m ?c] =>
    destruct (gsa_loop b t i n m c) as [[mask ch]|] eqn:E; [|done] end.
  cbn [mbind option_bind]. intros [= <-]. eapply step_ok_trans; [apply update_accuracy_line|].
  split; [unfold same_line; by split_and!|]. intros [? ? ?]. apply gsa_loop_mask in E; [|unfold UINT_MAX; lia]. by constructor.
Qed.

Lemma parse_GSV_ok r tz r' : parse_GSV r tz = Some r' → step_ok r r'.
Proof.
  unfold parse_GSV. cbv zeta.
  bind_step. destruct (0 <? _); [|by intros [= <-]; apply step_ok_refl].
  bind_step. bind_step.
  match goal with |- context [gsv_loop ?b ?t ?m ?i ?n ?c ?s] =>
    destruct (gsv_loop b t m i n c s) as [s'|] eqn:E; [|done] end.
  cbn [mbind option_bind]. intros [= <-]. split.
  - unfold same_line. case_match; by split_and!.
  - simpl. intros Hs. eapply gsv_loop_ok; [exact E|done|]. case_match; [|done].
    destruct Hs as [? ? ?]. constructor; simpl; [done|lia|done].
Qed.

Lemma parse_branch_line r tz id r' : parse_branch r tz id = Some r' → step_ok r r'.
Proof.
  unfold parse_branch, parse_GGA, parse_GLL, parse_RMC, parse_VTG, parse_ZDA. cbv zeta.
  repeat update_step; first [apply parse_GSA_ok|apply parse_GSV_ok|repeat line_chain].
Qed.

Lemma parse_line s s' evs :
  nmea_reader_parse s = Some (s', evs) → step_ok (gs_reader s) (gs_reader s').
Proof.
  unfold nmea_reader_parse. cbv zeta. repeat (case_match; [intros; simplify_eq; same_now|]).
  destruct (parse_branch _ _ _) as [r|] eqn:E; [|done]. apply parse_branch_line in E.
  cbn [mbind option_bind]. unfold report_first_fix. intros Es.
  repeat (case_match; simplify_eq); done.
Qed.

Definition with_pos (pos : nat) (s : GpsState) : GpsState :=
  with_reader (set_line pos (nr_overflow (gs_reader s)) (nr_in (gs_reader s)) (gs_reader s)) s.

(** What a line does: it is parsed when it fits with its line end, and dropped
    otherwise; with exactly as many bytes as the buffer holds, the line end
    itself is the byte that overflows. *)
Definition line_effect (l : list ascii) (s : GpsState) : option (GpsState * list GpsEvent) :=
  if (length l <? NMEA_MAX_SIZE)%nat then
    ('(s, evs) ← nmea_reader_parse (hold (l ++ [LF]) (Datatypes.S (length l)) false s);
     Some (with_pos 0 s, evs))
  else if (length l =? NMEA_MAX_SIZE)%nat then Some (hold l 0 true s, [])
  else Some (hold (take NMEA_MAX_SIZE l) 0 false s, []).

Lemma hold_nil s : at_start (gs_reader s) → hold [] 0 false s = s.
Proof.
  intros [Hp Ho Hi]. unfold hold, with_reader, set_line. destruct s as [? ? ? ? ? ? []].
  simpl in *. by subst.
Qed.

Lemma feed_from_start l s :
  at_start (gs_reader s) → no_LF l → (length l ≤ NMEA_MAX_SIZE)%nat →
  feed l s = Some (hold l (length l) false s, []).
Proof.
  intros Hs Hl Hle. pose proof (feed_line [] l s Hs Hl Hle) as Hf.
  change (length []) with 0%nat in Hf. by rewrite hold_nil in Hf.
Qed.

Lemma feed_one c s : feed [c] s = nmea_reader_addc c s.
Proof.
  cbn [feed]. destruct (nmea_reader_addc c s) as [[s' e]|]; [|done]. cbn. by rewrite app_nil_r.
Qed.

Lemma hold_in_length l pos ov s :
  at_start (gs_reader s) → (length l ≤ Datatypes.S NMEA_MAX_SIZE)%nat →
  length (nr_in (gs_reader (hold l pos ov s))) = Datatypes.S NMEA_MAX_SIZE.
Proof. intros Hs Hl. simpl. rewrite length_app, length_drop, (as_in _ Hs). lia. Qed.

(** The byte after a full buffer. *)
Lemma addc_full c l s :
  length l = NMEA_MAX_SIZE → nmea_reader_addc c (hold l (length l) false s) = Some (hold l 0 true s, []).
Proof.
  intros Hl. unfold nmea_reader_addc, hold.
  cbn [gs_reader with_reader nr_overflow nr_pos nr_in set_line]. by rewrite (proj2 (Nat.leb_le _ _)) by lia.
Qed.

Lemma feed_line_effect l s :
  at_start (gs_reader s) → no_LF l → feed (l ++ [LF]) s = line_effect l s.
Proof.
  intros Hs Hl. unfold line_effect.
  destruct (Nat.ltb_spec (length l) NMEA_MAX_SIZE) as [Hlt|Hge].
  - rewrite feed_app, feed_from_start by (done || lia). cbn [mbind option_bind]. rewrite feed_one.
    unfold nmea_reader_addc.
    cbn [app gs_reader with_reader hold nr_overflow nr_pos nr_in set_line].
    rewrite (proj2 (Nat.leb_gt _ _)) by lia. cbn [Ascii.eqb].
    replace (with_reader _ _) with (hold (l ++ [LF]) (Datatypes.S (length l)) false s).
    + destruct (nmea_reader_parse _) as [[s' e]|]; done.
    + unfold hold, with_reader. simpl. f_equal. unfold set_line. simpl. f_equal.
      destruct (lookup_lt_is_Some_2 (nr_in (gs_reader s)) (length l)) as [x Hx].
      { rewrite (as_in _ Hs). lia. }
      rewrite insert_app_r_alt, Nat.sub_diag, (drop_S _ x _ Hx), length_app by lia. simpl.
      by rewrite <-app_assoc, Nat.add_1_r.
  - rewrite feed_app.
    assert (Hfull : feed (take NMEA_MAX_SIZE l) s =
                    Some (hold (take NMEA_MAX_SIZE l) (length (take NMEA_MAX_SIZE l)) false s, [])).
    { apply feed_from_start; [done|by apply Forall_take|]. rewrite length_take. lia. }
    assert (Htl : length (take NMEA_MAX_SIZE l) = NMEA_MAX_SIZE) by (rewrite length_take; lia).
    destruct (Nat.eqb_spec (length l) NMEA_MAX_SIZE) as [He|Hne].
    + rewrite take_ge in Hfull by lia. rewrite Hfull. cbn [mbind option_bind].
      by rewrite feed_one, addc_full.
    + rewrite <-(take_drop NMEA_MAX_SIZE l) at 1. rewrite feed_app, Hfull. cbn [mbind option_bind].
      destruct (drop NMEA_MAX_SIZE l) as [|c l2] eqn:Ed.
      { apply (f_equal length) in Ed. rewrite length_drop in Ed. simpl in Ed. lia. }
      cbn [feed]. rewrite addc_full by done. cbn [mbind option_bind]. rewrite feed_skip; [|..|done].
      * reflexivity.
      * assert (Hd : no_LF (drop NMEA_MAX_SIZE l)) by by apply Forall_drop.
        rewrite Ed in Hd. by apply Forall_cons in Hd as [_ ?].
Qed.

Lemma hold_at_start l s :
  at_start (gs_reader s) → (length l ≤ Datatypes.S NMEA_MAX_SIZE)%nat →
  at_start (gs_reader (hold l 0 false s)).
Proof. intros Hs Hl. constructor; [done|done|by apply hold_in_length]. Qed.

(** C19: a line is one sentence, unless it overflows the buffer.  Between two
    sentences, a line of up to 82 bytes and its line feed are handed to the
    parser exactly once, whole, and the reader is between two sentences again.
    A longer line is dropped without any effect; but after a line of exactly 83
    bytes the next line, whatever it is, is dropped too. *)
Theorem reader_lines (l : list ascii) (s : GpsState) :
  at_start (gs_reader s) → no_LF l →
  feed (l ++ [LF]) s = line_effect l s ∧
  (length l ≠ NMEA_MAX_SIZE → ∀ s' evs,
     feed (l ++ [LF]) s = Some (s', evs) → at_start (gs_reader s')) ∧
  (length l = NMEA_MAX_SIZE → ∀ l2, no_LF l2 →
     feed (l ++ [LF] ++ l2 ++ [LF]) s = Some (hold l 0 false s, [])).
Proof.
  intros Hs Hl. rewrite (feed_line_effect l s Hs Hl). unfold line_effect. split_and!; [done| |].
  - intros Hne s' evs. rewrite (proj2 (Nat.eqb_neq _ _) Hne).
    destruct (Nat.ltb_spec (length l) NMEA_MAX_SIZE).
    + destruct (nmea_reader_parse _) as [[s1 e1]|] eqn:E; [|done].
      cbn [mbind option_bind]. intros [= <- <-]. apply parse_line in E as [(_ & Eo & Ei) _].
      constructor; simpl; [done|by rewrite Eo|]. rewrite Ei.
      apply hold_in_length; [done|]. rewrite length_app. simpl. lia.
    + intros [= <- <-]. apply hold_at_start; [done|]. rewrite length_take. lia.
  - intros Hlen l2 Hl2. rewrite app_assoc, feed_app, (feed_line_effect l s Hs Hl). unfold line_effect.
    rewrite (proj2 (Nat.ltb_ge _ _)), (proj2 (Nat.eqb_eq _ _) Hlen) by lia. cbn [mbind option_bind].
    rewrite feed_app, feed_skip by done. reflexivity.
Qed.

(** ** The invariant of the reader *)

(** The reader is well formed: the position is inside the buffer with room for
    a byte, the arrays have their lengths, and the satellite count and mask
    are in range. *)
Record reader_wf (r : NmeaReader) : Prop := {
  rw_pos : (nr_pos r ≤ NMEA_MAX_SIZE)%nat;
  rw_in : length (nr_in r) = Datatypes.S NMEA_MAX_SIZE;
  rw_sv : sv_ok (sv_status r)
}.

Lemma init_wf tl tu : reader_wf (nmea_reader_init tl tu).
Proof.
  constructor; simpl; [unfold NMEA_MAX_SIZE; lia|done|].
  constructor; simpl; [by rewrite length_replicate|lia|unfold UINT_MAX; lia].
Qed.

Lemma addc_wf c s s' evs :
  nmea_reader_addc c s = Some (s', evs) → reader_wf (gs_reader s) → reader_wf (gs_reader s').
Proof.
  intros E [Hp Hi Hv]. revert E. unfold nmea_reader_addc.
  destruct (nr_overflow (gs_reader s)); [intros [= <- <-]; by constructor|].
  destruct (Nat.leb_spec NMEA_MAX_SIZE (nr_pos (gs_reader s))).
  { intros [= <- <-]. constructor; simpl; [lia|done|done]. }
  destruct (Ascii.eqb c LF).
  - destruct (nmea_reader_parse _) as [[s1 e1]|] eqn:E; [|done]. cbn [mbind option_bind].
    intros [= <- <-]. apply parse_line in E as [(_ & _ & Ei) Hsv].
    constructor; simpl; [lia| |by apply Hsv]. by rewrite Ei; simpl; rewrite length_insert.
  - intros [= <- <-]. constructor; simpl; [lia|by rewrite length_insert|done].
Qed.

(** The reader stays well formed on the bytes for which the parser is defined:
    the line position never leaves the buffer, the arrays keep their sizes, and
    the number of satellites is that of the list at most.  That the parser is
    defined is not shown here, and some bytes make it undefined ([gsv_bound],
    [gsa_shift]); for the bytes of a printed group of satellites it is, see
    [GpsSats.satellites_in_view]. *)
Theorem feed_wf (cs : list ascii) (s s' : GpsState) (evs : list GpsEvent) :
  feed cs s = Some (s', evs) → reader_wf (gs_reader s) → reader_wf (gs_reader s').
Proof.
  revert s evs. induction cs as [|c cs IH]; intros s evs; cbn [feed]; [by intros [= <- <-]|].
  destruct (nmea_reader_addc c s) as [[s1 e1]|] eqn:E1; [|done]. cbn [mbind option_bind].
  destruct (feed cs s1) as [[s2 e2]|] eqn:E2; [|done]. cbn [mbind option_bind].
  intros [= <- <-] Hw. eapply IH; [exact E2|]. by eapply addc_wf.
Qed.

(** ** The satellite list *)

(** The satellites of one GSV sentence that are stored, from [n0] on. *)
Definition gsv_stored (total n0 : Z) : Z := Z.max n0 (Z.min total (n0 + 4)).

Lemma gsv_loop_bound b tz total i n s :
  (∀ k, (k < i + n)%nat → is_Some (str2int (tok_bytes b (nmea_tokenizer_get tz (k * 4 + 4))))) →
  0 ≤ num_svs s ≤ Z.of_nat (length (sv_list s)) →
  let last := Z.max (num_svs s) (Z.min total (num_svs s + Z.of_nat n)) in
  if decide (last ≤ Z.of_nat (length (sv_list s)))
  then ∃ s', gsv_loop b tz total i n (num_svs s) s = Some s' ∧ num_svs s' = last
  else gsv_loop b tz total i n (num_svs s) s = None.
Proof.
  revert i s. induction n as [|n IH]; intros i s Hn Hs; cbv zeta; cbn [gsv_loop].
  { rewrite decide_True by lia. exists s. split; [done|lia]. }
  destruct (Z.ltb_spec (num_svs s) total).
  2: { rewrite decide_True by lia. exists s. split; [done|lia]. }
  destruct (Hn i) as [prn Hprn]; [lia|]. rewrite Hprn. cbn [mbind option_bind].
  destruct (Z.leb_spec 0 (num_svs s)); [|lia].
  destruct (Z.ltb_spec (num_svs s) (Z.of_nat (length (sv_list s)))); cbn [andb].
  - match goal with |- context [gsv_loop b tz total (Datatypes.S i) n _ ?s1] =>
      specialize (IH (Datatypes.S i) s1) end.
    cbn [num_svs sv_list] in IH. rewrite length_insert in IH.
    replace (num_svs s + 1 + Z.of_nat n) with (num_svs s + Z.of_nat (Datatypes.S n)) in IH by lia.
    replace (Z.max (num_svs s + 1) (Z.min total (num_svs s + Z.of_nat (Datatypes.S n))))
      with (Z.max (num_svs s) (Z.min total (num_svs s + Z.of_nat (Datatypes.S n)))) in IH by lia.
    apply IH; [|lia]. intros k Hk. apply Hn. lia.
  - rewrite decide_False by lia. done.
Qed.

(** C23: the bound of the satellite list.  A GSV sentence with numbers that fit
    their type, received in a well formed state, is defined exactly when the
    satellites it adds (up to four, from 0 in the first sentence of a group,
    and not beyond the total it announces) fit [sv_list]; then the count is
    the one announced so far.  Otherwise it writes past the list. *)
Theorem gsv_bound (r : NmeaReader) (tz : list Token) (total sentence sentences : Z) :
  let num i := str2int (tok_bytes (nr_in r) (nmea_tokenizer_get tz i)) in
  sv_ok (sv_status r) →
  num 3%nat = Some total → num 2%nat = Some sentence → num 1%nat = Some sentences → 0 < total →
  (∀ k, (k < 4)%nat → is_Some (num (k * 4 + 4)%nat)) →
  let n0 := if sentence =? 1 then 0 else num_svs (sv_status r) in
  if decide (gsv_stored total n0 ≤ Z.of_nat GPS_MAX_SVS)
  then ∃ r', parse_GSV r tz = Some r' ∧ num_svs (sv_status r') = gsv_stored total n0
  else parse_GSV r tz = None.
Proof.
  intros num [Hl Hnum Hm] Ht Hse Hss Hpos Hprn n0. unfold parse_GSV. cbv zeta. fold num.
  change (str2int (tok_bytes (nr_in r) (nmea_tokenizer_get tz 3))) with (num 3%nat). rewrite Ht.
  cbn [mbind option_bind]. rewrite (proj2 (Z.ltb_lt _ _) Hpos).
  change (str2int (tok_bytes (nr_in r) (nmea_tokenizer_get tz 2))) with (num 2%nat). rewrite Hse.
  cbn [mbind option_bind].
  change (str2int (tok_bytes (nr_in r) (nmea_tokenizer_get tz 1))) with (num 1%nat). rewrite Hss.
  cbn [mbind option_bind].
  set (r1 := if sentence =? 1 then _ else r).
  assert (E1 : num_svs (sv_status r1) = n0 ∧ length (sv_list (sv_status r1)) = GPS_MAX_SVS).
  { unfold r1, n0. by destruct (sentence =? 1). }
  destruct E1 as [E0 El].
  pose proof (gsv_loop_bound (nr_in r) tz total 0 4 (sv_status r1)) as Hb. cbv zeta in Hb.
  rewrite E0, El in Hb. specialize (Hb Hprn). unfold gsv_stored.
  assert (0 ≤ n0 ≤ Z.of_nat GPS_MAX_SVS) by (unfold n0; destruct (sentence =? 1); lia).
  specialize (Hb ltac:(done)). change (Z.of_nat 4) with 4 in Hb. rewrite E0.
  case_decide.
  - destruct Hb as (s' & -> & Hs'). eexists. split; [done|]. done.
  - by rewrite Hb.
Qed.
End spec.

(** ** Examples *)

#[local] Existing Instance android_gps.

Definition sample_gps : GpsState :=
  {| gs_init := STATE_INIT; gs_fd := 5;
     gs_callbacks := {| location_cb := true; status_cb := true; sv_status_cb := true |};
     gs_fix_freq := -1; fix_sem := true; gs_first_fix := 0; gs_reader := nmea_reader_init 0 0 |}.

Lemma sample_gps_start : at_start (gs_reader sample_gps).
Proof. by constructor. Qed.

(** A line of 83 bytes makes the reader lose the line after it. *)
Lemma reader_lines_witness :
  let l := replicate 83 "A"%char in
  feed (l ++ [LF]) sample_gps = line_effect l sample_gps ∧
  (length l ≠ NMEA_MAX_SIZE → ∀ s' evs,
     feed (l ++ [LF]) sample_gps = Some (s', evs) → at_start (gs_reader s')) ∧
  (length l = NMEA_MAX_SIZE → ∀ l2, no_LF l2 →
     feed (l ++ [LF] ++ l2 ++ [LF]) sample_gps = Some (hold l 0 false sample_gps, [])).
Proof.
  intros l. apply (reader_lines l sample_gps); [apply sample_gps_start|].
  unfold no_LF. apply Forall_replicate. done.
Defined.

Lemma feed_wf_witness :
  let cs := chars "$GPZDA,233130.00,13,02,2009,00,00*62" ++ [CR; LF] in
  ∃ s' evs, feed cs sample_gps = Some (s', evs) ∧ reader_wf (gs_reader s').
Proof.
  intros cs. destruct (feed cs sample_gps) as [[s' evs]|] eqn:E; [|by vm_compute in E].
  exists s', evs. split; [done|].
  apply (feed_wf cs sample_gps s' evs); [done|]. apply (init_wf 0 0).
Defined.

Definition gsv_line (sentence : string) (total : string) : NmeaReader :=
  let l := chars ("$GPGSV,3," +:+ sentence +:+ "," +:+ total +:+
                  ",22,45,120,33,3,10,200,,19,70,010,40,9,05,300,21*7F") ++ [CR; LF] in
  gs_reader (hold l (length l) false sample_gps).

(** The first sentence of a group of 11 satellites stores four of them. *)
Lemma gsv_bound_witness :
  let r := gsv_line "1" "11" in
  let tz := nmea_tokenizer_init (nr_in r) (nr_pos r) in
  if decide (gsv_stored 11 0 ≤ Z.of_nat GPS_MAX_SVS)
  then ∃ r', parse_GSV r tz = Some r' ∧ num_svs (sv_status r') = gsv_stored 11 0
  else parse_GSV r tz = None.
Proof.
  intros r tz. apply (gsv_bound r tz 11 1 3); [|by vm_compute..|].
  - by constructor; vm_compute.
  - intros k Hk. assert (Hc : k ∈ [0;1;2;3]%nat) by (rewrite !elem_of_cons; lia).
    cases_in Hc; subst k; vm_compute; by eexists.
Defined.

(** A group that announces 40 satellites and reaches the 33rd overruns the list. *)
Example gsv_overrun :
  let full := {| num_svs := 32; sv_list := replicate 32 no_sv; used_in_fix_mask := 0 |} in
  let r := set_sv full 0 (gsv_line "9" "40") in
  parse_GSV r (nmea_tokenizer_init (nr_in r) (nr_pos r)) = None.
Proof. by vm_compute. Qed.

(** A satellite number above 32 makes the shift count negative. *)
Example gsa_shift : mask_prn 33 0 = None ∧ mask_prn 32 0 = Some 1 ∧ mask_prn 1 0 = Some 2147483648.
Proof. by vm_compute. Qed.

(** The accuracy 99.99 that stands for none is compared after it was rounded to
    a [float], which is never equal to the [double] 99.99: the flag is set. *)
Example accuracy_sentinel :
  let r := gs_reader (hold (chars "99.99") 5 false sample_gps) in
  fl_flags (nr_fix (nmea_reader_update_accuracy r (Tok 0 5)).2) = 16.
Proof. by vm_compute. Qed.

(** A year that is no number is -1, plus 2000, and passes the check. *)
Example malformed_year :
  let r := gs_reader (hold (chars "1302xx") 6 false sample_gps) in
  (r ← nmea_reader_update_date r (Tok 0 6) Dummy; Some (utc_year r.2)) = Some 1999.
Proof. by vm_compute. Qed.

(** An empty fix status is not the end of the string: [p[0]] is the comma that
    follows, and the sentence counts as one with a fix. *)
Example empty_status :
  let l := chars "$GPGSA,A,,05,,,,,,,,,,,,2.5,2.4,0.9*09" ++ [CR; LF] in
  let r := gs_reader (hold l (length l) false sample_gps) in
  (r ← parse_GSA r (nmea_tokenizer_init (nr_in r) (nr_pos r));
   Some (used_in_fix_mask (sv_status r))) = Some 134217728.
Proof. by vm_compute. Qed.
