(* ===== verification/GpsFix.v ===== *)
(** * A position fix from the bytes of its sentence

    A printer of RMC sentences, and the theorem that the bytes it prints,
    received between two sentences, give the fix that was printed: the date
    and time as seconds from 1970, the position in degrees, within [10^-11], with its
    hemispheres. *)

From S2P Require Import Prelude CString AtReader CDouble Nmea NmeaCoord GpsDev GpsState GpsSpec.

Open Scope Z_scope.

(** ** Sentences from fields *)

Fixpoint join_commas (fs : list (list ascii)) : list ascii :=
  match fs with
  | [] => []
  | [f] => f
  | f :: fs' => f ++ ","%char :: join_commas fs'
  end.

(** A sentence without its line feed. *)
Definition nmea_line (fs : list (list ascii)) (cs : list ascii) : list ascii :=
  "$"%char :: join_commas fs ++ "*"%char :: cs ++ [CR].

Definition no_comma (f : list ascii) : Prop := Forall (λ c, not_comma c = true) f.

Lemma take_while_comma f r : no_comma f → take_while not_comma (f ++ ","%char :: r) = f.
Proof. intros Hf. rewrite take_while_app_all by done. simpl. by rewrite app_nil_r. Qed.

Lemma drop_while_comma f r : no_comma f → drop_while not_comma (f ++ ","%char :: r) = ","%char :: r.
Proof. intros Hf. by rewrite drop_while_app_all by done. Qed.

(** The fields of a sentence are the ones it was joined from. *)
Lemma fields_join fs :
  Forall no_comma fs → (∀ f, last fs = Some f → f ≠ []) → fields (join_commas fs) = fs.
Proof.
  induction fs as [|f fs IH]; intros Hf Hl; [done|]. apply Forall_cons in Hf as [Hf Hfs].
  destruct fs as [|g fs].
  - simpl. assert (Hne : f ≠ []) by (by apply Hl). rewrite fields_cons by done.
    rewrite <-(app_nil_r f) at 1 2. rewrite take_while_app_all, drop_while_app_all by done.
    simpl. by rewrite app_nil_r.
  - change (join_commas (f :: g :: fs)) with (f ++ ","%char :: join_commas (g :: fs)).
    rewrite fields_cons by (by destruct f).
    rewrite take_while_comma, drop_while_comma by done. simpl drop. rewrite drop_0.
    f_equal. apply IH; [done|]. intros x Hx. by apply Hl.
Qed.

Lemma sentence_body_line fs cs :
  length cs = 2%nat → sentence_body (nmea_line fs cs ++ [LF]) = join_commas fs.
Proof.
  intros Hc. set (j := join_commas fs). set (l := j ++ "*"%char :: cs ++ [CR]).
  change (nmea_line fs cs ++ [LF]) with ("$"%char :: (l ++ [LF])). unfold sentence_body.
  replace (Ascii.eqb "$" "$") with true by done. cbv iota zeta.
  assert (E1 : (length (l ++ [LF]) - 1 = length l)%nat) by (rewrite length_app; simpl; lia).
  rewrite E1, drop_app_length, take_app_length.
  replace (0 <? length (l ++ [LF]))%nat with true
    by (symmetry; apply Nat.ltb_lt; rewrite length_app; simpl; lia).
  cbn [andb]. replace (ends_LF [LF]) with true by done.
  assert (E2 : l = (j ++ "*"%char :: cs) ++ [CR]) by (unfold l; by rewrite <-app_assoc).
  unfold strip_end at 2. rewrite E2.
  replace (length ((j ++ "*"%char :: cs) ++ [CR]) - 1)%nat with (length (j ++ "*"%char :: cs))
    by (rewrite (length_app _ [CR]); simpl; lia).
  rewrite drop_app_length, take_app_length.
  replace (1 <=? length ((j ++ "*"%char :: cs) ++ [CR]))%nat with true
    by (symmetry; apply Nat.leb_le; rewrite length_app; simpl; lia).
  cbn [andb]. replace (ends_CR [CR]) with true by done.
  unfold strip_end. rewrite length_app. simpl length. rewrite Hc.
  replace (length j + 3 - 3)%nat with (length j) by lia.
  rewrite drop_app_length, take_app_length.
  by replace (3 <=? length j + 3)%nat with true by (symmetry; apply Nat.leb_le; lia).
Qed.

(** ** Characters *)

Lemma code_eqb c d : (code c =? code d) = Ascii.eqb c d.
Proof.
  unfold code. destruct (Ascii.eqb_spec c d) as [->|Hn]; [apply Z.eqb_refl|].
  apply Z.eqb_neq. intros E%N2Z.inj. apply Hn. by rewrite <-(ascii_N_embedding c), E, ascii_N_embedding.
Qed.

(** ** The tokens of a sentence in the buffer *)

Lemma p0_field b t c l : tok_bytes b t = c :: l → tok_p0 b t = code c.
Proof.
  destruct t as [p e|]; [|done]. simpl. intros E.
  destruct (drop p b) as [|x r] eqn:Ed; [by rewrite take_nil in E|].
  destruct (e - p)%nat; [done|]. injection E as -> _.
  assert (Hx : b !! p = Some c) by (rewrite <-(Nat.add_0_r p), <-lookup_drop, Ed; done).
  by rewrite Hx.
Qed.

Section fix_of_sentence.
Context `{GpsHeader}.

(** A reader that holds the sentence of the fields [fs]. *)
Definition holds_fields (fs : list (list ascii)) (r : NmeaReader) : Prop :=
  map (tok_bytes (nr_in r)) (nmea_tokenizer_init (nr_in r) (nr_pos r)) = fs.

Lemma hold_fields fs cs s :
  length cs = 2%nat → Forall no_comma fs → (∀ f, last fs = Some f → f ≠ []) →
  (length fs ≤ MAX_NMEA_TOKENS)%nat → at_start (gs_reader s) →
  (length (nmea_line fs cs) < NMEA_MAX_SIZE)%nat →
  holds_fields fs (gs_reader (hold (nmea_line fs cs ++ [LF]) (Datatypes.S (length (nmea_line fs cs))) false s)).
Proof.
  intros Hc Hf Hl Hn Hs Hlen. unfold holds_fields. cbn [gs_reader hold with_reader nr_in nr_pos set_line].
  set (line := nmea_line fs cs) in *.
  assert (E : Datatypes.S (length line) = length (line ++ [LF])) by (rewrite length_app; simpl; lia).
  rewrite tokens_fields by (rewrite E, (length_app (line ++ [LF])); lia).
  rewrite E, take_app_length. unfold line. rewrite sentence_body_line, fields_join by done.
  by apply take_ge.
Qed.

(** ** RMC sentences *)

(** The bytes of [hhmmss.fff]. *)
Definition time_field (h mi s ms : Z) : list ascii :=
  pad2 h ++ pad2 mi ++ pad2 s ++ "."%char :: pad3 ms.

Record Rmc := {
  rm_h : Z; rm_mi : Z; rm_s : Z; rm_ms : Z;
  rm_d : Z; rm_mo : Z; rm_yy : Z;
  rm_lat : Coord; rm_ns : ascii; rm_lon : Coord; rm_ew : ascii;
  rm_speed : list ascii; rm_bearing : list ascii;
  rm_rest : list (list ascii); rm_cs : list ascii
}.

Definition rmc_fields (m : Rmc) : list (list ascii) :=
  [chars "GPRMC";
   time_field (rm_h m) (rm_mi m) (rm_s m) (rm_ms m);
   chars "A"; lat_field (rm_lat m); [rm_ns m]; lon_field (rm_lon m); [rm_ew m]; rm_speed m; rm_bearing m;
   pad2 (rm_d m) ++ pad2 (rm_mo m) ++ pad2 (rm_yy m)] ++ rm_rest m.

Definition rmc_line (m : Rmc) : list ascii := nmea_line (rmc_fields m) (rm_cs m).

(** The time of the sentence, in milliseconds from 1970. *)
Definition rmc_time (m : Rmc) : Z :=
  epoch_seconds (2000 + rm_yy m) (rm_mo m) (rm_d m) (rm_h m) (rm_mi m) (rm_s m) * 1000 + rm_ms m.

(** The fields are in range, hold no separators, and the line fits; a
    coordinate of more than 15 characters is not read ([str2float]). *)
Record rmc_ok (m : Rmc) : Prop := {
  ro_time : 0 ≤ rm_h m ≤ 23 ∧ 0 ≤ rm_mi m ≤ 59 ∧ 0 ≤ rm_s m ≤ 60 ∧ 0 ≤ rm_ms m ≤ 999;
  ro_date : 1 ≤ rm_d m ≤ 31 ∧ 1 ≤ rm_mo m ≤ 12 ∧ 0 ≤ rm_yy m ≤ 99;
  ro_range : epoch_seconds (2000 + rm_yy m) (rm_mo m) (rm_d m) (rm_h m) (rm_mi m) (rm_s m) ≤ INT_MAX;
  ro_lat : coord_ok (rm_lat m) ∧ co_deg (rm_lat m) ≤ 90 ∧ (length (lat_field (rm_lat m)) ≤ 15)%nat;
  ro_lon : coord_ok (rm_lon m) ∧ (length (lon_field (rm_lon m)) ≤ 15)%nat;
  ro_plain : Forall no_comma (rmc_fields m);
  ro_no_LF : no_LF (rmc_line m);
  ro_last : ∀ f, last (rm_rest m) = Some f → f ≠ [];
  ro_cs : length (rm_cs m) = 2%nat;
  ro_count : (length (rmc_fields m) ≤ MAX_NMEA_TOKENS)%nat;
  ro_fits : (length (rmc_line m) < NMEA_MAX_SIZE)%nat
}.

(** The fix after an RMC sentence: the time is that of the sentence, the
    position that of its degrees, minutes and hemispheres, and the position flag is set. *)
Record rmc_fix (m : Rmc) (f : GpsLocation) : Prop := {
  rf_time : fl_timestamp f = rmc_time m;
  rf_lat : near (fl_latitude f) (signed (Ascii.eqb (rm_ns m) "S") (coord_degrees (rm_lat m)));
  rf_lon : near (fl_longitude f) (signed (Ascii.eqb (rm_ew m) "W") (coord_degrees (rm_lon m)));
  rf_flag : Z.land (fl_flags f) GPS_LOCATION_HAS_LAT_LONG = GPS_LOCATION_HAS_LAT_LONG
}.

#[local] Arguments str2int : simpl never.

Lemma milliseconds_field h mi s ms :
  0 ≤ ms ≤ 999 → milliseconds (time_field h mi s ms) = Some ms.
Proof.
  intros Hms. unfold milliseconds.
  change (Z.of_nat (length (time_field h mi s ms)) - 7) with 3.
  change (take 3 (drop 7 (time_field h mi s ms))) with (pad3 ms). by apply str2int_pad3.
Qed.

Lemma rmc_time_update r m tok :
  rmc_ok m → utc_year r = 2000 + rm_yy m → utc_mon r = rm_mo m → utc_day r = rm_d m →
  tok_bytes (nr_in r) tok = time_field (rm_h m) (rm_mi m) (rm_s m) (rm_ms m) →
  nmea_reader_update_time r tok = Some (0, set_fix (set_timestamp (rmc_time m) (nr_fix r)) r).
Proof.
  intros [(Hh & Hmi & Hs & Hms) (Hd & Hmo & Hyy) Hr _ _ _ _ _ _ _ _] Ey Em Ed Et.
  unfold nmea_reader_update_time. rewrite Et, Ey, Em, Ed. cbv zeta.
  set (t := time_field _ _ _ _). change (length t <? 6)%nat with false. cbv iota.
  change (take 2 t) with (pad2 (rm_h m)). change (take 2 (drop 2 t)) with (pad2 (rm_mi m)).
  change (take 2 (drop 4 t)) with (pad2 (rm_s m)).
  rewrite (proj2 (Z.ltb_ge (2000 + rm_yy m) 0)) by lia.
  rewrite !str2int_pad2 by lia. cbn [mbind option_bind].
  unfold t. rewrite milliseconds_field by done. cbn [mbind option_bind].
  rewrite mkgmtime_chk by lia. pose proof (epoch_seconds_nonneg (2000 + rm_yy m) (rm_mo m) (rm_d m)
    (rm_h m) (rm_mi m) (rm_s m)).
  by rewrite chk_id by (unfold is_int32, INT_MIN; lia).
Qed.

Lemma rmc_date_update r m tok_d tok_t :
  rmc_ok m → tok_bytes (nr_in r) tok_d = pad2 (rm_d m) ++ pad2 (rm_mo m) ++ pad2 (rm_yy m) →
  tok_bytes (nr_in r) tok_t = time_field (rm_h m) (rm_mi m) (rm_s m) (rm_ms m) →
  ∃ r', nmea_reader_update_date r tok_d tok_t = Some (0, r') ∧ nr_in r' = nr_in r ∧
        fl_timestamp (nr_fix r') = rmc_time m.
Proof.
  intros Hok Ed Et. pose proof (ro_date m Hok) as (Hd & Hmo & Hyy).
  unfold nmea_reader_update_date. rewrite Ed. cbv zeta. set (t := pad2 _ ++ _).
  change (negb (length t =? 6)%nat) with false. cbv iota.
  change (take 2 t) with (pad2 (rm_d m)). change (take 2 (drop 2 t)) with (pad2 (rm_mo m)).
  change (take 2 (drop 4 t)) with (pad2 (rm_yy m)).
  rewrite !str2int_pad2 by lia. cbn [mbind option_bind].
  assert (Hlor : 0 ≤ Z.lor (Z.lor (rm_d m) (rm_mo m)) (rm_yy m + 2000)) by (rewrite !Z.lor_nonneg; lia).
  rewrite (proj2 (Z.ltb_ge _ _) Hlor).
  eexists. split; [apply rmc_time_update; simpl; [done|lia|done|done|done]|done].
Qed.

Lemma latlong_update r m ta th to tw :
  rmc_ok m → tok_bytes (nr_in r) ta = lat_field (rm_lat m) → tok_bytes (nr_in r) to = lon_field (rm_lon m) →
  tok_bytes (nr_in r) th = [rm_ns m] → tok_bytes (nr_in r) tw = [rm_ew m] →
  ∃ lat lon,
    nmea_reader_update_latlong r ta (tok_p0 (nr_in r) th) to (tok_p0 (nr_in r) tw) =
      Some (0, set_fix (set_latlong lat lon (nr_fix r)) r) ∧
    near lat (signed (Ascii.eqb (rm_ns m) "S") (coord_degrees (rm_lat m))) ∧
    near lon (signed (Ascii.eqb (rm_ew m) "W") (coord_degrees (rm_lon m))).
Proof.
  intros Hok Ea Eo Eh Ew. destruct (ro_lat m Hok) as (Hca & Hda & Hla), (ro_lon m Hok) as (Hco & Hlo).
  destruct (lat_near _ Hca ltac:(lia) Hla) as (la & Ela & Hna). destruct (lon_near _ Hco Hlo) as (lo & Elo & Hno).
  unfold nmea_reader_update_latlong. rewrite Ea, Eo.
  rewrite (p0_field _ _ _ _ Eh), (p0_field _ _ _ _ Ew), Ela. cbn [mbind option_bind].
  rewrite Elo. cbn [mbind option_bind].
  pose proof (field_length false _ Hca) as Hfa. pose proof (field_length true _ Hco) as Hfo. cbn [coord_field] in *.
  rewrite !(proj2 (Nat.ltb_ge _ _)), !code_eqb by lia. eexists _, _. split; [reflexivity|].
  split; by apply near_signed.
Qed.

(** Flags that are set stay set. *)
Lemma land_lor_keep x y z : Z.land x z = z → Z.land (Z.lor x y) z = z.
Proof.
  intros E. apply Z.bits_inj'. intros n Hn. rewrite <-E at 2. rewrite <-E at 1.
  rewrite !Z.land_spec, Z.lor_spec. by destruct (Z.testbit x n), (Z.testbit y n), (Z.testbit z n).
Qed.

Lemma land_lor_set x z : Z.land (Z.lor x z) z = z.
Proof.
  apply Z.bits_inj'. intros n Hn. rewrite Z.land_spec, Z.lor_spec.
  by destruct (Z.testbit x n), (Z.testbit z n).
Qed.

Lemma rmc_fix_bearing m r tok :
  rmc_fix m (nr_fix r) → rmc_fix m (nr_fix (nmea_reader_update_bearing r tok).2).
Proof.
  intros Hr. unfold nmea_reader_update_bearing. case_match; [done|]. destruct Hr.
  constructor; simpl; [done..|]. by apply land_lor_keep.
Qed.

Lemma rmc_fix_speed m r tok :
  rmc_fix m (nr_fix r) → rmc_fix m (nr_fix (nmea_reader_update_speed r tok).2).
Proof.
  intros Hr. unfold nmea_reader_update_speed. case_match; [done|]. destruct Hr.
  constructor; simpl; [done..|]. by apply land_lor_keep.
Qed.

Lemma rmc_parse r m :
  rmc_ok m → holds_fields (rmc_fields m) r →
  let tz := nmea_tokenizer_init (nr_in r) (nr_pos r) in
  ∃ r', parse_branch r tz (tok_bytes (nr_in r) (nmea_tokenizer_get tz 0)) = Some r' ∧
        rmc_fix m (nr_fix r').
Proof.
  intros Hok Hf tz. unfold holds_fields in Hf. fold tz in Hf.
  assert (Hget : ∀ i, tok_bytes (nr_in r) (nmea_tokenizer_get tz i) = default [] (rmc_fields m !! i))
    by (intros i; by rewrite get_field, Hf).
  rewrite (Hget 0%nat). change (default [] (rmc_fields m !! 0%nat)) with (chars "GPRMC").
  change (parse_branch r tz (chars "GPRMC")) with (parse_RMC r tz). unfold parse_RMC. cbv beta zeta.
  rewrite (p0_field _ _ _ _ (Hget 2%nat)). cbn [Z.eqb].
  change (code "A" =? code "A") with true. cbv iota.
  destruct (rmc_date_update r m _ _ Hok (Hget 9%nat) (Hget 1%nat)) as (r1 & -> & Ei & Et).
  cbn [mbind option_bind]. rewrite <-Ei.
  destruct (latlong_update r1 m (nmea_tokenizer_get tz 3) (nmea_tokenizer_get tz 4) (nmea_tokenizer_get tz 5)
    (nmea_tokenizer_get tz 6) Hok) as (lat & lon & -> & Hlat & Hlon); [rewrite Ei; apply Hget..|].
  cbn [mbind option_bind].
  eexists. split; [done|]. apply rmc_fix_speed, rmc_fix_bearing. constructor; simpl; [done..|].
  apply land_lor_set.
Qed.

(** Whether [nmea_reader_parse] reports the first fix itself. *)
Definition reports_first (s : GpsState) : bool :=
  (gs_first_fix s =? 0) && (gs_init s =? STATE_INIT) && location_cb (gs_callbacks s).

Lemma hold_fields_parse s m :
  rmc_ok m → GPS_LOCATION_HAS_LAT_LONG ≠ 0 →
  holds_fields (rmc_fields m) (gs_reader s) → (9 ≤ nr_pos (gs_reader s))%nat →
  ∃ s' f, nmea_reader_parse s = Some (s', if reports_first s then [EvLocation f] else []) ∧
          rmc_fix m f ∧ (reports_first s = false → nr_fix (gs_reader s') = f).
Proof.
  intros Hok Hh Hf Hp. destruct (rmc_parse _ m Hok Hf) as (r' & Er & Hfix).
  unfold nmea_reader_parse. cbv zeta. rewrite (proj2 (Nat.ltb_ge _ _)) by lia.
  rewrite Er. unfold holds_fields in Hf.
  assert (Hid : tok_bytes (nr_in (gs_reader s))
    (nmea_tokenizer_get (nmea_tokenizer_init (nr_in (gs_reader s)) (nr_pos (gs_reader s))) 0) =
    chars "GPRMC") by (by rewrite get_field, Hf).
  rewrite Hid. change (length (chars "GPRMC") <? 5)%nat with false. cbv iota. cbn [mbind option_bind].
  unfold report_first_fix. cbn [gs_first_fix gs_init gs_callbacks gs_reader with_reader].
  rewrite (rf_flag _ _ Hfix), (proj2 (Z.eqb_neq _ _) Hh). cbn [negb]. rewrite andb_true_r.
  unfold reports_first.
  destruct (gs_first_fix s =? 0), (gs_init s =? STATE_INIT), (location_cb (gs_callbacks s)); simpl;
    by eexists _, (nr_fix r').
Qed.

(** C5: the fix of an RMC sentence.  When the bytes of a printed sentence
    with an active fix arrive between two sentences, the fix has the time of
    the sentence as milliseconds from 1970; its latitude and longitude are,
    within [10^-11] degrees, the degrees printed plus a 60th of the minutes
    printed with their fraction, negated for the hemispheres S and W; and it has
    the position flag.  It is reported at once when it
    is the first one and no session is on, and kept for the timer thread
    otherwise. *)
Theorem rmc_sentence_fix (s : GpsState) (m : Rmc) :
  at_start (gs_reader s) → rmc_ok m → GPS_LOCATION_HAS_LAT_LONG ≠ 0 →
  ∃ s' f, feed (rmc_line m ++ [LF]) s =
            Some (s', if reports_first s then [EvLocation f] else []) ∧
          rmc_fix m f ∧ (reports_first s = false → nr_fix (gs_reader s') = f) ∧
          at_start (gs_reader s').
Proof.
  intros Hs Hok Hh. rewrite feed_line_effect by (done || apply Hok).
  unfold line_effect. rewrite (proj2 (Nat.ltb_lt _ _)) by apply Hok.
  set (s1 := hold (rmc_line m ++ [LF]) (Datatypes.S (length (rmc_line m))) false s).
  assert (Hf : holds_fields (rmc_fields m) (gs_reader s1)).
  { apply hold_fields; [apply Hok|apply Hok| |apply Hok|done|apply Hok].
    intros f. unfold rmc_fields. rewrite last_app. case_match eqn:E; [|by intros [= <-]].
    intros [= <-]. by apply (ro_last m Hok). }
  destruct (hold_fields_parse s1 m) as (s' & f & Ep & Hfix & Hrep); try done.
  { apply (Nat.le_trans _ (length (rmc_line m))); [|simpl; lia]. clear. simpl. lia. }
  rewrite Ep. cbn [mbind option_bind]. eexists _, f. split; [done|]. split_and!; [done|done|].
  apply parse_line in Ep as [(_ & Eo & Ei) _].
  constructor; simpl; [done|by rewrite Eo|]. rewrite Ei. apply hold_in_length; [done|].
  pose proof (ro_fits m Hok). rewrite length_app. cbn [length]. lia.
Qed.
End fix_of_sentence.

(** ** Examples *)

#[local] Existing Instance android_gps.

(** 13 February 2009, 23:31:30.250, at 33 07.055350 N, 117 18.467958 W. *)
Definition sample_rmc : Rmc := {|
  rm_h := 23; rm_mi := 31; rm_s := 30; rm_ms := 250; rm_d := 13; rm_mo := 2; rm_yy := 9;
  rm_lat := MkCoord 33 7 [0; 5; 5; 3; 5; 0]; rm_ns := "N";
  rm_lon := MkCoord 117 18 [4; 6; 7; 9; 5; 8]; rm_ew := "W";
  rm_speed := chars "0.02"; rm_bearing := []; rm_rest := [[]; []; chars "A"];
  rm_cs := chars "45"
|}.

Lemma sample_rmc_ok : rmc_ok sample_rmc.
Proof.
  assert (Hd : ∀ ds, forallb (λ n, (0 <=? n) && (n <=? 9)) ds = true → Forall is_digit ds).
  { intros ds Hds. rewrite forallb_forall in Hds. apply List.Forall_forall. intros n Hn%Hds.
    apply andb_true_iff in Hn as [?%Z.leb_le ?%Z.leb_le]. by split. }
  constructor; try (vm_compute; split_and!; congruence); try (vm_compute; congruence);
    try (vm_compute; lia); try done.
  1-2: unfold coord_ok; split_and!; try (by apply Hd); vm_compute; first [lia|congruence|done].
  - unfold no_comma. apply (bool_decide_eq_true_1 _). by vm_compute.
  - unfold no_LF. apply (bool_decide_eq_true_1 _). by vm_compute.
Qed.

Lemma rmc_sentence_fix_witness :
  rmc_time sample_rmc = 1234567890250 ∧
  ∃ s' f, feed (rmc_line sample_rmc ++ [LF]) sample_gps =
            Some (s', if reports_first sample_gps then [EvLocation f] else []) ∧
          rmc_fix sample_rmc f ∧
          (reports_first sample_gps = false → nr_fix (gs_reader s') = f) ∧
          at_start (gs_reader s').
Proof.
  split; [by vm_compute|].
  apply (rmc_sentence_fix sample_gps sample_rmc); [apply sample_gps_start|apply sample_rmc_ok|done].
Defined.
