(* ===== verification/GpsSats.v ===== *)
(** * The satellites in view from the bytes of their sentences

    A printer of groups of GSV sentences, and the theorem that the bytes it
    prints, received between two sentences, leave the satellites printed in
    the list, which is reported by the next round of the timer thread. *)

From S2P Require Import Prelude CString AtReader CDouble Nmea NmeaCoord GpsDev GpsState GpsSpec GpsFix.

Open Scope Z_scope.

(** ** A printer of groups *)

(** A satellite: its number, elevation and azimuth in degrees, and the strength
    of its signal, which is left out for a satellite that is not tracked. *)
Record Sat := { sa_prn : Z; sa_elevation : Z; sa_azimuth : Z; sa_snr : option Z }.

Definition sat_ok (t : Sat) : Prop :=
  0 ≤ sa_prn t ≤ 99 ∧ 0 ≤ sa_elevation t ≤ 90 ∧ 0 ≤ sa_azimuth t ≤ 359 ∧
  ∀ n, sa_snr t = Some n → 0 ≤ n ≤ 99.

Definition snr_field (t : Sat) : list ascii := match sa_snr t with Some n => pad2 n | None => [] end.

Definition sat_fields (t : Sat) : list (list ascii) :=
  [pad2 (sa_prn t); pad2 (sa_elevation t); pad3 (sa_azimuth t); snr_field t].

Definition all_sat_fields (sats : list Sat) : list (list ascii) := concat (sat_fields <$> sats).

(** Sentence [k] of a group of [sentences] about [total] satellites. *)
Definition gsv_fields (sentences k total : Z) (sats : list Sat) : list (list ascii) :=
  [chars "GPGSV"; [dig sentences]; [dig k]; pad2 total] ++ all_sat_fields sats.

(** The sentences from [k] on, four satellites in each; [cs k] is the checksum
    of sentence [k]. *)
Fixpoint gsv_group (n : nat) (sentences k total : Z) (sats : list Sat) (cs : Z → list ascii) : list ascii :=
  match n with
  | O => []
  | Datatypes.S n' =>
      (nmea_line (gsv_fields sentences k total (take 4 sats)) (cs k) ++ [LF]) ++
      gsv_group n' sentences (k + 1) total (drop 4 sats) cs
  end.

Definition sentence_count (sats : list Sat) : nat := ((length sats + 3) / 4)%nat.

Definition gsv_bytes (sats : list Sat) (cs : Z → list ascii) : list ascii :=
  gsv_group (sentence_count sats) (Z.of_nat (sentence_count sats)) 1 (Z.of_nat (length sats)) sats cs.

Definition checksums_ok (cs : Z → list ascii) : Prop := ∀ k, length (cs k) = 2%nat ∧ no_LF (cs k).

(** ** Characters of the fields *)

Definition plain (c : ascii) : Prop := not_comma c = true ∧ Ascii.eqb c LF = false.

Lemma dig_plain n : 0 ≤ n ≤ 9 → plain (dig n).
Proof.
  intros Hn. assert (Hc : n ∈ [0; 1; 2; 3; 4; 5; 6; 7; 8; 9]) by (rewrite !elem_of_cons; lia).
  by cases_in Hc; subst n.
Qed.

Ltac digits := Z.to_euclidean_division_equations; lia.

Lemma pad2_plain n : 0 ≤ n ≤ 99 → Forall plain (pad2 n).
Proof. intros Hn. unfold pad2. repeat constructor; apply dig_plain; digits. Qed.

Lemma pad3_plain n : 0 ≤ n ≤ 999 → Forall plain (pad3 n).
Proof. intros Hn. unfold pad3. repeat constructor; apply dig_plain; digits. Qed.

Lemma sat_fields_plain t : sat_ok t → Forall (Forall plain) (sat_fields t).
Proof.
  intros (Hp & He & Ha & Hs). unfold sat_fields.
  apply Forall_cons_2; [by apply pad2_plain|]. apply Forall_cons_2; [apply pad2_plain; lia|].
  apply Forall_cons_2; [apply pad3_plain; lia|]. apply Forall_cons_2; [|done].
  unfold snr_field. destruct (sa_snr t) as [n|]; [|constructor]. by apply pad2_plain, Hs.
Qed.

Lemma plain_fields f : Forall plain f → no_comma f ∧ no_LF f.
Proof. intros Hf. split; (eapply Forall_impl; [exact Hf|]); by intros c []. Qed.

Lemma gsv_fields_plain sentences k total sats :
  0 ≤ sentences ≤ 9 → 0 ≤ k ≤ 9 → 0 ≤ total ≤ 99 → Forall sat_ok sats →
  Forall (Forall plain) (gsv_fields sentences k total sats).
Proof.
  intros Hs Hk Ht Hok. unfold gsv_fields. apply Forall_app. split.
  - apply Forall_cons_2; [by repeat constructor|].
    apply Forall_cons_2; [constructor; [by apply dig_plain|done]|].
    apply Forall_cons_2; [constructor; [by apply dig_plain|done]|].
    apply Forall_cons_2; [by apply pad2_plain|done].
  - apply Forall_concat, Forall_fmap. eapply Forall_impl; [exact Hok|]. apply sat_fields_plain.
Qed.

Lemma join_no_LF fs : Forall (Forall plain) fs → no_LF (join_commas fs).
Proof.
  unfold no_LF. induction 1 as [|f fs Hf Hfs IH]; [constructor|]. apply plain_fields in Hf as [_ Hf].
  destruct fs as [|g fs]; [exact Hf|]. apply Forall_app. split; [exact Hf|]. by constructor.
Qed.

Lemma nmea_line_no_LF fs cs : Forall (Forall plain) fs → no_LF cs → no_LF (nmea_line fs cs).
Proof.
  intros Hfs Hcs. constructor; [done|]. apply Forall_app. split; [by apply join_no_LF|].
  constructor; [done|]. apply Forall_app. split; [done|by constructor].
Qed.

(** ** Lengths *)

Lemma join_length fs : length (join_commas fs) = (length (concat fs) + (length fs - 1))%nat.
Proof.
  induction fs as [|f fs IH]; [done|]. destruct fs as [|g fs]; [cbn; rewrite app_nil_r; lia|].
  change (join_commas (f :: g :: fs)) with (f ++ ","%char :: join_commas (g :: fs)).
  change (concat (f :: g :: fs)) with (f ++ concat (g :: fs)).
  rewrite !length_app. cbn [length] in *. rewrite IH. lia.
Qed.

Lemma all_sat_fields_cons t sats : all_sat_fields (t :: sats) = sat_fields t ++ all_sat_fields sats.
Proof. done. Qed.

Lemma all_sat_fields_lookup sats m t j :
  sats !! m = Some t → (j < 4)%nat →
  default [] (all_sat_fields sats !! (m * 4 + j)%nat) = default [] (sat_fields t !! j).
Proof.
  intros Hm Hj. revert m Hm. induction sats as [|t' sats IH]; intros m Hm; [done|].
  rewrite all_sat_fields_cons. destruct m as [|m]; cbn [lookup list_lookup] in Hm.
  - injection Hm as ->. by rewrite lookup_app_l by (simpl; lia).
  - rewrite lookup_app_r by (simpl; lia). rewrite <-(IH m Hm). do 2 f_equal. simpl length. lia.
Qed.

Lemma sat_fields_length t : (length (concat (sat_fields t)) ≤ 9)%nat.
Proof. unfold sat_fields, snr_field. destruct (sa_snr t); simpl; lia. Qed.

Lemma sats_length sats :
  length (all_sat_fields sats) = (4 * length sats)%nat ∧
  (length (concat (all_sat_fields sats)) ≤ 9 * length sats)%nat.
Proof.
  induction sats as [|t sats [IH1 IH2]]; [by split|]. pose proof (sat_fields_length t).
  rewrite all_sat_fields_cons, concat_app, !length_app. change (length (sat_fields t)) with 4%nat.
  cbn [length]. lia.
Qed.

Lemma gsv_line_length sentences k total sats cs :
  (length sats ≤ 4)%nat → length cs = 2%nat →
  (9 ≤ length (nmea_line (gsv_fields sentences k total sats) cs) < NMEA_MAX_SIZE)%nat.
Proof.
  intros Hn Hc. destruct (sats_length sats) as [E1 E2]. unfold nmea_line, gsv_fields.
  cbn [length]. rewrite length_app. cbn [length].
  rewrite length_app, Hc, join_length, concat_app, !length_app, E1.
  unfold NMEA_MAX_SIZE. change (length (concat _)) with 9%nat at 1 3. cbn [length]. lia.
Qed.

(** ** Numbers *)

Lemma in_table (P : Z → Prop) `{∀ z, Decision (P z)} (n : nat) z :
  forallb (λ k, bool_decide (P (Z.of_nat k))) (seq 0 n) = true → 0 ≤ z < Z.of_nat n → P z.
Proof.
  rewrite forallb_forall. intros Ht Hz. rewrite <-(Z2Nat.id z) by lia.
  apply (bool_decide_eq_true_1 _), Ht, in_seq. lia.
Qed.

Lemma str2float_pad2 n : 0 ≤ n ≤ 99 → str2float (pad2 n) = double_of_Z n.
Proof.
  intros Hn. apply (in_table (λ n, str2float (pad2 n) = double_of_Z n) 100); [by vm_compute|lia].
Qed.

Lemma str2float_pad3 n : 0 ≤ n ≤ 359 → str2float (pad3 n) = double_of_Z n.
Proof.
  intros Hn. apply (in_table (λ n, str2float (pad3 n) = double_of_Z n) 360); [by vm_compute|lia].
Qed.

Section group.
Context `{GpsHeader}.

(** What is stored for a satellite: -1 for the strength that was left out. *)
Definition sat_info (t : Sat) : GpsSvInfo :=
  {| sv_prn := sa_prn t; sv_elevation := gps_float (double_of_Z (sa_elevation t));
     sv_azimuth := gps_float (double_of_Z (sa_azimuth t));
     sv_snr := gps_float (double_of_Z (default (-1) (sa_snr t))) |}.

Lemma snr_value t : sat_ok t → str2float (snr_field t) = double_of_Z (default (-1) (sa_snr t)).
Proof.
  intros (_ & _ & _ & Hs). unfold snr_field. destruct (sa_snr t) as [n|]; [|by vm_compute].
  by apply str2float_pad2, Hs.
Qed.

(** ** The tokens of a sentence *)

(** The tokens have the fields, an empty field at the end included, which the
    tokenizer drops and [nmea_tokenizer_get] returns as the empty string. *)
Lemma fields_join_get fs i :
  Forall no_comma fs → default [] (fields (join_commas fs) !! i) = default [] (fs !! i).
Proof.
  revert i. induction fs as [|f fs IH]; intros i Hf; [done|]. apply Forall_cons in Hf as [Hf Hfs].
  destruct fs as [|g fs].
  - destruct f as [|c f]; [by destruct i as [|[]]|].
    rewrite fields_join; [done|by constructor|by intros x [= <-]].
  - change (join_commas (f :: g :: fs)) with (f ++ ","%char :: join_commas (g :: fs)).
    rewrite fields_cons by (by destruct f).
    rewrite take_while_comma, drop_while_comma by done. simpl drop. rewrite drop_0.
    destruct i as [|i]; [done|]. cbn [lookup list_lookup]. by apply IH.
Qed.

Lemma fields_join_length fs :
  Forall no_comma fs → (length (fields (join_commas fs)) ≤ length fs)%nat.
Proof.
  induction fs as [|f fs IH]; intros Hf; [done|]. apply Forall_cons in Hf as [Hf Hfs].
  destruct fs as [|g fs].
  - destruct f as [|c f]; [simpl; lia|]. rewrite fields_join; [done|by constructor|by intros x [= <-]].
  - change (join_commas (f :: g :: fs)) with (f ++ ","%char :: join_commas (g :: fs)).
    rewrite fields_cons by (by destruct f).
    rewrite drop_while_comma by done. simpl drop. rewrite drop_0. exact (le_n_S _ _ (IH Hfs)).
Qed.

Lemma hold_get fs cs s i :
  length cs = 2%nat → Forall no_comma fs → (length fs ≤ MAX_NMEA_TOKENS)%nat →
  let r := gs_reader (hold (nmea_line fs cs ++ [LF]) (Datatypes.S (length (nmea_line fs cs))) false s) in
  tok_bytes (nr_in r) (nmea_tokenizer_get (nmea_tokenizer_init (nr_in r) (nr_pos r)) i) = default [] (fs !! i).
Proof.
  intros Hc Hf Hn r. rewrite get_field. unfold r. cbn [gs_reader hold with_reader nr_in nr_pos set_line].
  set (line := nmea_line fs cs) in *.
  assert (E : Datatypes.S (length line) = length (line ++ [LF])) by (rewrite length_app; simpl; lia).
  rewrite tokens_fields by (rewrite E, (length_app (line ++ [LF])); lia).
  rewrite E, take_app_length. unfold line. rewrite sentence_body_line by done.
  rewrite <-(fields_join_get fs i Hf). rewrite take_ge; [done|].
  etransitivity; [by apply fields_join_length|exact Hn].
Qed.

(** ** The loop *)

(** The tokens from the [i]th satellite on are those of the satellites. *)
Definition holds_sats (b : carray) (tz : list Token) (i : nat) (sats : list Sat) : Prop :=
  ∀ m t j, sats !! m = Some t → (j < 4)%nat →
    tok_bytes b (nmea_tokenizer_get tz ((i + m) * 4 + (4 + j))) = default [] (sat_fields t !! j).

Lemma gsv_loop_sats b tz total i n st sats :
  holds_sats b tz i sats → Forall sat_ok sats →
  Z.of_nat (length sats) = Z.min (total - num_svs st) (Z.of_nat n) →
  0 ≤ num_svs st → num_svs st + Z.of_nat (length sats) ≤ Z.of_nat (length (sv_list st)) →
  gsv_loop b tz total i n (num_svs st) st =
  Some {| num_svs := num_svs st + Z.of_nat (length sats);
          sv_list := list_inserts (Z.to_nat (num_svs st)) (sat_info <$> sats) (sv_list st);
          used_in_fix_mask := used_in_fix_mask st |}.
Proof.
  revert i n st. induction sats as [|t sats IH]; intros i n st Ht Hok Hlen H0 Hfit.
  { cbn [length] in *. destruct st as [k l mask]. cbn [num_svs sv_list used_in_fix_mask] in *.
    rewrite Z.add_0_r. cbn [fmap list_fmap list_inserts].
    destruct n as [|n]; [done|]. cbn [gsv_loop num_svs]. by rewrite (proj2 (Z.ltb_ge _ _)) by lia. }
  cbn [length] in *. destruct n as [|n]; [lia|]. cbn [gsv_loop].
  rewrite (proj2 (Z.ltb_lt _ _)) by lia.
  assert (Hg : ∀ j, (j < 4)%nat → tok_bytes b (nmea_tokenizer_get tz (i * 4 + (4 + j))) = default [] (sat_fields t !! j)).
  { intros j Hj. rewrite <-(Ht 0%nat t j eq_refl Hj), Nat.add_0_r. done. }
  pose proof (Hg 0%nat ltac:(lia)) as G0. pose proof (Hg 1%nat ltac:(lia)) as G1.
  pose proof (Hg 2%nat ltac:(lia)) as G2. pose proof (Hg 3%nat ltac:(lia)) as G3.
  cbn in G0, G1, G2, G3. rewrite G0, G1, G2, G3.
  apply Forall_cons in Hok as [Hok1 Hok]. pose proof Hok1 as (Hp & He & Ha & _).
  rewrite str2int_pad2 by done. cbn [mbind option_bind].
  rewrite (proj2 (Z.leb_le _ _)), (proj2 (Z.ltb_lt _ _)) by lia. cbn [andb].
  rewrite str2float_pad2, str2float_pad3, snr_value by (done || lia). fold (sat_info t).
  set (st1 := {| num_svs := _; sv_list := _; used_in_fix_mask := _ |}).
  change (num_svs st + 1) with (num_svs st1). rewrite (IH (Datatypes.S i) n st1); [|..].
  - unfold st1. cbn [num_svs sv_list used_in_fix_mask fmap list_fmap list_inserts].
    do 2 f_equal; [lia|]. rewrite Z2Nat.inj_add, Nat.add_1_r by lia.
    symmetry. apply list_insert_inserts_lt. lia.
  - intros m t' j Hm Hj. rewrite <-(Ht (Datatypes.S m) t' j Hm Hj). do 2 f_equal. lia.
  - done.
  - unfold st1. cbn [num_svs]. lia.
  - unfold st1. cbn [num_svs]. lia.
  - unfold st1. cbn [num_svs sv_list]. rewrite length_insert. lia.
Qed.

(** ** A sentence *)

Lemma str2int_dig n : 0 ≤ n ≤ 9 → str2int [dig n] = Some n.
Proof. intros Hn. unfold str2int. rewrite str2int_loop_dig by lia. cbn [str2int_loop]. f_equal; lia. Qed.

(** The satellites [sats] in the first entries of the list. *)
Definition in_view (sats : list Sat) (st : GpsSvStatus) : GpsSvStatus :=
  {| num_svs := Z.of_nat (length sats); sv_list := list_inserts 0 (sat_info <$> sats) (sv_list st);
     used_in_fix_mask := used_in_fix_mask st |}.

(** What sentence [k] of [sentences] does to the flag of a complete list. *)
Definition gsv_changed (sentences k changed : Z) : Z :=
  if k =? sentences then 1 else if k =? 1 then 0 else changed.

Section sentence.
Context (r : NmeaReader) (tz : list Token) (sentences k : Z) (prev sats : list Sat) (old : GpsSvStatus).

(** The tokens are those of sentence [k], whose satellites are the first ones
    of [sats], after [prev] in the sentences before. *)
Hypothesis Htok : ∀ i, tok_bytes (nr_in r) (nmea_tokenizer_get tz i) =
  default [] (gsv_fields sentences k (Z.of_nat (length prev + length sats)) (take 4 sats) !! i).
Hypothesis Hk : 1 ≤ k ≤ sentences ∧ sentences ≤ 9.
Hypothesis Hok : Forall sat_ok sats.
Hypothesis Hn : (0 < length sats)%nat ∧ (length prev + length sats ≤ 99)%nat.
Hypothesis Hfit : (length prev + length sats ≤ length (sv_list old))%nat.
Hypothesis Hprev : if k =? 1 then prev = [] ∧ sv_list (sv_status r) = sv_list old ∧
                                  used_in_fix_mask (sv_status r) = used_in_fix_mask old
                   else sv_status r = in_view prev old.

Lemma gsv_tokens_hold : holds_sats (nr_in r) tz 0 (take 4 sats).
Proof using All.
  intros m t j Hm Hj. rewrite Htok. unfold gsv_fields.
  replace ((0 + m) * 4 + (4 + j))%nat with (4 + (m * 4 + j))%nat by lia.
  by apply all_sat_fields_lookup.
Qed.

Lemma parse_gsv :
  parse_GSV r tz = Some (set_sv (in_view (prev ++ take 4 sats) old)
                           (gsv_changed sentences k (sv_status_changed r)) r).
Proof using All.
  unfold parse_GSV. cbv zeta.
  pose proof (Htok 1%nat) as T1. pose proof (Htok 2%nat) as T2. pose proof (Htok 3%nat) as T3.
  cbn in T1, T2, T3. rewrite T1, T2, T3, str2int_pad2, !str2int_dig by lia. cbn [mbind option_bind].
  rewrite (proj2 (Z.ltb_lt _ _)) by lia. set (total := Z.of_nat _).
  set (r1 := if k =? 1 then _ else r).
  assert (E : num_svs (sv_status r1) = Z.of_nat (length prev) ∧
              list_inserts (length prev) (sat_info <$> take 4 sats) (sv_list (sv_status r1)) =
                list_inserts 0 (sat_info <$> prev ++ take 4 sats) (sv_list old) ∧
              length (sv_list (sv_status r1)) = length (sv_list old) ∧
              used_in_fix_mask (sv_status r1) = used_in_fix_mask old ∧
              sv_status_changed r1 = if k =? 1 then 0 else sv_status_changed r).
  { unfold r1. destruct (k =? 1).
    - destruct Hprev as (-> & -> & ->). by split_and!.
    - rewrite Hprev. split_and!; [done| | |done|done].
      + by rewrite fmap_app, list_inserts_app_l, length_fmap, Nat.add_0_r.
      + cbn [in_view sv_list]. apply length_inserts. }
  destruct E as (En & El & Elen & Em & Ec).
  rewrite (gsv_loop_sats (nr_in r) tz total 0 4 (sv_status r1) (take 4 sats));
    [|exact gsv_tokens_hold|by apply Forall_take|rewrite ?length_take, ?En, ?Elen; unfold total; lia..].
  cbn [mbind option_bind]. rewrite En, Nat2Z.id, El, Em, Ec. f_equal.
  assert (Er : ∀ st c, set_sv st c r1 = set_sv st c r) by (unfold r1; by destruct (k =? 1)).
  rewrite Er. f_equal. unfold in_view. f_equal. rewrite length_app. lia.
Qed.
End sentence.

(** ** A group *)

(** No position waits to be reported at the next sentence. *)
Definition quiet (s : GpsState) : Prop :=
  (gs_first_fix s =? 0) && (gs_init s =? STATE_INIT) &&
  negb (Z.land (fl_flags (nr_fix (gs_reader s))) GPS_LOCATION_HAS_LAT_LONG =? 0) = false.

(** The state with another line buffer, satellite status and flag. *)
Definition with_sats (inb : carray) (st : GpsSvStatus) (changed : Z) (s : GpsState) : GpsState :=
  with_reader (set_line 0 false inb (set_sv st changed (gs_reader s))) s.

Lemma parse_branch_gsv r tz : parse_branch r tz (chars "GPGSV") = parse_GSV r tz.
Proof. done. Qed.

Lemma feed_gsv s sentences k prev sats old cs :
  at_start (gs_reader s) → quiet s → checksums_ok cs →
  1 ≤ k ≤ sentences ∧ sentences ≤ 9 → Forall sat_ok sats →
  (0 < length sats)%nat ∧ (length prev + length sats ≤ 99)%nat →
  (length prev + length sats ≤ length (sv_list old))%nat →
  (let st := sv_status (gs_reader s) in
   if k =? 1 then prev = [] ∧ sv_list st = sv_list old ∧ used_in_fix_mask st = used_in_fix_mask old
   else st = in_view prev old) →
  ∃ inb, length inb = Datatypes.S NMEA_MAX_SIZE ∧
    feed (nmea_line (gsv_fields sentences k (Z.of_nat (length prev + length sats)) (take 4 sats)) (cs k) ++ [LF]) s =
    Some (with_sats inb (in_view (prev ++ take 4 sats) old)
            (gsv_changed sentences k (sv_status_changed (gs_reader s))) s, []).
Proof.
  intros Hs Hq Hcs Hk Hok Hn Hfit Hprev. set (total := Z.of_nat _).
  set (fs := gsv_fields sentences k total (take 4 sats)). destruct (Hcs k) as [Hc1 Hc2].
  assert (Hp : Forall (Forall plain) fs).
  { apply gsv_fields_plain; [lia..|]. by apply Forall_take. }
  assert (Hnc : Forall no_comma fs) by (eapply Forall_impl; [exact Hp|]; intros f Hf; by apply plain_fields).
  pose proof (gsv_line_length sentences k total (take 4 sats) (cs k) ltac:(rewrite length_take; lia) Hc1) as Hlen.
  fold fs in Hlen. set (line := nmea_line fs (cs k)) in *.
  rewrite feed_line_effect by (done || by apply nmea_line_no_LF).
  unfold line_effect. rewrite (proj2 (Nat.ltb_lt _ _)) by lia.
  set (s1 := hold (line ++ [LF]) (Datatypes.S (length line)) false s). set (r := gs_reader s1).
  assert (Hget : ∀ i, tok_bytes (nr_in r) (nmea_tokenizer_get (nmea_tokenizer_init (nr_in r) (nr_pos r)) i) = default [] (fs !! i)).
  { intros i. apply hold_get; [done|done|]. unfold fs, gsv_fields. rewrite length_app.
    rewrite (proj1 (sats_length _)), length_take. unfold MAX_NMEA_TOKENS. cbn [length]. lia. }
  exists (nr_in r). split; [apply hold_in_length; [done|]; rewrite length_app; cbn [length]; lia|].
  unfold nmea_reader_parse. cbv zeta. fold r. rewrite (proj2 (Nat.ltb_ge _ _)) by (change (nr_pos r) with (Datatypes.S (length line)); lia).
  rewrite (Hget 0%nat). change (default [] (fs !! 0%nat)) with (chars "GPGSV"). rewrite parse_branch_gsv.
  change (length (chars "GPGSV") <? 5)%nat with false. cbv iota.
  rewrite (parse_gsv r _ sentences k prev sats old Hget Hk Hok Hn Hfit Hprev). cbn [mbind option_bind].
  unfold report_first_fix. cbn [gs_first_fix gs_init gs_reader with_reader nr_fix set_sv].
  unfold quiet in Hq. change (nr_fix r) with (nr_fix (gs_reader s)).
  change (gs_first_fix s1) with (gs_first_fix s). change (gs_init s1) with (gs_init s). rewrite Hq. done.
Qed.

(** The timer reports the satellites after the fix. *)
Lemma timer_reports_sv s st inb :
  sv_status_cb (gs_callbacks s) = true →
  last (timer_section (with_sats inb st 1 s)).2 = Some (EvSvStatus st).
Proof.
  intros Hcb. unfold timer_section. cbv zeta.
  assert (Hs : ∀ s' ev, sv_status (gs_reader s') = st → sv_status_changed (gs_reader s') = 1 →
    sv_status_cb (gs_callbacks s') = true →
    last (if negb (sv_status_changed (gs_reader s') =? 0) && sv_status_cb (gs_callbacks s')
          then (with_reader (set_sv (sv_status (gs_reader s')) 0 (gs_reader s')) s',
                ev ++ [EvSvStatus (sv_status (gs_reader s'))])
          else (s', ev)).2 = Some (EvSvStatus st)).
  { intros s' ev -> -> ->. cbn [Z.eqb negb andb snd]. by rewrite last_snoc. }
  destruct (negb (fl_flags _ =? 0)); [|by apply Hs].
  change (location_cb _) with (location_cb (gs_callbacks s)).
  change (gs_fix_freq (with_sats inb st 1 s)) with (gs_fix_freq s).
  change (gs_fix_freq (with_first_fix _ _)) with (gs_fix_freq s).
  destruct (location_cb (gs_callbacks s)); cbn [gs_fix_freq with_first_fix with_reader with_sats];
    destruct (gs_fix_freq s =? 0); by apply Hs.
Qed.

Lemma feed_group n sentences k prev sats old cs s :
  at_start (gs_reader s) → quiet s → checksums_ok cs →
  1 ≤ k → k + Z.of_nat n = sentences + 1 → sentences ≤ 9 → n = sentence_count sats → Forall sat_ok sats →
  (0 < length sats)%nat → (length prev + length sats ≤ 99)%nat →
  (length prev + length sats ≤ length (sv_list old))%nat →
  (let st := sv_status (gs_reader s) in
   if k =? 1 then prev = [] ∧ sv_list st = sv_list old ∧ used_in_fix_mask st = used_in_fix_mask old
   else st = in_view prev old) →
  ∃ inb, length inb = Datatypes.S NMEA_MAX_SIZE ∧
    feed (gsv_group n sentences k (Z.of_nat (length prev + length sats)) sats cs) s =
    Some (with_sats inb (in_view (prev ++ sats) old) 1 s, []).
Proof.
  revert k prev sats s. induction n as [|n IH]; intros k prev sats s Hs Hq Hcs Hk Hkn Hse En Hok H0 H99 Hfit Hprev;
    [unfold sentence_count in En; pose proof (Nat.div_str_pos (length sats + 3) 4); lia|].
  cbn [gsv_group]. rewrite feed_app.
  destruct (feed_gsv s sentences k prev sats old cs Hs Hq Hcs) as (inb & Hinb & ->); [lia|done|lia|lia|done|].
  cbn [mbind option_bind]. set (s1 := with_sats _ _ _ s).
  assert (Ecount : length sats = (4 + length (drop 4 sats))%nat ∧ (0 < length (drop 4 sats))%nat ∨ n = 0%nat ∧ drop 4 sats = []).
  { unfold sentence_count in En. rewrite length_drop.
    destruct (Nat.le_gt_cases (length sats) 4); [right|left; lia].
    split; [|by apply drop_ge]. assert ((length sats + 3) / 4 < 2)%nat by (apply Nat.Div0.div_lt_upper_bound; lia). lia. }
  destruct Ecount as [[El H1]|[-> Ed]].
  - assert (Ep : length (prev ++ take 4 sats) = (length prev + 4)%nat) by (rewrite length_app, length_take; lia).
    destruct (IH (k + 1) (prev ++ take 4 sats) (drop 4 sats) s1) as (inb2 & Hinb2 & E2);
      [by constructor|done|done|lia|lia|done| |by apply Forall_drop|done|lia|lia| |].
    + unfold sentence_count in *. rewrite El in En. replace (4 + length (drop 4 sats) + 3)%nat with (1 * 4 + (length (drop 4 sats) + 3))%nat in En by lia.
      rewrite Nat.div_add_l in En by lia. lia.
    + cbv zeta. by rewrite (proj2 (Z.eqb_neq _ _)) by lia.
    + exists inb2. split; [done|]. replace (length prev + length sats)%nat with (length (prev ++ take 4 sats) + length (drop 4 sats))%nat by lia.
      rewrite E2. cbn [mbind option_bind]. by rewrite <-app_assoc, take_drop.
  - exists inb. split; [done|]. cbn [gsv_group feed mbind option_bind]. unfold s1, gsv_changed.
    rewrite (proj2 (Z.eqb_eq _ _)) by lia. by rewrite <-(app_nil_r (take 4 sats)), <-Ed, take_drop.
Qed.

End group.

(** ** Examples *)

#[local] Existing Instance android_gps.

(** Five satellites in two sentences; the fourth and the fifth are not tracked. *)
Definition sample_sats : list Sat :=
  [{| sa_prn := 4; sa_elevation := 77; sa_azimuth := 52; sa_snr := Some 41 |};
   {| sa_prn := 9; sa_elevation := 5; sa_azimuth := 300; sa_snr := Some 21 |};
   {| sa_prn := 17; sa_elevation := 33; sa_azimuth := 9; sa_snr := Some 0 |};
   {| sa_prn := 22; sa_elevation := 0; sa_azimuth := 180; sa_snr := None |};
   {| sa_prn := 31; sa_elevation := 12; sa_azimuth := 359; sa_snr := None |}].

Example sample_bytes :
  gsv_bytes sample_sats (λ k, if k =? 1 then chars "5D" else chars "48") =
  chars "$GPGSV,2,1,05,04,77,052,41,09,05,300,21,17,33,009,00,22,00,180,*5D" ++ [CR; LF] ++
  chars "$GPGSV,2,2,05,31,12,359,*48" ++ [CR; LF].
Proof. by vm_compute. Qed.

Lemma sample_sats_ok : Forall sat_ok sample_sats.
Proof.
  unfold sample_sats.
  repeat (apply Forall_cons_2; [unfold sat_ok; cbn; split_and!; try lia; intros n Hn; simplify_eq; lia|]).
  apply Forall_nil_2.
Qed.

